(* ===== verification/_CoqProject ===== *)
-Q . S2P
Prelude.v
Types.v
Circular.v
Ring.v
Auditor.v
RingConc.v
Tasks.v
Scheduler.v
Interrupts.v
Switch.v
Security.v
MemUtils.v
BlockAlloc.v
Frames.v
DomainGraph.v
Crc.v
Nng.v
Ipc.v
Pool.v
Channels.v
TxnLog.v
Journal.v
Workflow.v
Checkpoints.v
Crypto.v
Update.v
Mmu.v
PrioQueue.v
Syscall.v
SelfTests.v
StorageTests.v
Lifecycle.v
Boot.v
Bringup.v
MainLoop.v
UserLib.v
Log.v
Console.v
Stack.v
ArmTraps.v
X86Traps.v
X86Boot.v
RiscvTraps.v
RiscvBoot.v
