(* ===== verification/Prelude.v ===== *)
(** * LughOS kernel: verification library

    LughOS is a capability microkernel in C for ARM (versatilepb), x86 and
    RISC-V.  This library models its logic as executable Rocq definitions,
    translated function by function, and proves what makes it correct.

    ** The program

    The reset code installs vectors and stacks and calls [kmain]
    (kernel/main.c), which sets up interrupts, memory, tasks, the domain
    matrix, channels and telemetry, runs a series of self tests, seals the
    matrix and starts one user program, which comes back through
    the trap stubs and [syscall_handler].  Tasks carry a capability mask and a domain; channels
    check both on every call and report each refusal to the auditor, which
    streams fixed-size records over a serial line to a host script.  A
    durable workflow engine runs multi-step operations with undo, writes
    each boundary to a transaction log and to the auditor, and carries the
    update pipeline, which uses checkpoints of registered buffers.

    ** Files

    Types: include/lugh.h and capabilities.h.  Circular: arrays read modulo
    their length, shared by the three queues below.

    ArmTraps, X86Traps, X86Boot, RiscvTraps, RiscvBoot, Stack: the assembly of arch/arm,
    arch/x86 and arch/riscv with the user-side stubs: reset code, vectors,
    interrupt, exception and system call paths, entry to user mode.  A stub is
    a list of instructions, one constructor per form the source uses, run by
    a machine with the registers, modes and exception entry documented for
    that processor; C code called from a stub is a parameter that keeps the
    calling convention ([c_call]).

    Tasks, Scheduler, Switch, Interrupts, Lifecycle: kernel/sched/,
    services/scheduler/round_robin.c, arch/x86 and arch/arm.  [task_state] is
    tasks[], task_count, next_task_id and current_task; [sched_state] adds
    the cursor; [kernel] adds registers, stacks and the interrupt controller,
    seen through the class [SplOps] with its laws [SplLaws], which the PIC
    and the VIC both implement.  Lifecycle runs main.c's three threads on it.

    Security, MemUtils, BlockAlloc, Frames, Mmu: kernel/security.c and
    kernel/mm/.  Every string and memory helper consults the region table;
    a byte memory is a finite map.

    DomainGraph, Crc, Nng, Ipc, Pool, Channels: kernel/security/domain_graph.c,
    kernel/nngcompat.c, kernel/ipc/ipc.c.  A [world] is everything an IPC
    call reads or writes, memory included: a message is an object in the
    model and bytes of its heap blocks in memory.  Pool has the invariant that keeps those
    objects apart ([pool_ok]) and shows which sends return.  Channels has the
    step relation [world_step], where memory may change at any time, and
    the invariant [channels_wf] of every world reachable from boot.

    Ring, Auditor, RingConc: kernel/ring_buffer.c,
    services/auditor/exporter.c and the decoder scripts/read_telemetry.py, so
    that both ends of the wire meet in one theorem.  Ring has the calls as
    atomic operations; RingConc splits [ring_push] and [auditor_tick] into
    single memory accesses of two threads, interleaved by a list of turns.

    TxnLog, Journal, Workflow, Checkpoints, Update: kernel/fs/storage.c and
    services/storage, workflow, update.  [HasJournal] is what the engine and
    the store see of a larger system; the engine is proved for arbitrary
    step callbacks on any state with [JournalLaws], and Update instantiates
    it with the five steps of update.c over any storage backend.

    Crypto, Log, PrioQueue: kernel/crypto.c, kernel/log.c,
    services/scheduler/utils.c.

    Console: the serial and VGA back ends of log.c, exporter.c,
    drivers/console.c and arch/riscv, with kernel/assert.c and the early debug
    output.  The class [Transmitter] is what the drivers need of a UART; the
    16550 and the PL011 are its instances, with [TransmitterLaws].

    Syscall, UserLib: kernel/syscall/syscall.c and the user program over its
    library.  [ksys] is a world with the scheduler's cursor and the console;
    a handler loads and stores in the world's memory.

    Bringup, SelfTests, StorageTests, Lifecycle, Boot, MainLoop: [kmain] in
    its order: hardware and subsystems, the self tests, the start of the user
    task, then the user program (kernel/user.c) or the idle loop.

    ** How the code is rendered

    A machine integer is a [Z] with its wrap-around written out ([u8], [u16],
    [u32], [u64], [s32]).  A function returns its C result and the state
    after it; [None] is undefined behaviour or a halt: an access outside an
    object, a signed overflow, a failed assertion, an abort.  Pointers to
    table entries are slots, NULL is [None]; pointers to bytes are 32-bit
    addresses.  Log lines are not part of a function's result, except in Log.
    [None] is also the result where the model stops short of the machine: a
    system call that stores on the socket layer's own heap blocks, or that
    reads a device register through a user pointer.  A variadic argument of
    the wrong type does not stop the log; the class [ArgMem] says what is
    found there.
    Link addresses, uninitialised bytes, tick counts and device reads are
    arguments, a status register as a function of the number of reads so far.

    ** What the theorems show

    Authority: capabilities only narrow along the parent chain, no channel
    grants more than its owner and the owner's ancestors hold, pipes join
    only domains the policy admits and a message is queued only along a pipe or
    as the answer to a request, each refusal is reported; this survives
    every run of system calls, those with pointers into user memory return, and
    the user task stays confined ([capabilities_only_narrow], [channel_authority],
    [pipes_respect_domains], [calls_are_mediated], [syscalls_keep_policy],
    [user_stays_unprivileged]).  Memory: the MMU map and the access policy
    are exact, the allocators refine a set of live blocks.  Scheduling: round
    robin elects the next runnable slot in cyclic order and starves nobody;
    a switch away and back restores the machine; exit is final.  Messages:
    what is sent is received, queues are FIFOs, the checksum is CRC-32.
    Durability: a workflow commits or undoes exactly the steps it ran, every
    boundary is recorded, recovery settles what was left, a checkpoint
    restores what it saved, an update halts on a NULL pointer or exhausted ids and
    otherwise its status tells what happened.  The log prints numbers and
    texts as their format says ([log_message_renders]).
    Telemetry: the idle loop drains the ring in order ([idle_delivers]),
    the record bytes cross either UART unchanged and the host reads them back
    ([telemetry_crosses_the_wire]).

    Concurrency: under any interleaving of the accesses of [ring_push] and
    [auditor_tick] the ring is a linearizable bounded queue and neither side
    waits ([ring_linearizable], [ring_wait_free]); the overflow counter alone
    loses updates ([overflow_count_races]).

    Entry and exit: the reset code reaches [kmain] with stacks and vectors in
    place ([boot_reaches_kmain]); an interrupt leaves the interrupted program
    as it was ([irq_transparent], [x86_irq_transparent]); a system call
    carries its arguments to the handler and, on ARM, its result back
    ([syscall_round_trip]); entering user mode gives up privilege
    ([enter_user_mode_drops]); every exception stub builds one frame layout
    ([exception_frame]).

    Start-up: the x86 and RISC-V boot code calls [kmain] on its own stack
    ([x86_start_calls_kmain], [riscv_bss_loop]); no prefix of the
    initialisation lets an interrupt in before its handler, tables and map are
    ready ([x86_bringup_order], [arm_bringup_order]); the subsystems start in the states the other
    theorems assume ([kmain_establishes]).  The self tests of main.c pass on
    the models, [kmain] ends in the confined user task
    ([kmain_ends_in_user]), and its program prints what it should, is denied
    what it may not do, and exits ([hello_end_to_end]).

    Other theorems pin down where the code falls short of its intent: long
    messages overrun a 64-byte block, the receiver's checksum is stale, an
    answer can reach a reused socket in another domain, the
    user pointer test admits kernel memory, a self test's edge is sealed into
    the production matrix, widths in log formats print as text, a refused
    election leaves the task table wrong; x86 has no task state segment to
    take a trap from ring 3 and its system call stub loses the result; the
    RISC-V user program runs in supervisor mode, a fault there repeats for
    ever, and its boot loop never ends on a BSS of an odd size; the ARM
    console drops what its FIFO cannot take.

    ** Bounds and fuel

    Loops over tables recurse on the table or on its size.  [strlen] and
    [strcmp] stop after 10000 characters, so 10001 rounds are exact;
    [strstr] has no bound in the source and takes fuel: one round more than
    the haystack has characters is enough ([strstr_terminates]).  The decoder
    of the host takes the number of bytes as fuel.  Decimal output has 11
    rounds for 10 digits.  The lifecycle test makes fewer than 200 yields.
    Polling a UART takes fuel; a device that becomes ready within that many
    reads is never given up on ([responsive], [ready_within]).  Programs of
    the trap stubs run for the exact number of instructions on their path;
    the copy loop of the reset code has a step count per word.

    ** Not modelled

    The kernel-side system call trampolines, which nothing calls, faults of
    user code, vendored nng headers, host scripts other than the decoder,
    build files.  Interrupts are interleaved with the programs they interrupt
    (the trap theorems: any instruction boundary, any handler that keeps the
    calling convention) and turns with the ring's accesses; elsewhere a
    component's operations are atomic and interleaving is the order of steps.  Memory is
    sequentially consistent: barriers have no counterpart.  RISC-V has no
    interrupt level, switch or MMU to model.  In kmain's sequence the
    raw-socket and storage tests run on the components' own boot states; the
    IPC, capability and lifecycle tests run one after the other on one
    world. *)
From Stdlib Require Export ZArith Lia Bool.
From stdpp Require Export base tactics numbers list gmap.
#[global] Open Scope Z_scope.

(** [lia] decides goals with [/] and [mod] by a literal. *)
Ltac Zify.zify_post_hook ::= Z.to_euclidean_division_equations.

(** ** Fixed-width integers

    A C unsigned integer of width [w] is a [Z] kept in [0, 2^w) by the
    explicit wrap functions below.  The moduli are literals, so that [lia]
    decides goals about them. *)
Definition u8 (z : Z) : Z := z mod 256.
Definition u16 (z : Z) : Z := z mod 65536.
Definition u32 (z : Z) : Z := z mod 4294967296.
Definition u64 (z : Z) : Z := z mod 18446744073709551616.

(** Conversion of a 32-bit pattern to the [int] it denotes. *)
Definition s32 (z : Z) : Z :=
  let w := u32 z in if w <? 2147483648 then w else w - 4294967296.

Lemma u8_range z : 0 <= u8 z < 256.
Proof. unfold u8. lia. Qed.
Lemma u16_range z : 0 <= u16 z < 65536.
Proof. unfold u16. lia. Qed.
Lemma u32_range z : 0 <= u32 z < 4294967296.
Proof. unfold u32. lia. Qed.
Lemma u64_range z : 0 <= u64 z < 18446744073709551616.
Proof. unfold u64. lia. Qed.
Lemma u8_id z : 0 <= z < 256 -> u8 z = z.
Proof. unfold u8. lia. Qed.
Lemma u16_id z : 0 <= z < 65536 -> u16 z = z.
Proof. unfold u16. lia. Qed.
Lemma u32_id z : 0 <= z < 4294967296 -> u32 z = z.
Proof. unfold u32. lia. Qed.
Lemma u64_id z : 0 <= z < 18446744073709551616 -> u64 z = z.
Proof. unfold u64. lia. Qed.
Lemma u8_u8 z : u8 (u8 z) = u8 z.
Proof. apply u8_id, u8_range. Qed.
Lemma u32_u32 z : u32 (u32 z) = u32 z.
Proof. apply u32_id, u32_range. Qed.

Lemma s32_id z : -2147483648 <= z < 2147483648 -> s32 z = z.
Proof.
  intros Hz. unfold s32, u32. cbv zeta.
  destruct (z mod 4294967296 <? 2147483648) eqn:E;
    [apply Z.ltb_lt in E | apply Z.ltb_ge in E]; lia.
Qed.
Lemma s32_u32 z : s32 (u32 z) = s32 z.
Proof. unfold s32. by rewrite u32_u32. Qed.
Lemma u32_s32 z : u32 (s32 z) = u32 z.
Proof.
  unfold s32. cbv zeta. pose proof (u32_range z).
  destruct (u32 z <? 2147483648) eqn:E; [by rewrite u32_u32|].
  unfold u32 in *. apply Z.ltb_ge in E. lia.
Qed.

Create HintDb lugh.
Create Rewrite HintDb lugh.
#[export] Hint Resolve u8_range u16_range u32_range u64_range : lugh.
#[export] Hint Rewrite u8_u8 u32_u32 s32_u32 u32_s32 : lugh.

(** ** Tactics of the development *)

(** Turn boolean comparisons in the hypotheses into propositions. *)
Ltac bools :=
  repeat match goal with
  | H : (_ && _)%bool = true |- _ => apply andb_true_iff in H; destruct H
  | H : negb _ = true |- _ => apply negb_true_iff in H
  | H : negb _ = false |- _ => apply negb_false_iff in H
  | H : (_ || _)%bool = false |- _ => apply orb_false_iff in H as [? ?]
  | H : (_ =? _) = true |- _ => apply Z.eqb_eq in H
  | H : (_ =? _) = false |- _ => apply Z.eqb_neq in H
  | H : (_ <? _) = true |- _ => apply Z.ltb_lt in H
  | H : (_ <? _) = false |- _ => apply Z.ltb_ge in H
  | H : (_ <=? _) = true |- _ => apply Z.leb_le in H
  | H : (_ <=? _) = false |- _ => apply Z.leb_gt in H
  | H : (_ >=? _) = _ |- _ => rewrite Z.geb_leb in H
  | H : (_ >? _) = _ |- _ => rewrite Z.gtb_ltb in H
  end.

(** Case analysis on the first conditional of the goal, keeping its equation. *)
Ltac split_if :=
  match goal with
  | |- context [if ?b then _ else _] =>
      let E := fresh "E" in destruct b eqn:E; bools
  end.

(** Case analysis on a conditional or match that some hypothesis reduces through. *)
Ltac split_hyp H :=
  match type of H with
  | context [if ?b then _ else _] =>
      let E := fresh "E" in destruct b eqn:E; bools
  | context [match ?o with _ => _ end] =>
      let E := fresh "E" in destruct o eqn:E; bools
  end.

(** Reduce a C shift-and-mask expression to [/] and [mod] by a literal. *)
Ltac shifts :=
  rewrite ?Z.shiftr_div_pow2, ?Z.shiftl_mul_pow2 by lia;
  repeat match goal with
  | |- context [2 ^ ?k] => is_ground k; let v := eval vm_compute in (2 ^ k) in change (2 ^ k) with v
  end.

(** ** Bit masks *)

Lemma land_ones_mod z n : 0 <= n -> Z.land z (2 ^ n - 1) = z mod 2 ^ n.
Proof. intros. by rewrite <-Z.land_ones, Z.ones_equiv. Qed.
Lemma land_255 z : Z.land z 255 = z mod 256.
Proof. exact (land_ones_mod z 8 ltac:(lia)). Qed.

(** [submask a b]: every bit of [a] is set in [b].  The kernel writes this
    test [(b & a) == a]. *)
Definition submask (a b : Z) : Prop := Z.land b a = a.
#[export] Instance submask_dec a b : Decision (submask a b) := decide (Z.land b a = a).

Declare Scope lugh_scope.
Delimit Scope lugh_scope with lugh.
Infix "⊑" := submask (at level 70, no associativity) : lugh_scope.
#[global] Open Scope lugh_scope.

Lemma submask_spec a b :
  a ⊑ b <-> forall i, 0 <= i -> Z.testbit a i = true -> Z.testbit b i = true.
Proof.
  unfold submask. split.
  - intros H i _ Ha. rewrite <-H, Z.land_spec in Ha. by bools.
  - intros H. apply Z.bits_inj'. intros i Hi. rewrite Z.land_spec.
    destruct (Z.testbit a i) eqn:E; [by rewrite (H i Hi E)|apply andb_false_r].
Qed.

#[export] Instance submask_preorder : PreOrder submask.
Proof.
  split.
  - intros a. apply Z.land_diag.
  - intros a b c. rewrite !submask_spec. eauto.
Qed.
Lemma submask_0 a : 0 ⊑ a.
Proof. apply Z.land_0_r. Qed.
Lemma submask_land_l a b : Z.land a b ⊑ a.
Proof. apply submask_spec. intros i _. rewrite Z.land_spec. intros H. by bools. Qed.
Lemma submask_land_r a b : Z.land a b ⊑ b.
Proof. rewrite Z.land_comm. apply submask_land_l. Qed.
Lemma submask_glb a b c : a ⊑ b -> a ⊑ c -> a ⊑ Z.land b c.
Proof.
  rewrite !submask_spec. intros H1 H2 i Hi Ha. rewrite Z.land_spec.
  by rewrite (H1 i Hi Ha), (H2 i Hi Ha).
Qed.
Lemma submask_antisym a b : a ⊑ b -> b ⊑ a -> a = b.
Proof. unfold submask. intros H1 H2. rewrite Z.land_comm in H2. congruence. Qed.
#[export] Instance land_submask_proper : Proper (submask ==> submask ==> submask) Z.land.
Proof.
  intros a b H1 c d H2. apply submask_glb.
  - etransitivity; [apply submask_land_l|done].
  - etransitivity; [apply submask_land_r|done].
Qed.
#[export] Hint Resolve submask_0 submask_land_l submask_land_r : lugh.

(** Setting and clearing one bit of a word. *)
Definition bit (k : Z) : Z := Z.shiftl 1 k.

Lemma bit_testbit k i : 0 <= k -> 0 <= i -> Z.testbit (bit k) i = (i =? k).
Proof.
  intros. unfold bit. rewrite Z.shiftl_spec by done.
  destruct (i =? k) eqn:E; bools.
  - subst. by rewrite Z.sub_diag.
  - destruct (decide (i < k)); [by apply Z.testbit_neg_r; lia|].
    change 1 with (2 ^ 0). rewrite Z.pow2_bits_false; [done|lia].
Qed.
Lemma land_bit w k : 0 <= k -> (Z.land w (bit k) =? 0) = negb (Z.testbit w k).
Proof.
  intros Hk. destruct (Z.testbit w k) eqn:E; simpl.
  - apply Z.eqb_neq. intros H0.
    assert (H : Z.testbit (Z.land w (bit k)) k = false) by (rewrite H0; apply Z.testbit_0_l).
    rewrite Z.land_spec, E, bit_testbit, Z.eqb_refl in H; done.
  - apply Z.eqb_eq, Z.bits_inj'. intros i Hi.
    rewrite Z.land_spec, bit_testbit, Z.testbit_0_l by done.
    destruct (i =? k) eqn:Ei; bools; [by subst; rewrite E|apply andb_false_r].
Qed.
Lemma lor_bit_testbit w k i :
  0 <= k -> 0 <= i -> Z.testbit (Z.lor w (bit k)) i = (Z.testbit w i || (i =? k))%bool.
Proof. intros. by rewrite Z.lor_spec, bit_testbit. Qed.
(** [w & ~(1 << k)] on a non-negative word. *)
Lemma ldiff_bit_testbit w k i :
  0 <= k -> 0 <= i -> Z.testbit (Z.ldiff w (bit k)) i = (Z.testbit w i && negb (i =? k))%bool.
Proof. intros. by rewrite Z.ldiff_spec, bit_testbit. Qed.

(** Disjoint bit fields: [a | b << k] with [a] below bit [k]. *)
Lemma lor_shiftl_add a b k : 0 <= k -> 0 <= a < 2 ^ k -> Z.lor a (Z.shiftl b k) = a + 2 ^ k * b.
Proof.
  intros Hk Ha. pose proof (Z.add_lor_land a (Z.shiftl b k)) as H.
  replace (Z.land a (Z.shiftl b k)) with 0 in H.
  - rewrite Z.shiftl_mul_pow2 in H |- * by done. lia.
  - symmetry. apply Z.bits_inj'. intros i Hi.
    rewrite Z.land_spec, Z.testbit_0_l, Z.shiftl_spec by done.
    destruct (decide (i < k)).
    + rewrite (Z.testbit_neg_r b) by lia. apply andb_false_r.
    + replace a with (a mod 2 ^ k) by (apply Z.mod_small; lia).
      by rewrite Z.mod_pow2_bits_high by lia.
Qed.

(** A bound by a power of two is a statement about bits. *)
Lemma bits_bound x n : 0 <= n -> (forall i, n <= i -> Z.testbit x i = false) -> 0 <= x < 2 ^ n.
Proof.
  intros Hn Hx. replace x with (x mod 2 ^ n); [apply Z.mod_pos_bound; lia|].
  apply Z.bits_inj'. intros i Hi. destruct (decide (i < n)).
  - by rewrite Z.mod_pow2_bits_low.
  - by rewrite Z.mod_pow2_bits_high, Hx by lia.
Qed.
Lemma bound_bits x n i : 0 <= n -> 0 <= x < 2 ^ n -> n <= i -> Z.testbit x i = false.
Proof.
  intros Hn Hx Hi. replace x with (x mod 2 ^ n) by (by apply Z.mod_small).
  apply Z.mod_pow2_bits_high. lia.
Qed.
Lemma lor_bound a b n : 0 <= n -> 0 <= a < 2 ^ n -> 0 <= b < 2 ^ n -> 0 <= Z.lor a b < 2 ^ n.
Proof.
  intros Hn Ha Hb. apply bits_bound; [done|]. intros i Hi.
  by rewrite Z.lor_spec, (bound_bits a n i), (bound_bits b n i).
Qed.
Lemma lxor_bound a b n : 0 <= n -> 0 <= a < 2 ^ n -> 0 <= b < 2 ^ n -> 0 <= Z.lxor a b < 2 ^ n.
Proof.
  intros Hn Ha Hb. apply bits_bound; [done|]. intros i Hi.
  by rewrite Z.lxor_spec, (bound_bits a n i), (bound_bits b n i).
Qed.
Lemma land_bound a b n : 0 <= n -> 0 <= b < 2 ^ n -> 0 <= Z.land a b < 2 ^ n.
Proof.
  intros Hn Hb. apply bits_bound; [done|]. intros i Hi.
  by rewrite Z.land_spec, (bound_bits b n i), andb_false_r.
Qed.
Lemma ldiff_bound a b n : 0 <= n -> 0 <= a < 2 ^ n -> 0 <= Z.ldiff a b < 2 ^ n.
Proof.
  intros Hn Ha. apply bits_bound; [done|]. intros i Hi.
  by rewrite Z.ldiff_spec, (bound_bits a n i).
Qed.

(** ** Little-endian byte strings *)

Fixpoint le_bytes (n : nat) (z : Z) : list Z :=
  match n with
  | O => []
  | S n' => u8 z :: le_bytes n' (Z.shiftr z 8)
  end.

Fixpoint le_val (bs : list Z) : Z :=
  match bs with
  | [] => 0
  | b :: bs' => b + 256 * le_val bs'
  end.

Lemma length_le_bytes n z : length (le_bytes n z) = n.
Proof. revert z; induction n; intros; simpl; auto. Qed.

Lemma le_val_bytes n z : le_val (le_bytes n z) = z mod 2 ^ (8 * Z.of_nat n).
Proof.
  revert z; induction n as [|n IH]; intros z.
  - by rewrite Z.mod_1_r.
  - cbn [le_bytes le_val]. rewrite IH, Z.shiftr_div_pow2 by lia.
    unfold u8. change (2 ^ 8) with 256.
    replace (8 * Z.of_nat (S n)) with (8 + 8 * Z.of_nat n) by lia.
    rewrite Z.pow_add_r by lia. change (2 ^ 8) with 256.
    rewrite Z.rem_mul_r by lia. lia.
Qed.

Lemma le_bytes_bytes n z : Forall (fun b => 0 <= b < 256) (le_bytes n z).
Proof. revert z; induction n; intros; simpl; constructor; auto with lugh. Qed.

Lemma le_bytes_val bs :
  Forall (fun b => 0 <= b < 256) bs -> le_bytes (length bs) (le_val bs) = bs.
Proof.
  induction 1 as [|b bs Hb _ IH]; [done|]. cbn [length le_val le_bytes]. f_equal.
  - unfold u8. lia.
  - rewrite Z.shiftr_div_pow2 by lia. change (2 ^ 8) with 256.
    etransitivity; [|exact IH]. f_equal. lia.
Qed.

Lemma le_val_bound bs :
  Forall (fun b => 0 <= b < 256) bs -> 0 <= le_val bs < 2 ^ (8 * Z.of_nat (length bs)).
Proof.
  intros Hb. pose proof (le_val_bytes (length bs) (le_val bs)) as H.
  rewrite le_bytes_val in H by done. rewrite H. apply Z.mod_pos_bound. lia.
Qed.

(** ** Bounded scans

    [findi p l] is the C idiom of a bounded loop that stops at the first
    slot satisfying a test: the index of that slot, or [None] when the loop
    runs to its bound. *)
Fixpoint findi {A} (p : A -> bool) (l : list A) : option nat :=
  match l with
  | [] => None
  | x :: l' => if p x then Some 0%nat else S <$> findi p l'
  end.

Lemma findi_Some {A} (p : A -> bool) l i :
  findi p l = Some i <->
  (exists x, l !! i = Some x /\ p x = true) /\
  (forall j y, (j < i)%nat -> l !! j = Some y -> p y = false).
Proof.
  revert i; induction l as [|a l IH]; intros i; simpl.
  - split; [done|]. by intros [(x & H & _) _].
  - destruct (p a) eqn:Ha.
    + split.
      * intros [= <-]. split; [by exists a|]. intros j y Hj. lia.
      * intros [(x & Hx & Hp) Hlt]. destruct i as [|i]; [done|].
        by rewrite (Hlt 0%nat a ltac:(lia) eq_refl) in Ha.
    + split.
      * intros (i' & H & ->)%fmap_Some.
        apply IH in H as [(x & Hx & Hp) Hlt]. split; [by exists x|].
        intros [|j] y Hj Hy; simpl in Hy; [congruence|]. apply (Hlt j); [lia|done].
      * intros [(x & Hx & Hp) Hlt]. destruct i as [|i]; simpl in *; [congruence|].
        apply fmap_Some. exists i. split; [|done]. apply IH. split; [by exists x|].
        intros j y Hj Hy. apply (Hlt (S j)); [lia|done].
Qed.

Lemma findi_None {A} (p : A -> bool) l :
  findi p l = None <-> Forall (fun x => p x = false) l.
Proof.
  induction l as [|a l IH]; simpl; [by split|].
  rewrite Forall_cons. destruct (p a) eqn:Ha.
  - split; [done|]. by intros [? _].
  - rewrite fmap_None, IH. tauto.
Qed.

Lemma existsb_false {A} (p : A -> bool) l :
  (forall i x, l !! i = Some x -> p x = false) -> existsb p l = false.
Proof.
  induction l as [|x l IH]; intros Hp; [done|]. cbn [existsb]. rewrite (Hp 0%nat x eq_refl), IH; [done|].
  intros i y Hy. exact (Hp (S i) y Hy).
Qed.

Lemma findi_lt {A} (p : A -> bool) l i : findi p l = Some i -> (i < length l)%nat.
Proof. intros [(x & Hx & _) _]%findi_Some. by eapply lookup_lt_Some. Qed.

(** ** Arrays *)

Lemma take_S_insert {A} (l : list A) n x :
  (n < length l)%nat -> take (S n) (<[n := x]> l) = take n l ++ [x].
Proof.
  intros Hn. rewrite (take_S_r _ _ x) by (by apply list_lookup_insert_eq).
  by rewrite take_insert_ge by lia.
Qed.

Lemma lookup_total_Some {A} `{Inhabited A} (l : list A) i x : l !! i = Some x -> l !!! i = x.
Proof. intros Hx. by rewrite list_lookup_total_alt, Hx. Qed.

(** ** C strings

    The character codes of a literal, and the characters before the first
    NUL of a byte array (all of the array when it holds none). *)
Definition chars (s : String.string) : list Z :=
  (fun a => Z.of_N (Ascii.N_of_ascii a)) <$> String.list_ascii_of_string s.
Fixpoint cstr (l : list Z) : list Z :=
  match l with
  | [] => []
  | c :: l' => if c =? 0 then [] else c :: cstr l'
  end.

Lemma cstr_nonzero l : Forall (fun c => c <> 0) (cstr l).
Proof. induction l as [|c l IH]; simpl; [done|]. split_if; by constructor. Qed.
Lemma length_cstr l : (length (cstr l) <= length l)%nat.
Proof. induction l as [|c l IH]; simpl; [lia|]. split_if; simpl; lia. Qed.
Lemma cstr_app_nul s rest : Forall (fun c => c <> 0) s -> cstr (s ++ 0 :: rest) = s.
Proof.
  induction 1 as [|c s Hc _ IH]; [done|]. simpl.
  destruct (c =? 0) eqn:E; bools; [done|]. by rewrite IH.
Qed.
Lemma cstr_le l i : l !! i = Some 0 -> (length (cstr l) <= i)%nat.
Proof.
  revert i. induction l as [|x l IH]; intros [|i]; cbn; [done|done| |]; [intros [= ->]; cbn; lia|].
  intros Hi. destruct (x =? 0); cbn; [lia|]. apply le_n_S. by apply IH.
Qed.
Lemma cstr_idemp l : cstr (cstr l) = cstr l.
Proof. induction l as [|c l IH]; [done|]. simpl. split_if; simpl; [done|].
  destruct (c =? 0) eqn:E'; bools; [done|]. by rewrite IH. Qed.
