(* ===== verification/Types.v ===== *)
(** * Shared data types: include/lugh.h, include/capabilities.h

    The records every subsystem exchanges, with the constants of the two
    headers.  A C struct is a [Record]; an unsigned field is a [Z] that the
    operations keep in range; a [char[n]] field is a list of [n] bytes. *)
From S2P Require Import Prelude.

Definition MAX_TASKS : nat := 1024.
Definition MAX_MSG_SIZE : nat := 128.
Definition MAX_QUEUE_SIZE : nat := 1024.

Definition TASK_READY : Z := 0.
Definition TASK_RUNNING : Z := 1.
Definition TASK_BLOCKED : Z := 2.
Definition TASK_TERMINATED : Z := 3.
Definition TASK_PARENT_NONE : Z := 4294967295.

Definition OP_GRID_ALERT : Z := 256.
Definition OP_HEARTBEAT : Z := 257.
Definition OP_UPDATE : Z := 258.
Definition OP_WRITE : Z := 512.
Definition OP_DELETE : Z := 513.
Definition OP_WORKFLOW : Z := 514.

(** [task_t]. *)
Record task_t := Task {
  t_task_id : Z;
  t_priority : Z;
  t_cap_mask : Z;
  t_domain : Z;
  t_state : Z;
  t_deadline : Z;
  t_kernel_stack_top : Z;
  t_saved_sp : Z;
  t_parent_task_id : Z
}.

(** The all-zero task: an entry of the static table in BSS. *)
Definition task_zero : task_t := Task 0 0 0 0 0 0 0 0 0.
#[export] Instance task_t_inhabited : Inhabited task_t := populate task_zero.

Definition set_state (s : Z) (t : task_t) : task_t :=
  Task (t_task_id t) (t_priority t) (t_cap_mask t) (t_domain t) s (t_deadline t)
       (t_kernel_stack_top t) (t_saved_sp t) (t_parent_task_id t).
Definition set_saved_sp (sp : Z) (t : task_t) : task_t :=
  Task (t_task_id t) (t_priority t) (t_cap_mask t) (t_domain t) (t_state t) (t_deadline t)
       (t_kernel_stack_top t) sp (t_parent_task_id t).

(** [message_t]; [m_payload] has [MAX_MSG_SIZE] bytes. *)
Record message_t := Message {
  m_priority : Z;
  m_operation : Z;
  m_checksum : Z;
  m_padding1 : Z;
  m_payload : list Z
}.
Definition message_zero : message_t := Message 0 0 0 0 (replicate MAX_MSG_SIZE 0).
#[export] Instance message_t_inhabited : Inhabited message_t := populate message_zero.

Definition set_checksum (c : Z) (m : message_t) : message_t :=
  Message (m_priority m) (m_operation m) c (m_padding1 m) (m_payload m).
Definition set_padding1 (p : Z) (m : message_t) : message_t :=
  Message (m_priority m) (m_operation m) (m_checksum m) p (m_payload m).
Definition set_payload (p : list Z) (m : message_t) : message_t :=
  Message (m_priority m) (m_operation m) (m_checksum m) (m_padding1 m) p.

(** [txn_log_entry_t]: a 64-byte key and a 256-byte value. *)
Record txn_log_entry_t := TxnEntry {
  e_txn_id : Z;
  e_task_id : Z;
  e_operation : Z;
  e_key : list Z;
  e_value : list Z;
  e_checksum : Z
}.
Definition txn_zero : txn_log_entry_t := TxnEntry 0 0 0 (replicate 64 0) (replicate 256 0) 0.
#[export] Instance txn_inhabited : Inhabited txn_log_entry_t := populate txn_zero.

(** ** Capabilities *)

Definition CAP_IPC_SEND : Z := 1.
Definition CAP_IPC_RECV : Z := 2.
Definition CAP_CROSS_DOMAIN : Z := 4.
Definition CAP_PRIVILEGED_OP : Z := 8.
Definition CAP_ALL : Z := 15.

Definition DENY_CAP_SEND : Z := 1.
Definition DENY_CAP_RECV : Z := 2.
Definition DENY_CAP_PRIV : Z := 3.
Definition DENY_DOMAIN : Z := 4.
Definition DENY_CAP_ESCALATION : Z := 5.
Definition DENY_DOMAIN_CREATE : Z := 6.

Definition required_caps_for_op (op : Z) : Z :=
  if ((op =? 258) || (op =? 512) || (op =? 513))%bool
  then Z.lor CAP_IPC_SEND CAP_PRIVILEGED_OP
  else CAP_IPC_SEND.

(** [x & CAP_CROSS_DOMAIN] as a truth value. *)
Definition has_cap (mask cap : Z) : bool := negb (Z.land mask cap =? 0).
