(* ===== verification/Circular.v ===== *)
(** * Circular buffers

    The kernel keeps three queues in a fixed array read modulo its length:
    the auditor ring (kernel/ring_buffer.c), the transaction log
    (kernel/fs/storage.c) and the sockets' incoming queues
    (kernel/nngcompat.c).  [window buf s n] is the abstract queue such an
    array holds: [n] elements from index [s], wrapping around.  The lemmas
    say what one slot write and one cursor step do to it. *)
From S2P Require Import Prelude.

Section Window.
Context {A : Type} `{Inhabited A}.
Implicit Types (buf : list A) (s n : nat).

Definition window buf s n : list A :=
  (fun k => buf !!! ((s + k) mod length buf)%nat) <$> seq 0 n.

Lemma length_window buf s n : length (window buf s n) = n.
Proof. unfold window. by rewrite length_fmap, length_seq. Qed.

Lemma window_0 buf s : window buf s 0 = [].
Proof. done. Qed.

Lemma window_cons buf s n :
  window buf s (S n) = buf !!! (s mod length buf)%nat :: window buf (S s) n.
Proof.
  unfold window. cbn [seq fmap list_fmap]. f_equal; [by rewrite Nat.add_0_r|].
  rewrite <-fmap_S_seq, <-list_fmap_compose. apply list_fmap_ext.
  intros i x _. cbn. f_equal. f_equal. lia.
Qed.

Lemma window_snoc buf s n :
  window buf s (S n) = window buf s n ++ [buf !!! ((s + n) mod length buf)%nat].
Proof. unfold window. by rewrite seq_S, fmap_app. Qed.

Lemma window_mod buf s n : window buf (s mod length buf) n = window buf s n.
Proof.
  unfold window. apply list_fmap_ext. intros i x _. f_equal.
  by rewrite Nat.Div0.add_mod_idemp_l.
Qed.

Lemma mod_shift_neq N s j n :
  (j < n)%nat -> (n - j < N)%nat -> ((s + j) mod N <> (s + n) mod N)%nat.
Proof.
  intros Hj HN Heq.
  pose proof (Nat.div_mod_eq (s + j) N) as E1.
  pose proof (Nat.div_mod_eq (s + n) N) as E2.
  set (q1 := ((s + j) / N)%nat) in *. set (q2 := ((s + n) / N)%nat) in *.
  assert (N * q2 = N * q1 + (n - j))%nat by lia.
  destruct (decide (q2 <= q1)%nat); [|assert (S q1 <= q2)%nat by lia]; nia.
Qed.

(** Writing the slot after the window leaves the window unchanged. *)
Lemma window_write_out buf s n x :
  (n < length buf)%nat ->
  window (<[((s + n) mod length buf)%nat := x]> buf) s n = window buf s n.
Proof.
  intros Hn. unfold window. rewrite length_insert.
  apply Forall_fmap_ext_1, Forall_forall. intros k [_ Hk]%elem_of_seq.
  rewrite list_lookup_total_insert_ne; [done|].
  apply not_eq_sym, mod_shift_neq; lia.
Qed.

(** Writing it and extending the window appends the element. *)
Lemma window_push buf s n x :
  (n < length buf)%nat ->
  window (<[((s + n) mod length buf)%nat := x]> buf) s (S n) = window buf s n ++ [x].
Proof.
  intros Hn. rewrite window_snoc, window_write_out by done.
  rewrite length_insert, list_lookup_total_insert_eq; [done|].
  apply Nat.mod_upper_bound. lia.
Qed.

(** Overwriting the oldest element of a full window. *)
Lemma window_overwrite buf s x :
  (0 < length buf)%nat ->
  window (<[(s mod length buf)%nat := x]> buf) (S s) (length buf) =
  tail (window buf s (length buf)) ++ [x].
Proof.
  intros Hn. destruct (length buf) as [|n] eqn:E; [lia|].
  assert (Hm : (s mod length buf = (S s + n) mod length buf)%nat).
  { rewrite E. replace (S s + n)%nat with (s + 1 * S n)%nat by lia.
    by rewrite Nat.Div0.mod_add. }
  rewrite <-E at 1. rewrite Hm, window_push by lia.
  by rewrite window_cons.
Qed.

(** Clearing a slot outside the window. *)
Lemma window_ext buf buf' s n :
  length buf = length buf' ->
  (forall k, (k < n)%nat ->
     buf !!! ((s + k) mod length buf)%nat = buf' !!! ((s + k) mod length buf)%nat) ->
  window buf s n = window buf' s n.
Proof.
  intros Hl Hk. unfold window. rewrite <-Hl.
  apply Forall_fmap_ext_1, Forall_forall. intros k [_ ?]%elem_of_seq. apply Hk. lia.
Qed.
End Window.
