(* ===== verification/Ring.v ===== *)
(** * The auditor ring: kernel/ring_buffer.c

    A single-producer ring of 256 messages; one slot always stays free, so
    that [head = tail] means empty.  [ring_contents] is the queue it holds,
    and the section [Refinement] shows that every sequence of operations on
    a freshly initialised ring answers as a drop-newest FIFO of 255
    messages. *)
From S2P Require Import Prelude Types Circular.

Definition IPC_RING_CAPACITY : Z := 256.

Record ipc_ring_t := Ring {
  r_head : Z;
  r_tail : Z;
  r_overflow : Z;
  r_buf : list message_t
}.

Definition set_overflow (o : Z) (r : ipc_ring_t) : ipc_ring_t :=
  Ring (r_head r) (r_tail r) o (r_buf r).

(** [ring_init] resets the cursors and leaves the buffer as it is. *)
Definition ring_init (r : ipc_ring_t) : ipc_ring_t := Ring 0 0 0 (r_buf r).

Definition ring_next (h : Z) : Z := Z.land (u32 (h + 1)) (IPC_RING_CAPACITY - 1).

(** Returns 1 and the ring with the message stored, or 0 when it is full. *)
Definition ring_push (r : ipc_ring_t) (m : message_t) : Z * ipc_ring_t :=
  let next := ring_next (r_head r) in
  if next =? r_tail r
  then (0, set_overflow (u32 (r_overflow r + 1)) r)
  else (1, Ring next (r_tail r) (r_overflow r) (<[Z.to_nat (r_head r) := m]> (r_buf r))).

(** [None] is the return value 0 (empty); [Some] carries [*out]. *)
Definition ring_pop (r : ipc_ring_t) : option (message_t * ipc_ring_t) :=
  if r_head r =? r_tail r then None
  else Some (r_buf r !!! Z.to_nat (r_tail r),
             Ring (r_head r) (ring_next (r_tail r)) (r_overflow r) (r_buf r)).

Definition ring_len (r : ipc_ring_t) : Z :=
  Z.land (u32 (r_head r - r_tail r)) (IPC_RING_CAPACITY - 1).

(** The static ring before [ring_init]. *)
Definition ring_bss : ipc_ring_t := Ring 0 0 0 (replicate 256 message_zero).

(** ** Invariant and abstract contents *)

Record ring_wf (r : ipc_ring_t) : Prop := {
  ring_wf_head : 0 <= r_head r < 256;
  ring_wf_tail : 0 <= r_tail r < 256;
  ring_wf_overflow : 0 <= r_overflow r < 4294967296;
  ring_wf_buf : length (r_buf r) = 256%nat
}.

Definition ring_contents (r : ipc_ring_t) : list message_t :=
  window (r_buf r) (Z.to_nat (r_tail r)) (Z.to_nat (ring_len r)).

Lemma ring_next_mod h : 0 <= h < 256 -> ring_next h = (h + 1) mod 256.
Proof. intros. unfold ring_next, IPC_RING_CAPACITY. rewrite land_255. unfold u32. lia. Qed.

Lemma ring_len_mod r : ring_wf r -> ring_len r = (r_head r - r_tail r) mod 256.
Proof.
  intros [? ? _ _]. unfold ring_len, IPC_RING_CAPACITY. rewrite land_255. unfold u32. lia.
Qed.

Lemma ring_len_bounds r : ring_wf r -> 0 <= ring_len r <= 255.
Proof. intros Hr. rewrite ring_len_mod by done. lia. Qed.

Lemma length_ring_contents r : ring_wf r -> Z.of_nat (length (ring_contents r)) = ring_len r.
Proof.
  intros Hr. unfold ring_contents. rewrite length_window.
  pose proof (ring_len_bounds r Hr). lia.
Qed.

Lemma ring_init_wf r : length (r_buf r) = 256%nat -> ring_wf (ring_init r).
Proof. by split. Qed.

Lemma ring_init_contents r : ring_contents (ring_init r) = [].
Proof. done. Qed.

(** [head] is the slot that follows the contents. *)
Lemma ring_head_slot r :
  ring_wf r ->
  Z.to_nat (r_head r) = ((Z.to_nat (r_tail r) + Z.to_nat (ring_len r)) mod length (r_buf r))%nat.
Proof.
  intros Hr. pose proof (ring_len_mod r Hr) as Hl. destruct Hr as [? ? _ ->].
  rewrite Hl. apply Nat2Z.inj. rewrite Nat2Z.inj_mod. lia.
Qed.

Lemma ring_full_iff r :
  ring_wf r -> (ring_next (r_head r) =? r_tail r) = (ring_len r =? 255).
Proof.
  intros Hr. rewrite (ring_len_mod r Hr). destruct Hr as [Hh Ht _ _].
  rewrite ring_next_mod by done. apply eq_iff_eq_true. rewrite !Z.eqb_eq. lia.
Qed.

Lemma ring_empty_iff r : ring_wf r -> (r_head r =? r_tail r) = (ring_len r =? 0).
Proof.
  intros Hr. rewrite (ring_len_mod r Hr). destruct Hr as [Hh Ht _ _].
  apply eq_iff_eq_true. rewrite !Z.eqb_eq. lia.
Qed.

Lemma ring_push_wf r m : ring_wf r -> ring_wf (ring_push r m).2.
Proof.
  intros [Hh Ht Ho Hb]. unfold ring_push. split_if; split; cbn; auto using u32_range.
  - rewrite ring_next_mod by done. lia.
  - by rewrite length_insert.
Qed.

Lemma ring_push_full r m :
  ring_wf r -> ring_len r = 255 ->
  ring_push r m = (0, set_overflow (u32 (r_overflow r + 1)) r).
Proof.
  intros Hr Hl. unfold ring_push. rewrite ring_full_iff, Hl by done. done.
Qed.

Lemma ring_push_room r m :
  ring_wf r -> ring_len r < 255 ->
  (ring_push r m).1 = 1 /\
  ring_contents (ring_push r m).2 = ring_contents r ++ [m] /\
  r_overflow (ring_push r m).2 = r_overflow r.
Proof.
  intros Hr Hl. pose proof (ring_len_bounds r Hr) as Hb0.
  pose proof (ring_push_wf r m Hr) as Hw. revert Hw.
  unfold ring_push. rewrite ring_full_iff by done.
  destruct (ring_len r =? 255) eqn:E; bools; [lia|]. cbn. intros Hw.
  split; [done|]. split; [|done].
  unfold ring_contents at 1. rewrite (ring_len_mod _ Hw). cbn.
  rewrite (ring_head_slot r Hr).
  replace (Z.to_nat ((ring_next (r_head r) - r_tail r) mod 256))
    with (S (Z.to_nat (ring_len r))).
  - apply window_push. rewrite (ring_wf_buf r Hr). lia.
  - revert Hl. rewrite (ring_len_mod r Hr).
    destruct Hr as [? ? _ _]. rewrite ring_next_mod by done. lia.
Qed.

Lemma ring_pop_empty r : ring_wf r -> ring_contents r = [] -> ring_pop r = None.
Proof.
  intros Hr Hc. unfold ring_pop. rewrite ring_empty_iff by done.
  rewrite <-length_ring_contents, Hc by done. done.
Qed.

Lemma ring_pop_cons r m q :
  ring_wf r -> ring_contents r = m :: q ->
  exists r', ring_pop r = Some (m, r') /\ ring_wf r' /\ ring_contents r' = q /\
             r_overflow r' = r_overflow r.
Proof.
  intros Hr Hc. pose proof (length_ring_contents r Hr) as Hl. rewrite Hc in Hl. cbn in Hl.
  unfold ring_pop. rewrite ring_empty_iff by done.
  destruct (ring_len r =? 0) eqn:E; bools; [lia|].
  assert (Hw : ring_wf (Ring (r_head r) (ring_next (r_tail r)) (r_overflow r) (r_buf r))).
  { destruct Hr as [? ? ? ?]. split; cbn; try done. rewrite ring_next_mod by done. lia. }
  assert (HS : Z.to_nat (ring_len r) = S (length q)) by lia.
  pose proof Hc as Hc'. unfold ring_contents in Hc'. rewrite HS, window_cons in Hc'.
  injection Hc' as Hm Hq.
  assert (Ht : (Z.to_nat (r_tail r) mod length (r_buf r))%nat = Z.to_nat (r_tail r)).
  { rewrite (ring_wf_buf r Hr). destruct Hr. apply Nat.mod_small. lia. }
  eexists. split; [by rewrite <-Hm, Ht|]. split; [done|]. split; [|done].
  unfold ring_contents. rewrite (ring_len_mod _ Hw). cbn.
  rewrite <-Hq, <-(window_mod (r_buf r) (S _)). rewrite (ring_wf_buf r Hr).
  revert HS. rewrite (ring_len_mod r Hr). destruct Hr as [? ? _ _].
  rewrite ring_next_mod by done. intros HS. f_equal; [|lia].
  apply Nat2Z.inj. rewrite Nat2Z.inj_mod. lia.
Qed.

#[export] Hint Resolve ring_push_wf ring_init_wf : lugh.

(** ** Refinement to a bounded FIFO *)
Section Refinement.
Inductive ring_op := OpPush (m : message_t) | OpPop.
Inductive ring_ans := Pushed (rv : Z) | Popped (m : option message_t).

(** One client call on the ring. *)
Definition ring_exec (r : ipc_ring_t) (o : ring_op) : ring_ans * ipc_ring_t :=
  match o with
  | OpPush m => let '(rv, r') := ring_push r m in (Pushed rv, r')
  | OpPop =>
      match ring_pop r with
      | Some (m, r') => (Popped (Some m), r')
      | None => (Popped None, r)
      end
  end.

(** The specification: a list, with the number of refused messages. *)
Record fifo := Fifo { f_queue : list message_t; f_dropped : Z }.
Definition fifo_exec (q : fifo) (o : ring_op) : ring_ans * fifo :=
  match o with
  | OpPush m =>
      if (length (f_queue q) <? 255)%nat
      then (Pushed 1, Fifo (f_queue q ++ [m]) (f_dropped q))
      else (Pushed 0, Fifo (f_queue q) (f_dropped q + 1))
  | OpPop =>
      match f_queue q with
      | [] => (Popped None, q)
      | m :: ms => (Popped (Some m), Fifo ms (f_dropped q))
      end
  end.

Fixpoint run {S} (exec : S -> ring_op -> ring_ans * S) (s : S) (ops : list ring_op)
    : list ring_ans * S :=
  match ops with
  | [] => ([], s)
  | o :: ops' =>
      let '(a, s1) := exec s o in
      let '(l, s2) := run exec s1 ops' in (a :: l, s2)
  end.

Definition ring_rel (r : ipc_ring_t) (q : fifo) : Prop :=
  ring_wf r /\ ring_contents r = f_queue q /\ r_overflow r = u32 (f_dropped q).

Lemma ring_exec_sim r q o :
  ring_rel r q ->
  (ring_exec r o).1 = (fifo_exec q o).1 /\ ring_rel (ring_exec r o).2 (fifo_exec q o).2.
Proof.
  intros (Hr & Hc & Ho). pose proof (length_ring_contents r Hr) as Hl.
  pose proof (ring_len_bounds r Hr) as Hb. rewrite Hc in Hl.
  destruct o as [m|]; unfold ring_exec, fifo_exec.
  - pose proof (ring_push_wf r m Hr) as Hw.
    destruct (length (f_queue q) <? 255)%nat eqn:E.
    + apply Nat.ltb_lt in E.
      destruct (ring_push_room r m Hr ltac:(lia)) as (Hrv & Hcs & Hov).
      destruct (ring_push r m) as [rv r'] eqn:Ep. cbn in *. subst rv.
      split; [done|]. split; [done|]. cbn. by rewrite Hcs, Hc, Hov.
    + apply Nat.ltb_ge in E. rewrite ring_push_full in * by (done || lia). cbn in *.
      split; [done|]. split; [done|]. cbn. split; [done|].
      rewrite Ho. unfold u32. lia.
  - destruct (f_queue q) as [|m ms] eqn:Eq.
    + rewrite (ring_pop_empty r Hr Hc). cbn. split; [done|]. split; [done|]. by rewrite Eq.
    + destruct (ring_pop_cons r m ms Hr Hc) as (r' & -> & Hw & Hcs & Hov).
      cbn. split; [done|]. split; [done|]. split; [done|]. by rewrite Hov.
Qed.

Lemma ring_run_sim ops r q :
  ring_rel r q ->
  (run ring_exec r ops).1 = (run fifo_exec q ops).1 /\
  ring_rel (run ring_exec r ops).2 (run fifo_exec q ops).2.
Proof.
  revert r q; induction ops as [|o ops IH]; intros r q Hrel; [done|]. cbn.
  destruct (ring_exec_sim r q o Hrel) as [Ha Hrel'].
  destruct (ring_exec r o) as [a r1], (fifo_exec q o) as [b q1]. cbn in *. subst b.
  destruct (IH r1 q1 Hrel') as [Hl Hf].
  destruct (run ring_exec r1 ops), (run fifo_exec q1 ops). cbn in *. by subst.
Qed.
End Refinement.

(** Every sequence of pushes and pops on an initialised ring gives the
    answers of a FIFO queue that holds at most 255 messages and refuses the
    newest one when full, and the overflow counter is the number of refused
    messages (modulo 2^32). *)
Theorem ring_refines_fifo (r0 : ipc_ring_t) (ops : list ring_op) :
  length (r_buf r0) = 256%nat ->
  (run ring_exec (ring_init r0) ops).1 = (run fifo_exec (Fifo [] 0) ops).1 /\
  ring_contents (run ring_exec (ring_init r0) ops).2
    = f_queue (run fifo_exec (Fifo [] 0) ops).2 /\
  r_overflow (run ring_exec (ring_init r0) ops).2
    = u32 (f_dropped (run fifo_exec (Fifo [] 0) ops).2).
Proof.
  intros Hb. destruct (ring_run_sim ops (ring_init r0) (Fifo [] 0)) as (? & _ & ? & ?).
  - split; [auto with lugh|]. done.
  - done.
Qed.

Example ring_refines_fifo_witness :
  (run ring_exec (ring_init ring_bss) [OpPop; OpPush message_zero; OpPop; OpPop]).1
  = (run fifo_exec (Fifo [] 0) [OpPop; OpPush message_zero; OpPop; OpPop]).1.
Proof.
  exact (proj1 (ring_refines_fifo ring_bss [OpPop; OpPush message_zero; OpPop; OpPop] eq_refl)).
Defined.
