(* ===== verification/Auditor.v ===== *)
(** * Telemetry: services/auditor/exporter.c, include/auditor.h

    The auditor formats 44-byte records and writes them to a dedicated
    serial port.  [au_tlm] is the byte stream that port has received.  The
    module [Host] models the decoder of scripts/read_telemetry.py, and the
    theorems relate the two ends of the wire. *)
From S2P Require Import Prelude Types Circular Ring.

Definition AUDITOR_MAGIC : Z := 1279739977.
Definition AUDITOR_TELEMETRY_VERSION : Z := 2.
Definition AUDITOR_REC_MSG : Z := 0.
Definition AUDITOR_REC_OVERFLOW : Z := 1.
Definition AUDITOR_REC_HEARTBEAT : Z := 2.
Definition AUDITOR_REC_DENY : Z := 3.
Definition AUDITOR_REC_TASK_CREATE : Z := 4.
Definition AUDITOR_REC_CHAN_CREATE : Z := 5.
Definition AUDITOR_REC_CHAN_CONNECT : Z := 6.
Definition AUDITOR_REC_TASK_EXIT : Z := 7.
Definition AUDITOR_REC_DOMAIN_EDGE : Z := 8.
Definition AUDITOR_REC_FAULT : Z := 9.
Definition AUDITOR_REC_WORKFLOW : Z := 10.
Definition AUDITOR_FAULT_PABORT : Z := 0.
Definition AUDITOR_FAULT_DABORT_READ : Z := 1.
Definition AUDITOR_FAULT_DABORT_WRITE : Z := 2.
Definition DRAIN_BATCH : nat := 32.

(** [auditor_record_t], a packed struct. *)
Record auditor_record_t := AuditRec {
  ar_magic : Z;
  ar_version : Z;
  ar_record_type : Z;
  ar_jiffies : Z;
  ar_priority : Z;
  ar_src_domain : Z;
  ar_protocol : Z;
  ar_channel_id : Z;
  ar_operation : Z;
  ar_checksum : Z;
  ar_payload_hash : list Z
}.

(** [auditor_deny_info_t], without its padding bytes. *)
Record auditor_deny_info_t := DenyInfo {
  d_src_domain : Z;
  d_dst_domain : Z;
  d_src_channel : Z;
  d_dst_channel : Z;
  d_protocol : Z;
  d_reason : Z;
  d_priority : Z;
  d_operation : Z;
  d_granted_caps : Z;
  d_required_caps : Z;
  d_parent_task_id : Z;
  d_lineage_depth : Z;
  d_sibling_count : Z
}.

(** The exporter's state.  [au_jiffies] is what [hw_get_jiffies] returns. *)
Record auditor := Auditor {
  au_ring : ipc_ring_t;
  au_enabled : bool;
  au_tick_count : Z;
  au_heartbeat : Z;
  au_jiffies : Z;
  au_tlm : list Z
}.

Definition auditor_bss : auditor := Auditor ring_bss false 0 0 0 [].

Definition set_ring (r : ipc_ring_t) (a : auditor) : auditor :=
  Auditor r (au_enabled a) (au_tick_count a) (au_heartbeat a) (au_jiffies a) (au_tlm a).
Definition set_counters (t h : Z) (a : auditor) : auditor :=
  Auditor (au_ring a) (au_enabled a) t h (au_jiffies a) (au_tlm a).

(** The bytes [tlm_write_bytes(&rec, sizeof(rec))] sends, little-endian. *)
Definition record_bytes (r : auditor_record_t) : list Z :=
  le_bytes 4 (ar_magic r) ++ le_bytes 2 (ar_version r) ++ le_bytes 2 (ar_record_type r) ++
  le_bytes 8 (ar_jiffies r) ++ le_bytes 1 (ar_priority r) ++ le_bytes 1 (ar_src_domain r) ++
  le_bytes 1 (ar_protocol r) ++ le_bytes 1 (ar_channel_id r) ++ le_bytes 4 (ar_operation r) ++
  le_bytes 4 (ar_checksum r) ++ ar_payload_hash r.

Definition tlm_write_bytes (a : auditor) (bs : list Z) : auditor :=
  Auditor (au_ring a) (au_enabled a) (au_tick_count a) (au_heartbeat a) (au_jiffies a)
          (au_tlm a ++ bs).

(** The loop that stores [vals] little-endian in [payload_hash]. *)
Definition pack_vals (vals : list Z) : list Z := concat (le_bytes 4 <$> vals).

(** [init_record] fills the four header fields; the rest is given. *)
Definition init_record (a : auditor) (type prio dom proto ch op sum : Z) (hash : list Z)
    : auditor_record_t :=
  AuditRec AUDITOR_MAGIC AUDITOR_TELEMETRY_VERSION type (au_jiffies a) prio dom proto ch op sum
           hash.

(** ** Payload fingerprint *)

Definition fnv_step (h b : Z) : Z := u32 (Z.lxor h b * 16777619).
Definition fnv_from (seed : Z) (bytes : list Z) : Z := foldl fnv_step seed bytes.
Definition fingerprint_seeds : list Z := [2166136261; 3556253514; 2835567649; 1604524802].

Definition payload_fingerprint (payload : list Z) : list Z :=
  concat ((fun seed => le_bytes 4 (fnv_from seed (cstr (take MAX_MSG_SIZE payload))))
          <$> fingerprint_seeds).

(** ** Record emission *)

Definition msg_record (a : auditor) (m : message_t) : auditor_record_t :=
  init_record a AUDITOR_REC_MSG (u8 (m_priority m))
     (u8 (Z.land (Z.shiftr (m_padding1 m) 8) 255))
     (u8 (Z.land (Z.shiftr (m_padding1 m) 16) 255))
     (u8 (Z.land (m_padding1 m) 255))
     (m_operation m) (m_checksum m) (payload_fingerprint (m_payload m)).
Definition emit_msg_record (a : auditor) (m : message_t) : auditor :=
  tlm_write_bytes a (record_bytes (msg_record a m)).

Definition overflow_record (a : auditor) (dropped : Z) : auditor_record_t :=
  init_record a AUDITOR_REC_OVERFLOW 0 0 0 0 dropped 0 (replicate 16 0).
Definition emit_overflow_record (a : auditor) (dropped : Z) : auditor :=
  tlm_write_bytes a (record_bytes (overflow_record a dropped)).

Definition heartbeat_record (a : auditor) : auditor_record_t :=
  init_record a AUDITOR_REC_HEARTBEAT 0 0 0 0 0 0 (replicate 16 0).
Definition emit_heartbeat_record (a : auditor) : auditor :=
  tlm_write_bytes a (record_bytes (heartbeat_record a )).

Definition chan_create_record (a : auditor) (channel_id owner_task_id cap_mask domain security_level protocol : Z) : auditor_record_t :=
  init_record a AUDITOR_REC_CHAN_CREATE 0 (u8 (Z.land domain 255)) (u8 (Z.land protocol 255))
     (u8 (Z.land channel_id 255)) cap_mask owner_task_id
     (pack_vals [domain; security_level; 0; 0]).
Definition emit_chan_create_record (a : auditor) (channel_id owner_task_id cap_mask domain security_level protocol : Z) : auditor :=
  tlm_write_bytes a (record_bytes (chan_create_record a channel_id owner_task_id cap_mask domain security_level protocol)).

Definition auditor_chan_create (a : auditor)
    (channel_id owner_task_id cap_mask domain security_level protocol : Z) : auditor :=
  if negb (au_enabled a) then a
  else emit_chan_create_record a channel_id owner_task_id cap_mask domain security_level protocol.

Definition chan_connect_record (a : auditor) (src_channel_id src_domain src_cap_mask src_protocol dst_channel_id dst_domain dst_cap_mask : Z) : auditor_record_t :=
  init_record a AUDITOR_REC_CHAN_CONNECT 0 (u8 (Z.land src_domain 255))
     (u8 (Z.land src_protocol 255)) (u8 (Z.land src_channel_id 255)) dst_channel_id dst_domain
     (pack_vals [src_cap_mask; dst_cap_mask; 0; 0]).
Definition emit_chan_connect_record (a : auditor) (src_channel_id src_domain src_cap_mask src_protocol dst_channel_id dst_domain dst_cap_mask : Z) : auditor :=
  tlm_write_bytes a (record_bytes (chan_connect_record a src_channel_id src_domain src_cap_mask src_protocol dst_channel_id dst_domain dst_cap_mask)).

Definition auditor_chan_connect (a : auditor)
    (src_channel_id src_domain src_cap_mask src_protocol dst_channel_id dst_domain dst_cap_mask : Z)
    : auditor :=
  if negb (au_enabled a) then a
  else emit_chan_connect_record a src_channel_id src_domain src_cap_mask src_protocol
         dst_channel_id dst_domain dst_cap_mask.

Definition domain_edge_record (a : auditor) (src_domain dst_domain added : Z) : auditor_record_t :=
  init_record a AUDITOR_REC_DOMAIN_EDGE 0 (u8 (Z.land src_domain 255)) 0
     (u8 (Z.land dst_domain 255)) src_domain dst_domain (pack_vals [added; 0; 0; 0]).
Definition emit_domain_edge_record (a : auditor) (src_domain dst_domain added : Z) : auditor :=
  tlm_write_bytes a (record_bytes (domain_edge_record a src_domain dst_domain added)).

Definition auditor_domain_edge (a : auditor) (src_domain dst_domain added : Z) : auditor :=
  if negb (au_enabled a) then a else emit_domain_edge_record a src_domain dst_domain added.

Definition task_create_record (a : auditor) (task_id parent_task_id cap_mask domain priority kernel_stack_top : Z) : auditor_record_t :=
  let p := if priority <? 0 then 0 else priority in
  let p := if p >? 255 then 255 else p in
  init_record a AUDITOR_REC_TASK_CREATE (u8 p) (u8 (Z.land domain 255)) 0 0 task_id
     parent_task_id (pack_vals [cap_mask; domain; kernel_stack_top; 0]).
Definition emit_task_create_record (a : auditor) (task_id parent_task_id cap_mask domain priority kernel_stack_top : Z) : auditor :=
  tlm_write_bytes a (record_bytes (task_create_record a task_id parent_task_id cap_mask domain priority kernel_stack_top)).

Definition auditor_task_create (a : auditor)
    (task_id parent_task_id cap_mask domain priority kernel_stack_top : Z) : auditor :=
  if negb (au_enabled a) then a
  else emit_task_create_record a task_id parent_task_id cap_mask domain priority kernel_stack_top.

Definition task_exit_record (a : auditor) (task_id exit_code : Z) : auditor_record_t :=
  init_record a AUDITOR_REC_TASK_EXIT 0 0 0 0 task_id (u32 exit_code) (replicate 16 0).
Definition emit_task_exit_record (a : auditor) (task_id exit_code : Z) : auditor :=
  tlm_write_bytes a (record_bytes (task_exit_record a task_id exit_code)).

Definition auditor_task_exit (a : auditor) (task_id exit_code : Z) : auditor :=
  if negb (au_enabled a) then a else emit_task_exit_record a task_id exit_code.

(** The fault and workflow records read [*current_task]; [cur] is the task
    it points to, [None] for NULL. *)
Definition cur_domain (cur : option task_t) : Z :=
  match cur with Some t => u8 (Z.land (t_domain t) 255) | None => 0 end.
Definition cur_task_id (cur : option task_t) : Z :=
  match cur with Some t => t_task_id t | None => 0 end.

Definition fault_record (a : auditor) (cur : option task_t)
    (fault_pc dfar dfsr spsr fault_type : Z) : auditor_record_t :=
  init_record a AUDITOR_REC_FAULT 0 (cur_domain cur) fault_type 0 fault_pc dfar
     (pack_vals [dfsr; spsr; cur_task_id cur; 0]).
Definition emit_fault_record (a : auditor) (cur : option task_t)
    (fault_pc dfar dfsr spsr fault_type : Z) : auditor :=
  tlm_write_bytes a (record_bytes (fault_record a cur fault_pc dfar dfsr spsr fault_type)).

Definition auditor_fault (a : auditor) (cur : option task_t)
    (fault_pc dfar dfsr spsr fault_type : Z) : auditor :=
  if negb (au_enabled a) then a else emit_fault_record a cur fault_pc dfar dfsr spsr fault_type.

(** kernel/arch/arm/abort_diag.c: the diagnosis the abort stubs call. *)
Definition arm_pabort_diagnose (a : auditor) (cur : option task_t) (fault_pc spsr : Z) : auditor :=
  auditor_fault a cur fault_pc 0 0 spsr AUDITOR_FAULT_PABORT.

Definition arm_dabort_diagnose (a : auditor) (cur : option task_t) (fault_pc dfar dfsr spsr : Z)
    : auditor :=
  let is_write := Z.land (Z.shiftr dfsr 11) 1 in
  let ft := if negb (is_write =? 0) then AUDITOR_FAULT_DABORT_WRITE
            else AUDITOR_FAULT_DABORT_READ in
  auditor_fault a cur fault_pc dfar dfsr spsr ft.

Definition workflow_record (a : auditor) (cur : option task_t)
    (workflow_id owner_task_id step_index status done_count step_rv event : Z) : auditor_record_t :=
  init_record a AUDITOR_REC_WORKFLOW 0 (cur_domain cur) event (u8 (Z.land step_index 255))
     (u32 (Z.land workflow_id 4294967295))
     (u32 (Z.land (Z.shiftr workflow_id 32) 4294967295))
     (pack_vals [owner_task_id; status; done_count; u32 step_rv]).
Definition emit_workflow_record (a : auditor) (cur : option task_t)
    (workflow_id owner_task_id step_index status done_count step_rv event : Z) : auditor :=
  tlm_write_bytes a (record_bytes (workflow_record a cur workflow_id owner_task_id step_index status done_count step_rv event)).

Definition auditor_workflow (a : auditor) (cur : option task_t)
    (workflow_id owner_task_id step_index status done_count step_rv event : Z) : auditor :=
  if negb (au_enabled a) then a
  else emit_workflow_record a cur workflow_id owner_task_id step_index status done_count step_rv
         event.

(** [auditor_deny]: the deny context in [checksum] and [payload_hash]. *)
Definition deny_record (a : auditor) (info : auditor_deny_info_t) : auditor_record_t :=
  let parent24 := Z.land (d_parent_task_id info) 16777215 in
  let depth := Z.land (d_lineage_depth info) 15 in
  let sibs := Z.land (d_sibling_count info) 15 in
  init_record a AUDITOR_REC_DENY (d_priority info) (d_src_domain info) (d_protocol info)
    (d_src_channel info) (d_operation info)
    (Z.lor (Z.lor (d_reason info) (Z.shiftl (d_dst_domain info) 8))
           (Z.shiftl (d_dst_channel info) 16))
    (pack_vals [d_granted_caps info; d_required_caps info;
                if d_dst_channel info =? 255 then 4294967295 else d_dst_channel info] ++
     [u8 parent24; u8 (Z.shiftr parent24 8); u8 (Z.shiftr parent24 16);
      u8 (Z.lor (Z.shiftl depth 4) sibs)]).

Definition auditor_deny (a : auditor) (info : option auditor_deny_info_t) : auditor :=
  match info with
  | Some i => if negb (au_enabled a) then a
              else tlm_write_bytes a (record_bytes (deny_record a i))
  | None => a
  end.

(** ** Service entry points *)

Definition auditor_init (a : auditor) : auditor :=
  Auditor (ring_init (au_ring a)) true (au_tick_count a) (au_heartbeat a) (au_jiffies a)
          (au_tlm a).

(** The drain loop; its bound is the number of records left in the batch. *)
Fixpoint drain (batch : nat) (a : auditor) : auditor :=
  match batch with
  | O => a
  | S n =>
      match ring_pop (au_ring a) with
      | None => a
      | Some (m, r) => drain n (emit_msg_record (set_ring r a) m)
      end
  end.

Definition auditor_tick (a : auditor) : auditor :=
  if negb (au_enabled a) then a
  else
    let a := if r_overflow (au_ring a) >? 0
             then let a1 := emit_overflow_record a (r_overflow (au_ring a)) in
                  set_ring (set_overflow 0 (au_ring a1)) a1
             else a in
    let a := drain DRAIN_BATCH a in
    let a := set_counters (u64 (au_tick_count a + 1)) (u32 (au_heartbeat a + 1)) a in
    if au_heartbeat a >=? 100
    then set_counters (au_tick_count a) 0 (emit_heartbeat_record a)
    else a.

(** ** The host-side decoder: scripts/read_telemetry.py *)
Module Host.
Definition RECORD_SIZE : nat := 44.
Definition TASK_PARENT_NONE : Z := 4294967295.

(** [data[off : off+n]]. *)
Definition slice (data : list Z) (off n : nat) : list Z := take n (drop off data).

(** [struct.unpack("<IHHQBBBBII16s", raw)]; [None] is the exception a
    wrong length raises. *)
Definition parse_record (raw : list Z) : option auditor_record_t :=
  if (length raw =? RECORD_SIZE)%nat then
    Some (AuditRec (le_val (slice raw 0 4)) (le_val (slice raw 4 2)) (le_val (slice raw 6 2))
            (le_val (slice raw 8 8)) (le_val (slice raw 16 1)) (le_val (slice raw 17 1))
            (le_val (slice raw 18 1)) (le_val (slice raw 19 1)) (le_val (slice raw 20 4))
            (le_val (slice raw 24 4)) (slice raw 28 16))
  else None.

Definition unpack_le32 (data : list Z) (off : nat) : Z := le_val (slice data off 4).

(** [tail_records(path, follow=False)] on a whole capture; [fuel] bounds
    the loop by the number of bytes. *)
Fixpoint tail_chunks (fuel : nat) (buf : list Z) : list (list Z) :=
  match fuel with
  | O => []
  | S f => if (RECORD_SIZE <=? length buf)%nat
           then take RECORD_SIZE buf :: tail_chunks f (drop RECORD_SIZE buf)
           else []
  end.
Definition tail_records (capture : list Z) : list (list Z) :=
  tail_chunks (length capture) capture.

(** The fields [format_record] reads from a DENY record. *)
Record deny_view := DenyView {
  dv_reason : Z; dv_dst_domain : Z; dv_dst_channel : Z; dv_granted : Z; dv_required : Z;
  dv_dst_ch32 : Z; dv_parent_id : Z; dv_depth : Z; dv_siblings : Z
}.
Definition view_deny (r : auditor_record_t) : deny_view :=
  let h := ar_payload_hash r in
  let parent24 := Z.lor (Z.lor (h !!! 12%nat) (Z.shiftl (h !!! 13%nat) 8))
                        (Z.shiftl (h !!! 14%nat) 16) in
  DenyView (Z.land (ar_checksum r) 255) (Z.land (Z.shiftr (ar_checksum r) 8) 255)
    (Z.land (Z.shiftr (ar_checksum r) 16) 255)
    (unpack_le32 h 0) (unpack_le32 h 4) (unpack_le32 h 8)
    (if parent24 =? 16777215 then TASK_PARENT_NONE else parent24)
    (Z.land (Z.shiftr (h !!! 15%nat) 4) 15) (Z.land (h !!! 15%nat) 15).

(** The fields it reads from a WORKFLOW record. *)
Record workflow_view := WorkflowView {
  wv_id : Z; wv_owner : Z; wv_status : Z; wv_done : Z; wv_rv : Z; wv_event : Z; wv_step : Z
}.
Definition view_workflow (r : auditor_record_t) : workflow_view :=
  let h := ar_payload_hash r in
  let rv_raw := unpack_le32 h 12 in
  WorkflowView (Z.lor (Z.shiftl (ar_checksum r) 32) (ar_operation r))
    (unpack_le32 h 0) (unpack_le32 h 4) (unpack_le32 h 8)
    (if 2147483648 <=? rv_raw then rv_raw - 4294967296 else rv_raw)
    (ar_protocol r) (ar_channel_id r).
End Host.

(** ** Well-formed records *)

Definition is_byte (z : Z) : Prop := 0 <= z < 256.
Definition is_u32 (z : Z) : Prop := 0 <= z < 4294967296.
#[export] Hint Unfold is_byte is_u32 : lugh.

Record record_wf (r : auditor_record_t) : Prop := {
  rw_magic : is_u32 (ar_magic r);
  rw_version : 0 <= ar_version r < 65536;
  rw_type : 0 <= ar_record_type r < 65536;
  rw_jiffies : 0 <= ar_jiffies r < 18446744073709551616;
  rw_priority : is_byte (ar_priority r);
  rw_src_domain : is_byte (ar_src_domain r);
  rw_protocol : is_byte (ar_protocol r);
  rw_channel_id : is_byte (ar_channel_id r);
  rw_operation : is_u32 (ar_operation r);
  rw_checksum : is_u32 (ar_checksum r);
  rw_hash : length (ar_payload_hash r) = 16%nat
}.

Lemma le_val_id n z : 0 <= z < 2 ^ (8 * Z.of_nat n) -> le_val (le_bytes n z) = z.
Proof. intros. rewrite le_val_bytes. by apply Z.mod_small. Qed.

Lemma length_pack_vals vs : length (pack_vals vs) = (4 * length vs)%nat.
Proof.
  unfold pack_vals. induction vs as [|v vs IH]; [done|].
  rewrite fmap_cons. cbn [concat length]. rewrite length_app, length_le_bytes, IH. lia.
Qed.

Lemma length_fingerprint p : length (payload_fingerprint p) = 16%nat.
Proof. done. Qed.

Lemma length_record_bytes r :
  length (ar_payload_hash r) = 16%nat -> length (record_bytes r) = Host.RECORD_SIZE.
Proof. intros Hh. unfold record_bytes. rewrite !length_app, !length_le_bytes, Hh. done. Qed.

Lemma parse_record_bytes r : record_wf r -> Host.parse_record (record_bytes r) = Some r.
Proof.
  intros [Hm Hv Ht Hj Hp Hd Hpr Hc Ho Hs Hh]. unfold Host.parse_record.
  rewrite length_record_bytes by done. cbn [Nat.eqb Host.RECORD_SIZE].
  unfold record_bytes, Host.slice. cbn [le_bytes app take drop].
  destruct r as [m v t j p d pr c o s h]. cbn in *. do 2 f_equal.
  all: try (apply (le_val_id 1); assumption).
  all: try (apply (le_val_id 2); assumption).
  all: try (apply (le_val_id 4); assumption).
  all: try (apply (le_val_id 8); assumption).
  rewrite drop_0. apply take_ge. lia.
Qed.

Lemma tail_chunks_records rs fuel :
  Forall (fun r => length (ar_payload_hash r) = 16%nat) rs -> (length rs <= fuel)%nat ->
  Host.tail_chunks fuel (concat (record_bytes <$> rs)) = record_bytes <$> rs.
Proof.
  intros Hrs. revert fuel. induction Hrs as [|r rs Hr _ IH]; intros fuel Hf; cbn in Hf.
  - by destruct fuel.
  - destruct fuel as [|fuel]; [lia|]. cbn [fmap list_fmap concat Host.tail_chunks].
    pose proof (length_record_bytes r Hr) as Hl.
    rewrite length_app, Hl.
    destruct (Host.RECORD_SIZE <=? _)%nat eqn:E; [|apply Nat.leb_gt in E; lia].
    rewrite <-Hl, take_app_length, drop_app_length. f_equal. apply IH. lia.
Qed.

Lemma length_concat_records rs :
  Forall (fun r => length (ar_payload_hash r) = 16%nat) rs ->
  (length rs <= length (concat (record_bytes <$> rs)))%nat.
Proof.
  induction 1 as [|r rs Hr _ IH]; [done|]. cbn [fmap list_fmap concat length].
  rewrite length_app, length_record_bytes by done. cbn. lia.
Qed.

#[global] Arguments record_bytes : simpl never.

(** What the port has received is a sequence [rs] of well-formed records. *)
Definition tlm_holds (a : auditor) (rs : list auditor_record_t) : Prop :=
  au_tlm a = concat (record_bytes <$> rs) /\ Forall record_wf rs.

Lemma tlm_holds_snoc a rs r :
  tlm_holds a rs -> record_wf r -> tlm_holds (tlm_write_bytes a (record_bytes r)) (rs ++ [r]).
Proof.
  intros [Ha Hrs] Hr. split.
  - cbn. rewrite Ha, fmap_app, concat_app. cbn. by rewrite app_nil_r.
  - by apply Forall_app_2; [|constructor].
Qed.

Lemma decode_records rs :
  Forall record_wf rs ->
  Host.parse_record <$> Host.tail_records (concat (record_bytes <$> rs)) = Some <$> rs.
Proof.
  intros Hrs. assert (Hl : Forall (fun r => length (ar_payload_hash r) = 16%nat) rs)
    by (eapply Forall_impl; [exact Hrs|apply rw_hash]).
  unfold Host.tail_records. rewrite tail_chunks_records by auto using length_concat_records.
  rewrite <-list_fmap_compose. apply Forall_fmap_ext_1.
  eapply Forall_impl; [exact Hrs|apply parse_record_bytes].
Qed.

(** The host decoder reads back every record the kernel wrote, in order
    and with the same fields: the captured byte stream cuts into 44-byte
    chunks and each parses to the record that was emitted. *)
Theorem host_reads_back_stream (a : auditor) (rs : list auditor_record_t) :
  tlm_holds a rs ->
  Host.parse_record <$> Host.tail_records (au_tlm a) = Some <$> rs.
Proof. intros [-> Hrs]. by apply decode_records. Qed.

Lemma record_bytes_bytes r : Forall is_byte (ar_payload_hash r) -> Forall is_byte (record_bytes r).
Proof. intros Hh. unfold record_bytes, is_byte. rewrite !Forall_app. repeat split; done || apply le_bytes_bytes. Qed.

(** ** What each emitter sends *)

Lemma pack_vals_wf4 x y z w : length (pack_vals [x; y; z; w]) = 16%nat.
Proof. done. Qed.

Lemma land_255_u8 z : Z.land z 255 = u8 z.
Proof. apply land_255. Qed.

(** A field written as [(uint8_t)(x & 0xFF)]. *)
Lemma u8_land_255 z : u8 (Z.land z 255) = u8 z.
Proof. rewrite land_255_u8. apply u8_u8. Qed.
#[export] Hint Rewrite u8_land_255 land_255_u8 : lugh.

Lemma init_record_wf a type prio dom proto ch op sum hash :
  0 <= type < 65536 -> 0 <= au_jiffies a < 18446744073709551616 ->
  is_byte prio -> is_byte dom -> is_byte proto -> is_byte ch -> is_u32 op -> is_u32 sum ->
  length hash = 16%nat ->
  record_wf (init_record a type prio dom proto ch op sum hash).
Proof. intros. split; cbn; try done; unfold is_u32; lia. Qed.

(** The drain loop pops a prefix of the ring and sends one MSG record each. *)
Lemma drain_spec n a :
  ring_wf (au_ring a) ->
  exists r,
    drain n a = Auditor r (au_enabled a) (au_tick_count a) (au_heartbeat a) (au_jiffies a)
      (au_tlm a ++ concat (record_bytes <$> (msg_record a <$> take n (ring_contents (au_ring a))))) /\
    ring_wf r /\ ring_contents r = drop n (ring_contents (au_ring a)) /\
    r_overflow r = r_overflow (au_ring a).
Proof.
  revert a; induction n as [|n IH]; intros a Hr.
  - exists (au_ring a). cbn. rewrite app_nil_r, drop_0. by destruct a.
  - cbn [drain]. destruct (ring_contents (au_ring a)) as [|m q] eqn:Ec.
    + rewrite ring_pop_empty by done. exists (au_ring a). cbn.
      rewrite app_nil_r. by destruct a.
    + destruct (ring_pop_cons _ m q Hr Ec) as (r & -> & Hw & Hq & Ho).
      destruct (IH (emit_msg_record (set_ring r a) m) Hw) as (r' & -> & Hw' & Hc' & Ho').
      exists r'. split; [|split; [done|]].
      * cbn. rewrite Hq, <-app_assoc. done.
      * cbn in Hc', Ho'. by rewrite Hc', Ho', Hq, Ho.
Qed.

(** The records one tick sends. *)
Definition tick_records (a : auditor) : list auditor_record_t :=
  (if r_overflow (au_ring a) >? 0 then [overflow_record a (r_overflow (au_ring a))] else []) ++
  (msg_record a <$> take DRAIN_BATCH (ring_contents (au_ring a))) ++
  (if u32 (au_heartbeat a + 1) >=? 100 then [heartbeat_record a] else []).

(** A tick of an armed auditor sends, in this order, one OVERFLOW
    record when messages were refused since the last tick, the MSG records
    of the 32 oldest queued messages, and a HEARTBEAT every 100th tick; it
    leaves the younger messages queued and the drop counter at zero. *)
Theorem auditor_tick_spec (a : auditor) :
  au_enabled a = true -> ring_wf (au_ring a) ->
  au_tlm (auditor_tick a) = au_tlm a ++ concat (record_bytes <$> tick_records a) /\
  ring_wf (au_ring (auditor_tick a)) /\
  ring_contents (au_ring (auditor_tick a)) = drop DRAIN_BATCH (ring_contents (au_ring a)) /\
  r_overflow (au_ring (auditor_tick a)) = 0 /\
  au_heartbeat (auditor_tick a)
    = (if u32 (au_heartbeat a + 1) >=? 100 then 0 else u32 (au_heartbeat a + 1)).
Proof.
  intros He Hr. unfold auditor_tick. rewrite He. cbn [negb].
  set (a1 := if r_overflow (au_ring a) >? 0 then _ else a).
  assert (H1 : a1 = Auditor (set_overflow 0 (au_ring a)) true (au_tick_count a) (au_heartbeat a)
                (au_jiffies a) (au_tlm a ++ concat (record_bytes <$>
                (if r_overflow (au_ring a) >? 0
                 then [overflow_record a (r_overflow (au_ring a))] else [])))).
  { subst a1. destruct Hr as [_ _ Ho _]. destruct (r_overflow (au_ring a) >? 0) eqn:E; bools.
    - cbn. rewrite app_nil_r. unfold set_ring. cbn. by rewrite He.
    - cbn. rewrite app_nil_r. destruct a as [[h t o b] en tc hb j tl]. cbn in *. subst.
      by replace o with 0 by lia. }
  rewrite H1. clearbody a1. subst a1.
  assert (Hr1 : ring_wf (set_overflow 0 (au_ring a))) by (destruct Hr; by split).
  destruct (drain_spec DRAIN_BATCH (Auditor (set_overflow 0 (au_ring a)) true (au_tick_count a)
    (au_heartbeat a) (au_jiffies a) (au_tlm a ++ concat (record_bytes <$>
      (if r_overflow (au_ring a) >? 0
       then [overflow_record a (r_overflow (au_ring a))] else []))))) as (r & -> & Hw & Hc & Ho);
    [done|].
  unfold tick_records. rewrite !fmap_app, !concat_app. cbn.
  destruct (u32 (au_heartbeat a + 1) >=? 100) eqn:E; cbn;
    rewrite ?app_nil_r, <-?app_assoc; repeat split; done || apply Hw.
Qed.

Definition auditor_demo : auditor :=
  Auditor (ring_push (ring_init ring_bss) message_zero).2 true 0 99 7 [].

Example auditor_tick_spec_witness :
  length (au_tlm (auditor_tick auditor_demo)) = 88%nat /\
  ring_contents (au_ring (auditor_tick auditor_demo)) = [].
Proof.
  destruct (auditor_tick_spec auditor_demo) as (Ht & _ & Hc & _);
    [reflexivity|by apply ring_push_wf, ring_init_wf|].
  split; [rewrite Ht; vm_compute; reflexivity|rewrite Hc; vm_compute; reflexivity].
Defined.

(** ** Denials as the host sees them *)

Record deny_wf (i : auditor_deny_info_t) : Prop := {
  dw_dst_domain : is_byte (d_dst_domain i);
  dw_dst_channel : is_byte (d_dst_channel i);
  dw_reason : is_byte (d_reason i);
  dw_granted : is_u32 (d_granted_caps i);
  dw_required : is_u32 (d_required_caps i);
  dw_parent : d_parent_task_id i = Types.TASK_PARENT_NONE \/ 0 <= d_parent_task_id i < 16777215;
  dw_depth : 0 <= d_lineage_depth i < 16;
  dw_siblings : 0 <= d_sibling_count i < 16
}.

(** Reading the words and bytes of a packed [payload_hash]. *)
Lemma unpack_word0 x rest : is_u32 x -> Host.unpack_le32 (le_bytes 4 x ++ rest) 0 = x.
Proof. intros. unfold Host.unpack_le32, Host.slice. cbn. by apply (le_val_id 4). Qed.
Lemma unpack_word1 x y rest :
  is_u32 y -> Host.unpack_le32 (le_bytes 4 x ++ le_bytes 4 y ++ rest) 4 = y.
Proof. apply unpack_word0. Qed.
Lemma unpack_word2 x y z rest :
  is_u32 z -> Host.unpack_le32 (le_bytes 4 x ++ le_bytes 4 y ++ le_bytes 4 z ++ rest) 8 = z.
Proof. apply unpack_word0. Qed.
Lemma unpack_word3 x y z w rest :
  is_u32 w ->
  Host.unpack_le32 (le_bytes 4 x ++ le_bytes 4 y ++ le_bytes 4 z ++ le_bytes 4 w ++ rest) 12 = w.
Proof. apply unpack_word0. Qed.

Lemma pack_vals3 x y z rest :
  pack_vals [x; y; z] ++ rest = le_bytes 4 x ++ le_bytes 4 y ++ le_bytes 4 z ++ rest.
Proof. done. Qed.

Lemma shiftr_land_byte z k :
  0 <= k -> Z.land (Z.shiftr z k) 255 = z / 2 ^ k mod 256.
Proof. intros. by rewrite land_255, Z.shiftr_div_pow2. Qed.

(** The deny context of [checksum]. *)
Lemma deny_checksum_sum x y z :
  is_byte x -> is_byte y -> is_byte z ->
  Z.lor (Z.lor x (Z.shiftl y 8)) (Z.shiftl z 16) = x + 256 * y + 65536 * z.
Proof.
  unfold is_byte. intros. rewrite (lor_shiftl_add x) by lia.
  rewrite lor_shiftl_add by lia. lia.
Qed.

Lemma land_15 z : Z.land z 15 = z mod 16.
Proof. exact (land_ones_mod z 4 ltac:(lia)). Qed.

Lemma nibbles_view d s :
  0 <= d < 16 -> 0 <= s < 16 ->
  let b := u8 (Z.lor (Z.shiftl (Z.land d 15) 4) (Z.land s 15)) in
  Z.land (Z.shiftr b 4) 15 = d /\ Z.land b 15 = s.
Proof.
  intros Hd Hs. cbv zeta. rewrite (land_15 d), (land_15 s), !(Z.mod_small _ 16) by done.
  rewrite Z.lor_comm, lor_shiftl_add, !land_15, Z.shiftr_div_pow2 by lia.
  change (2 ^ 4) with 16. unfold u8. lia.
Qed.

Lemma parent24_view p :
  p = Types.TASK_PARENT_NONE \/ 0 <= p < 16777215 ->
  let p24 := Z.land p 16777215 in
  let q := Z.lor (Z.lor (u8 p24) (Z.shiftl (u8 (Z.shiftr p24 8)) 8))
                 (Z.shiftl (u8 (Z.shiftr p24 16)) 16) in
  (if q =? 16777215 then Host.TASK_PARENT_NONE else q) = p.
Proof.
  intros Hp. cbv zeta. rewrite deny_checksum_sum by apply u8_range.
  assert (H24 : Z.land p 16777215 = p mod 16777216) by exact (land_ones_mod p 24 ltac:(lia)).
  rewrite H24, !Z.shiftr_div_pow2 by lia. clear H24. change (2 ^ 8) with 256. change (2 ^ 16) with 65536.
  unfold u8, Types.TASK_PARENT_NONE, Host.TASK_PARENT_NONE in *.
  destruct Hp as [->|Hp]; [done|]. split_if; lia.
Qed.

(** What the host displays for a denial is what the kernel recorded:
    reason, destination, granted and required capabilities, the caller's
    parent (the ROOT sentinel included) and the two lineage nibbles all
    survive the packing into [checksum] and [payload_hash]. *)
Theorem host_view_of_denial (a : auditor) (i : auditor_deny_info_t) :
  deny_wf i ->
  Host.view_deny (deny_record a i) =
  Host.DenyView (d_reason i) (d_dst_domain i) (d_dst_channel i) (d_granted_caps i)
    (d_required_caps i) (if d_dst_channel i =? 255 then 4294967295 else d_dst_channel i)
    (d_parent_task_id i) (d_lineage_depth i) (d_sibling_count i).
Proof.
  intros [Hdd Hdc Hre Hg Hq Hp Hld Hs]. unfold Host.view_deny, deny_record, init_record.
  cbn [ar_checksum ar_payload_hash].
  set (dst32 := if d_dst_channel i =? 255 then 4294967295 else d_dst_channel i).
  assert (Hdst : is_u32 dst32) by (subst dst32; unfold is_u32, is_byte in *; split_if; lia).
  rewrite !pack_vals3, unpack_word0, unpack_word1, unpack_word2 by done.
  rewrite deny_checksum_sum by done. cbn -[Z.lor Z.shiftl Z.shiftr Z.land u8 dst32].
  destruct (nibbles_view _ _ Hld Hs) as [-> ->].
  pose proof (parent24_view _ Hp) as HP. cbv zeta in HP. rewrite HP. clear HP.
  rewrite !land_255, !Z.shiftr_div_pow2 by lia.
  change (2 ^ 8) with 256. change (2 ^ 16) with 65536. unfold is_byte in *.
  f_equal; lia.
Qed.

Definition deny_demo : auditor_deny_info_t := DenyInfo 0 1 3 255 2 4 0 0 3 1 4294967295 0 2.

Example host_view_of_denial_witness :
  Host.view_deny (deny_record auditor_demo deny_demo) =
  Host.DenyView 4 1 255 3 1 4294967295 4294967295 0 2.
Proof.
  apply (host_view_of_denial auditor_demo deny_demo).
  split; cbn; unfold is_byte, is_u32; lia || (by left).
Defined.

(** A step record carries the whole 64-bit workflow id, the step, the
    event, the owner, the status, the undo cursor and the callback's signed
    result to the host. *)
Theorem host_view_of_workflow (a : auditor) (cur : option task_t)
    (id owner step status done_ rv ev : Z) :
  0 <= id < 18446744073709551616 -> is_u32 owner -> is_byte step -> is_u32 status ->
  is_u32 done_ -> -2147483648 <= rv < 2147483648 ->
  Host.view_workflow (workflow_record a cur id owner step status done_ rv ev) =
  Host.WorkflowView id owner status done_ rv ev step.
Proof.
  intros Hid Ho Hs Hst Hd Hrv. unfold Host.view_workflow, workflow_record, init_record.
  cbn [ar_checksum ar_payload_hash ar_operation ar_protocol ar_channel_id].
  change (pack_vals [owner; status; done_; u32 rv]) with
    (le_bytes 4 owner ++ le_bytes 4 status ++ le_bytes 4 done_ ++ le_bytes 4 (u32 rv) ++ []).
  rewrite unpack_word0, unpack_word1, unpack_word2, unpack_word3 by (done || apply u32_range).
  rewrite u8_land_255, u8_id by done.
  change 4294967295 with (2 ^ 32 - 1). rewrite !land_ones_mod by lia.
  rewrite Z.shiftr_div_pow2, Z.lor_comm by lia. change (2 ^ 32) with 4294967296.
  rewrite lor_shiftl_add by (lia || apply u32_range).
  change (2 ^ 32) with 4294967296. unfold u32.
  f_equal; [lia|]. split_if; lia.
Qed.

Example host_view_of_workflow_witness :
  Host.view_workflow (workflow_record auditor_demo None 4294967298 1 2 5 2 (-1) 4) =
  Host.WorkflowView 4294967298 1 5 2 (-1) 4 2.
Proof.
  apply (host_view_of_workflow auditor_demo None 4294967298 1 2 5 2 (-1) 4);
    unfold is_byte, is_u32; lia.
Defined.

Example host_reads_back_stream_witness :
  Host.parse_record <$> Host.tail_records (au_tlm (emit_heartbeat_record auditor_demo)) =
  [Some (heartbeat_record auditor_demo)].
Proof.
  apply (host_reads_back_stream (emit_heartbeat_record auditor_demo)
           [heartbeat_record auditor_demo]).
  split; [reflexivity|]. constructor; [|constructor].
  apply init_record_wf; first [reflexivity | split; vm_compute; congruence].
Defined.
