(* ===== verification/RingConc.v ===== *)
(** * The auditor ring, one memory access at a time

    kernel/ring_buffer.c between a producer ([ipc_send], which pushes) and a
    consumer ([auditor_tick], which reports the overflow count and pops up to
    32 messages).  A turn of either side is one access to [head], [tail],
    [overflow] or one byte of [buf]; turns interleave in any order.  Each
    operation emits one event, at the access where it takes effect; the
    events of every interleaving are a run of the bounded FIFO.  Accesses
    are sequentially consistent. *)
From S2P Require Import Prelude Types Circular Ring Auditor.

(** A message is its [n] bytes. *)
Abbreviation bytes := (list Z).

(** What an operation answered when it took effect. *)
Inductive ev := EPush (m : bytes) (stored : bool) | EPop (m : option bytes) | EReport (dropped : Z).

(** Where the producer is in [ring_push]: about to compare, to count a
    refused message (its two accesses), to take the slot's address, to copy
    byte [i], to store [head]. *)
Inductive pstate :=
  | PIdle
  | PCheck (m : bytes) (next : Z)
  | PFull
  | PBump (o : Z)
  | PSlot (m : bytes) (next : Z)
  | PCopy (m : bytes) (next h : Z) (i : nat)
  | PPublish (m : bytes) (next : Z).
(** Where the consumer is in [auditor_tick] with [drained] messages popped:
    about to report and to clear the overflow count, to enter [ring_pop], to
    compare, to take the slot's address, to copy byte [i], to read and to
    store [tail]. *)
Inductive cstate :=
  | CIdle
  | CReport
  | CReset
  | CPop (drained : nat)
  | CCheck (drained : nat) (h : Z)
  | CSlot (drained : nat)
  | CCopy (drained : nat) (t : Z) (i : nat) (out : bytes)
  | CNext (drained : nat) (out : bytes)
  | CPublish (drained : nat) (t : Z) (out : bytes).

Record conc := Conc {
  c_head : Z; c_tail : Z; c_overflow : Z; c_buf : list bytes;
  c_prod : pstate; c_script : list bytes; c_cons : cstate
}.
Definition with_prod (p : pstate) (c : conc) : conc :=
  Conc (c_head c) (c_tail c) (c_overflow c) (c_buf c) p (c_script c) (c_cons c).
Definition with_cons (k : cstate) (c : conc) : conc :=
  Conc (c_head c) (c_tail c) (c_overflow c) (c_buf c) (c_prod c) (c_script c) k.

Section Steps.
Context (n : nat).

(** A turn of the producer; [c_script] are the messages still to send. *)
Definition producer (c : conc) : conc * list ev :=
  match c_prod c with
  | PIdle =>
      match c_script c with
      | [] => (c, [])
      | m :: ms => (Conc (c_head c) (c_tail c) (c_overflow c) (c_buf c) (PCheck m (ring_next (c_head c))) ms (c_cons c), [])
      end
  | PCheck m next =>
      if next =? c_tail c then (with_prod PFull c, [EPush m false]) else (with_prod (PSlot m next) c, [])
  | PFull => (with_prod (PBump (c_overflow c)) c, [])
  | PBump o => (Conc (c_head c) (c_tail c) (u32 (o + 1)) (c_buf c) PIdle (c_script c) (c_cons c), [])
  | PSlot m next => (with_prod (PCopy m next (c_head c) 0) c, [])
  | PCopy m next h i =>
      if (i <? n)%nat
      then (Conc (c_head c) (c_tail c) (c_overflow c)
              (alter (fun cell => <[i := m !!! i]> cell) (Z.to_nat h) (c_buf c)) (PCopy m next h (S i)) (c_script c) (c_cons c), [])
      else (with_prod (PPublish m next) c, [])
  | PPublish m next => (Conc next (c_tail c) (c_overflow c) (c_buf c) PIdle (c_script c) (c_cons c), [EPush m true])
  end.

(** A turn of the consumer.  [head == tail] is two accesses and a branch.  An
    empty ring is noticed when [head] is read, and that is where the answer
    is emitted: [tail] is the consumer's own and does not change before
    [CCheck] compares it with the [h] that was read, so the branch taken
    there is the answer already given, while the ring itself may have filled
    in between. *)
Definition consumer (c : conc) : conc * list ev :=
  match c_cons c with
  | CIdle => (with_cons (if c_overflow c >? 0 then CReport else CPop 0) c, [])
  | CReport => (with_cons CReset c, [EReport (c_overflow c)])
  | CReset => (Conc (c_head c) (c_tail c) 0 (c_buf c) (c_prod c) (c_script c) (CPop 0), [])
  | CPop d =>
      if (d <? DRAIN_BATCH)%nat
      then (with_cons (CCheck d (c_head c)) c, if c_head c =? c_tail c then [EPop None] else [])
      else (with_cons CIdle c, [])
  | CCheck d h => (with_cons (if h =? c_tail c then CIdle else CSlot d) c, [])
  | CSlot d => (with_cons (CCopy d (c_tail c) 0 []) c, [])
  | CCopy d t i out =>
      if (i <? n)%nat
      then (with_cons (CCopy d t (S i) (out ++ [(c_buf c !!! Z.to_nat t) !!! i])) c, [])
      else (with_cons (CNext d out) c, [])
  | CNext d out => (with_cons (CPublish d (c_tail c) out) c, [])
  | CPublish d t out =>
      (Conc (c_head c) (ring_next t) (c_overflow c) (c_buf c) (c_prod c) (c_script c) (CPop (S d)), [EPop (Some out)])
  end.

Inductive side := Prod | Cons.
Definition turn (who : side) (c : conc) : conc * list ev := match who with Prod => producer c | Cons => consumer c end.
Fixpoint interleave (sched : list side) (c : conc) : conc * list ev :=
  match sched with
  | [] => (c, [])
  | who :: sched => let '(c1, e1) := turn who c in let '(c2, e2) := interleave sched c1 in (c2, e1 ++ e2)
  end.
End Steps.

(** After [ring_init], with nothing in progress. *)
Definition conc_init (buf script : list bytes) : conc := Conc 0 0 0 buf PIdle script CIdle.

(** ** The specification *)

(** The queue after an event, [None] when the answer is wrong. *)
Definition fifo_step (q : list bytes) (e : ev) : option (list bytes) :=
  match e with
  | EPush m true => if (length q <? 255)%nat then Some (q ++ [m]) else None
  | EPush m false => if (length q =? 255)%nat then Some q else None
  | EPop None => match q with [] => Some [] | _ => None end
  | EPop (Some m) => match q with [] => None | m' :: q => if decide (m = m') then Some q else None end
  | EReport _ => Some q
  end.
Fixpoint fifo_run (q : list bytes) (es : list ev) : option (list bytes) :=
  match es with [] => Some q | e :: es => q ← fifo_step q e; fifo_run q es end.
Definition accepted (es : list ev) : list bytes := omap (fun e => match e with EPush m true => Some m | _ => None end) es.
Definition delivered (es : list ev) : list bytes := omap (fun e => match e with EPop m => m | _ => None end) es.

Lemma fifo_run_app q es es' : fifo_run q (es ++ es') = fifo_run q es ≫= fun q => fifo_run q es'.
Proof. revert q. induction es as [|e es IH]; intros q; [done|]. cbn. destruct (fifo_step q e); cbn; [apply IH|done]. Qed.

(** A run delivers what it accepted, in order, and holds the rest. *)
Lemma fifo_run_order q es q' : fifo_run q es = Some q' -> q ++ accepted es = delivered es ++ q'.
Proof.
  revert q. induction es as [|e es IH]; intros q Hr; cbn in Hr.
  - injection Hr as ->. cbn. by rewrite app_nil_r.
  - destruct (fifo_step q e) as [q1|] eqn:E; [|done]. specialize (IH q1 Hr).
    destruct e as [m []|[m|]|d]; cbn in E; repeat case_match; simplify_eq; cbn in IH |- *; try done.
    + rewrite <-app_assoc in IH. exact IH.
    + f_equal. exact IH.
Qed.

(** ** The invariant *)

Definition c_queue (c : conc) : list bytes :=
  window (c_buf c) (Z.to_nat (c_tail c)) (Z.to_nat ((c_head c - c_tail c) mod 256)).

Section Invariant.
Context (n : nat).

Definition prod_ok (c : conc) : Prop :=
  match c_prod c with
  | PIdle | PFull | PBump _ => True
  | PCheck m next => next = ring_next (c_head c) /\ length m = n
  | PSlot m next => next = ring_next (c_head c) /\ next <> c_tail c /\ length m = n
  | PCopy m next h i =>
      next = ring_next (c_head c) /\ next <> c_tail c /\ length m = n /\ h = c_head c /\ (i <= n)%nat /\
      take i (c_buf c !!! Z.to_nat h) = take i m
  | PPublish m next =>
      next = ring_next (c_head c) /\ next <> c_tail c /\ c_buf c !!! Z.to_nat (c_head c) = m
  end.
Definition cons_ok (c : conc) : Prop :=
  match c_cons c with
  | CIdle | CReport | CReset | CPop _ => True
  | CCheck _ h => h <> c_tail c -> c_head c <> c_tail c
  | CSlot _ => c_head c <> c_tail c
  | CCopy _ t i out =>
      c_head c <> c_tail c /\ t = c_tail c /\ (i <= n)%nat /\ out = take i (c_buf c !!! Z.to_nat (c_tail c))
  | CNext _ out => c_head c <> c_tail c /\ out = c_buf c !!! Z.to_nat (c_tail c)
  | CPublish _ t out => c_head c <> c_tail c /\ t = c_tail c /\ out = c_buf c !!! Z.to_nat (c_tail c)
  end.
Record conc_ok (c : conc) : Prop := {
  ok_head : 0 <= c_head c < 256;
  ok_tail : 0 <= c_tail c < 256;
  ok_overflow : 0 <= c_overflow c < 4294967296;
  ok_slots : length (c_buf c) = 256%nat;
  ok_cells : Forall (fun cell => length cell = n) (c_buf c);
  ok_script : Forall (fun m => length m = n) (c_script c);
  ok_prod : prod_ok c;
  ok_cons : cons_ok c
}.

Lemma length_c_queue c : length (c_queue c) = Z.to_nat ((c_head c - c_tail c) mod 256).
Proof. apply length_window. Qed.

Lemma c_full c : conc_ok c -> ring_next (c_head c) = c_tail c <-> length (c_queue c) = 255%nat.
Proof. intros Hc. rewrite length_c_queue, ring_next_mod by apply Hc. pose proof (ok_head c Hc). pose proof (ok_tail c Hc). lia. Qed.
Lemma c_empty c : conc_ok c -> c_head c = c_tail c <-> c_queue c = [].
Proof.
  intros Hc. rewrite <-length_zero_iff_nil, length_c_queue. pose proof (ok_head c Hc). pose proof (ok_tail c Hc). lia.
Qed.

(** [head] is the slot after the queue; [tail] is its first. *)
Lemma c_head_slot c :
  conc_ok c -> Z.to_nat (c_head c) =
    ((Z.to_nat (c_tail c) + Z.to_nat ((c_head c - c_tail c) mod 256)) mod length (c_buf c))%nat.
Proof. intros Hc. pose proof (ok_head c Hc). pose proof (ok_tail c Hc). rewrite (ok_slots c Hc). apply Nat2Z.inj. rewrite Nat2Z.inj_mod. lia. Qed.

Lemma c_queue_first c :
  conc_ok c -> c_head c <> c_tail c ->
  c_queue c = c_buf c !!! Z.to_nat (c_tail c) ::
    window (c_buf c) (S (Z.to_nat (c_tail c))) (pred (Z.to_nat ((c_head c - c_tail c) mod 256))).
Proof.
  intros Hc Hne. pose proof (ok_head c Hc). pose proof (ok_tail c Hc). unfold c_queue.
  set (k := Z.to_nat ((_ - _) mod 256)). assert (Hk : k = S (pred k)) by lia. rewrite Hk at 1.
  rewrite window_cons, (ok_slots c Hc). by rewrite Nat.mod_small by lia.
Qed.

(** Storing [head] extends the queue by the slot's contents. *)
Lemma c_queue_push c :
  conc_ok c -> ring_next (c_head c) <> c_tail c ->
  window (c_buf c) (Z.to_nat (c_tail c)) (Z.to_nat ((ring_next (c_head c) - c_tail c) mod 256)) =
    c_queue c ++ [c_buf c !!! Z.to_nat (c_head c)].
Proof.
  intros Hc Hne. pose proof (ok_head c Hc) as Hh. pose proof (ok_tail c Hc).
  rewrite (c_head_slot c Hc). unfold c_queue. rewrite <-window_snoc. f_equal.
  rewrite ring_next_mod in * by done. lia.
Qed.

(** Storing [tail] drops the first. *)
Lemma c_queue_pop c :
  conc_ok c -> c_head c <> c_tail c ->
  window (c_buf c) (Z.to_nat (ring_next (c_tail c))) (Z.to_nat ((c_head c - ring_next (c_tail c)) mod 256)) =
    window (c_buf c) (S (Z.to_nat (c_tail c))) (pred (Z.to_nat ((c_head c - c_tail c) mod 256))).
Proof.
  intros Hc Hne. pose proof (ok_head c Hc) as Hh. pose proof (ok_tail c Hc) as Ht.
  rewrite <-(window_mod _ (S _)), (ok_slots c Hc), ring_next_mod by done. f_equal; [|lia].
  apply Nat2Z.inj. rewrite Nat2Z.inj_mod. lia.
Qed.

(** A byte written at [head] leaves the queue, and the consumer's slot, as
    they are: the producer's slot is the one that is always free. *)
Lemma c_queue_write c f :
  conc_ok c -> ring_next (c_head c) <> c_tail c ->
  window (alter f (Z.to_nat (c_head c)) (c_buf c)) (Z.to_nat (c_tail c)) (Z.to_nat ((c_head c - c_tail c) mod 256)) = c_queue c.
Proof.
  intros Hc Hne. pose proof (ok_head c Hc) as Hh. pose proof (ok_tail c Hc). rewrite ring_next_mod in Hne by done.
  symmetry. apply window_ext; [by rewrite length_alter|]. intros k Hk.
  rewrite list_lookup_total_alter_ne; [done|]. rewrite (c_head_slot c Hc). apply not_eq_sym, mod_shift_neq; [done|].
  rewrite (ok_slots c Hc). lia.
Qed.

(** *** One turn *)

Lemma with_prod_ok p c : conc_ok c -> prod_ok (with_prod p c) -> conc_ok (with_prod p c).
Proof. by intros []. Qed.
Lemma with_cons_ok k c : conc_ok c -> cons_ok (with_cons k c) -> conc_ok (with_cons k c).
Proof. by intros []. Qed.

(** What a turn promises: its events are steps of the queue. *)
Definition turn_ok (c : conc) (r : conc * list ev) : Prop :=
  conc_ok r.1 /\ fifo_run (c_queue c) r.2 = Some (c_queue r.1).

Lemma byte_copied (m cell : bytes) i :
  (i < length m)%nat -> length cell = length m -> take i cell = take i m -> take (S i) (<[i := m !!! i]> cell) = take (S i) m.
Proof.
  intros Hi Hl Ht. rewrite take_S_insert by lia. rewrite Ht.
  symmetry. apply take_S_r. by apply list_lookup_lookup_total_lt.
Qed.

Lemma write_turn c m next h i :
  conc_ok c -> c_prod c = PCopy m next h i -> (i < n)%nat ->
  let c' := Conc (c_head c) (c_tail c) (c_overflow c) (alter (fun cell => <[i := m !!! i]> cell) (Z.to_nat h) (c_buf c))
    (PCopy m next h (S i)) (c_script c) (c_cons c) in
  conc_ok c' /\ c_queue c' = c_queue c.
Proof.
  intros Hc Ep Hi c'. pose proof (ok_prod c Hc) as Hp. unfold prod_ok in Hp. rewrite Ep in Hp.
  destruct Hp as (-> & Hne & Hm & -> & _ & Htk). pose proof (ok_head c Hc). pose proof (ok_tail c Hc).
  assert (Hh : (Z.to_nat (c_head c) < length (c_buf c))%nat) by (rewrite (ok_slots c Hc); lia).
  destruct (lookup_lt_is_Some_2 _ _ Hh) as [cell Hcell]. pose proof (lookup_total_Some _ _ _ Hcell) as Hcell'.
  pose proof (proj1 (Forall_lookup _ _) (ok_cells c Hc) _ _ Hcell) as Hlen. cbn in Hlen.
  split; [|exact (c_queue_write c _ Hc Hne)].
  split; try apply Hc; cbn.
  - rewrite length_alter. apply Hc.
  - apply Forall_alter; [apply Hc|]. intros x Hx _. rewrite length_insert. by eapply (proj1 (Forall_lookup _ _) (ok_cells c Hc)).
  - unfold prod_ok. cbn. split_and!; try done. rewrite list_lookup_total_alter_eq, Hcell' by done.
    rewrite Hcell' in Htk. apply byte_copied; lia || done.
  - pose proof (ok_cons c Hc) as Hk. unfold cons_ok in *. cbn.
    destruct (c_cons c); try done; rewrite list_lookup_total_alter_ne by (destruct Hk; lia); done.
Qed.

Lemma producer_ok c : conc_ok c -> turn_ok c (producer n c).
Proof.
  intros Hc. pose proof (ok_prod c Hc) as Hp. unfold prod_ok in Hp. unfold turn_ok, producer.
  destruct (c_prod c) as [|m next| |o|m next|m next h i|m next] eqn:Ep; cbn [fst snd].
  - pose proof (ok_script c Hc) as Hs. destruct (c_script c) as [|m ms]; [done|]. apply Forall_cons in Hs as [Hm Hs].
    split; [|done]. destruct Hc. by split.
  - destruct Hp as [-> Hm]. destruct (_ =? _) eqn:E; bools; cbn [fst snd].
    + split; [by apply with_prod_ok|]. cbn. by rewrite (proj2 (Nat.eqb_eq _ _) (proj1 (c_full c Hc) E)).
    + split; [|done]. by apply with_prod_ok.
  - split; [|done]. by apply with_prod_ok.
  - split; [|done]. destruct Hc. split; try done. apply u32_range.
  - destruct Hp as (-> & Hne & Hm). split; [|done]. apply with_prod_ok; [done|]. unfold prod_ok. cbn. split_and!; try done; lia.
  - destruct (i <? n)%nat eqn:E; cbn [fst snd].
    + apply Nat.ltb_lt in E. destruct (write_turn c m next h i Hc Ep E) as [Hok Hq]. split; [exact Hok|]. by rewrite Hq.
    + apply Nat.ltb_ge in E. destruct Hp as (-> & Hne & Hm & -> & Hi & Htk). split; [|done].
      apply with_prod_ok; [done|]. unfold prod_ok. cbn. split_and!; try done.
      assert (Hl : (Z.to_nat (c_head c) < length (c_buf c))%nat) by (rewrite (ok_slots c Hc); pose proof (ok_head c Hc); lia).
      destruct (lookup_lt_is_Some_2 _ _ Hl) as [cell Hcell]. rewrite (lookup_total_Some _ _ _ Hcell) in *.
      pose proof (proj1 (Forall_lookup _ _) (ok_cells c Hc) _ _ Hcell) as Hlen. cbn in Hlen.
      by rewrite !take_ge in Htk by lia.
  - destruct Hp as (-> & Hne & Hcell). pose proof (ok_head c Hc) as Hh. split.
    + destruct Hc as [? ? ? ? ? ? ? Hk]. split; try done; cbn.
      * rewrite ring_next_mod by done. lia.
      * unfold cons_ok in *. cbn. destruct (c_cons c); destruct_and?; split_and?; auto.
    + cbn [fifo_run fifo_step]. pose proof (length_c_queue c). assert (length (c_queue c) <> 255%nat) by (by rewrite <-c_full).
      rewrite (proj2 (Nat.ltb_lt _ 255)) by (pose proof (ok_tail c Hc); lia). rewrite <-Hcell.
      unfold c_queue at 2. cbn [c_buf c_tail c_head]. by rewrite c_queue_push.
Qed.

Lemma consumer_ok c : conc_ok c -> turn_ok c (consumer n c).
Proof.
  intros Hc. pose proof (ok_cons c Hc) as Hk. unfold cons_ok in Hk. unfold turn_ok, consumer.
  destruct (c_cons c) as [| | |d|d h|d|d t i out|d out|d t out] eqn:Ek; cbn [fst snd].
  - split; [|done]. apply with_cons_ok; [done|]. unfold cons_ok. cbn. by destruct (_ >? 0).
  - split; [|done]. by apply with_cons_ok.
  - split; [|done]. destruct Hc. split; try done.
  - destruct (d <? DRAIN_BATCH)%nat; cbn [fst snd]; [|split; [by apply with_cons_ok|done]].
    split; [apply with_cons_ok; [done|]; unfold cons_ok; cbn; auto|]. destruct (c_head c =? c_tail c) eqn:E; bools; cbn; [|done].
    change (c_queue (with_cons _ c)) with (c_queue c). by rewrite (proj1 (c_empty c Hc) E).
  - split; [|done]. apply with_cons_ok; [done|]. unfold cons_ok. cbn. destruct (h =? c_tail c) eqn:E; bools; auto.
  - split; [|done]. apply with_cons_ok; [done|]. unfold cons_ok. cbn. split_and!; done || lia.
  - destruct Hk as (Hne & -> & Hi & ->). pose proof (ok_tail c Hc).
    assert (Hl : (Z.to_nat (c_tail c) < length (c_buf c))%nat) by (rewrite (ok_slots c Hc); lia).
    destruct (lookup_lt_is_Some_2 _ _ Hl) as [cell Hcell]. rewrite (lookup_total_Some _ _ _ Hcell).
    pose proof (proj1 (Forall_lookup _ _) (ok_cells c Hc) _ _ Hcell) as Hlen. cbn in Hlen.
    destruct (i <? n)%nat eqn:E; cbn [fst snd]; (split; [|done]); (apply with_cons_ok; [done|]); unfold cons_ok; cbn;
      rewrite (lookup_total_Some _ _ _ Hcell).
    + apply Nat.ltb_lt in E. split_and!; try done. symmetry. apply take_S_r. apply list_lookup_lookup_total_lt. lia.
    + apply Nat.ltb_ge in E. split; [done|]. by rewrite take_ge by lia.
  - destruct Hk as (Hne & ->). split; [|done]. by apply with_cons_ok.
  - destruct Hk as (Hne & -> & ->). split.
    + pose proof (ok_head c Hc) as Hh. pose proof (ok_tail c Hc) as Ht.
      destruct Hc as [? ? ? ? ? ? Hp _]. split; try done; cbn; [rewrite ring_next_mod by done; lia|].
      assert (Hd : ring_next (c_head c) <> ring_next (c_tail c)) by (rewrite !ring_next_mod by done; lia).
      unfold prod_ok in *. cbn. destruct (c_prod c); destruct_and?; split_and?; auto; congruence.
    + cbn [fifo_run fifo_step]. rewrite (c_queue_first c Hc Hne). rewrite decide_True by done. cbn. unfold c_queue. cbn [c_buf c_tail c_head].
      by rewrite c_queue_pop.
Qed.

Lemma turn_spec who c : conc_ok c -> turn_ok c (turn n who c).
Proof. destruct who; [apply producer_ok|apply consumer_ok]. Qed.

Lemma interleave_ok sched c : conc_ok c -> turn_ok c (interleave n sched c).
Proof.
  revert c. induction sched as [|who sched IH]; intros c Hc; [done|]. cbn [interleave].
  destruct (turn_spec who c Hc) as [Hc1 Hr1]. destruct (turn n who c) as [c1 e1]. cbn [fst snd] in *.
  destruct (IH c1 Hc1) as [Hc2 Hr2]. destruct (interleave n sched c1) as [c2 e2]. cbn [fst snd] in *.
  split; [done|]. cbn. rewrite fifo_run_app, Hr1. exact Hr2.
Qed.

Lemma conc_init_ok buf script :
  length buf = 256%nat -> Forall (fun cell => length cell = n) buf -> Forall (fun m => length m = n) script ->
  conc_ok (conc_init buf script).
Proof. by split. Qed.
End Invariant.

(** ** Every interleaving is a run of the queue *)

Definition offered (es : list ev) : list bytes := omap (fun e => match e with EPush m _ => Some m | _ => None end) es.
(** The message of a push that has not answered yet. *)
Definition in_hand (p : pstate) : list bytes :=
  match p with PIdle | PFull | PBump _ => [] | PCheck m _ | PSlot m _ | PCopy m _ _ _ | PPublish m _ => [m] end.

Lemma turn_offers n who c :
  offered (turn n who c).2 ++ in_hand (c_prod (turn n who c).1) ++ c_script (turn n who c).1 = in_hand (c_prod c) ++ c_script c.
Proof.
  destruct who; cbn [turn]; unfold producer, consumer.
  - destruct (c_prod c) eqn:Ep; [destruct (c_script c) eqn:Es|..]; repeat case_match; cbn; rewrite ?Ep, ?Es; done.
  - destruct (c_cons c); repeat case_match; done.
Qed.
Lemma interleave_offers n sched c :
  let r := interleave n sched c in offered r.2 ++ in_hand (c_prod r.1) ++ c_script r.1 = in_hand (c_prod c) ++ c_script c.
Proof.
  revert c. induction sched as [|who sched IH]; intros c; [done|]. cbn [interleave]. pose proof (turn_offers n who c) as Ht.
  destruct (turn n who c) as [c1 e1]. specialize (IH c1). destruct (interleave n sched c1) as [c2 e2]. cbn [fst snd] in *.
  unfold offered in *. rewrite omap_app, <-app_assoc, IH. exact Ht.
Qed.

(** C13: The ring is a FIFO under every interleaving.  However the accesses of
    one producer and one consumer interleave, from [ring_init] on: the answers, taken
    at one access of each operation, are those of a queue of at most 255
    messages; what was delivered, followed by what is still queued, is what
    was accepted, in order and byte for byte; the pushes answered so far are
    the producer's messages in order; and while both sides copy, they copy
    different slots. *)
Theorem ring_linearizable (n : nat) (buf script : list bytes) (sched : list side) :
  length buf = 256%nat -> Forall (fun cell => length cell = n) buf -> Forall (fun m => length m = n) script ->
  let r := interleave n sched (conc_init buf script) in
  fifo_run [] r.2 = Some (c_queue r.1) /\
  accepted r.2 = delivered r.2 ++ c_queue r.1 /\
  offered r.2 ++ in_hand (c_prod r.1) ++ c_script r.1 = script /\
  (forall m next h i d t j out, c_prod r.1 = PCopy m next h i -> c_cons r.1 = CCopy d t j out -> h <> t).
Proof.
  intros Hb Hc Hs r. destruct (interleave_ok n sched _ (conc_init_ok n buf script Hb Hc Hs)) as [Hok Hrun]. fold r in Hok, Hrun.
  change (c_queue (conc_init buf script)) with (@nil bytes) in Hrun. split; [done|]. split; [by apply fifo_run_order in Hrun|].
  split; [apply (interleave_offers n sched (conc_init buf script))|].
  intros m next h i d t j out Hp Hk. pose proof (ok_prod n _ Hok) as H1. pose proof (ok_cons n _ Hok) as H2.
  unfold prod_ok in H1. unfold cons_ok in H2. rewrite Hp in H1. rewrite Hk in H2.
  destruct H1 as (_ & _ & _ & -> & _). by destruct H2 as (? & -> & _).
Qed.

(** Two messages of two bytes, the consumer starting before the first is
    stored and copying it while the second is written. *)
Definition demo_script : list bytes := [[1; 2]; [3; 4]].
Definition demo_slots : list bytes := replicate 256 [0; 0].
Definition demo_sched : list side :=
  [Cons; Prod; Prod; Cons; Cons] ++ replicate 5 Prod ++ [Cons; Cons; Cons; Cons; Cons; Prod; Prod; Prod; Cons; Prod; Cons; Prod] ++
  replicate 3 Cons ++ replicate 3 Prod ++ replicate 30 Cons.

Example ring_linearizable_witness :
  fifo_run [] (interleave 2 demo_sched (conc_init demo_slots demo_script)).2 = Some [] /\
  delivered (interleave 2 demo_sched (conc_init demo_slots demo_script)).2 = demo_script.
Proof.
  destruct (ring_linearizable 2 demo_slots demo_script demo_sched) as (Hr & Hd & _); [reflexivity| |repeat constructor|].
  - apply Forall_replicate. reflexivity.
  - split; [rewrite Hr; vm_compute; reflexivity|]. vm_compute. reflexivity.
Defined.

(** ** No side waits for the other *)

Section WaitFree.
Context (n : nat).

(** Turns left until a push, or a tick of the auditor, has returned. *)
Definition push_left (c : conc) : nat :=
  match c_prod c with
  | PIdle => 0 | PCheck _ _ => n + 4 | PFull => 2 | PBump _ => 1 | PSlot _ _ => n + 3
  | PCopy _ _ _ i => (n - i) + 2 | PPublish _ _ => 1
  end.
Definition pops_left (d : nat) : nat := 1 + (DRAIN_BATCH - d) * (n + 6).
#[local] Arguments pops_left : simpl never.
Definition tick_left (c : conc) : nat :=
  match c_cons c with
  | CIdle => 0 | CReport => 2 + pops_left 0 | CReset => 1 + pops_left 0 | CPop d => pops_left d
  | CCheck d _ => n + 5 + pops_left (S d) | CSlot d => n + 4 + pops_left (S d)
  | CCopy d _ i _ => (n - i) + 3 + pops_left (S d) | CNext d _ => 2 + pops_left (S d) | CPublish d _ _ => 1 + pops_left (S d)
  end.
Definition left_of (who : side) : conc -> nat := match who with Prod => push_left | Cons => tick_left end.

Lemma pops_left_S d : (d < DRAIN_BATCH)%nat -> pops_left d = (n + 6 + pops_left (S d))%nat.
Proof. intros Hd. unfold pops_left. replace (DRAIN_BATCH - d)%nat with (S (DRAIN_BATCH - S d)) by lia. lia. Qed.
Lemma pops_left_pos d : (1 <= pops_left d <= 1 + DRAIN_BATCH * (n + 6))%nat.
Proof. unfold pops_left. nia. Qed.

(** An own turn comes closer to the end, the other side's changes nothing. *)
Lemma own_turn who c : (0 < left_of who c)%nat -> (left_of who (turn n who c).1 < left_of who c)%nat.
Proof.
  destruct who; cbn [left_of turn]; unfold push_left, tick_left, producer, consumer; intros Hl.
  - destruct (c_prod c) as [|m next| |o|m next|m next h i|m next]; try lia; try (cbn; lia).
    + destruct (next =? c_tail c); cbn; lia.
    + destruct (i <? n)%nat eqn:E; cbn; [apply Nat.ltb_lt in E; lia|lia].
  - destruct (c_cons c) as [| | |d|d h|d|d t i out|d out|d t out]; try lia; try (cbn; lia).
    + destruct (d <? DRAIN_BATCH)%nat eqn:E; cbn; [|pose proof (pops_left_pos d); lia].
      apply Nat.ltb_lt in E. rewrite (pops_left_S d) by done. lia.
    + destruct (h =? c_tail c); cbn; lia.
    + destruct (i <? n)%nat eqn:E; cbn; [apply Nat.ltb_lt in E; lia|lia].
Qed.
Lemma other_turn who who' c : who' <> who -> left_of who (turn n who' c).1 = left_of who c.
Proof.
  assert (Hk : c_prod (consumer n c).1 = c_prod c)
    by (unfold consumer; destruct (c_cons c); try done; by match goal with |- context [if ?b then _ else _] => destruct b end).
  assert (Hp : c_cons (producer n c).1 = c_cons c)
    by (unfold producer; destruct (c_prod c); [destruct (c_script c)|..]; try done;
        by match goal with |- context [if ?b then _ else _] => destruct b end).
  intros Hne. destruct who, who'; try done; cbn [left_of turn]; unfold push_left, tick_left; by rewrite ?Hk, ?Hp.
Qed.

#[global] Instance side_eq_dec : EqDecision side.
Proof. solve_decision. Defined.
Definition turns_of (who : side) (sched : list side) : nat := length (filter (eq who) sched).

Lemma returns_within who sched c :
  (left_of who c <= turns_of who sched)%nat ->
  exists s1 s2, sched = s1 ++ s2 /\ left_of who (interleave n s1 c).1 = 0%nat.
Proof.
  revert c. induction sched as [|who' sched IH]; intros c Hl.
  - exists [], []. split; [done|]. cbn in *. lia.
  - destruct (decide (left_of who c = 0%nat)) as [H0|H0]; [by exists [], (who' :: sched)|].
    destruct (IH (turn n who' c).1) as (s1 & s2 & -> & Hz).
    + unfold turns_of in *. rewrite filter_cons in Hl. destruct (decide (who = who')) as [<-|Hne].
      * pose proof (own_turn who c ltac:(lia)). cbn in Hl. lia.
      * by rewrite other_turn by congruence.
    + exists (who' :: s1), s2. split; [done|]. cbn [interleave]. destruct (turn n who' c) as [c1 e1]. cbn [fst] in Hz.
      by destruct (interleave n s1 c1).
Qed.
End WaitFree.

(** C31: Neither side can hold up the other.  From any state, once the
    producer has had [n + 4] turns for a message of [n] bytes its push has
    returned, whatever the consumer does; once the consumer has had the turns
    for one report and 32 pops its tick has returned, even if the producer
    never stops refilling the ring. *)
Theorem ring_wait_free (n : nat) (sched : list side) (c : conc) :
  ((n + 4 <= turns_of Prod sched)%nat -> exists s1 s2, sched = s1 ++ s2 /\ c_prod (interleave n s1 c).1 = PIdle) /\
  ((DRAIN_BATCH * (n + 6) + 3 <= turns_of Cons sched)%nat ->
   exists s1 s2, sched = s1 ++ s2 /\ c_cons (interleave n s1 c).1 = CIdle).
Proof.
  split; intros Hn.
  - destruct (returns_within n Prod sched c) as (s1 & s2 & -> & Hz).
    { cbn [left_of]. unfold push_left. destruct (c_prod c); lia. }
    exists s1, s2. split; [done|]. cbn [left_of] in Hz. unfold push_left in Hz. destruct (c_prod _); lia || done.
  - destruct (returns_within n Cons sched c) as (s1 & s2 & -> & Hz).
    { cbn [left_of]. unfold tick_left, pops_left. unfold DRAIN_BATCH in *. destruct (c_cons c); nia. }
    exists s1, s2. split; [done|]. cbn [left_of] in Hz. unfold tick_left in Hz.
    destruct (c_cons _) as [| | |d|d h|d|d t i out|d out|d t out]; try lia; [done|pose proof (pops_left_pos n d); lia].
Qed.

Example ring_wait_free_witness :
  exists s1 s2, demo_sched = s1 ++ s2 /\ c_prod (interleave 2 s1 (with_prod (PCheck [1; 2] 1) (conc_init demo_slots []))).1 = PIdle.
Proof. apply (proj1 (ring_wait_free 2 demo_sched (with_prod (PCheck [1; 2] 1) (conc_init demo_slots [])))). vm_compute. lia. Defined.

(** ** Undisturbed turns are the calls of Ring *)

Section Alone.
Context (n : nat) (enc : message_t -> bytes) (Henc : forall m, length (enc m) = n).

Definition at_rest (r : ipc_ring_t) (script : list bytes) (k : cstate) : conc :=
  Conc (r_head r) (r_tail r) (r_overflow r) (enc <$> r_buf r) PIdle script k.

Lemma interleave_app s1 s2 c :
  interleave n (s1 ++ s2) c =
    let '(c1, e1) := interleave n s1 c in let '(c2, e2) := interleave n s2 c1 in (c2, e1 ++ e2).
Proof.
  revert c. induction s1 as [|w s1 IH]; intros c; cbn [app interleave]; [by destruct (interleave n s2 c)|].
  destruct (turn n w c) as [c1 e1]. rewrite IH. destruct (interleave n s1 c1) as [c2 e2].
  destruct (interleave n s2 c2). by rewrite <-app_assoc.
Qed.

Lemma alter_insert {A} (f : A -> A) i (l : list A) x : l !! i = Some x -> alter f i l = <[i := f x]> l.
Proof. revert i. induction l as [|y l IH]; intros [|i] Hx; cbn in *; simplify_eq; [done|]. f_equal. by apply IH. Qed.

Lemma interleave_cons w s c c1 e1 : turn n w c = (c1, e1) -> interleave n (w :: s) c = let '(c2, e2) := interleave n s c1 in (c2, e1 ++ e2).
Proof. intros Ht. cbn [interleave]. by rewrite Ht. Qed.

(** The producer's copy loop, from byte [i]. *)
Lemma copy_in j i head tail o buf m next h s k cell :
  (i + j = n)%nat -> length m = n -> buf !! Z.to_nat h = Some cell -> length cell = n -> take i cell = take i m ->
  interleave n (replicate (S j) Prod) (Conc head tail o buf (PCopy m next h i) s k) =
    (Conc head tail o (<[Z.to_nat h := m]> buf) (PPublish m next) s k, []).
Proof.
  revert i buf cell. induction j as [|j IH]; intros i buf cell Hij Hm Hh Hl Ht.
  - rewrite !take_ge in Ht by lia. subst cell. rewrite list_insert_id by done. cbn [replicate].
    rewrite (interleave_cons _ _ _ (Conc head tail o buf (PPublish m next) s k) []); [done|].
    cbn [turn]. unfold producer. cbn [c_prod]. by rewrite (proj2 (Nat.ltb_ge _ _)) by lia.
  - set (cell' := <[i := m !!! i]> cell).
    rewrite replicate_S, (interleave_cons _ _ _ (Conc head tail o (<[Z.to_nat h := cell']> buf) (PCopy m next h (S i)) s k) []).
    + rewrite (IH (S i) _ cell').
      * by rewrite list_insert_insert_eq.
      * lia.
      * done.
      * apply list_lookup_insert_eq. by eapply lookup_lt_Some.
      * unfold cell'. by rewrite length_insert.
      * unfold cell'. apply byte_copied; lia || done.
    + cbn [turn]. unfold producer. cbn [c_prod]. rewrite (proj2 (Nat.ltb_lt _ _)) by lia. cbn [c_head c_tail c_overflow c_buf c_script c_cons].
      by rewrite (alter_insert _ _ _ cell).
Qed.

(** The consumer's copy loop. *)
Lemma copy_out j i head tail o buf p s d t cell :
  (i + j = n)%nat -> buf !!! Z.to_nat t = cell -> length cell = n ->
  interleave n (replicate (S j) Cons) (Conc head tail o buf p s (CCopy d t i (take i cell))) =
    (Conc head tail o buf p s (CNext d cell), []).
Proof.
  intros Hij Ht Hl. revert i Hij. induction j as [|j IH]; intros i Hij.
  - rewrite take_ge by lia. cbn [replicate]. rewrite (interleave_cons _ _ _ (Conc head tail o buf p s (CNext d cell)) []); [done|].
    cbn [turn]. unfold consumer. cbn [c_cons]. by rewrite (proj2 (Nat.ltb_ge _ _)) by lia.
  - rewrite replicate_S, (interleave_cons _ _ _ (Conc head tail o buf p s (CCopy d t (S i) (take (S i) cell))) []).
    + by rewrite IH by lia.
    + cbn [turn]. unfold consumer. cbn [c_cons c_buf]. rewrite (proj2 (Nat.ltb_lt _ _)) by lia. rewrite Ht.
      unfold with_cons. cbn. do 2 f_equal. f_equal. symmetry. apply take_S_r, list_lookup_lookup_total_lt. lia.
Qed.

Lemma enc_slot (r : ipc_ring_t) z :
  ring_wf r -> 0 <= z < 256 -> (enc <$> r_buf r) !! Z.to_nat z = Some (enc (r_buf r !!! Z.to_nat z)).
Proof.
  intros Hr Hz. rewrite list_lookup_fmap. rewrite list_lookup_lookup_total_lt; [done|]. rewrite (ring_wf_buf r Hr). lia.
Qed.

Lemma push_room_alone r m s k :
  ring_wf r -> ring_next (r_head r) <> r_tail r ->
  interleave n (replicate (n + 5) Prod) (at_rest r (enc m :: s) k) = (at_rest (ring_push r m).2 s k, [EPush (enc m) true]).
Proof.
  intros Hr Hf. pose proof (ring_wf_head r Hr) as Hh.
  replace (n + 5)%nat with (3 + (S n + 1))%nat by lia. rewrite replicate_add, (replicate_add (S n)).
  change (replicate 3 Prod ++ ?l) with (Prod :: Prod :: Prod :: l). unfold at_rest, ring_push. rewrite (proj2 (Z.eqb_neq _ _)) by done. cbn [snd r_head r_tail r_overflow r_buf].
  erewrite interleave_cons by (cbn; reflexivity).
  erewrite interleave_cons by (cbn; rewrite (proj2 (Z.eqb_neq _ _)) by done; reflexivity).
  erewrite interleave_cons by (cbn; reflexivity). unfold with_prod. cbn [c_head c_tail c_overflow c_buf c_prod c_script c_cons].
  rewrite interleave_app. erewrite copy_in by (done || eauto using enc_slot).
  cbn. do 2 f_equal. by rewrite list_fmap_insert.
Qed.

Lemma push_full_alone r m s k :
  ring_wf r -> ring_next (r_head r) = r_tail r ->
  interleave n (replicate 4 Prod) (at_rest r (enc m :: s) k) = (at_rest (ring_push r m).2 s k, [EPush (enc m) false]).
Proof.
  intros Hr Hf. unfold at_rest, ring_push. rewrite (proj2 (Z.eqb_eq _ _)) by done. cbn [replicate].
  erewrite interleave_cons by (cbn; reflexivity).
  erewrite interleave_cons by (cbn; rewrite (proj2 (Z.eqb_eq _ _)) by done; reflexivity). reflexivity.
Qed.
End Alone.

(** A call that is not disturbed is the call of Ring.  From a ring at
    rest, for any encoding of messages as [n] bytes, the producer's turns
    alone end with the ring [ring_push] returns and its answer, and the
    consumer's turns alone end with the message and ring [ring_pop] returns,
    or notice that it is empty. *)
Theorem turns_refine_calls (n : nat) (enc : message_t -> bytes) (r : ipc_ring_t) (m : message_t) (script : list bytes)
    (k : cstate) (d : nat) :
  (forall m, length (enc m) = n) -> ring_wf r -> (d < DRAIN_BATCH)%nat ->
  (exists turns, (turns <= n + 5)%nat /\
     interleave n (replicate turns Prod) (at_rest enc r (enc m :: script) k) =
       (at_rest enc (ring_push r m).2 script k, [EPush (enc m) ((ring_push r m).1 =? 1)])) /\
  (exists turns, (turns <= n + 6)%nat /\
     interleave n (replicate turns Cons) (at_rest enc r script (CPop d)) =
       match ring_pop r with
       | Some (m, r') => (at_rest enc r' script (CPop (S d)), [EPop (Some (enc m))])
       | None => (at_rest enc r script CIdle, [EPop None])
       end).
Proof.
  intros Henc Hr Hd. apply Nat.ltb_lt in Hd. split.
  - destruct (decide (ring_next (r_head r) = r_tail r)) as [Hf|Hf].
    + exists 4%nat. split; [lia|]. rewrite (push_full_alone n enc) by done. unfold ring_push. by rewrite (proj2 (Z.eqb_eq _ _) Hf).
    + exists (n + 5)%nat. split; [lia|]. rewrite (push_room_alone n enc) by done. unfold ring_push.
      by rewrite (proj2 (Z.eqb_neq _ _) Hf).
  - unfold ring_pop. destruct (r_head r =? r_tail r) eqn:E.
    + exists 2%nat. split; [lia|]. unfold at_rest. cbn [replicate]. erewrite interleave_cons by (cbn [turn]; unfold consumer; cbn [c_cons]; rewrite Hd; cbn [c_head c_tail]; rewrite E; reflexivity).
      erewrite interleave_cons by (cbn; rewrite E; reflexivity). done.
    + exists (3 + (S n + 2))%nat. split; [lia|]. rewrite replicate_add, (replicate_add (S n)).
      change (replicate 3 Cons ++ ?l) with (Cons :: Cons :: Cons :: l). unfold at_rest.
      cbn [r_head r_tail r_overflow r_buf]. erewrite interleave_cons by (cbn [turn]; unfold consumer; cbn [c_cons]; rewrite Hd; cbn [c_head c_tail]; rewrite E; reflexivity).
      erewrite interleave_cons by (cbn; rewrite E; reflexivity). erewrite interleave_cons by (cbn; reflexivity).
      unfold with_cons. cbn [c_head c_tail c_overflow c_buf c_prod c_script c_cons]. rewrite interleave_app. pose proof (ring_wf_tail r Hr) as Ht. pose proof (enc_slot enc r _ Hr Ht) as Hs.
      rewrite (copy_out n n 0 _ _ _ _ _ _ _ _ (enc (r_buf r !!! Z.to_nat (r_tail r)))) by (done || by apply lookup_total_Some).
      done.
Qed.

Definition enc_demo (m : message_t) : bytes := le_bytes 4 (m_checksum m).
Example turns_refine_calls_witness :
  exists turns, (turns <= 9)%nat /\
    interleave 4 (replicate turns Prod) (at_rest enc_demo (ring_init ring_bss) [enc_demo message_zero] CIdle) =
      (at_rest enc_demo (ring_push (ring_init ring_bss) message_zero).2 [] CIdle, [EPush (enc_demo message_zero) true]).
Proof.
  exact (proj1 (turns_refine_calls 4 enc_demo (ring_init ring_bss) message_zero [] CIdle 0 (fun m => length_le_bytes 4 _)
    (ring_init_wf ring_bss eq_refl) ltac:(vm_compute; lia))).
Defined.

(** ** The drop counter is not atomic *)

(** The overflow count is exact only without interleaving.  On a full
    ring with [o] refusals pending, let one push be refused during a tick.
    Between the consumer's report of [o] and its store of 0, the refusal is
    never reported; with its two accesses around them, the counter is left
    at [o + 1], so the [o] refusals already reported are reported again. *)
Theorem overflow_count_races (n : nat) (head tail o : Z) (buf : list bytes) (m : bytes) (script : list bytes) :
  ring_next head = tail -> 0 < o -> o + 1 < 4294967296 ->
  let c := Conc head tail o buf PIdle (m :: script) CIdle in
  interleave n [Cons; Cons; Prod; Prod; Prod; Prod; Cons] c =
    (Conc head tail 0 buf PIdle script (CPop 0), [EReport o; EPush m false]) /\
  interleave n [Prod; Prod; Prod; Cons; Cons; Cons; Prod] c =
    (Conc head tail (o + 1) buf PIdle script (CPop 0), [EPush m false; EReport o]).
Proof.
  intros Hf Ho Hb c. unfold c. assert (Hg : (o >? 0) = true) by (rewrite Z.gtb_ltb; by apply Z.ltb_lt).
  apply Z.eqb_eq in Hf.
  split; repeat erewrite interleave_cons by (cbn [turn]; unfold producer, consumer; cbn [c_prod c_cons c_script c_overflow c_tail c_head];
    rewrite ?Hf, ?Hg; unfold with_prod, with_cons; cbn [c_head c_tail c_overflow c_buf c_prod c_script c_cons]; reflexivity).
  all: cbn [interleave app]; by rewrite ?u32_id by lia.
Qed.

Example overflow_count_races_witness :
  (interleave 2 [Cons; Cons; Prod; Prod; Prod; Prod; Cons] (Conc 255 0 5 demo_slots PIdle [[7; 7]] CIdle)).2 = [EReport 5; EPush [7; 7] false].
Proof. exact (f_equal snd (proj1 (overflow_count_races 2 255 0 5 demo_slots [7; 7] [] eq_refl ltac:(lia) ltac:(lia)))). Defined.
