(* ===== verification/Tasks.v ===== *)
(** * Tasks: kernel/sched/task.c, and the lineage helpers of kernel/ipc/ipc.c

    The task table is an append-only array of 1024 entries; [current_task]
    is a slot of it, [None] for NULL.  [tasks_wf] is its invariant: no task
    holds a capability its parent does not hold.  One caller is in no slot:
    main.c's capability test points [current_task] at an object of its own
    ([create_task_as]); the task it leaves behind is an [orphan]. *)
From S2P Require Import Prelude Types Circular Ring Auditor.

Definition MAX_RUNNABLE : Z := 8.
Definition KERNEL_STACK_SIZE : Z := 16384.
Definition LINEAGE_NIBBLE_MAX : Z := 15.

Record task_state := TaskState {
  ts_tasks : list task_t;
  ts_count : Z;
  ts_next_id : Z;
  ts_current : option nat
}.

(** Static initialisation: [tasks] in BSS, [next_task_id = 1]. *)
Definition task_state_bss : task_state := TaskState (replicate MAX_TASKS task_zero) 0 1 None.

Definition set_tasks (l : list task_t) (ts : task_state) : task_state :=
  TaskState l (ts_count ts) (ts_next_id ts) (ts_current ts).
Definition set_current (c : option nat) (ts : task_state) : task_state :=
  TaskState (ts_tasks ts) (ts_count ts) (ts_next_id ts) c.

(** The entries below [task_count]. *)
Definition live (ts : task_state) : list task_t := take (Z.to_nat (ts_count ts)) (ts_tasks ts).

(** [*current_task]. *)
Definition current (ts : task_state) : option task_t :=
  c ← ts_current ts; ts_tasks ts !! c.

Definition allocate_task_id (ts : task_state) : Z * task_state :=
  let id := ts_next_id ts in
  (id, TaskState (ts_tasks ts) (ts_count ts) (if id =? 4294967295 then 1 else id + 1)
         (ts_current ts)).

Definition task_find (ts : task_state) (id : Z) : option nat :=
  if id =? 0 then None else findi (fun t => t_task_id t =? id) (live ts).

Section Create.
(** The link address of [kernel_stacks]. *)
Context (stacks : Z).

Definition assign_kernel_stack (slot : Z) : Z :=
  if slot >=? MAX_RUNNABLE then 0
  else u32 (stacks + slot * KERNEL_STACK_SIZE + KERNEL_STACK_SIZE).

Definition task_init (ts : task_state) : task_state :=
  let '(id, ts1) := allocate_task_id ts in
  let kt := Task id 0 CAP_ALL 0 TASK_RUNNING 0 (assign_kernel_stack 0) 0 TASK_PARENT_NONE in
  TaskState (<[0%nat := kt]> (ts_tasks ts1)) 1 (ts_next_id ts1) (Some 0%nat).

(** The entry [create_task] installs, from the caller's spec. *)
Definition new_task (id slot : Z) (parent spec : task_t) : task_t :=
  let top := assign_kernel_stack slot in
  Task id (t_priority spec) (Z.land (t_cap_mask spec) (t_cap_mask parent)) (t_domain spec)
    TASK_READY (t_deadline spec) top top (t_task_id parent).

(** The fields mirrored back into [*spec]. *)
Definition mirror_spec (t spec : task_t) : task_t :=
  Task (t_task_id t) (t_priority spec) (t_cap_mask t) (t_domain spec) (t_state t)
    (t_deadline spec) (t_kernel_stack_top t) (t_saved_sp spec) (t_parent_task_id t).

(** Returns the C result, the states after, and [*spec] after. *)
Definition create_task (ts : task_state) (au : auditor) (spec : option task_t)
    : Z * task_state * auditor * option task_t :=
  match spec with
  | None => (-1, ts, au, spec)
  | Some sp =>
      match current ts with
      | None => (-2, ts, au, spec)
      | Some cur =>
          if ts_count ts >=? Z.of_nat MAX_TASKS then (-3, ts, au, spec)
          else if (negb (t_domain sp =? t_domain cur) &&
                   negb (has_cap (t_cap_mask cur) CAP_CROSS_DOMAIN))%bool
          then (-4, ts, au, spec)
          else
            let slot := ts_count ts in
            let '(id, ts1) := allocate_task_id ts in
            let t := new_task id slot cur sp in
            let ts2 := TaskState (<[Z.to_nat slot := t]> (ts_tasks ts1)) (slot + 1)
                         (ts_next_id ts1) (ts_current ts1) in
            let au1 := auditor_task_create au (t_task_id t) (t_parent_task_id t)
                         (t_cap_mask t) (t_domain t) (t_priority t) (t_kernel_stack_top t) in
            (0, ts2, au1, Some (mirror_spec t sp))
      end
  end.

(** [create_task] while [current_task] points at a caller's own object,
    which is in no slot of the table: the object stands behind the table for
    the call, where no scan of it reaches.  main.c's capability test does
    this; the pointer is put back afterwards. *)
Definition visiting (caller : task_t) (ts : task_state) : task_state :=
  TaskState (ts_tasks ts ++ [caller]) (ts_count ts) (ts_next_id ts) (Some (length (ts_tasks ts))).
Definition visited (ts0 ts : task_state) : task_state :=
  TaskState (take (length (ts_tasks ts0)) (ts_tasks ts)) (ts_count ts) (ts_next_id ts) (ts_current ts0).
Definition create_task_as (caller : task_t) (ts : task_state) (au : auditor) (spec : option task_t)
    : Z * task_state * auditor * option task_t :=
  let '(rv, ts1, au, spec) := create_task (visiting caller ts) au spec in
  (rv, visited ts ts1, au, spec).

Definition task_emit_kernel_create_event (ts : task_state) (au : auditor) : auditor :=
  if ts_count ts =? 0 then au
  else match ts_current ts with
       | None => au
       | Some _ =>
           let kt := ts_tasks ts !!! 0%nat in
           auditor_task_create au (t_task_id kt) (t_parent_task_id kt) (t_cap_mask kt)
             (t_domain kt) (t_priority kt) (t_kernel_stack_top kt)
       end.
End Create.

(** ** Lineage helpers *)

(** The walk up the parent chain; [guard] is the loop bound [MAX_TASKS]. *)
Fixpoint lineage_walk (guard : nat) (ts : task_state) (depth pid : Z) : Z :=
  match guard with
  | O => LINEAGE_NIBBLE_MAX
  | S g =>
      if pid =? TASK_PARENT_NONE then u8 depth
      else
        let depth := depth + 1 in
        if depth >=? LINEAGE_NIBBLE_MAX then LINEAGE_NIBBLE_MAX
        else match task_find ts pid with
             | None => u8 depth
             | Some p => lineage_walk g ts depth (t_parent_task_id (ts_tasks ts !!! p))
             end
  end.

Definition lineage_depth_of (ts : task_state) (t : option nat) : Z :=
  match t with
  | None => 0
  | Some i => lineage_walk MAX_TASKS ts 0 (t_parent_task_id (ts_tasks ts !!! i))
  end.

(** The scan over the table; [k] is the slot of the head of [l]. *)
Fixpoint sibling_scan (l : list task_t) (k self : nat) (target count : Z) : Z :=
  match l with
  | [] => u8 count
  | t :: l' =>
      if (k =? self)%nat then sibling_scan l' (S k) self target count
      else if t_parent_task_id t =? target then
        if count + 1 >=? LINEAGE_NIBBLE_MAX then LINEAGE_NIBBLE_MAX
        else sibling_scan l' (S k) self target (count + 1)
      else sibling_scan l' (S k) self target count
  end.

Definition sibling_count_of (ts : task_state) (t : option nat) : Z :=
  match t with
  | None => 0
  | Some i => sibling_scan (live ts) 0 i (t_parent_task_id (ts_tasks ts !!! i)) 0
  end.

(** ** Invariant *)

(** Slot [i] of the table, seen from its parent in slot [p]: the child was
    created later, holds a subset of the parent's capabilities, and left the
    parent's domain only if the parent may cross domains. *)
Record child_of (l : list task_t) (i : nat) (t : task_t) (p : nat) (pt : task_t) : Prop := {
  co_before : (p < i)%nat;
  co_parent : l !! p = Some pt;
  co_id : t_parent_task_id t = t_task_id pt;
  co_caps : t_cap_mask t ⊑ t_cap_mask pt;
  co_domain : t_domain t <> t_domain pt -> has_cap (t_cap_mask pt) CAP_CROSS_DOMAIN = true
}.

(** A task created for a caller outside the table, whose id 0 is nobody's:
    main.c lends such a caller [CAP_IPC_SEND] in domain 0. *)
Record orphan (t : task_t) : Prop := {
  or_parent : t_parent_task_id t = 0;
  or_caps : t_cap_mask t ⊑ CAP_IPC_SEND;
  or_domain : t_domain t = 0
}.

Record tasks_wf (ts : task_state) : Prop := {
  tw_length : length (ts_tasks ts) = MAX_TASKS;
  tw_count : 1 <= ts_count ts <= Z.of_nat MAX_TASKS;
  tw_next : ts_next_id ts = ts_count ts + 1;
  tw_current : exists c, ts_current ts = Some c /\ Z.of_nat c < ts_count ts;
  tw_ids : forall i t, live ts !! i = Some t -> t_task_id t = Z.of_nat i + 1;
  tw_root : exists r, live ts !! 0%nat = Some r /\ t_parent_task_id r = TASK_PARENT_NONE /\
                      t_cap_mask r = CAP_ALL;
  tw_lineage : forall i t, live ts !! i = Some t -> (0 < i)%nat ->
                 (exists p pt, child_of (live ts) i t p pt) \/ orphan t
}.

Lemma length_live ts : tasks_wf ts -> length (live ts) = Z.to_nat (ts_count ts).
Proof. intros [Hl Hc _ _ _ _ _]. unfold live. rewrite length_take, Hl. unfold MAX_TASKS in *. lia. Qed.

Lemma live_lookup ts i t :
  live ts !! i = Some t <-> ts_tasks ts !! i = Some t /\ (i < Z.to_nat (ts_count ts))%nat.
Proof. unfold live. apply lookup_take_Some. Qed.

Lemma current_live ts :
  tasks_wf ts -> exists c t, ts_current ts = Some c /\ current ts = Some t /\ live ts !! c = Some t.
Proof.
  intros Hw. destruct (tw_current ts Hw) as (c & Hc & Hlt).
  destruct (lookup_lt_is_Some_2 (live ts) c) as [t Ht].
  { rewrite length_live by done. lia. }
  exists c, t. split_and!; [done| |done]. unfold current. rewrite Hc. cbn.
  by apply live_lookup in Ht as [].
Qed.

Lemma task_find_spec ts id i :
  tasks_wf ts ->
  task_find ts id = Some i <-> (exists t, live ts !! i = Some t) /\ id = Z.of_nat i + 1.
Proof.
  intros Hw. unfold task_find. destruct (id =? 0) eqn:E0; bools.
  { split; [done|]. intros [_ ?]. lia. }
  rewrite findi_Some. split.
  - intros [(t & Ht & Hid) _]. bools. split; [by exists t|]. rewrite <-Hid. by apply (tw_ids ts Hw).
  - intros [(t & Ht) ->]. split.
    + exists t. split; [done|]. apply Z.eqb_eq. by apply (tw_ids ts Hw).
    + intros j y Hj Hy. apply Z.eqb_neq. rewrite (tw_ids ts Hw j y Hy). lia.
Qed.

Lemma task_init_wf stacks : tasks_wf (task_init stacks task_state_bss).
Proof.
  split; cbn [task_init allocate_task_id task_state_bss ts_tasks ts_count ts_next_id ts_current].
  - by rewrite length_insert, length_replicate.
  - unfold MAX_TASKS. lia.
  - done.
  - exists 0%nat. split; [done|lia].
  - intros i t Hi. unfold live in Hi. cbn in Hi. destruct i; by simplify_eq/=.
  - eexists. split; [reflexivity|done].
  - intros i t Hi Hpos. unfold live in Hi. cbn in Hi. destruct i; [lia|]. by simplify_eq/=.
Qed.

(** ** Identity: what no operation after creation changes

    Scheduling changes [state] and [saved_sp] only; id, capabilities, domain
    and parent are bound at creation.  [same_identity] is that equivalence,
    and the invariant respects it. *)
Definition identity (t : task_t) : Z * Z * Z * Z :=
  (t_task_id t, t_cap_mask t, t_domain t, t_parent_task_id t).
Definition same_identity (t u : task_t) : Prop := identity t = identity u.

#[export] Instance same_identity_equiv : Equivalence same_identity.
Proof. split; repeat intro; unfold same_identity in *; congruence. Qed.

Record table_equiv (ts ts' : task_state) : Prop := {
  te_length : length (ts_tasks ts) = length (ts_tasks ts');
  te_count : ts_count ts = ts_count ts';
  te_next : ts_next_id ts = ts_next_id ts';
  te_current : ts_current ts = ts_current ts';
  te_identity : Forall2 same_identity (live ts) (live ts')
}.

#[export] Instance table_equiv_equiv : Equivalence table_equiv.
Proof.
  split.
  - intros ts. by split.
  - intros ts ts' []. by split.
  - intros ts1 ts2 ts3 [] []. split; etransitivity; done.
Qed.

Lemma identity_child l l' i t t' p pt pt' :
  same_identity t t' -> same_identity pt pt' -> l' !! p = Some pt' ->
  child_of l i t p pt -> child_of l' i t' p pt'.
Proof.
  unfold same_identity, identity. intros Ht Hp Hl' [? ? Hid Hcap Hdom]. simplify_eq.
  split; [done|done|congruence|..].
  - by replace (t_cap_mask t') with (t_cap_mask t) by congruence;
      replace (t_cap_mask pt') with (t_cap_mask pt) by congruence.
  - replace (t_cap_mask pt') with (t_cap_mask pt) by congruence. intros Hne. apply Hdom. congruence.
Qed.

Lemma identity_orphan t t' : same_identity t t' -> orphan t -> orphan t'.
Proof.
  unfold same_identity, identity. intros Ht [? ? ?]. simplify_eq. split; congruence.
Qed.

#[export] Instance tasks_wf_proper : Proper (table_equiv ==> iff) tasks_wf.
Proof.
  assert (Himp : forall ts ts', table_equiv ts ts' -> tasks_wf ts -> tasks_wf ts').
  { intros ts ts' [Hl Hc Hn Hcur Hid] [Wl Wc Wn Wcur Wids Wroot Wlin].
    rewrite Forall2_lookup in Hid. split; try (congruence || (rewrite <-Hc; done)).
    - rewrite <-Hcur. destruct Wcur as (c & ? & ?). exists c. split; [done|lia].
    - intros i t' Hi. specialize (Hid i). rewrite Hi in Hid. inversion Hid as [t ? Hs Ht|].
      subst. rewrite <-(Wids i t) by done. unfold same_identity, identity in Hs. congruence.
    - destruct Wroot as (r & Hr & Hp & Hcap). specialize (Hid 0%nat). rewrite Hr in Hid.
      inversion Hid as [? r' Hs Ht Hr'|]. exists r'. unfold same_identity, identity in Hs.
      split_and!; congruence.
    - intros i t' Hi Hpos. pose proof (Hid i) as Hidi. rewrite Hi in Hidi.
      inversion Hidi as [t ? Hs Ht|]; subst.
      destruct (Wlin i t ltac:(done) Hpos) as [(p & pt & Hch)|Ho]; [left|right; by eapply identity_orphan].
      pose proof (Hid p) as Hidp. rewrite (co_parent _ _ _ _ _ Hch) in Hidp.
      inversion Hidp as [? pt' Hs' Hx Hpt'|]; subst.
      exists p, pt'. by eapply identity_child. }
  intros ts ts' He. split; [by apply Himp|]. apply Himp. by symmetry.
Qed.

(** Updating one entry without touching its identity. *)
Lemma table_equiv_update ts i t t' :
  live ts !! i = Some t -> same_identity t t' ->
  table_equiv ts (set_tasks (<[i := t']> (ts_tasks ts)) ts).
Proof.
  intros [Hi Hlt]%live_lookup Hs. split; try done; unfold live; cbn.
  - by rewrite length_insert.
  - rewrite take_insert_lt by done. apply Forall2_lookup. intros j.
    rewrite list_lookup_insert. case_decide as Hj.
    + destruct Hj as [<- _]. rewrite lookup_take_lt, Hi by done. by constructor.
    + destruct (take _ (ts_tasks ts) !! j); by constructor.
Qed.

(** ** [create_task] *)

Section CreateSpec.
Context (stacks : Z).

(** A successful creation, as a relation. *)
Record created (ts : task_state) (au : auditor) (sp cur : task_t)
    (ts' : task_state) (au' : auditor) (sp' t : task_t) : Prop := {
  cr_current : current ts = Some cur;
  cr_room : ts_count ts < Z.of_nat MAX_TASKS;
  cr_domain : t_domain sp <> t_domain cur -> has_cap (t_cap_mask cur) CAP_CROSS_DOMAIN = true;
  cr_task : t = new_task stacks (ts_count ts + 1) (ts_count ts) cur sp;
  cr_live : live ts' = live ts ++ [t];
  cr_count : ts_count ts' = ts_count ts + 1;
  cr_next : ts_next_id ts' = ts_next_id ts + 1;
  cr_cur : ts_current ts' = ts_current ts;
  cr_length : length (ts_tasks ts') = length (ts_tasks ts);
  cr_audit : au' = auditor_task_create au (t_task_id t) (t_parent_task_id t) (t_cap_mask t)
                     (t_domain t) (t_priority t) (t_kernel_stack_top t);
  cr_spec : sp' = mirror_spec t sp
}.

(** Every call either creates a task or changes nothing. *)
Lemma create_task_cases ts au spec :
  tasks_wf ts ->
  (exists rv, create_task stacks ts au spec = (rv, ts, au, spec) /\ -4 <= rv < 0) \/
  (exists sp cur ts' au' sp' t, spec = Some sp /\
     create_task stacks ts au spec = (0, ts', au', Some sp') /\
     created ts au sp cur ts' au' sp' t).
Proof.
  intros Hw. destruct (current_live ts Hw) as (c & cur & Hc & Hcur & Hlive).
  unfold create_task. destruct spec as [sp|]; [|left; exists (-1); done].
  rewrite Hcur. destruct (ts_count ts >=? _) eqn:Ef; bools; [left; by exists (-3)|].
  destruct (negb _ && _)%bool eqn:Ed; [left; by exists (-4)|].
  right. cbn [allocate_task_id]. destruct Hw as [Wl Wc Wn _ _ _ _].
  destruct (ts_next_id ts =? 4294967295) eqn:En; bools; [unfold MAX_TASKS in *; lia|].
  rewrite Wn. do 6 eexists. split; [done|]. split; [reflexivity|].
  split; cbn [ts_count ts_next_id ts_current ts_tasks]; try done.
  - intros Hne. apply andb_false_iff in Ed as [Ed|Ed]; bools; done.
  - unfold live. cbn. replace (Z.to_nat (ts_count ts + 1)) with (S (Z.to_nat (ts_count ts))) by lia.
    apply take_S_insert. rewrite Wl. unfold MAX_TASKS in *. lia.
  - cbn. lia.
  - by rewrite length_insert.
Qed.

Lemma created_wf ts au sp cur ts' au' sp' t :
  tasks_wf ts -> created ts au sp cur ts' au' sp' t -> tasks_wf ts'.
Proof.
  intros Hw [Hcur Hroom Hdom -> Hl Hc Hn Hcu Hlen _ _].
  pose proof (length_live ts Hw) as Hll.
  destruct (current_live ts Hw) as (c & cur' & Hcs & Hcur' & Hlc).
  assert (cur' = cur) by congruence. subst cur'.
  destruct Hw as [Wl Wc Wn Wcur Wids Wroot Wlin]. split; try (congruence || lia).
  - destruct Wcur as (c0 & ? & ?). exists c0. rewrite Hcu. split; [done|lia].
  - intros i t. rewrite Hl, lookup_snoc_Some. intros [[_ Hi]|[-> <-]]; [by apply Wids|].
    cbn. lia.
  - destruct Wroot as (r & Hr & ?). exists r. rewrite Hl. split; [|done].
    by apply lookup_app_l_Some.
  - intros i t. rewrite Hl, lookup_snoc_Some. intros [[_ Hi]|[-> <-]] Hpos.
    + destruct (Wlin i t Hi Hpos) as [(p & pt & [? Hp ? ? ?])|Ho]; [left|by right]. exists p, pt.
      split; try done. by apply lookup_app_l_Some.
    + left. exists c, cur. pose proof (lookup_lt_Some _ _ _ Hlc). split; try done.
      * by apply lookup_app_l_Some.
      * apply submask_land_r.
Qed.

Lemma visited_visiting caller ts : visited ts (visiting caller ts) = ts.
Proof. unfold visited, visiting. cbn. rewrite take_app_length. by destruct ts. Qed.
Lemma current_visiting caller ts : current (visiting caller ts) = Some caller.
Proof. unfold current, visiting. cbn. by rewrite lookup_app_r, Nat.sub_diag by lia. Qed.

(** A creation for a caller outside the table appends an entry, too; the
    caller sees only ids, capabilities and domains. *)
Lemma create_task_as_cases ts au caller spec :
  tasks_wf ts ->
  (exists rv, create_task_as stacks caller ts au spec = (rv, ts, au, spec) /\ rv < 0) \/
  (exists sp ts' au' t, spec = Some sp /\
     create_task_as stacks caller ts au spec = (0, ts', au', Some (mirror_spec t sp)) /\
     t = new_task stacks (ts_count ts + 1) (ts_count ts) caller sp /\
     (t_domain sp <> t_domain caller -> has_cap (t_cap_mask caller) CAP_CROSS_DOMAIN = true) /\
     live ts' = live ts ++ [t] /\ ts_count ts' = ts_count ts + 1 /\ ts_next_id ts' = ts_next_id ts + 1 /\
     ts_current ts' = ts_current ts /\ length (ts_tasks ts') = length (ts_tasks ts)).
Proof.
  intros [Wl Wc Wn _ _ _ _]. unfold create_task_as, create_task.
  pose proof (visited_visiting caller ts) as Hback. pose proof (current_visiting caller ts) as Hcur.
  destruct spec as [sp|]; [|left; exists (-1); by rewrite Hback].
  rewrite Hcur. change (ts_count (visiting caller ts)) with (ts_count ts).
  destruct (ts_count ts >=? _) eqn:Ef; bools; [left; exists (-3); by rewrite Hback|].
  destruct (negb _ && _)%bool eqn:Ed; [left; exists (-4); by rewrite Hback|].
  right. cbn [allocate_task_id visiting visited ts_next_id ts_tasks ts_count].
  destruct (ts_next_id ts =? 4294967295) eqn:En; bools; [unfold MAX_TASKS in *; lia|].
  rewrite Wn. do 4 eexists. split; [done|]. split; [reflexivity|]. split; [done|].
  assert (Hlt : (Z.to_nat (ts_count ts) < length (ts_tasks ts))%nat) by (rewrite Wl; unfold MAX_TASKS in *; lia).
  cbn [visited ts_tasks ts_count ts_next_id ts_current]. split; [|split; [|split_and!]]; try (done || lia).
  - intros Hne. apply andb_false_iff in Ed as [Ed|Ed]; bools; done.
  - unfold live, visited. cbn [ts_tasks ts_count]. rewrite insert_app_l by done.
    rewrite (take_app_length' _ _ (length (ts_tasks ts))) by (by rewrite length_insert).
    replace (Z.to_nat (ts_count ts + 1)) with (S (Z.to_nat (ts_count ts))) by lia. by apply take_S_insert.
  - rewrite length_take, length_insert, length_app. lia.
Qed.

(** main.c's capability test is such a caller. *)
Definition lent_caller (caller : task_t) : Prop :=
  t_task_id caller = 0 /\ t_cap_mask caller = CAP_IPC_SEND /\ t_domain caller = 0.

Lemma create_task_as_wf ts au caller spec :
  tasks_wf ts -> lent_caller caller -> tasks_wf (create_task_as stacks caller ts au spec).1.1.2.
Proof.
  intros Hw (Hid & Hcap & Hdom). destruct (create_task_as_cases ts au caller spec Hw)
    as [(rv & -> & _)|(sp & ts' & au' & t & -> & -> & Ht & Hd & Hl & Hc & Hn & Hcu & Hlen)]; [done|]. cbn [fst snd].
  pose proof (length_live ts Hw) as Hll. destruct Hw as [Wl Wc Wn Wcur Wids Wroot Wlin].
  assert (Hcount : ts_count ts < Z.of_nat MAX_TASKS).
  { pose proof (f_equal length Hl) as Hx. unfold live in Hx. rewrite length_app, !length_take, Hlen, Wl in Hx.
    cbn in Hx. lia. }
  split; try (congruence || lia).
  - destruct Wcur as (c0 & ? & ?). exists c0. rewrite Hcu. split; [done|lia].
  - intros i u. rewrite Hl, lookup_snoc_Some. intros [[_ Hi]|[-> <-]]; [by apply Wids|]. subst t. cbn. lia.
  - destruct Wroot as (r & Hr & ?). exists r. rewrite Hl. split; [|done]. by apply lookup_app_l_Some.
  - intros i u. rewrite Hl, lookup_snoc_Some. intros [[_ Hi]|[-> <-]] Hpos.
    + destruct (Wlin i u Hi Hpos) as [(p & pt & [? Hp ? ? ?])|Ho]; [left|by right]. exists p, pt.
      split; try done. by apply lookup_app_l_Some.
    + right. subst t. split; cbn; [done|rewrite Hcap; apply submask_land_r|].
      destruct (decide (t_domain sp = t_domain caller)) as [He|Hne]; [congruence|].
      apply Hd in Hne. rewrite Hcap in Hne. done.
Qed.
End CreateSpec.

(** ** Reachable tables *)
Section Reachable.
Context (stacks : Z).

(** What the kernel does to the table after boot: [create_task], the
    context switch that moves [current_task], the scheduler's writes of
    [state], and the writes of [saved_sp] (frame set-up and switch); and the
    one creation main.c makes for a caller outside the table. *)
Inductive task_step : task_state -> task_state -> Prop :=
  | step_create ts au spec :
      task_step ts (create_task stacks ts au spec).1.1.2
  | step_switch ts c t :
      live ts !! c = Some t -> task_step ts (set_current (Some c) ts)
  | step_state ts i t s :
      live ts !! i = Some t ->
      task_step ts (set_tasks (<[i := set_state s t]> (ts_tasks ts)) ts)
  | step_lent ts au caller spec :
      lent_caller caller -> task_step ts (create_task_as stacks caller ts au spec).1.1.2
  | step_saved_sp ts i t sp :
      live ts !! i = Some t ->
      task_step ts (set_tasks (<[i := set_saved_sp sp t]> (ts_tasks ts)) ts).

Definition task_reachable (ts : task_state) : Prop :=
  rtc task_step (task_init stacks task_state_bss) ts.

Lemma task_step_wf ts ts' : task_step ts ts' -> tasks_wf ts -> tasks_wf ts'.
Proof.
  intros Hs Hw. destruct Hs as [ts au spec|ts c t Hc|ts i t s Hi|ts au caller spec Hl|ts i t sp Hi].
  - destruct (create_task_cases stacks ts au spec Hw)
      as [(rv & -> & _)|(sp & cur & ts' & au' & sp' & t & -> & -> & Hcr)]; [done|].
    by eapply created_wf.
  - destruct Hw as [Wl Wc Wn Wcur Wids Wroot Wlin]. split; try done. exists c. split; [done|].
    apply live_lookup in Hc as [_ ?]. cbn. lia.
  - eapply tasks_wf_proper; [symmetry; by eapply (table_equiv_update ts i t)|done].
  - by apply create_task_as_wf.
  - eapply tasks_wf_proper; [symmetry; by eapply (table_equiv_update ts i t)|done].
Qed.

Lemma task_reachable_wf ts : task_reachable ts -> tasks_wf ts.
Proof.
  intros Hr. assert (H0 : tasks_wf (task_init stacks task_state_bss)) by apply task_init_wf.
  revert H0. induction Hr; eauto using task_step_wf.
Qed.
End Reachable.

(** The parent of a live task, found by id. *)
Definition parent_in (ts : task_state) (t pt : task_t) : Prop :=
  t ∈ live ts /\ pt ∈ live ts /\ t_parent_task_id t = t_task_id pt.

Lemma live_id_inj ts i j t u :
  tasks_wf ts -> live ts !! i = Some t -> live ts !! j = Some u -> t_task_id t = t_task_id u ->
  i = j.
Proof. intros Hw Hi Hj. rewrite (tw_ids ts Hw i t), (tw_ids ts Hw j u) by done. lia. Qed.

(** The root is nobody's child, and everybody else has exactly one parent. *)
Lemma parent_in_child ts i t pt :
  tasks_wf ts -> live ts !! i = Some t -> parent_in ts t pt ->
  exists p, (p < i)%nat /\ child_of (live ts) i t p pt.
Proof.
  intros Hw Hi (_ & (p & Hp)%list_elem_of_lookup & Hid).
  destruct i as [|i].
  - destruct (tw_root ts Hw) as (r & Hr & Hpar & _). simplify_eq.
    pose proof (tw_ids ts Hw p pt Hp) as Hq. pose proof (lookup_lt_Some _ _ _ Hp) as Hlt.
    rewrite length_live in Hlt by done. pose proof (tw_count ts Hw).
    rewrite Hpar in Hid. unfold TASK_PARENT_NONE, MAX_TASKS in *. lia.
  - destruct (tw_lineage ts Hw _ t Hi ltac:(lia)) as [(q & qt & Hch)|Ho].
    2: { pose proof (tw_ids ts Hw p pt Hp). pose proof (or_parent _ Ho). lia. }
    assert (q = p) as ->.
    { apply (live_id_inj ts q p qt pt Hw (co_parent _ _ _ _ _ Hch) Hp).
      by rewrite <-(co_id _ _ _ _ _ Hch). }
    pose proof (co_parent _ _ _ _ _ Hch). simplify_eq.
    exists p. split; [apply Hch|done].
Qed.

Lemma parent_in_caps ts t pt :
  tasks_wf ts -> parent_in ts t pt ->
  t_cap_mask t ⊑ t_cap_mask pt /\
  (t_domain t <> t_domain pt -> has_cap (t_cap_mask pt) CAP_CROSS_DOMAIN = true).
Proof.
  intros Hw Hp. pose proof Hp as ((i & Hi)%list_elem_of_lookup & _).
  destruct (parent_in_child ts i t pt Hw Hi Hp) as (p & _ & Hch).
  split; [apply (co_caps _ _ _ _ _ Hch)|apply (co_domain _ _ _ _ _ Hch)].
Qed.

(** Where a parent chain ends. *)
Lemma reaches_end ts i t :
  tasks_wf ts -> live ts !! i = Some t ->
  exists e, rtc (parent_in ts) t e /\ e ∈ live ts /\ (live ts !! 0%nat = Some e \/ orphan e).
Proof.
  intros Hw. revert t. induction i as [i IH] using lt_wf_ind. intros t Hi.
  destruct i as [|i]; [exists t; split_and!; [done|by eapply list_elem_of_lookup_2|by left]|].
  destruct (tw_lineage ts Hw _ t Hi ltac:(lia)) as [(p & pt & Hch)|Ho].
  2: { exists t. split_and!; [done|by eapply list_elem_of_lookup_2|by right]. }
  destruct (IH p (co_before _ _ _ _ _ Hch) pt (co_parent _ _ _ _ _ Hch)) as (e & Hrtc & He).
  exists e. split; [|done]. eapply rtc_l; [|done].
  split_and!; [by eapply list_elem_of_lookup_2|..|apply Hch].
  eapply list_elem_of_lookup_2, Hch.
Qed.

(** C2: capabilities never amplify (the Capsicum invariant).  In every
    table the kernel can reach from boot, each live task's parent chain ends
    at the root task, or at a task main.c's capability test created for a
    caller outside the table, which holds at most [CAP_IPC_SEND] in domain 0;
    along the chain every ancestor holds all the capabilities of its
    descendants; and a task sits outside its parent's domain only if the
    parent holds [CAP_CROSS_DOMAIN]. *)
Theorem capabilities_only_narrow (stacks : Z) (ts : task_state) (t : task_t) :
  task_reachable stacks ts -> t ∈ live ts ->
  (exists e, rtc (parent_in ts) t e /\
     ((live ts !! 0%nat = Some e /\ t_parent_task_id e = TASK_PARENT_NONE) \/
      (t_parent_task_id e = 0 /\ t_cap_mask e ⊑ CAP_IPC_SEND /\ t_domain e = 0))) /\
  (forall a, rtc (parent_in ts) t a -> t_cap_mask t ⊑ t_cap_mask a) /\
  (forall pt, parent_in ts t pt -> t_domain t <> t_domain pt ->
              has_cap (t_cap_mask pt) CAP_CROSS_DOMAIN = true).
Proof.
  intros Hr (i & Hi)%list_elem_of_lookup. pose proof (task_reachable_wf stacks ts Hr) as Hw.
  split_and!.
  - destruct (reaches_end ts i t Hw Hi) as (e & Hrtc & _ & [He|[]]); exists e; (split; [done|]); [left|by right].
    destruct (tw_root ts Hw) as (r' & ? & ? & _). by simplify_eq.
  - intros a Ha. clear Hr Hi i. induction Ha as [|x y z Hxy _ IH]; [done|].
    etransitivity; [apply (parent_in_caps ts x y Hw Hxy)|done].
  - intros pt Hp. apply (parent_in_caps ts t pt Hw Hp).
Qed.

Definition demo_spec : task_t := Task 0 5 (CAP_IPC_SEND + 64) 0 0 0 0 0 0.
Definition demo_tasks : task_state :=
  (create_task 4096 (task_init 4096 task_state_bss) auditor_bss (Some demo_spec)).1.1.2.

Lemma demo_reachable : task_reachable 4096 demo_tasks.
Proof. eapply rtc_l; [apply (step_create 4096 _ auditor_bss (Some demo_spec))|apply rtc_refl]. Defined.

Example capabilities_only_narrow_witness :
  exists e, rtc (parent_in demo_tasks) (live demo_tasks !!! 1%nat) e /\
    ((live demo_tasks !! 0%nat = Some e /\ t_parent_task_id e = TASK_PARENT_NONE) \/
     (t_parent_task_id e = 0 /\ t_cap_mask e ⊑ CAP_IPC_SEND /\ t_domain e = 0)).
Proof.
  apply (capabilities_only_narrow 4096 demo_tasks (live demo_tasks !!! 1%nat) demo_reachable).
  apply (list_elem_of_lookup_2 _ 1%nat). vm_compute. reflexivity.
Defined.

(** What [create_task] does, on every branch.  A refused call (no spec,
    no current task, table full, or a foreign domain without
    [CAP_CROSS_DOMAIN]) returns -1, -2, -3 or -4 and changes nothing, the
    audit stream included.  Otherwise it returns 0, appends one READY task
    with the next id, the caller's id as parent, the requested capabilities
    cut down to the caller's and a kernel stack for the first eight slots,
    mirrors the result into the spec and sends one TASK_CREATE record. *)
Theorem create_task_spec (stacks : Z) (ts : task_state) (au : auditor) (spec : option task_t) :
  task_reachable stacks ts ->
  match spec, current ts with
  | None, _ => create_task stacks ts au spec = (-1, ts, au, spec)
  | Some _, None => False
  | Some sp, Some cur =>
      if ts_count ts >=? 1024 then create_task stacks ts au spec = (-3, ts, au, spec)
      else if (negb (t_domain sp =? t_domain cur) &&
               negb (has_cap (t_cap_mask cur) CAP_CROSS_DOMAIN))%bool
      then create_task stacks ts au spec = (-4, ts, au, spec)
      else exists ts' sp' t,
        create_task stacks ts au spec =
          (0, ts', auditor_task_create au (ts_count ts + 1) (t_task_id cur)
                     (Z.land (t_cap_mask sp) (t_cap_mask cur)) (t_domain sp) (t_priority sp)
                     (if ts_count ts <? 8 then u32 (stacks + 16384 * (ts_count ts + 1)) else 0),
           Some sp') /\
        live ts' = live ts ++ [t] /\ ts_current ts' = ts_current ts /\
        identity t = (ts_count ts + 1, Z.land (t_cap_mask sp) (t_cap_mask cur), t_domain sp,
                      t_task_id cur) /\
        t_state t = TASK_READY /\
        t_kernel_stack_top t =
          (if ts_count ts <? 8 then u32 (stacks + 16384 * (ts_count ts + 1)) else 0) /\
        t_saved_sp t = t_kernel_stack_top t /\
        identity sp' = identity t /\ t_state sp' = t_state t
  end.
Proof.
  intros Hr. pose proof (task_reachable_wf stacks ts Hr) as Hw.
  destruct (current_live ts Hw) as (c & cur & Hc & Hcur & Hlive).
  destruct spec as [sp|]; [|done]. rewrite Hcur.
  destruct (create_task_cases stacks ts au (Some sp) Hw)
    as [(rv & He & Hrv)|(sp0 & cur0 & ts' & au' & sp' & t & [= <-] & He & Hcr)].
  - revert He. unfold create_task. rewrite Hcur. cbn [allocate_task_id].
    change (Z.of_nat MAX_TASKS) with 1024.
    destruct (ts_count ts >=? 1024); [done|]. destruct (negb _ && _)%bool; [done|].
    intros [= <- _]. lia.
  - destruct Hcr as [Hcur' Hroom Hdom -> Hl _ _ Hcu _ -> ->]. assert (cur0 = cur) as -> by congruence.
    change (Z.of_nat MAX_TASKS) with 1024 in Hroom.
    destruct (ts_count ts >=? 1024) eqn:E; bools; [lia|].
    destruct (negb _ && _)%bool eqn:Ed; bools; [rewrite Hdom in *; done|].
    assert (Hst : assign_kernel_stack stacks (ts_count ts) =
      if ts_count ts <? 8 then u32 (stacks + 16384 * (ts_count ts + 1)) else 0).
    { unfold assign_kernel_stack, MAX_RUNNABLE, KERNEL_STACK_SIZE. rewrite Z.geb_leb.
      destruct (8 <=? _) eqn:E8, (_ <? 8) eqn:E9; bools; try lia. f_equal. lia. }
    do 3 eexists. rewrite He. unfold new_task. cbn. rewrite Hst. by split_and!.
Qed.

Example create_task_spec_witness :
  exists ts' sp', create_task 4096 demo_tasks auditor_bss (Some demo_spec) =
    (0, ts', auditor_task_create auditor_bss 3 1 1 0 5 53248, Some sp').
Proof.
  destruct (create_task_spec 4096 demo_tasks auditor_bss (Some demo_spec) demo_reachable)
    as (ts' & sp' & t & H & _).
  exists ts', sp'. exact H.
Defined.

(** ** The two lineage nibbles of a DENY record *)

(** [depth_in ts i d]: the task in slot [i] is [d] generations below the
    root; a task whose parent is not in the table counts one. *)
Inductive depth_in (ts : task_state) : nat -> nat -> Prop :=
  | depth_root i t :
      live ts !! i = Some t -> t_parent_task_id t = TASK_PARENT_NONE -> depth_in ts i 0
  | depth_orphan i t : live ts !! i = Some t -> orphan t -> depth_in ts i 1
  | depth_child i t p pt d :
      child_of (live ts) i t p pt -> live ts !! i = Some t -> depth_in ts p d -> depth_in ts i (S d).

Lemma depth_in_total ts i t : tasks_wf ts -> live ts !! i = Some t -> exists d, depth_in ts i d.
Proof.
  intros Hw. revert t. induction i as [i IH] using lt_wf_ind. intros t Hi.
  destruct i as [|i].
  - exists 0%nat. destruct (tw_root ts Hw) as (r & ? & ? & _). by eapply depth_root.
  - destruct (tw_lineage ts Hw _ t Hi ltac:(lia)) as [(p & pt & Hch)|Ho]; [|by exists 1%nat; eapply depth_orphan].
    destruct (IH p (co_before _ _ _ _ _ Hch) pt (co_parent _ _ _ _ _ Hch)) as (d & Hd).
    exists (S d). by eapply depth_child.
Qed.

Lemma lineage_walk_depth ts i t d acc guard :
  tasks_wf ts -> live ts !! i = Some t -> depth_in ts i d ->
  0 <= acc < LINEAGE_NIBBLE_MAX -> LINEAGE_NIBBLE_MAX - acc < Z.of_nat guard ->
  lineage_walk guard ts acc (t_parent_task_id t) = Z.min (acc + Z.of_nat d) LINEAGE_NIBBLE_MAX.
Proof.
  intros Hw. revert i t d acc. induction guard as [|g IH]; intros i t d acc Hi Hd Ha Hg; [lia|].
  unfold LINEAGE_NIBBLE_MAX in *. cbn [lineage_walk].
  destruct Hd as [i t0 Hi0 Hp|i t0 Hi0 Ho|i t0 p pt d Hch Hi0 Hd]; simplify_eq.
  - rewrite Hp, Z.eqb_refl. rewrite u8_id by lia. lia.
  - rewrite (or_parent _ Ho). change (0 =? TASK_PARENT_NONE) with false. cbv iota.
    unfold LINEAGE_NIBBLE_MAX. destruct (acc + 1 >=? 15) eqn:E15; bools; [lia|].
    unfold task_find. cbn. rewrite u8_id by lia. lia.
  - pose proof (co_parent _ _ _ _ _ Hch) as Hpt. pose proof (tw_ids ts Hw p pt Hpt) as Hid.
    pose proof (lookup_lt_Some _ _ _ Hpt) as Hlt. rewrite length_live in Hlt by done.
    pose proof (tw_count ts Hw) as Hcnt. rewrite (co_id _ _ _ _ _ Hch).
    destruct (t_task_id pt =? _) eqn:E; bools.
    { unfold TASK_PARENT_NONE, MAX_TASKS in *. lia. }
    unfold LINEAGE_NIBBLE_MAX. destruct (acc + 1 >=? 15) eqn:E15; bools; [lia|].
    rewrite (proj2 (task_find_spec ts _ p Hw)) by (split; [by exists pt|done]).
    rewrite (lookup_total_Some _ _ pt) by (by apply live_lookup in Hpt as []).
    rewrite (IH p pt d) by (done || lia). lia.
Qed.

(** The other tasks of [l] (slots from [k]) with this parent. *)
Definition others_with_parent (l : list task_t) (k self : nat) (target : Z) : list (nat * task_t) :=
  filter (fun '(j, t) => j <> self /\ t_parent_task_id t = target) (imap (fun j t => ((k + j)%nat, t)) l).

Lemma sibling_scan_count l k self target count :
  0 <= count < LINEAGE_NIBBLE_MAX ->
  sibling_scan l k self target count =
  Z.min (count + Z.of_nat (length (others_with_parent l k self target))) LINEAGE_NIBBLE_MAX.
Proof.
  unfold LINEAGE_NIBBLE_MAX. revert k count. induction l as [|t l IH]; intros k count Hc.
  - cbn. rewrite u8_id by lia. lia.
  - unfold others_with_parent. cbn [sibling_scan imap]. rewrite filter_cons.
    assert (Hext : imap (λ n t, ((k + S n)%nat, t)) l = imap (λ j t, ((S k + j)%nat, t)) l).
    { apply imap_ext. intros. f_equal. lia. }
    unfold compose. rewrite Hext. rewrite Nat.add_0_r.
    fold (others_with_parent l (S k) self target).
    destruct (k =? self)%nat eqn:Ek; [apply Nat.eqb_eq in Ek|apply Nat.eqb_neq in Ek].
    + rewrite decide_False by tauto. by apply IH.
    + destruct (t_parent_task_id t =? target) eqn:Et; bools.
      * rewrite decide_True by done. cbn [length]. unfold LINEAGE_NIBBLE_MAX.
        destruct (count + 1 >=? 15) eqn:E; bools; [lia|]. rewrite IH by lia. lia.
      * rewrite decide_False by tauto. by apply IH.
Qed.

(** The lineage fields of a denial are the caller's true generation
    depth and its true number of siblings, each saturated at 15; the walk
    up the parent chain always ends within its loop bound. *)
Theorem lineage_nibbles_exact (stacks : Z) (ts : task_state) (i : nat) (t : task_t) :
  task_reachable stacks ts -> live ts !! i = Some t ->
  (exists d, depth_in ts i d /\ lineage_depth_of ts (Some i) = Z.min (Z.of_nat d) 15) /\
  sibling_count_of ts (Some i) =
    Z.min (Z.of_nat (length (others_with_parent (live ts) 0 i (t_parent_task_id t)))) 15.
Proof.
  intros Hr Hi. pose proof (task_reachable_wf stacks ts Hr) as Hw.
  assert (Ht : ts_tasks ts !!! i = t).
  { apply lookup_total_Some. by apply live_lookup in Hi as []. }
  split.
  - destruct (depth_in_total ts i t Hw Hi) as (d & Hd). exists d. split; [done|].
    unfold lineage_depth_of. rewrite Ht.
    rewrite (lineage_walk_depth ts i t d) by (done || unfold LINEAGE_NIBBLE_MAX, MAX_TASKS; lia).
    done.
  - unfold sibling_count_of. rewrite Ht, sibling_scan_count by done. done.
Qed.

Example lineage_nibbles_exact_witness :
  sibling_count_of demo_tasks (Some 1%nat) = 0.
Proof.
  destruct (lineage_nibbles_exact 4096 demo_tasks 1 (live demo_tasks !!! 1%nat) demo_reachable)
    as [_ H]; [vm_compute; reflexivity|].
  rewrite H. vm_compute. reflexivity.
Defined.
