(* ===== verification/Scheduler.v ===== *)
(** * Schedulers: services/scheduler/round_robin.c, kernel/sched/priority.c

    The round-robin policy works on the kernel task table (or on an array
    the caller passes) and owns one [int], the cursor.  An access
    outside the array and an [int] overflow have no defined result in C: the
    operations return [None] there.  The theorems show that this never happens while the cursor is in
    range, that each call runs the next runnable slot in cyclic order, and
    that no runnable task starves. *)
From S2P Require Import Prelude Types Circular Ring Auditor Tasks.

Definition RR_MAX_TASKS : Z := 64.

Record sched_state := Sched { sc_ts : task_state; sc_cursor : Z }.

Definition set_cursor (c : Z) (s : sched_state) : sched_state := Sched (sc_ts s) c.

Definition rr_init (s : sched_state) : Z * sched_state := (0, set_cursor 0 s).

(** Reading and writing [t[i]] for an [int] index [i]. *)
Definition slot_at (t : list task_t) (n i : Z) : option task_t :=
  if ((0 <=? i) && (i <? n))%bool then t !! Z.to_nat i else None.

(** The first loop: RUNNING entries below [n] go back to READY. *)
Definition yield_running (n : Z) (t : list task_t) : list task_t :=
  imap (fun i x => if ((Z.of_nat i <? n) && (t_state x =? TASK_RUNNING))%bool
                   then set_state TASK_READY x else x) t.

(** [rr_cursor = (rr_cursor + 1 >= n) ? 0 : rr_cursor + 1] *)
Definition cursor_next (n c : Z) : Z := if c + 1 >=? n then 0 else c + 1.
Definition INT_MAX : Z := 2147483647.

(** The second loop; [checked] is the number of slots left to try.  The
    result is the return value, the scheduled id, the array and the cursor. *)
Fixpoint rr_scan (checked : nat) (n : Z) (t : list task_t) (c : Z)
    : option (Z * option Z * list task_t * Z) :=
  match checked with
  | O => Some (-1, None, t, c)
  | S k =>
      if c =? INT_MAX then None else
      let c := cursor_next n c in
      match slot_at t n c with
      | None => None
      | Some x =>
          if t_state x =? TASK_READY
          then Some (0, Some (t_task_id x), <[Z.to_nat c := set_state TASK_RUNNING x]> t, c)
          else rr_scan k n t c
      end
  end.

Definition rr_schedule_on (t : list task_t) (n c : Z) : option (Z * option Z * list task_t * Z) :=
  if n <=? 0 then Some (-1, None, t, c)
  else rr_scan (Z.to_nat n) n (yield_running n t) c.

(** [rr_schedule(NULL, 0, &next)] works on the kernel table.  [out] is false
    when [next_task_id] is NULL. *)
Definition rr_schedule (s : sched_state) (out : bool) : option (Z * option Z * sched_state) :=
  if negb out then Some (-1, None, s)
  else
    '(rv, next, t, c) ← rr_schedule_on (ts_tasks (sc_ts s)) (ts_count (sc_ts s)) (sc_cursor s);
    Some (rv, next, Sched (set_tasks t (sc_ts s)) c).

(** [rr_schedule(tasks, num_tasks, &next)] with the caller's own array. *)
Definition rr_schedule_array (s : sched_state) (tasks : list task_t) (num_tasks : Z)
    : option (Z * option Z * list task_t * sched_state) :=
  '(rv, next, t, c) ← rr_schedule_on tasks num_tasks (sc_cursor s);
  Some (rv, next, t, set_cursor c s).

Definition rr_add_task (s : sched_state) (task : option task_t) : Z :=
  match task with
  | None => -1
  | Some _ => if ts_count (sc_ts s) >? RR_MAX_TASKS then -1 else 0
  end.

Definition rr_remove_task (s : sched_state) (task_id : Z) : Z * sched_state :=
  match task_find (sc_ts s) task_id with
  | None => (-1, s)
  | Some i =>
      let ts := sc_ts s in
      let ts' := set_tasks (<[i := set_state TASK_TERMINATED (ts_tasks ts !!! i)]> (ts_tasks ts)) ts in
      let n := ts_count ts in
      (0, Sched ts' (if ((n >? 0) && (sc_cursor s >=? n))%bool then n - 1 else sc_cursor s))
  end.

(** The state blob is the cursor's four bytes in memory order.  [buf] is
    [None] for NULL; the capacity is [*size].  Returns rv, the bytes
    written and [*size] after. *)
Definition rr_get_state (s : sched_state) (buf : bool) (size : option Z)
    : Z * list Z * option Z :=
  match buf, size with
  | true, Some cap =>
      if cap <? 4 then (-1, [], Some 4) else (0, le_bytes 4 (u32 (sc_cursor s)), Some 4)
  | _, _ => (-1, [], size)
  end.

Definition rr_set_state (s : sched_state) (buf : option (list Z)) (size : Z) : Z * sched_state :=
  match buf with
  | None => (-1, s)
  | Some p =>
      if size <? 4 then (-1, s) else (0, set_cursor (s32 (le_val (take 4 p))) s)
  end.

Definition rr_prepare_swap : Z := 0.
Definition rr_finalize_swap : Z := 0.

(** kernel/sched/priority.c: the first READY entry of least priority below
    11.  [best] is [best_idx] with [best_priority]. *)
Fixpoint priority_scan (t : list task_t) (i : nat) (best : option nat) (best_priority : Z)
    : option nat :=
  match t with
  | [] => best
  | x :: t' =>
      if ((t_state x =? TASK_READY) && (t_priority x <? best_priority))%bool
      then priority_scan t' (S i) (Some i) (t_priority x)
      else priority_scan t' (S i) best best_priority
  end.

Definition priority_schedule (t : list task_t) (out : bool) : Z * option Z :=
  match priority_scan t 0 None 11, out with
  | Some i, true => (0, Some (t_task_id (t !!! i)))
  | _, _ => (-1, None)
  end.

(** ** The round-robin order *)

Definition runnable (t : task_t) : bool :=
  ((t_state t =? TASK_READY) || (t_state t =? TASK_RUNNING))%bool.
Definition is_ready (t : task_t) : bool := t_state t =? TASK_READY.

(** Cursors from which the scan stays inside the table. *)
Definition cursor_ok (c : Z) : Prop := -1 <= c < INT_MAX.

(** The first slot a call looks at. *)
Definition first_slot (n c : Z) : nat := Z.to_nat (cursor_next n c).

Lemma cursor_next_range n c : 0 < n -> cursor_ok c -> 0 <= cursor_next n c < n.
Proof. unfold cursor_ok, cursor_next. intros. split_if; lia. Qed.

Lemma first_slot_next n c d :
  0 < n -> first_slot n (Z.of_nat ((first_slot n c + d) mod Z.to_nat n)) =
           (S (first_slot n c + d) mod Z.to_nat n)%nat.
Proof.
  intros Hn. set (x := (first_slot n c + d)%nat). unfold first_slot, cursor_next.
  pose proof (Nat.mod_upper_bound x (Z.to_nat n) ltac:(lia)) as Hb.
  pose proof (Nat.div_mod_eq x (Z.to_nat n)) as Hx.
  destruct (_ >=? n) eqn:E; bools.
  - symmetry. apply Nat.Div0.mod_divides. exists (S (x / Z.to_nat n)). lia.
  - apply (Nat.mod_unique _ _ (x / Z.to_nat n)); lia.
Qed.

Lemma slot_at_live n t i x :
  0 <= n -> take (Z.to_nat n) t !! i = Some x -> slot_at t n (Z.of_nat i) = Some x.
Proof.
  intros Hn [Hx Hi]%lookup_take_Some. unfold slot_at.
  replace (0 <=? Z.of_nat i) with true by lia. replace (Z.of_nat i <? n) with true by lia.
  cbn. by rewrite Nat2Z.id.
Qed.

Section Scan.
Context (n : Z) (t : list task_t).
Hypothesis n_pos : 0 < n.
Hypothesis n_int : n <= INT_MAX.
Hypothesis n_in : (Z.to_nat n <= length t)%nat.
Let l := take (Z.to_nat n) t.

Lemma length_l : length l = Z.to_nat n.
Proof. unfold l. rewrite length_take. lia. Qed.

Lemma lookup_l_total i : (i < Z.to_nat n)%nat -> l !! i = Some (l !!! i).
Proof. intros Hi. apply list_lookup_lookup_total_lt. by rewrite length_l. Qed.

Lemma rr_scan_spec k c :
  cursor_ok c ->
  rr_scan k n t c =
  match findi is_ready (window l (first_slot n c) k) with
  | Some d =>
      let i := ((first_slot n c + d) mod Z.to_nat n)%nat in
      Some (0, Some (t_task_id (l !!! i)), <[i := set_state TASK_RUNNING (l !!! i)]> t,
            Z.of_nat i)
  | None =>
      Some (-1, None, t,
            if decide (k = 0%nat) then c
            else Z.of_nat ((first_slot n c + (k - 1)) mod Z.to_nat n))
  end.
Proof.
  revert c. induction k as [|k IH]; intros c Hc; [done|].
  pose proof (cursor_next_range n c n_pos Hc) as Hr. cbn [rr_scan].
  destruct (c =? INT_MAX) eqn:E; bools; [unfold cursor_ok in Hc; lia|].
  assert (Hm : (first_slot n c mod Z.to_nat n = first_slot n c)%nat).
  { apply Nat.mod_small. unfold first_slot. lia. }
  rewrite window_cons, length_l, Hm. cbn [findi].
  replace (cursor_next n c) with (Z.of_nat (first_slot n c)) by (unfold first_slot; lia).
  rewrite (slot_at_live _ _ _ (l !!! first_slot n c)); [|lia|].
  2: { apply lookup_l_total. unfold first_slot. lia. }
  unfold is_ready at 1. destruct (_ =? TASK_READY) eqn:Er.
  { cbv zeta. rewrite Nat.add_0_r, Hm, Nat2Z.id. done. }
  rewrite IH by (unfold cursor_ok, first_slot, INT_MAX in *; lia).
  pose proof (first_slot_next n c 0 n_pos) as Hf. rewrite Nat.add_0_r, Hm in Hf.
  rewrite Hf. rewrite <-length_l at 1. rewrite window_mod.
  destruct (findi is_ready (window l (S (first_slot n c)) k)) as [d|]; cbn.
  - rewrite Nat.Div0.add_mod_idemp_l.
    replace (S (first_slot n c) + d)%nat with (first_slot n c + S d)%nat by lia. done.
  - do 2 f_equal. destruct (decide (k = 0%nat)) as [->|Hk]; cbn [Nat.sub].
    + by rewrite Nat.add_0_r, Hm.
    + rewrite Nat.Div0.add_mod_idemp_l. do 2 f_equal. lia.
Qed.
End Scan.

(** ** What the demotion loop leaves *)

Definition demote (x : task_t) : task_t :=
  if t_state x =? TASK_RUNNING then set_state TASK_READY x else x.

Lemma demote_identity x : same_identity x (demote x).
Proof. unfold demote. by destruct (_ =? _). Qed.
Lemma demote_ready x : is_ready (demote x) = runnable x.
Proof.
  unfold demote, is_ready, runnable. destruct (t_state x =? TASK_RUNNING) eqn:E; [by rewrite orb_true_r|].
  by rewrite orb_false_r.
Qed.
Lemma demote_not_running x : t_state (demote x) <> TASK_RUNNING.
Proof. unfold demote. destruct (_ =? _) eqn:E; bools; done. Qed.
Lemma demote_runnable x : runnable (demote x) = runnable x.
Proof.
  rewrite <-(demote_ready x). pose proof (demote_not_running x) as Hn.
  unfold runnable, is_ready. destruct (t_state (demote x) =? TASK_RUNNING) eqn:E; bools; [done|].
  apply orb_false_r.
Qed.

Lemma length_yield n t : length (yield_running n t) = length t.
Proof. apply length_imap. Qed.

Lemma take_yield n t :
  take (Z.to_nat n) (yield_running n t) = demote <$> take (Z.to_nat n) t.
Proof.
  apply list_eq. intros i. rewrite list_lookup_fmap.
  destruct (decide (i < Z.to_nat n)%nat).
  - rewrite !lookup_take_lt by done. unfold yield_running. rewrite list_lookup_imap.
    destruct (t !! i) as [x|]; [|done]. cbn. unfold demote.
    replace (Z.of_nat i <? n) with true by lia. done.
  - by rewrite !lookup_take_ge by lia.
Qed.

Lemma window_fmap (f : task_t -> task_t) l s k :
  (0 < length l)%nat -> window (f <$> l) s k = f <$> window l s k.
Proof.
  intros Hl. unfold window. rewrite length_fmap, <-list_fmap_compose.
  apply list_fmap_ext. intros i x _. cbn.
  apply list_lookup_total_fmap. apply Nat.mod_upper_bound. lia.
Qed.

Lemma findi_fmap {A B} (p : B -> bool) (f : A -> B) l :
  findi p (f <$> l) = findi (fun x => p (f x)) l.
Proof. induction l as [|x l IH]; [done|]. cbn. by rewrite IH. Qed.

Lemma findi_ext {A} (p q : A -> bool) l : (forall x, p x = q x) -> findi p l = findi q l.
Proof. intros Hpq. induction l as [|x l IH]; [done|]. cbn. by rewrite Hpq, IH. Qed.

(** The queue of live tasks in the order the cursor will visit them. *)
Definition rotation (s : sched_state) : list task_t :=
  window (live (sc_ts s)) (first_slot (ts_count (sc_ts s)) (sc_cursor s))
    (Z.to_nat (ts_count (sc_ts s))).

Record sched_wf (s : sched_state) : Prop := {
  sw_tasks : tasks_wf (sc_ts s);
  sw_cursor : cursor_ok (sc_cursor s)
}.

(** The slot [d] places down the rotation. *)
Definition rotation_slot (s : sched_state) (d : nat) : nat :=
  ((first_slot (ts_count (sc_ts s)) (sc_cursor s) + d) mod Z.to_nat (ts_count (sc_ts s)))%nat.

(** The table after the call chose slot [i]. *)
Definition dispatch_table (ts : task_state) (i : nat) : list task_t :=
  <[i := set_state TASK_RUNNING (ts_tasks ts !!! i)]> (demote <$> live ts).

Lemma rr_schedule_result s :
  sched_wf s ->
  exists s',
    rr_schedule s true =
      Some (match findi runnable (rotation s) with Some _ => 0 | None => -1 end,
            match findi runnable (rotation s) with
            | Some d => Some (t_task_id (live (sc_ts s) !!! rotation_slot s d))
            | None => None
            end, s') /\
    match findi runnable (rotation s) with
    | Some d => live (sc_ts s') = dispatch_table (sc_ts s) (rotation_slot s d) /\
                sc_cursor s' = Z.of_nat (rotation_slot s d)
    | None => live (sc_ts s') = demote <$> live (sc_ts s) /\ 0 <= sc_cursor s' < ts_count (sc_ts s)
    end /\
    length (ts_tasks (sc_ts s')) = length (ts_tasks (sc_ts s)) /\
    ts_count (sc_ts s') = ts_count (sc_ts s) /\ ts_next_id (sc_ts s') = ts_next_id (sc_ts s) /\
    ts_current (sc_ts s') = ts_current (sc_ts s).
Proof.
  intros [Hw Hc]. pose proof (tw_count _ Hw) as Hcnt. pose proof (tw_length _ Hw) as Hlen.
  unfold rr_schedule, rr_schedule_on, rotation, rotation_slot, dispatch_table.
  destruct s as [ts c]. cbn [sc_ts sc_cursor] in *. set (n := ts_count ts) in *.
  destruct (n <=? 0) eqn:E; bools; [lia|]. cbn [negb].
  set (t := ts_tasks ts) in *.
  assert (Hll : length (live ts) = Z.to_nat n) by (by apply length_live).
  rewrite (rr_scan_spec n (yield_running n t))
    by (rewrite ?length_yield, ?Hlen; unfold MAX_TASKS, INT_MAX in *; (lia || done)).
  rewrite take_yield. change (take (Z.to_nat n) t) with (live ts).
  rewrite window_fmap by lia. rewrite findi_fmap, (findi_ext _ runnable) by apply demote_ready.
  pose proof (length_window (live ts) (first_slot n c) (Z.to_nat n)) as Hlw.
  destruct (findi runnable _) as [d|] eqn:Ef.
  - cbv zeta. set (i := ((first_slot n c + d) mod Z.to_nat n)%nat).
    assert (Hi : (i < length (live ts))%nat).
    { rewrite Hll. apply Nat.mod_upper_bound. lia. }
    rewrite (list_lookup_total_fmap demote (live ts) i Hi).
    assert (Hid : t_task_id (demote (live ts !!! i)) = t_task_id (live ts !!! i)).
    { pose proof (demote_identity (live ts !!! i)) as Hs. unfold same_identity, identity in Hs.
      congruence. }
    assert (Hset : set_state TASK_RUNNING (demote (live ts !!! i)) = set_state TASK_RUNNING (t !!! i)).
    { assert (Ht : t !!! i = live ts !!! i).
      { apply lookup_total_Some.
        destruct (lookup_lt_is_Some_2 (live ts) i Hi) as [x Hx]. rewrite (lookup_total_Some _ _ x Hx).
        by apply live_lookup in Hx as []. }
      rewrite Ht. unfold demote. by destruct (_ =? _). }
    cbn. rewrite Hid, Hset. eexists. split; [reflexivity|]. cbn.
    rewrite length_insert, length_yield. split_and!; try done.
    unfold live at 1. cbn. fold n. rewrite take_insert_lt by lia. by rewrite take_yield.
  - cbn. eexists. split; [reflexivity|]. cbn. rewrite length_yield. split_and!; try done.
    + unfold live at 1. cbn. fold n. by rewrite take_yield.
    + destruct (decide _) as [|Hk]; lia.
    + destruct (decide _) as [|Hk]; [lia|].
      pose proof (Nat.mod_upper_bound (first_slot n c + (Z.to_nat n - 1)) (Z.to_nat n)). lia.
Qed.

Lemma same_identity_set_state st t : same_identity t (set_state st t).
Proof. done. Qed.

Lemma demote_list_identity l : Forall2 same_identity l (demote <$> l).
Proof. induction l; constructor; [apply demote_identity|done]. Qed.

Lemma dispatch_identity ts i :
  tasks_wf ts -> (i < length (live ts))%nat -> Forall2 same_identity (live ts) (dispatch_table ts i).
Proof.
  intros Hw Hi. unfold dispatch_table. apply Forall2_lookup. intros j.
  rewrite list_lookup_insert, length_fmap. case_decide as Hj.
  - destruct Hj as [<- _]. destruct (lookup_lt_is_Some_2 _ _ Hi) as [x Hx]. rewrite Hx.
    apply live_lookup in Hx as [Hx _]. rewrite (lookup_total_Some _ _ x Hx). by constructor.
  - rewrite list_lookup_fmap. destruct (live ts !! j); constructor. apply demote_identity.
Qed.

Lemma rotation_slot_lt s d : sched_wf s -> (rotation_slot s d < length (live (sc_ts s)))%nat.
Proof.
  intros [Hw _]. rewrite length_live by done. pose proof (tw_count _ Hw).
  apply Nat.mod_upper_bound. lia.
Qed.

(** A call changes scheduling state only, so the invariant survives. *)
Lemma rr_schedule_wf s rv next s' :
  sched_wf s -> rr_schedule s true = Some (rv, next, s') ->
  table_equiv (sc_ts s) (sc_ts s') /\ sched_wf s'.
Proof.
  intros Hs He. destruct (rr_schedule_result s Hs) as (s1 & He' & Hl & Hlen & Hc & Hn & Hcur).
  rewrite He' in He. injection He as _ _ ->. pose proof (sw_tasks s Hs) as Hw.
  pose proof (tw_count _ Hw) as Hcnt.
  assert (Hte : table_equiv (sc_ts s) (sc_ts s')).
  { split; try done. destruct (findi runnable _) as [d|]; destruct Hl as [-> _].
    - apply dispatch_identity; [done|]. by apply rotation_slot_lt.
    - apply demote_list_identity. }
  split; [done|]. split; [by rewrite <-Hte|].
  unfold cursor_ok, INT_MAX, MAX_TASKS in *. destruct (findi runnable _) as [d|]; destruct Hl as [_ Hc'].
  - pose proof (rotation_slot_lt s d Hs) as Hlt. rewrite length_live in Hlt by done. lia.
  - lia.
Qed.

Lemma demote_state_running x : t_state (demote x) = TASK_RUNNING <-> False.
Proof. split; [apply demote_not_running|done]. Qed.

(** C23: round-robin selection.  From a well-formed table and an in-range
    cursor a call stays inside the table; it runs the first runnable task
    (READY, or RUNNING and hence demoted first) in cyclic slot order after
    the cursor and returns 0 with its id, leaving it as the only RUNNING
    task and the cursor on it; with no runnable task it returns -1 and runs
    nothing.  Ids, capabilities, domains and parents never change. *)
Theorem rr_schedule_round_robin (s : sched_state) :
  sched_wf s ->
  exists rv next s',
    rr_schedule s true = Some (rv, next, s') /\ table_equiv (sc_ts s) (sc_ts s') /\ sched_wf s' /\
    match findi runnable (rotation s) with
    | Some d =>
        rv = 0 /\ next = t_task_id <$> (live (sc_ts s) !! rotation_slot s d) /\
        sc_cursor s' = Z.of_nat (rotation_slot s d) /\
        (forall i t, live (sc_ts s') !! i = Some t ->
                     t_state t = TASK_RUNNING <-> i = rotation_slot s d)
    | None =>
        rv = -1 /\ next = None /\
        (forall i t, live (sc_ts s') !! i = Some t -> runnable t = false)
    end.
Proof.
  intros Hs. destruct (rr_schedule_result s Hs) as (s' & He & Hl & _).
  destruct (rr_schedule_wf s _ _ s' Hs He) as [Hte Hw'].
  do 3 eexists. split; [exact He|]. split; [done|]. split; [done|].
  destruct (findi runnable (rotation s)) as [d|] eqn:Ef; destruct Hl as [Hl Hc].
  - pose proof (rotation_slot_lt s d Hs) as Hlt. split; [done|]. split; [|split; [done|]].
    + by rewrite (list_lookup_lookup_total_lt _ _ Hlt).
    + intros i t. rewrite Hl. unfold dispatch_table.
      rewrite list_lookup_insert, length_fmap. case_decide as Hi.
      * intros [= <-]. cbn. split; [by intros _; destruct Hi|done].
      * rewrite list_lookup_fmap. intros (x & _ & ->)%fmap_Some.
        rewrite demote_state_running. split; [done|]. intros ->. apply Hi. by split.
  - split; [done|]. split; [done|]. intros i t. rewrite Hl, list_lookup_fmap.
    intros (x & Hx & ->)%fmap_Some. rewrite demote_runnable.
    apply findi_None in Ef. unfold rotation, window in Ef.
    pose proof (sw_tasks s Hs) as Hw. pose proof (tw_count _ Hw) as Hcnt.
    pose proof (length_live _ Hw) as Hlen. rewrite Forall_fmap, Forall_forall in Ef.
    set (n := Z.to_nat (ts_count (sc_ts s))) in *.
    set (f := first_slot (ts_count (sc_ts s)) (sc_cursor s)) in *.
    pose proof (lookup_lt_Some _ _ _ Hx) as Hi.
    assert (Hf : (f < n)%nat).
    { pose proof (cursor_next_range (ts_count (sc_ts s)) _ ltac:(lia) (sw_cursor s Hs)).
      unfold f, n, first_slot. lia. }
    specialize (Ef ((i + n - f) mod n)%nat). cbn in Ef. rewrite Hlen in Ef.
    rewrite Nat.Div0.add_mod_idemp_r in Ef.
    replace (f + (i + n - f))%nat with (i + 1 * n)%nat in Ef by lia.
    rewrite Nat.Div0.mod_add, (Nat.mod_small i) in Ef by lia.
    rewrite (lookup_total_Some _ _ x Hx) in Ef. apply Ef. apply elem_of_seq.
    pose proof (Nat.mod_upper_bound (i + n - f) n). lia.
Qed.

(** ** No starvation *)

(** [k] calls in a row; the ids they ran. *)
Fixpoint rr_iterate (k : nat) (s : sched_state) : option (list (option Z) * sched_state) :=
  match k with
  | O => Some ([], s)
  | S k =>
      '(_, next, s1) ← rr_schedule s true;
      '(hist, s2) ← rr_iterate k s1;
      Some (next :: hist, s2)
  end.

(** How many places down the rotation slot [i] is. *)
Definition rotation_dist (s : sched_state) (i : nat) : nat :=
  let n := Z.to_nat (ts_count (sc_ts s)) in
  ((i + n - first_slot (ts_count (sc_ts s)) (sc_cursor s)) mod n)%nat.

Lemma rotation_slot_dist s i :
  sched_wf s -> (i < length (live (sc_ts s)))%nat -> rotation_slot s (rotation_dist s i) = i.
Proof.
  intros [Hw Hc] Hi. rewrite length_live in Hi by done. pose proof (tw_count _ Hw) as Hn.
  pose proof (cursor_next_range (ts_count (sc_ts s)) _ ltac:(lia) Hc).
  unfold rotation_slot, rotation_dist, first_slot in *.
  set (n := Z.to_nat (ts_count (sc_ts s))) in *. set (f := Z.to_nat _).
  assert (f < n)%nat by lia. rewrite Nat.Div0.add_mod_idemp_r.
  replace (f + (i + n - f))%nat with (i + 1 * n)%nat by lia.
  rewrite Nat.Div0.mod_add. by apply Nat.mod_small.
Qed.

Lemma rotation_lookup s d :
  sched_wf s -> (d < Z.to_nat (ts_count (sc_ts s)))%nat ->
  rotation s !! d = live (sc_ts s) !! rotation_slot s d.
Proof.
  intros Hs Hd. pose proof (rotation_slot_lt s d Hs) as Hlt.
  rewrite (list_lookup_lookup_total_lt _ _ Hlt). unfold rotation, window.
  rewrite list_lookup_fmap, lookup_seq_lt by done. cbn. unfold rotation_slot.
  by rewrite (length_live _ (sw_tasks s Hs)).
Qed.

Lemma rr_iterate_total k s : sched_wf s -> exists h s', rr_iterate k s = Some (h, s').
Proof.
  revert s. induction k as [|k IH]; intros s Hs; [by do 2 eexists|]. cbn [rr_iterate].
  destruct (rr_schedule_result s Hs) as (s' & He & _).
  destruct (rr_schedule_wf s _ _ s' Hs He) as [_ Hs']. rewrite He. cbn.
  destruct (IH s' Hs') as (h & s2 & ->). by do 2 eexists.
Qed.

(** Choosing a slot [d] places away moves the rotation past it, so a slot
    further away comes nearer. *)
Lemma rotation_dist_nearer s s' i d :
  sched_wf s -> (i < length (live (sc_ts s)))%nat -> ts_count (sc_ts s') = ts_count (sc_ts s) ->
  sc_cursor s' = Z.of_nat (rotation_slot s d) -> (d < rotation_dist s i)%nat ->
  (rotation_dist s' i < rotation_dist s i)%nat.
Proof.
  intros Hs Hlt Hcnt Hc. rewrite (length_live _ (sw_tasks s Hs)) in Hlt.
  pose proof (tw_count _ (sw_tasks s Hs)) as Hn.
  unfold rotation_dist. rewrite Hcnt, Hc. unfold rotation_slot. rewrite first_slot_next by lia.
  pose proof (cursor_next_range (ts_count (sc_ts s)) _ ltac:(lia) (sw_cursor s Hs)) as Hf.
  set (n := Z.to_nat (ts_count (sc_ts s))) in *.
  assert (Hfn : (first_slot (ts_count (sc_ts s)) (sc_cursor s) < n)%nat) by (unfold first_slot, n; lia).
  set (f := first_slot (ts_count (sc_ts s)) (sc_cursor s)) in *.
  assert (Hsmall : forall x, (x < 2 * n)%nat -> (x mod n = if decide (x < n) then x else x - n)%nat).
  { intros x Hx. destruct (decide (x < n)%nat); [by apply Nat.mod_small|]. symmetry. apply (Nat.mod_unique _ _ 1); lia. }
  rewrite !(Hsmall (i + n - f)%nat) by lia. intros Hd.
  assert (HSd : (S (f + d) < 2 * n)%nat) by (destruct (decide (i + n - f < n)%nat); lia).
  rewrite (Hsmall _ HSd). clear HSd.
  destruct (decide (S (f + d) < n)%nat); rewrite Hsmall by lia;
    repeat match goal with |- context [decide ?P] => destruct (decide P) | H : context [decide ?P] |- _ => destruct (decide P) end; lia.
Qed.

(** One call either runs slot [i] or brings it strictly nearer. *)
Lemma rr_schedule_progress s i t :
  sched_wf s -> live (sc_ts s) !! i = Some t -> runnable t = true ->
  exists next s', rr_schedule s true = Some (0, next, s') /\ sched_wf s' /\
    (next = Some (t_task_id t) \/
     (rotation_dist s' i < rotation_dist s i)%nat /\
     exists t', live (sc_ts s') !! i = Some t' /\ runnable t' = true /\ t_task_id t' = t_task_id t).
Proof.
  intros Hs Hi Hr. destruct (rr_schedule_result s Hs) as (s' & He & Hl & _ & Hcnt & _).
  destruct (rr_schedule_wf s _ _ s' Hs He) as [_ Hs'].
  pose proof (lookup_lt_Some _ _ _ Hi) as Hlt. pose proof (sw_tasks s Hs) as Hw.
  pose proof (tw_count _ Hw) as Hn. pose proof (length_live _ Hw) as Hlen.
  set (D := rotation_dist s i). assert (HD : (D < Z.to_nat (ts_count (sc_ts s)))%nat).
  { apply Nat.mod_upper_bound. lia. }
  assert (HDi : rotation s !! D = Some t).
  { rewrite rotation_lookup by done. unfold D. by rewrite rotation_slot_dist. }
  destruct (findi runnable (rotation s)) as [d|] eqn:Ef.
  2: { apply findi_None in Ef. eapply Forall_lookup_1 in Ef; [|exact HDi]. congruence. }
  exists (Some (t_task_id (live (sc_ts s) !!! rotation_slot s d))), s'.
  split; [done|]. split; [done|]. destruct Hl as [Hl Hc].
  pose proof Ef as (_ & Hleast)%findi_Some.
  destruct (decide (d = D)) as [->|Hne].
  { left. unfold D. rewrite rotation_slot_dist by done. by rewrite (lookup_total_Some _ _ t Hi). }
  assert (HdD : (d < D)%nat).
  { destruct (decide (d < D)%nat); [done|]. rewrite (Hleast D t ltac:(lia) HDi) in Hr. done. }
  right. split; [by apply (rotation_dist_nearer s s' i d)|].
  exists (demote t). rewrite Hl. unfold dispatch_table.
  assert (rotation_slot s d <> i).
  { intros Heq. rewrite <-(rotation_slot_dist s i Hs Hlt) in Heq. fold D in Heq. unfold rotation_slot in Heq.
    apply (mod_shift_neq (Z.to_nat (ts_count (sc_ts s)))
             (first_slot (ts_count (sc_ts s)) (sc_cursor s)) d D); [lia|lia|exact Heq]. }
  rewrite list_lookup_insert_ne by done. rewrite list_lookup_fmap, Hi. split; [done|].
  split; [by rewrite demote_runnable|].
  pose proof (demote_identity t) as Hid. unfold same_identity, identity in Hid. congruence.
Qed.

Lemma rr_iterate_reaches k s i t :
  sched_wf s -> live (sc_ts s) !! i = Some t -> runnable t = true -> (rotation_dist s i < k)%nat ->
  exists h s', rr_iterate k s = Some (h, s') /\ Some (t_task_id t) ∈ h.
Proof.
  revert s t. induction k as [|k IH]; intros s t Hs Hi Hr Hd; [lia|]. cbn [rr_iterate].
  destruct (rr_schedule_progress s i t Hs Hi Hr) as (next & s1 & -> & Hs1 & Hcase). cbn.
  destruct Hcase as [->|(Hlt & t' & Hi' & Hr' & <-)].
  - destruct (rr_iterate_total k s1 Hs1) as (h & s2 & ->). do 2 eexists. split; [done|].
    apply list_elem_of_here.
  - destruct (IH s1 t' Hs1 Hi' Hr' ltac:(lia)) as (h & s2 & -> & Hin).
    do 2 eexists. split; [done|]. by apply list_elem_of_further.
Qed.

(** C32: no starvation.  A runnable task is run at least once in any
    [task_count] successive calls. *)
Theorem rr_no_starvation (s : sched_state) (i : nat) (t : task_t) :
  sched_wf s -> live (sc_ts s) !! i = Some t -> runnable t = true ->
  exists hist s', rr_iterate (Z.to_nat (ts_count (sc_ts s))) s = Some (hist, s') /\
                  Some (t_task_id t) ∈ hist.
Proof.
  intros Hs Hi Hr. apply (rr_iterate_reaches _ s i t Hs Hi Hr).
  pose proof (tw_count _ (sw_tasks s Hs)). apply Nat.mod_upper_bound. lia.
Qed.

(** Three live tasks; the root runs. *)
Definition demo_tasks3 : task_state :=
  (create_task 4096 demo_tasks auditor_bss (Some demo_spec)).1.1.2.
Lemma demo_reachable3 : task_reachable 4096 demo_tasks3.
Proof. eapply rtc_r; [exact demo_reachable|apply (step_create 4096 _ auditor_bss (Some demo_spec))]. Defined.
Definition demo_sched : sched_state := (rr_init (Sched demo_tasks3 5)).2.
Lemma demo_sched_wf : sched_wf demo_sched.
Proof. split; [exact (task_reachable_wf _ _ demo_reachable3)|split; vm_compute; congruence]. Defined.

Example rr_schedule_round_robin_witness :
  exists s', rr_schedule demo_sched true = Some (0, Some 2, s') /\ sched_wf s'.
Proof.
  destruct (rr_schedule_round_robin demo_sched demo_sched_wf) as (rv & next & s' & H & _ & Hw & Hm).
  change (findi runnable (rotation demo_sched)) with (Some 0%nat) in Hm. cbv beta iota in Hm.
  destruct Hm as (-> & -> & _). by exists s'.
Defined.

Example rr_no_starvation_witness :
  exists hist s', rr_iterate 3 demo_sched = Some (hist, s') /\ Some 3 ∈ hist.
Proof.
  exact (rr_no_starvation demo_sched 2 (Task 3 5 1 0 0 0 53248 53248 1) demo_sched_wf
           ltac:(vm_compute; reflexivity) ltac:(vm_compute; reflexivity)).
Defined.

(** ** Handing the cursor over *)

(** Hot swap.  The four bytes [get_state] exports restore exactly the
    cursor they were taken from, whatever was there before; a buffer that is
    too small is refused with the size that is needed, and a short blob is
    refused without touching the cursor. *)
Theorem rr_state_handoff (s s0 : sched_state) (cap : Z) :
  -2147483648 <= sc_cursor s <= INT_MAX ->
  (cap < 4 -> rr_get_state s true (Some cap) = (-1, [], Some 4)) /\
  (4 <= cap -> exists bytes,
     rr_get_state s true (Some cap) = (0, bytes, Some 4) /\ length bytes = 4%nat /\
     rr_set_state s0 (Some bytes) 4 = (0, set_cursor (sc_cursor s) s0)) /\
  (forall bytes size, size < 4 -> rr_set_state s0 (Some bytes) size = (-1, s0)).
Proof.
  intros Hc. unfold INT_MAX in Hc. unfold rr_get_state, rr_set_state. split_and!.
  - intros. destruct (cap <? 4) eqn:E; bools; [done|lia].
  - intros. destruct (cap <? 4) eqn:E; bools; [lia|].
    eexists. split; [reflexivity|]. split; [apply length_le_bytes|].
    rewrite take_ge by (by rewrite length_le_bytes).
    rewrite le_val_bytes. change (2 ^ (8 * Z.of_nat 4)) with 4294967296. fold (u32 (u32 (sc_cursor s))).
    cbn [Z.ltb Z.compare Pos.compare Pos.compare_cont]. by rewrite u32_u32, s32_u32, s32_id by lia.
  - intros bytes size Hs. destruct (size <? 4) eqn:E; bools; [done|lia].
Qed.

Example rr_state_handoff_witness :
  exists bytes, rr_get_state demo_sched true (Some 16) = (0, bytes, Some 4) /\ length bytes = 4%nat /\
    rr_set_state (Sched demo_tasks 7) (Some bytes) 4 = (0, Sched demo_tasks 0).
Proof.
  exact (proj1 (proj2 (rr_state_handoff demo_sched (Sched demo_tasks 7) 16
                         ltac:(split; vm_compute; congruence))) ltac:(lia)).
Defined.

(** The blob is not validated.  [set_state] accepts a cursor below -1
    with return value 0, and the next call then reads the table outside its
    bounds. *)
Theorem rr_set_state_unchecked (s : sched_state) :
  exists bytes s', rr_set_state s (Some bytes) 4 = (0, s') /\
    (0 < ts_count (sc_ts s) -> rr_schedule s' true = None).
Proof.
  exists (le_bytes 4 (u32 (-2))), (set_cursor (-2) s). split; [reflexivity|].
  intros Hn. unfold rr_schedule, rr_schedule_on, set_cursor. cbn.
  destruct (_ <=? 0) eqn:E; bools; [lia|].
  destruct (Z.to_nat (ts_count (sc_ts s))) as [|k] eqn:Ek; [lia|]. cbn [rr_scan].
  change (-2 =? INT_MAX) with false. cbv iota zeta.
  replace (cursor_next _ (-2)) with (-1); [done|].
  unfold cursor_next. destruct (_ >=? _) eqn:E'; bools; lia.
Qed.

(** ** Priority policy *)

(** [best] is the slot the policy must pick from [l]: a READY task of least
    priority below 11, the first of its equals. *)
Definition elected (l : list task_t) (best : option nat) (bp : Z) : Prop :=
  match best with
  | None => bp = 11 /\ forall j y, l !! j = Some y -> is_ready y = true -> 11 <= t_priority y
  | Some b =>
      exists x, l !! b = Some x /\ is_ready x = true /\ t_priority x = bp /\ bp < 11 /\
        forall j y, l !! j = Some y -> is_ready y = true ->
                    bp <= t_priority y /\ ((j < b)%nat -> bp < t_priority y)
  end.

Lemma elected_snoc pre x best bp :
  elected pre best bp ->
  elected (pre ++ [x])
    (if (is_ready x && (t_priority x <? bp))%bool then Some (length pre) else best)
    (if (is_ready x && (t_priority x <? bp))%bool then t_priority x else bp).
Proof.
  intros He. destruct (is_ready x && _)%bool eqn:E; bools.
  - exists x. split; [by rewrite lookup_app_r, Nat.sub_diag by lia|]. split; [done|]. split; [done|].
    assert (Hbp : bp <= 11) by (destruct best; [destruct He as (?&?&?&?&?&?)|destruct He]; lia).
    split; [lia|]. intros j y. rewrite lookup_snoc_Some. intros [[Hj Hy]|[-> <-]] Hr.
    + assert (bp <= t_priority y); [|lia].
      destruct best as [b|]; [destruct He as (z&?&?&?&?&Hall)|destruct He as [-> Hall]];
        by apply (Hall j y).
    + lia.
  - apply andb_false_iff in E.
    destruct best as [b|]; [destruct He as (z&Hz&Hrz&Hpz&Hlt&Hall)|destruct He as [-> Hall]].
    + exists z. split; [by apply lookup_app_l_Some|]. split_and!; try done. intros j y.
      rewrite lookup_snoc_Some. intros [[Hj Hy]|[-> <-]] Hr; [by apply (Hall j y)|].
      pose proof (lookup_lt_Some _ _ _ Hz). destruct E as [E|E]; bools; [congruence|lia].
    + split; [done|]. intros j y. rewrite lookup_snoc_Some.
      intros [[Hj Hy]|[-> <-]] Hr; [by apply (Hall j y)|]. destruct E as [E|E]; bools; [congruence|lia].
Qed.

Lemma priority_scan_elected t pre best bp :
  elected pre best bp -> exists bp', elected (pre ++ t) (priority_scan t (length pre) best bp) bp'.
Proof.
  revert pre best bp. induction t as [|x t IH]; intros pre best bp He; cbn [priority_scan].
  - rewrite app_nil_r. by exists bp.
  - pose proof (elected_snoc pre x best bp He) as Hs. unfold is_ready in Hs.
    replace (S (length pre)) with (length (pre ++ [x])) by (rewrite length_app; cbn; lia).
    rewrite cons_middle, app_assoc. destruct (_ && _)%bool; by eapply IH.
Qed.

(** The priority policy returns 0 with the id of a READY task that no
    READY task outranks (lower numbers rank higher), the earliest slot of
    that rank; it returns -1 exactly when no READY task has a priority of 10
    or better. *)
Theorem priority_schedule_best (t : list task_t) :
  (exists i x, t !! i = Some x /\ is_ready x = true /\ t_priority x <= 10 /\
     priority_schedule t true = (0, Some (t_task_id x)) /\
     forall j y, t !! j = Some y -> is_ready y = true ->
                 t_priority x <= t_priority y /\ ((j < i)%nat -> t_priority x < t_priority y)) \/
  (priority_schedule t true = (-1, None) /\
   forall j y, t !! j = Some y -> is_ready y = true -> 10 < t_priority y).
Proof.
  destruct (priority_scan_elected t [] None 11) as (bp & He).
  { split; [done|]. by intros j y ?%lookup_nil_Some || intros j y; rewrite lookup_nil. }
  cbn in He. unfold priority_schedule.
  destruct (priority_scan t 0 None 11) as [i|]; cbn in He.
  - left. destruct He as (x & Hx & Hr & <- & Hlt & Hall). exists i, x.
    rewrite (lookup_total_Some _ _ x Hx). split_and!; try done. lia.
  - right. destruct He as [_ Hall]. split; [done|]. intros j y Hy Hry.
    specialize (Hall j y Hy Hry). lia.
Qed.
