(* ===== verification/Interrupts.v ===== *)
(** * Interrupt controllers and priority levels

    kernel/arch/x86/pic.c, isr.c, pit.c, gdt.c and idt.c in module [X86];
    kernel/arch/arm/vic.c and timer.c in module [Arm].  Device accesses are
    traces of register writes, together with what the device's registers
    hold after them; a value read from a device is an argument. *)
From S2P Require Import Prelude.

Definition IPL_NONE : Z := 0.
Definition IPL_TTY : Z := 1.
Definition IPL_CLOCK : Z := 2.
Definition IPL_HIGH : Z := 3.

Module X86.

Definition PIC1_CMD : Z := 32.
Definition PIC1_DATA : Z := 33.
Definition PIC2_CMD : Z := 160.
Definition PIC2_DATA : Z := 161.
Definition PIC_EOI : Z := 32.

(** [p_if] is the CPU's interrupt flag, [p_out] the port writes so far. *)
Record pic := Pic {
  p_enabled_mask : Z;
  p_ipl_mask : Z;
  p_if : bool;
  p_out : list (Z * Z)
}.
Definition pic_boot (ifl : bool) : pic := Pic 65531 65535 ifl [].

Definition outb (port val : Z) (s : pic) : pic :=
  Pic (p_enabled_mask s) (p_ipl_mask s) (p_if s) (p_out s ++ [(port, val)]).
Definition io_wait (s : pic) : pic := outb 128 0 s.
Definition set_ipl_mask (m : Z) (s : pic) : pic :=
  Pic (p_enabled_mask s) m (p_if s) (p_out s).
Definition set_if (b : bool) (s : pic) : pic :=
  Pic (p_enabled_mask s) (p_ipl_mask s) b (p_out s).

Definition ipl_to_mask : list Z := [0; 240; 65534; 65535].

Definition apply_mask (s : pic) : pic :=
  let m := u16 (Z.lor (p_enabled_mask s) (p_ipl_mask s)) in
  outb PIC2_DATA (u8 (Z.shiftr m 8)) (outb PIC1_DATA (u8 (Z.land m 255)) s).

(** [pushfl; cli] ... [if (flags & 0x200) sti] *)
Definition with_cli (f : pic -> pic) (s : pic) : pic :=
  let flag := p_if s in
  let s := f (set_if false s) in
  if flag then set_if true s else s.

Definition splraise (ipl : Z) (s : pic) : Z * pic :=
  (p_ipl_mask s,
   with_cli (fun s =>
     if ipl <? 4 then
       let want := ipl_to_mask !!! Z.to_nat ipl in
       if want >? p_ipl_mask s then apply_mask (set_ipl_mask want s) else s
     else s) s).
Definition splx (prev : Z) (s : pic) : pic :=
  with_cli (fun s => apply_mask (set_ipl_mask prev s)) s.
Definition splhigh (s : pic) : Z * pic := splraise IPL_HIGH s.
Definition splclock (s : pic) : Z * pic := splraise IPL_CLOCK s.
Definition spl0 (s : pic) : Z * pic :=
  (p_ipl_mask s,
   with_cli (fun s => apply_mask (set_ipl_mask (ipl_to_mask !!! 0%nat) s)) s).

Definition pic_remap (s : pic) : pic :=
  let put '(p, v) s := io_wait (outb p v s) in
  apply_mask
    (foldl (fun s pv => put pv s) s
       [(PIC1_CMD, 17); (PIC2_CMD, 17); (PIC1_DATA, 32); (PIC2_DATA, 40);
        (PIC1_DATA, 4); (PIC2_DATA, 2); (PIC1_DATA, 1); (PIC2_DATA, 1)]).

Definition pic_unmask (irq : Z) (s : pic) : pic :=
  if irq >=? 16 then s
  else apply_mask (Pic (Z.ldiff (p_enabled_mask s) (bit irq)) (p_ipl_mask s) (p_if s) (p_out s)).

Definition irq_eoi (irq : Z) (s : pic) : pic :=
  let s := if irq >=? 8 then outb PIC2_CMD PIC_EOI s else s in
  outb PIC1_CMD PIC_EOI s.

(** *** Dispatch *)

(** A handler is a function and its cookie, both addresses. *)
Definition handler : Type := Z * Z.
Record isr_state := Isr { i_pic : pic; i_handlers : list (option handler) }.
Definition isr_bss (p : pic) : isr_state := Isr p (replicate 16 None).

(** An [fn] of 0 is NULL: the slot is then unregistered. *)
Definition irq_register_handler (irq fn cookie : Z) (s : isr_state) : Z * isr_state :=
  if irq >=? 16 then (-1, s)
  else (0, Isr (i_pic s) (<[Z.to_nat irq := if fn =? 0 then None else Some (fn, cookie)]>
                            (i_handlers s))).
Definition irq_unregister_handler (irq : Z) (s : isr_state) : Z * isr_state :=
  if irq >=? 16 then (-1, s)
  else (0, Isr (i_pic s) (<[Z.to_nat irq := None]> (i_handlers s))).

Section Dispatch.
(** What running a handler does: the code behind a registered pointer. *)
Context (invoke : handler -> Z -> isr_state -> isr_state).

Definition on_pic (f : pic -> pic) (s : isr_state) : isr_state :=
  Isr (f (i_pic s)) (i_handlers s).

(** [isr1] and [isr2] are the In-Service Registers [inb] returns. *)
Definition do_irq (isr1 isr2 irq : Z) (s : isr_state) : isr_state :=
  let s := if irq =? 7 then on_pic (outb 32 11) s else s in
  if ((irq =? 7) && (Z.land isr1 128 =? 0))%bool then s
  else
    let s := if irq =? 15 then on_pic (outb 160 11) s else s in
    if ((irq =? 15) && (Z.land isr2 128 =? 0))%bool then on_pic (outb 32 32) s
    else
      let s := if irq <? 16
               then match i_handlers s !!! Z.to_nat irq with
                    | Some h => invoke h irq s
                    | None => s
                    end
               else s in
      on_pic (irq_eoi irq) s.
End Dispatch.

(** *** The PIT *)

Definition PIT_BASE_HZ : Z := 1193182.
(** [None]: division by zero. *)
Definition pit_init (hz : Z) : option (list (Z * Z)) :=
  if hz =? 0 then None
  else
    let divisor := PIT_BASE_HZ / hz in
    Some [(67, 54); (64, u8 (Z.land divisor 255)); (64, u8 (Z.land (Z.shiftr divisor 8) 255))].
Definition pit_tick (jiffies : Z) : Z := u64 (jiffies + 1).

(** *** Segment and gate descriptors *)

Record gdt_entry := GdtEntry {
  g_limit_lo : Z; g_base_lo : Z; g_base_mid : Z; g_access : Z; g_granularity : Z; g_base_hi : Z
}.
#[global] Instance gdt_entry_inhabited : Inhabited gdt_entry := populate (GdtEntry 0 0 0 0 0 0).

Definition gdt_set_entry (idx : nat) (base limit access gran : Z) (t : list gdt_entry)
    : list gdt_entry :=
  <[idx := GdtEntry (u16 (Z.land limit 65535)) (u16 (Z.land base 65535))
             (u8 (Z.land (Z.shiftr base 16) 255)) access
             (u8 (Z.lor (Z.land (Z.shiftr limit 16) 15) (Z.land gran 240)))
             (u8 (Z.land (Z.shiftr base 24) 255))]> t.

Definition gdt_init (t : list gdt_entry) : list gdt_entry :=
  let t := gdt_set_entry 0 0 0 0 0 t in
  let t := gdt_set_entry 1 0 1048575 154 207 t in
  let t := gdt_set_entry 2 0 1048575 146 207 t in
  let t := gdt_set_entry 3 0 1048575 250 207 t in
  gdt_set_entry 4 0 1048575 242 207 t.

Record idt_entry := IdtEntry {
  g_lo : Z; g_sel : Z; g_always0 : Z; g_flags : Z; g_hi : Z
}.
Definition idt_zero : idt_entry := IdtEntry 0 0 0 0 0.
#[global] Instance idt_entry_inhabited : Inhabited idt_entry := populate idt_zero.

Definition idt_set_gate (num : nat) (base sel flags : Z) (t : list idt_entry) : list idt_entry :=
  <[num := IdtEntry (u16 (Z.land base 65535)) sel 0 flags
             (u16 (Z.land (Z.shiftr base 16) 65535))]> t.

(** [isr], [irq] and [sys] are the link addresses of the stubs. *)
Definition idt_init (isr irq : nat -> Z) (sys : Z) : list idt_entry :=
  let t := replicate 256 idt_zero in
  let t := foldl (fun t n => idt_set_gate n (isr n) 8 142 t) t (seq 0 32) in
  let t := foldl (fun t n => idt_set_gate (32 + n) (irq n) 8 142 t) t (seq 0 16) in
  idt_set_gate 128 sys 8 238 t.
End X86.

Module Arm.

Definition VIC_NUM_IRQS : Z := 32.
Definition handler : Type := Z * Z.

(** The controller: [v_enable] and [v_select] are its registers, which a
    write of a mask to INTENABLE sets and to INTENCLEAR clears bitwise. *)
Record vic := Vic {
  v_handlers : list (option handler);
  v_enable : Z;
  v_select : Z
}.

Definition vic_init (s : vic) : vic :=
  Vic (replicate 32 None) (Z.ldiff (v_enable s) 4294967295) 0.

Definition irq_register_handler (irq fn cookie : Z) (s : vic) : Z * vic :=
  if ((irq >=? VIC_NUM_IRQS) || (fn =? 0))%bool then (-1, s)
  else (0, Vic (<[Z.to_nat irq := Some (fn, cookie)]> (v_handlers s))
             (Z.lor (v_enable s) (bit irq)) (v_select s)).

Definition irq_unregister_handler (irq : Z) (s : vic) : Z * vic :=
  if irq >=? VIC_NUM_IRQS then (-1, s)
  else (0, Vic (<[Z.to_nat irq := None]> (v_handlers s)) (Z.ldiff (v_enable s) (bit irq))
             (v_select s)).

Definition irq_eoi (irq : Z) (s : vic) : vic := s.

Section Dispatch.
Context {W : Type} (invoke : handler -> Z -> W * vic -> W * vic).

Definition call_handler (i : Z) (ws : W * vic) : W * vic :=
  match v_handlers ws.2 !!! Z.to_nat i with
  | Some h => invoke h i ws
  | None => ws
  end.

(** The loop from source [i], with [k] sources left. *)
Fixpoint dispatch_from (k : nat) (i status : Z) (ws : W * vic) : W * vic :=
  match k with
  | O => ws
  | S k =>
      if status =? 0 then ws
      else if negb (Z.land status (bit i) =? 0)
      then dispatch_from k (i + 1) (Z.ldiff status (bit i)) (call_handler i ws)
      else dispatch_from k (i + 1) status ws
  end.
Definition arm_irq_dispatch (status : Z) (ws : W * vic) : W * vic :=
  dispatch_from (Z.to_nat VIC_NUM_IRQS) 0 status ws.
End Dispatch.

(** *** CPSR *)

(** [msr cpsr_c] writes the control byte only. *)
Definition cpsr_write_c (v cpsr : Z) : Z :=
  Z.lor (Z.ldiff cpsr 255) (Z.land v 255).
Definition splraise (ipl cpsr : Z) : Z * Z :=
  let prev := u16 (Z.land (Z.shiftr cpsr 7) 1) in
  (prev, if ipl =? IPL_NONE then cpsr else cpsr_write_c (Z.lor cpsr (bit 7)) cpsr).
Definition splx (prev cpsr : Z) : Z :=
  cpsr_write_c (if prev =? 0 then Z.ldiff cpsr (bit 7) else Z.lor cpsr (bit 7)) cpsr.
Definition splhigh (cpsr : Z) : Z * Z := splraise IPL_HIGH cpsr.
Definition splclock (cpsr : Z) : Z * Z := splraise IPL_CLOCK cpsr.
Definition spl0 (cpsr : Z) : Z * Z :=
  (u16 (Z.land (Z.shiftr cpsr 7) 1), cpsr_write_c (Z.ldiff cpsr (bit 7)) cpsr).

(** *** SP804 *)

Definition TIMER_VIC_IRQ : Z := 4.
Definition TIMER_LOAD_VAL : Z := 10000.
(** [t_ticks] counts [log_tick] calls; [t_acks] the INTCLR writes (timer 0 or 1). *)
Record timer := Timer { t_jiffies : Z; t_ticks : Z; t_acks : list Z; t_load : Z; t_control : Z }.

(** [ris0], [ris1]: what the two RIS registers read as. *)
Definition timer_isr (ris0 ris1 : Z) (t : timer) : timer :=
  let t := if negb (Z.land ris0 1 =? 0)
           then Timer (u64 (t_jiffies t + 1)) (u32 (t_ticks t + 1)) (t_acks t ++ [0]) (t_load t)
                      (t_control t)
           else t in
  if negb (Z.land ris1 1 =? 0)
  then Timer (t_jiffies t) (t_ticks t) (t_acks t ++ [1]) (t_load t) (t_control t)
  else t.

Definition arm_timer_init (isr : Z) (t : timer) (v : vic) : timer * vic :=
  (Timer (t_jiffies t) (t_ticks t) (t_acks t) TIMER_LOAD_VAL
     (Z.lor (Z.lor (bit 7) (bit 6)) (Z.lor (bit 5) (bit 1))),
   (irq_register_handler TIMER_VIC_IRQ isr 0 v).2).
End Arm.

(** ** x86: the hardware mask follows the level *)
Section X86Spl.
Import X86.

(** What a port holds: the last value written to it. *)
Definition last_out (port : Z) (out : list (Z * Z)) : option Z :=
  foldl (fun r '(p, v) => if p =? port then Some v else r) None out.
(** The interrupt mask the two controllers hold. *)
Definition hw_mask (s : pic) : option Z :=
  lo ← last_out PIC1_DATA (p_out s); hi ← last_out PIC2_DATA (p_out s); Some (lo + 256 * hi).

Record pic_ok (s : pic) : Prop := {
  po_enabled : 0 <= p_enabled_mask s < 65536;
  po_level : p_ipl_mask s ∈ ipl_to_mask;
  po_hw : hw_mask s = Some (Z.lor (p_enabled_mask s) (p_ipl_mask s))
}.

Lemma last_out_snoc port out p v :
  last_out port (out ++ [(p, v)]) = if p =? port then Some v else last_out port out.
Proof. unfold last_out. by rewrite foldl_app. Qed.

Lemma level_range m : m ∈ ipl_to_mask -> 0 <= m < 65536.
Proof.
  unfold ipl_to_mask. rewrite !elem_of_cons, elem_of_nil. intuition subst; done.
Qed.

Lemma apply_mask_ok s :
  0 <= p_enabled_mask s < 65536 -> p_ipl_mask s ∈ ipl_to_mask -> pic_ok (apply_mask s).
Proof.
  intros He Hl. split; [done|done|]. unfold apply_mask, hw_mask. cbn [p_out outb].
  rewrite !last_out_snoc. cbn. f_equal.
  pose proof (lor_bound _ _ 16 ltac:(lia) He (level_range _ Hl)) as Hr. change (2 ^ 16) with 65536 in Hr. rewrite u16_id by done.
  rewrite land_255. unfold u8. rewrite Z.shiftr_div_pow2 by lia. change (2 ^ 8) with 256. lia.
Qed.

Lemma with_cli_fields f s :
  (forall x, p_if (f x) = p_if x) ->
  p_if (with_cli f s) = p_if s /\ p_out (with_cli f s) = p_out (f (set_if false s)) /\
  p_ipl_mask (with_cli f s) = p_ipl_mask (f (set_if false s)) /\
  p_enabled_mask (with_cli f s) = p_enabled_mask (f (set_if false s)).
Proof.
  intros Hf. unfold with_cli. destruct (p_if s) eqn:E; cbn; [done|]. by rewrite Hf.
Qed.

Lemma pic_ok_fields s s' :
  p_out s' = p_out s -> p_ipl_mask s' = p_ipl_mask s -> p_enabled_mask s' = p_enabled_mask s ->
  pic_ok s -> pic_ok s'.
Proof. intros Ho Hi He [? ? ?]. split; unfold hw_mask in *; rewrite ?Ho, ?Hi, ?He; done. Qed.

Lemma splx_ok prev s :
  pic_ok s -> prev ∈ ipl_to_mask ->
  pic_ok (splx prev s) /\ p_ipl_mask (splx prev s) = prev /\
  p_enabled_mask (splx prev s) = p_enabled_mask s /\ p_if (splx prev s) = p_if s.
Proof.
  intros [He Hl _] Hp. unfold splx.
  destruct (with_cli_fields (fun s => apply_mask (set_ipl_mask prev s)) s ltac:(done))
    as (Hif & Ho & Hi & Hm).
  split; [|by rewrite Hi, Hm, Hif].
  eapply pic_ok_fields; [exact Ho|exact Hi|exact Hm|]. by apply apply_mask_ok.
Qed.

(** On the four levels the numeric order is the order of the masks. *)
Lemma level_order m ipl :
  m ∈ ipl_to_mask -> 0 <= ipl < 4 ->
  let want := ipl_to_mask !!! Z.to_nat ipl in
  want ∈ ipl_to_mask /\ Z.lor m want = if want >? m then want else m.
Proof.
  intros Hm Hi. assert (ipl = 0 \/ ipl = 1 \/ ipl = 2 \/ ipl = 3) as Hi' by lia. clear Hi.
  unfold ipl_to_mask in Hm. rewrite !elem_of_cons, elem_of_nil in Hm. cbv zeta.
  split; [unfold ipl_to_mask|intuition subst; done].
  intuition subst; cbn; rewrite !elem_of_cons; auto.
Qed.

Lemma splraise_ok ipl s :
  pic_ok s -> 0 <= ipl < 4 ->
  let s' := (splraise ipl s).2 in
  pic_ok s' /\ p_ipl_mask s' = Z.lor (p_ipl_mask s) (ipl_to_mask !!! Z.to_nat ipl) /\
  p_enabled_mask s' = p_enabled_mask s /\ p_if s' = p_if s.
Proof.
  intros Hok Hi. destruct (level_order _ ipl (po_level _ Hok) Hi) as [Hw Hlor].
  cbv zeta. unfold splraise. cbn [snd].
  destruct (with_cli_fields (fun s => if ipl <? 4 then
       if ipl_to_mask !!! Z.to_nat ipl >? p_ipl_mask s
       then apply_mask (set_ipl_mask (ipl_to_mask !!! Z.to_nat ipl) s) else s
     else s) s) as (Hif & Ho & Hm & He); [intros x; by repeat split_if|].
  destruct (ipl <? 4) eqn:E; bools; [|lia]. cbv zeta. cbn [p_ipl_mask set_if] in *.
  rewrite Hlor. destruct (_ >? _) eqn:Eg.
  - split; [|rewrite Hm, He, Hif; done].
    eapply pic_ok_fields; [exact Ho|exact Hm|exact He|]. apply apply_mask_ok; [apply Hok|done].
  - split; [|rewrite Hm, He, Hif; done].
    eapply pic_ok_fields; [exact Ho|exact Hm|exact He|by destruct Hok].
Qed.

(** Code that uses the levels as callers do: raise, run a critical section
    that is itself bracketed (and may unmask lines), restore. *)
Inductive critical : pic -> pic -> Prop :=
  | crit_done s : critical s s
  | crit_raise ipl s s1 s2 :
      0 <= ipl < 4 -> critical (splraise ipl s).2 s1 ->
      critical (splx (splraise ipl s).1 s1) s2 -> critical s s2
  | crit_unmask irq s s2 : 0 <= irq -> critical (pic_unmask irq s) s2 -> critical s s2.

Lemma pic_unmask_ok irq s :
  pic_ok s -> pic_ok (pic_unmask irq s) /\ p_ipl_mask (pic_unmask irq s) = p_ipl_mask s /\
  p_if (pic_unmask irq s) = p_if s.
Proof.
  intros [He Hl Hh]. unfold pic_unmask. split_if; [by split|]. split; [|done].
  apply apply_mask_ok; cbn; [by apply (ldiff_bound _ _ 16)|done].
Qed.
End X86Spl.

(** X86 interrupt levels.  In a state whose controllers hold
    [enabled | level], raising adds exactly the level's lines to the blocked
    ones and never lifts one; and any properly bracketed critical section,
    however nested, ends with the level, the CPU flag and the mask in the
    controllers consistent and the level it started with. *)
Theorem x86_spl_discipline (s : X86.pic) :
  pic_ok s ->
  (forall ipl k, 0 <= ipl < 4 ->
     let s' := (X86.splraise ipl s).2 in
     (X86.splraise ipl s).1 = X86.p_ipl_mask s /\
     Z.testbit (X86.p_ipl_mask s') k =
       (Z.testbit (X86.p_ipl_mask s) k || Z.testbit (X86.ipl_to_mask !!! Z.to_nat ipl) k)%bool) /\
  (forall s', critical s s' ->
     pic_ok s' /\ X86.p_ipl_mask s' = X86.p_ipl_mask s /\ X86.p_if s' = X86.p_if s).
Proof.
  intros Hok. split.
  - intros ipl k Hi. cbv zeta. split; [done|].
    destruct (splraise_ok ipl s Hok Hi) as (_ & -> & _). apply Z.lor_spec.
  - intros s' Hc. induction Hc as [s|ipl s s1 s2 Hi Hc1 IH1 Hc2 IH2|irq s s2 Hi Hc IH]; [done|..].
    + destruct (splraise_ok ipl s Hok Hi) as (Hok1 & _ & _ & Hif).
      destruct (IH1 Hok1) as (Hok2 & _ & Hif1).
      destruct (splx_ok (X86.splraise ipl s).1 s1 Hok2 (po_level _ Hok)) as (Hok3 & Hl3 & _ & Hif3).
      destruct (IH2 Hok3) as (? & Hl & Hif4). split; [done|]. rewrite Hl, Hl3, Hif4, Hif3, Hif1, Hif.
      done.
    + destruct (pic_unmask_ok irq s Hok) as (Hok1 & Hl & Hif).
      destruct (IH Hok1) as (? & -> & ->). done.
Qed.

Example x86_spl_discipline_witness :
  let s := X86.spl0 (X86.pic_remap (X86.pic_boot true)) in
  Z.testbit (X86.p_ipl_mask (X86.splraise IPL_CLOCK s.2).2) 4 = true.
Proof.
  cbv zeta. set (s := (X86.spl0 _).2).
  assert (Hok : pic_ok s).
  { split; [split; vm_compute; congruence|vm_compute; by left|vm_compute; reflexivity]. }
  destruct (x86_spl_discipline s Hok) as [H _].
  destruct (H IPL_CLOCK 4 ltac:(split; vm_compute; congruence)) as [_ Hb].
  etransitivity; [exact Hb|]. vm_compute. reflexivity.
Defined.

(** ** ARM: dispatch and the I bit *)
Section ArmDispatch.
Context {W : Type} (invoke : Arm.handler -> Z -> W * Arm.vic -> W * Arm.vic).
(** Handlers do not re-register handlers. *)
Hypothesis invoke_table : forall h i ws,
  Arm.v_handlers (invoke h i ws).2 = Arm.v_handlers ws.2.

(** The sources of [status] from [i], in ascending order. *)
Definition pending (status i : Z) (k : nat) : list Z :=
  filter (fun j => Z.testbit status j = true) (seqZ i (Z.of_nat k)).

Lemma pending_S status i k :
  pending status i (S k) =
  if Z.testbit status i then i :: pending status (i + 1) k else pending status (i + 1) k.
Proof.
  unfold pending. rewrite seqZ_cons by lia. rewrite filter_cons.
  replace (Z.pred (Z.of_nat (S k))) with (Z.of_nat k) by lia. unfold Z.succ.
  destruct (Z.testbit status i); [by rewrite decide_True|by rewrite decide_False].
Qed.

Lemma pending_none status i k : status = 0 -> pending status i k = [].
Proof.
  intros ->. revert i. induction k as [|k IH]; intros i; [done|].
  rewrite pending_S, Z.testbit_0_l. apply IH.
Qed.

Lemma pending_cleared status b i k :
  0 <= b < i -> pending (Z.ldiff status (bit b)) i k = pending status i k.
Proof.
  intros Hb. revert i Hb. induction k as [|k IH]; intros i Hb; [done|].
  rewrite !pending_S, IH, ldiff_bit_testbit by lia.
  replace (i =? b) with false by lia. by rewrite andb_true_r.
Qed.

Lemma dispatch_from_spec k i status ws :
  0 <= i ->
  Arm.dispatch_from invoke k i status ws =
  foldl (fun ws j => Arm.call_handler invoke j ws) ws (pending status i k).
Proof.
  revert i status ws. induction k as [|k IH]; intros i status ws Hi; [done|].
  cbn [Arm.dispatch_from]. destruct (status =? 0) eqn:E0; bools.
  { by rewrite pending_none. }
  rewrite land_bit, negb_involutive, pending_S by done. destruct (Z.testbit status i) eqn:E.
  - rewrite IH by lia. rewrite pending_cleared by lia. done.
  - by rewrite IH by lia.
Qed.

(** The handlers registered for [l], each with its source. *)
Definition registered (hs : list (option Arm.handler)) (l : list Z) : list (Arm.handler * Z) :=
  omap (fun i => h ← hs !!! Z.to_nat i; Some (h, i)) l.

Lemma call_all_registered l ws :
  foldl (fun ws j => Arm.call_handler invoke j ws) ws l =
  foldl (fun ws '(h, i) => invoke h i ws) ws (registered (Arm.v_handlers ws.2) l).
Proof.
  revert ws. induction l as [|j l IH]; intros ws; [done|]. cbn. rewrite IH.
  unfold Arm.call_handler. destruct (Arm.v_handlers ws.2 !!! Z.to_nat j) as [h|]; cbn; [|done].
  by rewrite invoke_table.
Qed.
End ArmDispatch.

(** The I bit as [splraise] reports it. *)
Lemma cpsr_prev cpsr :
  u16 (Z.land (Z.shiftr cpsr 7) 1) = if Z.testbit cpsr 7 then 1 else 0.
Proof.
  change 1 with (2 ^ 1 - 1) at 1. rewrite land_ones_mod by lia. change (2 ^ 1) with 2.
  rewrite <-Z.bit0_mod, Z.shiftr_spec by lia. change (0 + 7) with 7. by destruct (Z.testbit cpsr 7).
Qed.

Lemma cpsr_write_testbit v cpsr k :
  0 <= k ->
  Z.testbit (Arm.cpsr_write_c v cpsr) k = if k <? 8 then Z.testbit v k else Z.testbit cpsr k.
Proof.
  intros Hk. unfold Arm.cpsr_write_c. rewrite Z.lor_spec, Z.ldiff_spec, Z.land_spec.
  change 255 with (Z.ones 8). destruct (k <? 8) eqn:E; bools.
  - rewrite Z.ones_spec_low by lia. by rewrite andb_false_r, andb_true_r.
  - rewrite Z.ones_spec_high by lia. by rewrite andb_true_r, andb_false_r, orb_false_r.
Qed.

Lemma splx_splraise ipl cpsr :
  Arm.splx (Arm.splraise ipl cpsr).1 (Arm.splraise ipl cpsr).2 = cpsr.
Proof.
  unfold Arm.splraise, Arm.splx. cbn [fst snd]. rewrite cpsr_prev. apply Z.bits_inj'. intros k Hk.
  set (c1 := if ipl =? IPL_NONE then _ else _).
  assert (H1 : forall j, 0 <= j -> Z.testbit c1 j =
    if (j =? 7) && negb (ipl =? IPL_NONE) then true else Z.testbit cpsr j).
  { intros j Hj. subst c1. destruct (ipl =? IPL_NONE); cbn; [by rewrite andb_false_r|].
    rewrite cpsr_write_testbit, lor_bit_testbit, andb_true_r by lia.
    destruct (j =? 7) eqn:E7; bools; [subst; by rewrite orb_true_r|]. rewrite orb_false_r.
    by destruct (j <? 8). }
  rewrite cpsr_write_testbit by done. destruct (k <? 8) eqn:E; bools.
  - destruct (Z.testbit cpsr 7) eqn:E7; cbn [Z.eqb].
    + rewrite lor_bit_testbit, H1 by lia.
      destruct (k =? 7) eqn:Ek; bools; [subst; rewrite orb_true_r; by rewrite E7|].
      by rewrite orb_false_r.
    + rewrite ldiff_bit_testbit, H1 by lia.
      destruct (k =? 7) eqn:Ek; bools; [subst; rewrite andb_false_r; by rewrite E7|].
      by rewrite andb_true_r.
  - rewrite H1 by done. replace (k =? 7) with false by lia. done.
Qed.

Lemma arm_splhigh_masks cpsr : Z.testbit (Arm.splhigh cpsr).2 7 = true.
Proof.
  cbn [Arm.splhigh Arm.splraise snd]. change (IPL_HIGH =? IPL_NONE) with false. cbv iota.
  rewrite cpsr_write_testbit by lia. change (7 <? 8) with true. cbv iota.
  rewrite lor_bit_testbit by lia. apply orb_true_r.
Qed.

(** [splx] sets the I bit the snapshot holds. *)
Lemma arm_splx_level cpsr cpsr' :
  Z.testbit (Arm.splx (Arm.splhigh cpsr).1 cpsr') 7 = Z.testbit cpsr 7.
Proof.
  unfold Arm.splhigh, Arm.splraise, Arm.splx. cbn [fst]. rewrite cpsr_prev.
  rewrite cpsr_write_testbit by lia. change (7 <? 8) with true. cbv iota.
  destruct (Z.testbit cpsr 7); cbn [Z.eqb].
  - rewrite lor_bit_testbit by lia. apply orb_true_r.
  - rewrite ldiff_bit_testbit by lia. apply andb_false_r.
Qed.

(** ARM interrupt dispatch runs the registered handler of every pending
    source exactly once, lowest source first, and nothing else; raising the
    level masks IRQs at the CPU, and [splx] of the value [splraise] returned
    restores the status register exactly, nested or not. *)
Theorem arm_irq_discipline {W : Type} (invoke : Arm.handler -> Z -> W * Arm.vic -> W * Arm.vic)
    (status cpsr : Z) (ws : W * Arm.vic) :
  (forall h i ws, Arm.v_handlers (invoke h i ws).2 = Arm.v_handlers ws.2) ->
  Arm.arm_irq_dispatch invoke status ws =
    foldl (fun ws '(h, i) => invoke h i ws) ws
      (registered (Arm.v_handlers ws.2) (filter (fun j => Z.testbit status j = true) (seqZ 0 32))) /\
  (forall ipl, let '(prev, c1) := Arm.splraise ipl cpsr in
     Arm.splx prev c1 = cpsr /\ (ipl <> IPL_NONE -> Z.testbit c1 7 = true) /\
     (forall k, 0 <= k -> k <> 7 -> Z.testbit c1 k = Z.testbit cpsr k)).
Proof.
  intros Ht. split.
  - unfold Arm.arm_irq_dispatch. rewrite dispatch_from_spec by done.
    by rewrite (call_all_registered invoke Ht).
  - intros ipl.
    unfold Arm.splraise. split_and!.
    + by apply splx_splraise.
    + intros Hi. destruct (ipl =? IPL_NONE) eqn:E; bools; [done|].
      rewrite cpsr_write_testbit by lia. change (7 <? 8) with true. cbv iota.
      rewrite lor_bit_testbit by lia. apply orb_true_r.
    + intros k Hk Hne. destruct (ipl =? IPL_NONE); [done|].
      rewrite cpsr_write_testbit, lor_bit_testbit by lia.
      replace (k =? 7) with false by lia. rewrite orb_false_r. by destruct (k <? 8).
Qed.

(** A handler that only counts, on a table with IRQ 4 and IRQ 9 registered. *)
Definition demo_invoke (h : Arm.handler) (i : Z) (ws : list Z * Arm.vic) : list Z * Arm.vic :=
  (ws.1 ++ [i], ws.2).
Definition demo_vic : Arm.vic :=
  (Arm.irq_register_handler 9 4096 0
     (Arm.irq_register_handler 4 8192 0 (Arm.vic_init (Arm.Vic [] 0 0))).2).2.

Example arm_irq_discipline_witness :
  (Arm.arm_irq_dispatch demo_invoke 784 ([], demo_vic)).1 = [4; 9].
Proof.
  destruct (arm_irq_discipline demo_invoke 784 19 ([], demo_vic) ltac:(done)) as [H _].
  rewrite H. vm_compute. reflexivity.
Defined.

(** ** x86 gates and segments *)

Definition gate_base (e : X86.idt_entry) : Z := X86.g_lo e + 65536 * X86.g_hi e.
Definition gate_dpl (e : X86.idt_entry) : Z := Z.land (Z.shiftr (X86.g_flags e) 5) 3.
Definition gate_present (e : X86.idt_entry) : bool := Z.testbit (X86.g_flags e) 7.

(** A run of gates installed by a loop. *)
Lemma set_gates_lookup (f : nat -> Z) (base k : nat) (t : list X86.idt_entry) n :
  (base + k <= length t)%nat ->
  foldl (fun t j => X86.idt_set_gate (base + j) (f j) 8 142 t) t (seq 0 k) !!! n =
  if ((base <=? n) && (n <? base + k))%nat%bool
  then X86.IdtEntry (u16 (Z.land (f (n - base)%nat) 65535)) 8 0 142
         (u16 (Z.land (Z.shiftr (f (n - base)%nat) 16) 65535))
  else t !!! n.
Proof.
  intros Hl. induction k as [|k IH].
  - cbn. destruct (_ && _)%bool eqn:E; [|done]. apply andb_true_iff in E as [E1 E2].
    apply Nat.leb_le in E1. apply Nat.ltb_lt in E2. lia.
  - rewrite seq_S, foldl_app. cbn [foldl]. unfold X86.idt_set_gate at 1.
    set (t' := foldl _ t (seq 0 k)) in *.
    assert (Hlen : length t' = length t).
    { subst t'. clear. generalize 0%nat. revert t. induction k as [|k IH]; intros t s; [done|].
      cbn. rewrite IH. apply length_insert. }
    rewrite list_lookup_total_insert, Hlen. case_decide as Hn.
    + destruct Hn as [<- _]. cbn [Nat.add].
      replace (base <=? base + k)%nat with true by (symmetry; apply Nat.leb_le; lia).
      replace (base + k <? base + S k)%nat with true by (symmetry; apply Nat.ltb_lt; lia).
      cbn. by replace (base + k - base)%nat with k by lia.
    + rewrite IH by lia. assert (n <> base + k)%nat by (intros ->; apply Hn; lia).
      replace (n <? base + S k)%nat with (n <? base + k)%nat; [done|].
      apply eq_iff_eq_true. rewrite !Nat.ltb_lt. lia.
Qed.

Lemma gate_base_set b sel fl :
  0 <= b < 4294967296 ->
  gate_base (X86.IdtEntry (u16 (Z.land b 65535)) sel 0 fl (u16 (Z.land (Z.shiftr b 16) 65535))) = b.
Proof.
  intros Hb. unfold gate_base. cbn. change 65535 with (2 ^ 16 - 1).
  rewrite !land_ones_mod, Z.shiftr_div_pow2 by lia. change (2 ^ 16) with 65536. unfold u16. lia.
Qed.

(** The x86 interrupt table.  Every gate decodes to the stub it was
    given (exceptions at 0-31, IRQs at 32-47, the system call at 128), no
    other vector is present, and user code can raise vector 128 only. *)
Theorem x86_idt_gates (isr irq : nat -> Z) (sys : Z) (n : nat) :
  (forall k, 0 <= isr k < 4294967296) -> (forall k, 0 <= irq k < 4294967296) ->
  0 <= sys < 4294967296 -> (n < 256)%nat ->
  let e := X86.idt_init isr irq sys !!! n in
  gate_base e = (if (n <? 32)%nat then isr n else if (n <? 48)%nat then irq (n - 32)%nat
                 else if (n =? 128)%nat then sys else 0) /\
  (gate_dpl e = 3 <-> n = 128%nat) /\
  gate_present e = ((n <? 48) || (n =? 128))%nat%bool.
Proof.
  intros Hisr Hirq Hsys Hn. cbv zeta.
  set (t1 := foldl (fun t j => X86.idt_set_gate j (isr j) 8 142 t)
               (replicate 256 X86.idt_zero) (seq 0 32)).
  assert (H1 : forall m, t1 !!! m = if (m <? 32)%nat
    then X86.IdtEntry (u16 (Z.land (isr m) 65535)) 8 0 142
           (u16 (Z.land (Z.shiftr (isr m) 16) 65535)) else replicate 256 X86.idt_zero !!! m).
  { intros m. subst t1. pose proof (set_gates_lookup isr 0 32 (replicate 256 X86.idt_zero) m) as H.
    cbn [Nat.add Nat.leb andb] in H. rewrite Nat.sub_0_r in H. apply H. rewrite length_replicate. lia. }
  set (t2 := foldl (fun t j => X86.idt_set_gate (32 + j) (irq j) 8 142 t) t1 (seq 0 16)).
  assert (Hl1 : length t1 = 256%nat) by done.
  assert (Hl2 : length t2 = 256%nat) by done.
  pose proof (set_gates_lookup irq 32 16 t1 n ltac:(rewrite Hl1; lia)) as H2. fold t2 in H2.
  unfold X86.idt_init. cbv zeta. fold t1. fold t2. unfold X86.idt_set_gate.
  rewrite list_lookup_total_insert, Hl2. case_decide as H128.
  - destruct H128 as [<- _]. cbn -[gate_base Z.land Z.shiftr u16]. rewrite gate_base_set by done.
    by split_and!.
  - assert (n <> 128)%nat as Hne by (intros ->; apply H128; lia).
    rewrite (proj2 (Nat.eqb_neq n 128) Hne). rewrite H2, H1. change (32 + 16)%nat with 48%nat.
    destruct (n <? 32)%nat eqn:E1.
    + apply Nat.ltb_lt in E1. rewrite (proj2 (Nat.leb_gt 32 n)) by lia.
      rewrite (proj2 (Nat.ltb_lt n 48)) by lia. cbn [andb orb].
      rewrite gate_base_set by done. by split_and!.
    + apply Nat.ltb_ge in E1. rewrite (proj2 (Nat.leb_le 32 n)) by lia.
      destruct (n <? 48)%nat eqn:E2; cbn [andb orb].
      * rewrite gate_base_set by done. by split_and!.
      * rewrite lookup_total_replicate_2 by done. by split_and!.
Qed.

Example x86_idt_gates_witness :
  gate_base (X86.idt_init (fun n => 4096 + Z.of_nat n mod 4096) (fun n => 8192) 12288 !!! 40%nat) = 8192.
Proof.
  apply (x86_idt_gates (fun n => 4096 + Z.of_nat n mod 4096) (fun n => 8192) 12288 40);
    intros; lia.
Defined.

(** The segment descriptors decode to flat 4 GiB segments, kernel ones with
    privilege 0 and user ones with privilege 3. *)
Definition seg_base (e : X86.gdt_entry) : Z :=
  X86.g_base_lo e + 65536 * X86.g_base_mid e + 16777216 * X86.g_base_hi e.
Definition seg_limit (e : X86.gdt_entry) : Z :=
  X86.g_limit_lo e + 65536 * Z.land (X86.g_granularity e) 15.

Lemma gdt_flat t i :
  length t = 5%nat -> (1 <= i < 5)%nat ->
  let e := X86.gdt_init t !!! i in
  seg_base e = 0 /\ seg_limit e = 1048575 /\
  Z.land (Z.shiftr (X86.g_access e) 5) 3 = if (i <? 3)%nat then 0 else 3.
Proof.
  intros Hl Hi. do 6 (destruct t as [|? t]; try discriminate Hl).
  assert (i = 1 \/ i = 2 \/ i = 3 \/ i = 4)%nat as [->|[->|[->| ->]]] by lia; done.
Qed.
