(* ===== verification/Switch.v ===== *)
(** * Context switching: task_setup_initial_frame and task_yield of
    kernel/sched/task.c, kernel/arch/{arm,x86}/context_switch.S

    The machine is the callee-saved registers, the stack pointer and a word
    memory.  A switch is one function on it, the assembly's pushes and pops
    written out.  [SplOps] is what [task_yield] needs of an interrupt
    controller; both controllers of Interrupts implement it. *)
From S2P Require Import Prelude Types Circular Ring Auditor Tasks Scheduler Interrupts.

(** ** Words in memory *)

Definition ld (m : gmap Z Z) (a : Z) : Z := default 0 (m !! u32 a).
Definition st (m : gmap Z Z) (a w : Z) : gmap Z Z := <[u32 a := w]> m.

(** [*--sp = w] *)
Definition push (spm : Z * gmap Z Z) (w : Z) : Z * gmap Z Z :=
  let sp := u32 (spm.1 - 4) in (sp, st spm.2 sp w).
(** Pushes in the order given. *)
Definition pushes (sp : Z) (m : gmap Z Z) (ws : list Z) : Z * gmap Z Z := foldl push (sp, m) ws.

(** [n] pops: the words read, lowest address first, and the pointer after. *)
Fixpoint pops (n : nat) (sp : Z) (m : gmap Z Z) : list Z * Z :=
  match n with
  | O => ([], sp)
  | S n => let '(ws, sp') := pops n (u32 (sp + 4)) m in (ld m sp :: ws, sp')
  end.

Inductive arch := ARM | X86_32 | RISCV.

(** [regs] are the callee-saved registers in the order the switch pops them:
    r4..r11 on ARM, ebp, edi, esi, ebx on x86.  [c_ret] is the address the
    switch returns to: lr on ARM, the word [call] pushed on x86. *)
Record cpu := Cpu { c_regs : list Z; c_ret : Z; c_sp : Z; c_pc : Z }.

(** The words a switch saves, highest address first. *)
Definition saved_words (c : cpu) : list Z := c_ret c :: rev (c_regs c).

Definition nregs (a : arch) : nat := match a with ARM => 8 | X86_32 => 4 | RISCV => 0 end.

(** [task_setup_initial_frame]; [t] is [None] for NULL. *)
Definition task_setup_initial_frame (a : arch) (m : gmap Z Z) (t : option task_t) (entry : Z)
    : gmap Z Z * option task_t :=
  match t with
  | None => (m, t)
  | Some t =>
      if ((t_kernel_stack_top t =? 0) || (entry =? 0))%bool then (m, Some t)
      else match a with
           | RISCV => (m, Some (set_saved_sp 0 t))
           | _ =>
               let '(sp, m') := pushes (t_kernel_stack_top t) m (entry :: replicate (nregs a) 0) in
               (m', Some (set_saved_sp sp t))
           end
  end.

(** ** What a switch needs of the interrupt controller *)

Class SplOps (P : Type) := {
  splhigh : P -> Z * P;
  splx : Z -> P -> P
}.
(** Its promise, in the states [spl_inv]: [splhigh] masks, and [splx] of the
    value [splhigh] returned brings back the level of that time, whatever
    the controller went through in between. *)
Class SplLaws (P : Type) `{SplOps P} := {
  spl_inv : P -> Prop;
  spl_level : P -> Z;
  spl_masked : P -> Prop;
  spl_masks p : spl_inv p -> spl_inv (splhigh p).2 /\ spl_masked (splhigh p).2;
  spl_restores p q : spl_inv p -> spl_inv q ->
    spl_inv (splx (splhigh p).1 q) /\ spl_level (splx (splhigh p).1 q) = spl_level p
}.

#[export] Instance x86_spl : SplOps X86.pic := {| splhigh := X86.splhigh; splx := X86.splx |}.
#[export] Instance arm_spl : SplOps Z := {| splhigh := Arm.splhigh; splx := Arm.splx |}.

#[export] Program Instance x86_spl_laws : SplLaws X86.pic :=
  {| spl_inv := pic_ok; spl_level := X86.p_ipl_mask;
     spl_masked := fun p => forall k, 0 <= k < 16 -> Z.testbit (X86.p_ipl_mask p) k = true |}.
Next Obligation.
  intros p Hp. destruct (splraise_ok IPL_HIGH p Hp ltac:(done)) as (Hok & Hl & _).
  split; [exact Hok|]. intros k Hk. change ((splhigh p).2) with (X86.splraise IPL_HIGH p).2.
  rewrite Hl, Z.lor_spec. change (X86.ipl_to_mask !!! Z.to_nat IPL_HIGH) with (Z.ones 16).
  rewrite Z.ones_spec_low by done. apply orb_true_r.
Qed.
Next Obligation.
  intros p q Hp Hq. destruct (splx_ok (X86.splraise IPL_HIGH p).1 q Hq (po_level _ Hp))
    as (? & ? & _). by split.
Qed.
#[export] Program Instance arm_spl_laws : SplLaws Z :=
  {| spl_inv := fun _ => True; spl_level := fun c => Z.b2z (Z.testbit c 7);
     spl_masked := fun c => Z.testbit c 7 = true |}.
Next Obligation. intros p _. split; [done|]. apply arm_splhigh_masks. Qed.
Next Obligation. intros p q _ _. split; [done|]. exact (f_equal Z.b2z (arm_splx_level p q)). Qed.

Section Kernel.
Context {P : Type} `{SplOps P} (a : arch).

Record kernel := Kernel { k_sched : sched_state; k_cpu : cpu; k_mem : gmap Z Z; k_spl : P }.

(** The switch: save on [prev]'s stack, move [current_task], load from
    [next]'s. *)
Definition context_switch (prev next : nat) (k : kernel) : kernel :=
  let s := k_sched k in
  let '(sp, m) := pushes (c_sp (k_cpu k)) (k_mem k) (saved_words (k_cpu k)) in
  let ts := sc_ts s in
  let l := <[prev := set_saved_sp sp (ts_tasks ts !!! prev)]> (ts_tasks ts) in
  let ts := set_current (Some next) (set_tasks l ts) in
  let '(ws, sp') := pops (nregs a + 1) (t_saved_sp (l !!! next)) m in
  let ret := ws !!! nregs a in
  Kernel (Sched ts (sc_cursor s)) (Cpu (take (nregs a) ws) ret sp' ret) m (k_spl k).

(** [task_yield] returns to its caller, or leaves in a switch: the rest of
    the function, [splx(old)], is then run by whoever switches back. *)
Inductive yield_end :=
  | Returned (k : kernel)
  | Switched (old : Z) (k : kernel).

Definition set_spl (p : P) (k : kernel) : kernel :=
  Kernel (k_sched k) (k_cpu k) (k_mem k) p.

(** What follows the switch in the resumed task. *)
Definition task_yield_resume (old : Z) (k : kernel) : kernel := set_spl (splx old (k_spl k)) k.

(** [None] when the scheduler leaves the table. *)
Definition task_yield (k : kernel) : option yield_end :=
  match ts_current (sc_ts (k_sched k)) with
  | None => Some (Returned k)
  | Some prev =>
      '(rv, next_id, s) ← rr_schedule (k_sched k) true;
      let k := Kernel s (k_cpu k) (k_mem k) (k_spl k) in
      if negb (rv =? 0) then Some (Returned k)
      else
        let id := default 0 next_id in
        if id =? t_task_id (ts_tasks (sc_ts s) !!! prev) then Some (Returned k)
        else
          match task_find (sc_ts s) id with
          | None => Some (Returned k)
          | Some next =>
              if t_saved_sp (ts_tasks (sc_ts s) !!! next) =? 0 then Some (Returned k)
              else
                let '(old, p) := splhigh (k_spl k) in
                let k := set_spl p k in
                match a with
                | RISCV => Some (Returned (task_yield_resume old k))
                | _ => Some (Switched old (context_switch prev next k))
                end
          end
  end.
End Kernel.
Arguments kernel : clear implicits.
Arguments yield_end : clear implicits.

(** ** Frames *)

(** The stack room a push of [n] words needs. *)
Definition stack_ok (sp : Z) (n : nat) : Prop := 4 * Z.of_nat n <= sp < 4294967296.

(** Memories that agree on the addresses from [lo] below [hi]. *)
Definition agree_on (lo hi : Z) (m m' : gmap Z Z) : Prop :=
  forall x, lo <= x < hi -> m !! x = m' !! x.

#[export] Instance agree_on_equiv lo hi : Equivalence (agree_on lo hi).
Proof.
  split; unfold agree_on; [done|by intros m m' Hm x Hx; rewrite Hm|].
  intros m1 m2 m3 H1 H2 x Hx. by rewrite H1, H2.
Qed.

Lemma agree_on_sub lo hi lo' hi' m m' :
  agree_on lo hi m m' -> lo <= lo' -> hi' <= hi -> agree_on lo' hi' m m'.
Proof. intros Hm ? ? x Hx. apply Hm. lia. Qed.

Lemma pushes_snoc sp m ws w : pushes sp m (ws ++ [w]) = push (pushes sp m ws) w.
Proof. unfold pushes. by rewrite foldl_app. Qed.

Lemma pushes_sp sp m ws :
  stack_ok sp (length ws) -> (pushes sp m ws).1 = sp - 4 * Z.of_nat (length ws).
Proof.
  unfold stack_ok. induction ws as [|w ws IH] using rev_ind; intros Hs.
  - cbn. lia.
  - rewrite length_app in *. cbn in Hs. rewrite pushes_snoc. cbn. rewrite IH by lia.
    rewrite u32_id; lia.
Qed.

(** Nothing outside the frame is written. *)
Lemma pushes_outside sp m ws lo hi :
  stack_ok sp (length ws) -> (hi <= sp - 4 * Z.of_nat (length ws) \/ sp <= lo) ->
  agree_on lo hi (pushes sp m ws).2 m.
Proof.
  unfold stack_ok. induction ws as [|w ws IH] using rev_ind; intros Hs Hd; [done|].
  rewrite length_app in *. cbn in Hs, Hd. rewrite pushes_snoc. unfold push. cbn [fst snd].
  rewrite pushes_sp by (unfold stack_ok; lia). intros x Hx.
  unfold st. rewrite u32_u32, lookup_insert_ne by (rewrite u32_id; lia). apply IH; lia.
Qed.

Lemma pops_agree n sp m m' :
  0 <= sp -> sp + 4 * Z.of_nat n < 4294967296 + 4 ->
  agree_on sp (sp + 4 * Z.of_nat n) m m' -> pops n sp m = pops n sp m'.
Proof.
  revert sp. induction n as [|n IH]; intros sp H0 Hs Hm; [done|]. cbn [pops].
  destruct n as [|n].
  - cbn. unfold ld. rewrite !u32_id by lia. by rewrite Hm by lia.
  - rewrite (u32_id (sp + 4)) by lia.
    rewrite (IH (sp + 4)); [|lia|lia|eapply agree_on_sub; [exact Hm|lia|lia]].
    unfold ld. rewrite !u32_id by lia. by rewrite (Hm sp) by lia.
Qed.

(** Popping a frame gives back the words pushed and the pointer before. *)
Lemma pops_pushes sp m ws :
  stack_ok sp (length ws) ->
  let '(sp', m') := pushes sp m ws in pops (length ws) sp' m' = (rev ws, sp).
Proof.
  unfold stack_ok. induction ws as [|w ws IH] using rev_ind; intros Hs; [done|].
  rewrite length_app in *. cbn in Hs. rewrite pushes_snoc.
  assert (Hs' : stack_ok sp (length ws)) by (unfold stack_ok; lia).
  pose proof (pushes_sp sp m ws Hs') as Hsp. specialize (IH ltac:(lia)).
  destruct (pushes sp m ws) as [sp' m'] eqn:Ep. cbn in Hsp. subst sp'.
  unfold push. cbn [fst snd]. rewrite (u32_id (_ - 4)) by lia.
  rewrite Nat.add_comm. cbn [Nat.add pops length].
  rewrite (u32_id (_ + 4)) by lia. rewrite Z.sub_add.
  rewrite (pops_agree _ _ _ m').
  2, 3: lia.
  2: { intros x Hx. unfold st. rewrite lookup_insert_ne; [done|]. rewrite u32_id; lia. }
  rewrite IH, rev_app_distr. cbn. f_equal. f_equal. unfold ld, st.
  by rewrite lookup_insert_eq.
Qed.

(** ** Switching *)
Section Switching.
Context {P : Type} (a : arch).

(** The frame a switch leaves below stack pointer [sp]. *)
Definition frame_low (sp : Z) : Z := sp - 4 * Z.of_nat (nregs a + 1).

(** A processor state with the registers of this architecture. *)
Definition cpu_ok (c : cpu) : Prop :=
  length (c_regs c) = nregs a /\ stack_ok (c_sp c) (nregs a + 1).

Lemma length_saved_words c : cpu_ok c -> length (saved_words c) = (nregs a + 1)%nat.
Proof. intros [Hl _]. unfold saved_words. cbn. rewrite length_rev, Hl. lia. Qed.

(** Two frames that do not overlap. *)
Definition frames_apart (sp sp' : Z) : Prop := sp <= frame_low sp' \/ sp' <= frame_low sp.

Lemma saved_pushes c (m : gmap Z Z) :
  cpu_ok c -> (pushes (c_sp c) m (saved_words c)).1 = frame_low (c_sp c).
Proof.
  intros Hc. pose proof (length_saved_words c Hc) as Hl. destruct Hc as [_ Hs].
  rewrite pushes_sp by (by rewrite Hl). by rewrite Hl.
Qed.

Lemma saved_pushes_apart c (m : gmap Z Z) sp' :
  cpu_ok c -> frames_apart (c_sp c) sp' ->
  agree_on (frame_low sp') sp' (pushes (c_sp c) m (saved_words c)).2 m.
Proof.
  intros Hc Hd. pose proof (length_saved_words c Hc) as Hl. destruct Hc as [_ Hs].
  apply pushes_outside; rewrite Hl; [done|]. unfold frames_apart, frame_low in *. lia.
Qed.

Lemma saved_pops c (m : gmap Z Z) :
  cpu_ok c ->
  pops (nregs a + 1) (frame_low (c_sp c)) (pushes (c_sp c) m (saved_words c)).2
  = (c_regs c ++ [c_ret c], c_sp c).
Proof.
  intros Hc. pose proof (length_saved_words c Hc) as Hl. pose proof (saved_pushes c m Hc) as Hsp.
  destruct Hc as [_ Hs]. pose proof (pops_pushes (c_sp c) m (saved_words c)) as Hp.
  rewrite Hl in Hp. destruct (pushes _ _ _) as [sp' m'] eqn:E. cbn in Hsp |- *. subst sp'.
  rewrite (Hp Hs). f_equal. unfold saved_words. cbn. by rewrite rev_involutive.
Qed.

(** What the switch loads, given what lies in [next]'s frame. *)
Lemma context_switch_loads (k : kernel P) prev next sp0 regs ret :
  cpu_ok (k_cpu k) -> prev <> next ->
  t_saved_sp (ts_tasks (sc_ts (k_sched k)) !!! next) = frame_low sp0 ->
  stack_ok sp0 (nregs a + 1) -> frames_apart (c_sp (k_cpu k)) sp0 ->
  pops (nregs a + 1) (frame_low sp0) (k_mem k) = (regs ++ [ret], sp0) -> length regs = nregs a ->
  let k' := context_switch a prev next k in
  k_cpu k' = Cpu regs ret sp0 ret /\ ts_current (sc_ts (k_sched k')) = Some next /\
  ts_tasks (sc_ts (k_sched k')) =
    <[prev := set_saved_sp (frame_low (c_sp (k_cpu k))) (ts_tasks (sc_ts (k_sched k)) !!! prev)]>
      (ts_tasks (sc_ts (k_sched k))) /\
  k_mem k' = (pushes (c_sp (k_cpu k)) (k_mem k) (saved_words (k_cpu k))).2.
Proof.
  intros Hc Hne Hsp H0 Hd Hp Hl. cbv zeta. unfold context_switch.
  pose proof (saved_pushes (k_cpu k) (k_mem k) Hc) as Hs.
  pose proof (saved_pushes_apart (k_cpu k) (k_mem k) sp0 Hc Hd) as Hm.
  destruct (pushes _ _ _) as [sp m]. cbn in Hs, Hm. subst sp.
  rewrite list_lookup_total_insert_ne, Hsp by done.
  rewrite (pops_agree _ _ m (k_mem k)).
  - rewrite Hp. cbn. rewrite <-Hl at 1. rewrite take_app_length.
    rewrite <-Hl. rewrite lookup_total_app_r, Nat.sub_diag by lia. done.
  - unfold frame_low, stack_ok in *. lia.
  - unfold frame_low, stack_ok in *. lia.
  - intros x Hx. apply Hm. unfold frame_low in *. lia.
Qed.
End Switching.

(** C20: a switch away and back resumes exactly where it left.  Task [p] is
    switched out; if afterwards its frame and [saved_sp] are untouched, the
    switch back to it restores its callee-saved registers, stack pointer and
    return address, whatever ran in between. *)
Theorem switch_away_and_back {P : Type} (a : arch) (k0 k2 : kernel P) (p n q : nat) :
  cpu_ok a (k_cpu k0) -> cpu_ok a (k_cpu k2) -> p <> q ->
  (p < length (ts_tasks (sc_ts (k_sched k0))))%nat ->
  frames_apart a (c_sp (k_cpu k2)) (c_sp (k_cpu k0)) ->
  let k1 := context_switch a p n k0 in
  agree_on (frame_low a (c_sp (k_cpu k0))) (c_sp (k_cpu k0)) (k_mem k2) (k_mem k1) ->
  t_saved_sp (ts_tasks (sc_ts (k_sched k2)) !!! p) = t_saved_sp (ts_tasks (sc_ts (k_sched k1)) !!! p) ->
  let k3 := context_switch a q p k2 in
  c_regs (k_cpu k3) = c_regs (k_cpu k0) /\ c_sp (k_cpu k3) = c_sp (k_cpu k0) /\
  c_pc (k_cpu k3) = c_ret (k_cpu k0) /\ ts_current (sc_ts (k_sched k3)) = Some p.
Proof.
  intros Hc0 Hc2 Hpq Hp Hd k1 Hm Hsp k3.
  assert (Hs : t_saved_sp (ts_tasks (sc_ts (k_sched k1)) !!! p) = frame_low a (c_sp (k_cpu k0))).
  { subst k1. unfold context_switch. pose proof (saved_pushes a (k_cpu k0) (k_mem k0) Hc0) as He.
    destruct (pushes _ _ _) as [sp m]. cbn in He. subst sp. destruct (pops _ _ _) as [ws sp'].
    cbn. by rewrite list_lookup_total_insert_eq. }
  assert (Hmem : k_mem k1 = (pushes (c_sp (k_cpu k0)) (k_mem k0) (saved_words (k_cpu k0))).2).
  { subst k1. unfold context_switch. destruct (pushes _ _ _) as [sp m].
    by destruct (pops _ _ _) as [ws sp']. }
  destruct (context_switch_loads a k2 q p (c_sp (k_cpu k0)) (c_regs (k_cpu k0)) (c_ret (k_cpu k0)))
    as (Hcpu & Hcur & _); try done.
  - by rewrite Hsp.
  - apply Hc0.
  - destruct Hc0 as [Hl0 Hs0]. rewrite (pops_agree _ _ _ (k_mem k1)).
    + rewrite Hmem. by apply saved_pops.
    + unfold frame_low, stack_ok in *. lia.
    + unfold frame_low, stack_ok in *. lia.
    + intros x Hx. apply Hm. unfold frame_low in *. lia.
  - apply Hc0.
  - subst k3. by rewrite Hcpu.
Qed.

(** The first switch to a new task enters it.  After
    [task_setup_initial_frame] the switch to the task jumps to its entry
    point with zeroed callee-saved registers and an empty stack, on both
    architectures that have a switch: the frame and the pops agree. *)
Theorem first_switch_enters {P : Type} (a : arch) (k : kernel P) (m0 m1 : gmap Z Z) (t0 t1 : task_t)
    (entry : Z) (p n : nat) :
  a <> RISCV -> t_kernel_stack_top t0 <> 0 -> entry <> 0 ->
  task_setup_initial_frame a m0 (Some t0) entry = (m1, Some t1) ->
  let top := t_kernel_stack_top t0 in
  stack_ok top (nregs a + 1) -> agree_on (frame_low a top) top (k_mem k) m1 ->
  t_saved_sp (ts_tasks (sc_ts (k_sched k)) !!! n) = t_saved_sp t1 ->
  cpu_ok a (k_cpu k) -> frames_apart a (c_sp (k_cpu k)) top -> p <> n ->
  let k' := context_switch a p n k in
  k_cpu k' = Cpu (replicate (nregs a) 0) entry top entry /\
  ts_current (sc_ts (k_sched k')) = Some n.
Proof.
  intros Ha Ht He Hset top Hst Hm Hsp Hc Hd Hpn k'.
  pose (c := Cpu (replicate (nregs a) 0) entry top 0).
  assert (Hw : saved_words c = entry :: replicate (nregs a) 0).
  { unfold saved_words, c. cbn. f_equal. by destruct a. }
  assert (Hcok : cpu_ok a c) by (split; [apply length_replicate|done]).
  assert (Hset' : m1 = (pushes top m0 (saved_words c)).2 /\ t_saved_sp t1 = frame_low a top).
  { revert Hset. unfold task_setup_initial_frame.
    destruct (_ || _)%bool eqn:E; [apply orb_true_iff in E as [E|E]; bools; done|].
    pose proof (saved_pushes a c m0 Hcok) as Hp. cbn [c_sp c] in Hp. rewrite Hw in Hp. rewrite Hw.
    fold top. destruct a; try done; destruct (pushes top m0 _) as [sp m]; cbn in Hp |- *;
      intros [= <- <-]; cbn; by rewrite Hp. }
  destruct Hset' as [-> Hs1].
  destruct (context_switch_loads a k p n top (replicate (nregs a) 0) entry) as (Hcpu & Hcur & _);
    try done.
  - by rewrite Hsp.
  - rewrite (pops_agree _ _ _ (pushes top m0 (saved_words c)).2).
    + apply (saved_pops a c m0 Hcok).
    + unfold frame_low, stack_ok in *. lia.
    + unfold frame_low, stack_ok in *. lia.
    + intros x Hx. apply Hm. unfold frame_low in *. lia.
  - apply length_replicate.
Qed.

(** ** [task_yield] *)
Section Yield.
Context {P : Type} `{Hspl : SplOps P} `{Hlaws : !SplLaws P} (a : arch).
Implicit Types (k : kernel P).
#[local] Arguments rr_schedule : simpl never.

Definition kernel_ok k : Prop := sched_wf (k_sched k) /\ spl_inv (k_spl k).

(** The task the scheduler elects, if any, as a slot. *)
Definition elected_slot k : option nat :=
  rotation_slot (k_sched k) <$> findi runnable (rotation (k_sched k)).

(** The scheduler's part of a yield, with the task looked up by id. *)
Lemma rr_elects k :
  sched_wf (k_sched k) ->
  exists s', table_equiv (sc_ts (k_sched k)) (sc_ts s') /\ sched_wf s' /\
    rr_schedule (k_sched k) true =
      Some (match elected_slot k with Some _ => 0 | None => -1 end,
            (fun i => Z.of_nat i + 1) <$> elected_slot k, s') /\
    (forall i, elected_slot k = Some i ->
       task_find (sc_ts s') (Z.of_nat i + 1) = Some i /\
       live (sc_ts s') = dispatch_table (sc_ts (k_sched k)) i /\ (i < length (live (sc_ts s')))%nat).
Proof.
  intros Hs. destruct (rr_schedule_result _ Hs) as (s' & He & Hl & _).
  destruct (rr_schedule_wf _ _ _ s' Hs He) as [Hte Hs']. exists s'.
  split; [done|]. split; [done|]. unfold elected_slot.
  pose proof (sw_tasks _ Hs) as Hw.
  destruct (findi runnable (rotation (k_sched k))) as [d|]; cbn.
  - destruct Hl as [Hl _]. pose proof (rotation_slot_lt _ d Hs) as Hlt.
    destruct (lookup_lt_is_Some_2 _ _ Hlt) as [x Hx].
    split.
    + rewrite He. by rewrite (lookup_total_Some _ _ x Hx), (tw_ids _ Hw _ x Hx).
    + intros i [= <-]. assert (Hlt' : (rotation_slot (k_sched k) d < length (live (sc_ts s')))%nat).
      { rewrite Hl. unfold dispatch_table. by rewrite length_insert, length_fmap. }
      split; [|done]. apply task_find_spec; [apply Hs'|]. split; [|done].
      apply lookup_lt_is_Some_2 in Hlt' as [y Hy]. by exists y.
  - split; [by rewrite He|]. done.
Qed.

Lemma dispatch_lookup ts i :
  (i < length (live ts))%nat -> dispatch_table ts i !! i = Some (set_state TASK_RUNNING (ts_tasks ts !!! i)).
Proof. intros Hi. unfold dispatch_table. apply list_lookup_insert_eq. by rewrite length_fmap. Qed.

Lemma live_total ts i x : live ts !! i = Some x -> ts_tasks ts !!! i = x.
Proof. intros [Hx _]%live_lookup. by apply lookup_total_Some. Qed.

(** The four ends of a yield. *)
Lemma task_yield_cases k p :
  sched_wf (k_sched k) -> ts_current (sc_ts (k_sched k)) = Some p ->
  (p < length (live (sc_ts (k_sched k))))%nat ->
  exists s',
    table_equiv (sc_ts (k_sched k)) (sc_ts s') /\ sched_wf s' /\
    (forall i, elected_slot k = Some i -> live (sc_ts s') = dispatch_table (sc_ts (k_sched k)) i) /\
    task_yield a k = Some
      match elected_slot k with
      | None => Returned (Kernel s' (k_cpu k) (k_mem k) (k_spl k))
      | Some i =>
          if decide (i = p) then Returned (Kernel s' (k_cpu k) (k_mem k) (k_spl k))
          else if t_saved_sp (ts_tasks (sc_ts (k_sched k)) !!! i) =? 0
          then Returned (Kernel s' (k_cpu k) (k_mem k) (k_spl k))
          else
            let hp := splhigh (k_spl k) in
            let k1 := Kernel s' (k_cpu k) (k_mem k) hp.2 in
            match a with
            | RISCV => Returned (task_yield_resume hp.1 k1)
            | _ => Switched hp.1 (context_switch a p i k1)
            end
      end.
Proof.
  intros Hs Hcur Hp. destruct (rr_elects k Hs) as (s' & Hte & Hs' & He & Hel).
  exists s'. split; [done|]. split; [done|]. split; [intros i Hi; by apply Hel|].
  unfold task_yield. rewrite Hcur, He. cbn [mbind option_bind].
  destruct (elected_slot k) as [i|] eqn:Ei; cbn [fmap option_fmap option_map default negb Z.eqb]; [|done].
  destruct (Hel i eq_refl) as (Hf & Hl & Hlt).
  assert (Hid : t_task_id (ts_tasks (sc_ts s') !!! p) = Z.of_nat p + 1).
  { pose proof (Forall2_length _ _ _ (te_identity _ _ Hte)) as Hlen.
    destruct (lookup_lt_is_Some_2 (live (sc_ts s')) p ltac:(lia)) as [y Hy].
    rewrite (live_total _ _ y Hy). by apply (tw_ids _ (sw_tasks _ Hs')). }
  cbn [from_option id]. rewrite Hid. destruct (decide (i = p)) as [->|Hne].
  - rewrite Z.eqb_refl. done.
  - replace (Z.of_nat i + 1 =? Z.of_nat p + 1) with false by lia. rewrite Hf.
    assert (Hlk : (i < length (live (sc_ts (k_sched k))))%nat).
    { revert Hlt. rewrite Hl. unfold dispatch_table. by rewrite length_insert, length_fmap. }
    assert (Hsp : t_saved_sp (ts_tasks (sc_ts s') !!! i) = t_saved_sp (ts_tasks (sc_ts (k_sched k)) !!! i)).
    { rewrite (live_total _ _ (set_state TASK_RUNNING (ts_tasks (sc_ts (k_sched k)) !!! i))); [done|].
      rewrite Hl. by apply dispatch_lookup. }
    rewrite Hsp. destruct (_ =? 0); [done|]. cbn [k_spl].
    destruct (splhigh (k_spl k)) as [old pq]. by destruct a.
Qed.
End Yield.

(** The table side of a switch keeps the invariant. *)
Lemma context_switch_sched {P : Type} a p i (k : kernel P) :
  tasks_wf (sc_ts (k_sched k)) -> (p < length (live (sc_ts (k_sched k))))%nat ->
  (i < length (live (sc_ts (k_sched k))))%nat -> i <> p ->
  let k' := context_switch a p i k in
  tasks_wf (sc_ts (k_sched k')) /\ sc_cursor (k_sched k') = sc_cursor (k_sched k) /\
  ts_current (sc_ts (k_sched k')) = Some i /\
  live (sc_ts (k_sched k')) !! i = live (sc_ts (k_sched k)) !! i /\ k_spl k' = k_spl k.
Proof.
  intros Hw Hp Hi Hne. cbv zeta. destruct (lookup_lt_is_Some_2 _ _ Hp) as [tp Htp].
  destruct (lookup_lt_is_Some_2 _ _ Hi) as [ti Hti].
  unfold context_switch. destruct (pushes _ _ _) as [sp m]. rewrite (live_total _ _ _ Htp).
  set (ts1 := set_tasks (<[p := set_saved_sp sp tp]> (ts_tasks (sc_ts (k_sched k)))) (sc_ts (k_sched k))).
  assert (Hli : live ts1 !! i = live (sc_ts (k_sched k)) !! i).
  { rewrite Hti. apply live_lookup in Hti as [Ht Hlt].
    apply live_lookup. split; [|done]. cbn. by rewrite list_lookup_insert_ne. }
  destruct (pops _ _ _) as [ws sp']. cbn [k_sched sc_ts sc_cursor ts_current].
  split; [|split; [done|split; [done|split; [exact Hli|done]]]].
  apply (task_step_wf 0 ts1); [|by apply (task_step_wf 0 _ _ (step_saved_sp 0 _ p tp sp Htp))].
  apply (step_switch 0 ts1 i ti). by rewrite Hli.
Qed.

(** C21: [task_yield].  It never leaves the table and keeps the scheduler
    state well-formed.  Either it returns to its caller with registers,
    memory, [current_task] and interrupt level untouched, or it switches to
    another task that has a saved frame, which is then both [current_task]
    and RUNNING, with interrupts masked; and whenever the caller is resumed,
    whatever happened since, it gets its own interrupt level back. *)
Theorem task_yield_spec {P : Type} `{Hspl : SplOps P} `{Hlaws : !SplLaws P} (a : arch)
    (k : kernel P) (p : nat) :
  kernel_ok k -> ts_current (sc_ts (k_sched k)) = Some p ->
  (p < length (live (sc_ts (k_sched k))))%nat ->
  (exists k', task_yield a k = Some (Returned k') /\ kernel_ok k' /\
     spl_level (k_spl k') = spl_level (k_spl k) /\ ts_current (sc_ts (k_sched k')) = Some p /\
     k_cpu k' = k_cpu k /\ k_mem k' = k_mem k) \/
  (exists old k' i, task_yield a k = Some (Switched old k') /\ kernel_ok k' /\
     elected_slot k = Some i /\ i <> p /\ a <> RISCV /\
     t_saved_sp (ts_tasks (sc_ts (k_sched k)) !!! i) <> 0 /\
     ts_current (sc_ts (k_sched k')) = Some i /\
     t_state <$> (live (sc_ts (k_sched k')) !! i) = Some TASK_RUNNING /\
     spl_masked (k_spl k') /\
     (forall k2, spl_inv (k_spl k2) ->
        spl_level (k_spl (task_yield_resume old k2)) = spl_level (k_spl k))).
Proof.
  intros [Hs Hinv] Hcur Hp.
  destruct (task_yield_cases a k p Hs Hcur Hp) as (s' & Hte & Hs' & Hel & ->).
  assert (Hcur' : ts_current (sc_ts s') = Some p) by (by rewrite <-(te_current _ _ Hte)).
  assert (Hret : forall q, spl_inv q -> spl_level q = spl_level (k_spl k) ->
    exists k', Some (Returned (Kernel s' (k_cpu k) (k_mem k) q)) = Some (Returned k') /\ kernel_ok k' /\
     spl_level (k_spl k') = spl_level (k_spl k) /\ ts_current (sc_ts (k_sched k')) = Some p /\
     k_cpu k' = k_cpu k /\ k_mem k' = k_mem k) by (intros q ??; eexists; by split_and!).
  destruct (elected_slot k) as [i|] eqn:Ei; [|by left; apply Hret].
  destruct (decide (i = p)) as [->|Hne]; [by left; apply Hret|].
  destruct (t_saved_sp _ =? 0) eqn:E; bools; [by left; apply Hret|]. cbv zeta.
  destruct (spl_masks (k_spl k) Hinv) as [Hinv' Hmask].
  assert (Hi : (i < length (live (sc_ts (k_sched k))))%nat).
  { unfold elected_slot in Ei. destruct (findi _ _) as [d|]; [|done]. cbn in Ei.
    injection Ei as <-. by apply rotation_slot_lt. }
  pose proof (Forall2_length _ _ _ (te_identity _ _ Hte)) as Hlen.
  set (k1 := Kernel s' (k_cpu k) (k_mem k) (splhigh (k_spl k)).2).
  destruct (context_switch_sched a p i k1) as (Hw & Hc & Hcu & Hl & Hsp); cbn [k_sched k1];
    [apply Hs'|lia|lia|done|].
  assert (Hsw : forall b, exists old k' j,
     Some (Switched (splhigh (k_spl k)).1 (context_switch a p i k1)) = Some (Switched old k') /\ kernel_ok k' /\
     Some i = Some j /\ j <> p /\ (b <> RISCV -> b <> RISCV) /\
     t_saved_sp (ts_tasks (sc_ts (k_sched k)) !!! j) <> 0 /\
     ts_current (sc_ts (k_sched k')) = Some j /\
     t_state <$> (live (sc_ts (k_sched k')) !! j) = Some TASK_RUNNING /\
     spl_masked (k_spl k') /\
     (forall k2, spl_inv (k_spl k2) ->
        spl_level (k_spl (task_yield_resume old k2)) = spl_level (k_spl k))).
  { intros b. exists (splhigh (k_spl k)).1, (context_switch a p i k1), i. rewrite Hl, Hcu.
    split_and!; try done.
    - split; [|by rewrite Hsp]. split; [done|]. rewrite Hc. apply Hs'.
    - change (sc_ts (k_sched k1)) with (sc_ts s'). rewrite (Hel i eq_refl), dispatch_lookup by done. done.
    - by rewrite Hsp.
    - intros k2 Hk2. by apply spl_restores. }
  destruct a.
  - right. destruct (Hsw ARM) as (old & k' & j & H). exists old, k', j. intuition done.
  - right. destruct (Hsw ARM) as (old & k' & j & H). exists old, k', j. intuition done.
  - left. apply Hret; by apply spl_restores.
Qed.

(** A refused switch leaves the table wrong.  When the scheduler elects
    another task that has no saved frame, [task_yield] keeps the caller
    running but the election stands: the table calls the other task RUNNING,
    and the caller, which runs, is not. *)
Theorem yield_refusal_desync {P : Type} `{Hspl : SplOps P} (a : arch) (k : kernel P) (p i : nat) :
  sched_wf (k_sched k) -> ts_current (sc_ts (k_sched k)) = Some p ->
  (p < length (live (sc_ts (k_sched k))))%nat ->
  elected_slot k = Some i -> i <> p -> t_saved_sp (ts_tasks (sc_ts (k_sched k)) !!! i) = 0 ->
  exists k', task_yield a k = Some (Returned k') /\ ts_current (sc_ts (k_sched k')) = Some p /\
    k_cpu k' = k_cpu k /\
    t_state <$> (live (sc_ts (k_sched k')) !! i) = Some TASK_RUNNING /\
    t_state <$> (live (sc_ts (k_sched k')) !! p) <> Some TASK_RUNNING.
Proof.
  intros Hs Hcur Hp Hi Hne Hsp.
  destruct (task_yield_cases a k p Hs Hcur Hp) as (s' & Hte & Hs' & Hel & ->).
  rewrite Hi in *. rewrite decide_False, Hsp by done. cbn [Z.eqb].
  assert (Hlt : (i < length (live (sc_ts (k_sched k))))%nat).
  { unfold elected_slot in Hi. destruct (findi _ _) as [d|]; [|done]. cbn in Hi.
    injection Hi as <-. by apply rotation_slot_lt. }
  eexists. split; [reflexivity|]. cbn [k_sched k_cpu]. split_and!; try done.
  - by rewrite <-(te_current _ _ Hte).
  - rewrite (Hel i eq_refl), dispatch_lookup by done. done.
  - rewrite (Hel i eq_refl). unfold dispatch_table. rewrite list_lookup_insert_ne by done.
    rewrite list_lookup_fmap. destruct (live _ !! p) as [x|]; [|done]. cbn.
    intros [= Hx]. by apply demote_not_running in Hx.
Qed.

(** ** Concrete runs *)

Definition demo_entry : Z := 65536.
Definition demo_fresh : task_t := Task 2 5 1 0 0 0 36864 36864 1.
Definition demo_framed : gmap Z Z * option task_t :=
  task_setup_initial_frame ARM ∅ (Some demo_fresh) demo_entry.
Definition demo_table : task_state :=
  set_tasks (<[1%nat := set_saved_sp 36828 demo_fresh]> (ts_tasks demo_tasks3)) demo_tasks3.
Definition demo_kernel : kernel Z :=
  Kernel (Sched demo_table 0) (Cpu [4; 5; 6; 7; 8; 9; 10; 11] 1234 20000 1200) demo_framed.1 19.

Example first_switch_enters_witness :
  k_cpu (context_switch ARM 0 1 demo_kernel) = Cpu (replicate 8 0) demo_entry 36864 demo_entry.
Proof.
  apply (first_switch_enters ARM demo_kernel ∅ demo_framed.1 demo_fresh (set_saved_sp 36828 demo_fresh)
           demo_entry 0 1);
    first [ discriminate | reflexivity | (vm_compute; intuition congruence)
          | (vm_compute; right; congruence) | done ].
Defined.

Example switch_away_and_back_witness :
  let k1 := context_switch ARM 0 1 demo_kernel in
  c_regs (k_cpu (context_switch ARM 1 0 k1)) = [4; 5; 6; 7; 8; 9; 10; 11].
Proof.
  apply (switch_away_and_back ARM demo_kernel (context_switch ARM 0 1 demo_kernel) 0 1 1);
    first [ discriminate | reflexivity | (vm_compute; intuition congruence)
          | (vm_compute; right; congruence) | (vm_compute; lia) ].
Defined.

Lemma demo_table_wf : tasks_wf demo_table.
Proof.
  apply (task_step_wf 4096 demo_tasks3); [|exact (task_reachable_wf _ _ demo_reachable3)].
  apply (step_saved_sp 4096 demo_tasks3 1 demo_fresh). vm_compute. reflexivity.
Defined.

Example task_yield_spec_witness :
  exists old k', task_yield ARM demo_kernel = Some (Switched old k') /\
    ts_current (sc_ts (k_sched k')) = Some 1%nat /\ Z.testbit (k_spl k') 7 = true.
Proof.
  assert (Hok : kernel_ok demo_kernel).
  { split; [|exact I]. split; [exact demo_table_wf|split; vm_compute; congruence]. }
  destruct (task_yield_spec ARM demo_kernel 0 Hok eq_refl ltac:(vm_compute; lia))
    as [(k' & He & _)|(old & k' & i & He & _ & Hel & _ & _ & _ & Hc & _ & Hm & _)].
  - exfalso. vm_compute in He. discriminate He.
  - exists old, k'. split; [exact He|]. vm_compute in Hel. injection Hel as <-. split; [exact Hc|exact Hm].
Defined.

(** The root's neighbour has lost its frame. *)
Definition demo_refused : kernel Z :=
  Kernel (Sched (set_tasks (<[1%nat := set_saved_sp 0 demo_fresh]> (ts_tasks demo_tasks3)) demo_tasks3) 0)
    (k_cpu demo_kernel) ∅ 19.

Example yield_refusal_desync_witness :
  exists k', task_yield ARM demo_refused = Some (Returned k') /\
    t_state <$> (live (sc_ts (k_sched k')) !! 1%nat) = Some TASK_RUNNING.
Proof.
  assert (Hwf : tasks_wf (sc_ts (k_sched demo_refused))).
  { apply (task_step_wf 4096 demo_tasks3); [|exact (task_reachable_wf _ _ demo_reachable3)].
    apply (step_saved_sp 4096 demo_tasks3 1 demo_fresh). vm_compute. reflexivity. }
  destruct (yield_refusal_desync ARM demo_refused 0 1) as (k' & He & _ & _ & Hr & _).
  - split; [exact Hwf|split; vm_compute; congruence].
  - reflexivity.
  - vm_compute. lia.
  - vm_compute. reflexivity.
  - discriminate.
  - vm_compute. reflexivity.
  - by exists k'.
Defined.
