(* ===== verification/Security.v ===== *)
(** * Memory access policy: kernel/security.c

    The region table is built from the link layout, an argument here, and
    consulted by every string and memory helper.  An address range is
    [address, address + size) of a 32-bit space. *)
From S2P Require Import Prelude.

Definition MAX_PROTECTED_REGIONS : nat := 8.
Definition SIZE_MAX : Z := 4294967295.
Definition MM_USER_LOAD_BASE : Z := 4194304.
Definition MM_USER_STACK_TOP : Z := 7340032.
Definition MM_USER_REGION_END : Z := 8388608.
(** The heap bounds of x86 and ARM. *)
Definition MM_HEAP_START : Z := 8388608.
Definition MM_HEAP_END : Z := 9437184.

(** [mem_region_t], without the name that only the log uses. *)
Record mem_region_t := Region {
  rg_start : Z;
  rg_end : Z;
  rg_read : bool;
  rg_write : bool;
  rg_exec : bool
}.

(** The entries below [protected_region_count]. *)
Definition regions : Type := list mem_region_t.

Definition region_add (start end_ : Z) (r w x : bool) (t : regions) : regions :=
  if (MAX_PROTECTED_REGIONS <=? length t)%nat then t
  else if end_ <? start then t
  else t ++ [Region start end_ r w x].

(** The linker's section symbols. *)
Record layout := Layout {
  text_start : Z; rodata_end : Z; data_start : Z; bss_end : Z
}.

Definition security_regions_init (lk : layout) : regions :=
  let t := [] in
  let t := region_add 0 4095 false false false t in
  let t := region_add (text_start lk) (u32 (rodata_end lk - 1)) true false true t in
  let t := region_add (data_start lk) (u32 (bss_end lk - 1)) true true false t in
  let t := region_add MM_HEAP_START (MM_HEAP_END - 1) true true false t in
  region_add MM_USER_LOAD_BASE (MM_USER_REGION_END - 1) true true true t.

(** The loop over the table. *)
Fixpoint check_regions (t : regions) (address end_address : Z) (write : bool) : bool :=
  match t with
  | [] => true
  | r :: t =>
      if ((address <=? rg_end r) && (end_address >=? rg_start r))%bool
      then if negb (rg_read r) then false
           else if (write && negb (rg_write r))%bool then false
           else check_regions t address end_address write
      else check_regions t address end_address write
  end.

Definition security_validate_memory_access (t : regions) (addr size : Z) (write : bool) : bool :=
  if ((addr =? 0) && (size >? 0))%bool then false
  else if ((size >? 0) && (SIZE_MAX - size <? addr))%bool then false
  else check_regions t addr (u32 (addr + size - (if size >? 0 then 1 else 0))) write.

(** [security_sanitize_buffer]; NULL is 0. *)
Definition security_sanitize_buffer (buffer size : Z) : Z :=
  if ((buffer =? 0) || (size =? 0) || (size >? 128))%bool then 0 else buffer.

Definition security_verify_memory_layout : bool := true.

(** [security_generate_random]: a linear congruential generator, one step
    per byte.  Returns the bytes and the generator's state. *)
Definition lcg_next (s : Z) : Z := u32 (s * 1103515245 + 12345).
Fixpoint lcg_bytes (n : nat) (s : Z) : list Z * Z :=
  match n with
  | O => ([], s)
  | S n => let s := lcg_next s in
           let '(bs, s') := lcg_bytes n s in (u8 (Z.land (Z.shiftr s 16) 255) :: bs, s')
  end.
Definition security_generate_random (s : Z) (buffer : bool) (size : Z) : bool * list Z * Z :=
  if (negb buffer || (size =? 0))%bool then (false, [], s)
  else let '(bs, s') := lcg_bytes (Z.to_nat size) s in (true, bs, s').

(** ** What validation guarantees *)

(** A byte may be read, or written, as far as the table is concerned. *)
Definition byte_allowed (t : regions) (write : bool) (b : Z) : Prop :=
  Forall (fun r => rg_start r <= b <= rg_end r -> rg_read r = true /\ (write = true -> rg_write r = true)) t.

Lemma check_regions_spec t a e w :
  a <= e ->
  check_regions t a e w = true <->
  Forall (fun r => a <= rg_end r -> rg_start r <= e ->
                   rg_read r = true /\ (w = true -> rg_write r = true)) t.
Proof.
  intros Hae. induction t as [|r t IH]; [by split|]. cbn [check_regions]. rewrite Forall_cons, <-IH.
  destruct ((a <=? rg_end r) && (e >=? rg_start r))%bool eqn:E.
  - bools. destruct (rg_read r) eqn:Er; cbn [negb].
    2: { split; [done|]. intros [Hr _]. destruct (Hr ltac:(lia) ltac:(lia)). done. }
    destruct (w && negb (rg_write r))%bool eqn:Ew.
    + bools. split; [done|]. intros [Hr _]. destruct (Hr ltac:(lia) ltac:(lia)) as [_ Hw].
      rewrite Hw in *; done.
    + split; [|by intros [_ ?]]. intros ?. split; [|done]. intros _ _. split; [done|].
      intros ->. by destruct (rg_write r).
  - split; [|by intros [_ ?]]. intros ?. split; [|done]. intros H1 H2. exfalso.
    apply andb_false_iff in E as [E|E]; bools; lia.
Qed.

(** A non-empty range overlaps a region exactly when some byte lies in it;
    regions are never inverted. *)
Definition regions_sane (t : regions) : Prop := Forall (fun r => rg_start r <= rg_end r) t.

Lemma region_add_sane s e r w x t : regions_sane t -> regions_sane (region_add s e r w x t).
Proof.
  intros Ht. unfold region_add. split_if; [done|]. split_if; [done|].
  apply Forall_app_2; [done|]. constructor; [cbn; lia|done].
Qed.

Lemma check_regions_bytes t a e w :
  regions_sane t -> a <= e ->
  check_regions t a e w = true <-> forall b, a <= b <= e -> byte_allowed t w b.
Proof.
  intros Hs Hae. rewrite check_regions_spec by done. unfold byte_allowed, regions_sane in *.
  split.
  - intros Hc b Hb. eapply Forall_impl; [exact Hc|]. intros r Hr Hbr. apply Hr; lia.
  - intros Hall. rewrite Forall_forall in *. intros r Hr H1 H2.
    specialize (Hs r Hr). specialize (Hall (Z.max a (rg_start r)) ltac:(lia)).
    rewrite Forall_forall in Hall. apply (Hall r Hr). lia.
Qed.

(** C28: the access validator is exact.  Once the table is built, a
    non-empty access is granted if and only if its address is not NULL, its
    range ends below the last byte of the address space
    ([addr + size <= 2^32 - 1]), and every single byte of it may be accessed
    that way: no byte lies in an unreadable region and, for a write, none in a
    write-denied one.  So no range that touches the byte [2^32 - 1] is ever
    granted, not even one that ends exactly there and does not wrap. *)
Theorem validate_exact (lk : layout) (addr size : Z) (write : bool) :
  0 <= addr <= SIZE_MAX -> 0 < size <= SIZE_MAX ->
  (security_validate_memory_access (security_regions_init lk) addr size write = true <->
   addr <> 0 /\ addr + size <= SIZE_MAX /\
   forall b, addr <= b < addr + size -> byte_allowed (security_regions_init lk) write b) /\
  (addr <= SIZE_MAX < addr + size ->
   security_validate_memory_access (security_regions_init lk) addr size write = false).
Proof.
  unfold SIZE_MAX. intros Ha Hs. split.
  2: { intros He. unfold security_validate_memory_access, SIZE_MAX. replace (size >? 0) with true by lia.
    destruct (addr =? 0); [done|]. by replace (4294967295 - size <? addr) with true by lia. }
  assert (Hsane : regions_sane (security_regions_init lk)) by (repeat apply region_add_sane; constructor).
  unfold security_validate_memory_access, SIZE_MAX.
  replace (size >? 0) with true by lia. rewrite andb_true_r, andb_true_l.
  destruct (addr =? 0) eqn:E0; bools; [split; [done|]; lia|].
  destruct (4294967295 - size <? addr) eqn:E1; bools; [split; [done|]; lia|].
  rewrite u32_id by lia. rewrite check_regions_bytes by (done || lia). split.
  - intros Hb. split; [done|]. split; [lia|]. intros b ?. apply Hb. lia.
  - intros (_ & _ & Hb) b ?. apply Hb. lia.
Qed.

(** The layout of the ARM kernel image. *)
Definition demo_layout : layout := Layout 65536 262144 262144 1048576.

Example validate_exact_witness :
  byte_allowed (security_regions_init demo_layout) true 524295 /\
  security_validate_memory_access (security_regions_init demo_layout) 4294967295 1 false = false.
Proof.
  split.
  - apply (validate_exact demo_layout 524288 8 true); [unfold SIZE_MAX; lia..| |lia]. vm_compute. reflexivity.
  - apply (validate_exact demo_layout 4294967295 1 false); unfold SIZE_MAX; lia.
Defined.

(** Write protection of the kernel image.  With the section symbols in
    order, no granted write touches the first page or a byte between
    [_text_start] and [_rodata_end], however the range is chosen; before the
    table is built every access to a non-NULL, non-wrapping range is granted. *)
Theorem text_is_write_protected (lk : layout) (addr size : Z) :
  0 <= addr <= SIZE_MAX -> 0 < size <= SIZE_MAX ->
  0 <= text_start lk < rodata_end lk -> rodata_end lk <= SIZE_MAX ->
  (security_validate_memory_access (security_regions_init lk) addr size true = true ->
   forall b, addr <= b < addr + size ->
     4095 < b /\ ~ (text_start lk <= b < rodata_end lk)) /\
  (security_validate_memory_access [] addr size true = true <->
     addr <> 0 /\ addr + size <= SIZE_MAX).
Proof.
  unfold SIZE_MAX. intros Ha Hs Ht Hr. unfold security_validate_memory_access, SIZE_MAX.
  replace (size >? 0) with true by lia. rewrite andb_true_r, andb_true_l. split.
  - destruct (addr =? 0) eqn:E0; bools; [done|].
    destruct (4294967295 - size <? addr) eqn:E1; bools; [done|]. rewrite u32_id by lia.
    assert (Hsane : regions_sane (security_regions_init lk)) by (repeat apply region_add_sane; constructor).
    rewrite check_regions_bytes by (done || lia). intros Hb b Hbr.
    specialize (Hb b ltac:(lia)). unfold byte_allowed in Hb. rewrite Forall_forall in Hb.
    assert (Hin : Region 0 4095 false false false ∈ security_regions_init lk /\
                  Region (text_start lk) (rodata_end lk - 1) true false true ∈ security_regions_init lk).
    { unfold security_regions_init. rewrite (u32_id (rodata_end lk - 1)) by lia.
      cbv [region_add length Nat.leb MAX_PROTECTED_REGIONS]. cbn [Z.ltb Z.compare].
      destruct (rodata_end lk - 1 <? text_start lk) eqn:E2; bools; [lia|]. cbn.
      repeat (split_if; cbn); rewrite ?elem_of_app, ?elem_of_cons; auto 10. }
    destruct Hin as [H1 H2]. split.
    + destruct (decide (4095 < b)); [done|]. destruct (Hb _ H1); cbn in *; [lia|done].
    + intros Hbt. destruct (Hb _ H2) as [_ Hw]; cbn in *; [lia|]. by specialize (Hw eq_refl).
  - destruct (addr =? 0) eqn:E0; bools; [split; [done|]; lia|].
    destruct (4294967295 - size <? addr) eqn:E1; bools; [split; [done|]; lia|]. cbn. split; [|done].
    intros _. lia.
Qed.

Example text_is_write_protected_witness :
  security_validate_memory_access [] 262140 8 true = true.
Proof.
  apply (text_is_write_protected demo_layout 262140 8);
    first [split; vm_compute; congruence | vm_compute; congruence].
Defined.
