(* ===== verification/MemUtils.v ===== *)
(** * Memory and string helpers: kernel/mm/memory_utils.c

    A memory is a finite map from addresses to bytes; absent bytes are zero.
    Every helper asks the access policy of Security first, on the region
    table [rt]; a refused copy leaves memory as it is. *)
From S2P Require Import Prelude Security.

Definition ldb (m : gmap Z Z) (a : Z) : Z := default 0 (m !! u32 a).
Definition stb (m : gmap Z Z) (a v : Z) : gmap Z Z := <[u32 a := u8 v]> m.

(** 32-bit fields, little-endian. *)
Definition ld32 (m : gmap Z Z) (a : Z) : Z :=
  le_val [ldb m a; ldb m (a + 1); ldb m (a + 2); ldb m (a + 3)].
Definition st32 (m : gmap Z Z) (a v : Z) : gmap Z Z :=
  stb (stb (stb (stb m a v) (a + 1) (Z.shiftr v 8)) (a + 2) (Z.shiftr v 16)) (a + 3) (Z.shiftr v 24).

(** The [n] bytes at [a], and the bytes [bs] put there. *)
Definition load (m : gmap Z Z) (a : Z) (n : nat) : list Z := (fun i => ldb m (a + Z.of_nat i)) <$> seq 0 n.
Fixpoint store (m : gmap Z Z) (a : Z) (bs : list Z) : gmap Z Z :=
  match bs with [] => m | b :: bs => store (stb m a b) (a + 1) bs end.

(** ** Copies *)

(** [for (i = 0; i < n; i++) d[i] = s[i]], with [k] iterations left. *)
Fixpoint copy_up (k : nat) (m : gmap Z Z) (d s i : Z) : gmap Z Z :=
  match k with
  | O => m
  | S k => copy_up k (stb m (d + i) (ldb m (s + i))) d s (i + 1)
  end.
(** [for (i = n; i > 0; i--) d[i-1] = s[i-1]] *)
Fixpoint copy_down (i : nat) (m : gmap Z Z) (d s : Z) : gmap Z Z :=
  match i with
  | O => m
  | S i => copy_down i (stb m (d + Z.of_nat i) (ldb m (s + Z.of_nat i))) d s
  end.
Fixpoint fill (k : nat) (m : gmap Z Z) (p c : Z) : gmap Z Z :=
  match k with
  | O => m
  | S k => fill k (stb m p c) (p + 1) c
  end.

Section Helpers.
Context (rt : regions).

Definition may_read (a n : Z) : bool := security_validate_memory_access rt a n false.
Definition may_write (a n : Z) : bool := security_validate_memory_access rt a n true.

(** Each returns [dest]; the model gives the memory after. *)
Definition memcpy (m : gmap Z Z) (dest src n : Z) : gmap Z Z :=
  if (negb (may_write dest n) || negb (may_read src n))%bool then m
  else copy_up (Z.to_nat n) m dest src 0.

Definition memmove (m : gmap Z Z) (dest src n : Z) : gmap Z Z :=
  if (negb (may_write dest n) || negb (may_read src n))%bool then m
  else if dest <? src then copy_up (Z.to_nat n) m dest src 0
  else if dest >? src then copy_down (Z.to_nat n) m dest src
  else m.

Definition memset (m : gmap Z Z) (s c n : Z) : gmap Z Z :=
  if negb (may_write s n) then m else fill (Z.to_nat n) m s (u8 c).

(** The loop of [strlen]; it gives up after 10000 characters, so 10001
    rounds are enough. *)
Fixpoint strlen_loop (fuel : nat) (m : gmap Z Z) (s len : Z) : Z :=
  match fuel with
  | O => 0
  | S f =>
      if (may_read (u32 (s + len)) 1 && negb (ldb m (s + len) =? 0))%bool
      then if len + 1 >? 10000 then 0 else strlen_loop f m s (len + 1)
      else len
  end.
Definition strlen (m : gmap Z Z) (s : Z) : Z :=
  if negb (may_read s 1) then 0 else strlen_loop (Z.to_nat 10001) m s 0.

(** [char_val] is the value of a [char]: signed on x86, unsigned on ARM. *)
Context (char_val : Z -> Z).

Fixpoint strcmp_loop (fuel : nat) (m : gmap Z Z) (s1 s2 i : Z) : Z :=
  match fuel with
  | O => 0
  | S f =>
      if (may_read (u32 (s1 + i)) 1 && may_read (u32 (s2 + i)) 1)%bool
      then
        let c1 := ldb m (s1 + i) in let c2 := ldb m (s2 + i) in
        if negb (c1 =? c2) then char_val c1 - char_val c2
        else if c1 =? 0 then 0
        else if i + 1 >? 10000 then 0 else strcmp_loop f m s1 s2 (i + 1)
      else 0
  end.
Definition strcmp (m : gmap Z Z) (s1 s2 : Z) : Z :=
  if (negb (may_read s1 1) || negb (may_read s2 1))%bool then 0
  else strcmp_loop (Z.to_nat 10001) m s1 s2 0.

Definition strcpy (m : gmap Z Z) (dest src : Z) : gmap Z Z :=
  memcpy m dest src (strlen m src + 1).

(** The comparison loop of [strstr]: how far [needle] matches. *)
Fixpoint match_len (k : nat) (m : gmap Z Z) (h n i : Z) : Z :=
  match k with
  | O => i
  | S k =>
      if ((ldb m (h + i) =? 0) || negb (ldb m (h + i) =? ldb m (n + i)))%bool then i
      else match_len k m h n (i + 1)
  end.
(** The scan; [None] when the fuel runs out, [Some 0] for NULL. *)
Fixpoint strstr_loop (fuel : nat) (m : gmap Z Z) (h n nl : Z) : option Z :=
  match fuel with
  | O => None
  | S f =>
      if ldb m h =? 0 then Some 0
      else if ((ldb m h =? ldb m n) && (match_len (Z.to_nat nl) m h n 0 =? nl))%bool then Some h
      else if negb (may_read (u32 (h + 1)) 1) then Some 0
      else strstr_loop f m (u32 (h + 1)) n nl
  end.
Definition strstr (fuel : nat) (m : gmap Z Z) (haystack needle : Z) : option Z :=
  if (negb (may_read haystack 1) || negb (may_read needle 1))%bool then Some 0
  else
    let nl := strlen m needle in
    if nl =? 0 then Some haystack else strstr_loop fuel m haystack needle nl.
End Helpers.

(** ** The bump allocator

    [kmalloc_buffer] starts at [kb].  A block is a 12-byte header (magic,
    size, used) and the payload.  A failed [assert] halts the machine:
    [None]. *)
Definition KMALLOC_SIZE : Z := 65536.
Definition BLOCK_MAGIC : Z := 2869742132.
Definition HEADER_SIZE : Z := 12.

Record kheap := KHeap { km_mem : gmap Z Z; km_end : Z }.

Definition align_size (size : Z) : Z := Z.land (u32 (size + 7)) (u32 (Z.lnot 7)).

Section Kmalloc.
Context (rt : regions) (kb : Z).

Definition kmalloc_init (h : kheap) : kheap := KHeap (fill (Z.to_nat KMALLOC_SIZE) (km_mem h) kb 0) kb.

Definition kmalloc (h : kheap) (size : Z) : option (Z * kheap) :=
  if negb ((size >? 0) && (size <=? KMALLOC_SIZE - HEADER_SIZE))%bool then None
  else
    let total := align_size (u32 (size + HEADER_SIZE)) in
    let aligned := Z.land (u32 (km_end h + 4 - 1)) (u32 (Z.lnot 3)) in
    if aligned + total >? kb + KMALLOC_SIZE then Some (0, h)
    else
      let m := st32 (km_mem h) aligned BLOCK_MAGIC in
      let m := st32 m (aligned + 4) size in
      let m := stb m (aligned + 8) 1 in
      Some (aligned + HEADER_SIZE, KHeap m (aligned + total)).

Definition kfree (h : kheap) (ptr : Z) : option kheap :=
  if ptr =? 0 then Some h
  else
    let header := ptr - HEADER_SIZE in
    if (negb (ld32 (km_mem h) header =? BLOCK_MAGIC) || (ldb (km_mem h) (header + 8) =? 0))%bool
    then None
    else if ((ptr >=? kb) && (ptr <? kb + KMALLOC_SIZE))%bool
    then
      let m := stb (km_mem h) (header + 8) 0 in
      Some (KHeap (memset rt m ptr 0 (ld32 m (header + 4))) (km_end h))
    else None.

Definition kmalloc_size (h : kheap) (ptr : Z) : Z :=
  if ptr =? 0 then 0
  else
    let header := ptr - HEADER_SIZE in
    if negb (ld32 (km_mem h) header =? BLOCK_MAGIC) then 0 else ld32 (km_mem h) (header + 4).
End Kmalloc.

(** ** What the copies do *)

Lemma ldb_stb m a b v :
  0 <= a < 4294967296 -> 0 <= b < 4294967296 ->
  ldb (stb m a v) b = if b =? a then u8 v else ldb m b.
Proof.
  intros Ha Hb. unfold ldb, stb. rewrite !u32_id by done. destruct (b =? a) eqn:E; bools.
  - subst. by rewrite lookup_insert_eq.
  - by rewrite lookup_insert_ne by done.
Qed.

(** Memories hold bytes. *)
Definition bytes_ok (m : gmap Z Z) : Prop := forall a, 0 <= ldb m a < 256.

Lemma stb_bytes_ok m a v : bytes_ok m -> bytes_ok (stb m a v).
Proof.
  intros Hm b. unfold ldb, stb. destruct (decide (u32 a = u32 b)) as [->|Hne].
  - rewrite lookup_insert_eq. apply u8_range.
  - rewrite lookup_insert_ne by done. apply Hm.
Qed.

(** A range that does not wrap. *)
Definition range_ok (a n : Z) : Prop := 0 <= a /\ a + n <= 4294967296.

(** The upward copy reads only bytes it has not overwritten when the
    destination starts below the source, or the ranges are disjoint. *)
Lemma copy_up_spec k m d s i x :
  bytes_ok m -> 0 <= i -> range_ok d (i + Z.of_nat k) -> range_ok s (i + Z.of_nat k) ->
  (d <= s \/ s + i + Z.of_nat k <= d + i) -> 0 <= x < 4294967296 ->
  ldb (copy_up k m d s i) x =
  if ((d + i <=? x) && (x <? d + i + Z.of_nat k))%bool then ldb m (s + (x - d)) else ldb m x.
Proof.
  unfold range_ok. revert m i. induction k as [|k IH]; intros m i Hm Hi Hd Hs Ho Hx.
  - cbn. destruct (_ && _)%bool eqn:E; bools; [lia|done].
  - cbn [copy_up]. rewrite IH by (try apply stb_bytes_ok; (done || lia)).
    destruct ((d + (i + 1) <=? x) && (x <? d + (i + 1) + Z.of_nat k))%bool eqn:E1; bools.
    + replace ((d + i <=? x) && (x <? d + i + Z.of_nat (S k)))%bool with true
        by (symmetry; apply andb_true_iff; rewrite Z.leb_le, Z.ltb_lt; lia).
      rewrite ldb_stb by lia. destruct (_ =? _) eqn:E2; bools; [lia|done].
    + rewrite ldb_stb by lia. destruct (x =? d + i) eqn:E2; bools.
      * subst x. replace ((d + i <=? d + i) && (d + i <? d + i + Z.of_nat (S k)))%bool with true
          by (symmetry; apply andb_true_iff; rewrite Z.leb_le, Z.ltb_lt; lia).
        rewrite u8_id by apply Hm. f_equal. lia.
      * destruct ((d + i <=? x) && (x <? d + i + Z.of_nat (S k)))%bool eqn:E3; bools; [|done].
        apply andb_false_iff in E1 as [E1|E1]; bools; lia.
Qed.

(** The downward copy, when the destination starts above the source. *)
Lemma copy_down_spec k m d s x :
  bytes_ok m -> range_ok d (Z.of_nat k) -> range_ok s (Z.of_nat k) -> s <= d ->
  0 <= x < 4294967296 ->
  ldb (copy_down k m d s) x =
  if ((d <=? x) && (x <? d + Z.of_nat k))%bool then ldb m (s + (x - d)) else ldb m x.
Proof.
  unfold range_ok. revert m. induction k as [|k IH]; intros m Hm Hd Hs Ho Hx.
  - cbn. destruct (_ && _)%bool eqn:E; bools; [lia|done].
  - cbn [copy_down]. rewrite IH by (try apply stb_bytes_ok; (done || lia)).
    destruct ((d <=? x) && (x <? d + Z.of_nat k))%bool eqn:E1; bools.
    + replace ((d <=? x) && (x <? d + Z.of_nat (S k)))%bool with true
        by (symmetry; apply andb_true_iff; rewrite Z.leb_le, Z.ltb_lt; lia).
      rewrite ldb_stb by lia. destruct (_ =? _) eqn:E2; bools; [lia|done].
    + rewrite ldb_stb by lia. destruct (x =? d + Z.of_nat k) eqn:E2; bools.
      * subst x. replace ((d <=? d + Z.of_nat k) && (d + Z.of_nat k <? d + Z.of_nat (S k)))%bool
          with true by (symmetry; apply andb_true_iff; rewrite Z.leb_le, Z.ltb_lt; lia).
        rewrite u8_id by apply Hm. f_equal. lia.
      * destruct ((d <=? x) && (x <? d + Z.of_nat (S k)))%bool eqn:E3; bools; [|done].
        apply andb_false_iff in E1 as [E1|E1]; bools; lia.
Qed.

(** [memmove] is a copy through a buffer.  A granted call leaves at the
    destination what the source held before the call, however the two ranges
    overlap, and changes nothing else; a refused call changes nothing.
    [memcpy] does the same when the destination does not start inside the
    source range. *)
Theorem memmove_as_if_buffered (rt : regions) (m : gmap Z Z) (d s n x : Z) :
  bytes_ok m -> 0 <= n -> range_ok d n -> range_ok s n -> 0 <= x < 4294967296 ->
  let copied := if ((d <=? x) && (x <? d + n))%bool then ldb m (s + (x - d)) else ldb m x in
  let granted := (may_write rt d n && may_read rt s n)%bool in
  ldb (memmove rt m d s n) x = (if granted then copied else ldb m x) /\
  (d <= s \/ s + n <= d -> ldb (memcpy rt m d s n) x = (if granted then copied else ldb m x)).
Proof.
  intros Hm Hn Hd Hs Hx copied granted. unfold memmove, memcpy. rewrite <-negb_andb. fold granted.
  assert (HN : Z.of_nat (Z.to_nat n) = n) by lia.
  assert (Hup : d <= s \/ s + n <= d -> ldb (copy_up (Z.to_nat n) m d s 0) x = copied).
  { intros Ho. rewrite copy_up_spec by (unfold range_ok in *; (done || lia)).
    by rewrite HN, Z.add_0_r. }
  destruct granted; cbn [negb]; [|done]. split; [|exact Hup].
  destruct (d <? s) eqn:E1; bools; [apply Hup; lia|].
  destruct (d >? s) eqn:E2; bools.
  - rewrite copy_down_spec by (rewrite ?HN; (done || lia)). by rewrite HN.
  - subst copied. assert (d = s) by lia. subst s. destruct (_ && _)%bool; [|done]. f_equal. lia.
Qed.

Definition demo_bytes : gmap Z Z := stb (stb (stb ∅ 2097152 65) 2097153 66) 2097154 67.

Lemma stb_all_ok : bytes_ok demo_bytes.
Proof. repeat apply stb_bytes_ok. intros a. unfold ldb. rewrite lookup_empty. cbn. lia. Defined.

Example memmove_as_if_buffered_witness :
  ldb (memmove [] demo_bytes 2097153 2097152 3) 2097155 = 67.
Proof.
  destruct (memmove_as_if_buffered [] demo_bytes 2097153 2097152 3 2097155 stb_all_ok
              ltac:(lia) ltac:(split; lia) ltac:(split; lia) ltac:(lia)) as [H _].
  rewrite H. vm_compute. reflexivity.
Defined.

(** ** Strings *)

(** The NUL-terminated string [cs] lies at [a], every byte readable. *)
Record string_at (rt : regions) (m : gmap Z Z) (a : Z) (cs : list Z) : Prop := {
  sa_range : range_ok a (Z.of_nat (length cs) + 1);
  sa_nonnul : Forall (fun c => 0 < c < 256) cs;
  sa_chars : forall i c, cs !! i = Some c -> ldb m (a + Z.of_nat i) = c;
  sa_end : ldb m (a + Z.of_nat (length cs)) = 0;
  sa_readable : forall i, (i <= length cs)%nat -> may_read rt (u32 (a + Z.of_nat i)) 1 = true
}.

Lemma string_at_start rt m a cs : string_at rt m a cs -> may_read rt a 1 = true.
Proof.
  intros [Hr _ _ _ Hm]. specialize (Hm 0%nat ltac:(lia)). rewrite Z.add_0_r in Hm.
  unfold range_ok in Hr. by rewrite u32_id in Hm by lia.
Qed.

Lemma strlen_loop_string rt m a cs k fuel :
  string_at rt m a cs -> Z.of_nat (length cs) <= 10000 -> (k <= length cs)%nat ->
  (length cs - k < fuel)%nat ->
  strlen_loop rt fuel m a (Z.of_nat k) = Z.of_nat (length cs).
Proof.
  intros Hs Hlen. revert k. induction fuel as [|f IH]; intros k Hk Hf; [lia|].
  cbn [strlen_loop]. rewrite (sa_readable _ _ _ _ Hs) by lia. cbn [andb].
  destruct (decide (k = length cs)) as [->|Hne].
  - rewrite (sa_end _ _ _ _ Hs). done.
  - destruct (lookup_lt_is_Some_2 cs k ltac:(lia)) as [c Hc].
    rewrite (sa_chars _ _ _ _ Hs k c Hc).
    pose proof (Forall_lookup_1 _ _ _ _ (sa_nonnul _ _ _ _ Hs) Hc) as Hcr. cbn in Hcr.
    replace (c =? 0) with false by lia. cbn [negb].
    replace (Z.of_nat k + 1 >? 10000) with false by lia.
    replace (Z.of_nat k + 1) with (Z.of_nat (S k)) by lia. apply IH; lia.
Qed.

Lemma strlen_string rt m a cs :
  string_at rt m a cs -> Z.of_nat (length cs) <= 10000 -> strlen rt m a = Z.of_nat (length cs).
Proof.
  intros Hs Hlen. unfold strlen. rewrite (string_at_start _ _ _ _ Hs). cbn [negb].
  apply (strlen_loop_string rt m a cs 0); (done || lia).
Qed.

Lemma strcmp_loop_string rt cv m a b cs ds k fuel :
  string_at rt m a cs -> string_at rt m b ds -> cv 0 = 0 ->
  (forall x y, 0 <= x < 256 -> 0 <= y < 256 -> cv x = cv y -> x = y) ->
  Z.of_nat (length cs) < 10000 -> take k cs = take k ds -> (k <= length cs)%nat -> (k <= length ds)%nat ->
  (length cs - k < fuel)%nat ->
  strcmp_loop rt cv fuel m a b (Z.of_nat k) = 0 <-> cs = ds.
Proof.
  intros Ha Hb Hcv0 Hcv Hlen. revert k.
  induction fuel as [|f IH]; intros k Hk Hka Hkb Hf; [lia|]. cbn [strcmp_loop].
  rewrite (sa_readable _ _ _ _ Ha), (sa_readable _ _ _ _ Hb) by lia. cbn [andb].
  assert (Hchar : forall e es, string_at rt m e es -> (k <= length es)%nat ->
    0 <= ldb m (e + Z.of_nat k) < 256 /\
    (ldb m (e + Z.of_nat k) = 0 <-> k = length es) /\
    (k <> length es -> es !! k = Some (ldb m (e + Z.of_nat k)))).
  { intros e es He Hke. destruct (decide (k = length es)) as [->|Hne].
    - rewrite (sa_end _ _ _ _ He). split; [lia|]. by split.
    - destruct (lookup_lt_is_Some_2 es k ltac:(lia)) as [c Hc].
      rewrite (sa_chars _ _ _ _ He k c Hc), Hc.
      pose proof (Forall_lookup_1 _ _ _ _ (sa_nonnul _ _ _ _ He) Hc) as Hcr. cbn in Hcr.
      split; [lia|]. split; [lia|done]. }
  destruct (Hchar a cs Ha Hka) as (Hra & Hza & Hla), (Hchar b ds Hb Hkb) as (Hrb & Hzb & Hlb).
  clear Hchar. set (c1 := ldb m (a + Z.of_nat k)) in *. set (c2 := ldb m (b + Z.of_nat k)) in *.
  destruct (c1 =? c2) eqn:E; cbn [negb]; bools.
  - destruct (c1 =? 0) eqn:E0; bools.
    + split; [|done]. intros _. assert (k = length cs) by (by apply Hza). assert (k = length ds) by (apply Hzb; lia).
      rewrite !firstn_all2 in Hk by lia. done.
    + assert (k <> length cs) by (intros ?%Hza; lia). assert (k <> length ds) by (intros ?%Hzb; lia).
      replace (Z.of_nat k + 1 >? 10000) with false by lia.
      replace (Z.of_nat k + 1) with (Z.of_nat (S k)) by lia. apply IH; try lia.
      rewrite (take_S_r cs k c1), (take_S_r ds k c2) by auto. congruence.
  - split.
    + intros Hd. destruct E. apply Hcv; [done|done|lia].
    + intros ->. destruct E. destruct (decide (k = length ds)) as [He|Hne].
      * rewrite (proj2 Hza), (proj2 Hzb) by done. done.
      * specialize (Hla Hne). specialize (Hlb Hne). congruence.
Qed.

(** The string helpers are the C library's on terminated, readable
    strings: [strlen] counts the characters up to 10000 of them, [strcmp] is
    0 exactly on equal strings below that length, and a granted [strcpy] of
    a string that the destination does not overlap leaves that string at the
    destination. *)
Theorem string_helpers_correct (rt : regions) (cv : Z -> Z) (m : gmap Z Z) (a b d : Z) (cs ds : list Z) :
  bytes_ok m -> string_at rt m a cs -> string_at rt m b ds ->
  Z.of_nat (length cs) < 10000 -> cv 0 = 0 ->
  (forall x y, 0 <= x < 256 -> 0 <= y < 256 -> cv x = cv y -> x = y) ->
  strlen rt m a = Z.of_nat (length cs) /\
  (strcmp rt cv m a b = 0 <-> cs = ds) /\
  (let n := Z.of_nat (length cs) + 1 in
   range_ok d n -> (d + n <= a \/ a + n <= d) -> may_write rt d n = true -> may_read rt a n = true ->
   (forall i, (i <= length cs)%nat -> may_read rt (u32 (d + Z.of_nat i)) 1 = true) ->
   string_at rt (strcpy rt m d a) d cs /\ string_at rt (strcpy rt m d a) a cs).
Proof.
  intros Hm Ha Hb Hlen Hcv0 Hcv. split; [by apply strlen_string; [|lia]|]. split.
  - unfold strcmp. rewrite (string_at_start _ _ _ _ Ha), (string_at_start _ _ _ _ Hb). cbn [negb orb].
    apply (strcmp_loop_string rt cv m a b cs ds 0); try done; lia.
  - intros n Hd Ho Hw Hr Hrd. unfold strcpy. rewrite (strlen_string rt m a cs Ha) by lia. fold n.
    unfold memcpy. rewrite Hw, Hr. cbn [negb orb]. pose proof (sa_range _ _ _ _ Ha) as Hra.
    assert (HN : Z.of_nat (Z.to_nat n) = n) by lia. unfold range_ok in *.
    assert (Hc : forall x, 0 <= x < 4294967296 -> ldb (copy_up (Z.to_nat n) m d a 0) x =
       if ((d <=? x) && (x <? d + n))%bool then ldb m (a + (x - d)) else ldb m x).
    { intros x Hx. rewrite copy_up_spec by (unfold range_ok; (done || lia)). by rewrite HN, Z.add_0_r. }
    assert (Hin : forall i, (i <= length cs)%nat ->
       ldb (copy_up (Z.to_nat n) m d a 0) (d + Z.of_nat i) = ldb m (a + Z.of_nat i) /\
       ldb (copy_up (Z.to_nat n) m d a 0) (a + Z.of_nat i) = ldb m (a + Z.of_nat i)).
    { intros i Hi. rewrite !Hc by lia. split.
      - replace ((d <=? d + Z.of_nat i) && (d + Z.of_nat i <? d + n))%bool with true
          by (symmetry; apply andb_true_iff; rewrite Z.leb_le, Z.ltb_lt; lia). f_equal. lia.
      - destruct (_ && _)%bool eqn:E; [|done]. bools. lia. }
    split; split; try (apply Ha || done).
    + intros i c Hi. pose proof (lookup_lt_Some _ _ _ Hi). rewrite (proj1 (Hin i ltac:(lia))).
      by apply (sa_chars _ _ _ _ Ha).
    + rewrite (proj1 (Hin (length cs) ltac:(lia))). apply (sa_end _ _ _ _ Ha).
    + intros i c Hi. pose proof (lookup_lt_Some _ _ _ Hi). rewrite (proj2 (Hin i ltac:(lia))).
      by apply (sa_chars _ _ _ _ Ha).
    + rewrite (proj2 (Hin (length cs) ltac:(lia))). apply (sa_end _ _ _ _ Ha).
Qed.

(** ** Searching *)

(** The byte at each place of a string, its terminator included. *)
Lemma string_char rt m a cs i :
  string_at rt m a cs -> (i <= length cs)%nat ->
  (ldb m (a + Z.of_nat i) = 0 <-> i = length cs) /\
  (i <> length cs -> cs !! i = Some (ldb m (a + Z.of_nat i))).
Proof.
  intros Hs Hi. destruct (decide (i = length cs)) as [->|Hne].
  - by rewrite (sa_end _ _ _ _ Hs).
  - destruct (lookup_lt_is_Some_2 cs i ltac:(lia)) as [c Hc]. rewrite (sa_chars _ _ _ _ Hs i c Hc).
    pose proof (Forall_lookup_1 _ _ _ _ (sa_nonnul _ _ _ _ Hs) Hc) as Hr. cbn in Hr.
    split; [|done]. split; [lia|done].
Qed.

(** [r] is the address of the first occurrence, or NULL. *)
Definition first_match (hs ns : list Z) (h r : Z) : Prop :=
  (exists i, r = h + Z.of_nat i /\ ns `prefix_of` drop i hs /\ forall j, (j < i)%nat -> ~ ns `prefix_of` drop j hs) \/
  (r = 0 /\ forall i, ~ ns `prefix_of` drop i hs).

(** The inner loop runs to the needle's end exactly on a match. *)
Lemma match_len_string rt m h n hs ns p k i :
  string_at rt m h hs -> string_at rt m n ns -> (k + i = length ns)%nat -> (p + i <= length hs)%nat ->
  take i (drop p hs) = take i ns ->
  match_len k m (h + Z.of_nat p) n (Z.of_nat i) = Z.of_nat (length ns) <-> ns `prefix_of` drop p hs.
Proof.
  intros Hh Hn. revert i. induction k as [|k IH]; intros i Hk Hp Ht; cbn [match_len].
  - replace i with (length ns) in * by lia. rewrite (firstn_all ns) in Ht. split; [|done].
    intros _. exists (drop (length ns) (drop p hs)). by rewrite <-Ht at 1; rewrite take_drop.
  - replace (h + Z.of_nat p + Z.of_nat i) with (h + Z.of_nat (p + i)) by lia.
    destruct (string_char rt m h hs (p + i) Hh Hp) as [Hhz Hhc].
    destruct (string_char rt m n ns i Hn ltac:(lia)) as [_ Hnc]. specialize (Hnc ltac:(lia)).
    set (c := ldb m (h + Z.of_nat (p + i))) in *. set (d := ldb m (n + Z.of_nat i)) in *.
    destruct (c =? 0) eqn:E0; bools; cbn [orb].
    { split; [lia|]. intros Hx%prefix_length. rewrite length_drop in Hx. apply Hhz in E0. lia. }
    assert (Hne : (p + i <> length hs)%nat) by (intros Hx%Hhz; done). specialize (Hhc Hne).
    destruct (c =? d) eqn:Ec; bools; cbn [negb].
    + replace (Z.of_nat i + 1) with (Z.of_nat (S i)) by lia. apply IH; [lia|lia|].
      rewrite (take_S_r (drop p hs) i c), (take_S_r ns i c); [by rewrite Ht|congruence|by rewrite lookup_drop].
    + split; [lia|]. intros Hx. apply (prefix_lookup_Some _ _ _ _ Hnc) in Hx.
      rewrite lookup_drop, Hhc in Hx. congruence.
Qed.

Lemma strstr_loop_string rt m h n hs ns p fuel :
  string_at rt m h hs -> string_at rt m n ns -> ns <> [] ->
  (p <= length hs)%nat -> (length hs - p < fuel)%nat -> (forall j, (j < p)%nat -> ~ ns `prefix_of` drop j hs) ->
  exists r, strstr_loop rt fuel m (h + Z.of_nat p) n (Z.of_nat (length ns)) = Some r /\
    first_match hs ns h r.
Proof.
  intros Hh Hn Hne. revert p. induction fuel as [|f IH]; intros p Hp Hf Hno; [lia|]. cbn [strstr_loop].
  destruct (string_char rt m h hs p Hh Hp) as [Hz Hc].
  destruct (ldb m (h + Z.of_nat p) =? 0) eqn:E0; bools.
  { exists 0. split; [done|]. right. split; [done|]. intros j Hj.
    destruct (decide (j < p)%nat) as [|Hjp]; [by eapply Hno|]. apply Hz in E0.
    apply prefix_length in Hj. rewrite length_drop in Hj. destruct ns; [done|cbn in Hj; lia]. }
  assert (Hpl : p <> length hs) by (intros Hx%Hz; done). specialize (Hc Hpl).
  pose proof (match_len_string rt m h n hs ns p (length ns) 0 Hh Hn ltac:(lia) ltac:(lia) eq_refl) as Hm.
  rewrite Nat2Z.id. change (Z.of_nat 0) with 0 in Hm.
  destruct ((ldb m (h + Z.of_nat p) =? ldb m n) && _)%bool eqn:Em.
  - apply andb_true_iff in Em as [_ Em%Z.eqb_eq]. apply Hm in Em. eexists. split; [done|]. left. by exists p.
  - assert (Hnp : ~ ns `prefix_of` drop p hs).
    { intros Hx. apply andb_false_iff in Em as [Em|Em]; apply Z.eqb_neq in Em; [|by apply Em, Hm].
      destruct (string_char rt m n ns 0 Hn ltac:(lia)) as [_ Hn0]. rewrite Z.add_0_r in Hn0.
      specialize (Hn0 ltac:(destruct ns; [done|cbn; lia])).
      apply (prefix_lookup_Some _ _ _ _ Hn0) in Hx. rewrite lookup_drop, Nat.add_0_r, Hc in Hx. congruence. }
    pose proof (sa_range _ _ _ _ Hh) as Hr. unfold range_ok in Hr.
    pose proof (sa_readable _ _ _ _ Hh (S p) ltac:(lia)) as Hrd.
    replace (h + Z.of_nat p + 1) with (h + Z.of_nat (S p)) by lia. rewrite Hrd. cbn [negb].
    rewrite u32_id by lia. apply IH; [lia|lia|]. intros j Hj. destruct (decide (j = p)) as [->|]; [done|apply Hno; lia].
Qed.

(** The search terminates and finds the first occurrence.  On
    terminated, readable strings, the needle of at most 10000 characters,
    [strstr] returns within one round per character of the haystack and one
    for its end; the result is the address of the first place where the
    needle occurs (the haystack itself for an empty needle), or NULL when it
    occurs nowhere. *)
Theorem strstr_terminates (rt : regions) (m : gmap Z Z) (h n : Z) (hs ns : list Z) (fuel : nat) :
  string_at rt m h hs -> string_at rt m n ns -> Z.of_nat (length ns) <= 10000 -> (length hs < fuel)%nat ->
  exists r, strstr rt fuel m h n = Some r /\
    ((exists i, r = h + Z.of_nat i /\ ns `prefix_of` drop i hs /\ forall j, (j < i)%nat -> ~ ns `prefix_of` drop j hs) \/
     (r = 0 /\ forall i, ~ ns `prefix_of` drop i hs)).
Proof.
  intros Hh Hn Hl Hf. unfold strstr. rewrite (string_at_start _ _ _ _ Hh), (string_at_start _ _ _ _ Hn).
  cbn [negb orb]. rewrite (strlen_string rt m n ns Hn Hl). destruct (decide (ns = [])) as [->|Hne].
  - eexists. split; [done|]. left. exists 0%nat. split; [lia|]. split; [apply prefix_nil|lia].
  - assert (length ns <> 0%nat) by (by destruct ns). replace (Z.of_nat (length ns) =? 0) with false by lia.
    destruct (strstr_loop_string rt m h n hs ns 0 fuel Hh Hn Hne) as (r & Hr & Hfm); [lia|lia|lia|].
    rewrite Z.add_0_r in Hr. by exists r.
Qed.

(** A decidable form of [string_at], for concrete memories. *)
Definition string_atb (rt : regions) (m : gmap Z Z) (a : Z) (cs : list Z) : bool :=
  ((0 <=? a) && (a + Z.of_nat (length cs) + 1 <=? 4294967296) &&
   forallb (fun c => (0 <? c) && (c <? 256)) cs &&
   forallb (fun i => ldb m (a + Z.of_nat i) =? (cs !!! i)) (seq 0 (length cs)) &&
   (ldb m (a + Z.of_nat (length cs)) =? 0) &&
   forallb (fun i => may_read rt (u32 (a + Z.of_nat i)) 1) (seq 0 (S (length cs))))%bool.

Lemma string_atb_sound rt m a cs : string_atb rt m a cs = true -> string_at rt m a cs.
Proof.
  unfold string_atb. intros H. bools.
  repeat match goal with Hf : forallb _ _ = true |- _ => rewrite forallb_forall in Hf end.
  split.
  - unfold range_ok. lia.
  - apply Forall_forall. intros c Hc. apply list_elem_of_In in Hc.
    match goal with Hf : forall x, In x cs -> _ |- _ => specialize (Hf c Hc) end. bools. lia.
  - intros i c Hc. pose proof (lookup_lt_Some _ _ _ Hc) as Hi.
    match goal with Hf : forall x, In x (seq 0 (length cs)) -> _ |- _ =>
      specialize (Hf i ltac:(apply in_seq; lia)) end. bools. rewrite (lookup_total_Some cs i c Hc) in *. done.
  - done.
  - intros i Hi. match goal with Hf : forall x, In x (seq 0 (S _)) -> _ |- _ =>
      apply (Hf i ltac:(apply in_seq; lia)) end.
Qed.

Example string_helpers_correct_witness :
  strlen [] demo_bytes 2097152 = 3 /\
  (strcmp [] (fun c => c) demo_bytes 2097152 2097153 = 0 <-> [65; 66; 67] = [66; 67]).
Proof.
  destruct (string_helpers_correct [] (fun c => c) demo_bytes 2097152 2097153 3145728
              [65; 66; 67] [66; 67]) as (Hl & Hc & _).
  - exact stb_all_ok.
  - apply string_atb_sound. vm_compute. reflexivity.
  - apply string_atb_sound. vm_compute. reflexivity.
  - vm_compute. reflexivity.
  - reflexivity.
  - intros x y _ _ H. exact H.
  - split; [exact Hl|exact Hc].
Defined.

Example strstr_terminates_witness :
  exists r, strstr [] 4 demo_bytes 2097152 2097153 = Some r /\
    ((exists i, r = 2097152 + Z.of_nat i /\ [66; 67] `prefix_of` drop i [65; 66; 67] /\
        forall j, (j < i)%nat -> ~ [66; 67] `prefix_of` drop j [65; 66; 67]) \/
     (r = 0 /\ forall i, ~ [66; 67] `prefix_of` drop i [65; 66; 67])).
Proof.
  apply (strstr_terminates [] demo_bytes 2097152 2097153 [65; 66; 67] [66; 67] 4).
  - apply string_atb_sound. vm_compute. reflexivity.
  - apply string_atb_sound. vm_compute. reflexivity.
  - vm_compute. discriminate.
  - cbn. lia.
Defined.

(** ** Bump allocation *)

Lemma land_align k z :
  0 < k < 32 -> 0 <= z -> u32 z = z -> Z.land z (u32 (Z.lnot (2 ^ k - 1))) = z - z mod 2 ^ k.
Proof.
  intros Hk Hz Hu. rewrite <-(Z.sub_0_r (z - z mod 2 ^ k)) at 1.
  assert (Hm : u32 (Z.lnot (2 ^ k - 1)) = Z.ldiff (Z.ones 32) (Z.ones k)).
  { unfold u32. change 4294967296 with (2 ^ 32). rewrite <-Z.land_ones by lia.
    rewrite Z.land_comm, Z.ldiff_land, (Z.ones_equiv k). by rewrite <-Z.sub_1_r. }
  rewrite Hm. rewrite Z.ldiff_land, Z.land_assoc, Z.land_ones by lia.
  change (2 ^ 32) with 4294967296. fold (u32 z). rewrite Hu, <-Z.ldiff_land, Z.ldiff_ones_r by lia.
  rewrite Z.shiftl_mul_pow2, Z.shiftr_div_pow2 by lia.
  pose proof (Z.div_mod z (2 ^ k)). lia.
Qed.

Section Bump.
Context (kb : Z).
Hypothesis kb_range : 0 < kb < 4294967296 - 2 * KMALLOC_SIZE.

Definition kheap_ok (h : kheap) : Prop := kb <= km_end h <= kb + KMALLOC_SIZE.

(** A successful call takes the next header and payload above everything
    handed out before. *)
Lemma kmalloc_block h size p h' :
  kheap_ok h -> kmalloc kb h size = Some (p, h') -> p <> 0 ->
  km_end h <= p - HEADER_SIZE /\ p + size <= km_end h' /\ kheap_ok h' /\ p mod 4 = 0 /\ 0 < size.
Proof.
  unfold kheap_ok, kmalloc, HEADER_SIZE, KMALLOC_SIZE in *. intros Hh.
  destruct (negb _) eqn:E; [done|]. bools.
  assert (Ha : align_size (u32 (size + 12)) = (size + 19) - (size + 19) mod 8).
  { unfold align_size. rewrite (u32_id (size + 12)), (u32_id (_ + 7)) by lia.
    change 7 with (2 ^ 3 - 1) at 2. rewrite land_align by (rewrite ?u32_id; lia).
    change (2 ^ 3) with 8. f_equal; [lia|f_equal; lia]. }
  assert (He : Z.land (u32 (km_end h + 4 - 1)) (u32 (Z.lnot 3)) = (km_end h + 3) - (km_end h + 3) mod 4).
  { rewrite (u32_id (_ - 1)) by lia. change 3 with (2 ^ 2 - 1) at 1.
    rewrite land_align by (rewrite ?u32_id; lia). change (2 ^ 2) with 4.
    f_equal; [lia|f_equal; lia]. }
  rewrite Ha, He. cbv zeta. destruct (_ >? _) eqn:Ef; bools; [by intros [= <- <-]|].
  intros [= <- <-] Hp. cbn [km_end]. lia.
Qed.

(** A run of requests; the blocks granted, as payload address and size. *)
Fixpoint kmalloc_run (sizes : list Z) (h : kheap) : option (list (Z * Z) * kheap) :=
  match sizes with
  | [] => Some ([], h)
  | n :: sizes =>
      '(p, h1) ← kmalloc kb h n;
      '(bs, h2) ← kmalloc_run sizes h1;
      Some (if p =? 0 then bs else (p, n) :: bs, h2)
  end.

Lemma kmalloc_run_blocks sizes h bs h' :
  kheap_ok h -> kmalloc_run sizes h = Some (bs, h') ->
  kheap_ok h' /\ km_end h <= km_end h' /\
  Forall (fun '(p, n) => km_end h + HEADER_SIZE <= p /\ p + n <= km_end h' /\ p mod 4 = 0) bs /\
  (forall i j p n q k, bs !! i = Some (p, n) -> bs !! j = Some (q, k) -> (i < j)%nat ->
     p + n <= q - HEADER_SIZE).
Proof.
  revert h bs. induction sizes as [|n sizes IH]; intros h bs Hh; cbn [kmalloc_run].
  - intros [= <- <-]. split_and!; try done; lia.
  - destruct (kmalloc kb h n) as [[p h1]|] eqn:Ek; [|done]. cbn.
    destruct (kmalloc_run sizes h1) as [[bs1 h2]|] eqn:Er; [|done]. cbn. intros [= <- <-].
    destruct (p =? 0) eqn:Ep; bools.
    + assert (h1 = h) as ->.
      { revert Ek. unfold kmalloc. destruct (negb _); [done|]. cbv zeta.
        destruct (_ >? _) eqn:Ef; [by intros [= _ <-]|]. bools. intros [= Hp _].
        pose proof (Z.land_nonneg (u32 (km_end h + 4 - 1)) (u32 (Z.lnot 3))) as [_ Hl].
        pose proof (u32_range (km_end h + 4 - 1)). unfold HEADER_SIZE in Hp. lia. }
      by apply IH.
    + destruct (kmalloc_block h n p h1 Hh Ek Ep) as (Hb1 & Hb2 & Hok & Hal & Hn).
      destruct (IH h1 bs1 Hok Er) as (Hok2 & Hle & Hall & Hpair).
      split; [done|]. unfold HEADER_SIZE in *. split; [lia|]. split.
      * constructor; [lia|]. eapply Forall_impl; [exact Hall|]. intros [q k] Hq. cbn in Hq |- *. lia.
      * intros i j p' n' q k Hi Hj Hij. destruct j as [|j]; [lia|]. cbn in Hj.
        destruct i as [|i]; cbn in Hi.
        -- injection Hi as <- <-. apply (Forall_lookup_1 _ _ _ _ Hall) in Hj. cbn in Hj. lia.
        -- apply (Hpair i j p' n' q k Hi Hj). lia.
Qed.
End Bump.

(** [kmalloc] never hands out overlapping memory.  In any run of
    requests from an initialised heap every granted block lies, header
    included, inside the 64 KB buffer, is word-aligned, and starts above the
    end of every block granted before it. *)
Theorem kmalloc_blocks_disjoint (kb : Z) (m : gmap Z Z) (sizes : list Z) bs h' :
  0 < kb < 4294967296 - 2 * KMALLOC_SIZE ->
  kmalloc_run kb sizes (kmalloc_init kb (KHeap m kb)) = Some (bs, h') ->
  Forall (fun '(p, n) => kb <= p - HEADER_SIZE /\ p + n <= kb + KMALLOC_SIZE /\ p mod 4 = 0) bs /\
  (forall i j p n q k, bs !! i = Some (p, n) -> bs !! j = Some (q, k) -> (i < j)%nat ->
     p + n <= q - HEADER_SIZE).
Proof.
  intros Hkb Hr. assert (Hok : kheap_ok kb (kmalloc_init kb (KHeap m kb))).
  { unfold kheap_ok, KMALLOC_SIZE. cbn [kmalloc_init km_end]. lia. }
  destruct (kmalloc_run_blocks kb Hkb sizes _ bs h' Hok Hr) as ([_ Hle] & _ & Hall & Hp).
  split; [|exact Hp]. eapply Forall_impl; [exact Hall|]. intros [p n] Hq.
  cbn in Hq, Hle |- *. unfold HEADER_SIZE in *. lia.
Qed.

(** Four requests; the third is too big for what is left. *)
Definition demo_sizes : list Z := [100; 3; 65500; 20].
Definition demo_run : option (list (Z * Z) * kheap) :=
  kmalloc_run 131072 demo_sizes (kmalloc_init 131072 (KHeap ∅ 131072)).

Example kmalloc_blocks_disjoint_witness :
  (fst <$> demo_run) = Some [(131084, 100); (131196, 3); (131212, 20)] /\
  131084 + 100 <= 131196 - HEADER_SIZE.
Proof.
  assert (Hr : (fst <$> demo_run) = Some [(131084, 100); (131196, 3); (131212, 20)])
    by (vm_compute; reflexivity).
  split; [exact Hr|]. destruct demo_run as [[bs h']|] eqn:E; [|discriminate Hr].
  injection Hr as ->.
  apply (kmalloc_blocks_disjoint 131072 ∅ demo_sizes _ h' ltac:(vm_compute; split; congruence) E)
    with (i := 0%nat) (j := 1%nat) (k := 3); [reflexivity|reflexivity|lia].
Defined.
