(* ===== verification/BlockAlloc.v ===== *)
(** * The block allocator: kernel/mm/memory.c

    Four size classes of 32 blocks each, carved once from the heap window.
    The abstract allocator is the set of live addresses; the theorems show
    that the blocks of that set never overlap and that [alloc_memory] and
    [free_memory] add and remove exactly one of them. *)
From S2P Require Import Prelude Security MemUtils.

Definition MEM_BLOCK_SIZES : nat := 4.
Definition MEM_BLOCKS_PER_SIZE : nat := 32.
Definition MEM_MAX_ALLOC_SIZE : Z := 4096.
Definition block_sizes : list Z := [64; 256; 1024; 4096].

(** [mem_block_t]. *)
Record mem_block_t := Block { b_address : Z; b_in_use : bool; b_size : Z }.
#[export] Instance block_inhabited : Inhabited mem_block_t := populate (Block 0 false 0).

Record allocator := Alloc {
  al_blocks : list (list mem_block_t);
  al_heap_ptr : Z;
  al_remaining : Z
}.
Definition alloc_bss : allocator :=
  Alloc (replicate MEM_BLOCK_SIZES (replicate MEM_BLOCKS_PER_SIZE (Block 0 false 0)))
    MM_HEAP_START (MM_HEAP_END - MM_HEAP_START).

Definition set_block (c i : nat) (b : mem_block_t) (l : list (list mem_block_t)) :=
  <[c := <[i := b]> (l !!! c)]> l.

(** One row of [memory_init]; [false] when the heap ran out, which ends the
    function. *)
Fixpoint init_row (k c i : nat) (a : allocator) : bool * allocator :=
  match k with
  | O => (true, a)
  | S k =>
      let block_size := block_sizes !!! c in
      if al_remaining a <? block_size then (false, a)
      else init_row k c (S i)
             (Alloc (set_block c i (Block (al_heap_ptr a) false block_size) (al_blocks a))
                (al_heap_ptr a + block_size) (al_remaining a - block_size))
  end.
Fixpoint init_rows (k c : nat) (a : allocator) : allocator :=
  match k with
  | O => a
  | S k => let '(ok, a) := init_row MEM_BLOCKS_PER_SIZE c 0 a in
           if ok then init_rows k (S c) a else a
  end.
Definition memory_init (a : allocator) : allocator := init_rows MEM_BLOCK_SIZES 0 a.

Definition find_size_class (size : Z) : option nat := findi (fun s => size <=? s) block_sizes.

Section Allocator.
Context (rt : regions).

(** The pointer returned, 0 for NULL. *)
Definition alloc_memory (a : allocator) (m : gmap Z Z) (size : Z) : Z * allocator * gmap Z Z :=
  if size =? 0 then (0, a, m)
  else if size >? MEM_MAX_ALLOC_SIZE then (0, a, m)
  else match find_size_class size with
       | None => (0, a, m)
       | Some c =>
           match findi (fun b => negb (b_in_use b)) (al_blocks a !!! c) with
           | None => (0, a, m)
           | Some i =>
               let b := (al_blocks a !!! c) !!! i in
               (b_address b,
                Alloc (set_block c i (Block (b_address b) true (b_size b)) (al_blocks a))
                  (al_heap_ptr a) (al_remaining a),
                memset rt m (b_address b) 0 (b_size b))
           end
       end.

(** The nested search of [free_memory]. *)
Fixpoint find_block (ptr : Z) (c : nat) (l : list (list mem_block_t)) : option (nat * nat) :=
  match l with
  | [] => None
  | row :: l =>
      match findi (fun b => ((b_address b =? ptr) && b_in_use b)%bool) row with
      | Some i => Some (c, i)
      | None => find_block ptr (S c) l
      end
  end.

Definition free_memory (a : allocator) (m : gmap Z Z) (ptr : Z) : allocator * gmap Z Z :=
  if ptr =? 0 then (a, m)
  else if ((ptr <? MM_HEAP_START) || (ptr >=? MM_HEAP_END))%bool then (a, m)
  else match find_block ptr 0 (al_blocks a) with
       | None => (a, m)
       | Some (c, i) =>
           let b := (al_blocks a !!! c) !!! i in
           (Alloc (set_block c i (Block (b_address b) false (b_size b)) (al_blocks a))
              (al_heap_ptr a) (al_remaining a),
            memset rt m ptr 0 (b_size b))
       end.
End Allocator.

(** ** The shape the initialisation fixes *)

Definition class_base (c : nat) : Z :=
  MM_HEAP_START + [0; 2048; 10240; 43008] !!! c.
Definition block_addr (c i : nat) : Z := class_base c + Z.of_nat i * (block_sizes !!! c).

(** Block [i] of class [c], with its fixed address and size. *)
Record shaped (l : list (list mem_block_t)) : Prop := {
  sh_classes : length l = 4%nat;
  sh_row : forall c, (c < 4)%nat -> length (l !!! c) = 32%nat;
  sh_block : forall c i, (c < 4)%nat -> (i < 32)%nat ->
    b_address ((l !!! c) !!! i) = block_addr c i /\ b_size ((l !!! c) !!! i) = block_sizes !!! c
}.

(** A bounded check for statements about all class and block indices. *)
Definition all_blocks (p : nat -> nat -> bool) : bool :=
  forallb (fun c => forallb (p c) (seq 0 32)) (seq 0 4).
Lemma all_blocks_spec p c i : all_blocks p = true -> (c < 4)%nat -> (i < 32)%nat -> p c i = true.
Proof.
  unfold all_blocks. intros H Hc Hi. rewrite forallb_forall in H.
  specialize (H c ltac:(apply in_seq; lia)). rewrite forallb_forall in H. apply H, in_seq. lia.
Qed.

Lemma memory_init_shaped :
  shaped (al_blocks (memory_init alloc_bss)) /\
  (forall c i, (c < 4)%nat -> (i < 32)%nat ->
     b_in_use ((al_blocks (memory_init alloc_bss) !!! c) !!! i) = false).
Proof.
  set (l := al_blocks (memory_init alloc_bss)).
  assert (Hl : length l = 4%nat) by (vm_compute; reflexivity).
  assert (Hr : forallb (fun c => (length (l !!! c) =? 32)%nat) (seq 0 4) = true)
    by (vm_compute; reflexivity).
  assert (Hb : all_blocks (fun c i => (b_address ((l !!! c) !!! i) =? block_addr c i) &&
      (b_size ((l !!! c) !!! i) =? block_sizes !!! c) && negb (b_in_use ((l !!! c) !!! i)))%bool = true)
    by (vm_compute; reflexivity).
  clearbody l. split; [split; [done|..]|].
  - intros c Hc. rewrite forallb_forall in Hr. apply Nat.eqb_eq, Hr, in_seq. lia.
  - intros c i Hc Hi. pose proof (all_blocks_spec _ c i Hb Hc Hi) as H. cbv beta in H. bools. done.
  - intros c i Hc Hi. pose proof (all_blocks_spec _ c i Hb Hc Hi) as H. cbv beta in H. by bools.
Qed.

(** Blocks lie in the heap window and do not overlap. *)
Lemma class_cases c : (c < 4)%nat -> c = 0%nat \/ c = 1%nat \/ c = 2%nat \/ c = 3%nat.
Proof. lia. Qed.

Lemma block_in_heap c i :
  (c < 4)%nat -> (i < 32)%nat ->
  MM_HEAP_START <= block_addr c i /\ block_addr c i + block_sizes !!! c <= MM_HEAP_END.
Proof.
  intros Hc Hi. unfold block_addr, class_base, MM_HEAP_START, MM_HEAP_END.
  destruct (class_cases c Hc) as [->|[->|[->| ->]]]; cbn; lia.
Qed.

Lemma blocks_disjoint c i d j :
  (c < 4)%nat -> (i < 32)%nat -> (d < 4)%nat -> (j < 32)%nat -> (c, i) <> (d, j) ->
  block_addr c i + block_sizes !!! c <= block_addr d j \/
  block_addr d j + block_sizes !!! d <= block_addr c i.
Proof.
  intros Hc Hi Hd Hj Hne. unfold block_addr, class_base.
  destruct (class_cases c Hc) as [->|[->|[->| ->]]], (class_cases d Hd) as [->|[->|[->| ->]]];
    cbn; try lia; assert (i <> j) by congruence; lia.
Qed.

Lemma block_size_pos c : (c < 4)%nat -> 0 < block_sizes !!! c.
Proof. intros Hc. destruct (class_cases c Hc) as [->|[->|[->| ->]]]; done. Qed.

Lemma block_addr_inj c i d j :
  (c < 4)%nat -> (i < 32)%nat -> (d < 4)%nat -> (j < 32)%nat ->
  block_addr c i = block_addr d j -> (c, i) = (d, j).
Proof.
  intros Hc Hi Hd Hj He. destruct (decide ((c, i) = (d, j))) as [|Hne]; [done|].
  pose proof (block_size_pos c Hc). pose proof (block_size_pos d Hd).
  destruct (blocks_disjoint c i d j Hc Hi Hd Hj Hne); lia.
Qed.

(** ** Flags *)

Definition used (l : list (list mem_block_t)) (c i : nat) : bool := b_in_use ((l !!! c) !!! i).

Lemma set_block_lookup l c i b d j :
  shaped l -> (c < 4)%nat -> (i < 32)%nat -> (d < 4)%nat -> (j < 32)%nat ->
  (set_block c i b l !!! d) !!! j = if decide ((c, i) = (d, j)) then b else (l !!! d) !!! j.
Proof.
  intros [Hl Hr _] Hc Hi Hd Hj. unfold set_block.
  rewrite list_lookup_total_insert, Hl. case_decide as H1.
  - destruct H1 as [-> _]. rewrite list_lookup_total_insert, Hr by done. case_decide as H2.
    + destruct H2 as [-> _]. by rewrite decide_True.
    + rewrite decide_False; [done|]. intros [= ->]. apply H2. lia.
  - rewrite decide_False; [done|]. intros [= -> ->]. apply H1. lia.
Qed.

Lemma set_block_shaped l c i u :
  shaped l -> (c < 4)%nat -> (i < 32)%nat ->
  shaped (set_block c i (Block (b_address ((l !!! c) !!! i)) u (b_size ((l !!! c) !!! i))) l).
Proof.
  intros Hs Hc Hi. pose proof Hs as [Hl Hr Hb]. split.
  - unfold set_block. by rewrite length_insert.
  - intros d Hd. unfold set_block. rewrite list_lookup_total_insert. case_decide as H1.
    + rewrite length_insert. apply Hr. lia.
    + by apply Hr.
  - intros d j Hd Hj. rewrite set_block_lookup by done. case_decide as H1; [|by apply Hb].
    injection H1 as <- <-. by apply Hb.
Qed.

(** The set of addresses handed out and not yet returned. *)
Definition live_addrs (a : allocator) : gset Z :=
  list_to_set (concat ((fun c => (fun i => block_addr c i) <$>
     filter (fun i => used (al_blocks a) c i = true) (seq 0 32)) <$> seq 0 4)).

Lemma elem_of_live a p :
  p ∈ live_addrs a <->
  exists c i, (c < 4)%nat /\ (i < 32)%nat /\ p = block_addr c i /\ used (al_blocks a) c i = true.
Proof.
  unfold live_addrs. rewrite elem_of_list_to_set, list_elem_of_In, in_concat. split.
  - intros (row & Hrow & Hp). apply list_elem_of_In in Hrow. apply list_elem_of_In in Hp.
    apply list_elem_of_fmap in Hrow as (c & -> & Hc). apply elem_of_seq in Hc.
    apply list_elem_of_fmap in Hp as (i & -> & Hi). apply list_elem_of_filter in Hi as [Hu Hi].
    apply elem_of_seq in Hi. exists c, i. split_and!; (done || lia).
  - intros (c & i & Hc & Hi & -> & Hu).
    eexists. split.
    + apply list_elem_of_In, list_elem_of_fmap. exists c. split; [done|]. apply elem_of_seq. lia.
    + apply list_elem_of_In, list_elem_of_fmap. exists i. split; [done|].
      apply list_elem_of_filter. split; [done|]. apply elem_of_seq. lia.
Qed.

Lemma live_set_block a c i u :
  shaped (al_blocks a) -> (c < 4)%nat -> (i < 32)%nat ->
  let b := (al_blocks a !!! c) !!! i in
  let a' := Alloc (set_block c i (Block (b_address b) u (b_size b)) (al_blocks a))
              (al_heap_ptr a) (al_remaining a) in
  live_addrs a' = if u then {[block_addr c i]} ∪ live_addrs a else live_addrs a ∖ {[block_addr c i]}.
Proof.
  intros Hs Hc Hi. cbv zeta. apply set_eq. intros p.
  assert (Hused : forall d j, (d < 4)%nat -> (j < 32)%nat ->
    used (set_block c i (Block (b_address ((al_blocks a !!! c) !!! i)) u
            (b_size ((al_blocks a !!! c) !!! i))) (al_blocks a)) d j =
    if decide ((c, i) = (d, j)) then u else used (al_blocks a) d j).
  { intros d j Hd Hj. unfold used. rewrite set_block_lookup by done. by case_decide. }
  rewrite elem_of_live. cbn [al_blocks]. split.
  - intros (d & j & Hd & Hj & -> & Hu). rewrite Hused in Hu by done. case_decide as Hcd.
    + injection Hcd as <- <-. subst u. apply elem_of_union_l. by apply elem_of_singleton.
    + assert (Hin : block_addr d j ∈ live_addrs a) by (apply elem_of_live; by exists d, j).
      destruct u; [by apply elem_of_union_r|]. apply elem_of_difference. split; [done|].
      rewrite elem_of_singleton. intros He. apply block_addr_inj in He; try done.
  - intros Hp.
    assert (Hcase : (u = true /\ p = block_addr c i) \/
                    (p ∈ live_addrs a /\ (u = false -> p <> block_addr c i))).
    { destruct u.
      - apply elem_of_union in Hp as [Hp|Hp]; [left; split; [done|]|by right].
        by apply elem_of_singleton in Hp.
      - apply elem_of_difference in Hp as [Hp Hne]. right. split; [done|]. intros _ ->.
        by apply Hne, elem_of_singleton. }
    destruct Hcase as [[-> ->]|[(d & j & Hd & Hj & -> & Hu)%elem_of_live Hne]].
    + exists c, i. rewrite Hused, decide_True by done. done.
    + exists d, j. split_and!; try done. rewrite Hused by done. case_decide as Hcd; [|done].
      injection Hcd as <- <-. destruct u; [done|]. by destruct (Hne eq_refl).
Qed.

(** ** The operations *)

(** [c] is the smallest of the four classes that holds [size] bytes. *)
Definition least_class (size : Z) (c : nat) : Prop :=
  (c < 4)%nat /\ size <= block_sizes !!! c /\ forall d, (d < c)%nat -> block_sizes !!! d < size.

Lemma find_size_class_spec size :
  match find_size_class size with
  | Some c => least_class size c
  | None => 4096 < size
  end.
Proof.
  unfold find_size_class, least_class, block_sizes. cbn.
  destruct (size <=? 64) eqn:E1; bools; cbn; [split_and!; (lia || done)|].
  destruct (size <=? 256) eqn:E2; bools; cbn.
  { split_and!; try (lia || done). intros d Hd. assert (d = 0%nat) as -> by lia. done. }
  destruct (size <=? 1024) eqn:E3; bools; cbn.
  { split_and!; try (lia || done). intros [|[|d]] Hd; cbn; lia. }
  destruct (size <=? 4096) eqn:E4; bools; cbn; [|lia].
  split_and!; try (lia || done). intros [|[|[|d]]] Hd; cbn; lia.
Qed.

Lemma find_free_spec l c :
  shaped l -> (c < 4)%nat ->
  match findi (fun b => negb (b_in_use b)) (l !!! c) with
  | Some i => (i < 32)%nat /\ used l c i = false
  | None => forall i, (i < 32)%nat -> used l c i = true
  end.
Proof.
  intros [_ Hr _] Hc. specialize (Hr c Hc). destruct (findi _ _) as [i|] eqn:E.
  - pose proof (findi_lt _ _ _ E). apply findi_Some in E as [(x & Hx & Hu) _]. split; [lia|].
    unfold used. rewrite (lookup_total_Some _ _ x Hx). by destruct (b_in_use x).
  - apply findi_None in E. intros i Hi. destruct (lookup_lt_is_Some_2 (l !!! c) i ltac:(lia)) as [x Hx].
    unfold used. rewrite (lookup_total_Some _ _ x Hx).
    apply (Forall_lookup_1 _ _ _ _ E) in Hx. cbv beta in Hx. by destruct (b_in_use x).
Qed.

Lemma find_block_spec l ptr c0 c i :
  find_block ptr c0 l = Some (c, i) ->
  (c0 <= c < c0 + length l)%nat /\ (i < length (l !!! (c - c0)%nat))%nat /\
  b_address ((l !!! (c - c0)%nat) !!! i) = ptr /\ b_in_use ((l !!! (c - c0)%nat) !!! i) = true.
Proof.
  revert c0. induction l as [|row l IH]; intros c0; [done|]. cbn [find_block].
  destruct (findi _ row) as [j|] eqn:E.
  - intros [= <- <-]. rewrite Nat.sub_diag. cbn. pose proof (findi_lt _ _ _ E).
    apply findi_Some in E as [(x & Hx & Hp) _]. rewrite (lookup_total_Some _ _ x Hx). bools.
    split_and!; (done || lia).
  - intros Hf. destruct (IH (S c0) Hf) as (Hc & Hi & Ha & Hu).
    replace (c - c0)%nat with (S (c - S c0)) by lia. cbn. split_and!; (done || lia).
Qed.

Lemma find_block_none l ptr c0 :
  find_block ptr c0 l = None ->
  forall c i, (c < length l)%nat -> (i < length (l !!! c))%nat ->
    b_address ((l !!! c) !!! i) = ptr -> b_in_use ((l !!! c) !!! i) = false.
Proof.
  revert c0. induction l as [|row l IH]; intros c0; [cbn; lia|]. cbn [find_block length].
  destruct (findi _ row) as [j|] eqn:E; [done|]. intros Hf [|c] i Hc Hi Ha; cbn in *.
  - apply findi_None in E. destruct (lookup_lt_is_Some_2 row i Hi) as [x Hx].
    rewrite (lookup_total_Some _ _ x Hx) in *. apply (Forall_lookup_1 _ _ _ _ E) in Hx. cbv beta in Hx.
    apply andb_false_iff in Hx as [Hx|Hx]; bools; done.
  - apply (IH (S c0) Hf c i); (done || lia).
Qed.

(** One client call: a request, or the return of a pointer. *)
Inductive heap_op := OpAlloc (size : Z) | OpFree (ptr : Z).
Definition heap_exec (rt : regions) (s : allocator * gmap Z Z) (o : heap_op)
    : option Z * (allocator * gmap Z Z) :=
  match o with
  | OpAlloc n => let '(p, a, m) := alloc_memory rt s.1 s.2 n in (Some p, (a, m))
  | OpFree p => (None, free_memory rt s.1 s.2 p)
  end.
Definition heap_run (rt : regions) (ops : list heap_op) : allocator * gmap Z Z -> allocator * gmap Z Z :=
  fun s => foldl (fun s o => (heap_exec rt s o).2) s ops.

(** What one call does to the set of live blocks. *)
Definition heap_spec (live : gset Z) (o : heap_op) (ans : option Z) (live' : gset Z) : Prop :=
  match o, ans with
  | OpAlloc n, Some p =>
      (p = 0 /\ live' = live /\
       (n = 0 \/ 4096 < n \/
        exists c, least_class n c /\ forall i, (i < 32)%nat -> block_addr c i ∈ live)) \/
      (exists c i, least_class n c /\ (i < 32)%nat /\
         p = block_addr c i /\ 0 < n /\ (p ∉ live) /\ live' = {[p]} ∪ live)
  | OpFree p, None => live' = live ∖ {[p]}
  | _, _ => False
  end.

Lemma live_absent a p : (p ∉ live_addrs a) -> live_addrs a = live_addrs a ∖ {[p]}.
Proof.
  intros Hp. apply set_eq. intros x. rewrite elem_of_difference, elem_of_singleton. split; [|tauto].
  intros Hx. split; [done|]. by intros ->.
Qed.

Lemma alloc_spec rt a m n :
  shaped (al_blocks a) -> 0 <= n ->
  let '(p, a', m') := alloc_memory rt a m n in
  shaped (al_blocks a') /\ heap_spec (live_addrs a) (OpAlloc n) (Some p) (live_addrs a').
Proof.
  intros Hs Ho. unfold alloc_memory, MEM_MAX_ALLOC_SIZE. destruct (n =? 0) eqn:E0; bools.
  { split; [done|]. left. split_and!; [done|done|by left]. }
  destruct (n >? 4096) eqn:E1; bools.
  { split; [done|]. left. split_and!; [done|done|right; left; lia]. }
  pose proof (find_size_class_spec n) as Hc. destruct (find_size_class n) as [c|] eqn:Ec; [|lia].
  pose proof (proj1 Hc) as Hc4. pose proof (find_free_spec _ c Hs Hc4) as Hf.
  destruct (findi _ _) as [i|] eqn:Ef.
  - destruct Hf as [Hi Hu]. split; [by apply set_block_shaped|]. right.
    exists c, i. pose proof (sh_block _ Hs c i Hc4 Hi) as [Ha Hsz]. rewrite Ha.
    split_and!; try (done || lia).
    + rewrite elem_of_live. intros (d & j & Hd & Hj & He & Hu').
      apply block_addr_inj in He; try done. injection He as <- <-. congruence.
    + rewrite <-Ha. rewrite (live_set_block a c i true Hs Hc4 Hi). by rewrite Ha.
  - split; [done|]. left. split; [done|]. split; [done|]. right. right. exists c. split; [done|].
    intros i Hi. apply elem_of_live. exists c, i. auto.
Qed.

Lemma free_spec rt a m p :
  shaped (al_blocks a) ->
  shaped (al_blocks (free_memory rt a m p).1) /\ live_addrs (free_memory rt a m p).1 = live_addrs a ∖ {[p]}.
Proof.
  intros Hs. unfold free_memory. destruct (p =? 0) eqn:E0; bools.
  { split; [done|]. apply live_absent. subst p. intros (c & i & Hc & Hi & He & _)%elem_of_live.
    pose proof (block_in_heap c i Hc Hi) as [Hlo _]. unfold MM_HEAP_START in Hlo. lia. }
  destruct (_ || _)%bool eqn:E1.
  { split; [done|]. apply live_absent. intros (c & i & Hc & Hi & He & _)%elem_of_live.
    pose proof (block_in_heap c i Hc Hi) as [Hlo Hhi]. pose proof (block_size_pos c Hc).
    apply orb_true_iff in E1 as [E1|E1]; bools; lia. }
  destruct (find_block p 0 (al_blocks a)) as [[c i]|] eqn:Ef.
  - apply find_block_spec in Ef as (Hc & Hi & Ha & Hu). rewrite Nat.sub_0_r in *.
    rewrite (sh_classes _ Hs) in Hc. assert (Hc4 : (c < 4)%nat) by lia.
    rewrite (sh_row _ Hs c Hc4) in Hi.
    split; [by apply set_block_shaped|]. cbn [fst].
    rewrite (live_set_block a c i false Hs Hc4 Hi). f_equal. f_equal. rewrite <-Ha. symmetry.
    apply (sh_block _ Hs c i Hc4 Hi).
  - split; [done|]. apply live_absent. intros (c & i & Hc & Hi & He & Hu)%elem_of_live. unfold used in Hu.
    rewrite (find_block_none _ p 0 Ef c i) in Hu; [done|..].
    + by rewrite (sh_classes _ Hs).
    + by rewrite (sh_row _ Hs).
    + rewrite He. apply (sh_block _ Hs c i Hc Hi).
Qed.

Lemma heap_exec_spec rt s o :
  shaped (al_blocks s.1) -> match o with OpAlloc n => 0 <= n | _ => True end ->
  let '(ans, s') := heap_exec rt s o in
  shaped (al_blocks s'.1) /\ heap_spec (live_addrs s.1) o ans (live_addrs s'.1).
Proof.
  intros Hs Ho. destruct s as [a m], o as [n|p]; cbn [heap_exec fst snd] in *.
  - pose proof (alloc_spec rt a m n Hs Ho) as Ha. by destruct (alloc_memory rt a m n) as [[p a'] m'].
  - by apply free_spec.
Qed.

Lemma heap_run_shaped rt ops s :
  Forall (fun o => match o with OpAlloc n => 0 <= n | _ => True end) ops ->
  shaped (al_blocks s.1) -> shaped (al_blocks (heap_run rt ops s).1).
Proof.
  intros Hops. revert s. induction Hops as [|o ops Ho _ IH]; intros s Hs; [done|].
  cbn. apply IH. pose proof (heap_exec_spec rt s o Hs Ho) as H.
  destruct (heap_exec rt s o) as [ans s']. apply H.
Qed.

(** C22: the block allocator.  After [memory_init] and any calls at all, the
    blocks handed out lie inside the heap window and never overlap.  One
    more [alloc_memory] either returns a block that is not live, of the
    smallest of the classes 64, 256, 1024 and 4096 that holds the request, and
    makes it live, or returns NULL and changes nothing, and then only for a
    size of 0, above 4096, or when all 32 blocks of that class are live; [free_memory] removes exactly the block
    it is given, ignoring NULL, foreign and already free pointers. *)
Theorem heap_refines_live_set (rt : regions) (m : gmap Z Z) (ops : list heap_op) (o : heap_op) :
  Forall (fun o => match o with OpAlloc n => 0 <= n | _ => True end) (ops ++ [o]) ->
  let s := heap_run rt ops (memory_init alloc_bss, m) in
  let '(ans, s') := heap_exec rt s o in
  heap_spec (live_addrs s.1) o ans (live_addrs s'.1) /\
  (forall p q, p ∈ live_addrs s'.1 -> q ∈ live_addrs s'.1 -> p <> q ->
     exists c d i j, p = block_addr c i /\ q = block_addr d j /\
       MM_HEAP_START <= p /\ p + (block_sizes !!! c) <= MM_HEAP_END /\
       (p + (block_sizes !!! c) <= q \/ q + (block_sizes !!! d) <= p)).
Proof.
  intros Hops s. apply Forall_app in Hops as [Hops Ho]. apply Forall_inv in Ho.
  pose proof (heap_run_shaped rt ops (memory_init alloc_bss, m) Hops (proj1 memory_init_shaped)) as Hs.
  fold s in Hs. pose proof (heap_exec_spec rt s o Hs Ho) as H.
  destruct (heap_exec rt s o) as [ans s']. destruct H as [Hs' Hspec]. split; [done|].
  intros p q (c & i & Hc & Hi & -> & _)%elem_of_live (d & j & Hd & Hj & -> & _)%elem_of_live Hne.
  exists c, d, i, j. pose proof (block_in_heap c i Hc Hi) as [Hlo Hhi].
  split_and!; try done. apply blocks_disjoint; try done. congruence.
Qed.

Example heap_refines_live_set_witness :
  let s := heap_run [] [OpAlloc 24; OpAlloc 300] (memory_init alloc_bss, ∅) in
  live_addrs (heap_exec [] s (OpFree 8388608)).2.1 = live_addrs s.1 ∖ {[8388608]} /\
  heap_spec (live_addrs s.1) (OpAlloc 100) (Some 8390656) (live_addrs (heap_exec [] s (OpAlloc 100)).2.1).
Proof.
  cbv zeta. split.
  - pose proof (heap_refines_live_set [] ∅ [OpAlloc 24; OpAlloc 300] (OpFree 8388608)
      ltac:(repeat constructor; lia)) as H. cbv zeta in H. cbn [heap_exec] in H |- *.
    exact (proj1 H).
  - pose proof (heap_refines_live_set [] ∅ [OpAlloc 24; OpAlloc 300] (OpAlloc 100)
      ltac:(repeat constructor; lia)) as H. cbv zeta in H. rewrite (surjective_pairing (heap_exec _ _ _)) in H.
    apply proj1 in H. replace (heap_exec _ _ _).1 with (Some 8390656) in H by (vm_compute; reflexivity). exact H.
Defined.
