(* ===== verification/Frames.v ===== *)
(** * The page-frame allocator: kernel/mm/frames.c

    A bitmap of 32 words tracks 1024 frames of 4 KB.  [frame_used] reads
    one frame's bit; the theorems relate the operations to the set of used
    frames and to the free count. *)
From S2P Require Import Prelude Security.

Definition MM_FRAME_SIZE : Z := 4096.
Definition FRAME_POOL_BASE : Z := 2097152.
Definition FRAME_POOL_FRAMES : Z := 1024.
Definition FRAME_BITMAP_WORDS : nat := 32.

Record frames := Frames { fr_bitmap : list Z; fr_free : Z }.

Definition frame_allocator_init : frames :=
  Frames (replicate FRAME_BITMAP_WORDS 0) FRAME_POOL_FRAMES.

(** [bitmap[i / 32] & (1 << (i % 32))] and its updates. *)
Definition frame_bit (b : list Z) (i : Z) : Z :=
  Z.land (b !!! Z.to_nat (i / 32)) (bit (i mod 32)).
Definition set_frame (b : list Z) (i : Z) : list Z :=
  <[Z.to_nat (i / 32) := Z.lor (b !!! Z.to_nat (i / 32)) (bit (i mod 32))]> b.
Definition clear_frame (b : list Z) (i : Z) : list Z :=
  <[Z.to_nat (i / 32) := Z.ldiff (b !!! Z.to_nat (i / 32)) (bit (i mod 32))]> b.

(** The scan from frame [i] with [k] frames left. *)
Fixpoint alloc_scan (k : nat) (i : Z) (f : frames) : Z * frames :=
  match k with
  | O => (0, f)
  | S k =>
      if frame_bit (fr_bitmap f) i =? 0
      then (FRAME_POOL_BASE + i * MM_FRAME_SIZE,
            Frames (set_frame (fr_bitmap f) i) (u32 (fr_free f - 1)))
      else alloc_scan k (i + 1) f
  end.
Definition alloc_frame (f : frames) : Z * frames := alloc_scan (Z.to_nat FRAME_POOL_FRAMES) 0 f.

Definition free_frame (f : frames) (phys_addr : Z) : frames :=
  if phys_addr <? FRAME_POOL_BASE then f
  else if negb (Z.land phys_addr (MM_FRAME_SIZE - 1) =? 0) then f
  else
    let idx := (phys_addr - FRAME_POOL_BASE) / MM_FRAME_SIZE in
    if idx >=? FRAME_POOL_FRAMES then f
    else if frame_bit (fr_bitmap f) idx =? 0 then f
    else Frames (clear_frame (fr_bitmap f) idx) (u32 (fr_free f + 1)).

Definition frame_count_free (f : frames) : Z := fr_free f.

(** ** Bitmap facts *)

Definition frame_used (f : frames) (i : Z) : bool :=
  Z.testbit (fr_bitmap f !!! Z.to_nat (i / 32)) (i mod 32).

Lemma frame_bit_used f i : (frame_bit (fr_bitmap f) i =? 0) = negb (frame_used f i).
Proof. apply land_bit. lia. Qed.

Lemma word_split i j : 0 <= i -> 0 <= j -> Z.to_nat (i / 32) = Z.to_nat (j / 32) -> i mod 32 = j mod 32 -> i = j.
Proof. lia. Qed.

Lemma set_frame_used f i j n :
  length (fr_bitmap f) = 32%nat -> 0 <= i < 1024 -> 0 <= j < 1024 ->
  frame_used (Frames (set_frame (fr_bitmap f) i) n) j = (frame_used f j || (j =? i))%bool.
Proof.
  intros Hl Hi Hj. unfold frame_used, set_frame. cbn [fr_bitmap].
  rewrite list_lookup_total_insert, Hl. case_decide as Hw.
  - destruct Hw as [Hw _]. rewrite lor_bit_testbit, Hw by lia. f_equal.
    apply eq_iff_eq_true. rewrite !Z.eqb_eq. split; [|by intros ->]. intros ?.
    apply word_split; (done || lia).
  - replace (j =? i) with false; [by rewrite orb_false_r|]. symmetry. apply Z.eqb_neq. intros ->.
    apply Hw. split; [done|]. lia.
Qed.

Lemma clear_frame_used f i j n :
  length (fr_bitmap f) = 32%nat -> 0 <= i < 1024 -> 0 <= j < 1024 ->
  frame_used (Frames (clear_frame (fr_bitmap f) i) n) j = (frame_used f j && negb (j =? i))%bool.
Proof.
  intros Hl Hi Hj. unfold frame_used, clear_frame. cbn [fr_bitmap].
  rewrite list_lookup_total_insert, Hl. case_decide as Hw.
  - destruct Hw as [Hw _]. rewrite ldiff_bit_testbit, Hw by lia. f_equal. f_equal.
    apply eq_iff_eq_true. rewrite !Z.eqb_eq. split; [|by intros ->]. intros ?.
    apply word_split; (done || lia).
  - replace (j =? i) with false; [by rewrite andb_true_r|]. symmetry. apply Z.eqb_neq. intros ->.
    apply Hw. split; [done|]. lia.
Qed.

(** The used frames, as a set of indices. *)
Definition used_frames (f : frames) : gset Z :=
  list_to_set (filter (fun i => frame_used f i = true) (seqZ 0 1024)).

Lemma elem_of_used f i : i ∈ used_frames f <-> 0 <= i < 1024 /\ frame_used f i = true.
Proof.
  unfold used_frames. rewrite elem_of_list_to_set, list_elem_of_filter, elem_of_seqZ.
  split; intros [? ?]; split; (done || lia).
Qed.

Record frames_wf (f : frames) : Prop := {
  fw_words : length (fr_bitmap f) = 32%nat;
  fw_count : fr_free f = 1024 - Z.of_nat (size (used_frames f))
}.

Lemma used_frames_bound f : (size (used_frames f) <= 1024)%nat.
Proof.
  assert (Hsub : used_frames f ⊆ list_to_set (seqZ 0 1024)).
  { intros i [Hi _]%elem_of_used. apply elem_of_list_to_set, elem_of_seqZ. lia. }
  apply subseteq_size in Hsub. etransitivity; [exact Hsub|].
  rewrite size_list_to_set by apply NoDup_seqZ. rewrite length_seqZ. lia.
Qed.

Lemma frame_allocator_init_wf :
  frames_wf frame_allocator_init /\ used_frames frame_allocator_init = ∅.
Proof.
  assert (He : used_frames frame_allocator_init = ∅).
  { apply set_eq. intros i. rewrite elem_of_used. split; [|by intros ?%not_elem_of_empty].
    intros [Hi Hu]. exfalso. revert Hu. unfold frame_used, frame_allocator_init. cbn [fr_bitmap].
    rewrite lookup_total_replicate_2 by (unfold FRAME_BITMAP_WORDS; lia). by rewrite Z.testbit_0_l. }
  split; [|done]. split; [done|]. by rewrite He, size_empty.
Qed.

Lemma alloc_scan_spec k i f :
  0 <= i -> i + Z.of_nat k = 1024 ->
  (exists j, i <= j < 1024 /\ frame_used f j = false /\
     (forall l, i <= l < j -> frame_used f l = true) /\
     alloc_scan k i f = (FRAME_POOL_BASE + j * MM_FRAME_SIZE,
                         Frames (set_frame (fr_bitmap f) j) (u32 (fr_free f - 1)))) \/
  ((forall l, i <= l < 1024 -> frame_used f l = true) /\ alloc_scan k i f = (0, f)).
Proof.
  revert i. induction k as [|k IH]; intros i Hi Hk.
  - right. split; [lia|done].
  - cbn [alloc_scan]. rewrite frame_bit_used. destruct (frame_used f i) eqn:Eu; cbn [negb].
    + destruct (IH (i + 1) ltac:(lia) ltac:(lia)) as [(j & Hj & Hu & Hall & He)|[Hall He]].
      * left. exists j. split; [lia|]. split; [done|]. split; [|done]. intros l Hl.
        destruct (decide (l = i)) as [->|]; [done|]. apply Hall. lia.
      * right. split; [|done]. intros l Hl. destruct (decide (l = i)) as [->|]; [done|].
        apply Hall. lia.
    + left. exists i. split; [lia|]. split; [done|]. split; [lia|done].
Qed.

Definition frame_addr (i : Z) : Z := FRAME_POOL_BASE + i * MM_FRAME_SIZE.

Lemma alloc_frame_effect f j :
  frames_wf f -> 0 <= j < 1024 -> frame_used f j = false ->
  let f' := Frames (set_frame (fr_bitmap f) j) (u32 (fr_free f - 1)) in
  frames_wf f' /\ used_frames f' = {[j]} ∪ used_frames f.
Proof.
  intros [Hl Hc] Hj Hu f'.
  assert (Hs : used_frames f' = {[j]} ∪ used_frames f).
  { apply set_eq. intros i. rewrite elem_of_union, elem_of_singleton, !elem_of_used.
    split.
    - intros [Hi Hui]. unfold f' in Hui. rewrite set_frame_used in Hui by done.
      apply orb_true_iff in Hui as [?|?]; bools; auto.
    - intros [->|[Hi Hui]]; (split; [done|]); unfold f'; rewrite set_frame_used by done;
        apply orb_true_iff; [right; by apply Z.eqb_eq|by left]. }
  split; [|done]. split.
  - cbn. unfold set_frame. by rewrite length_insert.
  - rewrite Hs. rewrite size_union, size_singleton.
    2: { intros i Hi1%elem_of_singleton [_ Hi2]%elem_of_used. congruence. }
    pose proof (used_frames_bound f') as Hb. rewrite Hs, size_union, size_singleton in Hb.
    2: { intros i Hi1%elem_of_singleton [_ Hi2]%elem_of_used. congruence. }
    change (fr_free f') with (u32 (fr_free f - 1)). rewrite Hc, u32_id by lia. lia.
Qed.

Lemma free_frame_effect f j :
  frames_wf f -> 0 <= j < 1024 -> frame_used f j = true ->
  let f' := Frames (clear_frame (fr_bitmap f) j) (u32 (fr_free f + 1)) in
  frames_wf f' /\ used_frames f' = used_frames f ∖ {[j]}.
Proof.
  intros [Hl Hc] Hj Hu f'.
  assert (Hs : used_frames f' = used_frames f ∖ {[j]}).
  { apply set_eq. intros i. rewrite elem_of_difference, elem_of_singleton, !elem_of_used.
    split.
    - intros [Hi Hui]. unfold f' in Hui. rewrite clear_frame_used in Hui by done. by bools.
    - intros [[Hi Hui] Hne]. split; [done|]. unfold f'. rewrite clear_frame_used by done.
      apply andb_true_iff. split; [done|]. apply negb_true_iff, Z.eqb_neq. done. }
  split; [|done]. split.
  - cbn. unfold clear_frame. by rewrite length_insert.
  - assert (Hin : {[j]} ⊆ used_frames f).
    { intros i ->%elem_of_singleton. by apply elem_of_used. }
    rewrite Hs, size_difference by done. rewrite size_singleton.
    assert (1 <= size (used_frames f))%nat.
    { apply subseteq_size in Hin. by rewrite size_singleton in Hin. }
    change (fr_free f') with (u32 (fr_free f + 1)). rewrite Hc, u32_id; pose proof (used_frames_bound f); lia.
Qed.

(** One client call. *)
Inductive frame_op := FAlloc | FFree (addr : Z).
Definition frame_exec (f : frames) (o : frame_op) : option Z * frames :=
  match o with
  | FAlloc => let '(a, f') := alloc_frame f in (Some a, f')
  | FFree a => (None, free_frame f a)
  end.
Definition frame_run (ops : list frame_op) (f : frames) : frames :=
  foldl (fun f o => (frame_exec f o).2) f ops.

(** The effect of one call on the set of used frames. *)
Definition frame_spec (used : gset Z) (o : frame_op) (ans : option Z) (used' : gset Z) : Prop :=
  match o, ans with
  | FAlloc, Some a =>
      (exists j, 0 <= j < 1024 /\ a = frame_addr j /\ (j ∉ used) /\ used' = {[j]} ∪ used /\
                 forall l, 0 <= l < j -> l ∈ used) \/
      (a = 0 /\ used' = used /\ forall l, 0 <= l < 1024 -> l ∈ used)
  | FFree a, None =>
      (exists j, a = frame_addr j /\ j ∈ used /\ used' = used ∖ {[j]}) \/
      ((forall j, j ∈ used -> a <> frame_addr j) /\ used' = used)
  | _, _ => False
  end.

Lemma frame_addr_index j :
  0 <= j < 1024 ->
  (frame_addr j - FRAME_POOL_BASE) / MM_FRAME_SIZE = j /\
  Z.land (frame_addr j) (MM_FRAME_SIZE - 1) = 0 /\ FRAME_POOL_BASE <= frame_addr j.
Proof.
  intros Hj. unfold frame_addr, FRAME_POOL_BASE, MM_FRAME_SIZE.
  split; [lia|]. split; [|lia]. change (4096 - 1) with (2 ^ 12 - 1). rewrite land_ones_mod by lia.
  change (2 ^ 12) with 4096. lia.
Qed.

Lemma frame_exec_spec f o :
  frames_wf f ->
  let '(ans, f') := frame_exec f o in
  frames_wf f' /\ frame_spec (used_frames f) o ans (used_frames f').
Proof.
  intros Hf. destruct o as [|a]; cbn [frame_exec].
  - unfold alloc_frame. destruct (alloc_scan_spec (Z.to_nat FRAME_POOL_FRAMES) 0 f)
      as [(j & Hj & Hu & Hall & ->)|[Hall ->]]; [lia|done|..].
    + destruct (alloc_frame_effect f j Hf Hj Hu) as [Hwf Hs]. split; [done|]. left. exists j.
      split; [done|]. split; [done|]. split; [|split; [done|]].
      * rewrite elem_of_used. intros [_ ?]. congruence.
      * intros l Hl. apply elem_of_used. split; [lia|]. by apply Hall.
    + split; [done|]. right. split_and!; [done|done|]. intros l Hl. apply elem_of_used. auto.
  - assert (Hskip : (forall j, j ∈ used_frames f -> a <> frame_addr j) ->
      frames_wf f /\ frame_spec (used_frames f) (FFree a) None (used_frames f)).
    { intros Hn. split; [done|]. right. by split. }
    unfold free_frame. destruct (a <? FRAME_POOL_BASE) eqn:E1; bools.
    { apply Hskip. intros j [Hj _]%elem_of_used ->. destruct (frame_addr_index j Hj) as (_ & _ & ?). lia. }
    destruct (Z.land a (MM_FRAME_SIZE - 1) =? 0) eqn:E2; cbn [negb]; bools.
    2: { apply Hskip. intros j [Hj _]%elem_of_used ->. by destruct (frame_addr_index j Hj) as (_ & ? & _). }
    set (idx := (a - FRAME_POOL_BASE) / MM_FRAME_SIZE).
    assert (Ha : a = frame_addr idx).
    { subst idx. revert E1 E2. unfold frame_addr, FRAME_POOL_BASE, MM_FRAME_SIZE.
      change (4096 - 1) with (2 ^ 12 - 1). rewrite land_ones_mod by lia.
      change (2 ^ 12) with 4096. lia. }
    assert (Hidx : forall j, j ∈ used_frames f -> a = frame_addr j -> j = idx).
    { intros j [Hj _]%elem_of_used ->. subst idx. by destruct (frame_addr_index j Hj) as [-> _]. }
    assert (0 <= idx) by (subst idx; unfold MM_FRAME_SIZE; lia).
    destruct (idx >=? FRAME_POOL_FRAMES) eqn:E3; bools.
    { apply Hskip. intros j Hj He. pose proof (Hidx j Hj He) as ->.
      apply elem_of_used in Hj as [Hj _]. unfold FRAME_POOL_FRAMES in E3. lia. }
    unfold FRAME_POOL_FRAMES in E3. rewrite frame_bit_used.
    destruct (frame_used f idx) eqn:E4; cbn [negb].
    2: { apply Hskip. intros j Hj He. pose proof (Hidx j Hj He) as ->.
         apply elem_of_used in Hj as [_ Hj]. congruence. }
    destruct (free_frame_effect f idx Hf ltac:(lia) E4) as [Hwf Hs]. split; [done|].
    left. exists idx. split; [done|]. split; [|done]. by apply elem_of_used.
Qed.

(** C30: the frame allocator.  In every state reached from initialisation
    the free count is exact.  [alloc_frame] returns the lowest frame not in
    use and marks it, or 0 when all 1024 are in use; [free_frame] releases
    exactly the frame that starts at the address it is given and ignores
    every other address: below the pool, unaligned, beyond it, already
    free. *)
Theorem frames_refine_set (ops : list frame_op) (o : frame_op) :
  let f := frame_run ops frame_allocator_init in
  let '(ans, f') := frame_exec f o in
  frame_spec (used_frames f) o ans (used_frames f') /\
  frame_count_free f' = 1024 - Z.of_nat (size (used_frames f')).
Proof.
  cbv zeta. set (f := frame_run ops frame_allocator_init).
  assert (Hf : frames_wf f).
  { unfold f, frame_run. generalize (proj1 frame_allocator_init_wf).
    generalize frame_allocator_init. induction ops as [|p ops IH]; intros g Hg; [done|].
    cbn [foldl]. apply IH. pose proof (frame_exec_spec g p Hg) as H.
    destruct (frame_exec g p). apply H. }
  pose proof (frame_exec_spec f o Hf) as H. destruct (frame_exec f o) as [ans f'].
  destruct H as [Hwf Hs]. split; [done|]. apply Hwf.
Qed.

(** The pool is not clear of the other memory regions.  Half way
    through, [alloc_frame] hands out the page the user program is loaded at,
    and it goes on through the user program up to 0x600000. *)
Theorem frame_pool_overlaps_user_region (n : Z) :
  512 <= n < 1024 ->
  (alloc_frame (frame_run (replicate (Z.to_nat n) FAlloc) frame_allocator_init)).1 = frame_addr n /\
  MM_USER_LOAD_BASE <= frame_addr n < MM_USER_REGION_END.
Proof.
  intros Hn. split.
  2: { unfold frame_addr, FRAME_POOL_BASE, MM_FRAME_SIZE, MM_USER_LOAD_BASE, MM_USER_REGION_END. lia. }
  assert (H : forall k, (k <= 1024)%nat ->
    let f := frame_run (replicate k FAlloc) frame_allocator_init in
    frames_wf f /\ forall i, 0 <= i < 1024 -> frame_used f i = (i <? Z.of_nat k)).
  { induction k as [|k IH]; intros Hk.
    - destruct frame_allocator_init_wf as [Hwf He]. split; [exact Hwf|]. intros i Hi.
      change (frame_used frame_allocator_init i = (i <? Z.of_nat 0)).
      pose proof (elem_of_used frame_allocator_init i) as Hin. rewrite He in Hin.
      assert ((i <? Z.of_nat 0) = false) as -> by (apply Z.ltb_ge; lia). apply not_true_iff_false. intros Hu.
      exact (not_elem_of_empty (C := gset Z) i (proj2 Hin (conj Hi Hu))).
    - destruct (IH ltac:(lia)) as [Hwf Hu]. clear IH.
      assert (Hr : frame_run (replicate (S k) FAlloc) frame_allocator_init =
        (alloc_frame (frame_run (replicate k FAlloc) frame_allocator_init)).2).
      { unfold frame_run. rewrite replicate_S_end, foldl_app. cbn [foldl frame_exec].
        by destruct (alloc_frame _). }
      cbv zeta. rewrite Hr. set (f := frame_run (replicate k FAlloc) frame_allocator_init) in *.
      unfold alloc_frame. destruct (alloc_scan_spec (Z.to_nat FRAME_POOL_FRAMES) 0 f)
        as [(j & Hj & Huj & Hall & ->)|[Hall _]]; [lia|done|..].
      2: { specialize (Hall (Z.of_nat k) ltac:(lia)). rewrite Hu in Hall by lia. bools. lia. }
      assert (j = Z.of_nat k).
      { rewrite Hu in Huj by lia. bools. destruct (decide (j = Z.of_nat k)); [done|].
        specialize (Hall (Z.of_nat k) ltac:(lia)). rewrite Hu in Hall by lia. bools. lia. }
      subst j. cbn [snd]. split; [by apply alloc_frame_effect|]. intros i Hi.
      rewrite set_frame_used by (apply Hwf || lia). rewrite Hu by done.
      apply eq_iff_eq_true. rewrite orb_true_iff, Z.eqb_eq, !Z.ltb_lt. lia. }
  destruct (H (Z.to_nat n) ltac:(lia)) as [Hwf Hu]. clear H.
  set (f := frame_run _ _) in *. unfold alloc_frame.
  destruct (alloc_scan_spec (Z.to_nat FRAME_POOL_FRAMES) 0 f)
    as [(j & Hj & Huj & Hall & ->)|[Hall _]]; [lia|done|..].
  - cbn [fst]. rewrite Hu in Huj by lia. bools. destruct (decide (j = n)) as [->|]; [done|].
    specialize (Hall n ltac:(lia)). rewrite Hu in Hall by lia. bools. lia.
  - specialize (Hall n ltac:(lia)). rewrite Hu in Hall by lia. bools. lia.
Qed.

Example frame_pool_overlaps_user_region_witness :
  (alloc_frame (frame_run (replicate (Z.to_nat 512) FAlloc) frame_allocator_init)).1 = MM_USER_LOAD_BASE.
Proof.
  destruct (frame_pool_overlaps_user_region 512 ltac:(lia)) as [H _].
  etransitivity; [exact H|]. reflexivity.
Defined.
