(* ===== verification/DomainGraph.v ===== *)
(** * The domain transition matrix: kernel/security/domain_graph.c

    One word per source domain, bit [b] of row [a] for the edge a -> b.  The
    abstract policy is a set of edges and a seal. *)
From S2P Require Import Prelude Types Circular Ring Auditor.

Definition MAX_DOMAINS : Z := 8.

Record domain_graph := Graph { g_edges : list Z; g_sealed : bool }.

Definition domain_edges_init : domain_graph :=
  Graph ((fun i => u32 (bit (Z.of_nat i))) <$> seq 0 8) false.

Definition domain_edge_allowed (g : domain_graph) (src dst : Z) : Z :=
  if ((src >=? MAX_DOMAINS) || (dst >=? MAX_DOMAINS))%bool then 0
  else if negb (Z.land (g_edges g !!! Z.to_nat src) (bit dst) =? 0) then 1 else 0.

Definition domain_edge_set (g : domain_graph) (au : auditor) (src dst : Z)
    : Z * domain_graph * auditor :=
  if ((src >=? MAX_DOMAINS) || (dst >=? MAX_DOMAINS))%bool then (-1, g, au)
  else if g_sealed g then (-2, g, au)
  else (0,
        Graph (<[Z.to_nat src := Z.lor (g_edges g !!! Z.to_nat src) (bit dst)]> (g_edges g))
          (g_sealed g),
        auditor_domain_edge au src dst 1).

Definition domain_edges_seal (g : domain_graph) : domain_graph :=
  if negb (g_sealed g) then Graph (g_edges g) true else g.

(** ** The policy it represents *)

Record policy := Policy { pl_edges : gset (Z * Z); pl_sealed : bool }.

Definition represents (g : domain_graph) (p : policy) : Prop :=
  length (g_edges g) = 8%nat /\ g_sealed g = pl_sealed p /\
  forall a b, 0 <= a -> 0 <= b ->
    (domain_edge_allowed g a b = 1 <-> a < 8 /\ b < 8 /\ (a = b \/ (a, b) ∈ pl_edges p)).

Lemma domain_edge_allowed_bool g a b :
  0 <= a -> 0 <= b ->
  domain_edge_allowed g a b = 1 <->
  a < 8 /\ b < 8 /\ Z.testbit (g_edges g !!! Z.to_nat a) b = true.
Proof.
  intros Ha Hb. unfold domain_edge_allowed, MAX_DOMAINS.
  destruct (_ || _)%bool eqn:E.
  - split; [done|]. intros (? & ? & _). apply orb_true_iff in E as [E|E]; bools; lia.
  - bools. rewrite land_bit, negb_involutive by done.
    destruct (Z.testbit _ b); [split; [intros _; split_and!; (done || lia)|done]|split; [done|]].
    by intros (_ & _ & ?).
Qed.

Lemma domain_edges_init_represents : represents domain_edges_init (Policy ∅ false).
Proof.
  split; [done|]. split; [done|]. intros a b Ha Hb. rewrite domain_edge_allowed_bool by done.
  assert (Hrow : 0 <= a < 8 -> Z.testbit (g_edges domain_edges_init !!! Z.to_nat a) b = (b =? a)).
  { intros Ha8. unfold domain_edges_init. cbn [g_edges].
    rewrite (lookup_total_Some _ _ (u32 (bit a))).
    - rewrite u32_id; [by apply bit_testbit|]. unfold bit. rewrite Z.shiftl_mul_pow2 by lia.
      assert (2 ^ a <= 2 ^ 7) by (apply Z.pow_le_mono_r; lia).
      pose proof (Z.pow_pos_nonneg 2 a). change (2 ^ 7) with 128 in *. lia.
    - rewrite list_lookup_fmap, lookup_seq_lt by lia. cbn. by rewrite Z2Nat.id. }
  split.
  - intros (Ha8 & Hb8 & Ht). rewrite Hrow in Ht by lia. bools. split_and!; try done. by left.
  - intros (Ha8 & Hb8 & [->|Hin]); [|by apply not_elem_of_empty in Hin].
    split_and!; try done. rewrite Hrow by lia. apply Z.eqb_refl.
Qed.

(** A client call on the matrix, and on the policy. *)
Inductive graph_op := OpSet (src dst : Z) | OpSeal.

Definition graph_exec (s : domain_graph * auditor) (o : graph_op) : Z * (domain_graph * auditor) :=
  match o with
  | OpSet a b => let '(rv, g, au) := domain_edge_set s.1 s.2 a b in (rv, (g, au))
  | OpSeal => (0, (domain_edges_seal s.1, s.2))
  end.
Definition policy_exec (p : policy) (o : graph_op) : Z * policy :=
  match o with
  | OpSet a b =>
      if ((8 <=? a) || (8 <=? b))%bool then (-1, p)
      else if pl_sealed p then (-2, p)
      else (0, Policy ({[(a, b)]} ∪ pl_edges p) false)
  | OpSeal => (0, Policy (pl_edges p) true)
  end.

Lemma graph_exec_sim g au p o :
  match o with OpSet a b => 0 <= a /\ 0 <= b | OpSeal => True end ->
  represents g p ->
  (graph_exec (g, au) o).1 = (policy_exec p o).1 /\
  represents (graph_exec (g, au) o).2.1 (policy_exec p o).2.
Proof.
  intros Ho Hrep. pose proof Hrep as (Hl & Hs & Hr). destruct o as [a b|]; cbn [graph_exec policy_exec fst snd].
  - destruct Ho as [Ha Hb]. unfold domain_edge_set, MAX_DOMAINS.
    rewrite <-!Z.geb_leb. destruct (_ || _)%bool eqn:E; [exact (conj eq_refl Hrep)|].
    rewrite Hs. destruct (pl_sealed p) eqn:Es; [exact (conj eq_refl Hrep)|]. bools.
    split; [done|]. split; [cbn; by rewrite length_insert|]. split; [done|].
    intros c d Hc Hd. rewrite domain_edge_allowed_bool by done. cbn [g_edges pl_edges fst snd].
    assert (Hold := domain_edge_allowed_bool g c d Hc Hd). rewrite Hr in Hold by done.
    rewrite elem_of_union, elem_of_singleton.
    rewrite list_lookup_total_insert. case_decide as Hac.
    + assert (c = a) as -> by lia. rewrite lor_bit_testbit, orb_true_iff, Z.eqb_eq by lia.
      split.
      * intros (? & ? & [Ht| ->]); [|split_and!; auto].
        destruct (proj2 Hold) as (_ & _ & [?|?]); [done|..]; split_and!; auto.
      * intros (Ha8 & Hb8 & [->|[Heq|Hin]]); (split; [done|split; [done|]]).
        -- left. apply (proj1 Hold). split_and!; auto.
        -- right. congruence.
        -- left. apply (proj1 Hold). split_and!; auto.
    + rewrite <-Hold. split.
      * intros (? & ? & [?|?]); split_and!; auto.
      * intros (Hc8 & Hd8 & [?|[Heq|?]]); split_and!; auto.
        injection Heq as -> ->. destruct Hac. rewrite Hl. lia.
  - split; [done|]. unfold domain_edges_seal. destruct (g_sealed g) eqn:Eg; cbn;
      (split; [done|split; [done|exact Hr]]).
Qed.

Fixpoint graph_run (s : domain_graph * auditor) (ops : list graph_op)
    : list Z * (domain_graph * auditor) :=
  match ops with
  | [] => ([], s)
  | o :: ops => let '(rv, s1) := graph_exec s o in
                let '(l, s2) := graph_run s1 ops in (rv :: l, s2)
  end.
Fixpoint policy_run (p : policy) (ops : list graph_op) : list Z * policy :=
  match ops with
  | [] => ([], p)
  | o :: ops => let '(rv, p1) := policy_exec p o in
                let '(l, p2) := policy_run p1 ops in (rv :: l, p2)
  end.

Lemma graph_run_sim ops g au p :
  Forall (fun o => match o with OpSet a b => 0 <= a /\ 0 <= b | OpSeal => True end) ops ->
  represents g p ->
  (graph_run (g, au) ops).1 = (policy_run p ops).1 /\
  represents (graph_run (g, au) ops).2.1 (policy_run p ops).2.
Proof.
  intros Hops. revert g au p. induction Hops as [|o ops Ho _ IH]; intros g au p Hr; [done|].
  cbn [graph_run policy_run]. destruct (graph_exec_sim g au p o Ho Hr) as [Ha Hr'].
  destruct (graph_exec (g, au) o) as [rv [g1 au1]], (policy_exec p o) as [rv' p1].
  cbn in Ha, Hr'. subst rv'. destruct (IH g1 au1 p1 Hr') as [Hl Hf].
  destruct (graph_run (g1, au1) ops), (policy_run p1 ops). cbn in *. by subst.
Qed.

(** Once sealed, a policy never changes. *)
Lemma policy_sealed_run ops p : pl_sealed p = true -> (policy_run p ops).2 = p.
Proof.
  intros Hs. induction ops as [|o ops IH]; [done|]. cbn [policy_run].
  assert (He : (policy_exec p o).2 = p).
  { destruct o as [a b|]; cbn; [destruct (_ || _)%bool; [done|]; by rewrite Hs|].
    destruct p. cbn in *. by subst. }
  destruct (policy_exec p o) as [rv p1]. cbn in He. subst p1.
  destruct (policy_run p ops). done.
Qed.

(** C29: the matrix is a directed allow-list with a seal.  After any calls on
    an initialised matrix, every call has answered as the policy does, and
    a -> b is allowed exactly when both domains exist and either a = b or
    that very edge was set; a domain number of 8 or more is never allowed,
    and once the seal is set no later call changes any answer. *)
Theorem domain_graph_refines_policy (au : auditor) (ops more : list graph_op) (a b : Z) :
  Forall (fun o => match o with OpSet a b => 0 <= a /\ 0 <= b | OpSeal => True end) (ops ++ more) ->
  0 <= a -> 0 <= b ->
  let s := (graph_run (domain_edges_init, au) ops).2 in
  let p := (policy_run (Policy ∅ false) ops).2 in
  (graph_run (domain_edges_init, au) ops).1 = (policy_run (Policy ∅ false) ops).1 /\
  (domain_edge_allowed s.1 a b = 1 <-> a < 8 /\ b < 8 /\ (a = b \/ (a, b) ∈ pl_edges p)) /\
  (g_sealed s.1 = true ->
     domain_edge_allowed (graph_run s more).2.1 a b = domain_edge_allowed s.1 a b).
Proof.
  intros Hops Ha Hb s p. apply Forall_app in Hops as [Hops Hmore].
  destruct (graph_run_sim ops domain_edges_init au (Policy ∅ false) Hops domain_edges_init_represents)
    as [Hans Hrep]. fold s in Hrep. fold p in Hrep. split; [done|]. split; [by apply Hrep|].
  intros Hseal. destruct s as [g au'] eqn:Es. cbn [fst] in *.
  destruct (graph_run_sim more g au' p Hmore Hrep) as [_ Hrep2].
  pose proof Hrep as (_ & Hs & Hr). rewrite policy_sealed_run in Hrep2 by congruence.
  destruct Hrep2 as (_ & _ & Hr2). specialize (Hr a b Ha Hb). specialize (Hr2 a b Ha Hb).
  assert (H01 : forall x, domain_edge_allowed x a b = 0 \/ domain_edge_allowed x a b = 1).
  { intros x. unfold domain_edge_allowed. destruct (_ || _)%bool; [by left|].
    destruct (negb _); auto. }
  destruct (H01 g) as [E|E], (H01 (graph_run (g, au') more).2.1) as [E'|E']; rewrite E, E'; try done.
  - exfalso. assert (domain_edge_allowed g a b = 1) by (apply Hr, Hr2, E'). congruence.
  - exfalso. assert (domain_edge_allowed (graph_run (g, au') more).2.1 a b = 1) by (apply Hr2, Hr, E).
    congruence.
Qed.

Example domain_graph_refines_policy_witness :
  (graph_run (domain_edges_init, auditor_bss) [OpSet 0 3; OpSeal; OpSet 3 0; OpSet 9 0]).1 = [0; 0; -2; -1].
Proof.
  destruct (domain_graph_refines_policy auditor_bss [OpSet 0 3; OpSeal; OpSet 3 0; OpSet 9 0] [] 0 3)
    as [H _]; [repeat constructor; lia|lia|lia|].
  rewrite H. vm_compute. reflexivity.
Defined.
