(* ===== verification/Crc.v ===== *)
(** * The message checksum: init_crc32_table and calculate_checksum of
    kernel/nngcompat.c

    The table-driven CRC-32, its bitwise reference, and what it detects. *)
From S2P Require Import Prelude Security.

Definition crc_poly : Z := 3988292384.

(** One of the eight inner steps. *)
Definition crc_bit (c : Z) : Z :=
  if negb (Z.land c 1 =? 0) then Z.lxor crc_poly (Z.shiftr c 1) else Z.shiftr c 1.

Definition crc_entry (i : Z) : Z := Nat.iter 8 crc_bit i.
Definition init_crc32_table : list Z := (fun i => crc_entry (Z.of_nat i)) <$> seq 0 256.

(** [crc = crc32_table[(crc ^ p[i]) & 0xFF] ^ (crc >> 8)] *)
Definition crc_step (tbl : list Z) (crc b : Z) : Z :=
  Z.lxor (tbl !!! Z.to_nat (Z.land (Z.lxor crc b) 255)) (Z.shiftr crc 8).

(** [bytes] are the [len] bytes at [data]; a refused access gives 0. *)
Definition calculate_checksum (rt : regions) (tbl : list Z) (data : Z) (bytes : list Z) : Z :=
  if negb (security_validate_memory_access rt data (Z.of_nat (length bytes)) false) then 0
  else Z.lxor (foldl (crc_step tbl) 4294967295 bytes) 4294967295.

(** ** The reference: one bit at a time *)

Definition crc_byte_ref (crc b : Z) : Z := Nat.iter 8 crc_bit (Z.lxor crc b).
Definition crc32_ref (bytes : list Z) : Z :=
  Z.lxor (foldl crc_byte_ref 4294967295 bytes) 4294967295.

Lemma crc_table_lookup i : 0 <= i < 256 -> init_crc32_table !!! Z.to_nat i = crc_entry i.
Proof.
  intros Hi. apply lookup_total_Some. unfold init_crc32_table.
  rewrite list_lookup_fmap, lookup_seq_lt by lia. cbn. by rewrite Z2Nat.id by lia.
Qed.

Lemma crc_bit_alt c :
  crc_bit c = if Z.testbit c 0 then Z.lxor crc_poly (Z.shiftr c 1) else Z.shiftr c 1.
Proof.
  unfold crc_bit. change 1 with (bit 0) at 1. rewrite land_bit by lia. by rewrite negb_involutive.
Qed.

(** The step is linear: a word splits off whatever its low bit does not see. *)
Lemma crc_bit_xor x y : Z.testbit y 0 = false -> crc_bit (Z.lxor x y) = Z.lxor (crc_bit x) (Z.shiftr y 1).
Proof.
  intros Hy. rewrite !crc_bit_alt, Z.lxor_spec, Hy, xorb_false_r, Z.shiftr_lxor.
  destruct (Z.testbit x 0); [by rewrite Z.lxor_assoc|done].
Qed.

Lemma crc_iter_xor n x y :
  (forall i, 0 <= i < Z.of_nat n -> Z.testbit y i = false) ->
  Nat.iter n crc_bit (Z.lxor x y) = Z.lxor (Nat.iter n crc_bit x) (Z.shiftr y (Z.of_nat n)).
Proof.
  induction n as [|n IH]; intros Hy.
  - by rewrite Z.shiftr_0_r.
  - rewrite !Nat.iter_succ, IH by (intros; apply Hy; lia).
    rewrite crc_bit_xor.
    + f_equal. rewrite Z.shiftr_shiftr by lia. f_equal. lia.
    + rewrite Z.shiftr_spec by lia. apply Hy. lia.
Qed.

(** A word is its low byte and the rest. *)
Lemma low_byte_split x : 0 <= x -> x = Z.lxor (Z.land x 255) (Z.shiftl (Z.shiftr x 8) 8).
Proof.
  intros Hx. apply Z.bits_inj'. intros i Hi. rewrite Z.lxor_spec, Z.land_spec, Z.shiftl_spec by lia.
  change 255 with (Z.ones 8). destruct (decide (i < 8)).
  - rewrite Z.ones_spec_low, (Z.testbit_neg_r _ (i - 8)) by lia. by rewrite andb_true_r, xorb_false_r.
  - rewrite Z.ones_spec_high, Z.shiftr_spec by lia. rewrite andb_false_r, xorb_false_l.
    f_equal. lia.
Qed.

Lemma crc_step_ref crc b :
  0 <= crc -> 0 <= b < 256 -> crc_step init_crc32_table crc b = crc_byte_ref crc b.
Proof.
  intros Hc Hb. unfold crc_step, crc_byte_ref.
  assert (Hx : 0 <= Z.lxor crc b) by (apply Z.lxor_nonneg; lia).
  rewrite crc_table_lookup by (rewrite land_255; lia). unfold crc_entry.
  rewrite (low_byte_split (Z.lxor crc b)) at 2 by done. rewrite crc_iter_xor.
  - f_equal. rewrite Z.shiftr_shiftl_r by lia. rewrite Z.sub_diag, Z.shiftr_0_r, Z.shiftr_lxor.
    replace (Z.shiftr b 8) with 0; [by rewrite Z.lxor_0_r|].
    rewrite Z.shiftr_div_pow2 by lia. change (2 ^ 8) with 256. lia.
  - intros i Hi. rewrite Z.shiftl_spec by lia. apply Z.testbit_neg_r. lia.
Qed.

Lemma crc_bit_range c : 0 <= c < 4294967296 -> 0 <= crc_bit c < 4294967296.
Proof.
  intros Hc. unfold crc_bit. assert (0 <= Z.shiftr c 1 < 4294967296).
  { rewrite Z.shiftr_div_pow2 by lia. change (2 ^ 1) with 2. lia. }
  split_if; [|done]. apply (lxor_bound _ _ 32); (done || lia).
Qed.
Lemma crc_entry_range i : 0 <= i < 4294967296 -> 0 <= crc_entry i < 4294967296.
Proof.
  unfold crc_entry. intros Hi. generalize 8%nat. induction n as [|n IH]; [done|].
  rewrite Nat.iter_succ. by apply crc_bit_range.
Qed.
Lemma crc_step_range crc b :
  0 <= crc < 4294967296 -> 0 <= crc_step init_crc32_table crc b < 4294967296.
Proof.
  intros Hc. unfold crc_step. apply (lxor_bound _ _ 32); [lia|..].
  - rewrite crc_table_lookup; [apply crc_entry_range|]; rewrite land_255; lia.
  - rewrite Z.shiftr_div_pow2 by lia. change (2 ^ 8) with 256. lia.
Qed.

Lemma crc_fold_ref bytes crc :
  Forall (fun b => 0 <= b < 256) bytes -> 0 <= crc < 4294967296 ->
  foldl (crc_step init_crc32_table) crc bytes = foldl crc_byte_ref crc bytes /\
  0 <= foldl (crc_step init_crc32_table) crc bytes < 4294967296.
Proof.
  intros Hb. revert crc. induction Hb as [|b bytes Hb _ IH]; intros crc Hc; [done|].
  cbn [foldl]. rewrite <-crc_step_ref by lia. apply IH. by apply crc_step_range.
Qed.

(** ** Error detection *)

(** The top bytes of the table entries are all different. *)
Definition top_bytes : list Z := (fun i => Z.shiftr (crc_entry (Z.of_nat i)) 24) <$> seq 0 256.
Lemma top_bytes_nodup : NoDup top_bytes.
Proof. apply (bool_decide_unpack _). vm_compute. exact I. Qed.

Lemma crc_entry_top_inj i j :
  0 <= i < 256 -> 0 <= j < 256 -> Z.shiftr (crc_entry i) 24 = Z.shiftr (crc_entry j) 24 -> i = j.
Proof.
  intros Hi Hj He. enough (Z.to_nat i = Z.to_nat j) by lia.
  assert (Hl : forall k, 0 <= k < 256 -> top_bytes !! Z.to_nat k = Some (Z.shiftr (crc_entry k) 24)).
  { intros k Hk. unfold top_bytes. rewrite list_lookup_fmap, lookup_seq_lt by lia. cbn.
    by rewrite Z2Nat.id by lia. }
  apply (NoDup_lookup _ _ _ (Z.shiftr (crc_entry i) 24) top_bytes_nodup); [by apply Hl|].
  rewrite He. by apply Hl.
Qed.

(** One step loses nothing: the word can be recovered from the result. *)
Lemma crc_step_inj x y :
  0 <= x < 4294967296 -> 0 <= y < 4294967296 ->
  Z.lxor (crc_entry (Z.land x 255)) (Z.shiftr x 8) = Z.lxor (crc_entry (Z.land y 255)) (Z.shiftr y 8) ->
  x = y.
Proof.
  intros Hx Hy He.
  assert (Hlow : forall z, 0 <= Z.land z 255 < 256) by (intros; rewrite land_255; lia).
  assert (Htop : forall z, 0 <= z < 4294967296 ->
    Z.shiftr (Z.lxor (crc_entry (Z.land z 255)) (Z.shiftr z 8)) 24 = Z.shiftr (crc_entry (Z.land z 255)) 24).
  { intros z Hz. rewrite Z.shiftr_lxor, Z.shiftr_shiftr by lia.
    replace (Z.shiftr z (8 + 24)) with 0; [by rewrite Z.lxor_0_r|].
    rewrite Z.shiftr_div_pow2 by lia. change (2 ^ (8 + 24)) with 4294967296. lia. }
  assert (Hl : Z.land x 255 = Z.land y 255).
  { apply crc_entry_top_inj; [apply Hlow..|]. rewrite <-(Htop x Hx), <-(Htop y Hy). by rewrite He. }
  rewrite Hl in He. apply (f_equal (Z.lxor (crc_entry (Z.land y 255)))) in He.
  rewrite <-!Z.lxor_assoc, !Z.lxor_nilpotent, !Z.lxor_0_l in He.
  rewrite (low_byte_split x), (low_byte_split y) by lia. by rewrite Hl, He.
Qed.

Lemma crc_byte_inj crc crc' b b' :
  0 <= crc < 4294967296 -> 0 <= crc' < 4294967296 -> 0 <= b < 256 -> 0 <= b' < 256 ->
  crc_step init_crc32_table crc b = crc_step init_crc32_table crc' b' ->
  Z.lxor crc b = Z.lxor crc' b'.
Proof.
  intros Hc Hc' Hb Hb'.
  assert (Hs : forall c x, 0 <= x < 256 -> crc_step init_crc32_table c x =
    Z.lxor (crc_entry (Z.land (Z.lxor c x) 255)) (Z.shiftr (Z.lxor c x) 8)).
  { intros c x Hx. unfold crc_step. rewrite crc_table_lookup by (rewrite land_255; lia).
    rewrite Z.shiftr_lxor. replace (Z.shiftr x 8) with 0; [by rewrite Z.lxor_0_r|].
    rewrite Z.shiftr_div_pow2 by lia. change (2 ^ 8) with 256. lia. }
  rewrite !Hs by done. apply crc_step_inj; apply (lxor_bound _ _ 32); (done || lia).
Qed.

Lemma crc_fold_inj bytes crc crc' :
  Forall (fun b => 0 <= b < 256) bytes -> 0 <= crc < 4294967296 -> 0 <= crc' < 4294967296 ->
  foldl (crc_step init_crc32_table) crc bytes = foldl (crc_step init_crc32_table) crc' bytes ->
  crc = crc'.
Proof.
  intros Hb. revert crc crc'. induction Hb as [|b bytes Hb _ IH]; intros crc crc' Hc Hc' He; [done|].
  cbn [foldl] in He. apply IH in He; [|by apply crc_step_range..].
  apply crc_byte_inj in He; try done. apply (f_equal (fun z => Z.lxor z b)) in He.
  by rewrite !Z.lxor_assoc, Z.lxor_nilpotent, !Z.lxor_0_r in He.
Qed.

(** C35: the checksum is CRC-32 and catches single-byte damage.  On readable
    data it equals the bit-by-bit CRC with the reflected polynomial
    0xEDB88320, and changing any one byte of a message, to any other value,
    changes it. *)
Theorem checksum_is_crc32 (rt : regions) (data : Z) (pre post : list Z) (b b' : Z) :
  Forall (fun b => 0 <= b < 256) (pre ++ [b; b'] ++ post) ->
  security_validate_memory_access rt data (Z.of_nat (length (pre ++ b :: post))) false = true ->
  calculate_checksum rt init_crc32_table data (pre ++ b :: post) = crc32_ref (pre ++ b :: post) /\
  (b <> b' -> calculate_checksum rt init_crc32_table data (pre ++ b :: post) <>
              calculate_checksum rt init_crc32_table data (pre ++ b' :: post)).
Proof.
  rewrite !Forall_app, !Forall_cons. intros (Hpre & (Hb & Hb' & _) & Hpost) Hv.
  assert (Hlen : length (pre ++ b' :: post) = length (pre ++ b :: post)) by (by rewrite !length_app).
  unfold calculate_checksum. rewrite Hlen, Hv. cbn [negb]. split.
  - unfold crc32_ref. f_equal. apply crc_fold_ref; [|lia].
    apply Forall_app_2; [done|]. by constructor.
  - intros Hne He. apply Hne. apply (f_equal (fun z => Z.lxor z 4294967295)) in He.
    rewrite !Z.lxor_assoc, Z.lxor_nilpotent, !Z.lxor_0_r, !foldl_app in He. cbn [foldl] in He.
    destruct (crc_fold_ref pre 4294967295 Hpre ltac:(lia)) as [_ Hr].
    apply crc_fold_inj in He; [|done|by apply crc_step_range..].
    apply crc_byte_inj in He; try done.
    apply (f_equal (Z.lxor (foldl (crc_step init_crc32_table) 4294967295 pre))) in He.
    by rewrite <-!Z.lxor_assoc, !Z.lxor_nilpotent, !Z.lxor_0_l in He.
Qed.

Example checksum_is_crc32_witness :
  calculate_checksum [] init_crc32_table 1048576 [49; 50; 51; 52; 53; 54; 55; 56; 57] =
  crc32_ref [49; 50; 51; 52; 53; 54; 55; 56; 57] /\
  crc32_ref [49; 50; 51; 52; 53; 54; 55; 56; 57] = 3421780262.
Proof.
  split; [|vm_compute; reflexivity].
  apply (checksum_is_crc32 [] 1048576 [49; 50; 51] [53; 54; 55; 56; 57] 52 0).
  - repeat constructor; lia.
  - vm_compute. reflexivity.
Defined.
