(* ===== verification/Nng.v ===== *)
(** * In-kernel messaging: kernel/nngcompat.c

    Sockets, pipes, message pool and the per-protocol routing.  A message is
    an object at the address its allocation returned, its body a buffer of
    one allocator block.  Touching an object that is not there, or writing
    past the end of a block, has no defined result: the operations return
    [None].  Memory is part of the state: every byte that the operations
    write through an object, or the allocator clears, is also written there,
    where code that shares the address space finds it. *)
From S2P Require Import Prelude Types Circular Security MemUtils BlockAlloc Crc.

Definition NNG_OK : Z := 0.
Definition NNG_ENOMEM : Z := 1.
Definition NNG_EINVAL : Z := 2.
Definition NNG_ETIMEDOUT : Z := 4.
Definition NNG_ENOTSUP : Z := 5.
Definition NNG_ENOENT : Z := 6.
Definition NNG_EACCESS : Z := 7.

Definition NNG_PROTO_PAIR1 : Z := 1.
Definition NNG_PROTO_PUB0 : Z := 2.
Definition NNG_PROTO_SUB0 : Z := 3.
Definition NNG_PROTO_REQ0 : Z := 4.
Definition NNG_PROTO_REP0 : Z := 5.
Definition NNG_PROTO_PUSH0 : Z := 6.
Definition NNG_PROTO_PULL0 : Z := 7.
Definition NNG_PROTO_BUS0 : Z := 8.
Definition NNG_PROTO_SURVEYOR0 : Z := 9.
Definition NNG_PROTO_RESPONDENT0 : Z := 10.

Definition MAX_MESSAGES : nat := 64.
Definition MAX_SOCKETS : nat := 16.
Definition MAX_PIPES : nat := 64.
Definition MAX_QUEUED_MSGS : nat := 16.
Definition MSG_BUFFER_SIZE : Z := 256.
Definition MAX_SUBS : nat := 8.
Definition MAX_TOPIC_LEN : nat := 32.
Definition SURVEYOR_TIMEOUT_TICKS : Z := 100.
(** [sizeof(nng_msg_t)] on the 32-bit targets. *)
Definition NNG_MSG_SIZE : Z := 24.

(** [nng_msg_t]; the header fields are always NULL and 0. *)
Record nng_msg_t := NMsg { n_body : Z; n_body_len : Z; n_flags : Z; n_checksum : Z }.

Record nng_socket_t := Sock { so_id : Z; so_protocol : Z; so_flags : Z }.
#[export] Instance nng_socket_inhabited : Inhabited nng_socket_t := populate (Sock 0 0 0).
Global Instance nng_socket_eq_dec : EqDecision nng_socket_t.
Proof. solve_decision. Defined.

(** [msg_slot_t]. *)
Record msg_slot_t := MSlot { ms_msg : Z; ms_buffer : Z; ms_in_use : bool }.
#[export] Instance msg_slot_inhabited : Inhabited msg_slot_t := populate (MSlot 0 0 false).
Definition free_slot : msg_slot_t := MSlot 0 0 false.

(** [incoming_queue_t]; a message pointer of 0 is NULL. *)
Record incoming_queue_t := IQueue { q_messages : list Z; q_head : Z; q_tail : Z; q_count : Z }.
Definition empty_queue : incoming_queue_t := IQueue (replicate MAX_QUEUED_MSGS 0) 0 0 0.
#[export] Instance incoming_queue_inhabited : Inhabited incoming_queue_t := populate empty_queue.

(** [socket_state_t]; a topic is its bytes and its length. *)
Record socket_state_t := SState {
  ss_rr_idx : Z;
  ss_reply_src : Z;
  ss_respondent_src : Z;
  ss_survey_deadline : Z;
  ss_survey_active : bool;
  ss_topics : list (list Z * Z);
  ss_num_topics : Z
}.
Definition sstate_zero : socket_state_t :=
  SState 0 0 0 0 false (replicate MAX_SUBS (replicate MAX_TOPIC_LEN 0, 0)) 0.
#[export] Instance sstate_inhabited : Inhabited socket_state_t := populate sstate_zero.

(** [pipe_t]. *)
Record pipe_t := Pipe { pp_src : Z; pp_dst : Z; pp_in_use : bool }.
#[export] Instance pipe_inhabited : Inhabited pipe_t := populate (Pipe 0 0 false).

Record nng := Nng {
  ng_alloc : allocator;
  ng_msgs : gmap Z nng_msg_t;
  ng_bufs : gmap Z (list Z);
  ng_slots : list msg_slot_t;
  ng_queues : list incoming_queue_t;
  ng_state : list socket_state_t;
  ng_pool : list nng_socket_t;
  ng_pipes : list pipe_t;
  ng_crc : list Z;
  ng_mem : gmap Z Z
}.

Definition set_alloc a (s : nng) : nng :=
  Nng a (ng_msgs s) (ng_bufs s) (ng_slots s) (ng_queues s) (ng_state s)
    (ng_pool s) (ng_pipes s) (ng_crc s) (ng_mem s).
Definition set_objects ms bs (s : nng) : nng :=
  Nng (ng_alloc s) ms bs (ng_slots s) (ng_queues s) (ng_state s)
    (ng_pool s) (ng_pipes s) (ng_crc s) (ng_mem s).
Definition set_slots sl (s : nng) : nng :=
  Nng (ng_alloc s) (ng_msgs s) (ng_bufs s) sl (ng_queues s) (ng_state s)
    (ng_pool s) (ng_pipes s) (ng_crc s) (ng_mem s).
Definition set_queues q (s : nng) : nng :=
  Nng (ng_alloc s) (ng_msgs s) (ng_bufs s) (ng_slots s) q (ng_state s)
    (ng_pool s) (ng_pipes s) (ng_crc s) (ng_mem s).
Definition set_sstate x (s : nng) : nng :=
  Nng (ng_alloc s) (ng_msgs s) (ng_bufs s) (ng_slots s) (ng_queues s) x
    (ng_pool s) (ng_pipes s) (ng_crc s) (ng_mem s).
Definition set_pool p (s : nng) : nng :=
  Nng (ng_alloc s) (ng_msgs s) (ng_bufs s) (ng_slots s) (ng_queues s) (ng_state s)
    p (ng_pipes s) (ng_crc s) (ng_mem s).
Definition set_pipes p (s : nng) : nng :=
  Nng (ng_alloc s) (ng_msgs s) (ng_bufs s) (ng_slots s) (ng_queues s) (ng_state s)
    (ng_pool s) p (ng_crc s) (ng_mem s).
Definition set_mem m (s : nng) : nng :=
  Nng (ng_alloc s) (ng_msgs s) (ng_bufs s) (ng_slots s) (ng_queues s) (ng_state s)
    (ng_pool s) (ng_pipes s) (ng_crc s) m.

(** One socket's protocol state. *)
Definition sstate (s : nng) (id : Z) : socket_state_t := ng_state s !!! Z.to_nat id.
Definition upd_sstate (id : Z) (x : socket_state_t) (s : nng) : nng :=
  set_sstate (<[Z.to_nat id := x]> (ng_state s)) s.
Definition with_rr_idx i (x : socket_state_t) : socket_state_t :=
  SState i (ss_reply_src x) (ss_respondent_src x) (ss_survey_deadline x) (ss_survey_active x)
    (ss_topics x) (ss_num_topics x).
Definition with_reply_src i (x : socket_state_t) : socket_state_t :=
  SState (ss_rr_idx x) i (ss_respondent_src x) (ss_survey_deadline x) (ss_survey_active x)
    (ss_topics x) (ss_num_topics x).
Definition with_respondent_src i (x : socket_state_t) : socket_state_t :=
  SState (ss_rr_idx x) (ss_reply_src x) i (ss_survey_deadline x) (ss_survey_active x)
    (ss_topics x) (ss_num_topics x).
Definition with_survey d b (x : socket_state_t) : socket_state_t :=
  SState (ss_rr_idx x) (ss_reply_src x) (ss_respondent_src x) d b (ss_topics x) (ss_num_topics x).
Definition with_topics t n (x : socket_state_t) : socket_state_t :=
  SState (ss_rr_idx x) (ss_reply_src x) (ss_respondent_src x) (ss_survey_deadline x)
    (ss_survey_active x) t n.
(** The five assignments that reset a socket's state. *)
Definition reset_sstate (x : socket_state_t) : socket_state_t :=
  with_topics (ss_topics x) 0
    (with_survey (ss_survey_deadline x) false
       (with_respondent_src (-1) (with_reply_src (-1) (with_rr_idx 0 x)))).

Definition socket_valid (s : nng) (id : Z) : bool :=
  ((id >=? 0) && (id <? Z.of_nat MAX_SOCKETS) && (so_id (ng_pool s !!! Z.to_nat id) =? id))%bool.

Definition protocol_of (s : nng) (id : Z) : Z := so_protocol (ng_pool s !!! Z.to_nat id).

(** ** Lifecycle *)

Definition nng_init (s : nng) : nng :=
  Nng (ng_alloc s) (ng_msgs s) (ng_bufs s) (replicate MAX_MESSAGES free_slot)
    (replicate MAX_SOCKETS empty_queue) (reset_sstate <$> ng_state s)
    ((fun so => Sock (-1) (so_protocol so) (so_flags so)) <$> ng_pool s)
    ((fun p => Pipe (pp_src p) (pp_dst p) false) <$> ng_pipes s)
    init_crc32_table (ng_mem s).

Definition nng_bss (a : allocator) : nng :=
  Nng a ∅ ∅ (replicate MAX_MESSAGES free_slot) (replicate MAX_SOCKETS empty_queue)
    (replicate MAX_SOCKETS sstate_zero) (replicate MAX_SOCKETS (Sock 0 0 0))
    (replicate MAX_PIPES (Pipe 0 0 false)) (replicate 256 0) ∅.

(** Allocator calls, with the blocks they clear; every board's policy grants
    the kernel its heap, so the clearing goes through, as under []. *)
Definition heap_alloc (s : nng) (n : Z) : Z * nng :=
  let '(p, a, m) := alloc_memory [] (ng_alloc s) (ng_mem s) n in (p, set_mem m (set_alloc a s)).
Definition heap_free (s : nng) (p : Z) : nng :=
  let am := free_memory [] (ng_alloc s) (ng_mem s) p in
  set_objects (delete p (ng_msgs s)) (delete p (ng_bufs s)) (set_mem am.2 (set_alloc am.1 s)).

(** The size of the block a request of [n] bytes gets. *)
Definition block_capacity (n : Z) : nat :=
  match find_size_class n with Some c => Z.to_nat (block_sizes !!! c) | None => 0%nat end.

(** ** Message pool *)

(** The struct's 24 bytes at [a]: body, body_len, header, header_len, flags,
    checksum. *)
Definition store_msg (m : gmap Z Z) (a : Z) (o : nng_msg_t) : gmap Z Z :=
  store m a (le_bytes 4 (n_body o) ++ le_bytes 4 (n_body_len o) ++ le_bytes 4 0 ++ le_bytes 4 0 ++
             le_bytes 4 (n_flags o) ++ le_bytes 4 (n_checksum o)).

(** Returns rv and the new message's address; [msgp] is never NULL in the
    callers of the model. *)
Definition nng_msg_alloc (s : nng) (size : Z) : Z * Z * nng :=
  match findi (fun sl => negb (ms_in_use sl)) (ng_slots s) with
  | None => (NNG_ENOMEM, 0, s)
  | Some slot =>
      if size >? MSG_BUFFER_SIZE then (NNG_EINVAL, 0, s)
      else
        let '(msg, s1) := heap_alloc s NNG_MSG_SIZE in
        if msg =? 0 then (NNG_ENOMEM, 0, s1)
        else
          let n := if size >? 0 then size else 8 in
          let '(buf, s2) := heap_alloc s1 n in
          if buf =? 0 then (NNG_ENOMEM, 0, heap_free s2 msg)
          else
            let s3 := set_objects (<[msg := NMsg buf 0 0 0]> (ng_msgs s2))
                        (<[buf := replicate (block_capacity n) 0]> (ng_bufs s2))
                        (set_mem (store_msg (ng_mem s2) msg (NMsg buf 0 0 0)) s2) in
            (NNG_OK, msg, set_slots (<[slot := MSlot msg buf true]> (ng_slots s3)) s3)
  end.

Definition nng_msg_free (s : nng) (msg : Z) : Z * nng :=
  if msg =? 0 then (NNG_EINVAL, s)
  else match findi (fun sl => (ms_in_use sl && (ms_msg sl =? msg))%bool) (ng_slots s) with
       | None => (NNG_EINVAL, s)
       | Some i =>
           let s1 := heap_free s (ms_buffer (ng_slots s !!! i)) in
           let s2 := heap_free s1 msg in
           (NNG_OK, set_slots (<[i := free_slot]> (ng_slots s2)) s2)
       end.

(** [plain_copy] into a buffer; [None] past its end. *)
Definition buf_write (buf : list Z) (off : nat) (data : list Z) : option (list Z) :=
  if (off + length data <=? length buf)%nat
  then Some (take off buf ++ data ++ drop (off + length data) buf)
  else None.

(** The bytes of a message's body. *)
Definition msg_bytes (s : nng) (m : nng_msg_t) : option (list Z) :=
  take (Z.to_nat (n_body_len m)) <$> ng_bufs s !! n_body m.

Section Messages.
Context (rt : regions).

(** [data] are the [size] bytes at address [src]. *)
Definition nng_msg_append (s : nng) (msg src : Z) (data : list Z) : option (Z * nng) :=
  if ((msg =? 0) || (src =? 0))%bool then Some (NNG_EINVAL, s)
  else if (negb (security_validate_memory_access rt msg NNG_MSG_SIZE true) ||
           negb (security_validate_memory_access rt src (Z.of_nat (length data)) false))%bool
  then Some (NNG_EINVAL, s)
  else
    m ← ng_msgs s !! msg;
    if n_body_len m + Z.of_nat (length data) >? MSG_BUFFER_SIZE then Some (NNG_ENOMEM, s)
    else
      buf ← ng_bufs s !! n_body m;
      buf' ← buf_write buf (Z.to_nat (n_body_len m)) data;
      let len := n_body_len m + Z.of_nat (length data) in
      let sum := calculate_checksum rt (ng_crc s) (n_body m) (take (Z.to_nat len) buf') in
      let m' := NMsg (n_body m) len (n_flags m) sum in
      let mem := store_msg (store (ng_mem s) (n_body m + n_body_len m) data) msg m' in
      Some (NNG_OK, set_objects (<[msg := m']> (ng_msgs s)) (<[n_body m := buf']> (ng_bufs s)) (set_mem mem s)).

(** *** Queues and pipes *)

Definition enqueue_incoming (s : nng) (sock_id msg : Z) : Z * nng :=
  let q := ng_queues s !!! Z.to_nat sock_id in
  if q_count q >=? Z.of_nat MAX_QUEUED_MSGS then (NNG_ENOMEM, s)
  else
    let q' := IQueue (<[Z.to_nat (q_tail q) := msg]> (q_messages q)) (q_head q)
                (Z.land (q_tail q + 1) (Z.of_nat MAX_QUEUED_MSGS - 1)) (q_count q + 1) in
    (NNG_OK, set_queues (<[Z.to_nat sock_id := q']> (ng_queues s)) s).

Definition deliver_copy (s : nng) (sock_id src_msg : Z) : option (Z * nng) :=
  let '(rv, copy, s1) := nng_msg_alloc s 0 in
  if negb (rv =? NNG_OK) then Some (rv, s1)
  else
    m ← ng_msgs s1 !! src_msg;
    body ← msg_bytes s1 m;
    '(rv, s2) ← (if n_body_len m >? 0 then nng_msg_append s1 copy (n_body m) body
                 else Some (NNG_OK, s1));
    if negb (rv =? NNG_OK) then Some (rv, (nng_msg_free s2 copy).2)
    else
      let '(rv, s3) := enqueue_incoming s2 sock_id copy in
      Some (rv, if negb (rv =? NNG_OK) then (nng_msg_free s3 copy).2 else s3).

(** The subscription test of a SUB socket on a message's bytes. *)
Definition sub_accepts (s : nng) (sock_id : Z) (body : list Z) : bool :=
  let st := sstate s sock_id in
  existsb (fun '(topic, tlen) =>
             ((tlen =? 0) ||
              ((Z.of_nat (length body) >=? tlen) &&
               bool_decide (take (Z.to_nat tlen) body = take (Z.to_nat tlen) topic)))%bool)
          (take (Z.to_nat (ss_num_topics st)) (ss_topics st)).

(** The peer a pipe offers to [sock_id], -1 for none. *)
Definition pipe_peer (sock_id proto : Z) (p : pipe_t) : Z :=
  if negb (pp_in_use p) then -1
  else if proto =? NNG_PROTO_BUS0
  then if pp_src p =? sock_id then pp_dst p
       else if pp_dst p =? sock_id then pp_src p else -1
  else if pp_src p =? sock_id then pp_dst p else -1.

Definition collect_peers (s : nng) (sock_id proto : Z) (max_peers : nat) : list Z :=
  take max_peers
    (filter (fun peer => (peer >= 0) /\ socket_valid s peer = true /\ protocol_of s peer = proto)
       (pipe_peer sock_id proto <$> ng_pipes s)).
End Messages.

(** ** Sockets *)

(** Returns rv, the caller's socket struct and the state. *)
Definition nng_socket_create (s : nng) (sock : nng_socket_t) (protocol : Z)
    : Z * nng_socket_t * nng :=
  match findi (fun so => so_id so <? 0) (ng_pool s) with
  | None => (NNG_ENOMEM, sock, s)
  | Some i =>
      let so := Sock (Z.of_nat i) protocol 0 in
      (NNG_OK, so,
       upd_sstate (Z.of_nat i) (reset_sstate (sstate s (Z.of_nat i)))
         (set_pool (<[i := so]> (ng_pool s)) s))
  end.

(** Freeing what the queue's slots hold. *)
Definition free_all (s : nng) (ptrs : list Z) : nng :=
  foldl (fun s p => if p =? 0 then s else (nng_msg_free s p).2) s ptrs.

Definition nng_socket_close (s : nng) (sock : nng_socket_t) : Z * nng_socket_t * nng :=
  if negb (socket_valid s (so_id sock)) then (NNG_EINVAL, sock, s)
  else
    let id := so_id sock in
    let i := Z.to_nat id in
    let s1 := free_all s (q_messages (ng_queues s !!! i)) in
    let s2 := set_queues (<[i := empty_queue]> (ng_queues s1)) s1 in
    let s3 := set_pipes ((fun p => if (pp_in_use p && ((pp_src p =? id) || (pp_dst p =? id)))%bool
                                   then Pipe (pp_src p) (pp_dst p) false else p) <$> ng_pipes s2) s2 in
    let so := ng_pool s3 !!! i in
    (NNG_OK, Sock (-1) (so_protocol sock) (so_flags sock),
     set_pool (<[i := Sock (-1) (so_protocol so) (so_flags so)]> (ng_pool s3)) s3).

Definition nng_connect (s : nng) (src dst : nng_socket_t) : Z * nng :=
  if (negb (socket_valid s (so_id src)) || negb (socket_valid s (so_id dst)))%bool
  then (NNG_EINVAL, s)
  else match findi (fun p => negb (pp_in_use p)) (ng_pipes s) with
       | None => (NNG_ENOMEM, s)
       | Some i => (NNG_OK, set_pipes (<[i := Pipe (so_id src) (so_id dst) true]> (ng_pipes s)) s)
       end.

Definition nng_shutdown (s : nng) : nng :=
  let s1 := foldl (fun s sl => if ms_in_use sl
                               then heap_free (heap_free s (ms_buffer sl)) (ms_msg sl) else s)
              s (ng_slots s) in
  let s1 := set_slots ((fun sl => MSlot (ms_msg sl) (ms_buffer sl) false) <$> ng_slots s1) s1 in
  let s2 := foldl free_all s1 (q_messages <$> ng_queues s1) in
  let s3 := set_queues ((fun q => IQueue (replicate MAX_QUEUED_MSGS 0) (q_head q) (q_tail q) (q_count q))
                          <$> ng_queues s2) s2 in
  let s4 := set_pool ((fun so => Sock (-1) (so_protocol so) (so_flags so)) <$> ng_pool s3) s3 in
  set_pipes ((fun p => Pipe (pp_src p) (pp_dst p) false) <$> ng_pipes s4) s4.

(** ** Subscriptions; [topic] holds [topic_len] bytes. *)

Definition nng_sub_subscribe (s : nng) (sock : nng_socket_t) (topic : list Z) (topic_len : Z)
    : Z * nng :=
  if (negb (socket_valid s (so_id sock)) || negb (protocol_of s (so_id sock) =? NNG_PROTO_SUB0))%bool
  then (NNG_EINVAL, s)
  else if topic_len >? Z.of_nat MAX_TOPIC_LEN then (NNG_EINVAL, s)
  else
    let st := sstate s (so_id sock) in
    if ss_num_topics st >=? Z.of_nat MAX_SUBS then (NNG_ENOMEM, s)
    else
      let idx := Z.to_nat (ss_num_topics st) in
      let old := (ss_topics st !!! idx).1 in
      let new := take (Z.to_nat topic_len) topic ++ drop (Z.to_nat topic_len) old in
      (NNG_OK, upd_sstate (so_id sock)
                 (with_topics (<[idx := (new, u8 topic_len)]> (ss_topics st)) (ss_num_topics st + 1) st) s).

Definition nng_sub_unsubscribe (s : nng) (sock : nng_socket_t) (topic : list Z) (topic_len : Z)
    : Z * nng :=
  if (negb (socket_valid s (so_id sock)) || negb (protocol_of s (so_id sock) =? NNG_PROTO_SUB0))%bool
  then (NNG_EINVAL, s)
  else
    let st := sstate s (so_id sock) in
    match findi (fun '(t, l) =>
                   ((l =? u8 topic_len) &&
                    ((topic_len =? 0) ||
                     bool_decide (take (Z.to_nat topic_len) t = take (Z.to_nat topic_len) topic)))%bool)
            (take (Z.to_nat (ss_num_topics st)) (ss_topics st)) with
    | None => (NNG_ENOENT, s)
    | Some i =>
        let last := ss_num_topics st - 1 in
        (NNG_OK, upd_sstate (so_id sock)
                   (with_topics (<[i := ss_topics st !!! Z.to_nat last]> (ss_topics st)) last st) s)
    end.

(** ** Send and receive *)
Section Traffic.
Context (rt : regions).

(** Fan-out; [k] is what follows a delivery that succeeded. *)
Fixpoint deliver_each (k : Z -> nng -> nng) (msg : Z) (peers : list Z) (s : nng) : option nng :=
  match peers with
  | [] => Some s
  | p :: peers =>
      '(rv, s1) ← deliver_copy rt s p msg;
      deliver_each k msg peers (if rv =? NNG_OK then k p s1 else s1)
  end.

(** The round-robin index, and its successor. *)
Definition rr_pick (idx n : Z) : Z := if ((idx <? 0) || (idx >=? n))%bool then 0 else idx.
Definition rr_succ (idx n : Z) : Z := if idx + 1 >=? n then 0 else idx + 1.

Definition send_pub (s : nng) (id msg : Z) : option (Z * nng) :=
  m ← ng_msgs s !! msg;
  body ← msg_bytes s m;
  let peers := collect_peers s id NNG_PROTO_SUB0 MAX_SOCKETS in
  s' ← deliver_each (fun _ s => s) msg (filter (fun p => sub_accepts s p body = true) peers) s;
  Some (NNG_OK, s').

Definition send_push (s : nng) (id msg : Z) : option (Z * nng) :=
  let peers := collect_peers s id NNG_PROTO_PULL0 MAX_SOCKETS in
  let n := Z.of_nat (length peers) in
  if n =? 0 then Some (NNG_ENOTSUP, s)
  else
    let idx := rr_pick (ss_rr_idx (sstate s id)) n in
    '(rv, s1) ← deliver_copy rt s (peers !!! Z.to_nat idx) msg;
    Some (rv, upd_sstate id (with_rr_idx (rr_succ idx n) (sstate s1 id)) s1).

Definition send_req (s : nng) (id msg : Z) : option (Z * nng) :=
  let peers := collect_peers s id NNG_PROTO_REP0 MAX_SOCKETS in
  let n := Z.of_nat (length peers) in
  if n =? 0 then Some (NNG_ENOTSUP, s)
  else
    let idx := rr_pick (ss_rr_idx (sstate s id)) n in
    let rep := peers !!! Z.to_nat idx in
    '(rv, s1) ← deliver_copy rt s rep msg;
    if rv =? NNG_OK
    then
      let s2 := upd_sstate rep (with_reply_src id (sstate s1 rep)) s1 in
      Some (rv, upd_sstate id (with_rr_idx (rr_succ idx n) (sstate s2 id)) s2)
    else Some (rv, s1).

Definition send_rep (s : nng) (id msg : Z) : option (Z * nng) :=
  let req := ss_reply_src (sstate s id) in
  if ((req <? 0) || negb (socket_valid s req))%bool then Some (NNG_ENOTSUP, s)
  else
    '(rv, s1) ← deliver_copy rt s req msg;
    Some (rv, upd_sstate id (with_reply_src (-1) (sstate s1 id)) s1).

Definition send_bus (s : nng) (id msg : Z) : option (Z * nng) :=
  s' ← deliver_each (fun _ s => s) msg (collect_peers s id NNG_PROTO_BUS0 MAX_SOCKETS) s;
  Some (NNG_OK, s').

Definition send_surveyor (now : Z) (s : nng) (id msg : Z) : option (Z * nng) :=
  let peers := collect_peers s id NNG_PROTO_RESPONDENT0 MAX_SOCKETS in
  if (length peers =? 0)%nat then Some (NNG_ENOTSUP, s)
  else
    s1 ← deliver_each (fun p s => upd_sstate p (with_respondent_src id (sstate s p)) s) msg peers s;
    Some (NNG_OK, upd_sstate id (with_survey (u64 (now + SURVEYOR_TIMEOUT_TICKS)) true (sstate s1 id)) s1).

Definition send_respondent (now : Z) (s : nng) (id msg : Z) : option (Z * nng) :=
  let sv := ss_respondent_src (sstate s id) in
  if ((sv <? 0) || negb (socket_valid s sv))%bool then Some (NNG_ENOTSUP, s)
  else if (negb (ss_survey_active (sstate s sv)) || (now >? ss_survey_deadline (sstate s sv)))%bool
  then Some (NNG_ETIMEDOUT, upd_sstate id (with_respondent_src (-1) (sstate s id)) s)
  else
    '(rv, s1) ← deliver_copy rt s sv msg;
    Some (rv, upd_sstate id (with_respondent_src (-1) (sstate s1 id)) s1).

Definition send_pair (s : nng) (id msg : Z) : option (Z * nng) :=
  let peers := collect_peers s id NNG_PROTO_PAIR1 MAX_SOCKETS in
  match peers with
  | [] => Some (NNG_ENOTSUP, s)
  | p :: _ => deliver_copy rt s p msg
  end.

Definition send_dispatch (now : Z) (s : nng) (id msg : Z) : option (Z * nng) :=
  let proto := protocol_of s id in
  if proto =? NNG_PROTO_PUB0 then send_pub s id msg
  else if proto =? NNG_PROTO_PUSH0 then send_push s id msg
  else if proto =? NNG_PROTO_REQ0 then send_req s id msg
  else if proto =? NNG_PROTO_REP0 then send_rep s id msg
  else if proto =? NNG_PROTO_BUS0 then send_bus s id msg
  else if proto =? NNG_PROTO_SURVEYOR0 then send_surveyor now s id msg
  else if proto =? NNG_PROTO_RESPONDENT0 then send_respondent now s id msg
  else if proto =? NNG_PROTO_PAIR1 then send_pair s id msg
  else Some (NNG_ENOTSUP, s).

Definition nng_send (now : Z) (s : nng) (sock : nng_socket_t) (msg : Z) : option (Z * nng) :=
  if ((msg =? 0) || negb (socket_valid s (so_id sock)))%bool then Some (NNG_EINVAL, s)
  else
    '(rv, s1) ← send_dispatch now s (so_id sock) msg;
    Some (rv, (nng_msg_free s1 msg).2).

(** Returns rv, [*msgp] when a message was taken, and the state. *)
Definition nng_recv (now : Z) (s : nng) (sock : nng_socket_t) : Z * Z * nng :=
  if negb (socket_valid s (so_id sock)) then (NNG_EINVAL, 0, s)
  else
    let id := so_id sock in
    let st := sstate s id in
    let s := if ((protocol_of s id =? NNG_PROTO_SURVEYOR0) && ss_survey_active st &&
                 (now >? ss_survey_deadline st))%bool
             then upd_sstate id (with_survey (ss_survey_deadline st) false st) s else s in
    let q := ng_queues s !!! Z.to_nat id in
    if q_count q =? 0 then (NNG_ETIMEDOUT, 0, s)
    else
      let q' := IQueue (<[Z.to_nat (q_head q) := 0]> (q_messages q))
                  (Z.land (q_head q + 1) (Z.of_nat MAX_QUEUED_MSGS - 1)) (q_tail q) (q_count q - 1) in
      (NNG_OK, q_messages q !!! Z.to_nat (q_head q),
       set_queues (<[Z.to_nat id := q']> (ng_queues s)) s).

(** ** Conversion

    [msg_at] is the address of the caller's [message_t], [local] of the two
    locals the header fields are copied from. *)
Definition MSG_PAYLOAD_OFF : Z := 16.

Definition lugh_message_to_nng (s : nng) (m : message_t) (msg_at local : Z) : option (Z * Z * nng) :=
  let '(rv, msg, s1) := nng_msg_alloc s 0 in
  if negb (rv =? NNG_OK) then Some (rv, msg, s1)
  else
    let text := cstr (m_payload m) in
    '(rv, s2) ← nng_msg_append rt s1 msg local [u8 (m_priority m)];
    '(rv, s3) ← (if rv =? NNG_OK then nng_msg_append rt s2 msg (local + 4) (le_bytes 4 (m_operation m))
                 else Some (rv, s2));
    '(rv, s4) ← (if rv =? NNG_OK then nng_msg_append rt s3 msg (msg_at + MSG_PAYLOAD_OFF) (text ++ [0])
                 else Some (rv, s3));
    if negb (rv =? NNG_OK) then Some (rv, msg, (nng_msg_free s4 msg).2)
    else Some (NNG_OK, msg, s4).

(** Fills [*lugh_msg]; the checksum and padding fields keep their values. *)
Definition nng_message_to_lugh (s : nng) (msg : Z) (m : message_t) : option (Z * message_t) :=
  if msg =? 0 then Some (NNG_EINVAL, m)
  else
    o ← ng_msgs s !! msg;
    if ((n_body o =? 0) || (n_body_len o <? 5))%bool then Some (NNG_EINVAL, m)
    else
      body ← msg_bytes s o;
      let plen := n_body_len o - 5 in
      let plen := if plen >=? Z.of_nat MAX_MSG_SIZE then Z.of_nat MAX_MSG_SIZE - 1 else plen in
      let n := Z.to_nat plen in
      let payload := take n (drop 5 body) ++ drop n (m_payload m) in
      Some (NNG_OK, Message (body !!! 0%nat) (le_val (take 4 (drop 1 body))) (m_checksum m)
                      (m_padding1 m) (<[n := 0]> payload)).
End Traffic.

(** ** Incoming queues *)

Record queue_wf (q : incoming_queue_t) : Prop := {
  qw_len : length (q_messages q) = 16%nat;
  qw_head : 0 <= q_head q < 16;
  qw_count : 0 <= q_count q <= 16;
  qw_tail : q_tail q = (q_head q + q_count q) mod 16
}.

(** The messages waiting, oldest first. *)
Definition queue_contents (q : incoming_queue_t) : list Z :=
  window (q_messages q) (Z.to_nat (q_head q)) (Z.to_nat (q_count q)).
Definition socket_queue (s : nng) (id : Z) : list Z := queue_contents (ng_queues s !!! Z.to_nat id).

Definition queues_wf (s : nng) : Prop :=
  length (ng_queues s) = 16%nat /\ forall i, (i < 16)%nat -> queue_wf (ng_queues s !!! i).

Lemma land_15_mod z : Z.land z 15 = z mod 16.
Proof. exact (land_ones_mod z 4 ltac:(lia)). Qed.

Lemma length_queue_contents q :
  queue_wf q -> Z.of_nat (length (queue_contents q)) = q_count q.
Proof. intros Hq. unfold queue_contents. rewrite length_window. pose proof (qw_count q Hq). lia. Qed.

Lemma enqueue_spec s id p :
  queues_wf s -> 0 <= id < 16 ->
  let '(rv, s') := enqueue_incoming s id p in
  queues_wf s' /\
  (if decide (length (socket_queue s id) = 16%nat) then rv = NNG_ENOMEM /\ s' = s
   else rv = NNG_OK /\ socket_queue s' id = socket_queue s id ++ [p] /\
        (forall j, 0 <= j < 16 -> j <> id -> socket_queue s' j = socket_queue s j) /\
        exists q, s' = set_queues q s).
Proof.
  intros [Hlen Hall] Hid. unfold enqueue_incoming, socket_queue.
  pose proof (Hall (Z.to_nat id) ltac:(lia)) as Hq. set (q := ng_queues s !!! Z.to_nat id) in *.
  pose proof (length_queue_contents q Hq) as Hlc. destruct Hq as [Hl Hh Hc Ht].
  change (Z.of_nat MAX_QUEUED_MSGS - 1) with 15. change (Z.of_nat MAX_QUEUED_MSGS) with 16.
  rewrite land_15_mod. destruct (q_count q >=? 16) eqn:E; bools.
  { split; [by split|]. rewrite decide_True by lia. done. }
  rewrite decide_False by lia.
  assert (Hsame : forall x, <[Z.to_nat id := x]> (ng_queues s) !!! Z.to_nat id = x).
  { intros x. rewrite list_lookup_total_insert_eq; [done|]. rewrite Hlen. lia. }
  set (q' := IQueue _ _ _ _).
  assert (Hq' : queue_wf q').
  { split; cbn.
    - by rewrite length_insert.
    - done.
    - lia.
    - lia. }
  split.
  - split; [cbn; by rewrite length_insert|]. intros i Hi. cbn.
    rewrite list_lookup_total_insert. case_decide; [done|]. by apply Hall.
  - split; [done|]. cbn [ng_queues set_queues]. rewrite Hsame. split; [|split; [|by eexists]].
    + unfold queue_contents, q'. cbn [q_messages q_head q_count].
      replace (Z.to_nat (q_count q + 1)) with (S (Z.to_nat (q_count q))) by lia.
      replace (Z.to_nat (q_tail q))
        with ((Z.to_nat (q_head q) + Z.to_nat (q_count q)) mod length (q_messages q))%nat.
      * apply window_push. rewrite Hl. lia.
      * rewrite Hl, Ht. apply Nat2Z.inj. rewrite Nat2Z.inj_mod. lia.
    + intros j Hj Hne. rewrite list_lookup_total_insert_ne; [done|]. lia.
Qed.

(** Taking a message, for a socket that is not a surveyor. *)
Lemma nng_recv_spec now s sock :
  queues_wf s -> socket_valid s (so_id sock) = true -> protocol_of s (so_id sock) <> NNG_PROTO_SURVEYOR0 ->
  match socket_queue s (so_id sock) with
  | [] => nng_recv now s sock = (NNG_ETIMEDOUT, 0, s)
  | p :: rest =>
      exists q, nng_recv now s sock = (NNG_OK, p, set_queues q s) /\
        queues_wf (set_queues q s) /\ socket_queue (set_queues q s) (so_id sock) = rest /\
        (forall j, 0 <= j < 16 -> j <> so_id sock -> socket_queue (set_queues q s) j = socket_queue s j)
  end.
Proof.
  intros [Hlen Hall] Hv Hp. unfold nng_recv. rewrite Hv. cbn [negb].
  replace (protocol_of s (so_id sock) =? NNG_PROTO_SURVEYOR0) with false by lia. cbn [andb].
  unfold socket_valid, MAX_SOCKETS in Hv. bools.
  unfold socket_queue. set (id := so_id sock) in *.
  pose proof (Hall (Z.to_nat id) ltac:(lia)) as Hq. set (q := ng_queues s !!! Z.to_nat id) in *.
  pose proof (length_queue_contents q Hq) as Hlc. pose proof Hq as [Hl Hh Hc Ht].
  destruct (queue_contents q) as [|p rest] eqn:Eq; cbn in Hlc.
  - replace (q_count q =? 0) with true by lia. done.
  - replace (q_count q =? 0) with false by lia.
    assert (HS : Z.to_nat (q_count q) = S (length rest)) by lia.
    pose proof Eq as Eq'. unfold queue_contents in Eq'. rewrite HS, window_cons in Eq'.
    assert (Hm : (Z.to_nat (q_head q) mod length (q_messages q))%nat = Z.to_nat (q_head q)).
    { rewrite Hl. apply Nat.mod_small. lia. }
    rewrite Hm in Eq'. injection Eq' as Hhead Hrest.
    change (Z.of_nat MAX_QUEUED_MSGS - 1) with 15. rewrite land_15_mod.
    set (q' := IQueue _ _ _ _). exists (<[Z.to_nat id := q']> (ng_queues s)).
    rewrite Hhead. split; [done|].
    assert (Hwf : queue_wf q').
    { split; cbn.
      - by rewrite length_insert.
      - lia.
      - lia.
      - rewrite Ht. lia. }
    split; [split; [cbn; by rewrite length_insert|]|split].
    + intros i Hi. cbn. rewrite list_lookup_total_insert. case_decide; [done|]. by apply Hall.
    + cbn. rewrite list_lookup_total_insert_eq by lia. unfold queue_contents, q'. cbn.
      rewrite <-Hrest.
      replace (Z.to_nat ((q_head q + 1) mod 16)) with (S (Z.to_nat (q_head q)) mod 16)%nat
        by (apply Nat2Z.inj; rewrite Nat2Z.inj_mod; lia).
      replace (Z.to_nat (q_count q - 1)) with (length rest) by lia.
      set (buf := <[Z.to_nat (q_head q) := 0]> (q_messages q)).
      assert (Hlb : length buf = 16%nat) by (unfold buf; by rewrite length_insert).
      pose proof (window_mod buf (S (Z.to_nat (q_head q))) (length rest)) as Hw.
      rewrite Hlb in Hw. rewrite Hw. apply window_ext; [by rewrite Hl|].
      intros k Hk. rewrite Hlb. unfold buf. apply list_lookup_total_insert_ne.
      intros He. assert (Hz : (Z.to_nat (q_head q) mod 16 = (Z.to_nat (q_head q) + S k) mod 16)%nat).
      { rewrite Nat.mod_small at 1 by lia. rewrite He. f_equal. lia. }
      rewrite <-(Nat.add_0_r (Z.to_nat (q_head q))) in Hz at 1.
      apply (mod_shift_neq 16 (Z.to_nat (q_head q)) 0 (S k)); [lia|lia|exact Hz].
    + intros j Hj Hne. cbn. rewrite list_lookup_total_insert_ne; [done|]. lia.
Qed.

(** ** Message objects *)

(** Every object lives at an address the allocator has handed out. *)
Record objs_wf (s : nng) : Prop := {
  ow_shape : shaped (al_blocks (ng_alloc s));
  ow_live : forall p, is_Some (ng_msgs s !! p) \/ is_Some (ng_bufs s !! p) -> p ∈ live_addrs (ng_alloc s)
}.

Definition in_heap (p : Z) : Prop := MM_HEAP_START <= p /\ p + 64 <= MM_HEAP_END.

Lemma live_in_heap a p : p ∈ live_addrs a -> in_heap p.
Proof.
  intros (c & i & Hc & Hi & -> & _)%elem_of_live. pose proof (block_in_heap c i Hc Hi) as [? ?].
  assert (64 <= block_sizes !!! c) by (destruct (class_cases c Hc) as [->|[->|[->| ->]]]; cbn; lia).
  unfold in_heap. lia.
Qed.

Lemma heap_alloc_spec s n p s' :
  shaped (al_blocks (ng_alloc s)) -> 0 <= n -> heap_alloc s n = (p, s') ->
  s' = set_mem (ng_mem s') (set_alloc (ng_alloc s') s) /\ shaped (al_blocks (ng_alloc s')) /\
  (if p =? 0 then live_addrs (ng_alloc s') = live_addrs (ng_alloc s)
   else (p ∉ live_addrs (ng_alloc s)) /\ live_addrs (ng_alloc s') = {[p]} ∪ live_addrs (ng_alloc s)).
Proof.
  intros Hs Hn. unfold heap_alloc.
  pose proof (heap_exec_spec [] (ng_alloc s, ng_mem s) (OpAlloc n) Hs Hn) as H. cbn [heap_exec fst snd] in H.
  destruct (alloc_memory [] (ng_alloc s) (ng_mem s) n) as [[q a] m]. intros [= <- <-].
  destruct H as [Hs' H]. split; [done|]. split; [done|]. cbn [fst snd heap_spec] in H.
  destruct H as [(-> & Hl & _)|(c & i & [Hc _] & Hi & Hp & _ & Hnin & Hl)].
  - done.
  - pose proof (block_in_heap c i Hc Hi) as [? _]. unfold MM_HEAP_START in *.
    replace (q =? 0) with false by lia. done.
Qed.

Lemma nng_msg_alloc_spec s p s' :
  objs_wf s -> nng_msg_alloc s 0 = (NNG_OK, p, s') ->
  objs_wf s' /\ in_heap p /\ ng_queues s' = ng_queues s /\ ng_crc s' = ng_crc s /\
  exists b, in_heap b /\ ng_msgs s !! p = None /\ ng_bufs s !! b = None /\
    ng_msgs s' = <[p := NMsg b 0 0 0]> (ng_msgs s) /\
    ng_bufs s' = <[b := replicate 64 0]> (ng_bufs s).
Proof.
  intros [Hs Hl]. unfold nng_msg_alloc. destruct (findi _ _) as [slot|]; [|done].
  change (0 >? MSG_BUFFER_SIZE) with false. cbv iota.
  destruct (heap_alloc s NNG_MSG_SIZE) as [q s1] eqn:E1.
  destruct (heap_alloc_spec s NNG_MSG_SIZE q s1 Hs ltac:(done) E1) as (He1 & Hs1 & Hl1).
  destruct (q =? 0) eqn:Eq; [done|]. change (0 >? 0) with false. cbv iota.
  destruct (heap_alloc s1 8) as [b s2] eqn:E2.
  destruct (heap_alloc_spec s1 8 b s2 Hs1 ltac:(done) E2) as (He2 & Hs2 & Hl2).
  destruct (b =? 0) eqn:Eb; [done|]. intros [= <- <-].
  destruct Hl1 as [Hn1 Hl1], Hl2 as [Hn2 Hl2].
  assert (Hm : ng_msgs s2 = ng_msgs s /\ ng_bufs s2 = ng_bufs s /\ ng_queues s2 = ng_queues s /\
               ng_crc s2 = ng_crc s) by (rewrite He2, He1; done).
  destruct Hm as (Hm & Hb & Hq & Hc).
  assert (Hqh : q ∈ live_addrs (ng_alloc s2)) by (rewrite Hl2, Hl1; apply elem_of_union_r, elem_of_union_l, elem_of_singleton; reflexivity).
  assert (Hbh : b ∈ live_addrs (ng_alloc s2)) by (rewrite Hl2; apply elem_of_union_l, elem_of_singleton; reflexivity).
  split; [|split; [by eapply live_in_heap|split; [done|split; [done|]]]].
  - split; [exact Hs2|]. cbn [ng_alloc ng_msgs ng_bufs set_slots set_objects set_mem]. rewrite Hm, Hb. intros x.
    rewrite !lookup_insert_is_Some. intros [[<-|[_ Hx]]|[<-|[_ Hx]]]; try done;
      rewrite Hl2, Hl1; apply elem_of_union_r, elem_of_union_r, Hl; auto.
  - exists b. split; [by eapply live_in_heap|].
    assert (ng_msgs s !! q = None /\ ng_bufs s !! b = None) as [-> ->].
    { split; apply eq_None_not_Some; intros Hx.
      - apply Hn1, Hl. by left.
      - apply Hn2. rewrite Hl1. apply elem_of_union_r, Hl. by right. }
    cbn [ng_msgs ng_bufs set_slots set_objects set_mem]. rewrite Hm, Hb. done.
Qed.

(** The message at [p] carries the bytes [bs]. *)
Definition msg_holds (s : nng) (p : Z) (bs : list Z) : Prop :=
  in_heap p /\ exists o buf, ng_msgs s !! p = Some o /\ ng_bufs s !! n_body o = Some buf /\
    in_heap (n_body o) /\ length buf = 64%nat /\ n_body_len o = Z.of_nat (length bs) /\
    take (length bs) buf = bs.

Section Bodies.
Context (rt : regions).
(** The policy grants kernel accesses to the heap window. *)
Hypothesis heap_allowed : forall a n w,
  0 < n -> MM_HEAP_START <= a -> a + n <= MM_HEAP_END -> security_validate_memory_access rt a n w = true.

Lemma nng_msg_append_ok s p src bs d :
  objs_wf s -> msg_holds s p bs -> src <> 0 ->
  security_validate_memory_access rt src (Z.of_nat (length d)) false = true ->
  (length bs + length d <= 64)%nat ->
  exists s', nng_msg_append rt s p src d = Some (NNG_OK, s') /\ objs_wf s' /\ msg_holds s' p (bs ++ d) /\
    ng_queues s' = ng_queues s /\ ng_crc s' = ng_crc s.
Proof.
  intros Hw (Hp & o & buf & Ho & Hbuf & Hb & Hl & Hlen & Ht) Hsrc Hsec Hfit.
  unfold nng_msg_append. unfold in_heap, MM_HEAP_START, MM_HEAP_END in *.
  replace (p =? 0) with false by lia. replace (src =? 0) with false by lia. cbn [orb].
  rewrite heap_allowed by (unfold NNG_MSG_SIZE, MM_HEAP_START, MM_HEAP_END; lia).
  rewrite Hsec. cbn [negb orb]. rewrite Ho. cbn [mbind option_bind].
  rewrite Hlen. unfold MSG_BUFFER_SIZE.
  replace (Z.of_nat (length bs) + Z.of_nat (length d) >? 256) with false by lia.
  rewrite Hbuf. cbn [mbind option_bind]. rewrite Nat2Z.id. unfold buf_write.
  rewrite (proj2 (Nat.leb_le (length bs + length d) (length buf))) by lia. cbn [mbind option_bind].
  eexists. split; [reflexivity|]. cbn [ng_queues ng_crc set_objects set_mem]. split; [|split; [|done]].
  - destruct Hw as [Hs Hlv]. split; [exact Hs|]. cbn [ng_alloc ng_msgs ng_bufs set_objects set_mem]. intros x.
    rewrite !lookup_insert_is_Some. intros [[<-|[_ Hx]]|[<-|[_ Hx]]]; apply Hlv; eauto.
  - split; [done|]. eexists _, _. cbn [ng_msgs ng_bufs set_objects set_mem n_body].
    rewrite lookup_insert_eq. split; [reflexivity|]. cbn [n_body n_body_len].
    rewrite lookup_insert_eq. split; [reflexivity|]. split; [done|].
    split; [|split; [by rewrite length_app; lia|]].
    + rewrite !length_app, length_take, length_drop. lia.
    + rewrite Ht, app_assoc, take_app_length. done.
Qed.

(** Past the end of the block. *)
Lemma nng_msg_append_overrun s p src bs d :
  msg_holds s p bs -> src <> 0 ->
  security_validate_memory_access rt src (Z.of_nat (length d)) false = true ->
  (64 < length bs + length d <= 256)%nat ->
  nng_msg_append rt s p src d = None.
Proof.
  intros (Hp & o & buf & Ho & Hbuf & Hb & Hl & Hlen & Ht) Hsrc Hsec Hfit.
  unfold nng_msg_append. unfold in_heap, MM_HEAP_START, MM_HEAP_END in *.
  replace (p =? 0) with false by lia. replace (src =? 0) with false by lia. cbn [orb].
  rewrite heap_allowed by (unfold NNG_MSG_SIZE, MM_HEAP_START, MM_HEAP_END; lia).
  rewrite Hsec. cbn [negb orb]. rewrite Ho. cbn [mbind option_bind].
  rewrite Hlen. unfold MSG_BUFFER_SIZE.
  replace (Z.of_nat (length bs) + Z.of_nat (length d) >? 256) with false by lia.
  rewrite Hbuf. cbn [mbind option_bind]. rewrite Nat2Z.id. unfold buf_write.
  rewrite (proj2 (Nat.leb_gt (length bs + length d) (length buf))) by lia. done.
Qed.

Lemma fresh_msg_holds s p s' :
  objs_wf s -> nng_msg_alloc s 0 = (NNG_OK, p, s') -> msg_holds s' p [].
Proof.
  intros Hw Ha. destruct (nng_msg_alloc_spec s p s' Hw Ha) as (_ & Hp & _ & _ & b & Hb & _ & _ & Hm & Hbf).
  split; [done|]. exists (NMsg b 0 0 0), (replicate 64 0). rewrite Hm, Hbf, !lookup_insert_eq.
  by split_and!.
Qed.

(** The wire form of a message. *)
Definition wire (m : message_t) : list Z :=
  [u8 (m_priority m)] ++ le_bytes 4 (m_operation m) ++ cstr (m_payload m) ++ [0].

Record sender_ok (m : message_t) (msg_at local : Z) : Prop := {
  so_local : 0 < local;
  so_prio : security_validate_memory_access rt local 1 false = true;
  so_op : security_validate_memory_access rt (local + 4) 4 false = true;
  so_at : 0 <= msg_at;
  so_text : security_validate_memory_access rt (msg_at + MSG_PAYLOAD_OFF)
              (Z.of_nat (length (cstr (m_payload m)) + 1)) false = true
}.

Lemma lugh_message_to_nng_cases s m msg_at local :
  objs_wf s -> sender_ok m msg_at local -> (length (cstr (m_payload m)) < 128)%nat ->
  (exists rv p s', rv <> NNG_OK /\ lugh_message_to_nng rt s m msg_at local = Some (rv, p, s')) \/
  ((58 < length (cstr (m_payload m)))%nat /\ lugh_message_to_nng rt s m msg_at local = None) \/
  (exists p s', (length (cstr (m_payload m)) <= 58)%nat /\
     lugh_message_to_nng rt s m msg_at local = Some (NNG_OK, p, s') /\
     objs_wf s' /\ msg_holds s' p (wire m) /\ ng_queues s' = ng_queues s /\ ng_crc s' = ng_crc s).
Proof.
  intros Hw [Hl Hs1 Hs2 Hat Hs3] Htext. unfold lugh_message_to_nng.
  destruct (nng_msg_alloc s 0) as [[rv p] s1] eqn:Ea.
  destruct (rv =? NNG_OK) eqn:Erv; bools; cbn [negb].
  2: { left. by eexists _, _, _. }
  subst rv. pose proof (fresh_msg_holds s p s1 Hw Ea) as H0.
  destruct (nng_msg_alloc_spec s p s1 Hw Ea) as (Hw1 & Hp & Hq1 & Hc1 & _).
  destruct (nng_msg_append_ok s1 p local [] [u8 (m_priority m)] Hw1 H0 ltac:(lia) Hs1 ltac:(cbn; lia))
    as (s2 & -> & Hw2 & H2 & Hq2 & Hc2). cbn [mbind option_bind]. rewrite Z.eqb_refl.
  destruct (nng_msg_append_ok s2 p (local + 4) _ (le_bytes 4 (m_operation m)) Hw2 H2 ltac:(lia) Hs2
              ltac:(cbn; lia)) as (s3 & -> & Hw3 & H3 & Hq3 & Hc3). cbn [mbind option_bind].
  rewrite Z.eqb_refl. cbv zeta. set (text := cstr (m_payload m)) in *.
  assert (Hlen : length (text ++ [0]) = (length text + 1)%nat) by (rewrite length_app; cbn; lia).
  assert (Hsrc : msg_at + MSG_PAYLOAD_OFF <> 0) by (unfold MSG_PAYLOAD_OFF; lia).
  destruct (decide (length text <= 58)%nat) as [Hle|Hgt].
  - right. right.
    destruct (nng_msg_append_ok s3 p (msg_at + MSG_PAYLOAD_OFF) _ (text ++ [0]) Hw3 H3 Hsrc
                ltac:(by rewrite Hlen) ltac:(rewrite Hlen; cbn; lia))
      as (s4 & -> & Hw4 & H4 & Hq4 & Hc4). cbn [mbind option_bind]. cbn [negb Z.eqb NNG_OK].
    exists p, s4. split; [done|]. split; [done|]. split; [done|]. split; [|by rewrite Hq4, Hq3, Hq2, Hq1, Hc4, Hc3, Hc2, Hc1].
    unfold wire. fold text. revert H4. by rewrite <-!app_assoc.
  - right. left. split; [lia|].
    rewrite (nng_msg_append_overrun s3 p _ _ _ H3 Hsrc ltac:(by rewrite Hlen)); [done|].
    rewrite Hlen. cbn. lia.
Qed.
End Bodies.

(** ** Delivery *)
Section Delivery.
Context (rt : regions).
Hypothesis heap_allowed : forall a n w,
  0 < n -> MM_HEAP_START <= a -> a + n <= MM_HEAP_END -> security_validate_memory_access rt a n w = true.

Lemma msg_holds_alloc s p bs q s' :
  objs_wf s -> msg_holds s p bs -> nng_msg_alloc s 0 = (NNG_OK, q, s') -> msg_holds s' p bs.
Proof.
  intros Hw (Hp & o & buf & Ho & Hb & Hrest) Ha.
  destruct (nng_msg_alloc_spec s q s' Hw Ha) as (_ & _ & _ & _ & b & _ & Hq & Hbn & Hm & Hbf).
  split; [done|]. exists o, buf. rewrite Hm, Hbf, !lookup_insert_ne; [done|congruence|congruence].
Qed.

Lemma queues_wf_ext s s' : ng_queues s' = ng_queues s -> queues_wf s -> queues_wf s'.
Proof. unfold queues_wf. by intros ->. Qed.

(** A successful delivery queues a message with the same bytes. *)
Lemma deliver_copy_cases s id p bs :
  objs_wf s -> queues_wf s -> 0 <= id < 16 -> msg_holds s p bs -> (0 < length bs <= 64)%nat ->
  exists rv s', deliver_copy rt s id p = Some (rv, s') /\
    (rv = NNG_OK -> exists c, objs_wf s' /\ queues_wf s' /\ msg_holds s' c bs /\
       socket_queue s' id = socket_queue s id ++ [c] /\
       (forall j, 0 <= j < 16 -> j <> id -> socket_queue s' j = socket_queue s j)).
Proof.
  intros Hw Hqw Hid Hh Hlen. unfold deliver_copy.
  destruct (nng_msg_alloc s 0) as [[rv c] s1] eqn:Ea.
  destruct (rv =? NNG_OK) eqn:Erv; bools; cbn [negb].
  2: { exists rv, s1. by split. }
  subst rv. pose proof (msg_holds_alloc s p bs c s1 Hw Hh Ea) as Hp1.
  pose proof (fresh_msg_holds s c s1 Hw Ea) as Hc1.
  destruct (nng_msg_alloc_spec s c s1 Hw Ea) as (Hw1 & _ & Hq1 & _ & _).
  destruct Hp1 as (Hp & o & buf & Ho & Hb & Hbh & Hbl & Hol & Ht).
  rewrite Ho. cbn [mbind option_bind]. unfold msg_bytes. rewrite Hb. cbn [fmap option_fmap option_map mbind option_bind].
  rewrite Hol. replace (Z.of_nat (length bs) >? 0) with true by lia. rewrite Nat2Z.id, Ht.
  unfold in_heap, MM_HEAP_START, MM_HEAP_END in *.
  destruct (nng_msg_append_ok rt heap_allowed s1 c (n_body o) [] bs Hw1 Hc1 ltac:(lia)
              ltac:(apply heap_allowed; unfold MM_HEAP_START, MM_HEAP_END; lia) ltac:(cbn; lia))
    as (s2 & -> & Hw2 & H2 & Hq2 & _). cbn [mbind option_bind negb Z.eqb NNG_OK app] in *.
  assert (Hqw2 : queues_wf s2) by (eapply queues_wf_ext; [|exact Hqw]; congruence).
  pose proof (enqueue_spec s2 id c Hqw2 Hid) as He.
  destruct (enqueue_incoming s2 id c) as [rv s3]. destruct He as [Hqw3 He].
  assert (Hsq : forall j, socket_queue s2 j = socket_queue s j).
  { intros j. unfold socket_queue. by rewrite Hq2, Hq1. }
  eexists _, _. split; [reflexivity|]. intros ->.
  destruct (decide _) as [|_]; [by destruct He|]. destruct He as (_ & Hs & Hoth & q & ->).
  cbn [negb Z.eqb NNG_OK]. exists c.
  split; [by destruct Hw2|]. split; [done|]. split; [exact H2|]. rewrite <-Hsq. split; [done|].
  intros j Hj Hne. rewrite <-Hsq. by apply Hoth.
Qed.

Lemma wire_length m : length (wire m) = (6 + length (cstr (m_payload m)))%nat.
Proof. unfold wire. rewrite !length_app, length_le_bytes. cbn. lia. Qed.

(** Reading the wire form back. *)
Lemma nng_message_to_lugh_wire s c m m0 :
  msg_holds s c (wire m) -> (length (cstr (m_payload m)) <= 58)%nat ->
  length (m_payload m0) = 128%nat -> 0 <= m_operation m < 4294967296 ->
  exists m', nng_message_to_lugh s c m0 = Some (NNG_OK, m') /\
    m_priority m' = u8 (m_priority m) /\ m_operation m' = m_operation m /\
    cstr (m_payload m') = cstr (m_payload m) /\ length (m_payload m') = 128%nat /\
    m_checksum m' = m_checksum m0 /\ m_padding1 m' = m_padding1 m0.
Proof.
  intros (Hc & o & buf & Ho & Hb & Hbh & Hbl & Hol & Ht) Hlen Hm0 Hop.
  pose proof (wire_length m) as Hwl. unfold in_heap, MM_HEAP_START in *.
  unfold nng_message_to_lugh. replace (c =? 0) with false by lia. rewrite Ho. cbn [mbind option_bind].
  replace (n_body o =? 0) with false by lia. rewrite Hol.
  replace (Z.of_nat (length (wire m)) <? 5) with false by lia. cbn [orb].
  unfold msg_bytes. rewrite Hb. cbn [fmap option_fmap option_map mbind option_bind].
  rewrite Hol, Nat2Z.id, Ht. unfold MAX_MSG_SIZE.
  rewrite Z.geb_leb, (proj2 (Z.leb_gt _ _)) by (change (Z.of_nat 128) with 128; lia).
  set (text := cstr (m_payload m)) in *.
  replace (Z.to_nat (Z.of_nat (length (wire m)) - 5)) with (S (length text)) by lia.
  assert (Hdrop : drop 5 (wire m) = text ++ [0]) by done.
  assert (Hle : take 4 (drop 1 (wire m)) = le_bytes 4 (m_operation m)) by done.
  rewrite Hdrop, Hle. rewrite (take_ge (text ++ [0])) by (rewrite length_app; cbn; lia).
  eexists. split; [reflexivity|]. cbn [m_priority m_operation m_payload m_checksum m_padding1].
  split; [done|]. split.
  { rewrite le_val_bytes. by apply Z.mod_small. }
  assert (Hti : <[S (length text) := 0]> ((text ++ [0]) ++ drop (S (length text)) (m_payload m0)) =
    text ++ 0 :: <[0%nat := 0]> (drop (S (length text)) (m_payload m0))).
  { rewrite insert_app_r_alt by (rewrite length_app; cbn; lia).
    rewrite length_app. cbn [length]. replace (S (length text) - (length text + 1))%nat with 0%nat by lia.
    by rewrite <-app_assoc. }
  rewrite Hti. split; [|split; [|done]].
  - apply cstr_app_nul. unfold text. apply cstr_nonzero.
  - rewrite length_app. cbn [length]. rewrite length_insert, length_drop. lia.
Qed.
End Delivery.

(** C26: what is sent is what is received.  When the policy lets the kernel
    use its heap and the sender's message, a message with at most 58
    characters of text that was converted and delivered is the last one in
    the destination's queue, the other queues are untouched, and converting
    it back gives the same priority byte, operation and text, with the
    checksum and padding of the receiver's buffer left as they were. *)
Theorem message_round_trip (rt : regions) (s s1 s2 : nng) (m m0 : message_t) (msg_at local id p : Z) :
  (forall a n w, 0 < n -> MM_HEAP_START <= a -> a + n <= MM_HEAP_END ->
     security_validate_memory_access rt a n w = true) ->
  objs_wf s -> queues_wf s -> 0 <= id < 16 -> sender_ok rt m msg_at local ->
  (length (cstr (m_payload m)) <= 58)%nat -> 0 <= m_operation m < 4294967296 ->
  length (m_payload m0) = 128%nat ->
  lugh_message_to_nng rt s m msg_at local = Some (NNG_OK, p, s1) ->
  deliver_copy rt s1 id p = Some (NNG_OK, s2) ->
  exists c m', socket_queue s2 id = socket_queue s id ++ [c] /\
    (forall j, 0 <= j < 16 -> j <> id -> socket_queue s2 j = socket_queue s j) /\
    nng_message_to_lugh s2 c m0 = Some (NNG_OK, m') /\
    m_priority m' = u8 (m_priority m) /\ m_operation m' = m_operation m /\
    cstr (m_payload m') = cstr (m_payload m) /\
    m_checksum m' = m_checksum m0 /\ m_padding1 m' = m_padding1 m0.
Proof.
  intros Hheap Hw Hqw Hid Hso Hlen Hop Hm0 Hconv Hdel.
  destruct (lugh_message_to_nng_cases rt Hheap s m msg_at local Hw Hso ltac:(lia))
    as [(rv & p' & s' & Hrv & He)|[[? _]|(p' & s' & _ & He & Hw1 & Hh & Hq & _)]].
  - congruence.
  - lia.
  - rewrite He in Hconv. injection Hconv as -> ->.
    assert (Hqw1 : queues_wf s1) by (by eapply queues_wf_ext).
    pose proof (wire_length m) as Hwl.
    destruct (deliver_copy_cases rt Hheap s1 id p (wire m) Hw1 Hqw1 Hid Hh ltac:(lia))
      as (rv & s' & Hd & Hok). rewrite Hd in Hdel. injection Hdel as -> ->.
    destruct (Hok eq_refl) as (c & _ & _ & Hc & Hsq & Hoth).
    destruct (nng_message_to_lugh_wire s2 c m m0 Hc Hlen Hm0 Hop) as (m' & Hm & Hp & Ho & Ht & _ & Hck & Hpd).
    assert (Hq' : forall j, socket_queue s1 j = socket_queue s j) by (intros; unfold socket_queue; by rewrite Hq).
    exists c, m'. split; [by rewrite <-Hq'|]. split; [|by split_and!].
    intros j Hj Hne. rewrite <-Hq'. by apply Hoth.
Qed.

(** Longer texts overrun the heap.  A text of 59 characters or more does
    not fit the 64-byte block that [nng_msg_alloc(..., 0)] gets, yet passes
    every check: whenever the pool has room, the conversion writes past the
    end of the block. *)
Theorem long_message_overruns_block (rt : regions) (s : nng) (m : message_t) (msg_at local : Z) :
  (forall a n w, 0 < n -> MM_HEAP_START <= a -> a + n <= MM_HEAP_END ->
     security_validate_memory_access rt a n w = true) ->
  objs_wf s -> sender_ok rt m msg_at local ->
  (59 <= length (cstr (m_payload m)) < 128)%nat ->
  (nng_msg_alloc s 0).1.1 = NNG_OK ->
  lugh_message_to_nng rt s m msg_at local = None.
Proof.
  intros Hheap Hw Hso Hlen Ha.
  destruct (lugh_message_to_nng_cases rt Hheap s m msg_at local Hw Hso ltac:(lia))
    as [(rv & p' & s' & Hrv & He)|[[_ He]|(p' & s' & Hle & _)]]; [|done|lia].
  exfalso. revert He. unfold lugh_message_to_nng.
  destruct (nng_msg_alloc s 0) as [[rv0 p] s1] eqn:Ea. cbn in Ha. subst rv0. cbn [negb Z.eqb NNG_OK].
  pose proof Hso as [Hl Hs1 Hs2 Hat Hs3].
  pose proof (fresh_msg_holds s p s1 Hw Ea) as H0.
  destruct (nng_msg_alloc_spec s p s1 Hw Ea) as (Hw1 & _).
  destruct (nng_msg_append_ok rt Hheap s1 p local [] [u8 (m_priority m)] Hw1 H0 ltac:(lia) Hs1 ltac:(cbn; lia))
    as (s2 & -> & Hw2 & H2 & _). cbn [mbind option_bind Z.eqb NNG_OK].
  destruct (nng_msg_append_ok rt Hheap s2 p (local + 4) _ (le_bytes 4 (m_operation m)) Hw2 H2 ltac:(lia) Hs2
              ltac:(cbn; lia)) as (s3 & -> & Hw3 & H3 & _). cbn [mbind option_bind Z.eqb NNG_OK].
  rewrite (nng_msg_append_overrun rt Hheap s3 p _ _ _ H3); [done|..].
  - unfold MSG_PAYLOAD_OFF. lia.
  - rewrite length_app. cbn. exact Hs3.
  - rewrite !length_app. cbn. lia.
Qed.

(** ** A concrete exchange *)

Definition demo_rt : regions := security_regions_init demo_layout.

Lemma demo_rt_heap a n w :
  0 < n -> MM_HEAP_START <= a -> a + n <= MM_HEAP_END -> security_validate_memory_access demo_rt a n w = true.
Proof.
  unfold MM_HEAP_START, MM_HEAP_END, security_validate_memory_access, SIZE_MAX. intros Hn Ha Hb.
  replace (a =? 0) with false by lia. cbn [andb].
  replace (n >? 0) with true by lia. cbn [andb].
  replace (4294967295 - n <? a) with false by lia. rewrite u32_id by lia.
  apply check_regions_spec; [lia|]. let t := eval vm_compute in demo_rt in change demo_rt with t.
  rewrite !Forall_cons. split_and!; [cbn; intros; (lia || done)..|apply Forall_nil_2].
Defined.

Definition demo_nng : nng := nng_init (nng_bss (memory_init alloc_bss)).

Lemma demo_objs_wf : objs_wf demo_nng.
Proof.
  split; [exact (proj1 memory_init_shaped)|]. intros p [Hp|Hp]; exfalso; cbn in Hp;
    rewrite lookup_empty in Hp; by apply is_Some_None in Hp.
Defined.

Lemma demo_queues_wf : queues_wf demo_nng.
Proof.
  split; [reflexivity|]. intros i Hi.
  assert (H : ng_queues demo_nng !!! i = empty_queue).
  { unfold demo_nng, nng_init. cbn [ng_queues]. apply lookup_total_replicate_2. exact Hi. }
  rewrite H. split; cbn; (reflexivity || lia).
Defined.

Definition demo_text (n : nat) : list Z := replicate n 65 ++ replicate (128 - n) 0.
Definition demo_msg (n : nat) : message_t := Message 1 512 0 0 (demo_text n).
Definition demo_conv := lugh_message_to_nng demo_rt demo_nng (demo_msg 3) 524288 786432.
Definition demo_sent : nng := (default (0, 0, demo_nng) demo_conv).2.
Definition demo_ptr : Z := (default (0, 0, demo_nng) demo_conv).1.2.
Definition demo_delivered : nng := (default (0, demo_nng) (deliver_copy demo_rt demo_sent 2 demo_ptr)).2.

Example message_round_trip_witness :
  exists c m', socket_queue demo_delivered 2 = socket_queue demo_nng 2 ++ [c] /\
    nng_message_to_lugh demo_delivered c message_zero = Some (NNG_OK, m') /\
    cstr (m_payload m') = [65; 65; 65].
Proof.
  destruct (message_round_trip demo_rt demo_nng demo_sent demo_delivered (demo_msg 3) message_zero
              524288 786432 2 demo_ptr demo_rt_heap demo_objs_wf demo_queues_wf)
    as (c & m' & Hq & _ & Hm & _ & _ & Ht & _).
  - lia.
  - split; (reflexivity || lia || (vm_compute; reflexivity)).
  - cbn. lia.
  - cbn. lia.
  - reflexivity.
  - vm_compute. reflexivity.
  - vm_compute. reflexivity.
  - exists c, m'. split; [exact Hq|]. split; [exact Hm|]. rewrite Ht. reflexivity.
Defined.

Example long_message_overruns_block_witness :
  lugh_message_to_nng demo_rt demo_nng (demo_msg 59) 524288 786432 = None.
Proof.
  apply (long_message_overruns_block demo_rt demo_nng (demo_msg 59) 524288 786432 demo_rt_heap demo_objs_wf).
  - split; (reflexivity || lia || (vm_compute; reflexivity)).
  - cbn. lia.
  - vm_compute. reflexivity.
Defined.
