(* ===== verification/Ipc.v ===== *)
(** * IPC channels: kernel/ipc/ipc.c

    Sixteen channels over the sockets of Nng.  Capability and domain checks
    guard every operation; a refused one is reported to the auditor.  The
    world is everything the operations read or write: tasks, matrix,
    auditor (with its ring), channels and sockets. *)
From S2P Require Import Prelude Types Circular Ring Auditor Tasks DomainGraph Security MemUtils BlockAlloc Crc Nng.

Definition MAX_IPC_CHANNELS : Z := 16.

(** [ipc_channel_t]. *)
Record ipc_channel_t := Channel {
  ch_id : Z;
  ch_in_use : bool;
  ch_socket : nng_socket_t;
  ch_security_level : Z;
  ch_domain : Z;
  ch_cap_mask : Z;
  ch_owner_task_id : Z
}.
Definition channel_zero : ipc_channel_t := Channel 0 false (Sock 0 0 0) 0 0 0 0.
#[export] Instance channel_inhabited : Inhabited ipc_channel_t := populate channel_zero.

Record world := World {
  w_tasks : task_state;
  w_graph : domain_graph;
  w_auditor : auditor;
  w_channels : list ipc_channel_t;
  w_nng : nng
}.
Definition with_auditor a (w : world) : world :=
  World (w_tasks w) (w_graph w) a (w_channels w) (w_nng w).
Definition with_channels c (w : world) : world :=
  World (w_tasks w) (w_graph w) (w_auditor w) c (w_nng w).
Definition with_nng n (w : world) : world :=
  World (w_tasks w) (w_graph w) (w_auditor w) (w_channels w) n.

Definition with_tasks ts (w : world) : world :=
  World ts (w_graph w) (w_auditor w) (w_channels w) (w_nng w).

(** Memory, and a store to it by code that shares the address space. *)
Definition memory (w : world) : gmap Z Z := ng_mem (w_nng w).
Definition with_memory m (w : world) : world := with_nng (set_mem m (w_nng w)) w.

Definition channel (w : world) (id : Z) : ipc_channel_t := w_channels w !!! Z.to_nat id.
(** [id < 0 || id >= MAX_IPC_CHANNELS || !channels[id].in_use], negated. *)
Definition channel_ok (w : world) (id : Z) : bool :=
  ((0 <=? id) && (id <? MAX_IPC_CHANNELS) && ch_in_use (channel w id))%bool.

(** ** Denial records *)

(** The caller's lineage, as both emitters read it. *)
Definition emit_create_deny (w : world) (requested_caps target_domain reason protocol : Z) : world :=
  match current (w_tasks w) with
  | None => w
  | Some cur =>
      if negb (au_enabled (w_auditor w)) then w
      else
        let d := DenyInfo (u8 (Z.land (t_domain cur) 255)) (u8 (Z.land target_domain 255)) 255 255
                   (u8 (Z.land (u32 protocol) 255)) reason 0 0 (t_cap_mask cur) requested_caps
                   (t_parent_task_id cur)
                   (lineage_depth_of (w_tasks w) (ts_current (w_tasks w)))
                   (sibling_count_of (w_tasks w) (ts_current (w_tasks w))) in
        with_auditor (auditor_deny (w_auditor w) (Some d)) w
  end.

(** The info [emit_deny] fills in. *)
Definition deny_info_of (w : world) (src_id dst_id op reason priority : Z) : auditor_deny_info_t :=
  let ch := channel w src_id in
  let dst_in := ((0 <=? dst_id) && (dst_id <? MAX_IPC_CHANNELS))%bool in
  let cur := current (w_tasks w) in
  DenyInfo (u8 (Z.land (ch_domain ch) 255))
    (if dst_in then u8 (Z.land (ch_domain (channel w dst_id)) 255) else 255)
    (u8 (Z.land (u32 src_id) 255))
    (if dst_in then u8 (Z.land (u32 dst_id) 255) else 255)
    (u8 (Z.land (u32 (so_protocol (ch_socket ch))) 255)) reason priority op
    (ch_cap_mask ch) (required_caps_for_op op)
    (match cur with Some t => t_parent_task_id t | None => TASK_PARENT_NONE end)
    (match cur with Some _ => lineage_depth_of (w_tasks w) (ts_current (w_tasks w)) | None => 0 end)
    (match cur with Some _ => sibling_count_of (w_tasks w) (ts_current (w_tasks w)) | None => 0 end).

Definition emit_deny (w : world) (src_id dst_id op reason priority : Z) : world :=
  if negb (au_enabled (w_auditor w)) then w
  else with_auditor (auditor_deny (w_auditor w) (Some (deny_info_of w src_id dst_id op reason priority))) w.

(** ** Operations *)

Definition init_ipc (w : world) : Z * world :=
  (0, World (w_tasks w) (w_graph w) (w_auditor w)
        (imap (fun i ch => Channel (Z.of_nat i) false (ch_socket ch) 0 0 0 0) (w_channels w))
        (nng_init (w_nng w))).

Definition ipc_create_channel (w : world) (security_level domain cap_mask protocol : Z) : Z * world :=
  match current (w_tasks w) with
  | None => (-3, w)
  | Some cur =>
      if negb (Z.land (t_cap_mask cur) cap_mask =? cap_mask)
      then (-4, emit_create_deny w cap_mask domain DENY_CAP_ESCALATION protocol)
      else if (negb (domain =? t_domain cur) &&
               (domain_edge_allowed (w_graph w) (t_domain cur) domain =? 0) &&
               negb (has_cap (t_cap_mask cur) CAP_CROSS_DOMAIN))%bool
      then (-5, emit_create_deny w cap_mask domain DENY_DOMAIN_CREATE protocol)
      else
        match findi (fun ch => negb (ch_in_use ch)) (w_channels w) with
        | None => (-1, w)
        | Some i =>
            let ch := w_channels w !!! i in
            let '(rv, so, n) := nng_socket_create (w_nng w) (ch_socket ch) protocol in
            if negb (rv =? NNG_OK) then (-2, with_nng n w)
            else
              let ch' := Channel (ch_id ch) true so security_level domain cap_mask (t_task_id cur) in
              let a := auditor_chan_create (w_auditor w) (Z.of_nat i) (t_task_id cur) cap_mask domain
                         security_level (u32 (so_protocol so)) in
              (Z.of_nat i, World (w_tasks w) (w_graph w) a (<[i := ch']> (w_channels w)) n)
        end
  end.

Definition ipc_close_channel (w : world) (id : Z) : Z * world :=
  if negb ((0 <=? id) && (id <? MAX_IPC_CHANNELS))%bool then (-1, w)
  else
    let ch := channel w id in
    if negb (ch_in_use ch) then (-2, w)
    else
      let '(rv, so, n) := nng_socket_close (w_nng w) (ch_socket ch) in
      let upd u := <[Z.to_nat id := Channel (ch_id ch) u so (ch_security_level ch) (ch_domain ch)
                                     (ch_cap_mask ch) (ch_owner_task_id ch)]> (w_channels w) in
      if negb (rv =? NNG_OK) then (-3, with_channels (upd true) (with_nng n w))
      else (0, with_channels (upd false) (with_nng n w)).

Definition ipc_connect (w : world) (src_id dst_id : Z) : Z * world :=
  if negb (channel_ok w src_id) then (-1, w)
  else if negb (channel_ok w dst_id) then (-1, w)
  else
    let src := channel w src_id in
    let dst := channel w dst_id in
    if (negb (ch_domain src =? ch_domain dst) &&
        (domain_edge_allowed (w_graph w) (ch_domain src) (ch_domain dst) =? 0) &&
        negb (has_cap (ch_cap_mask src) CAP_CROSS_DOMAIN))%bool
    then (NNG_EACCESS, emit_deny w src_id dst_id 0 DENY_DOMAIN 0)
    else
      let '(rv, n) := nng_connect (w_nng w) (ch_socket src) (ch_socket dst) in
      if negb (rv =? NNG_OK) then (rv, with_nng n w)
      else
        (0, with_auditor (auditor_chan_connect (w_auditor w) (u32 src_id) (ch_domain src)
                            (ch_cap_mask src) (u32 (so_protocol (ch_socket src))) (u32 dst_id)
                            (ch_domain dst) (ch_cap_mask dst)) (with_nng n w)).

(** A channel opened while [current_task] points at a caller's own object
    outside the table, and closed again before the pointer is put back. *)
Definition lent_channel (caller : task_t) (w : world) (security_level domain cap_mask protocol : Z) : Z * world :=
  let '(ch, w1) := ipc_create_channel (with_tasks (visiting caller (w_tasks w)) w) security_level domain cap_mask protocol in
  let w2 := if ch <? 0 then w1 else (ipc_close_channel w1 ch).2 in
  (ch, with_tasks (visited (w_tasks w) (w_tasks w2)) w2).

Section Traffic.
(** The access policy, the address of the caller's message and of the
    locals of the conversion. *)
Context (rt : regions) (msg_at local : Z).

(** The context stamp of the audit copy. *)
Definition channel_stamp (w : world) (id : Z) : Z :=
  let ch := channel w id in
  Z.lor (Z.lor (u32 (Z.land id 255)) (u32 (Z.shiftl (Z.land (ch_domain ch) 255) 8)))
        (u32 (Z.shiftl (Z.land (so_protocol (ch_socket ch)) 255) 16)).

Definition ipc_send (w : world) (id : Z) (msg : option message_t)
    : option (Z * world * option message_t) :=
  match msg with
  | None => Some (-1, w, msg)
  | Some m =>
      if negb (channel_ok w id) then Some (-2, w, msg)
      else
        let req := required_caps_for_op (m_operation m) in
        let granted := ch_cap_mask (channel w id) in
        if negb (Z.land granted req =? req)
        then
          let reason := if negb (Z.land req CAP_PRIVILEGED_OP =? 0) then DENY_CAP_PRIV
                        else DENY_CAP_SEND in
          Some (-7, emit_deny w id (-1) (m_operation m) reason (u8 (m_priority m)), msg)
        else
          let m := set_payload (<[127%nat := 0]> (m_payload m)) m in
          let m := set_checksum (calculate_checksum rt (ng_crc (w_nng w)) (msg_at + MSG_PAYLOAD_OFF)
                                   (cstr (m_payload m))) m in
          '(rv, nmsg, n) ← lugh_message_to_nng rt (w_nng w) m msg_at local;
          let w := with_nng n w in
          if negb (rv =? NNG_OK) then Some (-3, w, Some m)
          else
            let '(m, w) :=
              if au_enabled (w_auditor w)
              then let m := set_padding1 (channel_stamp w id) m in
                   (m, with_auditor (set_ring (ring_push (au_ring (w_auditor w)) m).2 (w_auditor w)) w)
              else (m, w) in
            '(rv, n) ← nng_send rt (au_jiffies (w_auditor w)) (w_nng w) (ch_socket (channel w id)) nmsg;
            let w := with_nng n w in
            if negb (rv =? NNG_OK) then Some (-4, w, Some m) else Some (0, w, Some m)
  end.

Definition ipc_recv (w : world) (id : Z) (msg : option message_t) (nonblock : bool)
    : option (Z * world * option message_t) :=
  match msg with
  | None => Some (-1, w, msg)
  | Some m =>
      if negb (channel_ok w id) then Some (-2, w, msg)
      else if negb (has_cap (ch_cap_mask (channel w id)) CAP_IPC_RECV)
      then Some (-7, emit_deny w id (-1) 0 DENY_CAP_RECV 0, msg)
      else
        let '(rv, nmsg, n) := nng_recv (au_jiffies (w_auditor w)) (w_nng w) (ch_socket (channel w id)) in
        let w := with_nng n w in
        if negb (rv =? NNG_OK)
        then if ((rv =? NNG_ETIMEDOUT) && nonblock)%bool then Some (-3, w, msg) else Some (-4, w, msg)
        else
          '(rv, m) ← nng_message_to_lugh n nmsg m;
          let w := with_nng (nng_msg_free n nmsg).2 w in
          if negb (rv =? NNG_OK) then Some (-5, w, Some m)
          else
            let sum := calculate_checksum rt (ng_crc (w_nng w)) (msg_at + MSG_PAYLOAD_OFF)
                         (cstr (m_payload m)) in
            if negb (sum =? m_checksum m) then Some (-6, w, Some m) else Some (0, w, Some m)
  end.
End Traffic.
