(* ===== verification/Pool.v ===== *)
(** * The message pool at work: kernel/nngcompat.c under kernel/ipc/ipc.c

    What keeps the socket layer's heap objects apart: each slot in use owns
    two live blocks, no two slots share one, and the queues are well formed.
    Sending keeps that, and never faults on a message whose body fits its
    block. *)
From S2P Require Import Prelude Types Circular Ring Auditor Tasks DomainGraph Security MemUtils BlockAlloc Crc Nng Ipc.

(** Two slots that own four different blocks. *)
Definition slots_apart (x y : msg_slot_t) : Prop :=
  ms_msg x <> ms_msg y /\ ms_msg x <> ms_buffer y /\ ms_buffer x <> ms_msg y /\ ms_buffer x <> ms_buffer y.

Record pool_ok (s : nng) : Prop := {
  po_objs : objs_wf s;
  po_queues : queues_wf s;
  po_owns : forall i x, ng_slots s !! i = Some x -> ms_in_use x = true ->
    ms_msg x <> ms_buffer x /\ ms_msg x ∈ live_addrs (ng_alloc s) /\ ms_buffer x ∈ live_addrs (ng_alloc s);
  po_apart : forall i j x y, ng_slots s !! i = Some x -> ng_slots s !! j = Some y -> i <> j ->
    ms_in_use x = true -> ms_in_use y = true -> slots_apart x y
}.

(** The message at [p] is there, owned by a slot, with [k] bytes in its
    64-byte body. *)
Definition msg_room (s : nng) (p : Z) (k : nat) : Prop :=
  exists i b o buf, ng_slots s !! i = Some (MSlot p b true) /\ ng_msgs s !! p = Some o /\ n_body o = b /\
    ng_bufs s !! b = Some buf /\ length buf = 64%nat /\ n_body_len o = Z.of_nat k /\ (k <= 64)%nat.

(** What the invariant reads of the socket layer. *)
Record same_objects (s s' : nng) : Prop := {
  sm_objs : objs_wf s -> objs_wf s';
  sm_live : live_addrs (ng_alloc s') = live_addrs (ng_alloc s);
  sm_msgs : ng_msgs s' = ng_msgs s;
  sm_bufs : ng_bufs s' = ng_bufs s;
  sm_slots : ng_slots s' = ng_slots s
}.
Lemma pool_ok_ext s s' : same_objects s s' -> queues_wf s' -> pool_ok s -> pool_ok s'.
Proof. intros [Ho Hl _ _ Hs] Hq [Hw _ Hown Hap]. split; [by apply Ho|done|..]; by rewrite ?Hl, ?Hs. Qed.
Lemma msg_room_ext s s' p k : same_objects s s' -> msg_room s p k -> msg_room s' p k.
Proof. intros [_ _ Hm Hb Hs]. unfold msg_room. by rewrite Hm, Hb, Hs. Qed.

Lemma upd_sstate_pool i x s : pool_ok s -> pool_ok (upd_sstate i x s).
Proof. intros Hs. apply (pool_ok_ext s); [split; try done; by intros []|apply Hs|done]. Qed.
Lemma upd_sstate_kept i x (rv : Z) s p k :
  pool_ok s -> msg_room s p k -> pool_ok (rv, upd_sstate i x s).2 /\ msg_room (rv, upd_sstate i x s).2 p k.
Proof. intros Hs Hr. split; [by apply upd_sstate_pool|exact Hr]. Qed.

(** ** Blocks back and forth *)

Lemma heap_free_spec s p :
  shaped (al_blocks (ng_alloc s)) ->
  shaped (al_blocks (ng_alloc (heap_free s p))) /\
  live_addrs (ng_alloc (heap_free s p)) = live_addrs (ng_alloc s) ∖ {[p]} /\
  ng_msgs (heap_free s p) = delete p (ng_msgs s) /\ ng_bufs (heap_free s p) = delete p (ng_bufs s) /\
  ng_slots (heap_free s p) = ng_slots s /\ ng_queues (heap_free s p) = ng_queues s.
Proof.
  intros Hs. pose proof (heap_exec_spec [] (ng_alloc s, ng_mem s) (OpFree p) Hs I) as H. cbn [heap_exec fst snd] in H.
  unfold heap_free. destruct (free_memory [] (ng_alloc s) (ng_mem s) p) as [a m]. destruct H as [Hs' Hl].
  by split_and!.
Qed.

Lemma heap_free_objs s p : objs_wf s -> objs_wf (heap_free s p).
Proof.
  intros [Hs Hl]. destruct (heap_free_spec s p Hs) as (Hs' & Hl' & Hm & Hb & _). split; [done|].
  intros q. rewrite Hm, Hb, Hl'. rewrite elem_of_difference, elem_of_singleton. intros Hq.
  assert (q <> p) as Hne by (intros ->; rewrite !lookup_delete_eq in Hq; destruct Hq as [[? ?]|[? ?]]; done).
  rewrite !lookup_delete_ne in Hq by done. split; [by apply Hl|done].
Qed.

Lemma heap_alloc_objs s n p s' : objs_wf s -> 0 <= n -> heap_alloc s n = (p, s') -> objs_wf s'.
Proof.
  intros [Hs Hl] Hn Ha. destruct (heap_alloc_spec s n p s' Hs Hn Ha) as (He & Hs' & Hl'). split; [done|].
  intros q Hq. assert (Hin : q ∈ live_addrs (ng_alloc s)) by (apply Hl; by rewrite He in Hq).
  destruct (p =? 0); [by rewrite Hl'|]. destruct Hl' as [_ ->]. by apply elem_of_union_r.
Qed.

(** ** Taking a message from the pool *)

Lemma slot_insert s i x j y :
  ng_slots s !! i = Some x -> <[i := y]> (ng_slots s) !! j = if decide (i = j) then Some y else ng_slots s !! j.
Proof.
  intros Hi. case_decide as Hj; [subst j|by rewrite list_lookup_insert_ne].
  apply list_lookup_insert_eq. by eapply lookup_lt_Some.
Qed.

(** What a new message adds. *)
Record pool_adds (s s' : nng) (i : nat) (m b : Z) : Prop := {
  pa_objs : objs_wf s';
  pa_slot : exists x, ng_slots s !! i = Some x /\ ms_in_use x = false;
  pa_new : forall a, a ∈ live_addrs (ng_alloc s) -> a <> m /\ a <> b /\ a ∈ live_addrs (ng_alloc s');
  pa_two : m <> b /\ m ∈ live_addrs (ng_alloc s') /\ b ∈ live_addrs (ng_alloc s');
  pa_msgs : ng_msgs s' = <[m := NMsg b 0 0 0]> (ng_msgs s);
  pa_bufs : ng_bufs s' = <[b := replicate 64 0]> (ng_bufs s);
  pa_slots : ng_slots s' = <[i := MSlot m b true]> (ng_slots s);
  pa_queues : ng_queues s' = ng_queues s
}.

Lemma two_fresh (l l1 l2 : gset Z) m b :
  (m ∉ l) -> l1 = {[m]} ∪ l -> (b ∉ l1) -> l2 = {[b]} ∪ l1 ->
  (forall a, a ∈ l -> a <> m /\ a <> b /\ a ∈ l2) /\ m <> b /\ m ∈ l2 /\ b ∈ l2.
Proof. intros Hm -> Hb ->. set_solver. Qed.

Lemma put_back (l : gset Z) m : (m ∉ l) -> ({[m]} ∪ l) ∖ {[m]} = l.
Proof.
  intros Hm. apply set_eq. intros x. rewrite elem_of_difference, elem_of_union, elem_of_singleton.
  split; [tauto|]. intros Hx. split; [by right|]. by intros ->.
Qed.

Lemma objs_absent s p : objs_wf s -> (p ∉ live_addrs (ng_alloc s)) -> ng_msgs s !! p = None /\ ng_bufs s !! p = None.
Proof. intros [_ Hl] Hp. split; apply eq_None_not_Some; intros H; apply Hp, Hl; auto. Qed.

(** Either the pool or the heap is exhausted, or a message is added. *)
Lemma msg_alloc_cases s rv p s' :
  objs_wf s -> nng_msg_alloc s 0 = (rv, p, s') ->
  (rv <> NNG_OK /\ same_objects s s' /\ ng_queues s' = ng_queues s) \/
  (rv = NNG_OK /\ exists i b, pool_adds s s' i p b).
Proof.
  intros Ho. unfold nng_msg_alloc. destruct (findi _ _) as [i|] eqn:Ei; [|intros [= <- <- <-]; left; by split_and!].
  change (0 >? MSG_BUFFER_SIZE) with false. cbv iota.
  destruct (heap_alloc s NNG_MSG_SIZE) as [m s1] eqn:E1.
  pose proof (heap_alloc_objs s NNG_MSG_SIZE m s1 Ho ltac:(done) E1) as Ho1.
  destruct (heap_alloc_spec s NNG_MSG_SIZE m s1 (ow_shape _ Ho) ltac:(done) E1) as (He1 & _ & Hl1).
  destruct (m =? 0) eqn:Em.
  { intros [= <- <- <-]. left. split; [done|]. split; [split; [done|done|..]|]; by rewrite He1. }
  change (0 >? 0) with false. cbv iota. destruct Hl1 as [Hn1 Hl1].
  destruct (heap_alloc s1 8) as [b s2] eqn:E2.
  pose proof (heap_alloc_objs s1 8 b s2 Ho1 ltac:(done) E2) as Ho2.
  destruct (heap_alloc_spec s1 8 b s2 (ow_shape _ Ho1) ltac:(done) E2) as (He2 & _ & Hl2).
  assert (Hf : ng_msgs s2 = ng_msgs s /\ ng_bufs s2 = ng_bufs s /\ ng_slots s2 = ng_slots s /\ ng_queues s2 = ng_queues s)
    by (rewrite He2, He1; done). destruct Hf as (Hfm & Hfb & Hfs & Hfq).
  destruct (b =? 0) eqn:Eb.
  - intros [= <- <- <-]. left. destruct (objs_absent s m Ho Hn1) as [Hm Hb].
    destruct (heap_free_spec s2 m (ow_shape _ Ho2)) as (_ & Hlf & Hmf & Hbf & Hsf & Hqf).
    split; [done|]. split; [split|congruence].
    + intros _. by apply heap_free_objs.
    + rewrite Hlf, Hl2, Hl1. by apply put_back.
    + rewrite Hmf, Hfm. by apply delete_id.
    + rewrite Hbf, Hfb. by apply delete_id.
    + congruence.
  - destruct Hl2 as [Hn2 Hl2]. intros [= <- <- <-]. right. split; [done|]. exists i, b.
    destruct (two_fresh _ _ _ m b Hn1 Hl1 Hn2 Hl2) as (Hold & Hne & Hm & Hb).
    apply findi_Some in Ei as [(x & Hx & Hu) _]. split; cbn [ng_alloc ng_msgs ng_bufs ng_slots ng_queues set_slots set_objects set_mem].
    + split; [apply Ho2|]. cbn [ng_alloc ng_msgs ng_bufs set_slots set_objects set_mem]. intros q.
      rewrite !lookup_insert_is_Some. intros [[<-|[_ Hq]]|[<-|[_ Hq]]]; try done; apply Ho2; auto.
    + exists x. split; [done|]. by apply negb_true_iff.
    + exact Hold.
    + done.
    + by rewrite Hfm.
    + by rewrite Hfb.
    + by rewrite Hfs.
    + done.
Qed.

Lemma pool_adds_ok s s' i m b : pool_ok s -> pool_adds s s' i m b -> pool_ok s'.
Proof.
  intros [_ Hq Hown Hap] [Ho (x0 & Hi & _) Hold (Hne & Hm & Hb) _ _ Hs Hqs].
  split; [done|by eapply queues_wf_ext|..].
  - intros j x. rewrite Hs, (slot_insert s i x0) by done. case_decide; [by intros [= <-] _|].
    intros Hx Hu. destruct (Hown j x Hx Hu) as (Hx1 & Hx2 & Hx3). split; [done|]. split; by apply Hold.
  - intros j l x y. rewrite Hs, !(slot_insert s i x0) by done. unfold slots_apart.
    assert (Hsep : forall k z, ng_slots s !! k = Some z -> ms_in_use z = true ->
      ms_msg z <> m /\ ms_msg z <> b /\ ms_buffer z <> m /\ ms_buffer z <> b).
    { intros k z Hz Hu. destruct (Hown k z Hz Hu) as (_ & H1 & H2).
      destruct (Hold _ H1) as (? & ? & _), (Hold _ H2) as (? & ? & _). by split_and!. }
    case_decide; case_decide; intros Hx Hy Hjl Hux Huy; simplify_eq; cbn [ms_msg ms_buffer].
    + destruct (Hsep _ _ Hy Huy) as (? & ? & ? & ?). by split_and!.
    + destruct (Hsep _ _ Hx Hux) as (? & ? & ? & ?). by split_and!.
    + by eapply Hap.
Qed.

Lemma msg_alloc_pool s rv p s' :
  pool_ok s -> nng_msg_alloc s 0 = (rv, p, s') ->
  pool_ok s' /\ (rv = NNG_OK -> msg_room s' p 0) /\
  forall q k, msg_room s q k -> msg_room s' q k /\ (rv = NNG_OK -> q <> p).
Proof.
  intros Hp Ha. destruct (msg_alloc_cases s rv p s' (po_objs _ Hp) Ha) as [(Hrv & Hsm & Hq)|(-> & i & b & Hadd)].
  - split; [|split; [done|]].
    + eapply pool_ok_ext; [done| |done]. eapply queues_wf_ext; [done|apply Hp].
    + intros q k Hr. split; [by eapply msg_room_ext|done].
  - split; [by eapply pool_adds_ok|]. destruct Hadd as [_ (x0 & Hi & Hu) Hold _ Hm Hb Hs _]. split.
    + intros _. exists i, b, (NMsg b 0 0 0), (replicate 64 0).
      rewrite Hm, Hb, Hs, (slot_insert s i x0), decide_True, !lookup_insert_eq by done. split_and!; (done || lia).
    + intros q k (j & c & o & buf & Hj & Hqo & Hob & Hc & Hrest).
      destruct (po_owns _ Hp _ _ Hj eq_refl) as (_ & H1 & H2). cbn [ms_msg ms_buffer] in *.
      destruct (Hold _ H1) as (Hqp & _), (Hold _ H2) as (_ & Hcb & _). split; [|done].
      exists j, c, o, buf. rewrite Hm, Hb, Hs, (slot_insert s i x0), !lookup_insert_ne by done.
      rewrite decide_False; [done|]. intros ->. rewrite Hi in Hj. by simplify_eq.
Qed.

(** ** Giving one back *)

Lemma msg_free_pool s c :
  pool_ok s ->
  pool_ok (nng_msg_free s c).2 /\ forall q k, msg_room s q k -> q <> c -> msg_room (nng_msg_free s c).2 q k.
Proof.
  intros Hp. unfold nng_msg_free. destruct (c =? 0); [by split|]. destruct (findi _ _) as [i|] eqn:Ei; [|by split].
  apply findi_Some in Ei as [(x & Hi & Hx) _]. apply andb_true_iff in Hx as [Hu Hc]. apply Z.eqb_eq in Hc.
  rewrite (lookup_total_Some _ _ _ Hi). set (b := ms_buffer x).
  destruct (heap_free_spec s b (ow_shape _ (po_objs _ Hp))) as (Hs1 & Hl1 & Hm1 & Hb1 & Hsl1 & Hq1).
  destruct (heap_free_spec (heap_free s b) c Hs1) as (Hs2 & Hl2 & Hm2 & Hb2 & Hsl2 & Hq2).
  set (s2 := heap_free (heap_free s b) c) in *. cbn [snd].
  assert (Hsl : ng_slots s2 = ng_slots s) by congruence.
  assert (Hother : forall j y, ng_slots s !! j = Some y -> j <> i -> ms_in_use y = true ->
    ms_msg y <> c /\ ms_msg y <> b /\ ms_buffer y <> c /\ ms_buffer y <> b).
  { intros j y Hy Hji Huy. destruct (po_apart _ Hp _ _ _ _ Hy Hi Hji Huy Hu) as (? & ? & ? & ?). by rewrite <-Hc. }
  split; [split|]; cbn [ng_alloc ng_msgs ng_bufs ng_slots ng_queues set_slots].
  - destruct (heap_free_objs (heap_free s b) c (heap_free_objs s b (po_objs _ Hp))) as [H1 H2]. by split.
  - apply (queues_wf_ext s); [|apply Hp]. cbn [ng_queues set_slots]. congruence.
  - intros j y. rewrite Hsl, (slot_insert s i x) by done. case_decide; [by intros [= <-]|]. intros Hy Huy.
    destruct (po_owns _ Hp _ _ Hy Huy) as (Hne & H1 & H2). destruct (Hother j y Hy ltac:(done) Huy) as (? & ? & ? & ?).
    rewrite Hl2, Hl1, !elem_of_difference, !elem_of_singleton. by split_and!.
  - intros j l y z. rewrite Hsl, !(slot_insert s i x) by done. case_decide; [by intros [= <-]|].
    case_decide; [by intros _ [= <-]|]. apply Hp.
  - intros q k (j & d & o & buf & Hj & Hqo & Hob & Hd & Hrest) Hqc.
    assert (Hji : j <> i) by (intros ->; rewrite Hi in Hj; by simplify_eq).
    destruct (Hother j _ Hj Hji eq_refl) as (_ & Hqb & Hdc & Hdb). cbn [ms_msg ms_buffer] in *.
    exists j, d, o, buf. cbn [ng_msgs ng_bufs ng_slots set_slots].
    rewrite Hsl, (slot_insert s i x), decide_False, Hm2, Hb2, Hm1, Hb1, !lookup_delete_ne by done. done.
Qed.

(** ** Filling a message *)
Section Traffic.
Context (rt : regions).

Lemma append_pool s p src d rv s' k :
  pool_ok s -> msg_room s p k -> nng_msg_append rt s p src d = Some (rv, s') ->
  pool_ok s' /\ (if decide (rv = NNG_OK) then msg_room s' p (k + length d) else s' = s) /\
  forall q j, q <> p -> msg_room s q j -> msg_room s' q j.
Proof.
  intros Hp (i & b & o & buf & Hi & Ho & <- & Hb & Hl & Hlen & Hk). unfold nng_msg_append.
  destruct (_ || _)%bool; [by intros [= <- <-]|]. destruct (_ || _)%bool; [by intros [= <- <-]|].
  rewrite Ho. cbn [mbind option_bind]. destruct (_ >? _); [by intros [= <- <-]|].
  rewrite Hb. cbn [mbind option_bind]. unfold buf_write. destruct (_ <=? _)%nat eqn:Efit; [|done].
  apply Nat.leb_le in Efit. rewrite Hlen, Nat2Z.id in *. cbn [mbind option_bind]. intros [= <- <-].
  destruct Hp as [[Hs Hlv] Hq Hown Hap]. split; [split; [split|done..]|split].
  - exact Hs.
  - cbn [ng_alloc ng_msgs ng_bufs set_objects set_mem]. intros x.
    rewrite !lookup_insert_is_Some. intros [[<-|[_ Hx]]|[<-|[_ Hx]]]; apply Hlv; eauto.
  - rewrite decide_True by done. eexists i, (n_body o), _, _. cbn [ng_slots ng_msgs ng_bufs set_objects set_mem].
    rewrite !lookup_insert_eq. cbn [n_body n_body_len]. split_and!; try done;
      cbn [n_body_len]; rewrite ?length_app, ?length_take, ?length_drop; lia.
  - intros q j Hne (l & c & u & buf' & Hj & Hqo & <- & Hc & Hrest). exists l, (n_body u), u, buf'.
    cbn [ng_slots ng_msgs ng_bufs set_objects set_mem]. rewrite lookup_insert_ne by done.
    assert (Hli : l <> i) by (intros ->; rewrite Hi in Hj; by simplify_eq).
    destruct (Hap _ _ _ _ Hj Hi Hli eq_refl eq_refl) as (_ & _ & _ & Hbb). cbn [ms_buffer] in Hbb.
    by rewrite lookup_insert_ne by done.
Qed.

Lemma append_returns s p src d k :
  msg_room s p k -> (k + length d <= 64)%nat -> is_Some (nng_msg_append rt s p src d).
Proof.
  intros (i & b & o & buf & Hi & Ho & <- & Hb & Hl & Hlen & Hk) Hfit. unfold nng_msg_append.
  destruct (_ || _)%bool; [done|]. destruct (_ || _)%bool; [done|].
  rewrite Ho. cbn [mbind option_bind]. destruct (_ >? _); [done|]. rewrite Hb, Hlen, Nat2Z.id. cbn [mbind option_bind].
  unfold buf_write. by rewrite (proj2 (Nat.leb_le (k + length d) (length buf))) by lia.
Qed.

Lemma enqueue_pool s id p rv s' :
  pool_ok s -> 0 <= id < 16 -> enqueue_incoming s id p = (rv, s') ->
  pool_ok s' /\ forall q k, msg_room s q k -> msg_room s' q k.
Proof.
  intros Hp Hid He. pose proof (enqueue_spec s id p (po_queues _ Hp) Hid) as H. rewrite He in H. destruct H as [Hq H].
  assert (Hsm : same_objects s s').
  { destruct (decide _); [destruct H as [_ ->]; by split|]. destruct H as (_ & _ & _ & q & ->). split; try done. by intros []. }
  split; [by eapply pool_ok_ext|]. intros q k. by apply msg_room_ext.
Qed.

(** One delivery: total on a message with room, whatever its outcome. *)
Lemma deliver_copy_pool s id p k :
  pool_ok s -> msg_room s p k -> 0 <= id < 16 ->
  exists rv s', deliver_copy rt s id p = Some (rv, s') /\ pool_ok s' /\ msg_room s' p k.
Proof.
  intros Hp Hr Hid. unfold deliver_copy. destruct (nng_msg_alloc s 0) as [[rv c] s1] eqn:Ea.
  destruct (msg_alloc_pool s rv c s1 Hp Ea) as (Hp1 & Hc & Hold). destruct (Hold p k Hr) as [Hr1 Hpc].
  destruct (rv =? NNG_OK) eqn:Erv; cbn [negb]; [|by eexists _, _]. apply Z.eqb_eq in Erv. specialize (Hc Erv). specialize (Hpc Erv).
  pose proof Hr1 as (i & b & o & buf & _ & Ho & Hob & Hb & Hl & Hlen & Hk). rewrite Ho. cbn [mbind option_bind].
  unfold msg_bytes. rewrite Hob, Hb. cbn [fmap option_fmap option_map mbind option_bind]. set (body := take _ buf).
  assert (Hbody : (length body <= 64)%nat) by (unfold body; rewrite length_take; lia).
  assert (H2 : exists rv2 s2, (if n_body_len o >? 0 then nng_msg_append rt s1 c b body else Some (NNG_OK, s1)) = Some (rv2, s2) /\
    pool_ok s2 /\ msg_room s2 p k).
  { destruct (_ >? _); [|by eexists _, _]. destruct (append_returns s1 c b body 0 Hc ltac:(lia)) as [[rv2 s2] E].
    destruct (append_pool s1 c b body rv2 s2 0 Hp1 Hc E) as (Hp2 & _ & Hq). eexists _, _. split; [exact E|]. split; [done|]. by apply Hq. }
  destruct H2 as (rv2 & s2 & -> & Hp2 & Hr2). cbn [mbind option_bind].
  destruct (negb _); [destruct (msg_free_pool s2 c Hp2) as [Hp3 H3]; do 2 eexists; split; [reflexivity|]; split; [done|by apply H3]|].
  destruct (enqueue_incoming s2 id c) as [rv3 s3] eqn:Ee. destruct (enqueue_pool s2 id c rv3 s3 Hp2 Hid Ee) as [Hp3 H3].
  do 2 eexists. split; [reflexivity|]. destruct (negb _); [|by split; [|apply H3]].
  destruct (msg_free_pool s3 c Hp3) as [Hp4 H4]. split; [done|]. by apply H4, Hpc; auto.
Qed.

Lemma deliver_each_pool f peers s p k :
  (forall x s, pool_ok s -> pool_ok (f x s)) -> (forall x s, msg_room s p k -> msg_room (f x s) p k) ->
  pool_ok s -> msg_room s p k -> Forall (fun id => 0 <= id < 16) peers ->
  exists s', deliver_each rt f p peers s = Some s' /\ pool_ok s' /\ msg_room s' p k.
Proof.
  intros Hf Hg Hp Hr Hpeers. revert s Hp Hr. induction Hpeers as [|id peers Hid _ IH]; intros s Hp Hr; [by eexists|].
  cbn [deliver_each]. destruct (deliver_copy_pool s id p k Hp Hr Hid) as (rv & s1 & -> & Hp1 & Hr1). cbn [mbind option_bind].
  apply IH; destruct (rv =? NNG_OK); auto.
Qed.

Lemma socket_id_range s id : socket_valid s id = true -> 0 <= id < 16.
Proof. unfold socket_valid, MAX_SOCKETS. intros H. bools. lia. Qed.

Lemma peers_range s id proto n : Forall (fun p => 0 <= p < 16) (collect_peers s id proto n).
Proof.
  apply Forall_take, Forall_forall. intros p Hp. apply list_elem_of_filter in Hp as [(_ & Hv & _) _].
  by eapply socket_id_range.
Qed.

Lemma picked_range (peers : list Z) i :
  Forall (fun p => 0 <= p < 16) peers -> 0 < Z.of_nat (length peers) ->
  0 <= peers !!! Z.to_nat (rr_pick i (Z.of_nat (length peers))) < 16.
Proof.
  intros Hp Hn. set (j := Z.to_nat _).
  assert (Hj : (j < length peers)%nat).
  { unfold j, rr_pick. destruct (_ || _)%bool eqn:E; [lia|]. apply orb_false_iff in E as [? ?]. lia. }
  destruct (lookup_lt_is_Some_2 peers j Hj) as [p Hx]. rewrite (lookup_total_Some _ _ _ Hx). exact (Forall_lookup_1 _ _ _ _ Hp Hx).
Qed.

(** ** Sending *)

(** The result of a step that keeps the pool and the message at [p]. *)
Definition keeps (p : Z) (k : nat) (o : option (Z * nng)) : Prop :=
  exists rv s, o = Some (rv, s) /\ pool_ok s /\ msg_room s p k.

Lemma keeps_ret p k rv s : pool_ok s -> msg_room s p k -> keeps p k (Some (rv, s)).
Proof. intros. by exists rv, s. Qed.

(** A delivery, then changes to socket states alone. *)
Lemma keeps_deliver p k s id (g : Z -> nng -> Z * nng) :
  pool_ok s -> msg_room s p k -> 0 <= id < 16 ->
  (forall rv s, pool_ok s -> msg_room s p k -> pool_ok (g rv s).2 /\ msg_room (g rv s).2 p k) ->
  keeps p k ('(rv, s1) ← deliver_copy rt s id p; Some (g rv s1)).
Proof.
  intros Hp Hr Hid Hg. destruct (deliver_copy_pool s id p k Hp Hr Hid) as (rv & s1 & -> & Hp1 & Hr1). cbn [mbind option_bind].
  destruct (Hg rv s1 Hp1 Hr1) as [Hp2 Hr2]. destruct (g rv s1) as [rv2 s2]. by apply keeps_ret.
Qed.

Lemma keeps_each p k s f peers (g : nng -> Z * nng) :
  pool_ok s -> msg_room s p k -> Forall (fun id => 0 <= id < 16) peers ->
  (forall x s, pool_ok s -> pool_ok (f x s)) -> (forall x s, msg_room s p k -> msg_room (f x s) p k) ->
  (forall s, pool_ok s -> msg_room s p k -> pool_ok (g s).2 /\ msg_room (g s).2 p k) ->
  keeps p k (s1 ← deliver_each rt f p peers s; Some (g s1)).
Proof.
  intros Hp Hr Hpeers Hf Hf' Hg. destruct (deliver_each_pool f peers s p k Hf Hf' Hp Hr Hpeers) as (s1 & -> & Hp1 & Hr1).
  cbn [mbind option_bind]. destruct (Hg s1 Hp1 Hr1) as [Hp2 Hr2]. destruct (g s1) as [rv2 s2]. by apply keeps_ret.
Qed.

Lemma send_dispatch_pool now s id p k : pool_ok s -> msg_room s p k -> keeps p k (send_dispatch rt now s id p).
Proof.
  intros Hp Hr. unfold send_dispatch. repeat (destruct (protocol_of s id =? _)); [..|by apply keeps_ret].
  - unfold send_pub. pose proof Hr as (i & b & o & buf & _ & -> & Hob & Hb & _). cbn [mbind option_bind].
    unfold msg_bytes. rewrite Hob, Hb. cbn [fmap option_fmap option_map mbind option_bind].
    apply (keeps_each p k s _ _ (fun s' => (NNG_OK, s'))); auto.
    apply Forall_forall. intros q Hq. apply list_elem_of_filter in Hq as [_ Hq].
    exact (proj1 (Forall_forall _ _) (peers_range _ _ _ _) q Hq).
  - unfold send_push. pose proof (peers_range s id NNG_PROTO_PULL0 MAX_SOCKETS) as Hpeers. destruct (_ =? 0) eqn:En; [by apply keeps_ret|].
    apply (keeps_deliver p k s _ (fun rv s1 => (rv, upd_sstate id _ s1))); [done|done|apply picked_range; [done|lia]|].
    intros rv s1. apply upd_sstate_kept.
  - unfold send_req. pose proof (peers_range s id NNG_PROTO_REP0 MAX_SOCKETS) as Hpeers. destruct (_ =? 0) eqn:En; [by apply keeps_ret|].
    destruct (deliver_copy_pool s _ p k Hp Hr (picked_range _ (ss_rr_idx (sstate s id)) Hpeers ltac:(lia)))
      as (rv & s1 & -> & Hp1 & Hr1). cbn [mbind option_bind].
    destruct (rv =? NNG_OK); apply keeps_ret; auto using upd_sstate_pool.
  - unfold send_rep. destruct (_ || _)%bool eqn:E; [by apply keeps_ret|]. apply orb_false_iff in E as [_ Hv].
    apply negb_false_iff in Hv. apply (keeps_deliver p k s _ (fun rv s1 => (rv, upd_sstate id _ s1))); [done|done|by eapply socket_id_range|].
    intros rv s1. apply upd_sstate_kept.
  - unfold send_bus. apply (keeps_each p k s _ _ (fun s' => (NNG_OK, s'))); auto. apply peers_range.
  - unfold send_surveyor. destruct (_ =? 0)%nat; [by apply keeps_ret|].
    apply (keeps_each p k s _ _ (fun s1 => (NNG_OK, upd_sstate id _ s1))); auto using upd_sstate_pool, upd_sstate_kept, peers_range.
  - unfold send_respondent. destruct (_ || _)%bool eqn:E; [by apply keeps_ret|]. apply orb_false_iff in E as [_ Hv].
    apply negb_false_iff in Hv. destruct (_ || _)%bool; [by apply keeps_ret; [apply upd_sstate_pool|]|].
    apply (keeps_deliver p k s _ (fun rv s1 => (rv, upd_sstate id _ s1))); [done|done|by eapply socket_id_range|].
    intros rv s1. apply upd_sstate_kept.
  - unfold send_pair. pose proof (peers_range s id NNG_PROTO_PAIR1 MAX_SOCKETS) as Hpeers.
    destruct (collect_peers _ _ _ _) as [|q l]; [by apply keeps_ret|].
    destruct (deliver_copy_pool s q p k Hp Hr (Forall_inv Hpeers)) as (rv & s1 & H & ? & ?). by exists rv, s1.
Qed.

Lemma nng_send_pool now s sock p k :
  pool_ok s -> msg_room s p k -> exists rv s', nng_send rt now s sock p = Some (rv, s') /\ pool_ok s'.
Proof.
  intros Hp Hr. unfold nng_send. destruct (_ || _)%bool; [by eexists _, _|].
  destruct (send_dispatch_pool now s (so_id sock) p k Hp Hr) as (rv & s1 & -> & Hp1 & _). cbn [mbind option_bind].
  do 2 eexists. split; [reflexivity|]. by apply msg_free_pool.
Qed.

(** ** Conversion *)

(** The appends of a message under construction, the later ones only when
    the earlier ones succeeded. *)
Lemma append_then p src d rv s' k (rv0 : Z) s0 :
  pool_ok s0 -> (rv0 = NNG_OK -> msg_room s0 p k) ->
  (if rv0 =? NNG_OK then nng_msg_append rt s0 p src d else Some (rv0, s0)) = Some (rv, s') ->
  pool_ok s' /\ (rv = NNG_OK -> msg_room s' p (k + length d)).
Proof.
  intros Hp Hr H. destruct (rv0 =? NNG_OK) eqn:E; bools.
  - destruct (append_pool s0 p src d rv s' k Hp (Hr E) H) as (Hp' & Hd & _). split; [done|]. intros Hrv.
    by rewrite decide_True in Hd.
  - injection H as <- <-. by split.
Qed.

Lemma convert_pool s m msg_at local rv p s' :
  pool_ok s -> lugh_message_to_nng rt s m msg_at local = Some (rv, p, s') ->
  pool_ok s' /\ (rv = NNG_OK -> exists k, msg_room s' p k).
Proof.
  intros Hp. unfold lugh_message_to_nng. destruct (nng_msg_alloc s 0) as [[rv0 q] s1] eqn:Ea.
  destruct (msg_alloc_pool s rv0 q s1 Hp Ea) as (Hp1 & Hc & _).
  destruct (negb (rv0 =? NNG_OK)) eqn:E0; [intros [= <- <- <-]; split; [done|]; intros ->; by vm_compute in E0|].
  apply negb_false_iff, Z.eqb_eq in E0. specialize (Hc E0). cbv zeta.
  destruct (nng_msg_append rt s1 q local _) as [[rv2 s2]|] eqn:E2; cbn [mbind option_bind]; [|done].
  destruct (append_then q local [u8 (m_priority m)] rv2 s2 0 NNG_OK s1 Hp1 ltac:(done) E2) as [Hp2 Hr2].
  destruct (if rv2 =? NNG_OK then nng_msg_append _ _ _ _ _ else _) as [[rv3 s3]|] eqn:E3; cbn [mbind option_bind]; [|done].
  destruct (append_then q _ _ rv3 s3 _ rv2 s2 Hp2 Hr2 E3) as [Hp3 Hr3].
  destruct (if rv3 =? NNG_OK then nng_msg_append _ _ _ _ _ else _) as [[rv4 s4]|] eqn:E4; cbn [mbind option_bind]; [|done].
  destruct (append_then q _ _ rv4 s4 _ rv3 s3 Hp3 Hr3 E4) as [Hp4 Hr4].
  destruct (negb (rv4 =? NNG_OK)) eqn:E5; intros [= <- <- <-].
  - split; [by apply msg_free_pool|]. intros ->. by vm_compute in E5.
  - apply negb_false_iff, Z.eqb_eq in E5. split; [done|]. intros _. eauto.
Qed.

Lemma append_then_returns p src d k rv0 s0 :
  (rv0 = NNG_OK -> msg_room s0 p k) -> (k + length d <= 64)%nat ->
  is_Some (if rv0 =? NNG_OK then nng_msg_append rt s0 p src d else Some (rv0, s0)).
Proof. intros Hr Hk. destruct (rv0 =? NNG_OK) eqn:E; bools; [|done]. by eapply append_returns; [apply Hr|]. Qed.

(** Up to 58 characters of text fit. *)
Lemma convert_returns s m msg_at local :
  pool_ok s -> (length (cstr (m_payload m)) <= 58)%nat -> is_Some (lugh_message_to_nng rt s m msg_at local).
Proof.
  intros Hp Hlen. unfold lugh_message_to_nng. destruct (nng_msg_alloc s 0) as [[rv0 q] s1] eqn:Ea.
  destruct (msg_alloc_pool s rv0 q s1 Hp Ea) as (Hp1 & Hc & _).
  destruct (negb (rv0 =? NNG_OK)) eqn:E0; [done|]. apply negb_false_iff, Z.eqb_eq in E0. specialize (Hc E0). cbv zeta.
  destruct (append_returns s1 q local [u8 (m_priority m)] 0 Hc ltac:(cbn; lia)) as [[rv2 s2] E2]. rewrite E2. cbn [mbind option_bind].
  destruct (append_then q local [u8 (m_priority m)] rv2 s2 0 NNG_OK s1 Hp1 ltac:(done) E2) as [Hp2 Hr2].
  destruct (append_then_returns q (local + 4) (le_bytes 4 (m_operation m)) _ rv2 s2 Hr2 ltac:(rewrite length_le_bytes; cbn; lia))
    as [[rv3 s3] E3]. rewrite E3. cbn [mbind option_bind].
  destruct (append_then q _ _ rv3 s3 _ rv2 s2 Hp2 Hr2 E3) as [Hp3 Hr3].
  destruct (append_then_returns q (msg_at + MSG_PAYLOAD_OFF) (cstr (m_payload m) ++ [0]) _ rv3 s3 Hr3
    ltac:(rewrite length_app, length_le_bytes; cbn; lia)) as [[rv4 s4] E4]. rewrite E4. cbn [mbind option_bind].
  by destruct (negb _).
Qed.

(** ** [ipc_send] *)

Lemma ipc_send_pool at_ l w id m rv w' m' :
  pool_ok (w_nng w) -> ipc_send rt at_ l w id m = Some (rv, w', m') -> pool_ok (w_nng w').
Proof.
  intros Hp. unfold ipc_send. destruct m as [m|]; [|by intros [= <- <- <-]].
  destruct (negb (channel_ok w id)); [by intros [= <- <- <-]|]. cbv zeta.
  destruct (negb (_ =? _)); [unfold emit_deny; destruct (negb (au_enabled _)); by intros [= <- <- <-]|].
  set (m1 := set_checksum _ _). destruct (lugh_message_to_nng rt (w_nng w) m1 at_ l) as [[[rv1 p] n]|] eqn:Ec; cbn [mbind option_bind]; [|done].
  destruct (convert_pool _ _ _ _ _ _ _ Hp Ec) as [Hp1 Hr1].
  destruct (negb (rv1 =? NNG_OK)) eqn:E1; [by intros [= <- <- <-]|]. apply negb_false_iff, Z.eqb_eq in E1.
  destruct (Hr1 E1) as [k Hr].
  destruct (au_enabled _); cbn [w_nng with_nng with_auditor];
    match goal with |- context [nng_send rt ?t n ?so p] =>
      destruct (nng_send_pool t n so p k Hp1 Hr) as (rv2 & n2 & -> & Hp2) end;
    cbn [mbind option_bind]; destruct (negb (rv2 =? NNG_OK)); by intros [= <- <- <-].
Qed.

(** The channel grants what the operation needs. *)
Definition send_granted (w : world) (id op : Z) : bool :=
  Z.land (ch_cap_mask (channel w id)) (required_caps_for_op op) =? required_caps_for_op op.

Lemma cstr_insert_nul (i : nat) (l : list Z) : (length (cstr (<[i := 0%Z]> l)) <= length (cstr l))%nat.
Proof.
  revert i. induction l as [|x l IH]; intros i; [by destruct i|]. destruct i as [|i]; cbn; [lia|].
  destruct (x =? 0); cbn; [lia|]. apply le_n_S, IH.
Qed.

Lemma ipc_send_returns at_ l w id m :
  pool_ok (w_nng w) -> (send_granted w id (m_operation m) = true -> (length (cstr (m_payload m)) <= 58)%nat) ->
  is_Some (ipc_send rt at_ l w id (Some m)).
Proof.
  intros Hp Htext. unfold ipc_send, send_granted in *. destruct (negb (channel_ok w id)); [done|]. cbv zeta.
  destruct (_ =? _); cbn [negb]; [|done]. specialize (Htext eq_refl).
  set (m1 := set_checksum _ _).
  assert (H1 : (length (cstr (m_payload m1)) <= 58)%nat).
  { change (m_payload m1) with (<[127%nat := 0]> (m_payload m)). pose proof (cstr_insert_nul 127 (m_payload m)). lia. }
  destruct (convert_returns (w_nng w) m1 at_ l Hp H1) as [[[rv1 p] n] Ec]. rewrite Ec. cbn [mbind option_bind].
  destruct (convert_pool _ _ _ _ _ _ _ Hp Ec) as [Hp1 Hr1].
  destruct (negb (rv1 =? NNG_OK)) eqn:E1; [done|]. apply negb_false_iff, Z.eqb_eq in E1. destruct (Hr1 E1) as [k Hr].
  destruct (au_enabled _); cbn [w_nng with_nng with_auditor];
    match goal with |- context [nng_send rt ?t n ?so p] =>
      destruct (nng_send_pool t n so p k Hp1 Hr) as (rv2 & n2 & -> & Hp2) end;
    cbn [mbind option_bind]; by destruct (negb (rv2 =? NNG_OK)).
Qed.
End Traffic.

(** Opening a channel takes a socket and no block. *)
Lemma create_channel_objects w lvl dom caps proto :
  let w' := (ipc_create_channel w lvl dom caps proto).2 in
  same_objects (w_nng w) (w_nng w') /\ ng_queues (w_nng w') = ng_queues (w_nng w) /\ memory w' = memory w.
Proof.
  cbv zeta. unfold ipc_create_channel, memory. destruct (current _) as [cur|]; [|done].
  assert (Hd : forall a b c d, w_nng (emit_create_deny w a b c d) = w_nng w)
    by (intros; unfold emit_create_deny; destruct (current _); [destruct (negb _)|]; done).
  destruct (negb _); [cbn [snd]; by rewrite Hd|]. destruct (_ && _)%bool; [cbn [snd]; by rewrite Hd|].
  destruct (findi _ _) as [i|]; [|done]. unfold nng_socket_create.
  destruct (findi _ (ng_pool _)) as [j|]; cbn [negb Z.eqb NNG_OK NNG_ENOMEM snd w_nng with_nng]; [|done].
  split; [split; try done; by intros []|done].
Qed.
Lemma create_channel_pool w lvl dom caps proto : pool_ok (w_nng w) -> pool_ok (w_nng (ipc_create_channel w lvl dom caps proto).2).
Proof.
  intros Hp. destruct (create_channel_objects w lvl dom caps proto) as (Hs & Hq & _).
  eapply pool_ok_ext; [exact Hs|eapply queues_wf_ext; [exact Hq|apply Hp]|done].
Qed.

Lemma pool_init a : shaped (al_blocks a) -> pool_ok (nng_init (nng_bss a)).
Proof.
  intros Ha. split.
  - split; [exact Ha|]. intros p [Hp|Hp]; exfalso; cbn in Hp; rewrite lookup_empty in Hp; by apply is_Some_None in Hp.
  - split; [reflexivity|]. intros i Hi. assert (H : ng_queues (nng_init (nng_bss a)) !!! i = empty_queue).
    { unfold nng_init. cbn [ng_queues]. by apply lookup_total_replicate_2. }
    rewrite H. split; cbn; (reflexivity || lia).
  - intros i x Hx Hu. unfold nng_init in Hx. cbn [ng_slots] in Hx. apply lookup_replicate in Hx as [-> _]. done.
  - intros i j x y Hx. unfold nng_init in Hx. cbn [ng_slots] in Hx. apply lookup_replicate in Hx as [-> _]. done.
Qed.
