(* ===== verification/Channels.v ===== *)
(** * What the channel layer guarantees: kernel/ipc/ipc.c over kernel/nngcompat.c

    The invariants of every world the IPC calls can reach, and the mediation
    of each call. *)
From S2P Require Import Prelude Types Circular Ring Auditor Tasks DomainGraph Security MemUtils BlockAlloc Crc Nng Ipc.

(** ** What message traffic leaves alone

    Sending, receiving, allocating and freeing never touch the socket pool
    or the pipes. *)
Definition topo (s : nng) : list nng_socket_t * list pipe_t := (ng_pool s, ng_pipes s).

Lemma heap_alloc_topo s n p s' : heap_alloc s n = (p, s') -> topo s' = topo s.
Proof. unfold heap_alloc. destruct (alloc_memory _ _ _ _) as [[? ?] ?]. by intros [= _ <-]. Qed.

Lemma nng_msg_alloc_topo s n rv p s' : nng_msg_alloc s n = (rv, p, s') -> topo s' = topo s.
Proof.
  unfold nng_msg_alloc. destruct (findi _ _); [|by intros [= _ _ <-]].
  destruct (_ >? _); [by intros [= _ _ <-]|].
  destruct (heap_alloc s _) as [m s1] eqn:E1. apply heap_alloc_topo in E1.
  destruct (m =? 0); [by intros [= _ _ <-]|].
  destruct (heap_alloc s1 _) as [b s2] eqn:E2. apply heap_alloc_topo in E2.
  destruct (b =? 0); intros [= _ _ <-]; rewrite <-E1, <-E2; reflexivity.
Qed.

Lemma nng_msg_free_topo s p : topo (nng_msg_free s p).2 = topo s.
Proof. unfold nng_msg_free. destruct (p =? 0); [done|]. by destruct (findi _ _). Qed.

Lemma free_all_topo ps s : topo (free_all s ps) = topo s.
Proof.
  unfold free_all. revert s. induction ps as [|p ps IH]; intros s; [done|]. cbn [foldl].
  rewrite IH. destruct (p =? 0); [done|apply nng_msg_free_topo].
Qed.

Lemma enqueue_topo s i p rv s' : enqueue_incoming s i p = (rv, s') -> topo s' = topo s.
Proof. unfold enqueue_incoming. destruct (_ >=? _); by intros [= _ <-]. Qed.

Lemma upd_sstate_topo i x s : topo (upd_sstate i x s) = topo s.
Proof. done. Qed.

(** Case analysis of an [option] computation that returned. *)
Ltac step_bind H :=
  repeat match type of H with
  | context [(?o ≫= _)] => let E := fresh "E" in destruct o as [[? ?]|] eqn:E; cbn [mbind option_bind] in H; [|done]
  | context [(?o ≫= _)] => let E := fresh "E" in destruct o as [?|] eqn:E; cbn [mbind option_bind] in H; [|done]
  end.

Section TrafficTopo.
Context (rt : regions).

Lemma nng_msg_append_topo s m src d rv s' :
  nng_msg_append rt s m src d = Some (rv, s') -> topo s' = topo s.
Proof.
  unfold nng_msg_append. intros H. destruct (_ || _)%bool; [by injection H as _ <-|].
  destruct (_ || _)%bool; [by injection H as _ <-|]. step_bind H.
  destruct (_ >? _); [by injection H as _ <-|]. step_bind H. by injection H as _ <-.
Qed.

Lemma deliver_copy_topo s i p rv s' : deliver_copy rt s i p = Some (rv, s') -> topo s' = topo s.
Proof.
  unfold deliver_copy. destruct (nng_msg_alloc s 0) as [[rv1 c] s1] eqn:E1.
  apply nng_msg_alloc_topo in E1. intros H.
  destruct (negb _); [injection H as _ <-; done|].
  destruct (ng_msgs s1 !! p) as [m|]; cbn [mbind option_bind] in H; [|done].
  destruct (msg_bytes s1 m) as [b|]; cbn [mbind option_bind] in H; [|done].
  assert (H2 : forall rv2 s2, (if n_body_len m >? 0 then nng_msg_append rt s1 c (n_body m) b
                else Some (NNG_OK, s1)) = Some (rv2, s2) -> topo s2 = topo s1).
  { intros rv2 s2. destruct (_ >? _); [apply nng_msg_append_topo|by intros [= _ <-]]. }
  destruct (if n_body_len m >? 0 then _ else _) as [[rv2 s2]|]; cbn [mbind option_bind] in H; [|done].
  specialize (H2 rv2 s2 eq_refl).
  destruct (negb _); [injection H as _ <-; by rewrite nng_msg_free_topo, H2|].
  destruct (enqueue_incoming s2 i c) as [rv3 s3] eqn:E3. apply enqueue_topo in E3.
  injection H as _ <-. destruct (negb _); [rewrite nng_msg_free_topo|]; congruence.
Qed.

Lemma deliver_each_topo k m ps s s' :
  (forall p s, topo (k p s) = topo s) -> deliver_each rt k m ps s = Some s' -> topo s' = topo s.
Proof.
  intros Hk. revert s. induction ps as [|p ps IH]; intros s H; cbn [deliver_each] in H; [by injection H as <-|].
  destruct (deliver_copy rt s p m) as [[rv s1]|] eqn:E; cbn [mbind option_bind] in H; [|done].
  apply deliver_copy_topo in E. apply IH in H. rewrite H. destruct (rv =? NNG_OK); [by rewrite Hk|done].
Qed.

(** Consumes one delivery or fan-out of a returned computation. *)
Ltac topo_delivery H :=
  match type of H with
  | context [deliver_copy rt ?s ?p ?m] =>
      let E := fresh "E" in
      destruct (deliver_copy rt s p m) as [[? ?]|] eqn:E; cbn [mbind option_bind] in H; [|done];
      apply deliver_copy_topo in E
  | context [deliver_each rt ?k ?m ?ps ?s] =>
      let E := fresh "E" in
      destruct (deliver_each rt k m ps s) as [?|] eqn:E; cbn [mbind option_bind] in H; [|done];
      apply deliver_each_topo in E; [|by intros]
  end.

Lemma send_dispatch_topo now s i m rv s' :
  send_dispatch rt now s i m = Some (rv, s') -> topo s' = topo s.
Proof.
  unfold send_dispatch, send_pub, send_push, send_req, send_rep, send_bus, send_surveyor,
    send_respondent, send_pair. intros H.
  repeat match type of H with (if ?b then _ else _) = _ => destruct b end;
    try (by injection H as _ <-).
  - destruct (ng_msgs s !! m) as [o|]; cbn [mbind option_bind] in H; [|done].
    destruct (msg_bytes s o) as [b|]; cbn [mbind option_bind] in H; [|done].
    topo_delivery H. by injection H as _ <-.
  - topo_delivery H. by injection H as _ <-.
  - topo_delivery H. destruct (_ =? NNG_OK); by injection H as _ <-.
  - topo_delivery H. by injection H as _ <-.
  - topo_delivery H. by injection H as _ <-.
  - topo_delivery H. by injection H as _ <-.
  - topo_delivery H. by injection H as _ <-.
  - destruct (collect_peers _ _ _ _); [by injection H as _ <-|]. by apply deliver_copy_topo in H.
Qed.

Lemma nng_send_topo now s so m rv s' : nng_send rt now s so m = Some (rv, s') -> topo s' = topo s.
Proof.
  unfold nng_send. intros H. destruct (_ || _)%bool; [by injection H as _ <-|].
  destruct (send_dispatch _ _ _ _ _) as [[rv1 s1]|] eqn:E; cbn [mbind option_bind] in H; [|done].
  injection H as _ <-. rewrite nng_msg_free_topo. by eapply send_dispatch_topo.
Qed.

Lemma nng_recv_topo now s so rv p s' : nng_recv now s so = (rv, p, s') -> topo s' = topo s.
Proof.
  unfold nng_recv. destruct (negb _); [by intros [= _ _ <-]|]. cbv zeta.
  destruct (_ && _)%bool; destruct (_ =? 0); by intros [= _ _ <-].
Qed.

Lemma lugh_message_to_nng_topo s m at_ l rv p s' :
  lugh_message_to_nng rt s m at_ l = Some (rv, p, s') -> topo s' = topo s.
Proof.
  unfold lugh_message_to_nng. destruct (nng_msg_alloc s 0) as [[rv1 c] s1] eqn:E1.
  apply nng_msg_alloc_topo in E1. intros H. destruct (negb _); [injection H as _ _ <-; done|].
  cbv zeta in H. destruct (nng_msg_append rt s1 _ _ _) as [[rv2 s2]|] eqn:E2;
    cbn [mbind option_bind] in H; [|done]. apply nng_msg_append_topo in E2.
  assert (Hif : forall (b : bool) s0 q d (r : Z) rv' s0',
    (if b then nng_msg_append rt s0 c q d else Some (r, s0)) = Some (rv', s0') -> topo s0' = topo s0).
  { intros [] s0 q d r rv' s0'; [apply nng_msg_append_topo|by intros [= _ <-]]. }
  destruct (if rv2 =? NNG_OK then _ else _) as [[rv3 s3]|] eqn:E3; cbn [mbind option_bind] in H; [|done].
  apply Hif in E3.
  destruct (if rv3 =? NNG_OK then _ else _) as [[rv4 s4]|] eqn:E4; cbn [mbind option_bind] in H; [|done].
  apply Hif in E4.
  destruct (negb _); injection H as _ _ <-; [rewrite nng_msg_free_topo|]; congruence.
Qed.
End TrafficTopo.

(** ** Where a message can go

    The socket ids a send of socket [id] may queue at: along a pipe, along a
    BUS pipe in either direction, or back to the socket a REP or RESPONDENT
    remembers. *)
Inductive recipient (s : nng) (id k : Z) : Prop :=
  | rc_pipe p : p ∈ ng_pipes s -> pp_in_use p = true -> pp_src p = id -> pp_dst p = k -> recipient s id k
  | rc_bus p : protocol_of s id = NNG_PROTO_BUS0 -> p ∈ ng_pipes s -> pp_in_use p = true -> pp_src p = k ->
      pp_dst p = id -> recipient s id k
  | rc_reply : protocol_of s id = NNG_PROTO_REP0 -> ss_reply_src (sstate s id) = k -> recipient s id k
  | rc_respond : protocol_of s id = NNG_PROTO_RESPONDENT0 -> ss_respondent_src (sstate s id) = k -> recipient s id k.

Definition carries (s : nng) (id k : Z) (p : pipe_t) : Prop :=
  pp_in_use p = true /\ ((pp_src p = id /\ pp_dst p = k) \/
    (protocol_of s id = NNG_PROTO_BUS0 /\ pp_src p = k /\ pp_dst p = id)).

Lemma recipient_carries s id k :
  recipient s id k <-> Exists (carries s id k) (ng_pipes s) \/
    (protocol_of s id = NNG_PROTO_REP0 /\ ss_reply_src (sstate s id) = k) \/
    (protocol_of s id = NNG_PROTO_RESPONDENT0 /\ ss_respondent_src (sstate s id) = k).
Proof.
  rewrite Exists_exists. unfold carries. split.
  - intros [p ? ? ? ?|p ? ? ? ? ?|? ?|? ?]; [left; exists p; tauto..|tauto|tauto].
  - intros [(p & Hp & Hu & [[Hs Hd]|(Hb & Hs & Hd)])|[[Hp He]|[Hp He]]].
    + by eapply rc_pipe.
    + by eapply rc_bus.
    + by apply rc_reply.
    + by apply rc_respond.
Qed.

#[export] Instance carries_dec s id k p : Decision (carries s id k p).
Proof. unfold carries. apply _. Defined.
#[export] Instance recipient_dec s id k : Decision (recipient s id k).
Proof.
  destruct (decide (Exists (carries s id k) (ng_pipes s) \/
    (protocol_of s id = NNG_PROTO_REP0 /\ ss_reply_src (sstate s id) = k) \/
    (protocol_of s id = NNG_PROTO_RESPONDENT0 /\ ss_respondent_src (sstate s id) = k))) as [H|H];
    [left|right]; by rewrite recipient_carries.
Defined.

Lemma collect_peers_recipient s id proto n k :
  k ∈ collect_peers s id proto n -> (proto = NNG_PROTO_BUS0 -> protocol_of s id = NNG_PROTO_BUS0) ->
  0 <= k /\ recipient s id k.
Proof.
  unfold collect_peers. intros Hk Hb.
  assert (Hf : k ∈ filter (fun peer => (peer >= 0) /\ socket_valid s peer = true /\ protocol_of s peer = proto)
       (pipe_peer id proto <$> ng_pipes s)).
  { rewrite <-(take_drop n). apply elem_of_app. by left. }
  apply list_elem_of_filter in Hf as [(Hge & _ & _) (p & He & Hp)%list_elem_of_fmap]. split; [lia|].
  unfold pipe_peer in He. destruct (pp_in_use p) eqn:Eu; cbn [negb] in He; [|lia].
  destruct (proto =? NNG_PROTO_BUS0) eqn:Ep; bools; destruct (pp_src p =? id) eqn:Es; bools; try lia.
  - by eapply rc_pipe.
  - destruct (pp_dst p =? id) eqn:Ed; bools; [|lia]. eapply rc_bus; eauto.
  - by eapply rc_pipe.
Qed.

(** What waits to be received, and what the protocols remember. *)
Definition waiting (s : nng) : list incoming_queue_t * list socket_state_t := (ng_queues s, ng_state s).

Lemma heap_alloc_waiting s n p s' : heap_alloc s n = (p, s') -> waiting s' = waiting s.
Proof. unfold heap_alloc. destruct (alloc_memory _ _ _ _) as [[? ?] ?]. by intros [= _ <-]. Qed.
Lemma nng_msg_alloc_waiting s n : waiting (nng_msg_alloc s n).2 = waiting s.
Proof.
  unfold nng_msg_alloc. destruct (findi _ _); [|done]. destruct (_ >? _); [done|].
  destruct (heap_alloc s _) as [m s1] eqn:E1. apply heap_alloc_waiting in E1. destruct (m =? 0); [done|].
  destruct (heap_alloc s1 _) as [b s2] eqn:E2. apply heap_alloc_waiting in E2.
  destruct (b =? 0); cbn; rewrite <-E1, <-E2; reflexivity.
Qed.
Lemma nng_msg_free_waiting s p : waiting (nng_msg_free s p).2 = waiting s.
Proof. unfold nng_msg_free. destruct (p =? 0); [done|]. by destruct (findi _ _). Qed.

Section Recipients.
Context (rt : regions).

Lemma nng_msg_append_waiting s m src d rv s' :
  nng_msg_append rt s m src d = Some (rv, s') -> waiting s' = waiting s.
Proof.
  unfold nng_msg_append. intros H. destruct (_ || _)%bool; [by injection H as _ <-|].
  destruct (_ || _)%bool; [by injection H as _ <-|]. step_bind H.
  destruct (_ >? _); [by injection H as _ <-|]. step_bind H. by injection H as _ <-.
Qed.

Lemma lugh_message_to_nng_waiting s m at_ l rv p s' :
  lugh_message_to_nng rt s m at_ l = Some (rv, p, s') -> waiting s' = waiting s.
Proof.
  unfold lugh_message_to_nng. pose proof (nng_msg_alloc_waiting s 0) as Ha.
  destruct (nng_msg_alloc s 0) as [[rv1 c] s1]. cbn [snd] in Ha. intros H.
  destruct (negb _); [injection H as _ _ <-; done|]. cbv zeta in H.
  destruct (nng_msg_append rt s1 _ _ _) as [[rv2 s2]|] eqn:E2; cbn [mbind option_bind] in H; [|done].
  apply nng_msg_append_waiting in E2.
  assert (Hif : forall (b : bool) s0 q d (r : Z) rv' s0',
    (if b then nng_msg_append rt s0 c q d else Some (r, s0)) = Some (rv', s0') -> waiting s0' = waiting s0).
  { intros [] s0 q d r rv' s0'; [apply nng_msg_append_waiting|by intros [= _ <-]]. }
  destruct (if rv2 =? NNG_OK then _ else _) as [[rv3 s3]|] eqn:E3; cbn [mbind option_bind] in H; [|done].
  apply Hif in E3.
  destruct (if rv3 =? NNG_OK then _ else _) as [[rv4 s4]|] eqn:E4; cbn [mbind option_bind] in H; [|done].
  apply Hif in E4.
  destruct (negb _); injection H as _ _ <-; [rewrite nng_msg_free_waiting|]; congruence.
Qed.

Lemma nng_msg_free_queues s p : ng_queues (nng_msg_free s p).2 = ng_queues s.
Proof. exact (f_equal fst (nng_msg_free_waiting s p)). Qed.

Lemma deliver_copy_queues s i p rv s' j :
  deliver_copy rt s i p = Some (rv, s') -> Z.to_nat j <> Z.to_nat i -> socket_queue s' j = socket_queue s j.
Proof.
  unfold deliver_copy, socket_queue. pose proof (f_equal fst (nng_msg_alloc_waiting s 0)) as Ha. cbn [waiting fst] in Ha.
  destruct (nng_msg_alloc s 0) as [[rv1 c] s1]. cbn [snd] in Ha. intros H Hne.
  destruct (negb _); [injection H as _ <-; congruence|].
  destruct (ng_msgs s1 !! p) as [m|]; cbn [mbind option_bind] in H; [|done].
  destruct (msg_bytes s1 m) as [b|]; cbn [mbind option_bind] in H; [|done].
  assert (H2 : forall rv2 s2, (if n_body_len m >? 0 then nng_msg_append rt s1 c (n_body m) b
                else Some (NNG_OK, s1)) = Some (rv2, s2) -> ng_queues s2 = ng_queues s1).
  { intros rv2 s2. destruct (_ >? _); [|by intros [= _ <-]]. intros H2. apply nng_msg_append_waiting in H2. by injection H2. }
  destruct (if n_body_len m >? 0 then _ else _) as [[rv2 s2]|]; cbn [mbind option_bind] in H; [|done].
  specialize (H2 rv2 s2 eq_refl).
  destruct (negb _); [injection H as _ <-; rewrite nng_msg_free_queues; congruence|].
  assert (H3 : ng_queues (enqueue_incoming s2 i c).2 !!! Z.to_nat j = ng_queues s2 !!! Z.to_nat j).
  { unfold enqueue_incoming. destruct (_ >=? _); [done|]. cbn. by rewrite list_lookup_total_insert_ne. }
  destruct (enqueue_incoming s2 i c) as [rv3 s3]. cbn [snd] in H3. injection H as _ <-.
  destruct (negb _); [rewrite nng_msg_free_queues|]; rewrite H3; congruence.
Qed.

Lemma deliver_each_queues k m ps s s' j :
  (forall p s, ng_queues (k p s) = ng_queues s) -> (forall p, p ∈ ps -> 0 <= p) -> 0 <= j ->
  deliver_each rt k m ps s = Some s' -> j ∉ ps -> socket_queue s' j = socket_queue s j.
Proof.
  intros Hk Hps Hj. revert s. induction ps as [|p ps IH]; intros s H Hn; cbn [deliver_each] in H; [by injection H as <-|].
  destruct (deliver_copy rt s p m) as [[rv s1]|] eqn:E; cbn [mbind option_bind] in H; [|done].
  rewrite elem_of_cons in Hn. pose proof (Hps p ltac:(apply elem_of_cons; by left)) as Hp.
  apply (deliver_copy_queues _ _ _ _ _ j) in E; [|intros Hx; apply Hn; left; lia].
  apply IH in H; [|intros q Hq; apply Hps; apply elem_of_cons; by right|tauto].
  rewrite H, <-E. destruct (rv =? NNG_OK); [unfold socket_queue; by rewrite Hk|done].
Qed.

(** A send queues at recipients only. *)
Lemma send_dispatch_queues now s id m rv s' j :
  send_dispatch rt now s id m = Some (rv, s') -> 0 <= j -> ~ recipient s id j -> socket_queue s' j = socket_queue s j.
Proof.
  intros H Hj Hn.
  assert (Hpeers : forall proto n p, (proto = NNG_PROTO_BUS0 -> protocol_of s id = NNG_PROTO_BUS0) ->
    p ∈ collect_peers s id proto n -> 0 <= p /\ j <> p).
  { intros proto n p Hb Hp. destruct (collect_peers_recipient s id proto n p Hp Hb) as [H0 Hr]. split; [done|]. by intros ->. }
  assert (Hcopy : forall p rv1 s1, 0 <= p -> j <> p -> deliver_copy rt s p m = Some (rv1, s1) -> socket_queue s1 j = socket_queue s j).
  { intros p rv1 s1 Hp Hne Hd. eapply deliver_copy_queues; [exact Hd|lia]. }
  assert (Hpick : forall proto idx, proto <> NNG_PROTO_BUS0 -> Z.of_nat (length (collect_peers s id proto MAX_SOCKETS)) <> 0 ->
    let p := collect_peers s id proto MAX_SOCKETS !!! Z.to_nat (rr_pick idx (Z.of_nat (length (collect_peers s id proto MAX_SOCKETS)))) in
    0 <= p /\ j <> p).
  { intros proto idx Hpr Hl. cbv zeta. apply (Hpeers proto MAX_SOCKETS); [done|].
    apply list_elem_of_lookup_total_2. unfold rr_pick. destruct (_ || _)%bool eqn:E; bools; lia. }
  unfold send_dispatch in H. cbv zeta in H.
  destruct (protocol_of s id =? NNG_PROTO_PUB0) eqn:E1.
  { unfold send_pub in H. destruct (ng_msgs s !! m) as [o|]; cbn [mbind option_bind] in H; [|done].
    destruct (msg_bytes s o) as [b|]; cbn [mbind option_bind] in H; [|done]. cbv zeta in H.
    destruct (deliver_each _ _ _ _ _) as [s1|] eqn:Ed; cbn [mbind option_bind] in H; [|done]. injection H as _ <-.
    eapply deliver_each_queues; [| | |exact Ed|]; [done| |done|].
    - intros p [_ Hp]%list_elem_of_filter. by destruct (Hpeers NNG_PROTO_SUB0 MAX_SOCKETS p ltac:(by intros ?%Z.eqb_eq) Hp).
    - intros [_ Hp]%list_elem_of_filter. by destruct (Hpeers NNG_PROTO_SUB0 MAX_SOCKETS j ltac:(by intros ?%Z.eqb_eq) Hp). }
  destruct (protocol_of s id =? NNG_PROTO_PUSH0) eqn:E2.
  { unfold send_push in H. cbv zeta in H. destruct (_ =? 0) eqn:En in H; [by injection H as _ <-|]. bools.
    destruct (deliver_copy _ _ _ _) as [[rv1 s1]|] eqn:Ed; cbn [mbind option_bind] in H; [|done]. injection H as _ <-.
    destruct (Hpick NNG_PROTO_PULL0 (ss_rr_idx (sstate s id)) ltac:(by intros ?%Z.eqb_eq) En) as [Hp Hne]. exact (Hcopy _ _ _ Hp Hne Ed). }
  destruct (protocol_of s id =? NNG_PROTO_REQ0) eqn:E3.
  { unfold send_req in H. cbv zeta in H. destruct (_ =? 0) eqn:En in H; [by injection H as _ <-|]. bools.
    destruct (deliver_copy _ _ _ _) as [[rv1 s1]|] eqn:Ed; cbn [mbind option_bind] in H; [|done].
    destruct (Hpick NNG_PROTO_REP0 (ss_rr_idx (sstate s id)) ltac:(by intros ?%Z.eqb_eq) En) as [Hp Hne].
    pose proof (Hcopy _ _ _ Hp Hne Ed) as Hc. destruct (_ =? NNG_OK); injection H as _ <-; exact Hc. }
  destruct (protocol_of s id =? NNG_PROTO_REP0) eqn:E4; bools.
  { unfold send_rep in H. cbv zeta in H. destruct (_ || _)%bool eqn:En in H; [by injection H as _ <-|]. bools.
    destruct (deliver_copy _ _ _ _) as [[rv1 s1]|] eqn:Ed; cbn [mbind option_bind] in H; [|done]. injection H as _ <-.
    refine (Hcopy _ _ _ _ _ Ed); [lia|]. intros ->. by apply Hn, rc_reply. }
  destruct (protocol_of s id =? NNG_PROTO_BUS0) eqn:E5; bools.
  { unfold send_bus in H.
    destruct (deliver_each _ _ _ _ _) as [s1|] eqn:Ed; cbn [mbind option_bind] in H; [|done]. injection H as _ <-.
    eapply deliver_each_queues; [| | |exact Ed|]; [done| |done|].
    - intros p Hp. by destruct (Hpeers NNG_PROTO_BUS0 MAX_SOCKETS p (fun _ => E5) Hp).
    - intros Hp. by destruct (Hpeers NNG_PROTO_BUS0 MAX_SOCKETS j (fun _ => E5) Hp). }
  destruct (protocol_of s id =? NNG_PROTO_SURVEYOR0) eqn:E6.
  { unfold send_surveyor in H. cbv zeta in H. destruct (_ =? 0)%nat; [by injection H as _ <-|].
    destruct (deliver_each _ _ _ _ _) as [s1|] eqn:Ed; cbn [mbind option_bind] in H; [|done]. injection H as _ <-.
    refine (deliver_each_queues _ _ _ _ _ _ _ _ _ Ed _); [done| |done|].
    - intros p Hp. by destruct (Hpeers NNG_PROTO_RESPONDENT0 MAX_SOCKETS p ltac:(by intros ?%Z.eqb_eq) Hp).
    - intros Hp. by destruct (Hpeers NNG_PROTO_RESPONDENT0 MAX_SOCKETS j ltac:(by intros ?%Z.eqb_eq) Hp). }
  destruct (protocol_of s id =? NNG_PROTO_RESPONDENT0) eqn:E7; bools.
  { unfold send_respondent in H. cbv zeta in H. destruct (_ || _)%bool eqn:En in H; [by injection H as _ <-|]. bools.
    destruct (_ || _)%bool in H; [by injection H as _ <-|].
    destruct (deliver_copy _ _ _ _) as [[rv1 s1]|] eqn:Ed; cbn [mbind option_bind] in H; [|done]. injection H as _ <-.
    refine (Hcopy _ _ _ _ _ Ed); [lia|]. intros ->. by apply Hn, rc_respond. }
  destruct (protocol_of s id =? NNG_PROTO_PAIR1); [|by injection H as _ <-].
  unfold send_pair in H. cbv zeta in H. destruct (collect_peers _ _ _ _) as [|p ps] eqn:Ep; [by injection H as _ <-|].
  destruct (Hpeers NNG_PROTO_PAIR1 MAX_SOCKETS p ltac:(by intros ?%Z.eqb_eq)) as [Hp Hne]; [rewrite Ep; apply elem_of_cons; by left|].
  exact (Hcopy _ _ _ Hp Hne H).
Qed.

Lemma nng_send_queues now s so m rv s' j :
  nng_send rt now s so m = Some (rv, s') -> 0 <= j -> ~ recipient s (so_id so) j -> socket_queue s' j = socket_queue s j.
Proof.
  unfold nng_send. intros H Hj Hn. destruct (_ || _)%bool; [by injection H as _ <-|].
  destruct (send_dispatch _ _ _ _ _) as [[rv1 s1]|] eqn:E; cbn [mbind option_bind] in H; [|done].
  injection H as _ <-. unfold socket_queue. rewrite nng_msg_free_queues. by eapply send_dispatch_queues.
Qed.

Lemma recipient_ext s s' id k :
  topo s' = topo s -> waiting s' = waiting s -> recipient s' id k -> recipient s id k.
Proof.
  intros Ht Hw. injection Ht as Hp Hi. injection Hw as _ Hs.
  assert (Hpr : protocol_of s' id = protocol_of s id) by (unfold protocol_of; by rewrite Hp).
  assert (Hst : sstate s' id = sstate s id) by (unfold sstate; by rewrite Hs).
  intros [p ?|p ?|?|?]; rewrite ?Hpr, ?Hi, ?Hst in *; eauto using recipient.
Qed.
End Recipients.

(** ** The rule for crossing domains *)

(** [from] may act on [to]: its own domain, an edge of the matrix, or the
    bypass capability. *)
Definition admissible (g : domain_graph) (from to caps : Z) : Prop :=
  from = to \/ domain_edge_allowed g from to = 1 \/ has_cap caps CAP_CROSS_DOMAIN = true.

Lemma edge_allowed_01 g a b : domain_edge_allowed g a b = 0 \/ domain_edge_allowed g a b = 1.
Proof. unfold domain_edge_allowed. destruct (_ || _)%bool; [by left|]. destruct (negb _); auto. Qed.

(** The condition both call sites test, negated. *)
Lemma admissible_test g from to caps :
  (negb (to =? from) && (domain_edge_allowed g from to =? 0) &&
   negb (has_cap caps CAP_CROSS_DOMAIN))%bool = false <-> admissible g from to caps.
Proof.
  unfold admissible. rewrite !andb_false_iff, !negb_false_iff, Z.eqb_eq, Z.eqb_neq.
  destruct (edge_allowed_01 g from to) as [E|E]; rewrite E; intuition congruence.
Qed.

(** Edges are only ever added. *)
Definition edges_le (g g' : domain_graph) : Prop :=
  forall a b, domain_edge_allowed g a b = 1 -> domain_edge_allowed g' a b = 1.

#[export] Instance edges_le_preorder : PreOrder edges_le.
Proof.
  split; [intros g a b H; exact H|]. intros g1 g2 g3 H12 H23 a b H. by apply H23, H12.
Qed.

Lemma domain_edge_set_le g au a b : edges_le g (domain_edge_set g au a b).1.2.
Proof.
  unfold domain_edge_set. destruct (_ || _)%bool; [reflexivity|]. destruct (g_sealed g); [reflexivity|].
  intros c d. unfold domain_edge_allowed. cbn [fst snd g_edges].
  destruct (_ || _)%bool; [done|]. rewrite list_lookup_total_insert. case_decide as Hc; [|done].
  destruct Hc as [-> _]. rewrite Z.land_lor_distr_l.
  destruct (Z.land (g_edges g !!! _) (bit d) =? 0) eqn:E; [done|]. intros _. apply Z.eqb_neq in E.
  destruct (Z.lor _ _ =? 0) eqn:E'; [|done]. by apply Z.eqb_eq, Z.lor_eq_0_iff in E' as [? _].
Qed.

Lemma domain_edges_seal_le g : edges_le g (domain_edges_seal g).
Proof. unfold domain_edges_seal. destruct (negb _); [intros a b H; exact H|reflexivity]. Qed.

Lemma admissible_mono g g' a b c : edges_le g g' -> admissible g a b c -> admissible g' a b c.
Proof. intros Hg [?|[?|?]]; unfold admissible; auto. Qed.

(** ** The invariant *)

(** An open channel: its owner is a live task that held every capability of
    the channel and was admitted to its domain; its socket is in the pool. *)
Record open_ok (ts : task_state) (g : domain_graph) (n : nng) (ch : ipc_channel_t) : Prop := {
  oo_owner : exists t, t ∈ live ts /\ t_task_id t = ch_owner_task_id ch /\
               ch_cap_mask ch ⊑ t_cap_mask t /\
               admissible g (t_domain t) (ch_domain ch) (t_cap_mask t);
  oo_socket : socket_valid n (so_id (ch_socket ch)) = true
}.

Definition open_at (chans : list ipc_channel_t) (i : nat) (ch : ipc_channel_t) : Prop :=
  chans !! i = Some ch /\ ch_in_use ch = true.

(** A pipe joins two open channels that may talk to each other. *)
Definition pipe_ok (g : domain_graph) (chans : list ipc_channel_t) (p : pipe_t) : Prop :=
  exists i src j dst, open_at chans i src /\ open_at chans j dst /\
    pp_src p = so_id (ch_socket src) /\ pp_dst p = so_id (ch_socket dst) /\
    admissible g (ch_domain src) (ch_domain dst) (ch_cap_mask src).

Record channels_wf (w : world) : Prop := {
  cw_tasks : tasks_wf (w_tasks w);
  cw_length : length (w_channels w) = 16%nat;
  cw_pool : length (ng_pool (w_nng w)) = 16%nat;
  cw_open : forall i ch, open_at (w_channels w) i ch -> open_ok (w_tasks w) (w_graph w) (w_nng w) ch;
  cw_distinct : forall i j ch ch', open_at (w_channels w) i ch -> open_at (w_channels w) j ch' ->
                  so_id (ch_socket ch) = so_id (ch_socket ch') -> i = j;
  cw_pipes : forall p, p ∈ ng_pipes (w_nng w) -> pp_in_use p = true ->
               pipe_ok (w_graph w) (w_channels w) p
}.

(** Liveness of a task, up to what scheduling may change. *)
Definition tasks_le (ts ts' : task_state) : Prop :=
  forall t, t ∈ live ts -> exists t', t' ∈ live ts' /\ same_identity t t'.

Lemma task_step_le stacks ts ts' : tasks_wf ts -> task_step stacks ts ts' -> tasks_le ts ts'.
Proof.
  assert (Heq : forall ts ts', table_equiv ts ts' -> tasks_le ts ts').
  { intros ts0 ts1 He t (i & Hi)%list_elem_of_lookup.
    pose proof (proj1 (Forall2_lookup _ _ _) (te_identity _ _ He) i) as Hid. rewrite Hi in Hid.
    inversion Hid as [? t' Hs Ht Ht'|]; subst. exists t'. split; [by eapply list_elem_of_lookup_2|done]. }
  intros Hw Hs. destruct Hs as [ts au spec|ts c t Hc|ts i t s Hi|ts au caller spec Hl|ts i t sp Hi].
  - destruct (create_task_cases stacks ts au spec Hw)
      as [(rv & -> & _)|(sp & cur & ts' & au' & sp' & t & -> & -> & Hcr)]; intros u Hu.
    + by exists u.
    + exists u. cbn. rewrite (cr_live _ _ _ _ _ _ _ _ _ Hcr). split; [|done].
      by apply elem_of_app; left.
  - intros u Hu. by exists u.
  - by eapply Heq, table_equiv_update.
  - destruct (create_task_as_cases stacks ts au caller spec Hw)
      as [(rv & -> & _)|(sp & ts' & au' & t & -> & -> & _ & _ & Hlv & _)]; intros u Hu; exists u; [done|].
    cbn. rewrite Hlv. split; [|done]. by apply elem_of_app; left.
  - by eapply Heq, table_equiv_update.
Qed.

(** The invariant survives any change of the tasks and matrix that keeps
    identities and edges, and any change of the sockets that keeps the
    topology. *)
Lemma channels_wf_ext w ts g a n :
  channels_wf w -> tasks_wf ts -> tasks_le (w_tasks w) ts -> edges_le (w_graph w) g ->
  topo n = topo (w_nng w) -> channels_wf (World ts g a (w_channels w) n).
Proof.
  intros [Wt Wl Wp Wo Wd Wpi] Hts Hle Hg [= Hpool Hpipes].
  split; cbn [w_tasks w_channels w_graph w_nng]; try done.
  - by rewrite Hpool.
  - intros i ch Hi. destruct (Wo i ch Hi) as [(t & Ht & Hid & Hc & Had) Hs]. split.
    + destruct (Hle t Ht) as (t' & Ht' & Hsame). exists t'.
      unfold same_identity, identity in Hsame.
      injection Hsame as Hid' Hc' Hd' _. rewrite <-Hid', <-Hc', <-Hd'.
      split_and!; try done. by eapply admissible_mono.
    + unfold socket_valid in *. by rewrite Hpool.
  - rewrite Hpipes. intros p Hp Hu. destruct (Wpi p Hp Hu) as (i & s & j & d & ? & ? & ? & ? & Had).
    exists i, s, j, d. split_and!; try done. by eapply admissible_mono.
Qed.

Lemma channel_open w i :
  channels_wf w -> channel_ok w i = true -> open_at (w_channels w) (Z.to_nat i) (channel w i).
Proof.
  intros Hw Hi. unfold channel_ok, MAX_IPC_CHANNELS in Hi. bools. split; [|done].
  unfold channel. apply list_lookup_lookup_total_lt. rewrite (cw_length w Hw). lia.
Qed.

Lemma socket_valid_range n id : socket_valid n id = true -> 0 <= id < 16.
Proof.
  unfold socket_valid. intros H. apply andb_true_iff in H as [[H1 H2]%andb_true_iff _].
  bools. change (Z.of_nat MAX_SOCKETS) with 16 in *. lia.
Qed.

(** Validity of a socket the pool update did not touch. *)
Lemma socket_valid_insert n n' k so id :
  ng_pool n' = <[k := so]> (ng_pool n) -> Z.of_nat k <> id ->
  socket_valid n' id = socket_valid n id.
Proof.
  intros Hp Hk. unfold socket_valid. rewrite Hp.
  destruct ((id >=? 0) && (id <? _))%bool eqn:E; [|done]. bools.
  rewrite list_lookup_total_insert_ne by lia. done.
Qed.

Lemma with_auditor_wf a w : channels_wf w -> channels_wf (with_auditor a w).
Proof.
  intros Hw. destruct w. apply (channels_wf_ext _ _ _ a _ Hw); try done; [apply Hw|].
  intros t Ht. by exists t.
Qed.

Lemma with_nng_wf n w : channels_wf w -> topo n = topo (w_nng w) -> channels_wf (with_nng n w).
Proof.
  intros Hw Ht. destruct w. apply (channels_wf_ext _ _ _ _ _ Hw); try done; [apply Hw|].
  intros t Hin. by exists t.
Qed.

Lemma emit_deny_auditor w s d op r p : exists a, emit_deny w s d op r p = with_auditor a w.
Proof. unfold emit_deny. destruct (negb _); [exists (w_auditor w); by destruct w|by eexists]. Qed.

Lemma emit_create_deny_auditor w c d r p : exists a, emit_create_deny w c d r p = with_auditor a w.
Proof.
  unfold emit_create_deny. destruct (current _); [|exists (w_auditor w); by destruct w].
  destruct (negb _); [exists (w_auditor w); by destruct w|by eexists].
Qed.

(** Opening channel [i] on the fresh socket [k]. *)
Lemma open_channel_wf w i k ch a n :
  channels_wf w -> (i < 16)%nat -> ch_in_use (w_channels w !!! i) = false ->
  (k < 16)%nat -> so_id (ng_pool (w_nng w) !!! k) < 0 ->
  ng_pool n = <[k := ch_socket ch]> (ng_pool (w_nng w)) -> ng_pipes n = ng_pipes (w_nng w) ->
  so_id (ch_socket ch) = Z.of_nat k ->
  (exists t, t ∈ live (w_tasks w) /\ t_task_id t = ch_owner_task_id ch /\
     ch_cap_mask ch ⊑ t_cap_mask t /\ admissible (w_graph w) (t_domain t) (ch_domain ch) (t_cap_mask t)) ->
  channels_wf (World (w_tasks w) (w_graph w) a (<[i := ch]> (w_channels w)) n).
Proof.
  intros [Wt Wl Wp Wo Wd Wpi] Hi Hfree Hk Hneg Hpool Hpipes Hid Hown.
  assert (Hkold : socket_valid (w_nng w) (Z.of_nat k) = false).
  { unfold socket_valid. rewrite Nat2Z.id. apply andb_false_iff. right. apply Z.eqb_neq. lia. }
  assert (Hold : forall j c, j <> i -> open_at (<[i := ch]> (w_channels w)) j c -> open_at (w_channels w) j c).
  { intros j c Hj [Hc Hu]. split; [|done]. by rewrite list_lookup_insert_ne in Hc. }
  assert (Hne : forall j c, open_at (w_channels w) j c -> so_id (ch_socket c) <> Z.of_nat k).
  { intros j c Hc He. destruct (Wo j c Hc) as [_ Hs]. congruence. }
  assert (Hnew : forall j c, open_at (w_channels w) j c -> open_at (<[i := ch]> (w_channels w)) j c).
  { intros j c [Hc Hu]. split; [|done]. destruct (decide (j = i)) as [->|]; [|by rewrite list_lookup_insert_ne].
    rewrite (lookup_total_Some _ _ _ Hc) in Hfree. congruence. }
  split; cbn [w_tasks w_channels w_graph w_nng]; try done.
  - by rewrite length_insert.
  - by rewrite Hpool, length_insert.
  - intros j c Hc. destruct (decide (j = i)) as [->|Hj].
    + destruct Hc as [Hc _]. rewrite list_lookup_insert_eq in Hc by lia. injection Hc as <-.
      split; [done|]. unfold socket_valid. rewrite Hpool, Hid, Nat2Z.id, list_lookup_total_insert_eq by lia.
      rewrite Hid, Z.eqb_refl, Z.geb_leb, (proj2 (Z.leb_le _ _)), (proj2 (Z.ltb_lt _ _)); [done|..];
        change (Z.of_nat MAX_SOCKETS) with 16; lia.
    + apply (Hold j c Hj) in Hc. destruct (Wo j c Hc) as [? Hs]. split; [done|].
      rewrite (socket_valid_insert _ _ _ _ _ Hpool); [done|]. by apply not_eq_sym, (Hne j).
  - intros j j' c c' Hc Hc' He. destruct (decide (j = i)) as [->|Hj], (decide (j' = i)) as [->|Hj']; [done|..].
    + exfalso. destruct Hc as [Hc _]. rewrite list_lookup_insert_eq in Hc by lia. injection Hc as <-.
      apply (Hne j' c'); [by apply Hold|congruence].
    + exfalso. destruct Hc' as [Hc' _]. rewrite list_lookup_insert_eq in Hc' by lia. injection Hc' as <-.
      apply (Hne j c); [by apply Hold|congruence].
    + by apply (Wd j j' c c'); [apply Hold|apply Hold|].
  - rewrite Hpipes. intros p Hp Hu. destruct (Wpi p Hp Hu) as (x & s & y & d & ? & ? & ? & ? & ?).
    exists x, s, y, d. split_and!; auto.
Qed.

Lemma ipc_create_channel_wf w lvl dom caps proto :
  channels_wf w -> channels_wf (ipc_create_channel w lvl dom caps proto).2.
Proof.
  intros Hw. unfold ipc_create_channel.
  destruct (current_live _ (cw_tasks w Hw)) as (c & cur & _ & -> & Hlive).
  destruct (negb (_ =? _)) eqn:Ecap.
  { destruct (emit_create_deny_auditor w caps dom DENY_CAP_ESCALATION proto) as [a ->].
    by apply with_auditor_wf. }
  destruct (negb _ && _ && _)%bool eqn:Edom.
  { destruct (emit_create_deny_auditor w caps dom DENY_DOMAIN_CREATE proto) as [a ->].
    by apply with_auditor_wf. }
  apply admissible_test in Edom. bools.
  destruct (findi _ (w_channels w)) as [i|] eqn:Ei; [|done].
  pose proof (findi_lt _ _ _ Ei) as Hi. rewrite (cw_length w Hw) in Hi.
  apply findi_Some in Ei as [(ch & Hch & Hfree) _]. rewrite negb_true_iff in Hfree.
  unfold nng_socket_create. destruct (findi _ (ng_pool _)) as [k|] eqn:Ek.
  - pose proof (findi_lt _ _ _ Ek) as Hk. rewrite (cw_pool w Hw) in Hk.
    apply findi_Some in Ek as [(so & Hso & Hneg) _]. bools. cbn [negb Z.eqb NNG_OK snd].
    apply (open_channel_wf w i k); cbn; try done.
    + by rewrite (lookup_total_Some _ _ _ Hch).
    + by rewrite (lookup_total_Some _ _ _ Hso).
    + exists cur. split; [by eapply list_elem_of_lookup_2|]. done.
  - cbn [negb Z.eqb NNG_OK NNG_ENOMEM snd]. by apply with_nng_wf.
Qed.

(** Closing the open channel [i]: its socket [sid] leaves the pool and every
    pipe that touches it goes out of use. *)
Definition cut_pipe (sid : Z) (p : pipe_t) : pipe_t :=
  if (pp_in_use p && ((pp_src p =? sid) || (pp_dst p =? sid)))%bool
  then Pipe (pp_src p) (pp_dst p) false else p.

Lemma close_channel_wf w i ch ch' so n :
  channels_wf w -> open_at (w_channels w) i ch -> ch_in_use ch' = false ->
  ng_pool n = <[Z.to_nat (so_id (ch_socket ch)) := so]> (ng_pool (w_nng w)) ->
  ng_pipes n = cut_pipe (so_id (ch_socket ch)) <$> ng_pipes (w_nng w) ->
  channels_wf (World (w_tasks w) (w_graph w) (w_auditor w) (<[i := ch']> (w_channels w)) n).
Proof.
  intros [Wt Wl Wp Wo Wd Wpi] Hopen Hclosed Hpool Hpipes.
  destruct (Wo _ _ Hopen) as [_ Hsock]. set (sid := so_id (ch_socket ch)) in *.
  pose proof (socket_valid_range _ _ Hsock) as Hrange.
  assert (Hold : forall j c, open_at (<[i := ch']> (w_channels w)) j c ->
            open_at (w_channels w) j c /\ so_id (ch_socket c) <> sid).
  { intros j c [Hc Hu]. destruct (decide (j = i)) as [->|Hj].
    - rewrite list_lookup_insert_eq in Hc; [congruence|]. apply lookup_lt_Some in Hc.
      by rewrite length_insert in Hc.
    - rewrite list_lookup_insert_ne in Hc by done. split; [by split|].
      intros He. apply Hj. by apply (Wd j i c ch). }
  assert (Hkeep : forall j c, open_at (w_channels w) j c -> so_id (ch_socket c) <> sid ->
            open_at (<[i := ch']> (w_channels w)) j c).
  { intros j c [Hc Hcu] Hne. split; [|done]. rewrite list_lookup_insert_ne; [done|].
    intros <-. apply Hne. destruct Hopen as [Ho _]. unfold sid. congruence. }
  split; cbn [w_tasks w_channels w_graph w_nng]; try done.
  - by rewrite length_insert.
  - by rewrite Hpool, length_insert.
  - intros j c Hc. destruct (Hold j c Hc) as [Ho Hne]. destruct (Wo j c Ho) as [? Hs].
    split; [done|]. rewrite (socket_valid_insert _ _ _ _ _ Hpool); [done|]. lia.
  - intros j j' c c' Hc Hc' He. destruct (Hold j c Hc) as [Ho _], (Hold j' c' Hc') as [Ho' _].
    by apply (Wd j j' c c').
  - rewrite Hpipes. intros p (q & -> & Hq)%list_elem_of_fmap Hu. unfold cut_pipe in *.
    destruct (pp_in_use q && _)%bool eqn:Eq; [done|].
    rewrite Hu in Eq. cbn [andb] in Eq. bools.
    destruct (Wpi q Hq Hu) as (x & s & y & d & Hx & Hy & Hs & Hd & Had).
    exists x, s, y, d. split_and!; try done; apply Hkeep; try done; congruence.
Qed.

Lemma ipc_close_channel_wf w id : channels_wf w -> channels_wf (ipc_close_channel w id).2.
Proof.
  intros Hw. unfold ipc_close_channel. destruct (negb (_ && _)%bool) eqn:Er; [done|].
  destruct (negb (ch_in_use _)) eqn:Eu; [done|]. bools.
  assert (Hopen : open_at (w_channels w) (Z.to_nat id) (channel w id)).
  { apply channel_open; [done|]. unfold channel_ok. rewrite Eu.
    by rewrite (proj2 (Z.leb_le _ _)), (proj2 (Z.ltb_lt _ _)) by lia. }
  destruct (cw_open w Hw _ _ Hopen) as [_ Hsock].
  unfold nng_socket_close. rewrite Hsock. cbn [negb Z.eqb NNG_OK snd].
  set (s1 := free_all (w_nng w) _).
  assert (Ht : topo s1 = topo (w_nng w)) by apply free_all_topo. injection Ht as Hpool Hpipes.
  eapply (close_channel_wf w _ _ _ _ _ Hw Hopen); cbn; [done|by rewrite <-Hpool|by rewrite <-Hpipes].
Qed.

Lemma close_tasks w id : w_tasks (ipc_close_channel w id).2 = w_tasks w.
Proof.
  unfold ipc_close_channel. destruct (negb _); [done|]. destruct (negb _); [done|].
  destruct (nng_socket_close _ _) as [[rv ?] ?]. by destruct (negb _).
Qed.

(** Closing channel [i] of a world that differs from a well-formed one in
    the task state and that channel's owner, and putting the tasks back. *)
Lemma close_foreign_wf w i ch ch' ts :
  channels_wf w -> open_at (w_channels w) i ch -> ch_in_use ch' = true -> ch_socket ch' = ch_socket ch ->
  channels_wf (with_tasks (w_tasks w)
    (ipc_close_channel (World ts (w_graph w) (w_auditor w) (<[i := ch']> (w_channels w)) (w_nng w)) (Z.of_nat i)).2).
Proof.
  intros Hw Hopen Hu Hs. pose proof (lookup_lt_Some _ _ _ (proj1 Hopen)) as Hi. rewrite (cw_length w Hw) in Hi.
  unfold ipc_close_channel, MAX_IPC_CHANNELS, channel. cbn [w_channels w_nng w_tasks].
  rewrite (proj2 (Z.leb_le 0 _)), (proj2 (Z.ltb_lt (Z.of_nat i) 16)) by lia. cbn [andb negb].
  rewrite Nat2Z.id, list_lookup_total_insert_eq by (rewrite (cw_length w Hw); lia). rewrite Hu, Hs. cbn [negb].
  destruct (cw_open _ Hw _ _ Hopen) as [_ Hsock].
  unfold nng_socket_close. rewrite Hsock. cbn [negb Z.eqb NNG_OK snd].
  set (s1 := free_all (w_nng w) _).
  assert (Ht : topo s1 = topo (w_nng w)) by apply free_all_topo. injection Ht as Hpool Hpipes.
  cbn [with_channels with_nng with_tasks w_tasks w_graph w_auditor w_channels w_nng].
  rewrite list_insert_insert_eq.
  eapply (close_channel_wf w _ _ _ _ _ Hw Hopen); cbn; [done|by rewrite <-Hpool|by rewrite <-Hpipes].
Qed.

(** A lent caller holds no more than the root, which stands in for it while
    its channel is open. *)
Lemma lent_channel_wf w caller lvl dom caps proto :
  channels_wf w -> t_cap_mask caller ⊑ CAP_ALL -> channels_wf (lent_channel caller w lvl dom caps proto).2.
Proof.
  intros Hw Hcaller. unfold lent_channel, ipc_create_channel. cbn [with_tasks w_tasks].
  rewrite current_visiting. pose proof (visited_visiting caller (w_tasks w)) as Hback.
  assert (Hau : forall a, channels_wf (with_tasks (visited (w_tasks w) (visiting caller (w_tasks w)))
      (with_auditor a (with_tasks (visiting caller (w_tasks w)) w)))).
  { intros a. rewrite Hback. exact (with_auditor_wf a w Hw). }
  destruct (negb (_ =? _)) eqn:Ecap.
  { destruct (emit_create_deny_auditor (with_tasks (visiting caller (w_tasks w)) w) caps dom DENY_CAP_ESCALATION proto) as [a ->].
    apply Hau. }
  destruct (negb _ && _ && _)%bool eqn:Edom.
  { destruct (emit_create_deny_auditor (with_tasks (visiting caller (w_tasks w)) w) caps dom DENY_DOMAIN_CREATE proto) as [a ->].
    apply Hau. }
  bools. cbn [with_tasks w_channels w_nng w_graph w_auditor w_tasks].
  destruct (findi _ (w_channels w)) as [i|] eqn:Ei; [|apply (Hau (w_auditor w))].
  pose proof (findi_lt _ _ _ Ei) as Hi. rewrite (cw_length w Hw) in Hi.
  apply findi_Some in Ei as [(ch & Hch & Hfree) _]. rewrite negb_true_iff in Hfree.
  unfold nng_socket_create. destruct (findi _ (ng_pool _)) as [k|] eqn:Ek.
  2: { cbn. rewrite Hback. by apply (with_nng_wf (w_nng w) w). }
  pose proof (findi_lt _ _ _ Ek) as Hk. rewrite (cw_pool w Hw) in Hk.
  apply findi_Some in Ek as [(so & Hso & Hneg) _]. bools. cbn [negb Z.eqb NNG_OK].
  replace (Z.of_nat i <? 0) with false by lia.
  destruct (tw_root _ (cw_tasks w Hw)) as (root & Hroot & _ & Hall).
  set (so' := Sock (Z.of_nat k) proto 0). set (n := upd_sstate _ _ _). set (a := auditor_chan_create _ _ _ _ _ _ _).
  set (own := Channel (ch_id ch) true so' lvl dom caps (t_task_id root)).
  assert (Hw1 : channels_wf (World (w_tasks w) (w_graph w) a (<[i := own]> (w_channels w)) n)).
  { apply (open_channel_wf w i k); cbn; try done; [by rewrite (lookup_total_Some _ _ _ Hch)|by rewrite (lookup_total_Some _ _ _ Hso)|].
    exists root. split_and!; [by eapply list_elem_of_lookup_2|done|rewrite Hall; by transitivity (t_cap_mask caller)|].
    right. right. by rewrite Hall. }
  pose proof (fun ch' => close_foreign_wf _ i own ch' (visiting caller (w_tasks w)) Hw1) as Hclose.
  cbn [w_tasks w_graph w_auditor w_channels w_nng] in Hclose. setoid_rewrite list_insert_insert_eq in Hclose.
  match goal with |- channels_wf (_, with_tasks ?t (ipc_close_channel ?x ?y).2).2 =>
    assert (Ht : t = w_tasks w); [|cbn [snd]; rewrite Ht; apply Hclose; [|done|done]] end.
  - by rewrite close_tasks.
  - split; [|done]. cbn [w_channels]. rewrite list_lookup_insert_eq; [done|]. rewrite (cw_length w Hw). lia.
Qed.

Lemma ipc_connect_wf w a b : channels_wf w -> channels_wf (ipc_connect w a b).2.
Proof.
  intros Hw. unfold ipc_connect. destruct (channel_ok w a) eqn:Ea; [|done].
  destruct (channel_ok w b) eqn:Eb; [|done]. cbn [negb].
  pose proof (channel_open w a Hw Ea) as Ha. pose proof (channel_open w b Hw Eb) as Hb.
  set (src := channel w a) in *. set (dst := channel w b) in *.
  destruct (_ && _ && _)%bool eqn:Ed.
  { destruct (emit_deny_auditor w a b 0 DENY_DOMAIN 0) as [au ->]. by apply with_auditor_wf. }
  rewrite (Z.eqb_sym (ch_domain src)) in Ed. apply admissible_test in Ed.
  unfold nng_connect. destruct (_ || _)%bool; [by apply with_nng_wf|].
  destruct (findi _ _) as [k|]; [|by apply with_nng_wf].
  cbn [negb Z.eqb NNG_OK snd]. destruct Hw as [Wt Wl Wp Wo Wd Wpi].
  split; cbn [w_tasks w_channels w_graph w_nng with_auditor with_nng set_pipes ng_pool ng_pipes]; try done.
  { intros i ch Hi. destruct (Wo i ch Hi) as [? Hs]. by split. }
  intros p (k' & Hk')%list_elem_of_lookup Hu. rewrite list_lookup_insert in Hk'. case_decide.
  - injection Hk' as <-. exists (Z.to_nat a), src, (Z.to_nat b), dst. by split_and!.
  - apply (Wpi p); [by eapply list_elem_of_lookup_2|done].
Qed.

(** ** Every reachable world *)
Section Worlds.
Context (rt : regions) (stacks : Z).

Lemma ipc_send_wf at_ l w id msg rv w' msg' :
  channels_wf w -> ipc_send rt at_ l w id msg = Some (rv, w', msg') -> channels_wf w'.
Proof.
  intros Hw. unfold ipc_send. destruct msg as [m|]; [|by intros [= _ <- _]].
  destruct (negb (channel_ok w id)); [by intros [= _ <- _]|].
  cbv zeta. destruct (negb (_ =? _)).
  { set (r := if negb _ then _ else _).
    destruct (emit_deny_auditor w id (-1) (m_operation m) r (u8 (m_priority m))) as [a ->].
    intros [= _ <- _]. by apply with_auditor_wf. }
  set (m1 := set_checksum _ _).
  destruct (lugh_message_to_nng rt (w_nng w) m1 at_ l) as [[[rv1 p] n]|] eqn:Ec;
    cbn [mbind option_bind]; [|done]. apply lugh_message_to_nng_topo in Ec.
  pose proof (with_nng_wf n w Hw Ec) as Hw1.
  destruct (negb (rv1 =? NNG_OK)); [by intros [= _ <- _]|].
  assert (Hw2 : forall m2 w2, (if au_enabled (w_auditor (with_nng n w))
    then (set_padding1 (channel_stamp (with_nng n w) id) m1,
          with_auditor (set_ring (ring_push (au_ring (w_auditor (with_nng n w)))
            (set_padding1 (channel_stamp (with_nng n w) id) m1)).2 (w_auditor (with_nng n w))) (with_nng n w))
    else (m1, with_nng n w)) = (m2, w2) -> channels_wf w2).
  { intros m2 w2. destruct (au_enabled _); intros [= _ <-]; [|done]. by apply with_auditor_wf. }
  destruct (if au_enabled _ then _ else _) as [m2 w2] eqn:E2. specialize (Hw2 m2 w2 eq_refl).
  destruct (nng_send rt _ _ _ p) as [[rv2 n2]|] eqn:Es; cbn [mbind option_bind]; [|done].
  apply nng_send_topo in Es. pose proof (with_nng_wf n2 w2 Hw2 Es).
  destruct (negb (rv2 =? NNG_OK)); by intros [= _ <- _].
Qed.

Lemma ipc_recv_wf at_ w id msg nb rv w' msg' :
  channels_wf w -> ipc_recv rt at_ w id msg nb = Some (rv, w', msg') -> channels_wf w'.
Proof.
  intros Hw. unfold ipc_recv. destruct msg as [m|]; [|by intros [= _ <- _]].
  destruct (negb (channel_ok w id)); [by intros [= _ <- _]|].
  destruct (negb (has_cap _ _)).
  { destruct (emit_deny_auditor w id (-1) 0 DENY_CAP_RECV 0) as [a ->].
    intros [= _ <- _]. by apply with_auditor_wf. }
  destruct (nng_recv _ _ _) as [[rv1 p] n] eqn:Er. apply nng_recv_topo in Er.
  pose proof (with_nng_wf n w Hw Er) as Hw1. cbv zeta.
  destruct (negb (rv1 =? NNG_OK)).
  { destruct (_ && _)%bool; by intros [= _ <- _]. }
  destruct (nng_message_to_lugh n p m) as [[rv2 m2]|]; cbn [mbind option_bind]; [|done].
  assert (Hw2 : channels_wf (with_nng (nng_msg_free n p).2 (with_nng n w))).
  { apply with_nng_wf; [done|]. apply nng_msg_free_topo. }
  destruct (negb (rv2 =? NNG_OK)); [by intros [= _ <- _]|].
  destruct (negb _); by intros [= _ <- _].
Qed.

(** One step of the system: any task, matrix or auditor activity, or one
    of the six IPC calls with any arguments. *)
Inductive world_step : world -> world -> Prop :=
  | ws_task w ts : task_step stacks (w_tasks w) ts ->
      world_step w (World ts (w_graph w) (w_auditor w) (w_channels w) (w_nng w))
  | ws_edge w a b :
      world_step w (World (w_tasks w) (domain_edge_set (w_graph w) (w_auditor w) a b).1.2
        (domain_edge_set (w_graph w) (w_auditor w) a b).2 (w_channels w) (w_nng w))
  | ws_seal w : world_step w (World (w_tasks w) (domain_edges_seal (w_graph w)) (w_auditor w)
                                (w_channels w) (w_nng w))
  | ws_audit w a : world_step w (with_auditor a w)
  | ws_create w lvl dom caps proto : world_step w (ipc_create_channel w lvl dom caps proto).2
  | ws_lent w caller lvl dom caps proto :
      t_cap_mask caller ⊑ CAP_ALL -> world_step w (lent_channel caller w lvl dom caps proto).2
  | ws_close w id : world_step w (ipc_close_channel w id).2
  | ws_connect w a b : world_step w (ipc_connect w a b).2
  | ws_send w at_ l id msg rv w' msg' :
      ipc_send rt at_ l w id msg = Some (rv, w', msg') -> world_step w w'
  | ws_recv w at_ id msg nb rv w' msg' :
      ipc_recv rt at_ w id msg nb = Some (rv, w', msg') -> world_step w w'
  | ws_mem w m : world_step w (with_memory m w).

(** Boot: [task_init], [domain_edges_init], [init_ipc]. *)
Definition boot_world (au : auditor) (al : allocator) : world :=
  (init_ipc (World (task_init stacks task_state_bss) domain_edges_init au
               (replicate 16 channel_zero) (nng_bss al))).2.

Definition world_reachable (w : world) : Prop :=
  exists au al, rtc world_step (boot_world au al) w.

Lemma boot_world_wf au al : channels_wf (boot_world au al).
Proof.
  split; cbn [boot_world init_ipc snd w_tasks w_channels w_nng w_graph].
  - apply task_init_wf.
  - by rewrite length_imap.
  - reflexivity.
  - intros i ch [Hi Hu]. rewrite list_lookup_imap in Hi.
    destruct (replicate 16 channel_zero !! i); by simplify_eq/=.
  - intros i j ch ch' [Hi Hu]. rewrite list_lookup_imap in Hi.
    destruct (replicate 16 channel_zero !! i); by simplify_eq/=.
  - intros p Hp Hu. unfold nng_init in Hp. cbn [ng_pipes] in Hp.
    apply list_elem_of_fmap in Hp as (q & -> & _). done.
Qed.

Lemma world_step_wf w w' : world_step w w' -> channels_wf w -> channels_wf w'.
Proof.
  intros Hs Hw. destruct Hs; eauto using with_auditor_wf, ipc_create_channel_wf, lent_channel_wf,
    ipc_close_channel_wf, ipc_connect_wf, ipc_send_wf, ipc_recv_wf.
  - apply channels_wf_ext; try done; eauto using task_step_wf, cw_tasks, task_step_le.
  - apply channels_wf_ext; try done; [apply Hw|intros t; by exists t|apply domain_edge_set_le].
  - apply channels_wf_ext; try done; [apply Hw|intros t; by exists t|apply domain_edges_seal_le].
  - apply channels_wf_ext; try done; [apply Hw|intros t; by exists t].
Qed.

Lemma world_reachable_wf w : world_reachable w -> channels_wf w.
Proof.
  intros (au & al & Hr). pose proof (boot_world_wf au al) as H0. revert H0.
  induction Hr; eauto using world_step_wf.
Qed.
End Worlds.

(** C1: no channel carries more authority than the tasks behind it.  In
    every world reachable from boot by task creation and scheduling, matrix
    changes, stores to memory and IPC calls with any arguments, each open channel belongs to a
    live task; that task, and every ancestor up to the root, holds all the
    capabilities the channel grants; and the channel's domain is the
    owner's own, one the matrix admits from it, or the owner may cross
    domains. *)
Theorem channel_authority (rt : regions) (stacks : Z) (w : world) (i : nat) (ch : ipc_channel_t) :
  world_reachable rt stacks w -> open_at (w_channels w) i ch ->
  exists t, t ∈ live (w_tasks w) /\ t_task_id t = ch_owner_task_id ch /\
    (forall a, rtc (parent_in (w_tasks w)) t a -> ch_cap_mask ch ⊑ t_cap_mask a) /\
    admissible (w_graph w) (t_domain t) (ch_domain ch) (t_cap_mask t).
Proof.
  intros Hr Ho. pose proof (world_reachable_wf rt stacks w Hr) as Hw.
  destruct (oo_owner _ _ _ _ (cw_open w Hw i ch Ho)) as (t & Ht & Hid & Hc & Had).
  exists t. split_and!; try done. intros a Ha. clear Ht Hid Had.
  induction Ha as [|x y z Hxy _ IH]; [done|]. apply IH.
  etransitivity; [exact Hc|]. apply (parent_in_caps _ x y (cw_tasks w Hw) Hxy).
Qed.

(** Where the policy lets a send on channel [id] put a message: at an open
    channel it may act on; over BUS, at one that may act on it; or at the
    socket that a REP or RESPONDENT socket remembers having heard from. *)
Inductive may_reach (w : world) (id k : Z) : Prop :=
  | mr_pipe j dst : open_at (w_channels w) j dst -> so_id (ch_socket dst) = k ->
      admissible (w_graph w) (ch_domain (channel w id)) (ch_domain dst) (ch_cap_mask (channel w id)) ->
      may_reach w id k
  | mr_bus j dst : protocol_of (w_nng w) (so_id (ch_socket (channel w id))) = NNG_PROTO_BUS0 ->
      open_at (w_channels w) j dst -> so_id (ch_socket dst) = k ->
      admissible (w_graph w) (ch_domain dst) (ch_domain (channel w id)) (ch_cap_mask dst) ->
      may_reach w id k
  | mr_reply : protocol_of (w_nng w) (so_id (ch_socket (channel w id))) = NNG_PROTO_REP0 ->
      ss_reply_src (sstate (w_nng w) (so_id (ch_socket (channel w id)))) = k -> may_reach w id k
  | mr_respond : protocol_of (w_nng w) (so_id (ch_socket (channel w id))) = NNG_PROTO_RESPONDENT0 ->
      ss_respondent_src (sstate (w_nng w) (so_id (ch_socket (channel w id)))) = k -> may_reach w id k.

(** A send on a channel queues only at recipients of the channel's socket. *)
Lemma ipc_send_queues rt at_ l w id m rv w' m' k :
  ipc_send rt at_ l w id m = Some (rv, w', m') -> 0 <= k ->
  socket_queue (w_nng w') k <> socket_queue (w_nng w) k ->
  channel_ok w id = true /\ recipient (w_nng w) (so_id (ch_socket (channel w id))) k.
Proof.
  intros H Hk Hne. destruct (decide (recipient (w_nng w) (so_id (ch_socket (channel w id))) k)) as [Hr|Hr].
  - split; [|done]. unfold ipc_send in H. destruct m; [|by injection H as _ <- _].
    destruct (channel_ok w id); [done|by injection H as _ <- _].
  - exfalso. apply Hne. unfold ipc_send in H. destruct m as [m|]; [|by injection H as _ <- _].
    destruct (negb (channel_ok w id)); [by injection H as _ <- _|]. cbv zeta in H.
    destruct (negb _); [injection H as _ <- _; edestruct emit_deny_auditor as [a ->]; done|].
    destruct (lugh_message_to_nng _ _ _ _ _) as [[[rv1 q] n]|] eqn:E1; cbn [mbind option_bind] in H; [|done].
    pose proof (lugh_message_to_nng_waiting _ _ _ _ _ _ _ _ E1) as Hq. pose proof (lugh_message_to_nng_topo _ _ _ _ _ _ _ _ E1) as Ht.
    assert (Hs1 : socket_queue n k = socket_queue (w_nng w) k) by (unfold socket_queue; injection Hq as -> _; done).
    destruct (negb _); [injection H as _ <- _; done|].
    rewrite (surjective_pairing (if au_enabled _ then _ else _)) in H.
    set (w2 := snd (if au_enabled _ then _ else _)) in H.
    assert (Hn2 : w_nng w2 = n /\ channel w2 id = channel w id) by (unfold w2; cbn; by destruct (au_enabled _)).
    destruct Hn2 as [Hn2 Hc2]. rewrite Hn2, Hc2 in H.
    destruct (nng_send _ _ _ _ _) as [[rv2 n2]|] eqn:E2; cbn [mbind option_bind] in H; [|done].
    apply (nng_send_queues _ _ _ _ _ _ _ k) in E2; [|done|intros ?%(recipient_ext _ _ _ _ Ht Hq); contradiction].
    destruct (negb _); injection H as _ <- _; cbn; congruence.
Qed.

Lemma open_at_unique w k ch k' ch' :
  channels_wf w -> open_at (w_channels w) k ch -> open_at (w_channels w) k' ch' ->
  so_id (ch_socket ch) = so_id (ch_socket ch') -> ch = ch'.
Proof.
  intros Hw Hk Hk' He. pose proof (cw_distinct w Hw k k' ch ch' Hk Hk' He) as ->.
  destruct Hk as [Hk _], Hk' as [Hk' _]. congruence.
Qed.


(** ** A concrete system: a PUSH channel of the root task wired to a PULL
    channel in another domain *)
Definition demo_boot : world := boot_world 4096 auditor_demo (memory_init alloc_bss).
Definition demo_w1 : world := (ipc_create_channel demo_boot 0 0 15 NNG_PROTO_PUSH0).2.
Definition demo_w2 : world := (ipc_create_channel demo_w1 0 1 3 NNG_PROTO_PULL0).2.
Definition demo_world : world := (ipc_connect demo_w2 0 1).2.

Lemma demo_world_reachable : world_reachable demo_rt 4096 demo_world.
Proof.
  exists auditor_demo, (memory_init alloc_bss).
  unfold demo_world. eapply rtc_r; [|apply ws_connect].
  unfold demo_w2. eapply rtc_r; [|apply ws_create].
  unfold demo_w1. eapply rtc_r; [|apply ws_create]. apply rtc_refl.
Qed.

Example channel_authority_witness :
  exists t, t ∈ live (w_tasks demo_world) /\ t_task_id t = 1 /\
    (forall a, rtc (parent_in (w_tasks demo_world)) t a -> 3 ⊑ t_cap_mask a).
Proof.
  destruct (channel_authority demo_rt 4096 demo_world 1 (Channel 1 true (Sock 1 7 0) 0 1 3 1)
              demo_world_reachable) as (t & Ht & Hid & Ha & _).
  - split; vm_compute; reflexivity.
  - exists t. split; [exact Ht|]. split; [exact Hid|exact Ha].
Defined.

(** The demo's send reaches the PULL channel in domain 1. *)
Lemma demo_push : exists rv w' m',
  ipc_send demo_rt 524288 786432 demo_world 0 (Some (demo_msg 1)) = Some (rv, w', m') /\ rv = 0 /\
  length (socket_queue (w_nng w') 1) = 1%nat.
Proof.
  assert (H : match ipc_send demo_rt 524288 786432 demo_world 0 (Some (demo_msg 1)) with
              | Some (rv, w', _) => rv = 0 /\ length (socket_queue (w_nng w') 1) = 1%nat
              | None => False end) by (vm_compute; done).
  destruct (ipc_send _ _ _ _ _ _) as [[[rv w'] m']|]; [|done]. exists rv, w', m'. by split.
Qed.


(** A REP socket remembers its requester by number ([sock_state.reply_src]),
    and closing a socket clears no other socket's memory.  Here a requester in
    domain 1 asks and closes its channel; the next channel opened, in domain
    2, takes over its socket, and the answer is queued there, though the
    replier holds no [CAP_CROSS_DOMAIN] and the matrix has no edge. *)
Definition plain_msg : message_t := Message 1 0 0 0 (demo_text 1).
Definition stale_req : world :=
  let w := (ipc_create_channel demo_boot 0 1 3 NNG_PROTO_REQ0).2 in
  let w := (ipc_create_channel w 0 1 3 NNG_PROTO_REP0).2 in
  let w := (ipc_connect w 0 1).2 in
  let w := default w ((fun r => r.1.2) <$> ipc_send demo_rt 524288 786432 w 0 (Some plain_msg)) in
  let w := (ipc_close_channel w 0).2 in
  (ipc_create_channel w 0 2 3 NNG_PROTO_PULL0).2.

Example stale_reply_crosses :
  ch_domain (channel stale_req 1) = 1 /\ has_cap (ch_cap_mask (channel stale_req 1)) CAP_CROSS_DOMAIN = false /\
  ch_domain (channel stale_req 0) = 2 /\ domain_edge_allowed (w_graph stale_req) 1 2 = 0 /\
  match ipc_send demo_rt 524288 786432 stale_req 1 (Some plain_msg) with
  | Some (rv, w', _) => rv = 0 /\
      length (socket_queue (w_nng stale_req) (so_id (ch_socket (channel stale_req 0)))) = 0%nat /\
      length (socket_queue (w_nng w') (so_id (ch_socket (channel stale_req 0)))) = 1%nat
  | None => False
  end.
Proof. vm_compute. repeat split; reflexivity. Qed.

(** ** Mediation of each call *)

(** What a denial leaves on the wire: when the auditor is armed, the 44 bytes
    of one DENY record with this reason, domain and channel, the capabilities
    granted and required first in its payload, and nothing when it is not.
    The rest of the auditor is as it was. *)
Definition denial_sent (a a' : auditor) (reason dom chan granted required : Z) : Prop :=
  (if au_enabled a
   then exists rec, au_tlm a' = au_tlm a ++ record_bytes rec /\ length (record_bytes rec) = 44%nat /\
     ar_record_type rec = AUDITOR_REC_DENY /\ Z.land (ar_checksum rec) 255 = reason /\
     ar_src_domain rec = dom /\ Auditor.ar_channel_id rec = chan /\
     take 8 (ar_payload_hash rec) = le_bytes 4 granted ++ le_bytes 4 required
   else au_tlm a' = au_tlm a) /\
  au_ring a' = au_ring a /\ au_enabled a' = au_enabled a /\ au_tick_count a' = au_tick_count a /\
  au_heartbeat a' = au_heartbeat a /\ au_jiffies a' = au_jiffies a.
(** A refused call: tasks, matrix, channels and sockets are as before, and the
    denial has been sent. *)
Definition refused (w w' : world) (reason dom chan granted required : Z) : Prop :=
  w' = with_auditor (w_auditor w') w /\
  denial_sent (w_auditor w) (w_auditor w') reason dom chan granted required.

Lemma auditor_deny_sent a i :
  is_byte (d_reason i) -> is_byte (d_dst_domain i) -> is_byte (d_dst_channel i) ->
  denial_sent a (auditor_deny a (Some i)) (d_reason i) (d_src_domain i) (d_src_channel i) (d_granted_caps i) (d_required_caps i).
Proof.
  intros Hr Hd Hc. unfold denial_sent, auditor_deny. destruct (au_enabled a) eqn:E; cbn [negb]; [|by split_and!].
  split; [|by split_and!]. exists (deny_record a i). split; [done|]. split; [by apply length_record_bytes|].
  split; [done|]. split; [|by split_and!].
  unfold deny_record, init_record. cbn [Auditor.ar_checksum]. rewrite deny_checksum_sum by done.
  rewrite land_255. unfold is_byte in *. lia.
Qed.

Lemma emit_deny_refused w s d op r p :
  is_byte r ->
  refused w (emit_deny w s d op r p) r (u8 (Z.land (ch_domain (channel w s)) 255)) (u8 (Z.land (u32 s) 255))
    (ch_cap_mask (channel w s)) (required_caps_for_op op).
Proof.
  intros Hr. pose proof (auditor_deny_sent (w_auditor w) (deny_info_of w s d op r p) Hr) as H.
  unfold emit_deny. assert (Hd : denial_sent (w_auditor w) (auditor_deny (w_auditor w) (Some (deny_info_of w s d op r p))) r
    (u8 (Z.land (ch_domain (channel w s)) 255)) (u8 (Z.land (u32 s) 255)) (ch_cap_mask (channel w s)) (required_caps_for_op op)).
  { apply H; cbn; destruct (_ && _)%bool; try apply u8_range; done. }
  destruct (au_enabled (w_auditor w)) eqn:E; cbn [negb].
  - by split.
  - split; [by destruct w|]. unfold denial_sent. rewrite E. by split_and!.
Qed.

Lemma emit_create_deny_refused w cur c d r p :
  current (w_tasks w) = Some cur -> is_byte r ->
  refused w (emit_create_deny w c d r p) r (u8 (Z.land (t_domain cur) 255)) 255 (t_cap_mask cur) c.
Proof.
  intros Hc Hr. unfold emit_create_deny. rewrite Hc. destruct (au_enabled (w_auditor w)) eqn:E; cbn [negb].
  - split; [done|]. cbn [with_auditor w_auditor].
    apply (auditor_deny_sent (w_auditor w) (DenyInfo _ _ _ _ _ _ _ _ _ _ _ _ _)); [done|apply u8_range|done].
  - split; [by destruct w|]. unfold denial_sent. rewrite E. by split_and!.
Qed.

(** A denial on channel [id]. *)
Definition denied (w w' : world) (id reason required : Z) : Prop :=
  refused w w' reason (u8 (Z.land (ch_domain (channel w id)) 255)) (u8 (Z.land (u32 id) 255))
    (ch_cap_mask (channel w id)) required.

Lemma create_mediated w cur lvl dom caps proto :
  current (w_tasks w) = Some cur ->
  let r := ipc_create_channel w lvl dom caps proto in
  if decide (caps ⊑ t_cap_mask cur) then
    r.1 <> -4 /\
    (r.1 = -5 <-> ~ admissible (w_graph w) (t_domain cur) dom (t_cap_mask cur)) /\
    (r.1 = -5 -> refused w r.2 DENY_DOMAIN_CREATE (u8 (Z.land (t_domain cur) 255)) 255 (t_cap_mask cur) caps)
  else r.1 = -4 /\ refused w r.2 DENY_CAP_ESCALATION (u8 (Z.land (t_domain cur) 255)) 255 (t_cap_mask cur) caps.
Proof.
  intros Hcur. unfold ipc_create_channel. rewrite Hcur. cbv zeta.
  destruct (decide (caps ⊑ t_cap_mask cur)) as [Hc|Hc].
  2: { destruct (Z.land (t_cap_mask cur) caps =? caps) eqn:E; bools; [done|]. cbn [negb fst snd].
       split; [done|by apply (emit_create_deny_refused _ cur)]. }
  rewrite (proj2 (Z.eqb_eq _ _) Hc). cbn [negb].
  destruct (_ && _ && _)%bool eqn:Ed.
  - cbn [fst snd]. split; [done|]. split; [|by intros _; apply (emit_create_deny_refused _ cur)].
    split; [|done]. intros _ Had. apply admissible_test in Had. congruence.
  - apply admissible_test in Ed. destruct (findi _ (w_channels w)) as [i|].
    + destruct (nng_socket_create _ _ _) as [[rv so] n]. destruct (negb _); cbn [fst snd].
      * split; [done|]. split; [|done]. split; [done|]. by intros [].
      * split; [lia|]. split; [|lia]. split; [lia|]. by intros [].
    + cbn [fst snd]. split; [done|]. split; [|done]. split; [done|]. by intros [].
Qed.

Lemma connect_mediated w a b :
  channel_ok w a = true -> channel_ok w b = true ->
  let r := ipc_connect w a b in
  (r.1 = NNG_EACCESS <-> ~ admissible (w_graph w) (ch_domain (channel w a)) (ch_domain (channel w b))
                             (ch_cap_mask (channel w a))) /\
  (r.1 = NNG_EACCESS -> denied w r.2 a DENY_DOMAIN (required_caps_for_op 0)).
Proof.
  intros Ha Hb. unfold ipc_connect. rewrite Ha, Hb. cbn [negb]. cbv zeta.
  rewrite (Z.eqb_sym (ch_domain (channel w a))).
  destruct (_ && _ && _)%bool eqn:Ed.
  - cbn [fst snd]. split; [|intros _; by apply emit_deny_refused]. split; [|done].
    intros _ Had. apply admissible_test in Had. congruence.
  - apply admissible_test in Ed.
    assert (Hrv : (nng_connect (w_nng w) (ch_socket (channel w a)) (ch_socket (channel w b))).1 <> NNG_EACCESS).
    { unfold nng_connect. destruct (_ || _)%bool; [done|]. by destruct (findi _ _). }
    destruct (nng_connect _ _ _) as [rv n]. cbn [fst] in Hrv.
    destruct (negb (rv =? NNG_OK)); cbn [fst snd].
    + split; [|done]. split; [done|]. by intros [].
    + split; [|done]. split; [done|]. by intros [].
Qed.

Lemma send_mediated rt at_ l w id m :
  channel_ok w id = true ->
  let req := required_caps_for_op (m_operation m) in
  if decide (req ⊑ ch_cap_mask (channel w id))
  then forall rv w' m', ipc_send rt at_ l w id (Some m) = Some (rv, w', m') -> rv <> -7
  else exists w', ipc_send rt at_ l w id (Some m) = Some (-7, w', Some m) /\
         denied w w' id (if has_cap req CAP_PRIVILEGED_OP then DENY_CAP_PRIV else DENY_CAP_SEND) req.
Proof.
  intros Hok. unfold ipc_send. rewrite Hok. cbn [negb]. cbv zeta.
  set (req := required_caps_for_op _). destruct (decide _) as [Hc|Hc].
  - rewrite (proj2 (Z.eqb_eq _ _) Hc). cbn [negb]. intros rv w' m'.
    destruct (lugh_message_to_nng _ _ _ _ _) as [[[rv1 p] n]|]; cbn [mbind option_bind]; [|done].
    destruct (negb _); [by intros [= <- _ _]|]. destruct (if au_enabled _ then _ else _) as [m2 w2].
    destruct (nng_send _ _ _ _ _) as [[rv2 n2]|]; cbn [mbind option_bind]; [|done].
    destruct (negb _); by intros [= <- _ _].
  - destruct (Z.land _ req =? req) eqn:E; bools; [done|]. cbn [negb].
    eexists. split; [reflexivity|]. unfold has_cap. apply emit_deny_refused. by destruct (negb _).
Qed.

Lemma recv_mediated rt at_ w id m nb :
  channel_ok w id = true ->
  if has_cap (ch_cap_mask (channel w id)) CAP_IPC_RECV
  then forall rv w' m', ipc_recv rt at_ w id (Some m) nb = Some (rv, w', m') -> rv <> -7
  else exists w', ipc_recv rt at_ w id (Some m) nb = Some (-7, w', Some m) /\ denied w w' id DENY_CAP_RECV (required_caps_for_op 0).
Proof.
  intros Hok. unfold ipc_recv. rewrite Hok. cbn [negb]. destruct (has_cap _ _); cbn [negb].
  - intros rv w' m'. destruct (nng_recv _ _ _) as [[rv1 p] n]. cbv zeta.
    destruct (negb _); [destruct (_ && _)%bool; by intros [= <- _ _]|].
    destruct (nng_message_to_lugh _ _ _) as [[rv2 m2]|]; cbn [mbind option_bind]; [|done].
    destruct (negb _); [by intros [= <- _ _]|]. destruct (negb _); by intros [= <- _ _].
  - eexists. split; [reflexivity|]. by apply emit_deny_refused.
Qed.



(** A message [c] that holds the text of [m] has arrived at an open channel
    that may receive and is not a surveyor's; [rest] waits behind it. *)
Record arrived (w : world) (id c : Z) (rest : list Z) (m : message_t) : Prop := {
  ar_open : channel_ok w id = true;
  ar_cap : has_cap (ch_cap_mask (channel w id)) CAP_IPC_RECV = true;
  ar_queues : queues_wf (w_nng w);
  ar_valid : socket_valid (w_nng w) (so_id (ch_socket (channel w id))) = true;
  ar_proto : protocol_of (w_nng w) (so_id (ch_socket (channel w id))) <> NNG_PROTO_SURVEYOR0;
  ar_head : socket_queue (w_nng w) (so_id (ch_socket (channel w id))) = c :: rest;
  ar_holds : msg_holds (w_nng w) c (wire m);
  ar_text : (length (cstr (m_payload m)) <= 58)%nat;
  ar_operation : 0 <= m_operation m < 4294967296
}.

(** The receiver's checksum test looks at the caller's buffer.  The
    conversion never sets [checksum], so a message that arrives intact (at
    most 58 characters) is stored in the buffer with its priority byte,
    operation and text, and [ipc_recv] then returns 0 exactly when the
    checksum the caller's buffer held beforehand is the text's CRC, and -6
    otherwise. *)
Theorem recv_checks_stale_checksum (rt : regions) (at_ : Z) (w : world) (id c : Z) (rest : list Z)
    (m m0 : message_t) (nb : bool) :
  arrived w id c rest m -> length (m_payload m0) = 128%nat ->
  let sum := calculate_checksum rt (ng_crc (w_nng w)) (at_ + MSG_PAYLOAD_OFF) (cstr (m_payload m)) in
  exists w' m', ipc_recv rt at_ w id (Some m0) nb =
      Some (if sum =? m_checksum m0 then 0 else -6, w', Some m') /\
    m_priority m' = u8 (m_priority m) /\ m_operation m' = m_operation m /\
    cstr (m_payload m') = cstr (m_payload m) /\ socket_queue (w_nng w') (so_id (ch_socket (channel w id))) = rest.
Proof.
  intros [Hok Hcap Hqw Hv Hp Hq Hh Hlen Hop] Hm0 sum. unfold ipc_recv. rewrite Hok, Hcap. cbn [negb].
  set (so := ch_socket (channel w id)) in *.
  pose proof (nng_recv_spec (au_jiffies (w_auditor w)) (w_nng w) so Hqw Hv Hp) as Hr.
  rewrite Hq in Hr. destruct Hr as (q & -> & _ & Hrest & _). cbn [negb Z.eqb NNG_OK].
  set (n := set_queues q (w_nng w)) in *.
  destruct (nng_message_to_lugh_wire n c m m0 Hh Hlen Hm0 Hop) as (m' & -> & Hpr & Ho & Ht & _ & Hck & _).
  cbn [mbind option_bind negb Z.eqb NNG_OK w_nng with_nng]. rewrite Ht, Hck.
  assert (Hfree : ng_crc (nng_msg_free n c).2 = ng_crc (w_nng w) /\
                  ng_queues (nng_msg_free n c).2 = ng_queues n).
  { unfold nng_msg_free. destruct (c =? 0); [done|]. by destruct (findi _ _). }
  destruct Hfree as [-> Hfq]. fold sum.
  destruct (sum =? m_checksum m0); cbn [negb]; do 2 eexists; (split; [reflexivity|]); split_and!; try done;
    unfold socket_queue; cbn [w_nng with_nng]; rewrite Hfq; exact Hrest.
Qed.

(** The message of [demo_msg 3], sent from channel 0 to channel 1. *)
Definition demo_in_flight : world :=
  default demo_world ((fun r => r.1.2) <$> ipc_send demo_rt 524288 786432 demo_world 0 (Some (demo_msg 3))).
Definition demo_head : Z := hd 0 (socket_queue (w_nng demo_in_flight) 1).

Lemma demo_in_flight_queues : queues_wf (w_nng demo_in_flight).
Proof.
  assert (H : Forall (fun q => length (q_messages q) = 16%nat /\ 0 <= q_head q < 16 /\
            0 <= q_count q <= 16 /\ q_tail q = (q_head q + q_count q) mod 16) (ng_queues (w_nng demo_in_flight))).
  { let t := eval vm_compute in (ng_queues (w_nng demo_in_flight)) in
      change (ng_queues (w_nng demo_in_flight)) with t.
    repeat (apply Forall_cons_2; [cbn; split_and!; (lia || reflexivity)|]). apply Forall_nil_2. }
  split; [vm_compute; reflexivity|]. intros i Hi.
  destruct (lookup_lt_is_Some_2 (ng_queues (w_nng demo_in_flight)) i) as [q Hq];
    [replace (length _) with 16%nat by (vm_compute; reflexivity); exact Hi|].
  rewrite (lookup_total_Some _ _ _ Hq).
  destruct (proj1 (Forall_lookup _ _) H i q Hq) as (? & ? & ? & ?). split; assumption.
Qed.

Lemma demo_in_flight_holds : msg_holds (w_nng demo_in_flight) demo_head (wire (demo_msg 3)).
Proof.
  split; [vm_compute; split; discriminate|].
  do 2 eexists. split; [vm_compute; reflexivity|]. split; [vm_compute; reflexivity|].
  split; [vm_compute; split; discriminate|]. split_and!; vm_compute; reflexivity.
Qed.

Example recv_checks_stale_checksum_witness :
  exists w' m', ipc_recv demo_rt 524288 demo_in_flight 1 (Some message_zero) true = Some (-6, w', Some m') /\
    cstr (m_payload m') = [65; 65; 65].
Proof.
  destruct (recv_checks_stale_checksum demo_rt 524288 demo_in_flight 1 demo_head [] (demo_msg 3)
              message_zero true) as (w' & m' & Hr & _ & _ & Ht & _).
  - split.
    + vm_compute. reflexivity.
    + vm_compute. reflexivity.
    + exact demo_in_flight_queues.
    + vm_compute. reflexivity.
    + vm_compute. discriminate.
    + vm_compute. reflexivity.
    + exact demo_in_flight_holds.
    + cbn. lia.
    + cbn. lia.
  - reflexivity.
  - exists w', m'. split; [|rewrite Ht; reflexivity]. rewrite Hr.
    apply (f_equal (fun z => Some (z, w', Some m'))). vm_compute. reflexivity.
Defined.
