(* ===== verification/TxnLog.v ===== *)
(** * The transaction log: kernel/fs/storage.c

    A ring of 256 entries with free-running 32-bit cursors; a full ring drops
    its oldest entry and counts the drop twice, here and in the auditor's
    ring. *)
From S2P Require Import Prelude Types Circular Ring.

Definition TXN_LOG_ENTRIES : Z := 256.

(** The four static variables. *)
Record txn_log_t := TxnLog {
  tl_log : list txn_log_entry_t;
  tl_head : Z;
  tl_tail : Z;
  tl_overflow : Z
}.
Definition txn_log_bss : txn_log_t := TxnLog (replicate 256 txn_zero) 0 0 0.

Definition txn_log_get_overflow (l : txn_log_t) : Z := tl_overflow l.
Definition txn_log_get_depth (l : txn_log_t) : Z := u32 (tl_head l - tl_tail l).

(** The owner stamp; [cur] is [*current_task]. *)
Definition stamp_owner (cur : option task_t) (e : txn_log_entry_t) : txn_log_entry_t :=
  match cur with
  | Some t =>
      if e_task_id e =? 0
      then TxnEntry (e_txn_id e) (t_task_id t) (e_operation e) (e_key e) (e_value e) (e_checksum e)
      else e
  | None => e
  end.

(** Returns the C result, the log, the auditor's ring and [*entry] after. *)
Definition log_transaction (l : txn_log_t) (r : ipc_ring_t) (cur : option task_t)
    (entry : option txn_log_entry_t) : Z * txn_log_t * ipc_ring_t * option txn_log_entry_t :=
  match entry with
  | None => (-1, l, r, entry)
  | Some e =>
      let full := txn_log_get_depth l >=? TXN_LOG_ENTRIES in
      let '(tail, over, r) :=
        if full then (u32 (tl_tail l + 1), u32 (tl_overflow l + 1), set_overflow (u32 (r_overflow r + 1)) r)
        else (tl_tail l, tl_overflow l, r) in
      let e := stamp_owner cur e in
      (0, TxnLog (<[Z.to_nat (Z.land (tl_head l) (TXN_LOG_ENTRIES - 1)) := e]> (tl_log l))
            (u32 (tl_head l + 1)) tail over, r, Some e)
  end.

(** ** What the log holds *)

Record log_wf (l : txn_log_t) : Prop := {
  lw_length : length (tl_log l) = 256%nat;
  lw_head : 0 <= tl_head l < 4294967296;
  lw_tail : 0 <= tl_tail l < 4294967296;
  lw_depth : txn_log_get_depth l <= 256
}.

(** The entries, oldest first. *)
Definition log_contents (l : txn_log_t) : list txn_log_entry_t :=
  window (tl_log l) (Z.to_nat (tl_tail l)) (Z.to_nat (txn_log_get_depth l)).

Lemma txn_log_bss_wf : log_wf txn_log_bss.
Proof. split; [reflexivity|cbn; lia|cbn; lia|vm_compute; discriminate]. Qed.

Lemma length_log_contents l : log_wf l -> Z.of_nat (length (log_contents l)) = txn_log_get_depth l.
Proof.
  intros _. unfold log_contents. rewrite length_window. unfold txn_log_get_depth.
  pose proof (u32_range (tl_head l - tl_tail l)). lia.
Qed.

Lemma depth_of buf h t o : txn_log_get_depth (TxnLog buf h t o) = u32 (h - t).
Proof. done. Qed.

(** Where the next entry goes. *)
Lemma log_head_slot l :
  log_wf l ->
  Z.to_nat (Z.land (tl_head l) (TXN_LOG_ENTRIES - 1)) =
  ((Z.to_nat (tl_tail l) + Z.to_nat (txn_log_get_depth l)) mod length (tl_log l))%nat.
Proof.
  intros [-> Hh Ht _]. unfold TXN_LOG_ENTRIES, txn_log_get_depth. rewrite land_255.
  apply Nat2Z.inj. rewrite Nat2Z.inj_mod. unfold u32. lia.
Qed.

(** One entry: appended, after dropping the oldest of a full log. *)
Lemma log_transaction_spec l r cur e :
  log_wf l ->
  let full := (length (log_contents l) =? 256)%nat in
  let '(rv, l', r', e') := log_transaction l r cur (Some e) in
  rv = 0 /\ e' = Some (stamp_owner cur e) /\ log_wf l' /\
  log_contents l' = (if full then tail (log_contents l) else log_contents l) ++ [stamp_owner cur e] /\
  tl_overflow l' = (if full then u32 (tl_overflow l + 1) else tl_overflow l) /\
  r' = (if full then set_overflow (u32 (r_overflow r + 1)) r else r).
Proof.
  intros Hw. pose proof (length_log_contents l Hw) as Hlen. pose proof (log_head_slot l Hw) as Hslot.
  unfold log_transaction. destruct Hw as [Hl Hh Ht Hd]. unfold TXN_LOG_ENTRIES in *. cbv zeta.
  rewrite Z.geb_leb. destruct (256 <=? txn_log_get_depth l) eqn:E; bools.
  - rewrite (proj2 (Nat.eqb_eq _ _)) by lia. split; [done|]. split; [done|].
    assert (Hd' : u32 (u32 (tl_head l + 1) - u32 (tl_tail l + 1)) = 256).
    { unfold txn_log_get_depth in *. unfold u32 in *. lia. }
    split.
    { split; cbn; [by rewrite length_insert|apply u32_range|apply u32_range|].
      unfold txn_log_get_depth. cbn. lia. }
    split; [|done]. rewrite Hslot. unfold log_contents.
    cbn [tl_log tl_tail tl_head]. rewrite depth_of, Hd'.
    replace (Z.to_nat (txn_log_get_depth l)) with 256%nat by lia. change (Z.to_nat 256) with 256%nat.
    rewrite <-Hl.
    replace ((Z.to_nat (tl_tail l) + length (tl_log l)) mod length (tl_log l))%nat
      with (Z.to_nat (tl_tail l) mod length (tl_log l))%nat.
    2: { rewrite <-(Nat.Div0.mod_add (Z.to_nat (tl_tail l)) 1). by rewrite Nat.mul_1_l. }
    rewrite <-window_overwrite by lia.
    rewrite <-window_mod, <-(window_mod _ (S _)). rewrite length_insert, Hl. f_equal.
    apply Nat2Z.inj. rewrite !Nat2Z.inj_mod. unfold u32. lia.
  - replace (length (log_contents l) =? 256)%nat with false
      by (symmetry; apply Nat.eqb_neq; lia).
    split; [done|]. split; [done|].
    assert (Hd' : u32 (u32 (tl_head l + 1) - tl_tail l) = txn_log_get_depth l + 1).
    { unfold txn_log_get_depth in *. unfold u32 in *. lia. }
    pose proof (u32_range (tl_head l - tl_tail l)) as Hr. fold (txn_log_get_depth l) in Hr.
    split.
    { split; cbn; [by rewrite length_insert|apply u32_range|done|].
      unfold txn_log_get_depth. cbn. lia. }
    split; [|done]. rewrite Hslot. unfold log_contents.
    cbn [tl_log tl_tail tl_head]. rewrite depth_of, Hd'.
    replace (Z.to_nat (txn_log_get_depth l + 1)) with (S (Z.to_nat (txn_log_get_depth l))) by lia.
    apply window_push. lia.
Qed.

(** ** A history of entries, each with the task that was current *)
Fixpoint log_all (l : txn_log_t) (r : ipc_ring_t) (es : list (option task_t * txn_log_entry_t))
    : txn_log_t * ipc_ring_t :=
  match es with
  | [] => (l, r)
  | (cur, e) :: es => let '(_, l, r, _) := log_transaction l r cur (Some e) in log_all l r es
  end.

Definition stamped (es : list (option task_t * txn_log_entry_t)) : list txn_log_entry_t :=
  (fun '(cur, e) => stamp_owner cur e) <$> es.

(** The last [n] elements, and how many come before them. *)
Definition latest {A} (n : nat) (l : list A) : list A := drop (length l - n) l.
Definition surplus {A} (n : nat) (l : list A) : Z := Z.of_nat (length l - n).

Lemma set_overflow_id r : set_overflow (r_overflow r) r = r.
Proof. by destruct r. Qed.

Lemma log_all_spec es l r :
  log_wf l -> 0 <= tl_overflow l < 4294967296 -> 0 <= r_overflow r < 4294967296 ->
  let all := log_contents l ++ stamped es in
  let '(l', r') := log_all l r es in
  log_wf l' /\ log_contents l' = latest 256 all /\
  tl_overflow l' = u32 (tl_overflow l + surplus 256 all) /\
  r' = set_overflow (u32 (r_overflow r + surplus 256 all)) r.
Proof.
  revert l r. induction es as [|[cur e] es IH]; intros l r Hw Ho Hro.
  - cbn. pose proof (length_log_contents l Hw) as Hlen.
    pose proof (lw_depth l Hw). rewrite app_nil_r. unfold latest, surplus.
    replace (length (log_contents l) - 256)%nat with 0%nat by lia. cbn [drop].
    rewrite !Z.add_0_r, !u32_id, set_overflow_id by lia. done.
  - cbn [log_all stamped fmap list_fmap].
    pose proof (log_transaction_spec l r cur e Hw) as Hs.
    destruct (log_transaction l r cur (Some e)) as [[[rv l1] r1] e1].
    destruct Hs as (_ & _ & Hw1 & Hc1 & Ho1 & Hr1).
    pose proof (length_log_contents l Hw) as Hlen. pose proof (lw_depth l Hw) as Hdep.
    specialize (IH l1 r1 Hw1). fold (stamped es). cbv zeta in IH |- *.
    assert (Hpre : 0 <= tl_overflow l1 < 4294967296 /\ 0 <= r_overflow r1 < 4294967296).
    { rewrite Ho1, Hr1. destruct (_ =? 256)%nat; [|done]. cbn. split; apply u32_range. }
    destruct Hpre as [Hp1 Hp2]. specialize (IH Hp1 Hp2). destruct (log_all l1 r1 es) as [l2 r2].
    destruct IH as (Hw2 & Hc2 & Ho2 & Hr2). split; [done|].
    rewrite Hc2, Ho2, Hr2, Ho1, Hr1, Hc1. unfold latest, surplus.
    destruct (length (log_contents l) =? 256)%nat eqn:E; [apply Nat.eqb_eq in E|apply Nat.eqb_neq in E].
    + destruct (log_contents l) as [|x c]; [done|]. cbn [tail length app] in *.
      rewrite <-app_assoc. cbn [app]. rewrite !length_app. cbn [length].
      replace (S (length c + S (length (stamped es))) - 256)%nat
        with (S (length c + S (length (stamped es)) - 256)) by lia.
      split; [done|]. cbn [r_overflow set_overflow]. unfold set_overflow. cbn.
      split; [unfold u32; lia|]. f_equal. unfold u32. lia.
    + rewrite <-app_assoc. cbn [app]. done.
Qed.

(** The log keeps the latest entries.  Whatever it held (at most 256
    entries) and however many entries are logged since, it holds exactly the
    last 256 of them in order, each with its owner stamped from the task
    that was current unless the caller set one; its overflow counter and the
    auditor ring's both advance by the number of entries dropped, and
    nothing else of the auditor ring changes. *)
Theorem txn_log_keeps_latest (l : txn_log_t) (r : ipc_ring_t) (es : list (option task_t * txn_log_entry_t)) :
  log_wf l -> 0 <= tl_overflow l < 4294967296 -> 0 <= r_overflow r < 4294967296 ->
  let all := log_contents l ++ stamped es in
  let '(l', r') := log_all l r es in
  log_contents l' = latest 256 all /\
  txn_log_get_depth l' = Z.min 256 (Z.of_nat (length all)) /\
  txn_log_get_overflow l' = u32 (txn_log_get_overflow l + surplus 256 all) /\
  r' = set_overflow (u32 (r_overflow r + surplus 256 all)) r.
Proof.
  intros Hw Hl Hr. pose proof (log_all_spec es l r Hw) as Hs. cbv zeta in *.
  destruct (log_all l r es) as [l' r']. destruct (Hs Hl Hr) as (Hw' & Hc & Ho & ->).
  split; [done|]. split; [|done]. rewrite <-length_log_contents, Hc by done.
  unfold latest. rewrite length_drop. lia.
Qed.

Definition demo_entry (k : Z) : option task_t * txn_log_entry_t :=
  (Some (Task 7 0 0 0 0 0 0 0 0), TxnEntry k 0 512 [] [] 0).

Example txn_log_keeps_latest_witness :
  let '(l', r') := log_all txn_log_bss ring_bss (demo_entry <$> [1; 2; 3]) in
  (fun e => (e_txn_id e, e_task_id e)) <$> log_contents l' = [(1, 7); (2, 7); (3, 7)] /\
  txn_log_get_depth l' = 3.
Proof.
  pose proof (txn_log_keeps_latest txn_log_bss ring_bss (demo_entry <$> [1; 2; 3]) txn_log_bss_wf
                ltac:(cbn; lia) ltac:(cbn; lia)) as H. cbv zeta in H.
  destruct (log_all _ _ _) as [l' r']. destruct H as (-> & -> & _). split; vm_compute; reflexivity.
Defined.
