(* ===== verification/Journal.v ===== *)
(** * The journal: what the workflow engine and the checkpoint store write to

    Both record their steps in the transaction log (kernel/fs/storage.c) and
    take their ids from [generate_transaction_id]
    (services/storage/transactions.c); the engine also reports to the
    auditor.  [HasJournal] is the interface through which they see the state
    of a system that contains a journal. *)
From S2P Require Import Prelude Types Circular Ring Auditor TxnLog.

(** The log, the auditor, [*current_task] and the id counter [next_id].
    [j_halted] is set by [cpu_halt], which does not return: a state in which
    it is set stands for a machine that has stopped, and what the model
    computes after that is no behaviour of it.  Nothing clears it. *)
Record journal := Journal {
  j_log : txn_log_t;
  j_auditor : auditor;
  j_current : option task_t;
  j_next_id : Z;
  j_halted : bool
}.
Definition journal_bss : journal := Journal txn_log_bss auditor_bss None 1 false.

(** A state with a journal in it, as a lens. *)
Class HasJournal (S : Type) := {
  journal_of : S -> journal;
  set_journal : journal -> S -> S
}.
Class JournalLaws (S : Type) `{HasJournal S} := {
  journal_of_set j s : journal_of (set_journal j s) = j;
  set_journal_set j j' s : set_journal j (set_journal j' s) = set_journal j s
}.

#[export] Instance journal_self : HasJournal journal := { journal_of j := j; set_journal j _ := j }.
#[export] Instance journal_self_laws : JournalLaws journal.
Proof. by split. Qed.

(** The bracket [splhigh]/[splx] leaves the interrupt level as it was. *)
Definition generate_transaction_id (j : journal) : Z * journal :=
  if j_next_id j =? 18446744073709551615
  then (0, Journal (j_log j) (j_auditor j) (j_current j) (j_next_id j) true)
  else (j_next_id j, Journal (j_log j) (j_auditor j) (j_current j) (j_next_id j + 1) (j_halted j)).

(** The machine stops: [cpu_halt], or the endless loop of [assert_impl]. *)
Definition halt_journal (j : journal) : journal :=
  Journal (j_log j) (j_auditor j) (j_current j) (j_next_id j) true.

(** The machine runs and at least [n] ids are left. *)
Definition ids_left (n : Z) (j : journal) : Prop :=
  j_halted j = false /\ j_next_id j + n <= 18446744073709551615.

Lemma generate_ids_left n j : 0 <= n -> ids_left (n + 1) j -> ids_left n (generate_transaction_id j).2.
Proof.
  intros Hn [Hh Hi]. unfold generate_transaction_id. destruct (_ =? _) eqn:E; bools; [lia|].
  split; cbn; [done|lia].
Qed.

(** [log_transaction] on the log, the auditor's ring and the current task. *)
Definition journal_transaction (e : txn_log_entry_t) (j : journal) : journal :=
  let '(_, l, r, _) := log_transaction (j_log j) (au_ring (j_auditor j)) (j_current j) (Some e) in
  Journal l (set_ring r (j_auditor j)) (j_current j) (j_next_id j) (j_halted j).

Lemma journal_transaction_ids_left n e j : ids_left n (journal_transaction e j) <-> ids_left n j.
Proof. unfold ids_left, journal_transaction. by destruct (log_transaction _ _ _ _) as [[[? ?] ?] ?]. Qed.

Definition with_journal_auditor (a : auditor) (j : journal) : journal :=
  Journal (j_log j) a (j_current j) (j_next_id j) (j_halted j).

(** A bounded copy into the field [dst] of a stack record: at most
    [length dst - 1] characters and a NUL; what lies behind the NUL is what
    the field held before.  [src] is the string up to its NUL, [None] a NULL
    pointer. *)
Definition copy_field (dst : list Z) (src : option (list Z)) : list Z :=
  match length dst with
  | O => dst
  | S n =>
      let t := take n (default [] src) in
      t ++ 0 :: drop (S (length t)) dst
  end.

Lemma length_copy_field dst src : length (copy_field dst src) = length dst.
Proof.
  unfold copy_field. destruct (length dst) as [|n] eqn:E; [done|].
  rewrite length_app. cbn [length]. rewrite length_drop, length_take, E. lia.
Qed.

(** The field then reads as the string, cut to the field's size. *)
Lemma cstr_copy_field dst src :
  dst <> [] -> Forall (fun c => c <> 0) (default [] src) ->
  cstr (copy_field dst src) = take (length dst - 1) (default [] src).
Proof.
  intros Hd Hs. unfold copy_field. destruct (length dst) as [|n] eqn:E; [by destruct dst|].
  rewrite cstr_app_nul by (by apply Forall_take). f_equal. lia.
Qed.
