(* ===== verification/Workflow.v ===== *)
(** * Durable workflows: services/workflow/workflow.c

    A workflow is a table of steps, each with a run and an optional undo
    callback.  Callbacks act on the rest of the system, an abstract state
    with a journal in it; the engine's own table is out of their reach.
    [None] as the result of an engine call is a call through a NULL or
    out-of-table function pointer. *)
From stdpp Require Import strings.
From S2P Require Import Prelude Types Circular Ring Auditor TxnLog Journal.

Definition WORKFLOW_MAX_STEPS : Z := 8.
Definition WORKFLOW_MAX_ACTIVE : nat := 4.

Definition WF_STATUS_IDLE : Z := 0.
Definition WF_STATUS_RUNNING : Z := 1.
Definition WF_STATUS_COMMITTED : Z := 2.
Definition WF_STATUS_ROLLING_BACK : Z := 3.
Definition WF_STATUS_ROLLED_BACK : Z := 4.
Definition WF_STATUS_FAILED : Z := 5.

Definition WF_EV_BEGIN : Z := 0.
Definition WF_EV_STEP_OK : Z := 1.
Definition WF_EV_STEP_FAIL : Z := 2.
Definition WF_EV_UNDO_OK : Z := 3.
Definition WF_EV_UNDO_FAIL : Z := 4.
Definition WF_EV_COMMIT : Z := 5.
Definition WF_EV_ROLLED_BACK : Z := 6.
Definition WF_EV_FAILED : Z := 7.

Definition wf_event_name (event : Z) : list Z :=
  if event =? WF_EV_BEGIN then chars "BEGIN"%string
  else if event =? WF_EV_STEP_OK then chars "STEP_OK"%string
  else if event =? WF_EV_STEP_FAIL then chars "STEP_FAIL"%string
  else if event =? WF_EV_UNDO_OK then chars "UNDO_OK"%string
  else if event =? WF_EV_UNDO_FAIL then chars "UNDO_FAIL"%string
  else if event =? WF_EV_COMMIT then chars "COMMIT"%string
  else if event =? WF_EV_ROLLED_BACK then chars "ROLLED_BACK"%string
  else if event =? WF_EV_FAILED then chars "FAILED"%string
  else chars "UNKNOWN"%string.

Section Engine.
Context {S : Type} `{HasJournal S}.

(** A callback: context pointer and system state to result and state. *)
Definition workflow_fn : Type := Z -> S -> Z * S.

(** [workflow_step_t]; [None] is NULL. *)
Record workflow_step_t := Step {
  st_name : option (list Z);
  st_run : option workflow_fn;
  st_undo : option workflow_fn
}.

(** [workflow_t]. *)
Record workflow_t := Workflow {
  wf_workflow_id : Z;
  wf_owner_task_id : Z;
  wf_status : Z;
  wf_step_count : Z;
  wf_done_count : Z;
  wf_ctx : Z;
  wf_steps : option (list workflow_step_t)
}.
Definition wf_zero : workflow_t := Workflow 0 0 WF_STATUS_IDLE 0 0 0 None.
Definition with_status st (wf : workflow_t) : workflow_t :=
  Workflow (wf_workflow_id wf) (wf_owner_task_id wf) st (wf_step_count wf) (wf_done_count wf)
    (wf_ctx wf) (wf_steps wf).
Definition with_done n (wf : workflow_t) : workflow_t :=
  Workflow (wf_workflow_id wf) (wf_owner_task_id wf) (wf_status wf) (wf_step_count wf) n
    (wf_ctx wf) (wf_steps wf).

Definition wf_step (wf : workflow_t) (i : Z) : option workflow_step_t :=
  l ← wf_steps wf; l !! Z.to_nat i.

(** [stk_key] and [stk_value]: what the stack frame of [wf_emit] held where
    the entry's two string fields are. *)
Context (stk_key stk_value : list Z).

Definition wf_entry (wf : workflow_t) (step_index event : Z) : txn_log_entry_t :=
  let name := if step_index <? wf_step_count wf
              then match wf_step wf step_index with
                   | Some st => st_name st
                   | None => Some (chars "workflow"%string)
                   end
              else Some (chars "workflow"%string) in
  TxnEntry (wf_workflow_id wf) 0 OP_WORKFLOW (copy_field stk_key name)
    (copy_field stk_value (Some (wf_event_name event))) 0.

(** Both sinks. *)
Definition journal_event (wf : workflow_t) (step_index event step_rv : Z) (j : journal) : journal :=
  let j := journal_transaction (wf_entry wf step_index event) j in
  with_journal_auditor
    (auditor_workflow (j_auditor j) (j_current j) (wf_workflow_id wf) (wf_owner_task_id wf) step_index
       (wf_status wf) (wf_done_count wf) step_rv event) j.

Definition wf_emit (wf : workflow_t) (step_index event step_rv : Z) (s : S) : S :=
  set_journal (journal_event wf step_index event step_rv (journal_of s)) s.

(** ** Slots *)

Definition workflow_active_count (tbl : list workflow_t) : Z :=
  Z.of_nat (length (filter (fun wf => wf_status wf <> WF_STATUS_IDLE) tbl)).

(** Returns the slot ([None] is NULL), the table and the state. *)
Definition workflow_begin (steps : option (list workflow_step_t)) (count ctx : Z)
    (tbl : list workflow_t) (s : S) : option nat * list workflow_t * S :=
  match steps with
  | None => (None, tbl, s)
  | Some l =>
      if ((count =? 0) || (count >? WORKFLOW_MAX_STEPS))%bool then (None, tbl, s)
      else if existsb (fun st => match st_run st with None => true | Some _ => false end)
                (take (Z.to_nat count) l)
      then (None, tbl, s)
      else match findi (fun wf => wf_status wf =? WF_STATUS_IDLE) tbl with
           | None => (None, tbl, s)
           | Some i =>
               let '(id, j) := generate_transaction_id (journal_of s) in
               let owner := match j_current j with Some t => t_task_id t | None => 0 end in
               (Some i, <[i := Workflow id owner WF_STATUS_RUNNING count 0 ctx steps]> tbl,
                set_journal j s)
           end
  end.

Definition workflow_release (wf : option nat) (tbl : list workflow_t) : list workflow_t :=
  match wf with None => tbl | Some i => <[i := wf_zero]> tbl end.

(** ** The undo chain *)

(** [k] is the loop's bound, [remaining] the undo cursor. *)
Fixpoint unwind_loop (k : nat) (remaining : Z) (undo_failed : bool) (wf : workflow_t) (s : S)
    : option (bool * S) :=
  match k with
  | O => Some (undo_failed, s)
  | Datatypes.S k =>
      if remaining =? 0 then Some (undo_failed, s)
      else
        let remaining := remaining - 1 in
        st ← wf_step wf remaining;
        match st_undo st with
        | None => unwind_loop k remaining undo_failed wf s
        | Some undo =>
            let '(rv, s) := undo (wf_ctx wf) s in
            if negb (rv =? 0)
            then unwind_loop k remaining true wf (wf_emit wf remaining WF_EV_UNDO_FAIL rv s)
            else unwind_loop k remaining undo_failed wf (wf_emit wf remaining WF_EV_UNDO_OK 0 s)
        end
  end.

Definition wf_unwind (wf : workflow_t) (s : S) : option (Z * workflow_t * S) :=
  let wf := with_status WF_STATUS_ROLLING_BACK wf in
  '(undo_failed, s) ← unwind_loop (Z.to_nat WORKFLOW_MAX_STEPS) (wf_done_count wf) false wf s;
  let wf := with_done 0 wf in
  if (undo_failed : bool)
  then let wf := with_status WF_STATUS_FAILED wf in
       Some (-1, wf, wf_emit wf (wf_step_count wf) WF_EV_FAILED (-1) s)
  else let wf := with_status WF_STATUS_ROLLED_BACK wf in
       Some (0, wf, wf_emit wf (wf_step_count wf) WF_EV_ROLLED_BACK 0 s).

(** ** Running *)

(** The loop over the steps; [k] more to go from step [i]. *)
Fixpoint run_loop (k : nat) (i : Z) (wf : workflow_t) (s : S) : option (Z * workflow_t * S) :=
  match k with
  | O =>
      let wf := with_status WF_STATUS_COMMITTED wf in
      Some (0, wf, wf_emit wf (wf_step_count wf) WF_EV_COMMIT 0 s)
  | Datatypes.S k =>
      let s := wf_emit wf i WF_EV_BEGIN 0 s in
      st ← wf_step wf i;
      run ← st_run st;
      let '(rv, s) := run (wf_ctx wf) s in
      if negb (rv =? 0)
      then '(_, wf, s) ← wf_unwind wf (wf_emit wf i WF_EV_STEP_FAIL rv s);
           Some (-1, wf, s)
      else
        let s := wf_emit wf i WF_EV_STEP_OK 0 s in
        run_loop k (i + 1) (with_done (u32 (wf_done_count wf + 1)) wf) s
  end.

Definition workflow_run (wf : workflow_t) (s : S) : option (Z * workflow_t * S) :=
  match wf_steps wf with
  | None => Some (-1, wf, s)
  | Some _ =>
      if negb (wf_status wf =? WF_STATUS_RUNNING) then Some (-1, wf, s)
      else run_loop (Z.to_nat (wf_step_count wf)) 0 wf
             (wf_emit wf (wf_step_count wf) WF_EV_BEGIN 0 s)
  end.

(** [workflow_run] through the slot pointer it gets. *)
Definition workflow_run_slot (slot : option nat) (tbl : list workflow_t) (s : S)
    : option (Z * list workflow_t * S) :=
  match slot with
  | None => Some (-1, tbl, s)
  | Some i =>
      wf ← tbl !! i;
      '(rv, wf, s) ← workflow_run wf s;
      Some (rv, <[i := wf]> tbl, s)
  end.

(** ** Recovery *)

(** One slot: its contribution to the result, the slot and the state. *)
Definition recover_slot (wf : workflow_t) (s : S) : option (Z * workflow_t * S) :=
  if (negb (wf_status wf =? WF_STATUS_RUNNING) && negb (wf_status wf =? WF_STATUS_ROLLING_BACK))%bool
  then Some (0, wf, s)
  else match wf_steps wf with
       | None => Some (-1, with_status WF_STATUS_FAILED wf, s)
       | Some _ =>
           '(rv, wf, s) ← wf_unwind wf s;
           if negb (rv =? 0) then Some (-1, wf, s) else Some (0, wf_zero, s)
       end.

Fixpoint recover_loop (tbl : list workflow_t) (s : S) (result : Z)
    : option (Z * list workflow_t * S) :=
  match tbl with
  | [] => Some (result, [], s)
  | wf :: tbl =>
      '(rv, wf, s) ← recover_slot wf s;
      '(result, tbl, s) ← recover_loop tbl s (if rv =? 0 then result else -1);
      Some (result, wf :: tbl, s)
  end.

Definition workflow_recover (tbl : list workflow_t) (s : S) : option (Z * list workflow_t * S) :=
  recover_loop tbl s 0.
End Engine.
Arguments workflow_fn : clear implicits.
Arguments workflow_step_t : clear implicits.
Arguments workflow_t : clear implicits.

(** ** Executions as relations

    What the loops do, with the journal events they emit in order. *)
Section Executions.
Context {S : Type} `{HasJournal S} (stk_key stk_value : list Z).
Abbreviation wf_emit := (wf_emit stk_key stk_value).
Abbreviation workflow_t := (workflow_t S).

(** The arguments of one [wf_emit]. *)
Record wf_event := Event { ev_wf : workflow_t; ev_step : Z; ev_code : Z; ev_rv : Z }.
Definition emit_event (s : S) (e : wf_event) : S := wf_emit (ev_wf e) (ev_step e) (ev_code e) (ev_rv e) s.
Definition log_event (j : journal) (e : wf_event) : journal :=
  journal_event stk_key stk_value (ev_wf e) (ev_step e) (ev_code e) (ev_rv e) j.

(** A slot that [workflow_begin] made, or one its run has advanced. *)
Record wf_ok (wf : workflow_t) : Prop := {
  wo_count : 1 <= wf_step_count wf <= WORKFLOW_MAX_STEPS;
  wo_done : 0 <= wf_done_count wf <= wf_step_count wf;
  wo_steps : exists l, wf_steps wf = Some l /\ wf_step_count wf <= Z.of_nat (length l) /\
               forall i st, (i < Z.to_nat (wf_step_count wf))%nat -> l !! i = Some st -> is_Some (st_run st)
}.

Lemma wf_ok_step wf i :
  wf_ok wf -> 0 <= i < wf_step_count wf ->
  exists st run, wf_step wf i = Some st /\ st_run st = Some run.
Proof.
  intros [_ _ (l & Hl & Hlen & Hrun)] Hi. unfold wf_step. rewrite Hl. cbn.
  destruct (lookup_lt_is_Some_2 l (Z.to_nat i)) as [st Hst]; [lia|].
  destruct (Hrun (Z.to_nat i) st ltac:(lia) Hst) as [run Hr]. by exists st, run.
Qed.

(** Undoing the steps below [n], from [n - 1] down: every one that has an
    undo is undone, whatever the others returned; the flag says whether
    one returned non-zero. *)
Inductive undone (wf : workflow_t) : nat -> S -> list wf_event -> bool -> S -> Prop :=
  | undone_nil s : undone wf 0 s [] false s
  | undone_skip n st s evs b s' :
      wf_step wf (Z.of_nat n) = Some st -> st_undo st = None ->
      undone wf n s evs b s' -> undone wf (Datatypes.S n) s evs b s'
  | undone_call n st undo rv ev s s1 evs b s' :
      wf_step wf (Z.of_nat n) = Some st -> st_undo st = Some undo -> undo (wf_ctx wf) s = (rv, s1) ->
      ev = (if rv =? 0 then Event wf (Z.of_nat n) WF_EV_UNDO_OK 0
            else Event wf (Z.of_nat n) WF_EV_UNDO_FAIL rv) ->
      undone wf n (emit_event s1 ev) evs b s' ->
      undone wf (Datatypes.S n) s (ev :: evs) (negb (rv =? 0) || b)%bool s'.

Lemma unwind_loop_undone wf n k f s :
  wf_ok wf -> (n <= k)%nat -> Z.of_nat n <= wf_step_count wf ->
  exists evs b s', unwind_loop stk_key stk_value k (Z.of_nat n) f wf s = Some ((f || b)%bool, s') /\
    undone wf n s evs b s'.
Proof.
  intros Hw. revert k f s. induction n as [|n IH]; intros k f s Hk Hn.
  - exists [], false, s. rewrite orb_false_r. split; [|constructor]. by destruct k.
  - destruct k as [|k]; [lia|]. cbn [unwind_loop].
    rewrite (proj2 (Z.eqb_neq (Z.of_nat (Datatypes.S n)) 0)) by lia.
    replace (Z.of_nat (Datatypes.S n) - 1) with (Z.of_nat n) by lia.
    destruct (wf_ok_step wf (Z.of_nat n) Hw ltac:(lia)) as (st & run & Hst & _).
    rewrite Hst. cbn [mbind option_bind]. destruct (st_undo st) as [undo|] eqn:Eu.
    + destruct (undo (wf_ctx wf) s) as [rv s1] eqn:Er.
      set (ev := if rv =? 0 then Event wf (Z.of_nat n) WF_EV_UNDO_OK 0
                 else Event wf (Z.of_nat n) WF_EV_UNDO_FAIL rv).
      destruct (IH k (f || negb (rv =? 0))%bool (emit_event s1 ev) ltac:(lia) ltac:(lia))
        as (evs & b & s' & Hl & Hu).
      exists (ev :: evs), (negb (rv =? 0) || b)%bool, s'. split; [|by eapply undone_call].
      rewrite orb_assoc. rewrite <-Hl. unfold ev, emit_event. destruct (rv =? 0); cbn [negb].
      * by rewrite orb_false_r.
      * by rewrite orb_true_r.
    + destruct (IH k f s ltac:(lia) ltac:(lia)) as (evs & b & s' & -> & Hu).
      exists evs, b, s'. split; [done|]. by eapply undone_skip.
Qed.

(** The terminal event of an undo chain. *)
Definition unwound (wf : workflow_t) (failed : bool) : workflow_t :=
  with_status (if failed then WF_STATUS_FAILED else WF_STATUS_ROLLED_BACK)
    (with_done 0 (with_status WF_STATUS_ROLLING_BACK wf)).
Definition unwound_event (wf : workflow_t) (failed : bool) : wf_event :=
  if failed then Event (unwound wf true) (wf_step_count wf) WF_EV_FAILED (-1)
  else Event (unwound wf false) (wf_step_count wf) WF_EV_ROLLED_BACK 0.

Lemma with_status_ok st wf : wf_ok wf -> wf_ok (with_status st wf).
Proof. intros []. by split. Qed.
Lemma with_done_ok n wf : wf_ok wf -> 0 <= n <= wf_step_count wf -> wf_ok (with_done n wf).
Proof. intros [] ?. by split. Qed.

Lemma wf_unwind_undone wf s :
  wf_ok wf ->
  exists evs b s1, undone (with_status WF_STATUS_ROLLING_BACK wf) (Z.to_nat (wf_done_count wf)) s evs b s1 /\
    wf_unwind stk_key stk_value wf s =
      Some (if b then -1 else 0, unwound wf b, emit_event s1 (unwound_event wf b)).
Proof.
  intros Hw. pose proof (wo_done wf Hw) as Hd. pose proof (wo_count wf Hw) as Hc.
  destruct (unwind_loop_undone (with_status WF_STATUS_ROLLING_BACK wf) (Z.to_nat (wf_done_count wf))
              (Z.to_nat WORKFLOW_MAX_STEPS) false s) as (evs & b & s1 & Hl & Hu).
  - by apply with_status_ok.
  - unfold WORKFLOW_MAX_STEPS in *. lia.
  - cbn [wf_step_count with_status]. lia.
  - exists evs, b, s1. split; [done|]. unfold wf_unwind.
    change (wf_done_count (with_status WF_STATUS_ROLLING_BACK wf)) with (wf_done_count wf).
    rewrite Z2Nat.id in Hl by lia. rewrite Hl. cbn [mbind option_bind orb]. by destruct b.
Qed.

(** Running the first [n] steps from [s0]. *)
Definition step_events (wf : workflow_t) (n : nat) : list wf_event :=
  [Event (with_done (Z.of_nat n) wf) (Z.of_nat n) WF_EV_BEGIN 0;
   Event (with_done (Z.of_nat n) wf) (Z.of_nat n) WF_EV_STEP_OK 0].

Inductive ran (wf : workflow_t) (s0 : S) : nat -> S -> Prop :=
  | ran_nil : ran wf s0 0 s0
  | ran_step n st run s s1 :
      ran wf s0 n s -> wf_step wf (Z.of_nat n) = Some st -> st_run st = Some run ->
      run (wf_ctx wf) (wf_emit (with_done (Z.of_nat n) wf) (Z.of_nat n) WF_EV_BEGIN 0 s) = (0, s1) ->
      ran wf s0 (Datatypes.S n)
        (wf_emit (with_done (Z.of_nat n) wf) (Z.of_nat n) WF_EV_STEP_OK 0 s1).

(** The two ways a run can end. *)
Inductive outcome (wf : workflow_t) (s : S) : Z -> workflow_t -> S -> Prop :=
  | out_committed s1 :
      ran wf (wf_emit wf (wf_step_count wf) WF_EV_BEGIN 0 s) (Z.to_nat (wf_step_count wf)) s1 ->
      let wf' := with_status WF_STATUS_COMMITTED (with_done (wf_step_count wf) wf) in
      outcome wf s 0 wf' (wf_emit wf' (wf_step_count wf) WF_EV_COMMIT 0 s1)
  | out_unwound n st run rv s1 s2 evs b s3 :
      Z.of_nat n < wf_step_count wf ->
      ran wf (wf_emit wf (wf_step_count wf) WF_EV_BEGIN 0 s) n s1 ->
      wf_step wf (Z.of_nat n) = Some st -> st_run st = Some run -> rv <> 0 ->
      let wfn := with_done (Z.of_nat n) wf in
      run (wf_ctx wf) (wf_emit wfn (Z.of_nat n) WF_EV_BEGIN 0 s1) = (rv, s2) ->
      undone (with_status WF_STATUS_ROLLING_BACK wfn) n (wf_emit wfn (Z.of_nat n) WF_EV_STEP_FAIL rv s2) evs b s3 ->
      outcome wf s (-1) (unwound wfn b) (emit_event s3 (unwound_event wfn b)).

Lemma run_loop_outcome wf s k n s1 :
  wf_ok wf -> (n + k)%nat = Z.to_nat (wf_step_count wf) ->
  ran wf (wf_emit wf (wf_step_count wf) WF_EV_BEGIN 0 s) n s1 ->
  exists rv wf' s', run_loop stk_key stk_value k (Z.of_nat n) (with_done (Z.of_nat n) wf) s1 = Some (rv, wf', s') /\
    outcome wf s rv wf' s'.
Proof.
  intros Hw. pose proof (wo_count wf Hw) as Hc. unfold WORKFLOW_MAX_STEPS in Hc.
  revert n s1. induction k as [|k IH]; intros n s1 Hnk Hran; cbn [run_loop].
  - do 3 eexists. split; [reflexivity|].
    replace (Z.of_nat n) with (wf_step_count wf) by lia.
    apply (out_committed wf s s1). by replace (Z.to_nat (wf_step_count wf)) with n by lia.
  - destruct (wf_ok_step wf (Z.of_nat n) Hw ltac:(lia)) as (st & run & Hst & Hrun).
    change (wf_step (with_done (Z.of_nat n) wf)) with (wf_step wf).
    change (wf_ctx (with_done (Z.of_nat n) wf)) with (wf_ctx wf).
    rewrite Hst. cbn [mbind option_bind]. rewrite Hrun. cbn [mbind option_bind].
    destruct (run _ _) as [rv s2] eqn:Er. destruct (rv =? 0) eqn:E; bools; cbn [negb].
    + subst rv. replace (Z.of_nat n + 1) with (Z.of_nat (Datatypes.S n)) by lia.
      cbn [wf_done_count with_done].
      replace (u32 (Z.of_nat n + 1)) with (Z.of_nat (Datatypes.S n)) by (rewrite u32_id; lia).
      apply IH; [lia|]. by eapply ran_step.
    + destruct (wf_unwind_undone (with_done (Z.of_nat n) wf)
                  (wf_emit (with_done (Z.of_nat n) wf) (Z.of_nat n) WF_EV_STEP_FAIL rv s2))
        as (evs & b & s3 & Hu & ->); [apply with_done_ok; [done|lia]|].
      cbn [mbind option_bind]. do 3 eexists. split; [reflexivity|].
      cbn [wf_done_count with_done] in Hu. rewrite Nat2Z.id in Hu.
      eapply out_unwound; try done; lia.
Qed.

Lemma workflow_run_outcome wf s :
  wf_ok wf -> wf_status wf = WF_STATUS_RUNNING -> wf_done_count wf = 0 ->
  exists rv wf' s', workflow_run stk_key stk_value wf s = Some (rv, wf', s') /\ outcome wf s rv wf' s'.
Proof.
  intros Hw Hst Hd. unfold workflow_run.
  destruct (wo_steps wf Hw) as (l & -> & _). rewrite Hst. cbn [negb Z.eqb WF_STATUS_RUNNING].
  destruct (run_loop_outcome wf s (Z.to_nat (wf_step_count wf)) 0
              (wf_emit wf (wf_step_count wf) WF_EV_BEGIN 0 s) Hw eq_refl ltac:(constructor))
    as (rv & wf' & s' & Hr & Ho).
  assert (Hid : with_done (Z.of_nat 0) wf = wf) by (destruct wf; cbn in *; by subst).
  rewrite Hid in Hr. by exists rv, wf', s'.
Qed.

(** What an observer of the callbacks sees: the first [n] steps were called in
    order, each in the state the one before left, and each returned 0. *)
Definition completed (wf : workflow_t) (s : S) (n : nat) (s1 : S) : Prop :=
  ran wf (wf_emit wf (wf_step_count wf) WF_EV_BEGIN 0 s) n s1.
(** After [n] completed steps, step [n] returned [rvf], not 0; then the undos
    of those steps were called, the last first, with the events [undos] and
    [failed] telling whether one of them returned non-zero. *)
Definition failed_at (wf : workflow_t) (s : S) (n : nat) (rvf : Z) (undos : list wf_event) (failed : bool) (s3 : S) : Prop :=
  exists st run s1 s2, let wfn := with_done (Z.of_nat n) wf in
    Z.of_nat n < wf_step_count wf /\ completed wf s n s1 /\
    wf_step wf (Z.of_nat n) = Some st /\ st_run st = Some run /\
    run (wf_ctx wf) (wf_emit wfn (Z.of_nat n) WF_EV_BEGIN 0 s1) = (rvf, s2) /\ rvf <> 0 /\
    undone (with_status WF_STATUS_ROLLING_BACK wfn) n (wf_emit wfn (Z.of_nat n) WF_EV_STEP_FAIL rvf s2) undos failed s3.

Lemma outcome_cases wf s rv wf' s' :
  outcome wf s rv wf' s' ->
  (exists s1, completed wf s (Z.to_nat (wf_step_count wf)) s1 /\ rv = 0 /\
     wf' = with_status WF_STATUS_COMMITTED (with_done (wf_step_count wf) wf) /\
     s' = wf_emit wf' (wf_step_count wf) WF_EV_COMMIT 0 s1) \/
  (exists n rvf undos failed s3, failed_at wf s n rvf undos failed s3 /\ rv = -1 /\
     wf' = unwound (with_done (Z.of_nat n) wf) failed /\
     s' = emit_event s3 (unwound_event (with_done (Z.of_nat n) wf) failed)).
Proof.
  intros [s1 Hran wf1|n st run rvf s1 s2 undos b s3 Hn Hran Hst Hrun Hrv wfn Hcall Hu]; [left; by exists s1|right].
  exists n, rvf, undos, b, s3. split; [|done]. exists st, run, s1, s2. by split_and!.
Qed.

(** ** Compensation

    What a workflow's author promises of its callbacks, for a notion [R] of
    "same state" that ignores the journal: a run that fails leaves no
    effect, an undo that succeeds reverses its run, and a step without an
    undo has no effect to reverse. *)
Record compensable (R : S -> S -> Prop) (wf : workflow_t) : Prop := {
  cp_equiv : Equivalence R;
  cp_journal : forall j s, R (set_journal j s) s;
  cp_failed : forall i st run s rv s',
    wf_step wf i = Some st -> st_run st = Some run -> run (wf_ctx wf) s = (rv, s') -> rv <> 0 -> R s' s;
  cp_undo : forall i st run undo s s1 t t',
    wf_step wf i = Some st -> st_run st = Some run -> st_undo st = Some undo ->
    run (wf_ctx wf) s = (0, s1) -> R t s1 -> undo (wf_ctx wf) t = (0, t') -> R t' s;
  cp_pure : forall i st run s s1,
    wf_step wf i = Some st -> st_run st = Some run -> st_undo st = None ->
    run (wf_ctx wf) s = (0, s1) -> R s1 s
}.

Lemma emit_same R wf wf' i e rv s : compensable R wf -> R (wf_emit wf' i e rv s) s.
Proof. intros Hc. apply (cp_journal R wf Hc). Qed.

Lemma undone_restores R wf wfb n s0 s1 t evs s' :
  compensable R wf -> wf_ctx wfb = wf_ctx wf -> wf_steps wfb = wf_steps wf ->
  ran wf s0 n s1 -> R t s1 -> undone wfb n t evs false s' -> R s' s0.
Proof.
  intros Hc Hctx Hsteps Hran. pose proof (cp_equiv R wf Hc) as Heq.
  assert (Hstep : forall i, wf_step wfb i = wf_step wf i) by (intros; unfold wf_step; by rewrite Hsteps).
  revert t evs s'. induction Hran as [|n st run s s1 Hran IH Hst Hrun Hr]; intros t evs s' Ht Hu.
  - inversion Hu; subst. done.
  - assert (Ht1 : R t s1) by (rewrite Ht; by eapply emit_same).
    inversion Hu as [|? st' ? ? ? ? Hst' Hnone Hrest|? st' undo rv ev ? t1 ? b ? Hst' Hundo Hcall Hev Hrest Hn Hs Hevs Hb];
      subst; rewrite Hstep in Hst'; simplify_eq.
    + apply (IH t evs s'); [|done]. rewrite Ht1.
      rewrite (cp_pure R wf Hc _ _ _ _ _ Hst Hrun Hnone Hr). by eapply emit_same.
    + apply orb_false_iff in Hb as [Hrv ->]. bools. subst rv.
      cbn [Z.eqb] in *. eapply IH; [|done].
      rewrite Hctx in Hcall. transitivity t1; [apply (cp_journal R wf Hc)|].
      rewrite (cp_undo R wf Hc _ _ _ _ _ _ _ _ Hst Hrun Hundo Hr Ht1 Hcall). by eapply emit_same.
Qed.

(** A failed undo, the state it was called in among them. *)
Lemma undone_failed wf n s evs b s' :
  undone wf n s evs b s' -> b = true -> Exists (fun e => ev_code e = WF_EV_UNDO_FAIL /\ ev_rv e <> 0) evs.
Proof.
  induction 1 as [t|n st t evs b s' _ _ _ IH|n st undo rv ev t t1 evs b s' Hst Hundo Hc -> _ IH];
    intros Eb; [done|by apply IH|].
  destruct (rv =? 0) eqn:E; bools; [right; by apply IH|by left].
Qed.

(** A failed run whose undos all succeeded is back where it started. *)
Lemma failed_at_restores R wf s n rvf undos s3 :
  compensable R wf -> failed_at wf s n rvf undos false s3 -> R s3 s.
Proof.
  intros Hc (st & run & s1 & s2 & _ & Hran & Hsn & Hrun & Hcall & Hrv & Hu). pose proof (cp_equiv R wf Hc) as Heq.
  assert (Hback : R s3 (wf_emit wf (wf_step_count wf) WF_EV_BEGIN 0 s)).
  { eapply (undone_restores R wf _ n); [done| | |exact Hran| |exact Hu]; [done..|].
    transitivity s2; [apply (cp_journal R wf Hc)|].
    transitivity (wf_emit (with_done (Z.of_nat n) wf) (Z.of_nat n) WF_EV_BEGIN 0 s1).
    - by eapply (cp_failed R wf Hc).
    - apply (cp_journal R wf Hc). }
  rewrite Hback. apply (cp_journal R wf Hc).
Qed.

(** ** Histories

    The events of a run in order, with nothing about the callbacks but
    their results. *)
Inductive undo_history (wf : workflow_t) : nat -> list wf_event -> bool -> Prop :=
  | uh_nil : undo_history wf 0 [] false
  | uh_skip n st evs b :
      wf_step wf (Z.of_nat n) = Some st -> st_undo st = None ->
      undo_history wf n evs b -> undo_history wf (Datatypes.S n) evs b
  | uh_ok n st undo evs b :
      wf_step wf (Z.of_nat n) = Some st -> st_undo st = Some undo ->
      undo_history wf n evs b ->
      undo_history wf (Datatypes.S n) (Event wf (Z.of_nat n) WF_EV_UNDO_OK 0 :: evs) b
  | uh_fail n st undo rv evs b :
      wf_step wf (Z.of_nat n) = Some st -> st_undo st = Some undo -> rv <> 0 ->
      undo_history wf n evs b ->
      undo_history wf (Datatypes.S n) (Event wf (Z.of_nat n) WF_EV_UNDO_FAIL rv :: evs) true.

Definition run_history (wf : workflow_t) (n : nat) : list wf_event :=
  Event wf (wf_step_count wf) WF_EV_BEGIN 0 :: concat (step_events wf <$> seq 0 n).

(** Callbacks that leave the journal to the engine. *)
Definition quiet (wf : workflow_t) : Prop :=
  forall i st f s, wf_step wf i = Some st -> st_run st = Some f \/ st_undo st = Some f ->
    journal_of (f (wf_ctx wf) s).2 = journal_of s.

Context `{!JournalLaws S}.

Lemma journal_of_wf_emit wf i c rv s :
  journal_of (wf_emit wf i c rv s) = log_event (journal_of s) (Event wf i c rv).
Proof. unfold Workflow.wf_emit. by rewrite journal_of_set. Qed.
Lemma journal_of_emit s e : journal_of (emit_event s e) = log_event (journal_of s) e.
Proof. destruct e. apply journal_of_wf_emit. Qed.

Lemma undone_history wf n s evs b s' :
  quiet wf -> undone wf n s evs b s' ->
  undo_history wf n evs b /\ journal_of s' = foldl log_event (journal_of s) evs.
Proof.
  intros Hq Hu. induction Hu as [s|n st s evs b s' Hst Hn _ [IHh IHj]
    |n st undo rv ev s s1 evs b s' Hst Hn Hc Hev _ [IHh IHj]].
  - by split; [constructor|].
  - split; [by eapply uh_skip|done].
  - split.
    + subst ev. destruct (rv =? 0) eqn:E; bools; [by eapply uh_ok|by eapply uh_fail].
    + rewrite IHj, journal_of_emit. cbn [foldl].
      replace (journal_of s1) with (journal_of s); [done|].
      rewrite <-(Hq _ _ undo s Hst (or_intror Hn)), Hc. done.
Qed.

Lemma ran_history wf s0 n s1 :
  quiet wf -> ran wf s0 n s1 ->
  journal_of s1 = foldl log_event (journal_of s0) (concat (step_events wf <$> seq 0 n)).
Proof.
  intros Hq Hr. induction Hr as [|n st run s s1 _ IH Hst Hrun Hr]; [done|].
  rewrite seq_S, fmap_app, concat_app, foldl_app, <-IH. cbn [fmap list_fmap concat step_events app foldl].
  rewrite journal_of_wf_emit. f_equal.
  pose proof (Hq _ _ run (wf_emit (with_done (Z.of_nat n) wf) (Z.of_nat n) WF_EV_BEGIN 0 s) Hst (or_introl Hrun)) as Hj.
  rewrite Hr in Hj. cbn [snd] in Hj. rewrite Hj. apply journal_of_wf_emit.
Qed.
End Executions.

(** C4: workflows are atomic.  A slot that [workflow_begin] made runs to a
    terminal status, and the three of them mean what the header says.  It
    commits, with result 0, only when every step was called, in order,
    and returned 0, and its effects are those of the steps.  Otherwise some
    step returned non-zero after the ones before it had returned 0, the result
    is -1, and the undos of the completed steps were called in reverse order:
    if they all returned 0 the slot is rolled back and the system is in the
    state it started from; if one of those calls did not, the slot is FAILED.
    The callbacks are arbitrary functions that compensate: failed runs leave
    no effect, and an undo that succeeds reverses its run. *)
Theorem workflow_atomic {S : Type} `{HasJournal S} (stk_key stk_value : list Z)
    (R : S -> S -> Prop) (wf : workflow_t S) (s : S) :
  wf_ok wf -> wf_status wf = WF_STATUS_RUNNING -> wf_done_count wf = 0 -> compensable R wf ->
  exists rv wf' s', workflow_run stk_key stk_value wf s = Some (rv, wf', s') /\
    ((rv = 0 /\ wf_status wf' = WF_STATUS_COMMITTED /\ wf_done_count wf' = wf_step_count wf /\
      exists s1, completed stk_key stk_value wf s (Z.to_nat (wf_step_count wf)) s1 /\ R s' s1) \/
     (rv = -1 /\ wf_done_count wf' = 0 /\
      exists n rvf undos failed s3, failed_at stk_key stk_value wf s n rvf undos failed s3 /\ R s' s3 /\
        ((failed = false /\ wf_status wf' = WF_STATUS_ROLLED_BACK /\ R s' s) \/
         (failed = true /\ wf_status wf' = WF_STATUS_FAILED /\
          Exists (fun e => ev_code e = WF_EV_UNDO_FAIL /\ ev_rv e <> 0) undos)))).
Proof.
  intros Hw Hst Hd Hc. pose proof (cp_equiv R wf Hc) as Heq.
  destruct (workflow_run_outcome stk_key stk_value wf s Hw Hst Hd) as (rv & wf' & s' & Hr & Ho).
  exists rv, wf', s'. split; [done|].
  destruct (outcome_cases _ _ _ _ _ _ _ Ho) as [(s1 & Hran & -> & -> & ->)|(n & rvf & undos & b & s3 & Hf & -> & -> & ->)].
  - left. split_and!; [done..|]. exists s1. split; [done|apply (cp_journal R wf Hc)].
  - right. split; [done|]. split; [by destruct b|]. exists n, rvf, undos, b, s3. split; [done|].
    split; [apply (cp_journal R wf Hc)|]. destruct b; [right|left]; (split; [done|]); (split; [done|]).
    + destruct Hf as (st & run & s1 & s2 & _ & _ & _ & _ & _ & _ & Hu). by eapply undone_failed.
    + transitivity s3; [apply (cp_journal R wf Hc)|]. by eapply failed_at_restores.
Qed.


(** ** The slot table *)
Section Table.
Context {S : Type} `{HasJournal S} (stk_key stk_value : list Z).

(** What [workflow_begin] puts in a slot is fit to run. *)
Lemma workflow_begin_ok (l : list (workflow_step_t S)) count ctx tbl s slot tbl' s' :
  0 <= count <= Z.of_nat (length l) ->
  workflow_begin (Some l) count ctx tbl s = (Some slot, tbl', s') ->
  exists wf, tbl' = <[slot := wf]> tbl /\ wf_ok wf /\ wf_status wf = WF_STATUS_RUNNING /\
    wf_done_count wf = 0 /\ wf_status <$> tbl !! slot = Some WF_STATUS_IDLE.
Proof.
  intros Hlen. unfold workflow_begin, WORKFLOW_MAX_STEPS. destruct (_ || _)%bool eqn:Ec; [done|].
  destruct (existsb _ _) eqn:Ee; [done|]. destruct (findi _ tbl) as [i|] eqn:Ei; [|done].
  destruct (generate_transaction_id _) as [id j]. intros [= <- <- _]. apply findi_Some in Ei as [(wf & Hwf & Hst) _]. bools.
  eexists. split; [reflexivity|]. split; [|by rewrite Hwf; cbn; rewrite Hst].
  split; cbn; [unfold WORKFLOW_MAX_STEPS; lia|lia|].
  exists l. split; [done|]. split; [lia|]. intros k st Hk Hl.
  destruct (st_run st) eqn:Er; [done|]. exfalso.
  assert (Hx : existsb (fun st => match st_run st with None => true | Some _ => false end)
                 (take (Z.to_nat count) l) = true); [|congruence].
  apply existsb_exists. exists st. split; [|by rewrite Er].
  apply list_elem_of_In, (list_elem_of_lookup_2 _ k). by rewrite lookup_take_lt.
Qed.

Definition abandoned (wf : workflow_t S) : Prop :=
  wf_status wf = WF_STATUS_RUNNING \/ wf_status wf = WF_STATUS_ROLLING_BACK.
#[export] Instance abandoned_dec wf : Decision (abandoned wf).
Proof. unfold abandoned. apply _. Defined.

(** A slot before and after recovery. *)
Definition settled (wf wf' : workflow_t S) : Prop :=
  if decide (abandoned wf)
  then wf' = wf_zero \/ (wf_status wf' = WF_STATUS_FAILED /\ wf_workflow_id wf' = wf_workflow_id wf /\
                         wf_steps wf' = wf_steps wf)
  else wf' = wf.

Lemma recover_slot_spec wf s :
  (abandoned wf -> wf_steps wf <> None -> wf_ok wf) ->
  exists rv wf' s', recover_slot stk_key stk_value wf s = Some (rv, wf', s') /\ settled wf wf' /\
    ~ abandoned wf' /\ (rv = 0 \/ rv = -1) /\ (rv = 0 <-> (abandoned wf -> wf' = wf_zero)) /\
    (~ abandoned wf -> s' = s).
Proof.
  intros Hok. unfold recover_slot, settled. destruct (decide (abandoned wf)) as [Ha|Ha].
  - replace (negb (wf_status wf =? WF_STATUS_RUNNING) && negb (wf_status wf =? WF_STATUS_ROLLING_BACK))%bool
      with false by (destruct Ha as [-> | ->]; done).
    destruct (wf_steps wf) as [l|] eqn:El.
    + destruct (wf_unwind_undone stk_key stk_value wf s) as (evs & b & s1 & _ & ->); [by apply Hok|].
      cbn [mbind option_bind]. destruct b; cbn [negb Z.eqb]; do 3 eexists; (split; [reflexivity|]).
      * split; [by right|]. split; [by intros []|]. split; [by right|]. split; [|done].
        split; [done|]. intros Hz. by specialize (Hz Ha).
      * split; [by left|]. split; [by intros []|]. split; [by left|]. by split.
    + do 3 eexists. split; [reflexivity|]. split; [by right|]. split; [by intros []|].
      split; [by right|]. split; [|done]. split; [done|]. intros Hz. by specialize (Hz Ha).
  - replace (negb (wf_status wf =? WF_STATUS_RUNNING) && negb (wf_status wf =? WF_STATUS_ROLLING_BACK))%bool
      with true.
    + do 3 eexists. split; [reflexivity|]. split; [done|]. split; [done|]. split; [by left|]. by split.
    + unfold abandoned in Ha. symmetry. apply andb_true_iff. rewrite !negb_true_iff, !Z.eqb_neq. tauto.
Qed.

Lemma recover_loop_spec tbl s result :
  Forall (fun wf => abandoned wf -> wf_steps wf <> None -> wf_ok wf) tbl -> result = 0 \/ result = -1 ->
  exists rv tbl' s', recover_loop stk_key stk_value tbl s result = Some (rv, tbl', s') /\
    Forall2 settled tbl tbl' /\ Forall (fun wf => ~ abandoned wf) tbl' /\ (rv = 0 \/ rv = -1) /\
    (rv = 0 <-> result = 0 /\ Forall2 (fun wf wf' => abandoned wf -> wf' = wf_zero) tbl tbl') /\
    (Forall (fun wf => ~ abandoned wf) tbl -> tbl' = tbl /\ s' = s).
Proof.
  intros Hok. revert s result. induction Hok as [|wf tbl Hwf Hok IH]; intros s result Hres; cbn [recover_loop].
  - exists result, [], s. split_and!; try done. split; [by intros ->|by intros [-> _]].
  - destruct (recover_slot_spec wf s Hwf) as (rv & wf' & s1 & -> & Hset & Hna & Hrv & Hiff & Hid).
    cbn [mbind option_bind].
    destruct (IH s1 (if rv =? 0 then result else -1)) as (rv' & tbl' & s2 & -> & Hsets & Hnas & Hrv' & Hiff' & Hid').
    { destruct (rv =? 0); [done|by right]. }
    cbn [mbind option_bind]. exists rv', (wf' :: tbl'), s2. split; [done|].
    split; [by constructor|]. split; [by constructor|]. split; [done|]. split.
    + rewrite Hiff', Forall2_cons, <-Hiff. destruct Hrv as [-> | ->]; cbn [Z.eqb]; intuition lia.
    + intros [Hw Ht]%Forall_cons. destruct (Hid' Ht) as [-> ->]. rewrite (Hid Hw).
      split; [|done]. f_equal. unfold settled in Hset. by rewrite decide_False in Hset.
Qed.
End Table.

(** Recovery leaves no workflow in between.  After [workflow_recover]
    every slot that was RUNNING or ROLLING_BACK is free again or FAILED with
    its id and steps kept as evidence, every other slot is untouched, and
    the result is 0 exactly when all of them were freed; running it again
    changes nothing and returns 0. *)
Theorem workflow_recover_settles {S : Type} `{HasJournal S} (stk_key stk_value : list Z)
    (tbl : list (workflow_t S)) (s : S) :
  Forall (fun wf => abandoned wf -> wf_steps wf <> None -> wf_ok wf) tbl ->
  exists rv tbl' s', workflow_recover stk_key stk_value tbl s = Some (rv, tbl', s') /\
    Forall2 settled tbl tbl' /\ (rv = 0 \/ rv = -1) /\
    (rv = 0 <-> Forall2 (fun wf wf' => abandoned wf -> wf' = wf_zero) tbl tbl') /\
    workflow_recover stk_key stk_value tbl' s' = Some (0, tbl', s').
Proof.
  intros Hok. destruct (recover_loop_spec stk_key stk_value tbl s 0 Hok (or_introl eq_refl))
    as (rv & tbl' & s' & Hr & Hset & Hna & Hrv & Hiff & _).
  exists rv, tbl', s'. split; [done|]. split; [done|]. split; [done|]. split; [by rewrite Hiff; tauto|].
  assert (Hok' : Forall (fun wf : workflow_t S => abandoned wf -> wf_steps wf <> None -> wf_ok wf) tbl').
  { eapply Forall_impl; [exact Hna|]. by intros wf Hn Ha. }
  destruct (recover_loop_spec stk_key stk_value tbl' s' 0 Hok' (or_introl eq_refl))
    as (rv2 & tbl2 & s2 & Hr2 & _ & _ & _ & Hiff2 & Hid). destruct (Hid Hna) as [-> ->].
  unfold workflow_recover. rewrite Hr2. f_equal. f_equal. f_equal. apply Hiff2. split; [done|].
  clear - Hna. induction Hna as [|wf l Hn _ IH]; constructor; [done|exact IH].
Qed.

(** ** A system to run them on: a journal and a shelf of marks *)
Definition demo_sys : Type := journal * list Z.
#[export] Instance demo_sys_journal : HasJournal demo_sys :=
  {| journal_of := fst; set_journal j s := (j, s.2) |}.
#[export] Instance demo_sys_laws : JournalLaws demo_sys.
Proof. by split. Qed.

Definition place (m : Z) : workflow_fn demo_sys := fun _ s => (0, (s.1, m :: s.2)).
Definition remove : workflow_fn demo_sys := fun _ s => (0, (s.1, tl s.2)).
Definition refuse : workflow_fn demo_sys := fun _ s => (7, s).
Definition step_one : workflow_step_t demo_sys := Step (Some (chars "one"%string)) (Some (place 1)) (Some remove).
Definition step_two : workflow_step_t demo_sys := Step None (Some (place 2)) (Some remove).
Definition step_three : workflow_step_t demo_sys := Step (Some (chars "three"%string)) (Some refuse) None.
Definition demo_wf : workflow_t demo_sys :=
  Workflow 1 0 WF_STATUS_RUNNING 3 0 0 (Some [step_one; step_two; step_three]).
Definition demo_start : demo_sys := (journal_bss, [9]).
Definition same_marks (s t : demo_sys) : Prop := s.2 = t.2.

Lemma demo_wf_ok : wf_ok demo_wf.
Proof.
  split; [cbn; unfold WORKFLOW_MAX_STEPS; lia|cbn; lia|].
  exists [step_one; step_two; step_three]. split; [done|]. split; [cbn; lia|].
  intros i st _ Hi. do 3 (destruct i as [|i]; [injection Hi as <-; by eexists|]). done.
Qed.

Lemma demo_step_cases i st :
  wf_step demo_wf i = Some st -> st = step_one \/ st = step_two \/ st = step_three.
Proof.
  unfold wf_step. cbn [demo_wf wf_steps mbind option_bind].
  destruct (Z.to_nat i) as [|[|[|n]]]; cbn; intros Hs; simplify_eq; auto.
Qed.

Lemma demo_compensable : compensable same_marks demo_wf.
Proof.
  split.
  - split; repeat intro; unfold same_marks in *; congruence.
  - done.
  - intros i st run s rv s' [->|[->| ->]]%demo_step_cases [= <-]; cbn; intros [= <- <-]; done.
  - intros i st run undo s s1 t t' [->|[->| ->]]%demo_step_cases [= <-] [= <-]; cbn;
      intros [= <-] Ht [= <-]; unfold same_marks in *; cbn in *; by rewrite Ht.
  - intros i st run s s1 [->|[->| ->]]%demo_step_cases [= <-] [=]; by cbn.
Qed.

Lemma demo_quiet : quiet demo_wf.
Proof. intros i st f s [->|[->| ->]]%demo_step_cases [[= <-]|[= <-]]; done. Qed.

Example workflow_atomic_witness :
  exists wf' s', workflow_run [] [] demo_wf demo_start = Some (-1, wf', s') /\
    wf_status wf' = WF_STATUS_ROLLED_BACK /\ s'.2 = [9].
Proof.
  destruct (workflow_atomic [] [] same_marks demo_wf demo_start demo_wf_ok eq_refl eq_refl demo_compensable)
    as (rv & wf' & s' & Hr & Hcase).
  assert (Hst : wf_status <$> ((fun r => r.1.2) <$> workflow_run [] [] demo_wf demo_start) =
                Some WF_STATUS_ROLLED_BACK) by (vm_compute; reflexivity).
  rewrite Hr in Hst. cbn in Hst. injection Hst as Hst.
  destruct Hcase as [(_ & Hc & _)|(-> & _ & n & rvf & undos & b & s3 & _ & _ & [(_ & _ & Hs)|(_ & Hc & _)])].
  - rewrite Hst in Hc. discriminate Hc.
  - exists wf', s'. split; [exact Hr|]. split; [exact Hst|exact Hs].
  - rewrite Hst in Hc. discriminate Hc.
Defined.


Example workflow_recover_settles_witness :
  exists rv tbl' s', workflow_recover [] [] [demo_wf; wf_zero] demo_start = Some (rv, tbl', s') /\
    workflow_recover [] [] tbl' s' = Some (0, tbl', s').
Proof.
  destruct (workflow_recover_settles [] [] [demo_wf; wf_zero] demo_start) as (rv & tbl' & s' & Hr & _ & _ & _ & H2).
  - constructor; [intros _ _; exact demo_wf_ok|]. constructor; [|constructor].
    intros [Ha|Ha]; discriminate Ha.
  - exists rv, tbl', s'. split; [exact Hr|exact H2].
Defined.
