(* ===== verification/Checkpoints.v ===== *)
(** * Checkpoints: services/storage/transactions.c, services/storage/storage.c

    Sixteen labelled buffers, sixteen snapshot slots, and the vtable the
    callers go through.  Buffers and snapshots are ranges of memory; copies
    go through the policy-checked [memcpy].  Keys are readable C strings,
    given by their characters: for those [strlen] is exact and [strcpy]
    copies (MemUtils). *)
From S2P Require Import Prelude Types Circular Ring Auditor Security MemUtils TxnLog Journal.

Definition MAX_CHECKPOINTS : nat := 16.
Definition CHECKPOINT_SIZE : Z := 4096.
Definition KEY_SIZE : nat := 64.

(** [registered_buffer_t] and [checkpoint_slot_t]; a slot's [data] array is
    at the address [slot_data] of its index. *)
Record registered_buffer_t := RBuf { rb_key : list Z; rb_data : Z; rb_size : Z; rb_in_use : bool }.
Record checkpoint_slot_t := CSlot { cs_key : list Z; cs_size : Z; cs_in_use : bool }.
#[export] Instance rbuf_inhabited : Inhabited registered_buffer_t := populate (RBuf [] 0 0 false).
#[export] Instance cslot_inhabited : Inhabited checkpoint_slot_t := populate (CSlot [] 0 false).

(** [key_equal]: at most 64 characters are compared. *)
Fixpoint key_equal_loop (k : nat) (a b : list Z) : bool :=
  match k with
  | O => true
  | S k =>
      let x := hd 0 a in
      let y := hd 0 b in
      if negb (x =? y) then false
      else if x =? 0 then true
      else key_equal_loop k (tl a) (tl b)
  end.
Definition key_equal (a b : list Z) : bool := key_equal_loop KEY_SIZE a b.

(** What the module's functions read and write. *)
Record store := Store {
  s_buffers : list registered_buffer_t;
  s_slots : list checkpoint_slot_t;
  s_mem : gmap Z Z;
  s_journal : journal
}.
Definition with_buffers b (s : store) : store := Store b (s_slots s) (s_mem s) (s_journal s).
Definition with_slots l (s : store) : store := Store (s_buffers s) l (s_mem s) (s_journal s).
Definition with_mem m (s : store) : store := Store (s_buffers s) (s_slots s) m (s_journal s).
Definition with_journal j (s : store) : store := Store (s_buffers s) (s_slots s) (s_mem s) j.
#[export] Instance store_journal : HasJournal store := { journal_of := s_journal; set_journal := with_journal }.
#[export] Instance store_journal_laws : JournalLaws store.
Proof. by split. Qed.

Definition find_registered (l : list registered_buffer_t) (key : list Z) : option nat :=
  findi (fun b => (rb_in_use b && key_equal (rb_key b) key)%bool) l.

(** A key or data of [None]/0 is NULL. *)
Definition storage_register_buffer (key : option (list Z)) (data size : Z) (s : store) : Z * store :=
  match key with
  | None => (-1, s)
  | Some key =>
      if ((data =? 0) || (size =? 0) || (size >? CHECKPOINT_SIZE))%bool then (-1, s)
      else if (KEY_SIZE <=? length key)%nat then (-1, s)
      else match find_registered (s_buffers s) key with
           | Some i =>
               let b := s_buffers s !!! i in
               (0, with_buffers (<[i := RBuf (rb_key b) data size (rb_in_use b)]> (s_buffers s)) s)
           | None =>
               match findi (fun b => negb (rb_in_use b)) (s_buffers s) with
               | Some i => (0, with_buffers (<[i := RBuf key data size true]> (s_buffers s)) s)
               | None => (-1, s)
               end
           end
  end.

Definition find_slot (l : list checkpoint_slot_t) (key : list Z) : option nat :=
  findi (fun c => (cs_in_use c && key_equal (cs_key c) key)%bool) l.

(** Returns the slot, if any, and the slots. *)
Definition acquire_slot (l : list checkpoint_slot_t) (key : list Z) : option nat * list checkpoint_slot_t :=
  match find_slot l key with
  | Some i => (Some i, l)
  | None =>
      match findi (fun c => negb (cs_in_use c)) l with
      | Some i =>
          if (KEY_SIZE <=? length key)%nat then (None, l)
          else (Some i, <[i := CSlot key (cs_size (l !!! i)) true]> l)
      | None => (None, l)
      end
  end.

Section Checkpoints.
Context (rt : regions) (slot_data : nat -> Z).
(** What the stack frame of [emit_txn] held in the two string fields. *)
Context (stk_key stk_value : list Z).

Definition emit_txn (txn_id op : Z) (src dst : list Z) (j : journal) : journal :=
  journal_transaction
    (TxnEntry txn_id 0 op (copy_field stk_key (Some src)) (copy_field stk_value (Some dst)) 0) j.

(** [emit_txn(generate_transaction_id(), op, src, dst)] *)
Definition log_op (op : Z) (src dst : list Z) (s : store) : store :=
  let '(id, j) := generate_transaction_id (s_journal s) in
  with_journal (emit_txn id op src dst j) s.

Definition create_checkpoint (src dst : option (list Z)) (s : store) : Z * store :=
  match src, dst with
  | Some src, Some dst =>
      match find_registered (s_buffers s) src with
      | None => (-1, s)
      | Some b =>
          let buf := s_buffers s !!! b in
          let '(slot, slots) := acquire_slot (s_slots s) dst in
          match slot with
          | None => (-1, with_slots slots s)
          | Some i =>
              let m := memcpy rt (s_mem s) (slot_data i) (rb_data buf) (rb_size buf) in
              let c := slots !!! i in
              (0, log_op OP_WRITE src dst
                    (with_mem m (with_slots (<[i := CSlot (cs_key c) (rb_size buf) (cs_in_use c)]> slots) s)))
          end
      end
  | _, _ => (-1, s)
  end.

Definition restore_checkpoint (src dst : option (list Z)) (s : store) : Z * store :=
  match src, dst with
  | Some src, Some dst =>
      match find_slot (s_slots s) src with
      | None => (-1, s)
      | Some i =>
          match find_registered (s_buffers s) dst with
          | None => (-1, s)
          | Some b =>
              let c := s_slots s !!! i in
              let buf := s_buffers s !!! b in
              if cs_size c >? rb_size buf then (-1, s)
              else
                let m := memcpy rt (s_mem s) (rb_data buf) (slot_data i) (cs_size c) in
                (0, log_op OP_WRITE src dst (with_mem m s))
          end
      end
  | _, _ => (-1, s)
  end.

Definition remove_checkpoint (checkpoint : option (list Z)) (s : store) : Z * store :=
  match checkpoint with
  | None => (-1, s)
  | Some key =>
      match find_slot (s_slots s) key with
      | None => (-1, s)
      | Some i =>
          let c := s_slots s !!! i in
          (0, log_op OP_DELETE key [] (with_slots (<[i := CSlot (cs_key c) 0 false]> (s_slots s)) s))
      end
  end.

(** ** The backend *)

(** [storage_ops_t], on a state [S]. *)
Record storage_ops_t (S : Type) := StorageOps {
  so_create_checkpoint : option (list Z) -> option (list Z) -> S -> Z * S;
  so_restore_checkpoint : option (list Z) -> option (list Z) -> S -> Z * S;
  so_remove_checkpoint : option (list Z) -> S -> Z * S;
  so_init : S -> Z * S;
  so_get_state : S -> Z * S;
  so_set_state : S -> Z * S;
  so_prepare_swap : S -> Z * S;
  so_finalize_swap : S -> Z * S
}.

Definition memstor_init (s : store) : Z * store := (0, s).
Definition memstor_prepare_swap (s : store) : Z * store := (0, s).
Definition memstor_finalize_swap (s : store) : Z * store := (0, s).
Definition memstor_get_state (s : store) : Z * store := (-1, s).
Definition memstor_set_state (s : store) : Z * store := (-1, s).

Definition memory_storage_ops : storage_ops_t store :=
  StorageOps store create_checkpoint restore_checkpoint remove_checkpoint memstor_init
    memstor_get_state memstor_set_state memstor_prepare_swap memstor_finalize_swap.
End Checkpoints.

(** [storage_set_backend] on [active_backend]; [None] is NULL. *)
Definition storage_set_backend {S} (ops active : option (storage_ops_t S)) : option (storage_ops_t S) :=
  match ops with None => active | Some _ => ops end.
(** Installs the in-memory backend and runs its [init]. *)
Definition storage_init rt slot_data stk_key stk_value (active : option (storage_ops_t store)) (s : store)
    : option (storage_ops_t store) * store :=
  let ops := memory_storage_ops rt slot_data stk_key stk_value in
  (storage_set_backend (Some ops) active, (so_init _ ops s).2).

(** ** Keys *)

Lemma key_equal_loop_spec k a b :
  Forall (fun c => c <> 0) a -> Forall (fun c => c <> 0) b -> (length a < k)%nat ->
  key_equal_loop k a b = true <-> a = b.
Proof.
  revert a b. induction k as [|k IH]; intros a b Ha Hb Hk; [lia|]. cbn [key_equal_loop].
  destruct a as [|x a], b as [|y b]; cbn [hd tl length] in *.
  - done.
  - apply Forall_cons in Hb as [Hy _]. destruct (0 =? y) eqn:E; bools; [by subst|done].
  - apply Forall_cons in Ha as [Hx _]. destruct (x =? 0) eqn:E; bools; [by subst|done].
  - apply Forall_cons in Ha as [Hx Ha], Hb as [Hy Hb].
    destruct (x =? y) eqn:E; bools; cbn [negb]; [subst y|split; congruence].
    destruct (x =? 0) eqn:E0; bools; [done|]. rewrite (IH a b Ha Hb) by lia. split; [by intros ->|congruence].
Qed.

(** A key that can be stored. *)
Definition key_ok (k : list Z) : Prop := Forall (fun c => c <> 0) k /\ (length k < KEY_SIZE)%nat.

Lemma key_equal_spec a b :
  key_ok a -> Forall (fun c => c <> 0) b -> key_equal a b = true <-> a = b.
Proof. intros [Ha Hl] Hb. by apply key_equal_loop_spec. Qed.

(** ** The directory of snapshots *)

Record slots_wf (l : list checkpoint_slot_t) : Prop := {
  sw_keys : forall i c, l !! i = Some c -> cs_in_use c = true -> key_ok (cs_key c);
  sw_distinct : forall i j c d, l !! i = Some c -> l !! j = Some d -> cs_in_use c = true ->
                  cs_in_use d = true -> cs_key c = cs_key d -> i = j
}.

(** Which slot holds the snapshot called [key]. *)
Definition holds_key (l : list checkpoint_slot_t) (key : list Z) (i : nat) : Prop :=
  exists c, l !! i = Some c /\ cs_in_use c = true /\ cs_key c = key.

Lemma find_slot_spec l key i :
  slots_wf l -> Forall (fun c => c <> 0) key -> find_slot l key = Some i <-> holds_key l key i.
Proof.
  intros [Wk Wd] Hkey. unfold find_slot, holds_key. rewrite findi_Some. split.
  - intros [(c & Hc & Hp) _]. apply andb_true_iff in Hp as [Hu He].
    exists c. split; [done|]. split; [done|]. apply key_equal_spec in He; [done|by apply (Wk i c)|done].
  - intros (c & Hc & Hu & Hk). split.
    + exists c. split; [done|]. rewrite Hu. cbn. apply key_equal_spec; [by apply (Wk i c)|done|done].
    + intros j d Hj Hd. destruct (cs_in_use d) eqn:Ed; [|done]. cbn. apply not_true_is_false. intros He.
      apply key_equal_spec in He; [|by apply (Wk j d)|done].
      assert (j = i) by (apply (Wd j i d c); congruence). lia.
Qed.

Lemma find_slot_None l key :
  slots_wf l -> Forall (fun c => c <> 0) key -> find_slot l key = None <-> forall i, ~ holds_key l key i.
Proof.
  intros Hw Hk. split.
  - intros Hn i Hi. apply (find_slot_spec l key i Hw Hk) in Hi. congruence.
  - intros Hall. destruct (find_slot l key) as [i|] eqn:E; [|done].
    apply (find_slot_spec l key i Hw Hk) in E. by destruct (Hall i).
Qed.

(** Writing slot [i] with the in-use record [c]. *)
Lemma slots_wf_write l i c :
  slots_wf l -> (i < length l)%nat -> cs_in_use c = true -> key_ok (cs_key c) ->
  (forall j, holds_key l (cs_key c) j -> j = i) -> slots_wf (<[i := c]> l).
Proof.
  intros [Wk Wd] Hi Hu Hk Hown. split.
  - intros j d Hd Hdu. rewrite list_lookup_insert in Hd. case_decide; [by simplify_eq|by apply (Wk j d)].
  - intros j j' d d'. rewrite !list_lookup_insert. do 2 case_decide; intros; destruct_and?; simplify_eq; try lia.
    + symmetry. apply Hown. by exists d'.
    + apply Hown. by exists d.
    + by apply (Wd j j' d d').
Qed.

Lemma acquire_slot_spec l key :
  slots_wf l -> Forall (fun c => c <> 0) key ->
  match acquire_slot l key with
  | (None, l') => l' = l /\ (forall i, ~ holds_key l key i) /\
      (Forall (fun c => cs_in_use c = true) l \/ (KEY_SIZE <= length key)%nat)
  | (Some i, l') => slots_wf l' /\ (i < length l')%nat /\ length l' = length l /\ key_ok key /\
      holds_key l' key i /\ (forall k j, k <> key -> holds_key l' k j <-> holds_key l k j) /\
      ((exists j, holds_key l key j) \/ ~ Forall (fun c => cs_in_use c = true) l)
  end.
Proof.
  intros Hw Hkey. unfold acquire_slot. destruct (find_slot l key) as [i|] eqn:Ef.
  - apply (find_slot_spec l key i Hw Hkey) in Ef as Hh. destruct Hh as (c & Hc & Hu & Hck).
    split; [done|]. split; [by eapply lookup_lt_Some|]. split; [done|].
    split; [rewrite <-Hck; by apply (sw_keys l Hw i c)|]. split; [by exists c|]. split; [done|].
    left. exists i. by exists c.
  - rewrite (find_slot_None l key Hw Hkey) in Ef. destruct (findi _ l) as [i|] eqn:Ei.
    + pose proof (findi_lt _ _ _ Ei) as Hi. apply findi_Some in Ei as [(c & Hc & Hfree) _].
      rewrite negb_true_iff in Hfree.
      destruct (KEY_SIZE <=? length key)%nat eqn:El; [apply Nat.leb_le in El|apply Nat.leb_gt in El].
      { split; [done|]. split; [done|]. by right. }
      assert (Hko : key_ok key) by done.
      split. { apply slots_wf_write; try done. cbn. intros j Hj. by destruct (Ef j). }
      rewrite length_insert. split; [done|]. split; [done|]. split; [done|].
      split. { eexists. split; [by apply list_lookup_insert_eq|]. done. }
      split.
      * intros k j Hk. unfold holds_key. rewrite list_lookup_insert. case_decide as Hj; [|done].
        destruct Hj as [<- _]. split; intros (d & Hd & Hdu & Hdk); simplify_eq/=. congruence.
      * right. rewrite Forall_forall. intros Hall.
        rewrite (Hall c) in Hfree; [done|]. by eapply list_elem_of_lookup_2.
    + split; [done|]. split; [done|]. left. apply findi_None in Ei. eapply Forall_impl; [exact Ei|].
      intros c. cbn. by destruct (cs_in_use c).
Qed.

(** Updating the size of the snapshot in slot [i]. *)
Lemma holds_key_resize l i key n k j :
  holds_key l key i ->
  holds_key (<[i := CSlot (cs_key (l !!! i)) n (cs_in_use (l !!! i))]> l) k j <-> holds_key l k j.
Proof.
  intros (c & Hc & Hu & Hk). rewrite (lookup_total_Some _ _ _ Hc). unfold holds_key.
  pose proof (lookup_lt_Some _ _ _ Hc). rewrite list_lookup_insert. case_decide as Hj; [|done].
  destruct Hj as [<- _]. split; intros (d & Hd & Hdu & Hdk); simplify_eq/=; eexists; by split_and!.
Qed.

Lemma slots_wf_resize l i key n :
  slots_wf l -> holds_key l key i ->
  slots_wf (<[i := CSlot (cs_key (l !!! i)) n (cs_in_use (l !!! i))]> l).
Proof.
  intros Hw (c & Hc & Hu & Hk). rewrite (lookup_total_Some _ _ _ Hc).
  apply slots_wf_write; cbn; try done.
  - by eapply lookup_lt_Some.
  - by apply (sw_keys l Hw i c).
  - intros j (d & Hd & Hdu & Hdk). by apply (sw_distinct l Hw j i d c).
Qed.

Lemma log_op_proj sk sv op a b s :
  s_slots (log_op sk sv op a b s) = s_slots s /\ s_buffers (log_op sk sv op a b s) = s_buffers s /\
  s_mem (log_op sk sv op a b s) = s_mem s.
Proof. unfold log_op. by destruct (generate_transaction_id _). Qed.

Lemma create_directory rt slot_data sk sv s src key :
  slots_wf (s_slots s) -> Forall (fun c => c <> 0) key ->
  let '(rv, s') := create_checkpoint rt slot_data sk sv (Some src) (Some key) s in
   slots_wf (s_slots s') /\
   (rv = 0 <-> is_Some (find_registered (s_buffers s) src) /\
      ((exists i, holds_key (s_slots s) key i) \/
       (~ Forall (fun c => cs_in_use c = true) (s_slots s) /\ (length key < KEY_SIZE)%nat))) /\
   (if rv =? 0 then (exists i, holds_key (s_slots s') key i) /\
      (forall k j, k <> key -> holds_key (s_slots s') k j <-> holds_key (s_slots s) k j)
    else rv = -1 /\ s' = s).
Proof.
  intros Hw Hkey.
  unfold create_checkpoint. destruct (find_registered (s_buffers s) src) as [b|] eqn:Eb.
  2: { split; [done|]. split; [|done]. split; [done|]. intros [[? ?] _]. done. }
  pose proof (acquire_slot_spec (s_slots s) key Hw Hkey) as Ha.
  destruct (acquire_slot (s_slots s) key) as [[i|] l'].
  + destruct Ha as (Hw' & Hi & _ & [_ Hklen] & Hh & Hoth & Hwhy). cbv zeta.
    match goal with |- context [log_op _ _ _ _ _ ?st] => destruct (log_op_proj sk sv OP_WRITE src key st) as (-> & _) end.
    cbn [s_slots with_mem with_slots Z.eqb].
    split; [by eapply slots_wf_resize|]. split.
    { split; [|done]. intros _. split; [done|]. destruct Hwhy; [by left|by right]. }
    split; [exists i; by eapply holds_key_resize|].
    intros k j Hk. rewrite (holds_key_resize _ _ key) by done. by apply Hoth.
  + destruct Ha as (-> & Hno & Hwhy). cbn [s_slots with_slots]. split; [done|]. split.
    * split; [done|]. intros [_ [[i Hi]|[Hfree Hlen]]]; [by destruct (Hno i)|].
      destruct Hwhy; [done|lia].
    * split; [done|]. by destruct s.
Qed.

Lemma remove_directory sk sv s key :
  slots_wf (s_slots s) -> Forall (fun c => c <> 0) key ->
  let '(rv, s') := remove_checkpoint sk sv (Some key) s in
   slots_wf (s_slots s') /\ (rv = 0 <-> exists i, holds_key (s_slots s) key i) /\
   (if rv =? 0 then (forall i, ~ holds_key (s_slots s') key i) /\
      (forall k j, k <> key -> holds_key (s_slots s') k j <-> holds_key (s_slots s) k j)
    else rv = -1 /\ s' = s).
Proof.
  intros Hw Hkey.
  unfold remove_checkpoint. destruct (find_slot (s_slots s) key) as [i|] eqn:Ef.
  + apply (find_slot_spec _ _ _ Hw Hkey) in Ef as Hh. cbv zeta.
    match goal with |- context [log_op _ _ _ _ _ ?st] => destruct (log_op_proj sk sv OP_DELETE key [] st) as (-> & _) end.
    cbn [s_slots with_slots Z.eqb]. pose proof Hh as (c & Hc & Hu & Hck).
    set (l' := <[i := _]> (s_slots s)).
    assert (Hsub : forall k j, holds_key l' k j <-> j <> i /\ holds_key (s_slots s) k j).
    { intros k j. unfold holds_key, l'. rewrite list_lookup_insert. case_decide as Hj.
      - destruct Hj as [<- _]. split; [intros (d & Hd & Hdu & _); by simplify_eq/=|by intros [? _]].
      - split; [|by intros [_ ?]]. intros Hx. split; [|done]. intros ->. destruct Hj.
        split; [done|]. by eapply lookup_lt_Some. }
    split; [|split; [split; [by eauto|done]|split]].
    * split; intros.
      -- destruct (proj1 (Hsub (cs_key c0) i0)) as [_ (d & ? & ? & ?)]; [by exists c0|].
         replace (cs_key c0) with (cs_key d) by done. by apply (sw_keys _ Hw i0 d).
      -- destruct (proj1 (Hsub (cs_key c0) i0)) as [_ (d1 & ? & ? & ?)]; [by exists c0|].
         destruct (proj1 (Hsub (cs_key d) j)) as [_ (d2 & ? & ? & ?)]; [by exists d|].
         apply (sw_distinct _ Hw i0 j d1 d2); congruence.
    * intros j [Hj (d & Hd & Hdu & Hdk)]%Hsub. apply Hj.
      apply (sw_distinct _ Hw j i d c); congruence.
    * intros k j Hk. rewrite Hsub. split; [by intros [_ ?]|]. intros Hx. split; [|done].
      intros ->. destruct Hx as (d & Hd & _ & Hdk). congruence.
  + rewrite (find_slot_None _ _ Hw Hkey) in Ef. split; [done|]. split; [|done]. split; [done|].
    intros [i Hi]. by destruct (Ef i).
Qed.

(** The snapshots form a directory.  [create_checkpoint] succeeds
    exactly when the source is registered and the name is in use already, or
    a slot is free and the name fits in 63 characters; it then names one
    slot and leaves every other name alone, and a failed call changes
    nothing.  [remove_checkpoint] succeeds exactly on a name in use and
    forgets that name only.  No two slots ever carry the same name. *)
Theorem checkpoint_directory (rt : regions) (slot_data : nat -> Z) (sk sv : list Z) (s : store) (src key : list Z) :
  slots_wf (s_slots s) -> Forall (fun c => c <> 0) key ->
  (let '(rv, s') := create_checkpoint rt slot_data sk sv (Some src) (Some key) s in
   slots_wf (s_slots s') /\
   (rv = 0 <-> is_Some (find_registered (s_buffers s) src) /\
      ((exists i, holds_key (s_slots s) key i) \/
       (~ Forall (fun c => cs_in_use c = true) (s_slots s) /\ (length key < KEY_SIZE)%nat))) /\
   (if rv =? 0 then (exists i, holds_key (s_slots s') key i) /\
      (forall k j, k <> key -> holds_key (s_slots s') k j <-> holds_key (s_slots s) k j)
    else rv = -1 /\ s' = s)) /\
  (let '(rv, s') := remove_checkpoint sk sv (Some key) s in
   slots_wf (s_slots s') /\ (rv = 0 <-> exists i, holds_key (s_slots s) key i) /\
   (if rv =? 0 then (forall i, ~ holds_key (s_slots s') key i) /\
      (forall k j, k <> key -> holds_key (s_slots s') k j <-> holds_key (s_slots s) k j)
    else rv = -1 /\ s' = s)).
Proof. intros Hw Hkey. split; [by apply create_directory|by apply remove_directory]. Qed.

(** ** Snapshots hold the data *)

(** A buffer the kernel may copy to and from its snapshot slots, which lie
    elsewhere. *)
Record buffer_ok (rt : regions) (slot_data : nat -> Z) (b : registered_buffer_t) : Prop := {
  bo_size : 0 <= rb_size b;
  bo_range : range_ok (rb_data b) (rb_size b);
  bo_slots : forall i, (i < MAX_CHECKPOINTS)%nat -> range_ok (slot_data i) (rb_size b);
  bo_apart : forall i, (i < MAX_CHECKPOINTS)%nat -> slot_data i + rb_size b <= rb_data b \/ rb_data b + rb_size b <= slot_data i;
  bo_buf : may_read rt (rb_data b) (rb_size b) = true /\ may_write rt (rb_data b) (rb_size b) = true;
  bo_slot : forall i, (i < MAX_CHECKPOINTS)%nat -> may_read rt (slot_data i) (rb_size b) = true /\ may_write rt (slot_data i) (rb_size b) = true
}.

Lemma memcpy_granted rt m d s n x :
  bytes_ok m -> 0 <= n -> range_ok d n -> range_ok s n -> 0 <= x < 4294967296 -> s + n <= d \/ d + n <= s ->
  may_write rt d n = true -> may_read rt s n = true ->
  ldb (memcpy rt m d s n) x = if ((d <=? x) && (x <? d + n))%bool then ldb m (s + (x - d)) else ldb m x.
Proof.
  intros Hm Hn Hd Hs Hx Hapart Hw Hr. unfold memcpy. rewrite Hw, Hr. cbn [negb orb].
  rewrite copy_up_spec by (unfold range_ok in *; (done || lia)).
  rewrite Z.add_0_r. by replace (Z.of_nat (Z.to_nat n)) with n by lia.
Qed.

(** A successful creation: the slot and what is in it. *)
Lemma create_checkpoint_ok rt slot_data sk sv s src key b s' :
  slots_wf (s_slots s) -> Forall (fun c => c <> 0) key -> find_registered (s_buffers s) src = Some b ->
  create_checkpoint rt slot_data sk sv (Some src) (Some key) s = (0, s') ->
  exists i, find_slot (s_slots s') key = Some i /\ (i < length (s_slots s))%nat /\ s_buffers s' = s_buffers s /\
    cs_size (s_slots s' !!! i) = rb_size (s_buffers s !!! b) /\
    s_mem s' = memcpy rt (s_mem s) (slot_data i) (rb_data (s_buffers s !!! b)) (rb_size (s_buffers s !!! b)).
Proof.
  intros Hw Hkey Hb. unfold create_checkpoint. rewrite Hb.
  pose proof (acquire_slot_spec (s_slots s) key Hw Hkey) as Ha.
  destruct (acquire_slot (s_slots s) key) as [[i|] l']; [|done].
  destruct Ha as (Hw' & Hi & Hlen & _ & Hh & _). cbv zeta. intros [= <-]. exists i. rewrite <-Hlen.
  match goal with |- context [log_op _ _ _ _ _ ?st] => destruct (log_op_proj sk sv OP_WRITE src key st) as (-> & -> & ->) end.
  cbn [s_slots s_buffers s_mem with_mem with_slots]. split; [|split; [done|split; [done|split; [|done]]]].
  - apply find_slot_spec; [by eapply slots_wf_resize|done|by eapply holds_key_resize].
  - by rewrite list_lookup_total_insert_eq.
Qed.

(** C33: a checkpoint restores what it saved.  After [create_checkpoint] of a
    registered buffer, and whatever is then written anywhere but in the
    snapshot slots, [restore_checkpoint] succeeds and every byte of the
    buffer is what it was when the checkpoint was taken; no other byte of
    memory changes. *)
Theorem checkpoint_round_trip (rt : regions) (slot_data : nat -> Z) (sk sv : list Z) (s s' : store)
    (src key : list Z) (b : nat) (m : gmap Z Z) :
  let buf := s_buffers s !!! b in
  length (s_slots s) = MAX_CHECKPOINTS -> slots_wf (s_slots s) -> Forall (fun c => c <> 0) key ->
  find_registered (s_buffers s) src = Some b -> buffer_ok rt slot_data buf -> bytes_ok (s_mem s) -> bytes_ok m ->
  create_checkpoint rt slot_data sk sv (Some src) (Some key) s = (0, s') ->
  (forall i x, (i < MAX_CHECKPOINTS)%nat -> slot_data i <= x < slot_data i + rb_size buf -> ldb m x = ldb (s_mem s') x) ->
  exists s2, restore_checkpoint rt slot_data sk sv (Some key) (Some src) (with_mem m s') = (0, s2) /\
    forall x, 0 <= x < 4294967296 ->
      ldb (s_mem s2) x =
      if ((rb_data buf <=? x) && (x <? rb_data buf + rb_size buf))%bool then ldb (s_mem s) x else ldb m x.
Proof.
  intros buf Hlen Hw Hkey Hb [Hsz Hr Hsl Hap [Hbr Hbw] Hslot] Hm0 Hm Hc Hkeep.
  destruct (create_checkpoint_ok rt slot_data sk sv s src key b s' Hw Hkey Hb Hc) as (i & Hf & Hi & Hbufs & Hcs & Hmem).
  rewrite Hlen in Hi. fold buf in Hcs, Hmem. destruct (Hslot i Hi) as [Hsr Hsw].
  unfold restore_checkpoint. cbn [s_slots s_buffers with_mem]. rewrite Hf, Hbufs, Hb. fold buf. cbv zeta.
  rewrite Hcs, Z.gtb_ltb, Z.ltb_irrefl. eexists. split; [reflexivity|]. intros x Hx.
  match goal with |- context [log_op _ _ _ _ _ ?st] => destruct (log_op_proj sk sv OP_WRITE key src st) as (_ & _ & ->) end.
  cbn [s_mem with_mem]. rewrite memcpy_granted by (done || by apply Hsl || (destruct (Hap i Hi); lia)).
  destruct (_ && _)%bool eqn:E; [|done]. bools. unfold range_ok in *. specialize (Hsl i Hi).
  rewrite (Hkeep i _ Hi) by lia. rewrite Hmem, memcpy_granted by (done || lia || (destruct (Hap i Hi); lia)).
  replace (_ && _)%bool with true by (symmetry; apply andb_true_iff; rewrite Z.leb_le, Z.ltb_lt; lia).
  f_equal. lia.
Qed.

(** A refused copy is reported as a success.  [memcpy] drops a copy the
    access policy refuses and the checkpoint functions ignore that: a
    checkpoint of a buffer that may not be read, or a restore into one that
    may not be written, returns 0 with memory unchanged. *)
Theorem refused_copy_reports_success (rt : regions) (slot_data : nat -> Z) (sk sv : list Z) (s : store)
    (src key : list Z) (b i : nat) :
  let buf := s_buffers s !!! b in
  find_registered (s_buffers s) src = Some b -> find_slot (s_slots s) key = Some i ->
  cs_size (s_slots s !!! i) <= rb_size buf ->
  (may_write rt (rb_data buf) (cs_size (s_slots s !!! i)) = false ->
   exists s', restore_checkpoint rt slot_data sk sv (Some key) (Some src) s = (0, s') /\ s_mem s' = s_mem s) /\
  (may_read rt (rb_data buf) (rb_size buf) = false ->
   exists s', create_checkpoint rt slot_data sk sv (Some src) (Some key) s = (0, s') /\ s_mem s' = s_mem s).
Proof.
  intros buf Hb Hf Hsz. split; intros Hno.
  - unfold restore_checkpoint. rewrite Hf, Hb. fold buf. cbv zeta.
    rewrite Z.gtb_ltb, (proj2 (Z.ltb_ge _ _)) by lia. eexists. split; [reflexivity|].
    match goal with |- context [log_op _ _ _ _ _ ?st] => destruct (log_op_proj sk sv OP_WRITE key src st) as (_ & _ & ->) end.
    cbn [s_mem with_mem]. unfold memcpy. by rewrite Hno.
  - unfold create_checkpoint, acquire_slot. rewrite Hf, Hb. fold buf. cbv zeta. eexists. split; [reflexivity|].
    match goal with |- context [log_op _ _ _ _ _ ?st] => destruct (log_op_proj sk sv OP_WRITE src key st) as (_ & _ & ->) end.
    cbn [s_mem with_mem]. unfold memcpy. by rewrite Hno, orb_true_r.
Qed.

(** ** A concrete store: one buffer, and one in the kernel's text *)
Definition demo_slot_data (i : nat) : Z := 524288 + 4096 * Z.of_nat i.
Definition demo_store : store :=
  Store [RBuf [97] 2097152 3 true; RBuf [116] 65536 4 true] (replicate 16 (CSlot [] 0 false)) demo_bytes journal_bss.
Definition demo_policy : regions := security_regions_init demo_layout.

Lemma demo_slots_wf : slots_wf (s_slots demo_store).
Proof.
  split.
  - intros i c [-> _]%lookup_replicate. done.
  - intros i j c d [-> _]%lookup_replicate. done.
Qed.

Lemma demo_policy_slots i n w :
  (i < 16)%nat -> 0 < n <= 4096 -> security_validate_memory_access demo_policy (demo_slot_data i) n w = true.
Proof.
  intros Hi Hn. unfold demo_slot_data, security_validate_memory_access, SIZE_MAX.
  rewrite (proj2 (Z.eqb_neq _ _)) by lia. cbn [andb].
  rewrite (proj2 (Z.gtb_lt n 0)) by lia. cbn [andb].
  rewrite (proj2 (Z.ltb_ge _ _)) by lia. rewrite u32_id by lia.
  apply check_regions_spec; [lia|]. let t := eval vm_compute in demo_policy in change demo_policy with t.
  rewrite !Forall_cons. split_and!; [cbn; intros; first [lia|split; done]..|apply Forall_nil_2].
Qed.

Lemma demo_key_ok : Forall (fun c => c <> 0) [107].
Proof. constructor; [discriminate|constructor]. Qed.

Example checkpoint_directory_witness :
  let '(rv, s') := create_checkpoint demo_policy demo_slot_data [0] [0] (Some [97]) (Some [107]) demo_store in
  slots_wf (s_slots s').
Proof.
  pose proof (checkpoint_directory demo_policy demo_slot_data [0] [0] demo_store [97] [107] demo_slots_wf
                demo_key_ok) as [H _].
  destruct (create_checkpoint _ _ _ _ _ _ _) as [rv s']. exact (proj1 H).
Defined.

Lemma demo_buffer_ok : buffer_ok demo_policy demo_slot_data (RBuf [97] 2097152 3 true).
Proof.
  split; cbn [rb_data rb_size].
  - lia.
  - unfold range_ok. lia.
  - intros i Hi. unfold range_ok, demo_slot_data, MAX_CHECKPOINTS in *. lia.
  - intros i Hi. unfold demo_slot_data, MAX_CHECKPOINTS in *. lia.
  - split; vm_compute; reflexivity.
  - intros i Hi. split; apply demo_policy_slots; unfold MAX_CHECKPOINTS in *; lia.
Qed.

Definition demo_saved : store :=
  (create_checkpoint demo_policy demo_slot_data [0] [0] (Some [97]) (Some [107]) demo_store).2.

Lemma demo_saved_bytes : bytes_ok (s_mem demo_saved).
Proof.
  unfold demo_saved, create_checkpoint. change (find_registered (s_buffers demo_store) [97]) with (Some 0%nat).
  change (acquire_slot (s_slots demo_store) [107]) with
    (Some 0%nat, <[0%nat := CSlot [107] 0 true]> (replicate 16 (CSlot [] 0 false))).
  cbv beta iota zeta. cbn [snd].
  match goal with |- context [log_op _ _ _ _ _ ?st] => destruct (log_op_proj [0] [0] OP_WRITE [97] [107] st) as (_ & _ & ->) end.
  cbn [s_mem with_mem]. unfold memcpy. destruct (_ || _)%bool; [exact stb_all_ok|].
  change (Z.to_nat (rb_size (s_buffers demo_store !!! 0%nat))) with 3%nat.
  cbn [copy_up]. do 3 apply stb_bytes_ok. exact stb_all_ok.
Qed.

Example checkpoint_round_trip_witness :
  exists s2, restore_checkpoint demo_policy demo_slot_data [0] [0] (Some [107]) (Some [97])
      (with_mem (stb (s_mem demo_saved) 2097153 88) demo_saved) = (0, s2) /\
    ldb (s_mem s2) 2097153 = 66.
Proof.
  destruct (checkpoint_round_trip demo_policy demo_slot_data [0] [0] demo_store demo_saved [97] [107] 0
              (stb (s_mem demo_saved) 2097153 88)) as (s2 & Hr & Hx).
  - reflexivity.
  - exact demo_slots_wf.
  - exact demo_key_ok.
  - reflexivity.
  - exact demo_buffer_ok.
  - exact stb_all_ok.
  - apply stb_bytes_ok. exact demo_saved_bytes.
  - vm_compute. reflexivity.
  - intros i x Hi Hx. change (rb_size (s_buffers demo_store !!! 0%nat)) with 3 in Hx.
    unfold demo_slot_data, MAX_CHECKPOINTS in *. rewrite ldb_stb by lia.
    rewrite (proj2 (Z.eqb_neq _ _)) by lia. reflexivity.
  - exists s2. split; [exact Hr|]. rewrite Hx by lia. vm_compute. reflexivity.
Defined.

(** The text buffer, with a snapshot to restore into it. *)
Definition demo_text_store : store :=
  Store (s_buffers demo_store) [CSlot [107] 4 true] demo_bytes journal_bss.

Example refused_copy_reports_success_witness :
  exists s', restore_checkpoint demo_policy demo_slot_data [0] [0] (Some [107]) (Some [116]) demo_text_store = (0, s') /\
    s_mem s' = s_mem demo_text_store.
Proof.
  apply (refused_copy_reports_success demo_policy demo_slot_data [0] [0] demo_text_store [116] [107] 1 0);
    vm_compute; first [reflexivity | discriminate].
Defined.
