(* ===== verification/Crypto.v ===== *)
(** * Signatures, hashes and encryption: kernel/crypto.c, verify_signature of
    kernel/security.c, validate_message of kernel/nngcompat.c

    A buffer is its address, for the access policy, and its bytes.  The
    buffers of one call are distinct objects. *)
From S2P Require Import Prelude Types Security MemUtils.

Definition PRIORITY_HIGH : Z := 0.
Definition MSG_SIGNATURE_SIZE : Z := 32.

(** A byte buffer in memory; address 0 is NULL. *)
Record buffer := Buf { bf_at : Z; bf_bytes : list Z }.
Definition buf_len (b : buffer) : Z := Z.of_nat (length (bf_bytes b)).

(** [s[k] ^= v] *)
Definition xor_at (s : list Z) (k : nat) (v : Z) : list Z := <[k := Z.lxor (s !!! k) v]> s.

(** One round of the signature's diffusion, [sig[k] ^= sig[k+1]]. *)
Definition sign_diffuse (s : list Z) : list Z :=
  foldl (fun s k => xor_at s k (s !!! S k)) s (seq 0 31).
(** One byte of input. *)
Definition sign_step (s : list Z) (ib : nat * Z) : list Z :=
  let s := xor_at s (ib.1 mod 32)%nat ib.2 in
  if (ib.1 mod 32 =? 31)%nat then Nat.iter 10 sign_diffuse s else s.
Definition sign_loop (s input : list Z) : list Z := foldl sign_step s (imap pair input).

(** One round of the hash's diffusion. *)
Definition hash_mix (h : list Z) (k : nat) : list Z :=
  let h := xor_at h k (h !!! ((k + 1) mod 32)%nat) in
  xor_at h ((k + 1) mod 32)%nat (Z.lor (u8 (Z.shiftl (h !!! k) 1)) (Z.shiftr (h !!! k) 7)).
Definition hash_diffuse (h : list Z) : list Z := foldl hash_mix h (seq 0 31).
Definition hash_step (n : nat) (h : list Z) (ib : nat * Z) : list Z :=
  let h := xor_at h (ib.1 mod 32)%nat ib.2 in
  if ((ib.1 mod 32 =? 31)%nat || (ib.1 =? n - 1)%nat)%bool then Nat.iter 10 hash_diffuse h else h.

Definition fnv1a_step (h b : Z) : Z := u32 (Z.lxor h b * 16777619).

Section Crypto.
(** The access policy, and [system_key] with its address. *)
Context (rt : regions) (key : buffer).

Definition may_read_buf (b : buffer) : bool := security_validate_memory_access rt (bf_at b) (buf_len b) false.
Definition may_write_buf (b : buffer) : bool := security_validate_memory_access rt (bf_at b) (buf_len b) true.

(** The new contents of the signature buffer; [None] is false. *)
Definition crypto_sign (data signature : buffer) : option (list Z) :=
  if ((bf_at data =? 0) || (bf_at signature =? 0) || (buf_len signature <? 32))%bool then None
  else if (negb (may_read_buf data) || negb (may_write_buf signature))%bool then None
  else
    let sig := if (may_write rt (bf_at signature) 32 && may_read rt (bf_at key) 32)%bool
               then bf_bytes key ++ drop 32 (bf_bytes signature) else bf_bytes signature in
    Some (sign_loop sig (bf_bytes data)).

(** [new_sig] is the local buffer. *)
Definition crypto_verify (new_sig data signature : buffer) : bool :=
  if ((bf_at data =? 0) || (bf_at signature =? 0) || (buf_len signature <? 32))%bool then false
  else if (negb (may_read_buf data) || negb (may_read_buf signature))%bool then false
  else match crypto_sign data new_sig with
       | None => false
       | Some s => bool_decide (take 32 s = take 32 (bf_bytes signature))
       end.

Definition crypto_hash (data hash : buffer) : option (list Z) :=
  if ((bf_at data =? 0) || (bf_at hash =? 0) || (buf_len hash <? 32))%bool then None
  else if (negb (may_read_buf data) || negb (may_write_buf hash))%bool then None
  else
    let h := ((fun i => u8 (Z.lxor 170 (Z.of_nat i))) <$> seq 0 32) ++ drop 32 (bf_bytes hash) in
    Some (foldl (hash_step (length (bf_bytes data))) h (imap pair (bf_bytes data))).

(** The same code again. *)
Definition crypto_sign_v2 (data signature : buffer) : option (list Z) := crypto_sign data signature.

Definition compute_sha256 (data : buffer) : Z :=
  if ((bf_at data =? 0) || (buf_len data =? 0))%bool then 0
  else if negb (may_read_buf data) then 0
  else foldl fnv1a_step 2166136261 (bf_bytes data).

Definition verify_signature (image : buffer) (expected_hash : Z) : bool :=
  if ((bf_at image =? 0) || (buf_len image =? 0))%bool then false
  else compute_sha256 image =? expected_hash.

(** The new contents of [output], the generator's state and [*actual_len]. *)
Definition crypto_encrypt (rng : Z) (data output : buffer) : option (list Z * Z * Z) :=
  if ((bf_at data =? 0) || (bf_at output =? 0) || (buf_len output <? buf_len data + 16))%bool then None
  else if (negb (may_read_buf data) || negb (may_write_buf output))%bool then None
  else
    let '(_, header, rng) := security_generate_random rng true 16 in
    let body := imap (fun i b => Z.lxor (Z.lxor b (bf_bytes key !!! (i mod 32)%nat)) (header !!! (i mod 16)%nat))
                  (bf_bytes data) in
    Some (header ++ body ++ drop (16 + length (bf_bytes data)) (bf_bytes output), rng, buf_len data + 16).

Definition crypto_decrypt (data output : buffer) : option (list Z * Z) :=
  if ((bf_at data =? 0) || (bf_at output =? 0) || (buf_len data <=? 16) ||
      (buf_len output <? buf_len data - 16))%bool then None
  else if (negb (may_read_buf data) || negb (may_write_buf output))%bool then None
  else
    let body := imap (fun i b => Z.lxor (Z.lxor b (bf_bytes key !!! (i mod 32)%nat))
                                   (bf_bytes data !!! (i mod 16)%nat)) (drop 16 (bf_bytes data)) in
    Some (body ++ drop (length (bf_bytes data) - 16) (bf_bytes output), buf_len data - 16).
End Crypto.

(** [crypto_init]: 32 bytes of the generator. *)
Definition crypto_init (rng : Z) : list Z * Z :=
  let '(_, k, rng) := security_generate_random rng true 32 in (k, rng).

(** ** Signatures are linear *)

(** Byte-wise exclusive or. *)
Definition xors (s t : list Z) : list Z := zip_with Z.lxor s t.

Lemma xors_lookup s t k :
  length s = length t -> (k < length s)%nat -> xors s t !!! k = Z.lxor (s !!! k) (t !!! k).
Proof.
  intros Hl Hk.
  destruct (lookup_lt_is_Some_2 s k Hk) as [x Hx], (lookup_lt_is_Some_2 t k ltac:(lia)) as [y Hy].
  rewrite (lookup_total_Some _ _ _ Hx), (lookup_total_Some _ _ _ Hy). apply lookup_total_Some.
  unfold xors. rewrite lookup_zip_with, Hx. cbn. by rewrite Hy.
Qed.

Lemma length_xors s t : length s = length t -> length (xors s t) = length s.
Proof. intros Hl. unfold xors. rewrite length_zip_with. lia. Qed.

Lemma length_xor_at s k v : length (xor_at s k v) = length s.
Proof. apply length_insert. Qed.

Lemma xor_at_xors s t k v w :
  length s = length t -> xor_at (xors s t) k (Z.lxor v w) = xors (xor_at s k v) (xor_at t k w).
Proof.
  intros Hl. unfold xor_at. destruct (decide (k < length s)%nat) as [Hk|Hk].
  - rewrite xors_lookup by done. unfold xors. rewrite <-insert_zip_with. f_equal.
    rewrite !Z.lxor_assoc. f_equal. rewrite <-!Z.lxor_assoc. f_equal. apply Z.lxor_comm.
  - rewrite !list_insert_ge; [done|lia|lia|]. rewrite length_xors by done. lia.
Qed.

Lemma length_sign_diffuse s : length (sign_diffuse s) = length s.
Proof.
  unfold sign_diffuse. generalize (seq 0 31). intros l. revert s.
  induction l as [|k l IH]; intros s; [done|]. cbn [foldl]. by rewrite IH, length_xor_at.
Qed.

Lemma sign_diffuse_xors s t :
  length s = length t -> (32 <= length s)%nat ->
  sign_diffuse (xors s t) = xors (sign_diffuse s) (sign_diffuse t).
Proof.
  unfold sign_diffuse. intros Hl H32.
  assert (Hin : Forall (fun k => (S k < 32)%nat) (seq 0 31)) by (apply Forall_seq; lia).
  revert Hin s t Hl H32. generalize (seq 0 31). intros l Hin.
  induction Hin as [|k l Hk _ IH]; intros s t Hl H32; [done|]. cbn [foldl].
  rewrite xors_lookup, xor_at_xors by lia. apply IH; rewrite !length_xor_at; lia.
Qed.

Lemma length_iter_diffuse n s : length (Nat.iter n sign_diffuse s) = length s.
Proof. induction n as [|n IH]; [done|]. by rewrite Nat.iter_succ, length_sign_diffuse. Qed.

Lemma iter_diffuse_xors n s t :
  length s = length t -> (32 <= length s)%nat ->
  Nat.iter n sign_diffuse (xors s t) = xors (Nat.iter n sign_diffuse s) (Nat.iter n sign_diffuse t).
Proof.
  intros Hl H32. induction n as [|n IH]; [done|]. rewrite !Nat.iter_succ, IH.
  apply sign_diffuse_xors; by rewrite !length_iter_diffuse.
Qed.

Lemma length_sign_step s ib : length (sign_step s ib) = length s.
Proof. unfold sign_step. cbv zeta. destruct (_ =? _)%nat; by rewrite ?length_iter_diffuse, length_xor_at. Qed.

Lemma sign_fold_xors (d e : list Z) s t k :
  length s = length t -> (32 <= length s)%nat -> length d = length e ->
  foldl sign_step (xors s t) (imap (fun i b => ((k + i)%nat, b)) (xors d e)) =
  xors (foldl sign_step s (imap (fun i b => ((k + i)%nat, b)) d))
       (foldl sign_step t (imap (fun i b => ((k + i)%nat, b)) e)).
Proof.
  revert e s t k. induction d as [|x d IH]; intros [|y e] s t k Hl H32 Hde; try done.
  cbn [xors zip_with imap foldl].
  assert (Hstep : sign_step (xors s t) ((k + 0)%nat, Z.lxor x y) =
                  xors (sign_step s ((k + 0)%nat, x)) (sign_step t ((k + 0)%nat, y))).
  { unfold sign_step. cbn [fst snd]. cbv zeta. rewrite xor_at_xors by done.
    destruct (_ =? _)%nat; [|done]. apply iter_diffuse_xors; by rewrite !length_xor_at. }
  change (zip_with Z.lxor d e) with (xors d e) in *. rewrite Hstep.
  assert (Hext : forall l : list Z, imap (compose (fun i b => ((k + i)%nat, b)) S) l =
            imap (fun i b => ((S k + i)%nat, b)) l).
  { intros l. apply imap_ext. intros i z _. cbn. f_equal. lia. }
  rewrite !Hext. apply IH; [by rewrite !length_sign_step|by rewrite length_sign_step|]. cbn in Hde. lia.
Qed.

Lemma sign_loop_xors d e s t :
  length s = length t -> (32 <= length s)%nat -> length d = length e ->
  sign_loop (xors s t) (xors d e) = xors (sign_loop s d) (sign_loop t e).
Proof. intros Hl H32 Hde. apply (sign_fold_xors d e s t 0 Hl H32 Hde). Qed.

Lemma xors_zero s n : length s = n -> xors s (replicate n 0) = s.
Proof. intros <-. induction s as [|x s IH]; [done|]. cbn. rewrite Z.lxor_0_r. by f_equal. Qed.

Lemma xors_self s : xors s s = replicate (length s) 0.
Proof. induction s as [|x s IH]; [done|]. cbn. rewrite Z.lxor_nilpotent. by f_equal. Qed.

Lemma xors_cancel s t : length s = length t -> xors s (xors s t) = t.
Proof.
  revert t. induction s as [|x s IH]; intros [|y t] Hl; try done. cbn.
  rewrite <-Z.lxor_assoc, Z.lxor_nilpotent, Z.lxor_0_l. f_equal. apply IH. cbn in Hl. lia.
Qed.

Lemma crypto_sign_Some rt key data b s :
  crypto_sign rt key data b = Some s ->
  bf_at b <> 0 /\ 32 <= buf_len b /\ may_write_buf rt b = true /\ bf_at data <> 0 /\
  s = sign_loop (if (may_write rt (bf_at b) 32 && may_read rt (bf_at key) 32)%bool
                 then bf_bytes key ++ drop 32 (bf_bytes b) else bf_bytes b) (bf_bytes data).
Proof.
  unfold crypto_sign. destruct (_ || _ || _)%bool eqn:E1; [done|].
  destruct (negb _ || negb _)%bool eqn:E2; [done|]. intros [= <-]. bools. split_and!; (done || lia).
Qed.

Lemma length_sign_loop s d : length (sign_loop s d) = length s.
Proof.
  unfold sign_loop. generalize (imap pair d). intros l. revert s.
  induction l as [|ib l IH]; intros s; [done|]. cbn [foldl]. by rewrite IH, length_sign_step.
Qed.

(** What a signature proves.  [crypto_verify] accepts exactly the
    signature [crypto_sign] computes; and from the signature of one message
    anyone can compute, without the key, the signature of every other
    message of that length: it is the first one xor a function of the two
    messages alone. *)
Theorem signatures_verify_and_forge (rt : regions) (key b d e : buffer) (s : list Z) :
  length (bf_bytes key) = 32%nat -> crypto_sign rt key d b = Some s ->
  buf_len e = buf_len d -> bf_at e <> 0 -> may_read_buf rt e = true ->
  crypto_sign rt key e b =
    Some (xors s (sign_loop (replicate (length s) 0) (xors (bf_bytes d) (bf_bytes e)))) /\
  (forall sg, bf_at sg <> 0 -> 32 <= buf_len sg -> may_read_buf rt sg = true -> may_read_buf rt d = true ->
     crypto_verify rt key b d sg = true <-> take 32 (bf_bytes sg) = take 32 s).
Proof.
  intros Hk Hs Hlen He Hre. pose proof (crypto_sign_Some _ _ _ _ _ Hs) as (Hb & Hbl & Hbw & Hd & Hdef).
  set (sig := if (_ && _)%bool then _ else _) in Hdef. unfold buf_len in *.
  assert (Hsl : length sig = length (bf_bytes b)).
  { unfold sig. destruct (_ && _)%bool; [|done]. rewrite length_app, length_drop, Hk. lia. }
  split.
  - unfold crypto_sign, buf_len. rewrite Hre, Hbw.
    rewrite (proj2 (Z.eqb_neq _ _) He), (proj2 (Z.eqb_neq _ _) Hb), (proj2 (Z.ltb_ge _ _)) by lia.
    cbn [negb orb]. fold sig. f_equal.
    rewrite Hdef, length_sign_loop.
    rewrite <-sign_loop_xors by (rewrite ?length_replicate, ?length_xors; lia).
    by rewrite xors_zero, xors_cancel by lia.
  - intros sg Hsg Hsgl Hsgr Hdr. unfold crypto_verify, buf_len. rewrite Hdr, Hsgr, Hs.
    rewrite (proj2 (Z.eqb_neq _ _) Hd), (proj2 (Z.eqb_neq _ _) Hsg), (proj2 (Z.ltb_ge _ _)) by lia.
    cbn [negb orb]. rewrite bool_decide_eq_true. by split.
Qed.

(** Decryption inverts encryption.  Whatever the key and the state of
    the generator, decrypting the bytes [crypto_encrypt] reports as written
    gives the plaintext back, with its length. *)
Theorem decrypt_inverts_encrypt (rt : regions) (key : buffer) (rng rng' n : Z) (d o o2 c : buffer) (w : list Z) :
  0 < buf_len d -> crypto_encrypt rt key rng d o = Some (w, rng', n) ->
  bf_at c <> 0 -> bf_bytes c = take (Z.to_nat n) w -> may_read_buf rt c = true ->
  bf_at o2 <> 0 -> buf_len d <= buf_len o2 -> may_write_buf rt o2 = true ->
  exists p, crypto_decrypt rt key c o2 = Some (p, buf_len d) /\
    take (Z.to_nat (buf_len d)) p = bf_bytes d.
Proof.
  intros Hd Henc Hc Hcb Hcr Ho2 Hlen Ho2w. unfold crypto_encrypt in Henc.
  destruct (_ || _ || _)%bool; [done|]. destruct (_ || _)%bool; [done|].
  destruct (security_generate_random rng true 16) as [[g h] r] eqn:Eg.
  assert (Hh : length h = 16%nat).
  { unfold security_generate_random in Eg. cbn [negb orb Z.eqb] in Eg.
    change (Z.to_nat 16) with 16%nat in Eg. cbn in Eg. injection Eg as _ <- _. done. }
  injection Henc as <- _ <-. unfold buf_len in *. set (x := bf_bytes d) in *.
  set (body := imap _ x) in *.
  assert (Hb : length body = length x) by (unfold body; by rewrite length_imap).
  assert (Hcb' : bf_bytes c = h ++ body).
  { rewrite Hcb, app_assoc, take_app_le by (rewrite length_app; lia). apply take_ge. rewrite length_app. lia. }
  unfold crypto_decrypt, buf_len. rewrite Hcr, Ho2w, Hcb', length_app.
  rewrite (proj2 (Z.eqb_neq _ _) Hc), (proj2 (Z.eqb_neq _ _) Ho2), (proj2 (Z.leb_gt _ _)), (proj2 (Z.ltb_ge _ _)) by lia.
  cbn [negb orb]. eexists. split; [f_equal; f_equal; lia|].
  rewrite drop_app_length' by lia. rewrite Nat2Z.id, take_app_le by (rewrite length_imap; lia).
  rewrite take_ge by (rewrite length_imap; lia). apply list_eq. intros i. rewrite list_lookup_imap.
  assert (Hbi : body !! i = (fun z => Z.lxor (Z.lxor z (bf_bytes key !!! (i mod 32)%nat)) (h !!! (i mod 16)%nat)) <$> x !! i)
    by apply list_lookup_imap.
  assert (Hhi : (h ++ body) !!! (i mod 16)%nat = h !!! (i mod 16)%nat).
  { apply lookup_total_app_l. rewrite Hh. apply Nat.mod_upper_bound. lia. }
  rewrite Hbi. destruct (x !! i) as [z|]; [|done]. cbn [fmap option_fmap option_map]. f_equal.
  rewrite Hhi. set (u := bf_bytes key !!! _). set (v := h !!! _). rewrite !Z.lxor_assoc.
  rewrite (Z.lxor_comm u v), <-(Z.lxor_assoc v v u), Z.lxor_nilpotent, Z.lxor_0_l, Z.lxor_nilpotent.
  apply Z.lxor_0_r.
Qed.

(** ** validate_message *)

Section Validate.
Context (rt : regions) (key : buffer).
(** The message's address, that of the string "GRID_FAULT", the local
    signature buffer, and the memory they are in.  [fuel] bounds the scan
    of [strstr]. *)
Context (mem : gmap Z Z) (msg_at needle_at : Z) (signature : buffer) (fuel : nat).

Definition MESSAGE_SIZE : Z := 144.

Definition validate_message (m : message_t) : option Z :=
  let payload := msg_at + 16 in
  if (negb (may_read rt msg_at MESSAGE_SIZE) || negb (may_read rt payload 128))%bool then Some 0
  else
    let len := strlen rt mem payload in
    if m_priority m =? PRIORITY_HIGH
    then
      if len =? 0 then Some 0
      else if m_operation m =? OP_GRID_ALERT
      then
        hit ← strstr rt fuel mem payload needle_at;
        if hit =? 0 then Some 0
        else match crypto_sign rt key (Buf payload (take (Z.to_nat len) (m_payload m))) signature with
             | None => Some 0
             | Some _ => Some 1
             end
      else Some 1
    else Some 1.
End Validate.

(** Whether signing succeeds does not depend on the key's bytes. *)
Lemma crypto_sign_success rt k k' d b : is_Some (crypto_sign rt k d b) <-> is_Some (crypto_sign rt k' d b).
Proof. unfold crypto_sign. destruct (_ || _ || _)%bool; [done|]. by destruct (_ || _)%bool. Qed.

(** A grid alert is not authenticated.  The check that logs "Grid alert
    signature verified" computes a signature into a local buffer and drops
    it, so the verdict on any message, at any priority, is the same under
    every system key; for a high-priority alert with a readable, non-empty
    text it is the presence of "GRID_FAULT" in the text. *)
Theorem alerts_are_not_authenticated (rt : regions) (key key' : buffer) (mem : gmap Z Z)
    (msg_at needle_at : Z) (signature : buffer) (fuel : nat) (m : message_t) :
  validate_message rt key mem msg_at needle_at signature fuel m =
  validate_message rt key' mem msg_at needle_at signature fuel m /\
  (may_read rt msg_at MESSAGE_SIZE = true -> may_read rt (msg_at + 16) 128 = true ->
   m_priority m = PRIORITY_HIGH -> m_operation m = OP_GRID_ALERT -> strlen rt mem (msg_at + 16) <> 0 ->
   is_Some (crypto_sign rt key (Buf (msg_at + 16) (take (Z.to_nat (strlen rt mem (msg_at + 16))) (m_payload m))) signature) ->
   validate_message rt key mem msg_at needle_at signature fuel m =
   (fun hit => if hit =? 0 then 0 else 1) <$> strstr rt fuel mem (msg_at + 16) needle_at).
Proof.
  split.
  - unfold validate_message. cbv zeta. destruct (_ || _)%bool; [done|].
    destruct (m_priority m =? PRIORITY_HIGH); [|done]. destruct (strlen _ _ _ =? 0); [done|].
    destruct (m_operation m =? OP_GRID_ALERT); [|done].
    destruct (strstr _ _ _ _ _) as [hit|]; [|done]. cbn [mbind option_bind]. destruct (hit =? 0); [done|].
    match goal with |- match ?x with _ => _ end = match ?y with _ => _ end =>
      assert (Hs : is_Some x <-> is_Some y) by apply crypto_sign_success; destruct x, y end; try done.
    + by destruct (proj1 Hs ltac:(by eexists)).
    + by destruct (proj2 Hs ltac:(by eexists)).
  - intros H1 H2 Hp Ho Hl [s Hs]. unfold validate_message. rewrite H1, H2, Hp, Ho. cbn [negb orb]. cbv zeta.
    rewrite (proj2 (Z.eqb_neq _ _) Hl). cbn [Z.eqb PRIORITY_HIGH]. rewrite Z.eqb_refl.
    destruct (strstr _ _ _ _ _) as [hit|]; [|done]. cbn [mbind option_bind fmap option_fmap option_map].
    destruct (hit =? 0); [done|]. by rewrite Hs.
Qed.

(** ** Concrete buffers, with no region table: every access is granted *)
Definition demo_key : buffer := Buf 4096 (crypto_init 123456789).1.
Definition demo_data : buffer := Buf 8192 [1; 2; 3; 4; 5].
Definition demo_other : buffer := Buf 8448 [9; 2; 7; 4; 0].
Definition demo_sig : buffer := Buf 12288 (replicate 32 0).
Definition demo_signed : list Z := default [] (crypto_sign [] demo_key demo_data demo_sig).

Example signatures_verify_and_forge_witness :
  crypto_sign [] demo_key demo_other demo_sig =
    Some (xors demo_signed (sign_loop (replicate 32 0) [8; 0; 4; 0; 5])) /\
  crypto_verify [] demo_key demo_sig demo_data (Buf 16384 demo_signed) = true.
Proof.
  destruct (signatures_verify_and_forge [] demo_key demo_sig demo_data demo_other demo_signed)
    as [H1 H2]; [vm_compute; reflexivity..|vm_compute; discriminate|vm_compute; reflexivity|].
  split; [exact H1|]. apply H2; vm_compute; first [reflexivity|discriminate].
Defined.

Definition demo_out : buffer := Buf 20480 (replicate 40 0).
Definition demo_cipher : list Z * Z * Z := default ([], 0, 0) (crypto_encrypt [] demo_key 1 demo_data demo_out).

Example decrypt_inverts_encrypt_witness :
  exists p, crypto_decrypt [] demo_key (Buf 24576 (take 21 demo_cipher.1.1)) demo_out = Some (p, 5) /\
    take 5 p = [1; 2; 3; 4; 5].
Proof.
  apply (decrypt_inverts_encrypt [] demo_key 1 demo_cipher.1.2 21 demo_data demo_out demo_out
           (Buf 24576 (take 21 demo_cipher.1.1)) demo_cipher.1.1);
    vm_compute; first [reflexivity|discriminate].
Defined.

(** A grid alert and the string it is searched for. *)
Definition grid_fault : list Z := [71; 82; 73; 68; 95; 70; 65; 85; 76; 84].
Fixpoint put_string (m : gmap Z Z) (a : Z) (cs : list Z) : gmap Z Z :=
  match cs with [] => stb m a 0 | c :: cs => put_string (stb m a c) (a + 1) cs end.
Definition demo_alert_mem : gmap Z Z := put_string (put_string ∅ 32784 grid_fault) 40960 grid_fault.
Definition demo_alert : message_t := Message 0 OP_GRID_ALERT 0 0 (grid_fault ++ replicate 118 0).

Example alerts_are_not_authenticated_witness :
  validate_message [] demo_key demo_alert_mem 32768 40960 demo_sig 200 demo_alert = Some 1.
Proof.
  destruct (alerts_are_not_authenticated [] demo_key demo_data demo_alert_mem 32768 40960 demo_sig 200 demo_alert)
    as [_ H].
  rewrite H; [vm_compute; reflexivity|vm_compute; reflexivity|vm_compute; reflexivity|reflexivity|reflexivity|
    vm_compute; discriminate|eexists; vm_compute; reflexivity].
Defined.
