(* ===== verification/Update.v ===== *)
(** * Transactional updates: services/update/update.c, services/update/sandbox.c

    An update is a workflow of five steps over the installed storage
    backend.  A transaction's [update_state] lives at an address (the
    workflow's context pointer); its checkpoint name is a pointer into one
    static buffer that every transaction shares. *)
From stdpp Require Import strings.
From S2P Require Import Prelude Types Circular Ring Auditor Security MemUtils TxnLog Journal Workflow Checkpoints Crypto.

Definition MAX_UPDATE_SIZE : Z := 1048576.
Definition SANDBOX_STAGE_SIZE : Z := 65536.

Definition UPDATE_TYPE_KERNEL : Z := 2.
Definition UPDATE_STATUS_INIT : Z := 0.
Definition UPDATE_STATUS_CHECKPOINT : Z := 1.
Definition UPDATE_STATUS_VERIFY : Z := 2.
Definition UPDATE_STATUS_SANDBOX : Z := 3.
Definition UPDATE_STATUS_TEST : Z := 4.
Definition UPDATE_STATUS_COMMIT : Z := 5.
Definition UPDATE_STATUS_COMPLETE : Z := 6.
Definition UPDATE_STATUS_ROLLBACK : Z := 7.
Definition UPDATE_STATUS_ERROR : Z := 8.

(** [struct update_tx]; [tx_checkpoint] says whether the pointer is set (to
    the static buffer) or NULL; [size] is the length of the image's bytes. *)
Record update_tx := UpdateTx {
  tx_path : option (list Z);
  tx_checkpoint : bool;
  tx_image : buffer;
  tx_hash : Z
}.
Definition tx_size (t : update_tx) : Z := buf_len (tx_image t).

(** [struct update_state]. *)
Record update_state := UpdateState {
  us_tx : update_tx;
  us_type : Z;
  us_status : Z;
  us_transaction_id : Z;
  us_log_path : list Z;
  us_error_count : Z;
  us_requires_reboot : bool
}.
Definition update_state_zero : update_state :=
  UpdateState (UpdateTx None false (Buf 0 []) 0) 0 0 0 [] 0 false.
Definition with_tx t (u : update_state) : update_state :=
  UpdateState t (us_type u) (us_status u) (us_transaction_id u) (us_log_path u) (us_error_count u) (us_requires_reboot u).
Definition with_us_status st (u : update_state) : update_state :=
  UpdateState (us_tx u) (us_type u) st (us_transaction_id u) (us_log_path u) (us_error_count u) (us_requires_reboot u).
Definition with_errors n (u : update_state) : update_state :=
  UpdateState (us_tx u) (us_type u) (us_status u) (us_transaction_id u) (us_log_path u) n (us_requires_reboot u).

Section Update.
(** The storage system behind the backend, any state with a journal. *)
Context {D : Type} `{HasJournal D}.

(** The update manager's part of the system: the states by address, the
    static buffer [checkpoint], [sandbox_stage], [active_backend]. *)
Record usys := Usys {
  u_states : gmap Z update_state;
  u_checkpoint : list Z;
  u_stage : list Z;
  u_backend : option (storage_ops_t D);
  u_store : D
}.
#[export] Instance usys_journal : HasJournal usys := {
  journal_of s := journal_of (u_store s);
  set_journal j s := Usys (u_states s) (u_checkpoint s) (u_stage s) (u_backend s) (set_journal j (u_store s))
}.

Definition u_state (ctx : Z) (s : usys) : update_state := default update_state_zero (u_states s !! ctx).
Definition set_u_state (ctx : Z) (u : update_state) (s : usys) : usys :=
  Usys (<[ctx := u]> (u_states s)) (u_checkpoint s) (u_stage s) (u_backend s) (u_store s).
Definition set_u_status (ctx st : Z) (s : usys) : usys := set_u_state ctx (with_us_status st (u_state ctx s)) s.
Definition set_u_store (d : D) (s : usys) : usys :=
  Usys (u_states s) (u_checkpoint s) (u_stage s) (u_backend s) d.
Definition set_u_stage (b : list Z) (s : usys) : usys :=
  Usys (u_states s) (u_checkpoint s) b (u_backend s) (u_store s).

(** [tx.checkpoint] as the string it points to. *)
Definition checkpoint_name (u : update_state) (s : usys) : option (list Z) :=
  if tx_checkpoint (us_tx u) then Some (u_checkpoint s) else None.

(** ** Preparing a transaction *)

(** The decimal digits, most significant first; at most ten. *)
Fixpoint decimal_digits (k : nat) (n : Z) (acc : list Z) : list Z :=
  match k with
  | O => acc
  | S k => let acc := (48 + n mod 10) :: acc in
           if n / 10 =? 0 then acc else decimal_digits k (n / 10) acc
  end.
Definition decimal (n : Z) : list Z := decimal_digits 10 n [].

Definition checkpoint_path (path : list Z) (transaction_id : Z) : list Z :=
  take 255 (take 200 path ++ chars ".checkpoint-"%string ++ decimal (u32 transaction_id)).
Definition log_file_path (transaction_id : Z) : list Z :=
  chars "/var/log/lughos/update-"%string ++ decimal (u32 transaction_id) ++ chars ".log"%string.

(** [init_update_transaction] past its asserts. *)
Definition prepare_update (ctx type : Z) (path : list Z) (image : buffer) (hash : Z) (s : usys)
    : Z * usys :=
  let '(id, j) := generate_transaction_id (journal_of s) in
  let s := set_journal j s in
  let u := UpdateState (UpdateTx (Some path) true image hash) type UPDATE_STATUS_INIT id
             (log_file_path id) 0 (type =? UPDATE_TYPE_KERNEL) in
  (0, set_u_state ctx u (Usys (u_states s) (checkpoint_path path id) (u_stage s) (u_backend s) (u_store s))).

(** [None] is a machine that has halted: in an assert, or with no ids left. *)
Definition init_update_transaction (ctx type : Z) (path : option (list Z)) (image : buffer) (hash : Z) (s : usys)
    : option (Z * usys) :=
  if ctx =? 0 then None
  else match path with
       | None => None
       | Some path =>
           if bf_at image =? 0 then None
           else let '(rv, s) := prepare_update ctx type path image hash s in
                if j_halted (journal_of s) then None else Some (rv, s)
       end.

Definition cleanup_update_transaction (ctx : Z) (s : usys) : usys :=
  if ctx =? 0 then s else
  let u := u_state ctx s in
  let t := us_tx u in
  if tx_checkpoint t then set_u_state ctx (with_tx (UpdateTx (tx_path t) false (tx_image t) (tx_hash t)) u) s
  else s.

(** ** The sandbox *)

Definition sandbox_apply (image : buffer) (stage : list Z) : bool * list Z :=
  let b := bf_bytes image in
  if ((bf_at image =? 0) || (buf_len image =? 0))%bool then (false, stage)
  else if buf_len image >? SANDBOX_STAGE_SIZE then (false, stage)
  else if ((buf_len image <? 64) || negb (bool_decide (take 4 b = [127; 69; 76; 70])))%bool then (false, stage)
  else (true, b ++ drop (length b) stage).

Definition run_tests (path : option (list Z)) : bool :=
  match path with None => false | Some _ => true end.

(** Logs and succeeds; [None] is the halt of a failed
    [assert(path != NULL && image != NULL && size > 0)]. *)
Definition install_update (path : option (list Z)) (image : buffer) : option Z :=
  match path with
  | None => None
  | Some _ => if ((bf_at image =? 0) || (buf_len image =? 0))%bool then None else Some 0
  end.

(** ** The steps *)
Section Steps.
Context (rt : regions).

Definition step_checkpoint : workflow_fn usys := fun ctx s =>
  let s := set_u_status ctx UPDATE_STATUS_CHECKPOINT s in
  match u_backend s with
  | None => (-1, s)
  | Some ops =>
      let u := u_state ctx s in
      let '(rv, d) := so_create_checkpoint _ ops (tx_path (us_tx u)) (checkpoint_name u s) (u_store s) in
      (if negb (rv =? 0) then -1 else 0, set_u_store d s)
  end.
Definition undo_remove_checkpoint : workflow_fn usys := fun ctx s =>
  match u_backend s with
  | None => (-1, s)
  | Some ops =>
      let '(rv, d) := so_remove_checkpoint _ ops (checkpoint_name (u_state ctx s) s) (u_store s) in
      (rv, set_u_store d s)
  end.
Definition step_verify : workflow_fn usys := fun ctx s =>
  let s := set_u_status ctx UPDATE_STATUS_VERIFY s in
  let t := us_tx (u_state ctx s) in
  (if negb (verify_signature rt (tx_image t) (tx_hash t)) then -1 else 0, s).
Definition step_sandbox : workflow_fn usys := fun ctx s =>
  let s := set_u_status ctx UPDATE_STATUS_SANDBOX s in
  let '(ok, stage) := sandbox_apply (tx_image (us_tx (u_state ctx s))) (u_stage s) in
  (if ok then 0 else -1, set_u_stage stage s).
Definition step_test : workflow_fn usys := fun ctx s =>
  let s := set_u_status ctx UPDATE_STATUS_TEST s in
  (if run_tests (tx_path (us_tx (u_state ctx s))) then 0 else -1, s).
Definition step_install : workflow_fn usys := fun ctx s =>
  let s := set_u_status ctx UPDATE_STATUS_COMMIT s in
  let t := us_tx (u_state ctx s) in
  match install_update (tx_path t) (tx_image t) with
  | Some rv => (rv, s)
  | None => (0, set_journal (halt_journal (journal_of s)) s)
  end.
Definition undo_restore_checkpoint : workflow_fn usys := fun ctx s =>
  match u_backend s with
  | None => (-1, s)
  | Some ops =>
      let u := u_state ctx s in
      let '(rv, d) := so_restore_checkpoint _ ops (checkpoint_name u s) (tx_path (us_tx u)) (u_store s) in
      (if negb (rv =? 0) then -1 else 0, set_u_store d s)
  end.

Definition update_steps : list (workflow_step_t usys) :=
  [Step (Some (chars "checkpoint"%string)) (Some step_checkpoint) (Some undo_remove_checkpoint);
   Step (Some (chars "verify"%string)) (Some step_verify) None;
   Step (Some (chars "sandbox"%string)) (Some step_sandbox) None;
   Step (Some (chars "test"%string)) (Some step_test) None;
   Step (Some (chars "install"%string)) (Some step_install) (Some undo_restore_checkpoint)].
Definition UPDATE_STEP_COUNT : Z := 5.

Context (stk_key stk_value : list Z).

(** [apply_update] past its asserts; [None] would be a fault in the engine. *)
Definition apply_checked (ctx : Z) (tbl : list (workflow_t usys)) (s : usys)
    : option (Z * list (workflow_t usys) * usys) :=
  if tx_size (us_tx (u_state ctx s)) >? MAX_UPDATE_SIZE
  then Some (-1, tbl, set_u_status ctx UPDATE_STATUS_ERROR s)
  else
    let '(slot, tbl, s) := workflow_begin (Some update_steps) UPDATE_STEP_COUNT ctx tbl s in
    match slot with
    | None => Some (-1, tbl, set_u_status ctx UPDATE_STATUS_ERROR s)
    | Some i =>
        '(rv, tbl, s) ← workflow_run_slot stk_key stk_value (Some i) tbl s;
        if rv =? 0
        then
          let s := match u_backend s with
                   | None => s
                   | Some ops =>
                       set_u_store (so_remove_checkpoint _ ops (checkpoint_name (u_state ctx s) s) (u_store s)).2 s
                   end in
          Some (0, workflow_release (Some i) tbl, set_u_status ctx UPDATE_STATUS_COMPLETE s)
        else
          wf ← tbl !! i;
          if wf_status wf =? WF_STATUS_FAILED
          then
            let u := with_us_status UPDATE_STATUS_ERROR (u_state ctx s) in
            Some (-1, tbl, set_u_state ctx (with_errors (u32 (us_error_count u + 1)) u) s)
          else Some (-1, workflow_release (Some i) tbl, set_u_status ctx UPDATE_STATUS_ROLLBACK s)
    end.

(** [assert(state != NULL)] and [assert(state->tx.path != NULL &&
    state->tx.image != NULL)]. *)
Definition pointers_ok (ctx : Z) (s : usys) : bool :=
  let t := us_tx (u_state ctx s) in
  (negb (ctx =? 0) && (match tx_path t with Some _ => true | None => false end) &&
   negb (bf_at (tx_image t) =? 0))%bool.

(** [None] is a machine that has halted: in [assert_impl], or in
    [generate_transaction_id] with no ids left. *)
Definition apply_update (ctx : Z) (tbl : list (workflow_t usys)) (s : usys)
    : option (Z * list (workflow_t usys) * usys) :=
  if negb (pointers_ok ctx s) then None
  else
    '(rv, tbl, s) ← apply_checked ctx tbl s;
    if j_halted (journal_of s) then None else Some (rv, tbl, s).

Definition execute_update (ctx : Z) (tbl : list (workflow_t usys)) (s : usys)
    : option (Z * list (workflow_t usys) * usys) := apply_update ctx tbl s.
End Steps.

(** The two functions kept for compatibility; the first goes straight to
    the in-memory store. *)
Definition rollback_update (restore : option (list Z) -> option (list Z) -> D -> Z * D) (ctx : option Z) (s : usys)
    : Z * usys :=
  match ctx with
  | None => (-1, s)
  | Some ctx =>
      let u := u_state ctx s in
      let '(rv, d) := restore (checkpoint_name u s) (tx_path (us_tx u)) (u_store s) in
      (if negb (rv =? 0) then -1 else 0, set_u_store d s)
  end.
Definition commit_update (ctx : option Z) (s : usys) : option Z :=
  match ctx with
  | None => Some (-1)
  | Some ctx => let t := us_tx (u_state ctx s) in
                rv ← install_update (tx_path t) (tx_image t);
                Some (if negb (rv =? 0) then -1 else 0)
  end.

(** [assert(message != NULL)] first. *)
Definition process_update_ipc (operation : Z) (message : option (list Z)) : option Z :=
  match message with
  | None => None
  | Some _ => Some (if negb (operation =? OP_UPDATE) then -1 else 0)
  end.
End Update.
Arguments usys : clear implicits.

(** ** What the pipeline leaves alone *)
Section Pipeline.
Context {D : Type} `{HasJournal D} (rt : regions) (sk sv : list Z) (ctx : Z).
Abbreviation usys := (usys D).

(** Transaction, error count and backend are the same, and so is every
    other update's state. *)
Record keeps (s s' : usys) : Prop := {
  kp_tx : us_tx (u_state ctx s') = us_tx (u_state ctx s);
  kp_errors : us_error_count (u_state ctx s') = us_error_count (u_state ctx s);
  kp_others : forall c, c <> ctx -> u_states s' !! c = u_states s !! c;
  kp_name : u_checkpoint s' = u_checkpoint s;
  kp_backend : u_backend s' = u_backend s
}.
#[export] Instance keeps_preorder : PreOrder keeps.
Proof.
  split; [by split|]. intros a b c [] []. split; try congruence.
  intros x Hx. transitivity (u_states b !! x); auto.
Qed.

Lemma u_state_set u (s : usys) : u_state ctx (set_u_state ctx u s) = u.
Proof. unfold u_state. cbn [u_states set_u_state]. by rewrite lookup_insert_eq. Qed.

Lemma u_status_set st (s : usys) : us_status (u_state ctx (set_u_status ctx st s)) = st.
Proof. unfold set_u_status. by rewrite u_state_set. Qed.

Lemma keeps_store d (s : usys) : keeps s (set_u_store d s).
Proof. by split. Qed.
Lemma keeps_stage b (s : usys) : keeps s (set_u_stage b s).
Proof. by split. Qed.
Lemma keeps_status st (s : usys) : keeps s (set_u_status ctx st s).
Proof.
  split; [by unfold set_u_status; rewrite u_state_set..| |done|done].
  intros c Hc. cbn. by rewrite lookup_insert_ne.
Qed.
Lemma keeps_emit wf i e rv (s : usys) : keeps s (wf_emit sk sv wf i e rv s).
Proof. by split. Qed.
Lemma keeps_event (e : wf_event) (s : usys) : keeps s (emit_event sk sv s e).
Proof. by split. Qed.
Lemma keeps_journal j (s : usys) : keeps s (set_journal j s).
Proof. by split. Qed.

Lemma keeps_then s s1 s2 : keeps s s1 -> keeps s1 s2 -> keeps s s2.
Proof. apply keeps_preorder. Qed.

(** The [i]-th step's verdict, given the transaction. *)
Definition staged_ok (image : buffer) : bool := (sandbox_apply image []).1.
Lemma sandbox_apply_ok image stage : (sandbox_apply image stage).1 = staged_ok image.
Proof. unfold staged_ok, sandbox_apply. by repeat case_match. Qed.

Definition verdict (i : nat) (s : usys) : bool :=
  let t := us_tx (u_state ctx s) in
  match i with
  | 1%nat => verify_signature rt (tx_image t) (tx_hash t)
  | 2%nat => staged_ok (tx_image t)
  | 3%nat => run_tests (tx_path t)
  | _ => true
  end.
Lemma verdict_keeps i s s' : keeps s s' -> verdict i s' = verdict i s.
Proof. intros Hk. unfold verdict. by rewrite (kp_tx _ _ Hk). Qed.

(** The checkpoint step's question to the backend. *)
Definition checkpoint_taken (s : usys) : Prop :=
  exists ops d, u_backend s = Some ops /\
    (so_create_checkpoint _ ops (tx_path (us_tx (u_state ctx s))) (checkpoint_name (u_state ctx s) s) d).1 = 0.
Definition checkpoint_refused (s : usys) : Prop :=
  u_backend s = None \/
  exists ops d, u_backend s = Some ops /\
    (so_create_checkpoint _ ops (tx_path (us_tx (u_state ctx s))) (checkpoint_name (u_state ctx s) s) d).1 <> 0.
Definition removal_refused (s : usys) : Prop :=
  exists ops d, u_backend s = Some ops /\
    (so_remove_checkpoint _ ops (checkpoint_name (u_state ctx s) s) d).1 <> 0.

Lemma checkpoint_name_keeps s s' :
  keeps s s' -> checkpoint_name (u_state ctx s') s' = checkpoint_name (u_state ctx s) s.
Proof. intros Hk. unfold checkpoint_name. by rewrite (kp_tx _ _ Hk), (kp_name _ _ Hk). Qed.

Lemma taken_keeps s s' : keeps s s' -> checkpoint_taken s' -> checkpoint_taken s.
Proof.
  intros Hk (ops & d & Hb & Hc). exists ops, d.
  by rewrite <-(kp_backend _ _ Hk), <-(kp_tx _ _ Hk), <-(checkpoint_name_keeps _ _ Hk).
Qed.
Lemma refused_keeps s s' : keeps s s' -> checkpoint_refused s' -> checkpoint_refused s.
Proof.
  intros Hk [Hb|(ops & d & Hb & Hc)]; [left; by rewrite <-(kp_backend _ _ Hk)|].
  right. exists ops, d. by rewrite <-(kp_backend _ _ Hk), <-(kp_tx _ _ Hk), <-(checkpoint_name_keeps _ _ Hk).
Qed.
Lemma removal_keeps s s' : keeps s s' -> removal_refused s' -> removal_refused s.
Proof.
  intros Hk (ops & d & Hb & Hc). exists ops, d.
  by rewrite <-(kp_backend _ _ Hk), <-(checkpoint_name_keeps _ _ Hk).
Qed.

(** One step: it leaves everything else alone, and says yes exactly when
    its test does. *)
Lemma update_step_spec i st run s rv s' :
  update_steps rt !! i = Some st -> st_run st = Some run -> run ctx s = (rv, s') ->
  keeps s s' /\
  (rv = 0 -> (i = 0%nat -> checkpoint_taken s) /\ verdict i s = true) /\
  (rv <> 0 -> (i = 0%nat /\ checkpoint_refused s) \/ verdict i s = false).
Proof.
  intros Hi Hrun Hr.
  destruct i as [|[|[|[|[|i]]]]]; cbn in Hi; simplify_eq/=.
  - pose proof (keeps_status UPDATE_STATUS_CHECKPOINT s) as Hk. unfold step_checkpoint in Hr.
    change (u_backend (set_u_status ctx UPDATE_STATUS_CHECKPOINT s)) with (u_backend s) in Hr.
    destruct (u_backend s) as [ops|] eqn:Eb.
    + destruct (so_create_checkpoint _ _ _ _ _) as [r d] eqn:Ec. simplify_eq/=.
      split; [etransitivity; [exact Hk|apply keeps_store]|].
      rewrite (kp_tx _ _ Hk), (checkpoint_name_keeps _ _ Hk) in Ec.
      split; intros Hrv; destruct (r =? 0) eqn:E; bools; try done.
      * split; [|done]. intros _. exists ops, (u_store s). by rewrite Ec.
      * left. split; [done|]. right. exists ops, (u_store s). by rewrite Ec.
    + simplify_eq/=. split; [done|]. split; [done|]. intros _. left. split; [done|]. by left.
  - pose proof (keeps_status UPDATE_STATUS_VERIFY s) as Hk. unfold step_verify in Hr. simplify_eq/=.
    split; [done|]. rewrite (kp_tx _ _ Hk). unfold verdict.
    destruct (verify_signature _ _ _); split; intros; try done; by right.
  - pose proof (keeps_status UPDATE_STATUS_SANDBOX s) as Hk. unfold step_sandbox in Hr.
    rewrite (kp_tx _ _ Hk) in Hr.
    pose proof (sandbox_apply_ok (tx_image (us_tx (u_state ctx s))) (u_stage (set_u_status ctx UPDATE_STATUS_SANDBOX s))) as Hok.
    destruct (sandbox_apply _ _) as [ok stage]. simplify_eq/=.
    split; [etransitivity; [exact Hk|apply keeps_stage]|]. unfold verdict.
    destruct (staged_ok _); split; intros; try done; by right.
  - pose proof (keeps_status UPDATE_STATUS_TEST s) as Hk. unfold step_test in Hr. simplify_eq/=.
    split; [done|]. rewrite (kp_tx _ _ Hk). unfold verdict.
    destruct (run_tests _); split; intros; try done; by right.
  - pose proof (keeps_status UPDATE_STATUS_COMMIT s) as Hk. unfold step_install in Hr. split.
    + destruct (install_update _ _); injection Hr as _ <-; [done|].
      exact (keeps_then _ _ _ Hk (keeps_journal _ (set_u_status ctx UPDATE_STATUS_COMMIT s))).
    + destruct (install_update _ _) as [r|] eqn:Ei; [|by simplify_eq/=]. assert (r = 0) as ->; [|by simplify_eq/=].
      unfold install_update in Ei. by repeat case_match; simplify_eq.
Qed.

(** One undo. *)
Lemma update_undo_spec i st undo s rv s' :
  update_steps rt !! i = Some st -> st_undo st = Some undo -> undo ctx s = (rv, s') ->
  keeps s s' /\ (rv <> 0 -> i = 0%nat -> u_backend s = None \/ removal_refused s).
Proof.
  intros Hi Hundo Hr. destruct i as [|[|[|[|[|i]]]]]; cbn in Hi; simplify_eq/=.
  - unfold undo_remove_checkpoint in Hr. destruct (u_backend s) as [ops|] eqn:Eb.
    + destruct (so_remove_checkpoint _ _ _ _) as [r d] eqn:Ec. simplify_eq/=.
      split; [apply keeps_store|]. intros Hrv _. right. exists ops, (u_store s). by rewrite Ec.
    + simplify_eq/=. split; [done|]. auto.
  - unfold undo_restore_checkpoint in Hr. destruct (u_backend s) as [ops|] eqn:Eb.
    + destruct (so_restore_checkpoint _ _ _ _ _) as [r d] eqn:Ec. simplify_eq/=. by split; [apply keeps_store|].
    + simplify_eq/=. by split.
Qed.

(** The engine's executions of the five steps. *)
Record runs_update (wf : workflow_t usys) : Prop := {
  ru_ctx : wf_ctx wf = ctx;
  ru_steps : wf_steps wf = Some (update_steps rt)
}.

Lemma ran_keeps wf s0 n s1 :
  runs_update wf -> ran sk sv wf s0 n s1 ->
  keeps s0 s1 /\ (forall i, (i < n)%nat -> verdict i s0 = true) /\ ((0 < n)%nat -> checkpoint_taken s0).
Proof.
  intros [Hc Hs]. induction 1 as [|n st run s s1 _ (IHk & IHv & IHc) Hst Hrun Hr].
  - split; [done|]. split; intros; lia.
  - unfold wf_step in Hst. rewrite Hs in Hst. cbn [mbind option_bind] in Hst. rewrite Nat2Z.id in Hst.
    rewrite Hc in Hr. destruct (update_step_spec n st run _ _ _ Hst Hrun Hr) as (Hk & Hok & _).
    destruct (Hok eq_refl) as [Ht Hv].
    assert (Hk0 : keeps s0 (wf_emit sk sv (with_done (Z.of_nat n) wf) (Z.of_nat n) WF_EV_BEGIN 0 s)).
    { etransitivity; [exact IHk|]. apply keeps_emit. }
    split; [|split].
    + etransitivity; [exact Hk0|]. etransitivity; [exact Hk|]. apply keeps_emit.
    + intros i Hi. destruct (decide (i = n)) as [->|Hne]; [|apply IHv; lia].
      by rewrite <-(verdict_keeps n _ _ Hk0).
    + intros _. destruct n as [|n]; [|apply IHc; lia]. by apply (taken_keeps _ _ Hk0), Ht.
Qed.

Lemma undone_keeps wf n s evs b s' :
  runs_update wf -> undone sk sv wf n s evs b s' -> (n <= 4)%nat ->
  keeps s s' /\ (b = true -> u_backend s = None \/ removal_refused s).
Proof.
  intros [Hc Hs]. induction 1 as [s|n st s evs b s' Hst Hn _ IH|n st undo rv ev s s1 evs b s' Hst Hn Hr Hev _ IH];
    intros Hle; [by split|by apply IH; lia|].
  destruct IH as [IHk IHb]; [lia|].
  unfold wf_step in Hst. rewrite Hs in Hst. cbn [mbind option_bind] in Hst. rewrite Nat2Z.id in Hst.
  rewrite Hc in Hr. destruct (update_undo_spec n st undo s rv s1 Hst Hn Hr) as [Hk Hrv].
  assert (Hk1 : keeps s (emit_event sk sv s1 ev)) by (etransitivity; [exact Hk|apply keeps_event]).
  split; [etransitivity; [exact Hk1|exact IHk]|].
  intros [Hb|Hb]%orb_true_iff.
  - bools. apply Hrv; [done|]. destruct n as [|[|[|[|n]]]]; [done|cbn in Hst; by simplify_eq..|lia].
  - destruct (IHb Hb) as [Hx|Hx]; [left; by rewrite <-(kp_backend _ _ Hk1)|right; by eapply removal_keeps].
Qed.

(** What the two ways a run ends mean for the update. *)
Lemma update_run_spec wf s rv wf' s' :
  runs_update wf -> wf_step_count wf = 5 -> outcome sk sv wf s rv wf' s' ->
  keeps s s' /\
  ((rv = 0 /\ wf_status wf' = WF_STATUS_COMMITTED /\ checkpoint_taken s /\
     verdict 1 s = true /\ verdict 2 s = true /\ verdict 3 s = true) \/
   (rv = -1 /\ wf_status wf' <> WF_STATUS_COMMITTED /\
     (checkpoint_refused s \/ verdict 1 s = false \/ verdict 2 s = false \/ verdict 3 s = false) /\
     (wf_status wf' = WF_STATUS_FAILED -> removal_refused s))).
Proof.
  intros Hru Hcnt Ho. destruct Ho as [s1 Hran wf'|n st run rv s1 s2 evs b s3 Hn Hran Hsn Hrun Hrv wfn Hcall Hu].
  - destruct (ran_keeps _ _ _ _ Hru Hran) as (Hk & Hv & Ht).
    pose proof (keeps_emit wf (wf_step_count wf) WF_EV_BEGIN 0 s) as Hk0. rewrite Hcnt in Hv, Ht, Hk, Hk0.
    assert (Hks : keeps s s1) by (etransitivity; [exact Hk0|exact Hk]).
    split; [etransitivity; [exact Hks|apply keeps_emit]|]. left. split; [done|]. split; [done|].
    split; [apply (taken_keeps _ _ Hk0), Ht; lia|].
    split_and!; rewrite <-(verdict_keeps _ _ _ Hk0); apply Hv; lia.
  - destruct (ran_keeps _ _ _ _ Hru Hran) as (Hk & Hv & Ht).
    pose proof (keeps_emit wf (wf_step_count wf) WF_EV_BEGIN 0 s) as Hk0.
    assert (Hk1 : keeps s (wf_emit sk sv wfn (Z.of_nat n) WF_EV_BEGIN 0 s1)).
    { etransitivity; [exact Hk0|]. etransitivity; [exact Hk|]. apply keeps_emit. }
    unfold wf_step in Hsn. rewrite (ru_steps wf Hru) in Hsn. cbn [mbind option_bind] in Hsn. rewrite Nat2Z.id in Hsn.
    rewrite (ru_ctx wf Hru) in Hcall.
    destruct (update_step_spec n st run _ _ _ Hsn Hrun Hcall) as (Hk2 & _ & Hno).
    assert (Hk3 : keeps s (wf_emit sk sv wfn (Z.of_nat n) WF_EV_STEP_FAIL rv s2)).
    { etransitivity; [exact Hk1|]. etransitivity; [exact Hk2|]. apply keeps_emit. }
    rewrite Hcnt in Hn.
    assert (Hrub : runs_update (with_status WF_STATUS_ROLLING_BACK wfn)) by (destruct Hru; by split).
    destruct (undone_keeps _ _ _ _ _ _ Hrub Hu ltac:(lia)) as [Hk4 Hb].
    split; [etransitivity; [exact Hk3|]; etransitivity; [exact Hk4|apply keeps_event]|].
    right. split; [done|]. split; [by destruct b|]. split.
    + destruct (Hno Hrv) as [[-> Hre]|Hv0].
      * left. by apply (refused_keeps _ _ Hk1).
      * right. rewrite (verdict_keeps _ _ _ Hk1) in Hv0.
        destruct n as [|[|[|[|n]]]]; cbn in Hv0; try done; auto.
    + destruct b; [|done]. intros _. destruct (Hb eq_refl) as [Hx|Hx].
      * exfalso. rewrite (kp_backend _ _ Hk3) in Hx. destruct n as [|n].
        -- inversion Hu.
        -- destruct (taken_keeps _ _ Hk0 (Ht ltac:(lia))) as (ops & d & Hb' & _). congruence.
      * by eapply removal_keeps.
Qed.

(** A slot for the five steps. *)
Lemma update_begin tbl s slot tbl1 s1 :
  workflow_begin (Some (update_steps rt)) UPDATE_STEP_COUNT ctx tbl s = (slot, tbl1, s1) ->
  match slot with
  | None => tbl1 = tbl /\ s1 = s /\ Forall (fun wf => wf_status wf <> WF_STATUS_IDLE) tbl
  | Some i => exists wf, tbl1 = <[i := wf]> tbl /\ tbl1 !! i = Some wf /\
      wf_status <$> tbl !! i = Some WF_STATUS_IDLE /\ wf_ok wf /\ wf_status wf = WF_STATUS_RUNNING /\
      wf_done_count wf = 0 /\ runs_update wf /\ wf_step_count wf = 5 /\ exists j, s1 = set_journal j s
  end.
Proof.
  intros Hb. pose proof Hb as Hb'. unfold workflow_begin in Hb'.
  change ((UPDATE_STEP_COUNT =? 0) || (UPDATE_STEP_COUNT >? WORKFLOW_MAX_STEPS))%bool with false in Hb'.
  match type of Hb' with context [existsb ?f ?l] => change (existsb f l) with false in Hb' end.
  cbv iota in Hb'.
  destruct (findi _ tbl) as [i|] eqn:Ei.
  - destruct (generate_transaction_id _) as [id j]. injection Hb' as <- <- <-.
    destruct (workflow_begin_ok (update_steps rt) UPDATE_STEP_COUNT ctx tbl s i _ _ ltac:(unfold UPDATE_STEP_COUNT; cbn; lia) Hb)
      as (wf & Heq & Hok & Hst & Hd & Hidle).
    assert (Hi : (i < length tbl)%nat) by (by eapply findi_lt).
    pose proof (f_equal (fun l => l !! i) Heq) as Hwf. rewrite !list_lookup_insert_eq in Hwf by done.
    injection Hwf as Hwf. exists wf. rewrite Heq. split; [done|]. rewrite list_lookup_insert_eq by done.
    subst wf. split_and!; try done. by exists j.
  - injection Hb' as <- <- <-. split; [done|]. split; [done|]. apply findi_None in Ei.
    eapply Forall_impl; [exact Ei|]. cbv beta. intros wf Hwf. by bools.
Qed.
(** The state a status leaves, after code that keeps the rest. *)
Lemma status_after v s s1 :
  keeps s s1 ->
  us_tx (u_state ctx (set_u_status ctx v s1)) = us_tx (u_state ctx s) /\
  (forall c, c <> ctx -> u_states (set_u_status ctx v s1) !! c = u_states s !! c) /\
  us_status (u_state ctx (set_u_status ctx v s1)) = v /\
  us_error_count (u_state ctx (set_u_status ctx v s1)) = us_error_count (u_state ctx s).
Proof.
  intros Hk. pose proof (keeps_status v s1) as Hs.
  assert (keeps s (set_u_status ctx v s1)) as [] by (etransitivity; [exact Hk|exact Hs]).
  split_and!; try done. by rewrite u_status_set.
Qed.
Lemma failed_after s s1 :
  keeps s s1 ->
  let u := with_us_status UPDATE_STATUS_ERROR (u_state ctx s1) in
  let s2 := set_u_state ctx (with_errors (u32 (us_error_count u + 1)) u) s1 in
  us_tx (u_state ctx s2) = us_tx (u_state ctx s) /\
  (forall c, c <> ctx -> u_states s2 !! c = u_states s !! c) /\
  us_status (u_state ctx s2) = UPDATE_STATUS_ERROR /\
  us_error_count (u_state ctx s2) = u32 (us_error_count (u_state ctx s) + 1).
Proof.
  intros [] u s2. unfold s2. rewrite u_state_set. subst u. cbn. split_and!; try congruence.
  intros c Hc. rewrite lookup_insert_ne by done. auto.
Qed.
End Pipeline.

(** What a status left in the update's state says about the run, for an update
    of transaction [us_tx (u_state ctx s)] started from [s] and [tbl]. *)
Definition outcome_reported {D : Type} `{HasJournal D} (rt : regions) (ctx : Z) (tbl : list (workflow_t (usys D)))
    (s : usys D) (rv : Z) (tbl' : list (workflow_t (usys D))) (s' : usys D) : Prop :=
  us_tx (u_state ctx s') = us_tx (u_state ctx s) /\
  (forall c, c <> ctx -> u_states s' !! c = u_states s !! c) /\
  let status := us_status (u_state ctx s') in
  let errors := us_error_count (u_state ctx s) in
  let errors' := us_error_count (u_state ctx s') in
  let fits := tx_size (us_tx (u_state ctx s)) <= MAX_UPDATE_SIZE in
  let checks := verdict rt ctx 1 s = true /\ verdict rt ctx 2 s = true /\ verdict rt ctx 3 s = true in
  ((rv = 0 /\ status = UPDATE_STATUS_COMPLETE /\ errors' = errors /\ fits /\ checkpoint_taken ctx s /\ checks /\
      exists i, wf_status <$> tbl !! i = Some WF_STATUS_IDLE /\ tbl' = <[i := wf_zero]> tbl) \/
   (rv = -1 /\ status = UPDATE_STATUS_ROLLBACK /\ errors' = errors /\ fits /\ (checkpoint_refused ctx s \/ ~ checks) /\
      exists i, wf_status <$> tbl !! i = Some WF_STATUS_IDLE /\ tbl' = <[i := wf_zero]> tbl) \/
   (rv = -1 /\ status = UPDATE_STATUS_ERROR /\ errors' = errors /\ tbl' = tbl /\ u_store s' = u_store s /\
      (~ fits \/ Forall (fun wf => wf_status wf <> WF_STATUS_IDLE) tbl)) \/
   (rv = -1 /\ status = UPDATE_STATUS_ERROR /\ errors' = u32 (errors + 1) /\ fits /\ removal_refused ctx s /\
      exists i wf, wf_status <$> tbl !! i = Some WF_STATUS_IDLE /\ tbl' = <[i := wf]> tbl /\
        wf_status wf = WF_STATUS_FAILED)).

Lemma apply_checked_reports {D : Type} `{HasJournal D} (rt : regions) (sk sv : list Z) (ctx : Z)
    (tbl : list (workflow_t (usys D))) (s : usys D) :
  exists rv tbl' s', apply_checked rt sk sv ctx tbl s = Some (rv, tbl', s') /\
    outcome_reported rt ctx tbl s rv tbl' s'.
Proof.
  unfold apply_checked, outcome_reported. destruct (_ >? _) eqn:Esz; bools.
  { do 3 eexists. split; [reflexivity|].
    destruct (status_after ctx UPDATE_STATUS_ERROR s s ltac:(done)) as (Htx & Hoth & Hst & Herr).
    do 2 (split; [done|]). right; right; left. split_and!; try done. left. lia. }
  destruct (workflow_begin _ _ _ _ _) as [[[i|] tbl1] s1] eqn:Eb; cbv beta iota zeta.
  all: pose proof (update_begin rt ctx _ _ _ _ _ Eb) as Hb.
  2: { destruct Hb as (-> & -> & Hfull). do 3 eexists. split; [reflexivity|].
    destruct (status_after ctx UPDATE_STATUS_ERROR s s ltac:(done)) as (Htx & Hoth & Hst & Herr).
    do 2 (split; [done|]). right; right; left. split_and!; try done. by right. }
  destruct Hb as (wf & -> & Hwf & Hidle & Hok & Hst & Hd & Hru & Hcnt & j & Hs1).
  pose proof (keeps_journal ctx j s) as Hk1. rewrite <-Hs1 in Hk1. clear Hs1.
  unfold workflow_run_slot. rewrite Hwf. cbn [mbind option_bind].
  destruct (workflow_run_outcome sk sv wf s1 Hok Hst Hd) as (rv & wf' & s2 & -> & Ho). cbn [mbind option_bind].
  apply (update_run_spec rt sk sv ctx _ _ _ _ _ Hru Hcnt) in Ho as [Hk2 Hcase].
  assert (Hk : keeps ctx s s2) by (etransitivity; [exact Hk1|exact Hk2]).
  rewrite list_insert_insert_eq, !(verdict_keeps rt ctx _ _ _ Hk1) in *.
  destruct Hcase as [(-> & Hc & Ht & Hv)|(-> & Hnc & Hno & Hf)]; cbn [Z.eqb].
  - set (s3 := match u_backend s2 with Some _ => _ | None => _ end).
    assert (Hk3 : keeps ctx s s3).
    { etransitivity; [exact Hk|]. unfold s3. destruct (u_backend s2); [apply keeps_store|done]. }
    destruct (status_after ctx UPDATE_STATUS_COMPLETE s s3 Hk3) as (Htx & Hoth & Hst' & Herr).
    do 3 eexists. split; [reflexivity|]. do 2 (split; [done|]). left. do 4 (split; [done || lia|]).
    split; [by apply (taken_keeps ctx _ _ Hk1)|]. split; [done|].
    exists i. split; [done|]. cbn [workflow_release]. by rewrite list_insert_insert_eq.
  - assert (Hi : (i < length tbl)%nat) by (destruct (tbl !! i) eqn:E; [by eapply lookup_lt_Some|done]).
    rewrite list_lookup_insert_eq by done. cbn [mbind option_bind].
    destruct (wf_status wf' =? WF_STATUS_FAILED) eqn:Ef; bools; do 3 eexists; (split; [reflexivity|]).
    + destruct (failed_after ctx s s2 Hk) as (Htx & Hoth & Hst' & Herr). do 2 (split; [done|]).
      right; right; right. split_and!; try done; [by apply (removal_keeps ctx _ _ Hk1), Hf|by exists i, wf'].
    + destruct (status_after ctx UPDATE_STATUS_ROLLBACK s s2 Hk) as (Htx & Hoth & Hst' & Herr). do 2 (split; [done|]).
      right; left. do 4 (split; [done || lia|]). split.
      { destruct Hno as [Hr|Hno]; [left; by apply (refused_keeps ctx _ _ Hk1)|right].
        intros (H1 & H2 & H3). destruct Hno as [|[|]]; congruence. }
      exists i. split; [done|]. cbn [workflow_release]. by rewrite list_insert_insert_eq.
Qed.

(** ** Enough transaction ids

    Each callback logs at most one transaction, so twelve ids are enough for
    a whole update, and then [generate_transaction_id] does not halt. *)

Record sparing {D : Type} `{HasJournal D} (ops : storage_ops_t D) : Prop := {
  sp_create n src dst d : 0 <= n -> ids_left (n + 1) (journal_of d) ->
    ids_left n (journal_of (so_create_checkpoint _ ops src dst d).2);
  sp_restore n src dst d : 0 <= n -> ids_left (n + 1) (journal_of d) ->
    ids_left n (journal_of (so_restore_checkpoint _ ops src dst d).2);
  sp_remove n key d : 0 <= n -> ids_left (n + 1) (journal_of d) ->
    ids_left n (journal_of (so_remove_checkpoint _ ops key d).2)
}.

Section Ids.
Context {D : Type} `{JournalLaws D} (rt : regions) (sk sv : list Z) (ctx : Z).
Abbreviation usys := (usys D).

(** [n] ids left, and a backend, if any, that takes one per call. *)
Definition spare (n : Z) (s : usys) : Prop :=
  ids_left n (journal_of s) /\ forall ops, u_backend s = Some ops -> sparing ops.

Lemma spare_mono m n s : m <= n -> spare n s -> spare m s.
Proof. unfold spare, ids_left. intros ? ([? ?] & ?). split_and!; [done|lia|done]. Qed.
Lemma spare_emit n wf i e rv s : spare n (wf_emit sk sv wf i e rv s) <-> spare n s.
Proof.
  unfold spare, wf_emit. cbn [journal_of usys_journal set_journal u_store u_backend]. rewrite journal_of_set.
  unfold journal_event. unfold ids_left at 1. cbn [with_journal_auditor j_halted j_next_id].
  by rewrite <-(journal_transaction_ids_left n (wf_entry sk sv wf i e) (journal_of (u_store s))).
Qed.
Lemma spare_event n e s : spare n (emit_event sk sv s e) <-> spare n s.
Proof. apply spare_emit. Qed.

(** What [install_update] insists on. *)
Definition installable (s : usys) : Prop :=
  let t := us_tx (u_state ctx s) in install_update (tx_path t) (tx_image t) = Some 0.

Lemma verdicts_installable s : verdict rt ctx 2 s = true -> verdict rt ctx 3 s = true -> installable s.
Proof.
  unfold verdict, installable, install_update, staged_ok, sandbox_apply, run_tests. intros H2 H3.
  destruct (tx_path _); [|done]. by destruct (_ || _)%bool.
Qed.

Lemma spare_step n i st run s :
  0 <= n -> (i = 4%nat -> installable s) -> update_steps rt !! i = Some st -> st_run st = Some run -> spare (n + 1) s -> spare n (run ctx s).2.
Proof.
  intros Hn Hins Hi Hrun Hs. pose proof (spare_mono n (n + 1) s ltac:(lia) Hs) as Hs'.
  destruct i as [|[|[|[|[|i]]]]]; cbn in Hi; simplify_eq/=; try exact Hs'.
  - unfold step_checkpoint. change (u_backend (set_u_status ctx UPDATE_STATUS_CHECKPOINT s)) with (u_backend s).
    destruct (u_backend s) as [ops|] eqn:Eb; [|exact Hs'].
    destruct Hs as [Hl Hb]. pose proof (sp_create ops (Hb ops Eb) n (tx_path (us_tx (u_state ctx (set_u_status ctx UPDATE_STATUS_CHECKPOINT s))))
      (checkpoint_name (u_state ctx (set_u_status ctx UPDATE_STATUS_CHECKPOINT s)) (set_u_status ctx UPDATE_STATUS_CHECKPOINT s)) (u_store s) Hn Hl) as Hc.
    cbv zeta. change (u_store (set_u_status ctx UPDATE_STATUS_CHECKPOINT s)) with (u_store s).
    destruct (so_create_checkpoint _ _ _ _ _) as [r d]. by split.
  - unfold step_sandbox. destruct (sandbox_apply _ _). exact Hs'.
  - unfold step_install. specialize (Hins eq_refl). unfold installable in Hins.
    rewrite (kp_tx ctx _ _ (keeps_status ctx UPDATE_STATUS_COMMIT s)), Hins. exact Hs'.
Qed.

(** The step after [n] completed ones may install if it is the last. *)
Lemma ran_installable wf n s0 s1 e j :
  runs_update rt ctx wf -> ran sk sv wf s0 n s1 -> n = 4%nat ->
  installable (wf_emit sk sv (with_done e wf) j WF_EV_BEGIN 0 s1).
Proof.
  intros Hru Hran ->. destruct (ran_keeps rt sk sv ctx _ _ _ _ Hru Hran) as (Hk & Hv & _).
  apply verdicts_installable; rewrite (verdict_keeps rt ctx _ _ _ (keeps_emit sk sv ctx _ _ _ _ _)), (verdict_keeps rt ctx _ _ _ Hk); apply Hv; lia.
Qed.

Lemma spare_undo n i st undo s :
  0 <= n -> update_steps rt !! i = Some st -> st_undo st = Some undo -> spare (n + 1) s -> spare n (undo ctx s).2.
Proof.
  intros Hn Hi Hundo Hs. pose proof (spare_mono n (n + 1) s ltac:(lia) Hs) as Hs'. destruct Hs as [Hl Hb].
  destruct i as [|[|[|[|[|i]]]]]; cbn in Hi; simplify_eq/=.
  - unfold undo_remove_checkpoint. destruct (u_backend s) as [ops|] eqn:Eb; [|exact Hs'].
    pose proof (sp_remove ops (Hb ops eq_refl) n (checkpoint_name (u_state ctx s) s) (u_store s) Hn Hl) as Hc.
    destruct (so_remove_checkpoint _ _ _ _) as [r d]. split; [done|]. cbn. by rewrite Eb.
  - unfold undo_restore_checkpoint. destruct (u_backend s) as [ops|] eqn:Eb; [|exact Hs'].
    pose proof (sp_restore ops (Hb ops eq_refl) n (checkpoint_name (u_state ctx s) s) (tx_path (us_tx (u_state ctx s))) (u_store s) Hn Hl) as Hc.
    destruct (so_restore_checkpoint _ _ _ _ _) as [r d]. split; [done|]. cbn. by rewrite Eb.
Qed.

Lemma spare_ran wf n m s0 s1 :
  runs_update rt ctx wf -> 0 <= m -> ran sk sv wf s0 n s1 -> spare (m + Z.of_nat n) s0 -> spare m s1.
Proof.
  intros [Hc Hs] Hm Hran. revert m Hm. induction Hran as [|n st run s s1 Hran IH Hst Hrun Hr]; intros m Hm Hsp.
  - by rewrite Z.add_0_r in Hsp.
  - unfold wf_step in Hst. rewrite Hs in Hst. cbn [mbind option_bind] in Hst. rewrite Nat2Z.id in Hst. rewrite Hc in Hr.
    rewrite spare_emit. replace s1 with (0, s1).2 by done. rewrite <-Hr.
    eapply spare_step; [done| |done..|].
    { apply (ran_installable wf n s0 s); [by split|done]. }
    rewrite spare_emit. apply IH; [lia|]. eapply spare_mono; [|exact Hsp]. lia.
Qed.

Lemma spare_undone wf n m s evs b s' :
  runs_update rt ctx wf -> 0 <= m -> undone sk sv wf n s evs b s' -> spare (m + Z.of_nat n) s -> spare m s'.
Proof.
  intros [Hc Hs] Hm. induction 1 as [s|n st s evs b s' Hst Hn _ IH|n st undo rv ev s s1 evs b s' Hst Hn Hr Hev _ IH]; intros Hsp.
  - by rewrite Z.add_0_r in Hsp.
  - apply IH. eapply spare_mono; [|exact Hsp]. lia.
  - apply IH. rewrite spare_event. replace s1 with (rv, s1).2 by done. rewrite Hc in Hr. rewrite <-Hr.
    unfold wf_step in Hst. rewrite Hs in Hst. cbn [mbind option_bind] in Hst. rewrite Nat2Z.id in Hst.
    eapply spare_undo; [lia|done..|]. eapply spare_mono; [|exact Hsp]. lia.
Qed.

Lemma spare_outcome wf s rv wf' s' :
  runs_update rt ctx wf -> wf_step_count wf = 5 -> outcome sk sv wf s rv wf' s' -> spare 11 s -> spare 1 s'.
Proof.
  intros Hru Hcnt Ho Hsp. destruct Ho as [s1 Hran wf'|n st run rv s1 s2 evs b s3 Hn Hran Hsn Hrun Hrv wfn Hcall Hu].
  - apply spare_emit. refine (spare_ran wf _ 1 _ _ Hru _ Hran _); [lia|]. rewrite Hcnt, spare_emit.
    eapply spare_mono; [|exact Hsp]. lia.
  - apply spare_event. assert (Hrub : runs_update rt ctx (with_status WF_STATUS_ROLLING_BACK wfn)) by (destruct Hru; by split).
    refine (spare_undone _ _ 1 _ _ _ _ Hrub _ Hu _); [lia|]. rewrite spare_emit.
    replace s2 with (rv, s2).2 by done. rewrite <-Hcall. unfold wf_step in Hsn.
    rewrite (ru_steps _ _ wf Hru) in Hsn. cbn [mbind option_bind] in Hsn. rewrite Nat2Z.id in Hsn. rewrite (ru_ctx _ _ wf Hru).
    eapply spare_step; [lia| |exact Hsn|exact Hrun|].
    { exact (ran_installable wf n _ _ _ _ Hru Hran). }
    rewrite spare_emit.
    refine (spare_ran wf n _ _ _ Hru _ Hran _); [lia|]. rewrite spare_emit. eapply spare_mono; [|exact Hsp]. lia.
Qed.

Lemma spare_begin n steps count tbl s slot tbl1 s1 :
  0 <= n -> workflow_begin steps count ctx tbl s = (slot, tbl1, s1) -> spare (n + 1) s -> spare n s1.
Proof.
  intros Hn Hb Hs. pose proof (spare_mono n (n + 1) s ltac:(lia) Hs) as Hs'. unfold workflow_begin in Hb.
  destruct steps as [l|]; [|by simplify_eq]. destruct (_ || _)%bool; [by simplify_eq|].
  destruct (existsb _ _); [by simplify_eq|]. destruct (findi _ _) as [i|]; [|by simplify_eq].
  pose proof (generate_ids_left n (journal_of s) Hn (proj1 Hs)) as Hg.
  destruct (generate_transaction_id _) as [id j]. injection Hb as _ _ <-. destruct Hs as [_ Hb]. split; [|exact Hb].
  cbn [journal_of usys_journal set_journal u_store]. by rewrite journal_of_set.
Qed.

Lemma spare_checked tbl s rv tbl' s' :
  apply_checked rt sk sv ctx tbl s = Some (rv, tbl', s') -> spare 12 s -> spare 0 s'.
Proof.
  intros Hc Hs. pose proof (spare_mono 0 12 s ltac:(lia) Hs) as Hs0. unfold apply_checked in Hc.
  destruct (_ >? _); [by injection Hc as _ _ <-|].
  destruct (workflow_begin _ _ _ _ _) as [[[i|] tbl1] s1] eqn:Eb; cbv beta iota zeta in Hc.
  all: pose proof (update_begin rt ctx _ _ _ _ _ Eb) as Hb.
  2: { destruct Hb as (_ & -> & _). by injection Hc as _ _ <-. }
  destruct Hb as (wf & -> & Hwf & _ & Hok & Hst & Hd & Hru & Hcnt & _).
  pose proof (spare_begin 11 _ _ _ _ _ _ _ ltac:(lia) Eb Hs) as Hs1. unfold workflow_run_slot in Hc. rewrite Hwf in Hc. cbn [mbind option_bind] in Hc.
  destruct (workflow_run_outcome sk sv wf s1 Hok Hst Hd) as (rv1 & wf' & s2 & Hrun & Ho). rewrite Hrun in Hc. cbn [mbind option_bind] in Hc.
  pose proof (spare_outcome _ _ _ _ _ Hru Hcnt Ho Hs1) as Ho1. clear Ho. rename Ho1 into Ho. pose proof (spare_mono 0 1 s2 ltac:(lia) Ho) as Ho'.
  destruct (rv1 =? 0); [injection Hc as _ _ <-|].
  - destruct (u_backend s2) as [ops|] eqn:Eo; [|exact Ho']. destruct Ho as [Hl Hb].
    split; [|exact Hb].
    exact (sp_remove ops (Hb ops Eo) 0 (checkpoint_name (u_state ctx s2) s2) (u_store s2) ltac:(lia) Hl).
  - destruct (_ !! i) as [w|]; cbn [mbind option_bind] in Hc; [|done].
    destruct (_ =? _); by injection Hc as _ _ <-.
Qed.

(** With ids to spare the machine does not halt. *)
Lemma apply_update_returns tbl s :
  pointers_ok ctx s = true -> spare 12 s -> apply_update rt sk sv ctx tbl s = apply_checked rt sk sv ctx tbl s.
Proof.
  intros Hp Hs. unfold apply_update. rewrite Hp. cbn [negb].
  destruct (apply_checked rt sk sv ctx tbl s) as [[[rv tbl'] s']|] eqn:Hc; cbn [mbind option_bind]; [|done].
  destruct (spare_checked _ _ _ _ _ Hc Hs) as [[Hh _] _]. by rewrite Hh.
Qed.
End Ids.

(** The in-memory backend logs once per call, or not at all. *)
Lemma log_op_ids_left n sk sv op a b s :
  0 <= n -> ids_left (n + 1) (s_journal s) -> ids_left n (s_journal (log_op sk sv op a b s)).
Proof.
  intros Hn Hl. unfold log_op. pose proof (generate_ids_left n (s_journal s) Hn Hl) as Hg.
  destruct (generate_transaction_id _) as [id j]. by apply journal_transaction_ids_left.
Qed.

Lemma memory_ops_sparing rt slot_data sk sv : sparing (memory_storage_ops rt slot_data sk sv).
Proof.
  assert (Hmono : forall n j, ids_left (n + 1) j -> ids_left n j) by (intros n j [? ?]; split; [done|lia]).
  split; intros n; intros; cbn [memory_storage_ops so_create_checkpoint so_restore_checkpoint so_remove_checkpoint];
    unfold create_checkpoint, restore_checkpoint, remove_checkpoint;
    repeat case_match; simplify_eq/=; try (apply log_op_ids_left; [done|]); auto.
Qed.

(** C34: what an update's status tells.  A NULL state, path or image stops
    the machine in an assert.  Otherwise, with twelve transaction ids left
    and a backend that takes at most one per call, [apply_update] returns;
    and whenever it returns it has left the transaction and every other
    update alone, and:
    COMPLETE with result 0 means that the image fits, the checkpoint was
    taken, the hash and the staged format were accepted and the tests passed,
    and the slot is free again.  ROLLBACK means one of those four said no and
    the slot is free again.  ERROR means the image is too large or no slot
    was free, and nothing was run; or that the backend refused to remove the
    checkpoint on the way back, and then the slot stays claimed, FAILED, and
    the error count has gone up. *)
Theorem update_outcomes {D : Type} `{JournalLaws D} (rt : regions) (sk sv : list Z) (ctx : Z)
    (tbl : list (workflow_t (usys D))) (s : usys D) :
  (pointers_ok ctx s = false -> apply_update rt sk sv ctx tbl s = None) /\
  (pointers_ok ctx s = true -> spare 12 s -> is_Some (apply_update rt sk sv ctx tbl s)) /\
  (forall rv tbl' s', apply_update rt sk sv ctx tbl s = Some (rv, tbl', s') ->
     outcome_reported rt ctx tbl s rv tbl' s').
Proof.
  destruct (apply_checked_reports rt sk sv ctx tbl s) as (rv & tbl' & s' & Hc & Hr). split_and!.
  - intros Hp. unfold apply_update. by rewrite Hp.
  - intros Hp Hs. rewrite apply_update_returns, Hc by done. by eexists.
  - unfold apply_update. rewrite Hc. destruct (negb _); [done|]. cbn [mbind option_bind].
    destruct (j_halted _); [done|]. by intros ? ? ? [= <- <- <-].
Qed.

(** ** The checkpoint's name *)

Lemma decimal_digits_length k n acc : (length acc <= length (decimal_digits k n acc))%nat.
Proof.
  revert n acc. induction k as [|k IH]; intros n acc; cbn [decimal_digits]; [lia|]. cbv zeta.
  destruct (_ =? _); [cbn; lia|]. etransitivity; [|apply IH]. cbn. lia.
Qed.
Lemma decimal_digits_more k n acc : (length acc < length (decimal_digits (S k) n acc))%nat.
Proof.
  cbn [decimal_digits]. cbv zeta. destruct (_ =? _); [cbn; lia|].
  pose proof (decimal_digits_length k (n / 10) (48 + n mod 10 :: acc)) as Hl. cbn [length] in Hl. lia.
Qed.
Lemma decimal_digits_nonzero k n acc :
  0 <= n -> Forall (fun c => c <> 0) acc -> Forall (fun c => c <> 0) (decimal_digits k n acc).
Proof.
  revert n acc. induction k as [|k IH]; intros n acc Hn Ha; cbn [decimal_digits]; [done|]. cbv zeta.
  assert (Forall (fun c => c <> 0) (48 + n mod 10 :: acc)) by (constructor; [lia|done]).
  destruct (_ =? _); [done|]. apply IH; [lia|done].
Qed.

Lemma checkpoint_path_ok path id :
  Forall (fun c => c <> 0) path ->
  Forall (fun c => c <> 0) (checkpoint_path path id) /\
  ((51 <= length path)%nat -> (KEY_SIZE <= length (checkpoint_path path id))%nat).
Proof.
  intros Hp. pose proof (u32_range id) as Hid. unfold checkpoint_path. split.
  - apply Forall_take, Forall_app. split; [by apply Forall_take|]. apply Forall_app. split.
    + apply (bool_decide_eq_true_1 (Forall (fun c => c <> 0) (chars ".checkpoint-"%string))). reflexivity.
    + unfold decimal. apply decimal_digits_nonzero; [lia|constructor].
  - intros Hl. rewrite length_take, !length_app, length_take.
    change (length (chars ".checkpoint-"%string)) with 12%nat.
    pose proof (decimal_digits_more 9 (u32 id) []) as Hd. unfold decimal. cbn [length] in Hd.
    unfold KEY_SIZE. lia.
Qed.

Lemma create_long_key rt slot_data sk sv s src key :
  slots_wf (s_slots s) -> Forall (fun c => c <> 0) key -> (KEY_SIZE <= length key)%nat ->
  (create_checkpoint rt slot_data sk sv src (Some key) s).1 <> 0.
Proof.
  intros Hw Hk Hl. destruct src as [src|]; [|done].
  pose proof (create_directory rt slot_data sk sv s src key Hw Hk) as Hd.
  destruct (create_checkpoint _ _ _ _ _ _ _) as [rv s']. destruct Hd as (_ & Hiff & _). cbn. intros Hrv.
  apply Hiff in Hrv as [_ [[i (c & Hc & Hu & Hck)]|[_ Hlt]]]; [|lia].
  destruct (sw_keys _ Hw i c Hc Hu) as [_ Hlt]. rewrite Hck in Hlt. lia.
Qed.

(** The first step runs on the starting state, up to its journal. *)
Lemma ran_first {D} `{HasJournal D} rt sk sv ctx wf (s0 s1 : usys D) n :
  runs_update rt ctx wf -> ran sk sv wf s0 n s1 -> (0 < n)%nat ->
  exists j s', step_checkpoint ctx (set_journal j s0) = (0, s').
Proof.
  intros [Hc Hs]. induction 1 as [|n st run s s1 Hran IH Hst Hrun Hr]; [lia|]. intros _.
  destruct n as [|n]; [|apply IH; lia]. inversion Hran; subst.
  unfold wf_step in Hst. rewrite Hs in Hst. cbn in Hst. injection Hst as <-. cbn in Hrun. injection Hrun as <-.
  do 2 eexists. exact Hr.
Qed.

(** The in-memory store takes no long name. *)
Lemma step_checkpoint_long_key rt slot_data sk sv ctx (s : usys store) name s' :
  u_backend s = Some (memory_storage_ops rt slot_data sk sv) ->
  Forall (fun c => c <> 0) name -> (KEY_SIZE <= length name)%nat ->
  slots_wf (s_slots (u_store s)) -> checkpoint_name (u_state ctx s) s = Some name ->
  step_checkpoint ctx s <> (0, s').
Proof.
  intros Hops Hnz Hlong Hw Hname. unfold step_checkpoint.
  pose proof (keeps_status ctx UPDATE_STATUS_CHECKPOINT s) as Hk.
  rewrite (checkpoint_name_keeps _ _ _ Hk), (kp_tx _ _ _ Hk), (kp_backend _ _ _ Hk), Hops, Hname.
  cbn [so_create_checkpoint memory_storage_ops u_store set_u_status set_u_state].
  pose proof (create_long_key rt slot_data sk sv (u_store s) (tx_path (us_tx (u_state ctx s))) name Hw Hnz Hlong) as Hc.
  destruct (create_checkpoint _ _ _ _ _ _ _) as [r d]. cbn in Hc.
  rewrite (proj2 (Z.eqb_neq r 0)) by done. by cbn [negb].
Qed.

Lemma init_prepares {D} `{HasJournal D} ctx type path image hash (s s1 : usys D) rv :
  init_update_transaction ctx type (Some path) image hash s = Some (rv, s1) ->
  prepare_update ctx type path image hash s = (rv, s1) /\ ctx <> 0 /\ bf_at image <> 0.
Proof.
  unfold init_update_transaction. intros Hi. destruct (ctx =? 0) eqn:Ec; [done|].
  destruct (bf_at image =? 0) eqn:Eb; [done|]. destruct (prepare_update _ _ _ _ _ _) as [r s'].
  destruct (j_halted _); [done|]. bools. by injection Hi as -> ->.
Qed.

(** Two updates in flight share one checkpoint name.
    [init_update_transaction] leaves its checkpoint's name in a static
    buffer, so preparing a second update renames the first one's checkpoint
    to the second one's. *)
Theorem checkpoint_names_alias {D : Type} `{HasJournal D} (s s1 s2 : usys D) (ctx1 ctx2 type1 type2 : Z)
    (path1 path2 : list Z) (image1 image2 : buffer) (hash1 hash2 rv1 rv2 : Z) :
  ctx1 <> ctx2 ->
  init_update_transaction ctx1 type1 (Some path1) image1 hash1 s = Some (rv1, s1) ->
  init_update_transaction ctx2 type2 (Some path2) image2 hash2 s1 = Some (rv2, s2) ->
  let name ctx s := checkpoint_name (u_state ctx s) s in
  rv1 = 0 /\ rv2 = 0 /\
  name ctx1 s1 = Some (checkpoint_path path1 (us_transaction_id (u_state ctx1 s1))) /\
  name ctx2 s2 = Some (checkpoint_path path2 (us_transaction_id (u_state ctx2 s2))) /\
  us_tx (u_state ctx1 s2) = us_tx (u_state ctx1 s1) /\ name ctx1 s2 = name ctx2 s2.
Proof.
  intros Hne H1 H2. apply init_prepares in H1 as [H1 _], H2 as [H2 _]. unfold prepare_update in H1, H2.
  destruct (generate_transaction_id (journal_of s)) as [id1 j1]. injection H1 as <- <-.
  destruct (generate_transaction_id _) as [id2 j2]. injection H2 as <- <-.
  unfold checkpoint_name, u_state. cbn [u_states set_u_state u_checkpoint set_journal usys_journal u_backend].
  rewrite !lookup_insert_eq, !(lookup_insert_ne _ ctx2 ctx1), !lookup_insert_eq by done. by split_and!.
Qed.

(** The step that fails. *)
Lemma long_path_checked (rt : regions) (slot_data : nat -> Z) (sk sv : list Z) (ctx type : Z)
    (path : list Z) (image : buffer) (hash : Z) (tbl : list (workflow_t (usys store))) (s : usys store) :
  u_backend s = Some (memory_storage_ops rt slot_data sk sv) -> slots_wf (s_slots (u_store s)) ->
  Forall (fun c => c <> 0) path -> (51 <= length path)%nat ->
  let '(rv, s1) := prepare_update ctx type path image hash s in
  rv = 0 /\
  exists tbl' s2, apply_checked rt sk sv ctx tbl s1 = Some (-1, tbl', s2) /\
    us_status (u_state ctx s2) <> UPDATE_STATUS_COMPLETE.
Proof.
  intros Hops Hw Hp Hlen. destruct (prepare_update _ _ _ _ _ _) as [rv s1] eqn:Ei.
  unfold prepare_update in Ei. destruct (generate_transaction_id _) as [id j]. injection Ei as <- Es.
  split; [done|]. destruct (checkpoint_path_ok path id Hp) as [Hnz Hlong]. specialize (Hlong Hlen).
  unfold apply_checked. destruct (_ >? _).
  { do 2 eexists. split; [reflexivity|]. by rewrite (u_status_set ctx). }
  destruct (workflow_begin _ _ _ _ _) as [[slot tbl1] s2] eqn:Eb. cbv beta iota zeta.
  pose proof (update_begin rt ctx _ _ _ _ _ Eb) as Hb. destruct slot as [i|].
  2: { do 2 eexists. split; [reflexivity|]. by rewrite (u_status_set ctx). }
  destruct Hb as (wf & -> & Hwf & Hidle & Hok & Hst & Hd & Hru & Hcnt & j' & ->).
  unfold workflow_run_slot. rewrite Hwf. cbn [mbind option_bind].
  destruct (workflow_run_outcome sk sv wf (set_journal j' s1) Hok Hst Hd) as (rv & wf' & s2 & -> & Ho).
  cbn [mbind option_bind]. destruct Ho as [s3 Hran wf'|n st run rv s3 s4 evs b s5 _ _ _ _ _ wfn _ _].
  - exfalso. destruct (ran_first rt sk sv ctx wf _ _ _ Hru Hran ltac:(lia)) as (j2 & s4 & Hstep).
    refine (step_checkpoint_long_key rt slot_data sk sv ctx _ (checkpoint_path path id) _ _ Hnz Hlong _ _ Hstep);
      subst s1; [exact Hops|exact Hw|].
    unfold checkpoint_name, u_state. cbn [u_states set_u_state set_journal usys_journal wf_emit].
    by rewrite lookup_insert_eq.
  - rewrite list_insert_insert_eq, list_lookup_insert_eq by (destruct (tbl !! i) eqn:E; [by eapply lookup_lt_Some|done]).
    cbn [Z.eqb mbind option_bind]. destruct (wf_status (unwound wfn b) =? WF_STATUS_FAILED).
    + do 2 eexists. split; [reflexivity|]. by rewrite (u_state_set ctx).
    + do 2 eexists. split; [reflexivity|]. by rewrite (u_status_set ctx).
Qed.

(** An update with a long path is accepted and can never be applied.
    [init_update_transaction] takes up to 200 characters of the path into
    the checkpoint's name, but the in-memory store takes no name of 64
    characters or more: from 51 characters on, the checkpoint step fails and
    [apply_update] does not complete. *)
Theorem long_path_updates_fail (rt : regions) (slot_data : nat -> Z) (sk sv : list Z) (ctx type : Z)
    (path : list Z) (image : buffer) (hash : Z) (tbl : list (workflow_t (usys store))) (s : usys store) :
  u_backend s = Some (memory_storage_ops rt slot_data sk sv) -> slots_wf (s_slots (u_store s)) ->
  Forall (fun c => c <> 0) path -> (51 <= length path)%nat ->
  ctx <> 0 -> bf_at image <> 0 -> ids_left 13 (s_journal (u_store s)) ->
  exists s1 tbl' s2, init_update_transaction ctx type (Some path) image hash s = Some (0, s1) /\
    apply_update rt sk sv ctx tbl s1 = Some (-1, tbl', s2) /\
    us_status (u_state ctx s2) <> UPDATE_STATUS_COMPLETE.
Proof.
  intros Hops Hw Hp Hlen Hc Hi Hl.
  pose proof (long_path_checked rt slot_data sk sv ctx type path image hash tbl s Hops Hw Hp Hlen) as H.
  unfold init_update_transaction. rewrite (proj2 (Z.eqb_neq _ _) Hc), (proj2 (Z.eqb_neq _ _) Hi).
  destruct (prepare_update _ _ _ _ _ _) as [rv s1] eqn:Ei. destruct H as (-> & tbl' & s2 & Ha & Hst).
  exists s1, tbl', s2. unfold prepare_update in Ei.
  pose proof (generate_ids_left 12 (journal_of s) ltac:(lia) Hl) as Hg.
  destruct (generate_transaction_id _) as [id j]. injection Ei as <-.
  split; [cbn in *; by rewrite (proj1 Hg)|]. split; [|done]. rewrite <-Ha. apply apply_update_returns.
  - unfold pointers_ok, u_state. cbn [u_states set_u_state]. rewrite lookup_insert_eq. cbn.
    by rewrite (proj2 (Z.eqb_neq _ _) Hc), (proj2 (Z.eqb_neq _ _) Hi).
  - split; [exact Hg|]. cbn. rewrite Hops. intros ops [= <-]. apply memory_ops_sparing.
Qed.

(** ** A system with the in-memory backend and no update prepared *)
Definition demo_usys : usys store :=
  Usys ∅ [] [] (Some (memory_storage_ops demo_policy demo_slot_data [0] [0])) demo_store.
Definition demo_table : list (workflow_t (usys store)) := replicate 4 wf_zero.

Definition demo_init (ctx : Z) (path : list Z) (image : buffer) (s : usys store) : usys store :=
  default s (snd <$> init_update_transaction ctx 0 (Some path) image 0 s).

Lemma demo_init_ok ctx path image s :
  match init_update_transaction ctx 0 (Some path) image 0 s with Some (rv, _) => rv =? 0 | None => false end = true ->
  init_update_transaction ctx 0 (Some path) image 0 s = Some (0, demo_init ctx path image s).
Proof.
  unfold demo_init. destruct (init_update_transaction _ _ _ _ _ _) as [[rv s1]|]; [|done]. intros Hr. bools. by subst.
Qed.

Example checkpoint_names_alias_witness :
  let s1 := demo_init 1 [97] (Buf 4096 []) demo_usys in
  let s2 := demo_init 2 [98] (Buf 8192 []) s1 in
  checkpoint_name (u_state 1 s2) s2 = Some ([98] ++ chars ".checkpoint-2"%string).
Proof.
  cbv zeta.
  pose proof (demo_init_ok 1 [97] (Buf 4096 []) demo_usys ltac:(vm_compute; reflexivity)) as H1.
  pose proof (demo_init_ok 2 [98] (Buf 8192 []) (demo_init 1 [97] (Buf 4096 []) demo_usys) ltac:(vm_compute; reflexivity)) as H2.
  pose proof (checkpoint_names_alias _ _ _ 1 2 _ _ _ _ _ _ _ _ _ _ ltac:(discriminate) H1 H2) as (_ & _ & _ & Hn & _ & Heq).
  cbv beta in Heq. rewrite Heq, Hn. vm_compute. reflexivity.
Defined.

Example long_path_updates_fail_witness :
  exists s1 tbl' s2, init_update_transaction 1 0 (Some (replicate 51 97)) (Buf 4096 []) 0 demo_usys = Some (0, s1) /\
    apply_update demo_policy [0] [0] 1 demo_table s1 = Some (-1, tbl', s2).
Proof.
  pose proof (long_path_updates_fail demo_policy demo_slot_data [0] [0] 1 0 (replicate 51 97) (Buf 4096 []) 0
                demo_table demo_usys eq_refl demo_slots_wf) as H.
  destruct H as (s1 & tbl' & s2 & Hi & Ha & _).
  - apply Forall_replicate. discriminate.
  - rewrite length_replicate. lia.
  - discriminate.
  - discriminate.
  - vm_compute. split; [reflexivity|discriminate].
  - exists s1, tbl', s2. split; [exact Hi|exact Ha].
Defined.

(** An update of a 64-byte image that is no ELF file. *)
Definition demo_prepared : usys store :=
  demo_init 1 [97] (Buf 4096 (replicate 64 0)) demo_usys.

Example update_outcomes_witness :
  exists rv tbl' s', apply_update demo_policy [0] [0] 1 demo_table demo_prepared = Some (rv, tbl', s') /\
    outcome_reported demo_policy 1 demo_table demo_prepared rv tbl' s'.
Proof.
  destruct (update_outcomes demo_policy [0] [0] 1 demo_table demo_prepared) as (_ & Hs & Ho).
  destruct Hs as [[[rv tbl'] s'] Ha].
  - vm_compute. reflexivity.
  - split; [vm_compute; split; [reflexivity|discriminate]|]. intros ops [= <-]. apply memory_ops_sparing.
  - exists rv, tbl', s'. split; [exact Ha|]. apply Ho, Ha.
Defined.
