(* ===== verification/Mmu.v ===== *)
(** * The ARM memory map: kernel/mm/arm_mmu.c

    One level of 1 MB sections.  What the processor does with a descriptor
    is the encoding the source documents above its constants: the type, the
    domain looked up in DACR, the AP bits, and a TLB that may keep any
    descriptor it has seen until it is invalidated. *)
From S2P Require Import Prelude Types Security Frames.

Definition AP_KERNEL_ONLY : Z := 1.
Definition AP_USER_RO : Z := 2.
Definition AP_USER_RW : Z := 3.

Definition SECTION_DESCRIPTOR (addr ap : Z) : Z :=
  Z.lor (Z.lor (Z.lor (Z.land addr 4293918720) (u32 (Z.shiftl ap 10))) (Z.shiftl 0 5)) 2.

(** [l1_page_table], the CP15 registers the source writes, and the TLB, by
    section number. *)
Record mmu := Mmu {
  mm_table : list Z;
  mm_ttbr0 : Z;
  mm_dacr : Z;
  mm_sctlr : Z;
  mm_tlb : gmap Z Z
}.
Definition set_table t (m : mmu) : mmu := Mmu t (mm_ttbr0 m) (mm_dacr m) (mm_sctlr m) (mm_tlb m).

Definition mmu_set_ttbr0 (a : Z) (m : mmu) : mmu := Mmu (mm_table m) a (mm_dacr m) (mm_sctlr m) (mm_tlb m).
Definition mmu_set_dacr (d : Z) (m : mmu) : mmu := Mmu (mm_table m) (mm_ttbr0 m) d (mm_sctlr m) (mm_tlb m).
Definition sctlr_write (v : Z) (m : mmu) : mmu := Mmu (mm_table m) (mm_ttbr0 m) (mm_dacr m) v (mm_tlb m).
Definition arm_tlb_invalidate_all (m : mmu) : mmu :=
  Mmu (mm_table m) (mm_ttbr0 m) (mm_dacr m) (mm_sctlr m) ∅.
(** The caches are off; of the three operations the TLB's shows. *)
Definition mmu_invalidate_tlb_and_caches (m : mmu) : mmu := arm_tlb_invalidate_all m.

Definition arm_section_get_ap (m : mmu) (va : Z) : Z :=
  let idx := Z.shiftr va 20 in
  if idx >=? 4096 then -1
  else
    let d := mm_table m !!! Z.to_nat idx in
    if d =? 0 then -1
    else if negb (Z.land d 3 =? 2) then -1
    else Z.land (Z.shiftr d 10) 3.

Definition arm_section_set_ap (m : mmu) (va ap : Z) : Z * mmu :=
  let idx := Z.shiftr va 20 in
  if idx >=? 4096 then (-1, m)
  else
    let d := mm_table m !!! Z.to_nat idx in
    if d =? 0 then (-1, m)
    else if negb (Z.land d 3 =? 2) then (-1, m)
    else
      let d' := Z.lor (Z.land d 4294964223) (Z.shiftl (Z.land ap 3) 10) in
      (0, arm_tlb_invalidate_all (set_table (<[Z.to_nat idx := d']> (mm_table m)) m)).

(** [for (i = lo; i < hi; i++) l1_page_table[i] = ...] *)
Definition map_sections (lo hi ap : Z) (t : list Z) : list Z :=
  foldl (fun t i => <[i := SECTION_DESCRIPTOR (u32 (Z.of_nat i * 1048576)) ap]> t) t
    (seq (Z.to_nat lo) (Z.to_nat (hi - lo))).

Section Arm.
(** The link address of [l1_page_table]. *)
Context (l1_at : Z).

Definition arm_mmu_init (m : mmu) : mmu :=
  let t := (fun _ => 0) <$> mm_table m in
  let t := map_sections 0 4 AP_KERNEL_ONLY t in
  let t := map_sections 4 8 AP_USER_RW t in
  let t := map_sections (Z.shiftr MM_HEAP_START 20) (Z.shiftr (MM_HEAP_END + 1048575) 20) AP_KERNEL_ONLY t in
  let t := <[257%nat := SECTION_DESCRIPTOR 269484032 AP_KERNEL_ONLY]> t in
  let m := mmu_invalidate_tlb_and_caches (mmu_set_dacr 1431655765 (mmu_set_ttbr0 l1_at (set_table t m))) in
  let sctlr := mm_sctlr m in
  let sctlr := Z.lor sctlr 1 in
  let sctlr := Z.land sctlr 4294967291 in
  let sctlr := Z.land sctlr 4294963199 in
  let sctlr := Z.land sctlr 4294959103 in
  sctlr_write sctlr m.

(** ** The processor's view *)

(** The AP bits, for a domain in Client mode. *)
Definition ap_permits (ap : Z) (user write : bool) : bool :=
  if ap =? AP_USER_RW then true
  else if ap =? AP_USER_RO then negb (user && write)
  else if ap =? AP_KERNEL_ONLY then negb user
  else false.

(** A section descriptor against the domain access register. *)
Definition section_permits (dacr d : Z) (user write : bool) : bool :=
  (Z.land d 3 =? 2) &&
  (let domain := Z.land (Z.shiftr d 5) 15 in
   let access := Z.land (Z.shiftr dacr (2 * domain)) 3 in
   if access =? 3 then true
   else if access =? 1 then ap_permits (Z.land (Z.shiftr d 10) 3) user write
   else false).

(** The descriptor the processor uses: the TLB's if it has one. *)
Definition descriptor (m : mmu) (va : Z) : option Z :=
  match mm_tlb m !! Z.shiftr va 20 with
  | Some d => Some d
  | None => if mm_ttbr0 m =? l1_at then mm_table m !! Z.to_nat (Z.shiftr va 20) else None
  end.

(** The physical address of an access, or a fault. *)
Definition mmu_access (m : mmu) (user write : bool) (va : Z) : option Z :=
  if Z.land (mm_sctlr m) 1 =? 0 then Some va
  else
    d ← descriptor m va;
    if section_permits (mm_dacr m) d user write
    then Some (Z.lor (Z.land d 4293918720) (Z.land va 1048575)) else None.
End Arm.

(** ** Descriptors *)

Lemma section_descriptor_sum i ap :
  0 <= i < 4096 -> 0 <= ap < 4 -> SECTION_DESCRIPTOR (u32 (i * 1048576)) ap = 1048576 * i + 1024 * ap + 2.
Proof.
  intros Hi Ha. unfold SECTION_DESCRIPTOR. rewrite u32_id by lia.
  assert (Hl : Z.land (i * 1048576) 4293918720 = Z.shiftl i 20).
  { rewrite Z.shiftl_mul_pow2 by lia. change 4293918720 with (Z.shiftl 4095 20). change (i * 1048576) with (i * 2 ^ 20).
    rewrite <-(Z.shiftl_mul_pow2 i 20) by lia. rewrite <-Z.shiftl_land. f_equal.
    change 4095 with (Z.ones 12). rewrite Z.land_ones by lia. apply Z.mod_small. lia. }
  rewrite Hl, u32_id by (rewrite Z.shiftl_mul_pow2 by lia; lia). rewrite Z.shiftl_0_l, Z.lor_0_r.
  rewrite (Z.lor_comm (Z.lor _ _) 2), (Z.lor_comm (Z.shiftl i 20)).
  assert (H2 : Z.lor 2 (Z.shiftl ap 10) = 2 + 1024 * ap) by (apply (lor_shiftl_add 2 ap 10); lia).
  rewrite Z.lor_assoc, H2. rewrite (lor_shiftl_add (2 + 1024 * ap) i 20) by lia. lia.
Qed.

(** The fields of such a descriptor. *)
Lemma section_descriptor_fields i ap :
  0 <= i < 4096 -> 0 <= ap < 4 ->
  let d := SECTION_DESCRIPTOR (u32 (i * 1048576)) ap in
  d <> 0 /\ Z.land d 3 = 2 /\ Z.land (Z.shiftr d 5) 15 = 0 /\ Z.land (Z.shiftr d 10) 3 = ap /\
  Z.land d 4293918720 = Z.shiftl i 20.
Proof.
  intros Hi Ha d. unfold d. rewrite section_descriptor_sum by done. clear d.
  rewrite !Z.shiftr_div_pow2 by lia. split; [lia|].
  rewrite (land_ones_mod _ 2 ltac:(lia)), (land_ones_mod _ 4 ltac:(lia)), (land_ones_mod _ 2 ltac:(lia)).
  change (2 ^ 2) with 4. change (2 ^ 4) with 16. change (2 ^ 5) with 32. change (2 ^ 10) with 1024.
  split_and!; [lia..|].
  replace (1048576 * i + 1024 * ap + 2) with ((1024 * ap + 2) + 2 ^ 20 * i) by lia.
  rewrite <-(lor_shiftl_add (1024 * ap + 2) i 20) by lia. rewrite Z.land_lor_distr_l.
  replace (Z.land (1024 * ap + 2) 4293918720) with 0.
  - rewrite Z.lor_0_l. change 4293918720 with (Z.shiftl 4095 20). rewrite <-Z.shiftl_land. f_equal.
    change 4095 with (Z.ones 12). rewrite Z.land_ones by lia. apply Z.mod_small. lia.
  - assert (ap = 0 \/ ap = 1 \/ ap = 2 \/ ap = 3) as [->|[->|[->| ->]]] by lia; reflexivity.
Qed.

Lemma map_sections_lookup lo hi ap t i :
  0 <= lo <= hi -> hi <= Z.of_nat (length t) ->
  map_sections lo hi ap t !! i =
  if decide (lo <= Z.of_nat i < hi)
  then Some (SECTION_DESCRIPTOR (u32 (Z.of_nat i * 1048576)) ap) else t !! i.
Proof.
  intros Hlo Hhi. unfold map_sections.
  assert (H : forall n k l, (k + n <= length l)%nat ->
    foldl (fun t i => <[i := SECTION_DESCRIPTOR (u32 (Z.of_nat i * 1048576)) ap]> t) l (seq k n) !! i =
    if decide (k <= i < k + n)%nat then Some (SECTION_DESCRIPTOR (u32 (Z.of_nat i * 1048576)) ap) else l !! i).
  { induction n as [|n IH]; intros k l Hl; cbn [seq foldl].
    - by rewrite decide_False by lia.
    - rewrite IH by (rewrite length_insert; lia). destruct (decide (S k <= i < S k + n)%nat) as [Hi|Hi].
      + by rewrite decide_True by lia.
      + destruct (decide (i = k)) as [->|Hne].
        * rewrite decide_True, list_lookup_insert_eq by lia. done.
        * by rewrite decide_False, list_lookup_insert_ne by lia. }
  rewrite H by lia. destruct (decide (lo <= Z.of_nat i < hi)); [rewrite decide_True by lia|rewrite decide_False by lia]; done.
Qed.

Lemma length_map_sections lo hi ap t : length (map_sections lo hi ap t) = length t.
Proof.
  unfold map_sections. generalize (seq (Z.to_nat lo) (Z.to_nat (hi - lo))). intros l. revert t.
  induction l as [|x l IH]; intros t; [done|]. cbn [foldl]. by rewrite IH, length_insert.
Qed.

(** The access bits the kernel gives section [i]; [None] is unmapped. *)
Definition boot_ap (i : Z) : option Z :=
  if i <? 4 then Some AP_KERNEL_ONLY
  else if i <? 8 then Some AP_USER_RW
  else if i <? 9 then Some AP_KERNEL_ONLY
  else if i =? 257 then Some AP_KERNEL_ONLY
  else None.

Lemma boot_table l1_at m i :
  length (mm_table m) = 4096%nat -> 0 <= i < 4096 ->
  mm_table (arm_mmu_init l1_at m) !! Z.to_nat i =
  Some (match boot_ap i with Some ap => SECTION_DESCRIPTOR (u32 (i * 1048576)) ap | None => 0 end).
Proof.
  intros Hl Hi.
  change (mm_table (arm_mmu_init l1_at m)) with
    (<[257%nat := SECTION_DESCRIPTOR 269484032 AP_KERNEL_ONLY]>
       (map_sections 8 9 AP_KERNEL_ONLY (map_sections 4 8 AP_USER_RW
          (map_sections 0 4 AP_KERNEL_ONLY ((fun _ => 0) <$> mm_table m))))).
  rewrite list_lookup_insert, !length_map_sections, length_fmap, Hl.
  unfold boot_ap. destruct (decide (i = 257)) as [->|Hne]; [reflexivity|].
  rewrite decide_False by lia.
  rewrite !map_sections_lookup by (rewrite ?length_map_sections, ?length_fmap; lia).
  rewrite list_lookup_fmap, !Z2Nat.id by lia.
  destruct (lookup_lt_is_Some_2 (mm_table m) (Z.to_nat i)) as [x ->]; [lia|]. cbn [fmap option_fmap option_map].
  rewrite (proj2 (Z.eqb_neq i 257)) by lia.
  destruct (i <? 4) eqn:E4; bools.
  { by rewrite (decide_False (P := 8 <= i < 9)), (decide_False (P := 4 <= i < 8)), decide_True by lia. }
  destruct (i <? 8) eqn:E8; bools.
  { by rewrite (decide_False (P := 8 <= i < 9)), decide_True by lia. }
  destruct (i <? 9) eqn:E9; bools; [by rewrite decide_True by lia|].
  by rewrite !decide_False by lia.
Qed.

Lemma split_address va : 0 <= va -> Z.lor (Z.shiftl (Z.shiftr va 20) 20) (Z.land va 1048575) = va.
Proof.
  intros Hv. change 1048575 with (2 ^ 20 - 1). rewrite (land_ones_mod va 20 ltac:(lia)), Z.lor_comm.
  rewrite lor_shiftl_add by (try apply Z.mod_pos_bound; lia). rewrite Z.shiftr_div_pow2 by lia.
  pose proof (Z.div_mod va (2 ^ 20) ltac:(lia)). lia.
Qed.

(** A mapped section in domain 0, which DACR puts in Client mode, is judged
    by its AP bits alone. *)
Lemma client_section d user write va :
  Z.land d 3 = 2 -> Z.land (Z.shiftr d 5) 15 = 0 -> 0 <= va ->
  Z.land d 4293918720 = Z.shiftl (Z.shiftr va 20) 20 ->
  (if section_permits 1431655765 d user write
   then Some (Z.lor (Z.land d 4293918720) (Z.land va 1048575)) else None) =
  if ap_permits (Z.land (Z.shiftr d 10) 3) user write then Some va else None.
Proof.
  intros H1 H2 Hva H4. unfold section_permits. rewrite H1, H2, H4, split_address by lia. reflexivity.
Qed.

Lemma sctlr_enabled v :
  (Z.land (Z.land (Z.land (Z.land (Z.lor v 1) 4294967291) 4294963199) 4294959103) 1 =? 0) = false.
Proof.
  apply Z.eqb_neq. rewrite <-!Z.land_assoc.
  change (Z.land 4294967291 (Z.land 4294963199 (Z.land 4294959103 1))) with 1.
  rewrite Z.land_lor_distr_l. change (Z.land 1 1) with 1. intros [_ H0]%Z.lor_eq_0_iff. discriminate H0.
Qed.

(** Every access after initialisation, by the section it falls in. *)
Lemma boot_access l1_at m user write va :
  length (mm_table m) = 4096%nat -> 0 <= va < 4294967296 ->
  mmu_access l1_at (arm_mmu_init l1_at m) user write va =
  if match boot_ap (va / 1048576) with Some ap => ap_permits ap user write | None => false end
  then Some va else None.
Proof.
  intros Hl Hva. set (m' := arm_mmu_init l1_at m).
  assert (Hdiv : Z.shiftr va 20 = va / 1048576) by (rewrite Z.shiftr_div_pow2 by lia; reflexivity).
  assert (Hi : 0 <= va / 1048576 < 4096) by lia.
  unfold mmu_access. change (mm_dacr m') with 1431655765.
  change (mm_sctlr m') with (Z.land (Z.land (Z.land (Z.lor (mm_sctlr m) 1) 4294967291) 4294963199) 4294959103).
  rewrite sctlr_enabled. unfold descriptor. change (mm_tlb m') with (∅ : gmap Z Z).
  change (mm_ttbr0 m') with l1_at. rewrite lookup_empty, Z.eqb_refl, Hdiv. unfold m'. rewrite boot_table by done.
  cbn [mbind option_bind]. destruct (boot_ap _) as [ap|] eqn:Eb; [|reflexivity].
  assert (Hap : 0 <= ap < 4) by (unfold boot_ap in Eb; repeat case_match; simplify_eq; done).
  destruct (section_descriptor_fields (va / 1048576) ap Hi Hap) as (_ & H1 & H2 & H3 & H4).
  rewrite <-Hdiv in H4 at 2. rewrite client_section, H3 by (done || lia). done.
Qed.

Lemma section_ltb va k : (va / 1048576 <? k) = (va <? k * 1048576).
Proof. apply eq_true_iff_eq. rewrite !Z.ltb_lt. lia. Qed.
Lemma section_eqb va k : (va / 1048576 =? k) = ((k * 1048576 <=? va) && (va <? k * 1048576 + 1048576))%bool.
Proof. apply eq_true_iff_eq. rewrite andb_true_iff, Z.eqb_eq, Z.leb_le, Z.ltb_lt. lia. Qed.

(** C5: The MMU separates user from kernel.  From any table and any TLB,
    [arm_mmu_init] leaves an identity map in which user code reaches exactly
    0x400000-0x7FFFFF, and the kernel exactly the first nine megabytes (the
    heap section included) and the device section; every other access
    faults. *)
Theorem mmu_separates (l1_at : Z) (m : mmu) (write : bool) (va : Z) :
  length (mm_table m) = 4096%nat -> 0 <= va < 4294967296 ->
  let m' := arm_mmu_init l1_at m in
  mmu_access l1_at m' true write va =
    (if ((MM_USER_LOAD_BASE <=? va) && (va <? MM_USER_REGION_END))%bool then Some va else None) /\
  mmu_access l1_at m' false write va =
    (if ((va <? MM_HEAP_END) || ((269484032 <=? va) && (va <? 270532608)))%bool then Some va else None).
Proof.
  intros Hl Hva m'. unfold m'. rewrite !boot_access by done.
  unfold boot_ap, MM_USER_LOAD_BASE, MM_USER_REGION_END, MM_HEAP_END. rewrite !section_ltb, section_eqb.
  destruct (va <? 4 * 1048576) eqn:E4; bools; [|destruct (va <? 8 * 1048576) eqn:E8; bools];
    [..|destruct (va <? 9 * 1048576) eqn:E9; bools].
  - rewrite (proj2 (Z.leb_gt 4194304 va)), (proj2 (Z.ltb_lt va 9437184)) by lia. done.
  - rewrite (proj2 (Z.leb_le 4194304 va)), (proj2 (Z.ltb_lt va 8388608)), (proj2 (Z.ltb_lt va 9437184)) by lia. done.
  - rewrite (proj2 (Z.ltb_ge va 8388608)), andb_false_r, (proj2 (Z.ltb_lt va 9437184)) by lia. done.
  - rewrite (proj2 (Z.ltb_ge va 8388608)), andb_false_r, (proj2 (Z.ltb_ge va 9437184)) by lia.
    change (257 * 1048576) with 269484032. change (269484032 + 1048576) with 270532608. cbn [orb].
    by destruct (_ && _)%bool.
Qed.

(** Changing a section's AP bits in a descriptor leaves its other fields. *)
Lemma set_ap_fields d ap :
  let d' := Z.lor (Z.land d 4294964223) (Z.shiftl (Z.land ap 3) 10) in
  Z.land d' 3 = Z.land d 3 /\ Z.land (Z.shiftr d' 5) 15 = Z.land (Z.shiftr d 5) 15 /\
  Z.land (Z.shiftr d' 10) 3 = Z.land ap 3 /\ Z.land d' 4293918720 = Z.land d 4293918720.
Proof.
  intros d'. assert (Ha : 0 <= Z.land ap 3 < 4) by (rewrite (land_ones_mod ap 2 ltac:(lia) : Z.land ap 3 = ap mod 4); lia).
  assert (Hsmall : forall k, Z.land 3072 k = 0 -> Z.land d' k = Z.land d (Z.land 4294964223 k)).
  { intros k Hk. unfold d'. rewrite Z.land_lor_distr_l, <-Z.land_assoc.
    replace (Z.land (Z.shiftl (Z.land ap 3) 10) k) with 0; [apply Z.lor_0_r|].
    rewrite <-(Z.land_diag 3) at 1. rewrite Z.land_assoc, Z.shiftl_land, <-Z.land_assoc.
    change (Z.shiftl 3 10) with 3072. by rewrite Hk, Z.land_0_r. }
  split; [by rewrite Hsmall|]. split; [|split].
  - change 15 with (Z.shiftr 480 5). rewrite <-!Z.shiftr_land. by rewrite Hsmall.
  - unfold d'. rewrite Z.shiftr_lor, Z.shiftr_shiftl_l, Z.shiftl_0_r by lia.
    rewrite Z.land_lor_distr_l, Z.shiftr_land, <-Z.land_assoc.
    change (Z.land (Z.shiftr 4294964223 10) 3) with 0. rewrite Z.land_0_r, Z.lor_0_l.
    by rewrite <-Z.land_assoc, Z.land_diag.
  - by rewrite Hsmall.
Qed.

(** The TLB never disagrees with the table. *)
Definition tlb_coherent (m : mmu) : Prop :=
  forall i d, mm_tlb m !! i = Some d -> mm_table m !! Z.to_nat i = Some d.

Lemma invalidate_coherent m : tlb_coherent (arm_tlb_invalidate_all m).
Proof. intros i d Hd. cbn in Hd. by rewrite lookup_empty in Hd. Qed.

(** A mapped section. *)
Definition section_mapped (m : mmu) (va : Z) : Prop :=
  exists d, mm_table m !! Z.to_nat (Z.shiftr va 20) = Some d /\ Z.land d 3 = 2.

Lemma section_index va : 0 <= va < 4294967296 -> 0 <= Z.shiftr va 20 < 4096.
Proof. intros Hva. rewrite Z.shiftr_div_pow2 by lia. lia. Qed.

Lemma coherent_descriptor l1_at m va :
  tlb_coherent m -> mm_ttbr0 m = l1_at -> descriptor l1_at m va = mm_table m !! Z.to_nat (Z.shiftr va 20).
Proof.
  intros Hc Ht. unfold descriptor. destruct (mm_tlb m !! _) as [d|] eqn:E; [symmetry; by apply Hc|].
  by rewrite Ht, Z.eqb_refl.
Qed.

(** The two operations, given the section's descriptor. *)
Lemma section_get_ap_lookup m va d :
  0 <= va < 4294967296 -> mm_table m !! Z.to_nat (Z.shiftr va 20) = Some d ->
  arm_section_get_ap m va = if Z.land d 3 =? 2 then Z.land (Z.shiftr d 10) 3 else -1.
Proof.
  intros Hva Hd. pose proof (section_index va Hva). unfold arm_section_get_ap.
  rewrite Z.geb_leb, (proj2 (Z.leb_gt 4096 _)), (lookup_total_Some _ _ _ Hd) by lia.
  destruct (d =? 0) eqn:E; bools; [by subst|]. by destruct (Z.land d 3 =? 2).
Qed.
Lemma section_set_ap_cases m va ap d :
  0 <= va < 4294967296 -> mm_table m !! Z.to_nat (Z.shiftr va 20) = Some d ->
  arm_section_set_ap m va ap =
  if Z.land d 3 =? 2
  then (0, arm_tlb_invalidate_all (set_table (<[Z.to_nat (Z.shiftr va 20) :=
             Z.lor (Z.land d 4294964223) (Z.shiftl (Z.land ap 3) 10)]> (mm_table m)) m))
  else (-1, m).
Proof.
  intros Hva Hd. pose proof (section_index va Hva). unfold arm_section_set_ap.
  rewrite Z.geb_leb, (proj2 (Z.leb_gt 4096 _)), (lookup_total_Some _ _ _ Hd) by lia.
  destruct (d =? 0) eqn:E; bools; [by subst|]. by destruct (Z.land d 3 =? 2).
Qed.

(** Changing a section's access bits.  [arm_section_set_ap] fails exactly
    on an address in no mapped section and then changes nothing.  Otherwise
    the next access obeys the new bits, whatever descriptors the TLB held:
    addresses of the section translate as before and are judged by the new
    bits (in a Client domain), every other address behaves as it did, and
    [arm_section_get_ap] reads the bits back. *)
Theorem section_set_ap_spec (l1_at : Z) (m : mmu) (va ap : Z) :
  length (mm_table m) = 4096%nat -> mm_ttbr0 m = l1_at -> tlb_coherent m -> 0 <= va < 4294967296 ->
  let '(rv, m') := arm_section_set_ap m va ap in
  (rv = 0 <-> section_mapped m va) /\ tlb_coherent m' /\
  (rv <> 0 -> rv = -1 /\ m' = m) /\
  (rv = 0 ->
   forall a, 0 <= a < 4294967296 ->
   if decide (Z.shiftr a 20 = Z.shiftr va 20)
   then arm_section_get_ap m' a = Z.land ap 3 /\
        exists d d', descriptor l1_at m a = Some d /\ descriptor l1_at m' a = Some d' /\
          Z.land d' 4293918720 = Z.land d 4293918720 /\
          forall user write dacr, Z.land (Z.shiftr dacr (2 * Z.land (Z.shiftr d 5) 15)) 3 = 1 ->
            section_permits dacr d' user write = ap_permits (Z.land ap 3) user write
   else arm_section_get_ap m' a = arm_section_get_ap m a /\
        forall user write, mmu_access l1_at m' user write a = mmu_access l1_at m user write a).
Proof.
  intros Hl Htt Htlb Hva. pose proof (section_index va Hva) as Hi.
  destruct (lookup_lt_is_Some_2 (mm_table m) (Z.to_nat (Z.shiftr va 20))) as [d Hd]; [lia|].
  rewrite (section_set_ap_cases m va ap d) by done. unfold section_mapped. rewrite Hd.
  destruct (Z.land d 3 =? 2) eqn:E; bools.
  2: { split; [split; [done|by intros (? & [= <-] & ?)]|]. split; [exact Htlb|].
    split; [by split|intros Hx; discriminate Hx]. }
  split; [split; [by exists d|done]|]. split; [apply invalidate_coherent|]. split; [done|].
  intros _ a Ha. pose proof (section_index a Ha) as Hia.
  destruct (set_ap_fields d ap) as (H1 & H2 & H3 & H4). set (d' := Z.lor _ _) in *.
  set (m' := arm_tlb_invalidate_all _).
  assert (Htlb' : tlb_coherent m') by apply invalidate_coherent.
  destruct (decide (Z.shiftr a 20 = Z.shiftr va 20)) as [Heq|Hne].
  - assert (Hd' : mm_table m' !! Z.to_nat (Z.shiftr a 20) = Some d').
    { cbn [mm_table m' arm_tlb_invalidate_all set_table]. rewrite Heq. apply list_lookup_insert_eq. lia. }
    split; [rewrite (section_get_ap_lookup _ _ d' Ha Hd'), H1, H3, E; by rewrite Z.eqb_refl|].
    exists d, d'. rewrite !coherent_descriptor, Hd', Heq by done. split_and!; try done.
    intros user write dacr Hclient. unfold section_permits. rewrite H1, H2, H3, E, Hclient. done.
  - assert (Ht : mm_table m' !! Z.to_nat (Z.shiftr a 20) = mm_table m !! Z.to_nat (Z.shiftr a 20)).
    { cbn [mm_table m' arm_tlb_invalidate_all set_table]. apply list_lookup_insert_ne. lia. }
    split.
    + destruct (lookup_lt_is_Some_2 (mm_table m) (Z.to_nat (Z.shiftr a 20))) as [x Hx]; [lia|].
      rewrite (section_get_ap_lookup m' a x), (section_get_ap_lookup m a x) by congruence. done.
    + intros user write. unfold mmu_access. by rewrite !coherent_descriptor, Ht.
Qed.

(** The pool frames the user section map covers: from the 513th on, a frame
    the kernel allocates is writable by user code. *)
Corollary user_reaches_frames (l1_at : Z) (m : mmu) (n : Z) :
  length (mm_table m) = 4096%nat -> 512 <= n < 1024 ->
  mmu_access l1_at (arm_mmu_init l1_at m) true true (frame_addr n) = Some (frame_addr n).
Proof.
  intros Hl Hn. rewrite boot_access by (done || (unfold frame_addr, FRAME_POOL_BASE, MM_FRAME_SIZE; lia)).
  unfold boot_ap. rewrite !section_ltb. unfold frame_addr, FRAME_POOL_BASE, MM_FRAME_SIZE.
  rewrite (proj2 (Z.ltb_ge _ (4 * 1048576))), (proj2 (Z.ltb_lt _ (8 * 1048576))) by lia. reflexivity.
Qed.

Definition mmu_reset : mmu := Mmu (replicate 4096 0) 0 0 0 (<[4 := 3074]> ∅).

Lemma mmu_reset_length : length (mm_table mmu_reset) = 4096%nat.
Proof. apply length_replicate. Qed.

Example mmu_separates_witness :
  mmu_access 16384 (arm_mmu_init 16384 mmu_reset) true true 4194304 = Some 4194304 /\
  mmu_access 16384 (arm_mmu_init 16384 mmu_reset) true false 8388608 = None.
Proof.
  split.
  - rewrite (proj1 (mmu_separates 16384 mmu_reset true 4194304 mmu_reset_length ltac:(lia))).
    reflexivity.
  - rewrite (proj1 (mmu_separates 16384 mmu_reset false 8388608 mmu_reset_length ltac:(lia))).
    reflexivity.
Defined.

(** One mapped section, cached by the TLB. *)
Definition mmu_one : mmu := Mmu (<[5%nat := 5245954]> (replicate 4096 0)) 0 1 1 (<[5 := 5245954]> ∅).

Example section_set_ap_spec_witness :
  let '(rv, m') := arm_section_set_ap mmu_one 5242880 1 in rv = 0 /\ arm_section_get_ap m' 5242884 = 1.
Proof.
  pose proof (section_set_ap_spec 0 mmu_one 5242880 1) as H.
  destruct (arm_section_set_ap mmu_one 5242880 1) as [rv m'] eqn:E.
  destruct H as (Hrv & _ & _ & H).
  - reflexivity.
  - reflexivity.
  - intros i d Hd. cbn [mmu_one mm_tlb] in Hd. apply lookup_insert_Some in Hd as [[<- <-]|[_ Hd]];
      [reflexivity|by rewrite lookup_empty in Hd].
  - lia.
  - assert (H0 : rv = 0) by (apply Hrv; exists 5245954; split; reflexivity). split; [exact H0|].
    specialize (H H0 5242884 ltac:(lia)). rewrite decide_True in H by reflexivity. exact (proj1 H).
Defined.
