(* ===== verification/PrioQueue.v ===== *)
(** * The priority message queue: services/scheduler/utils.c

    An array of 1024 messages kept sorted by priority, the lower number
    first, with a checksum taken when a message enters and tested when it is
    stored and when it leaves.  [strlen] of a payload that holds no NUL runs
    on into whatever lies behind the message; a call that does so is [None]. *)
From stdpp Require Import sorting.
From S2P Require Import Prelude Types Security Crc Nng.

(** [priority_queue_t]; [count] is an [int]. *)
Record priority_queue_t := PQueue { pq_messages : list message_t; pq_count : Z }.

Definition INT32_MAX : Z := 2147483647.
Definition SIZEOF_MESSAGE : Z := 144.

Section Queue.
(** The access policy, the CRC table, and the addresses of the queue and of
    the caller's message. *)
Context (rt : regions) (tbl : list Z) (queue_at msg_at : Z).

Definition message_at (i : Z) : Z := queue_at + SIZEOF_MESSAGE * i.
(** The payload holds a NUL. *)
Definition terminated (m : message_t) : bool := existsb (fun c => c =? 0) (m_payload m).
(** [calculate_checksum(payload, strlen(payload))] of the message at [addr]. *)
Definition payload_sum (addr : Z) (m : message_t) : option Z :=
  if terminated m then Some (calculate_checksum rt tbl (addr + MSG_PAYLOAD_OFF) (cstr (m_payload m))) else None.

Definition queue_init (queue : option priority_queue_t) : option priority_queue_t :=
  match queue with None => None | Some q => Some (PQueue (pq_messages q) 0) end.

(** The insertion loop: shifts the larger priorities up, and gives the slot
    that is left. *)
Fixpoint insert_loop (i : nat) (priority : Z) (l : list message_t) : nat * list message_t :=
  match i with
  | O => (O, l)
  | S j =>
      if m_priority (l !!! j) >? priority
      then insert_loop j priority (<[i := l !!! j]> l)
      else (i, l)
  end.

(** Returns the result, [*queue] and [*msg]. *)
Definition queue_push (queue : option priority_queue_t) (msg : option message_t)
    : option (Z * option priority_queue_t * option message_t) :=
  match queue, msg with
  | Some q, Some m =>
      if pq_count q >=? Z.of_nat MAX_QUEUE_SIZE then Some (-1, queue, msg)
      else if pq_count q =? INT32_MAX then Some (-1, queue, msg)
      else
        sum ← payload_sum msg_at m;
        let m := set_checksum sum m in
        let '(i, l) := insert_loop (Z.to_nat (pq_count q)) (m_priority m) (pq_messages q) in
        let l := <[i := m]> l in
        verify_sum ← payload_sum (message_at (Z.of_nat i)) (l !!! i);
        Some (if negb (verify_sum =? m_checksum (l !!! i)) then -2 else 0, Some (PQueue l (pq_count q + 1)), Some m)
  | _, _ => Some (-1, queue, msg)
  end.

(** The shift down, [n] entries from the front. *)
Definition shift_down (n : nat) (l : list message_t) : list message_t :=
  foldl (fun l i => <[(i - 1)%nat := l !!! i]> l) l (seq 1 (n - 1)).

Definition queue_pop (queue : option priority_queue_t) (msg : option message_t)
    : option (Z * option priority_queue_t * option message_t) :=
  match queue, msg with
  | Some q, Some _ =>
      if pq_count q =? 0 then Some (-1, queue, msg)
      else
        let m := pq_messages q !!! 0%nat in
        verify_sum ← payload_sum msg_at m;
        if negb (verify_sum =? m_checksum m) then Some (-2, queue, Some m)
        else
          let n := Z.to_nat (Z.min (pq_count q) (Z.of_nat MAX_QUEUE_SIZE)) in
          Some (0, Some (PQueue (shift_down n (pq_messages q)) (pq_count q - 1)), Some m)
  | _, _ => Some (-1, queue, msg)
  end.
End Queue.

(** ** The sorted list behind the array *)

(** Behind every message of the same or a smaller number. *)
Fixpoint insert_sorted (m : message_t) (l : list message_t) : list message_t :=
  match l with
  | [] => [m]
  | x :: l' => if m_priority m <? m_priority x then m :: l else x :: insert_sorted m l'
  end.

Definition by_priority (x y : message_t) : Prop := m_priority x <= m_priority y.
#[export] Instance by_priority_trans : Transitive by_priority.
Proof. intros x y z. unfold by_priority. lia. Qed.

Definition pq_contents (q : priority_queue_t) : list message_t := take (Z.to_nat (pq_count q)) (pq_messages q).

Lemma insert_sorted_sorted m l : StronglySorted by_priority l -> StronglySorted by_priority (insert_sorted m l).
Proof.
  induction 1 as [|x l Hs IH Hx]; cbn [insert_sorted]; [repeat constructor|].
  destruct (_ <? _) eqn:E; bools.
  - constructor; [by constructor|]. constructor; [unfold by_priority; lia|].
    eapply Forall_impl; [exact Hx|]. intros y. unfold by_priority. lia.
  - constructor; [done|]. clear IH Hs. induction l as [|y l IH]; cbn [insert_sorted].
    + repeat constructor. unfold by_priority. lia.
    + apply Forall_cons in Hx as [Hy Hx]. destruct (_ <? _); constructor; try done.
      * by constructor.
      * by apply IH.
Qed.

Lemma class_below x l p :
  p < m_priority x -> Forall (fun y => p < m_priority y) l -> filter (fun m => m_priority m = p) (x :: l) = [].
Proof.
  intros Hx Hl. rewrite filter_cons, decide_False by lia.
  induction Hl as [|y l Hy _ IH]; [done|]. by rewrite filter_cons, decide_False by lia.
Qed.

(** Within a priority the queue is first in, first out. *)
Lemma insert_sorted_class m l p :
  StronglySorted by_priority l ->
  filter (fun x => m_priority x = p) (insert_sorted m l) =
  filter (fun x => m_priority x = p) l ++ (if decide (m_priority m = p) then [m] else []).
Proof.
  induction 1 as [|x l Hs IH Hx]; cbn [insert_sorted].
  - rewrite filter_cons, filter_nil. by case_decide.
  - destruct (_ <? _) eqn:E; bools.
    + rewrite (filter_cons _ m). destruct (decide (m_priority m = p)) as [Hp|Hp]; [|by rewrite app_nil_r].
      replace (filter (fun x => m_priority x = p) (x :: l)) with (@nil message_t); [done|].
      symmetry. apply class_below; [lia|]. eapply Forall_impl; [exact Hx|]. intros y. unfold by_priority. lia.
    + rewrite !filter_cons, IH. by destruct (decide (m_priority x = p)).
Qed.

(** ** The array operations *)

Lemma insert_sorted_snoc m l x :
  StronglySorted by_priority (l ++ [x]) ->
  insert_sorted m (l ++ [x]) = if m_priority x >? m_priority m then insert_sorted m l ++ [x] else l ++ [x; m].
Proof.
  induction l as [|y l IH]; intros Hs; cbn [app insert_sorted].
  - rewrite Z.gtb_ltb. by destruct (_ <? _).
  - apply StronglySorted_inv in Hs as [Hs Hy]. rewrite (IH Hs), Z.gtb_ltb.
    destruct (m_priority m <? m_priority y) eqn:E; bools.
    + apply Forall_app in Hy as [_ [Hx _]%Forall_cons]. unfold by_priority in Hx.
      by rewrite (proj2 (Z.ltb_lt _ _)) by lia.
    + by destruct (_ <? _).
Qed.

(** The loop opens a hole behind the elements not above [p]. *)
Lemma insert_loop_spec p n l :
  (n < length l)%nat -> StronglySorted by_priority (take n l) ->
  let '(i, l') := insert_loop n p l in
  (i <= n)%nat /\ length l' = length l /\ (forall j, (n < j)%nat -> l' !! j = l !! j) /\
  forall m, m_priority m = p -> take (S n) (<[i := m]> l') = insert_sorted m (take n l).
Proof.
  revert l. induction n as [|n IH]; intros l Hn Hs; cbn [insert_loop].
  - split; [done|]. split; [done|]. split; [done|]. intros m _. by apply (take_S_insert l 0 m).
  - destruct (lookup_lt_is_Some_2 l n) as [x Hx]; [lia|]. rewrite (lookup_total_Some _ _ _ Hx).
    rewrite (take_S_r _ _ x Hx) in Hs |- *. destruct (m_priority x >? p) eqn:E.
    + assert (Ht : take n (<[S n := x]> l) = take n l) by (apply take_insert_ge; lia).
      specialize (IH (<[S n := x]> l)). rewrite Ht, length_insert in IH.
      apply StronglySorted_app_1_l in Hs as Hs'. specialize (IH ltac:(lia) Hs').
      destruct (insert_loop n p _) as [i l']. destruct IH as (Hi & Hlen & Hj & Hm).
      split; [lia|]. split; [done|]. split.
      { intros j Hlt. rewrite Hj, list_lookup_insert_ne by lia. done. }
      intros m Hp. rewrite insert_sorted_snoc, Hp, E by done. rewrite <-(Hm m Hp).
      apply take_S_r. rewrite list_lookup_insert_ne, Hj by lia. apply list_lookup_insert_eq. lia.
    + split; [done|]. split; [done|]. split; [done|]. intros m Hp.
      rewrite insert_sorted_snoc, Hp, E by done. rewrite take_S_insert by lia.
      by rewrite (take_S_r _ _ x Hx), <-app_assoc.
Qed.

Lemma shift_down_spec n l :
  (0 < n <= length l)%nat -> take (n - 1) (shift_down n l) = tail (take n l) /\ length (shift_down n l) = length l.
Proof.
  intros Hn. unfold shift_down. destruct n as [|n]; [lia|]. replace (S n - 1)%nat with n by lia.
  assert (H : forall k, (k <= n)%nat ->
    let l' := foldl (fun l i => <[(i - 1)%nat := l !!! i]> l) l (seq 1 k) in
    length l' = length l /\ (forall j, (j < k)%nat -> l' !! j = l !! S j) /\ (forall j, (k <= j)%nat -> l' !! j = l !! j)).
  { induction k as [|k IH]; intros Hk; [split; [done|split; [intros; lia|done]]|]. cbv zeta. rewrite seq_S, foldl_app. cbn [foldl].
    destruct (IH ltac:(lia)) as (Hlen & Hlo & Hhi). set (l' := foldl _ _ _) in *.
    replace (1 + k - 1)%nat with k by lia. split; [by rewrite length_insert|].
    destruct (lookup_lt_is_Some_2 l (S k)) as [x Hx]; [lia|].
    assert (Hx' : l' !!! (1 + k)%nat = x) by (apply lookup_total_Some; rewrite Hhi by lia; done). rewrite Hx'.
    split; intros j Hj.
    - destruct (decide (j = k)) as [->|Hne].
      + rewrite list_lookup_insert_eq by lia. done.
      + rewrite list_lookup_insert_ne by lia. apply Hlo. lia.
    - rewrite list_lookup_insert_ne by lia. apply Hhi. lia. }
  destruct (H n (le_n n)) as (Hlen & Hlo & _). split; [|done].
  destruct l as [|x l]; [cbn in Hn; lia|]. cbn [take tail]. apply list_eq. intros j.
  destruct (decide (j < n)%nat); [by rewrite !lookup_take_lt, Hlo by lia|by rewrite !lookup_take_ge by lia].
Qed.

(** ** Correctness *)

Section Correct.
Context (rt : regions) (tbl : list Z) (queue_at msg_at : Z).

(** The policy lets the kernel read the text of the caller's message and of
    every slot. *)
Definition texts_readable : Prop :=
  forall n, 0 <= n <= 128 ->
    security_validate_memory_access rt (msg_at + MSG_PAYLOAD_OFF) n false = true /\
    forall i, 0 <= i < 1024 ->
      security_validate_memory_access rt (message_at queue_at i + MSG_PAYLOAD_OFF) n false = true.

Definition text_crc (m : message_t) : Z :=
  Z.lxor (foldl (crc_step tbl) 4294967295 (cstr (m_payload m))) 4294967295.

(** A payload of the array's size that is a string. *)
Definition proper (m : message_t) : Prop := length (m_payload m) = MAX_MSG_SIZE /\ terminated m = true.
Definition sealed (m : message_t) : Prop := proper m /\ m_checksum m = text_crc m.

Record pqueue_wf (q : priority_queue_t) : Prop := {
  pw_length : length (pq_messages q) = MAX_QUEUE_SIZE;
  pw_count : 0 <= pq_count q <= Z.of_nat MAX_QUEUE_SIZE;
  pw_sorted : StronglySorted by_priority (pq_contents q);
  pw_sealed : Forall sealed (pq_contents q)
}.

(** The waiting messages of one priority, oldest first. *)
Definition class (q : priority_queue_t) (p : Z) : list message_t :=
  filter (fun m => m_priority m = p) (pq_contents q).

Lemma length_pq_contents q : pqueue_wf q -> length (pq_contents q) = Z.to_nat (pq_count q).
Proof. intros [Hl Hc _ _]. unfold pq_contents. rewrite length_take, Hl. lia. Qed.

Lemma payload_sum_crc addr m :
  (forall n, 0 <= n <= 128 -> security_validate_memory_access rt (addr + MSG_PAYLOAD_OFF) n false = true) ->
  proper m -> payload_sum rt tbl addr m = Some (text_crc m).
Proof.
  intros Hr [Hl Ht]. unfold payload_sum, calculate_checksum. rewrite Ht.
  pose proof (length_cstr (m_payload m)) as Hc. unfold MAX_MSG_SIZE in Hl. by rewrite Hr by lia.
Qed.

Lemma insert_sorted_forall (P : message_t -> Prop) m l : P m -> Forall P l -> Forall P (insert_sorted m l).
Proof.
  intros Hm. induction 1 as [|x l Hx Hl IH]; cbn [insert_sorted]; [by constructor|].
  destruct (_ <? _); repeat (constructor; try done).
Qed.

Lemma queue_push_ok q m :
  texts_readable -> pqueue_wf q -> proper m -> pq_count q < Z.of_nat MAX_QUEUE_SIZE ->
  let m' := set_checksum (text_crc m) m in
  exists q', queue_push rt tbl queue_at msg_at (Some q) (Some m) = Some (0, Some q', Some m') /\
    pqueue_wf q' /\ pq_contents q' = insert_sorted m' (pq_contents q).
Proof.
  intros Hr [Hl Hc Hs Hse] Hm Hroom m'. unfold queue_push, MAX_QUEUE_SIZE in *.
  rewrite Z.geb_leb, (proj2 (Z.leb_gt _ _)) by lia.
  rewrite (proj2 (Z.eqb_neq (pq_count q) INT32_MAX)) by (unfold INT32_MAX; lia).
  rewrite payload_sum_crc by (done || (intros n Hn; by apply Hr)). cbn [mbind option_bind]. fold m'. cbv zeta.
  pose proof (insert_loop_spec (m_priority m') (Z.to_nat (pq_count q)) (pq_messages q)) as Hi.
  destruct (insert_loop _ _ _) as [i l']. destruct Hi as (Hin & Hlen & _ & Hins); [lia|exact Hs|].
  specialize (Hins m' eq_refl). rewrite list_lookup_total_insert_eq by lia.
  assert (Hsum : payload_sum rt tbl (message_at queue_at (Z.of_nat i)) m' = Some (text_crc m)).
  { rewrite payload_sum_crc; [done| |done]. intros n Hn. apply Hr; lia. }
  rewrite Hsum. cbn [mbind option_bind m_checksum set_checksum m']. rewrite Z.eqb_refl. cbn [negb].
  eexists. split; [reflexivity|].
  assert (Hco : pq_contents (PQueue (<[i := m']> l') (pq_count q + 1)) = insert_sorted m' (pq_contents q)).
  { unfold pq_contents. cbn [pq_messages pq_count]. rewrite <-Hins. f_equal. lia. }
  split; [|exact Hco]. split; rewrite ?Hco; cbn [pq_messages pq_count].
  - by rewrite length_insert, Hlen.
  - unfold MAX_QUEUE_SIZE. lia.
  - by apply insert_sorted_sorted.
  - by apply insert_sorted_forall.
Qed.

Lemma queue_pop_ok q m0 m l :
  texts_readable -> pqueue_wf q -> pq_contents q = m :: l ->
  exists q', queue_pop rt tbl msg_at (Some q) (Some m0) = Some (0, Some q', Some m) /\ pqueue_wf q' /\ pq_contents q' = l.
Proof.
  intros Hr Hw Hco. pose proof (length_pq_contents q Hw) as Hlen. rewrite Hco in Hlen. cbn in Hlen.
  destruct Hw as [Hl Hc Hs Hse]. rewrite Hco in Hs, Hse. unfold MAX_QUEUE_SIZE in *.
  assert (Hm : pq_messages q !!! 0%nat = m).
  { apply lookup_total_Some. rewrite <-(lookup_take_lt _ (Z.to_nat (pq_count q))) by lia. unfold pq_contents in Hco. by rewrite Hco. }
  apply Forall_cons in Hse as [[Hpl Hck] Hse]. apply StronglySorted_inv in Hs as [Hs _].
  unfold queue_pop. rewrite (proj2 (Z.eqb_neq _ _)) by lia. rewrite Hm. cbv zeta.
  rewrite payload_sum_crc by (done || (intros n Hn; by apply Hr)). cbn [mbind option_bind]. rewrite Hck, Z.eqb_refl. cbn [negb].
  rewrite Z.min_l by (unfold MAX_QUEUE_SIZE; lia). eexists. split; [reflexivity|].
  destruct (shift_down_spec (Z.to_nat (pq_count q)) (pq_messages q)) as [Ht Hl']; [lia|].
  assert (Hco' : pq_contents (PQueue (shift_down (Z.to_nat (pq_count q)) (pq_messages q)) (pq_count q - 1)) = l).
  { unfold pq_contents in *. cbn [pq_messages pq_count].
    replace (Z.to_nat (pq_count q - 1)) with (Z.to_nat (pq_count q) - 1)%nat by lia. by rewrite Ht, Hco. }
  split; [|exact Hco']. split; rewrite ?Hco'; cbn [pq_messages pq_count]; unfold MAX_QUEUE_SIZE; done || lia || congruence.
Qed.
End Correct.

(** C27: The queue is one FIFO per priority, served lowest number first.  With
    readable texts and NUL-terminated payloads, both calls return: a push into a queue that is not full returns 0 and
    appends the message, sealed with its CRC, to the class of its priority;
    into a full one it returns -1 and changes nothing.  A pop from an empty
    queue returns -1; otherwise it returns 0 with the oldest message of the
    lowest-numbered class that is not empty, its checksum tested, and takes
    just that message out. *)
Theorem queue_is_fifo_per_priority (rt : regions) (tbl : list Z) (queue_at msg_at : Z) (q : priority_queue_t)
    (m : message_t) :
  texts_readable rt queue_at msg_at -> pqueue_wf tbl q -> proper m ->
  (exists rv q' m', queue_push rt tbl queue_at msg_at (Some q) (Some m) = Some (rv, q', m') /\
   if decide (pq_count q < Z.of_nat MAX_QUEUE_SIZE)
   then rv = 0 /\ exists q1, q' = Some q1 /\ pqueue_wf tbl q1 /\ m' = Some (set_checksum (text_crc tbl m) m) /\
        forall p, class q1 p = class q p ++ (if decide (p = m_priority m) then [set_checksum (text_crc tbl m) m] else [])
   else rv = -1 /\ q' = Some q /\ m' = Some m) /\
  (exists rv q' m', queue_pop rt tbl msg_at (Some q) (Some m) = Some (rv, q', m') /\
   if decide (pq_count q = 0)
   then rv = -1 /\ q' = Some q /\ m' = Some m
   else rv = 0 /\ exists q1 x, q' = Some q1 /\ pqueue_wf tbl q1 /\ m' = Some x /\ sealed tbl x /\
        (forall p, p < m_priority x -> class q p = []) /\
        forall p, class q p = (if decide (p = m_priority x) then [x] else []) ++ class q1 p).
Proof.
  intros Hr Hw Hm. pose proof (length_pq_contents tbl q Hw) as Hlen. split.
  - destruct (decide _) as [Hroom|Hfull].
    + destruct (queue_push_ok rt tbl queue_at msg_at q m Hr Hw Hm Hroom) as (q1 & -> & Hw1 & Hco).
      do 3 eexists. split; [reflexivity|]. split; [done|]. exists q1. split; [done|]. split; [done|]. split; [done|]. intros p. unfold class. rewrite Hco.
      rewrite insert_sorted_class by apply Hw. cbn [m_priority set_checksum]. f_equal.
      destruct (decide (m_priority m = p)), (decide (p = m_priority m)); congruence.
    + unfold queue_push. rewrite Z.geb_leb, (proj2 (Z.leb_le _ _)) by lia. do 3 eexists. split; [reflexivity|]. done.
  - destruct (pq_contents q) as [|x l] eqn:Hco; cbn in Hlen.
    + pose proof (pw_count tbl q Hw). unfold queue_pop. rewrite (proj2 (Z.eqb_eq _ _)) by lia.
      do 3 eexists. split; [reflexivity|]. by rewrite decide_True by lia.
    + destruct (queue_pop_ok rt tbl queue_at msg_at q m x l Hr Hw Hco) as (q1 & -> & Hw1 & Hco1).
      do 3 eexists. split; [reflexivity|]. rewrite decide_False by lia. split; [done|]. exists q1, x. pose proof (pw_sealed tbl q Hw) as Hse. pose proof (pw_sorted tbl q Hw) as Hs.
      rewrite Hco in Hse, Hs. apply Forall_cons in Hse as [Hx _]. apply StronglySorted_inv in Hs as [_ Hmin].
      split; [done|]. split; [done|]. split; [done|]. split; [done|]. unfold class. rewrite Hco, Hco1.
      split; intros p; [intros Hp; apply class_below; [done|]|]; rewrite ?filter_cons.
      * eapply Forall_impl; [exact Hmin|]. intros y. unfold by_priority. lia.
      * destruct (decide (m_priority x = p)), (decide (p = m_priority x)); (reflexivity || congruence).
Qed.

(** A message whose checksum fails blocks the queue: it is reported with -2
    and stays at the head, so no later message comes out. *)
Theorem bad_head_blocks_queue (rt : regions) (tbl : list Z) (msg_at : Z) (q : priority_queue_t) (m : message_t) (n : nat) :
  0 < pq_count q ->
  let head := pq_messages q !!! 0%nat in
  (exists sum, payload_sum rt tbl msg_at head = Some sum /\ sum <> m_checksum head) ->
  Nat.iter (S n) (fun r => r ← r; queue_pop rt tbl msg_at r.1.2 r.2) (Some (0, Some q, Some m)) = Some (-2, Some q, Some head).
Proof.
  intros Hc head (sum & Hsum & Hbad). assert (Hpop : forall m, queue_pop rt tbl msg_at (Some q) (Some m) = Some (-2, Some q, Some head)).
  { intros x. unfold queue_pop. rewrite (proj2 (Z.eqb_neq _ _)) by lia. fold head. rewrite Hsum. cbn [mbind option_bind].
    by rewrite (proj2 (Z.eqb_neq _ _)) by done. }
  induction n as [|n IH]; [apply Hpop|]. rewrite Nat.iter_succ, IH. apply Hpop.
Qed.

(** An empty queue and a one-letter message, before the policy is built. *)
Definition demo_message (p : Z) : message_t := Message p 512 0 0 (65 :: replicate 127 0).
Definition demo_queue : priority_queue_t := PQueue (replicate 1024 message_zero) 0.

Lemma demo_queue_wf : pqueue_wf init_crc32_table demo_queue.
Proof. split; cbn [demo_queue pq_messages pq_count]; [apply length_replicate|unfold MAX_QUEUE_SIZE; lia|constructor..]. Qed.

Lemma demo_texts_readable : texts_readable [] 1048576 524288.
Proof.
  intros n Hn. unfold security_validate_memory_access, message_at, SIZEOF_MESSAGE, MSG_PAYLOAD_OFF, SIZE_MAX.
  split; [|intros i Hi]; rewrite (proj2 (Z.eqb_neq _ _)) by lia; cbn [andb];
    rewrite (proj2 (Z.ltb_ge _ _)), andb_false_r by lia; reflexivity.
Qed.

Example queue_is_fifo_per_priority_witness :
  exists q1 m', queue_push [] init_crc32_table 1048576 524288 (Some demo_queue) (Some (demo_message 3)) = Some (0, Some q1, m') /\
    class q1 3 = [set_checksum (text_crc init_crc32_table (demo_message 3)) (demo_message 3)].
Proof.
  pose proof (queue_is_fifo_per_priority [] init_crc32_table 1048576 524288 demo_queue (demo_message 3)
                demo_texts_readable demo_queue_wf (conj eq_refl eq_refl)) as [H _].
  destruct H as (rv & q' & m' & Hq & H). rewrite decide_True in H by reflexivity.
  destruct H as (-> & q1 & -> & _ & -> & Hcl). do 2 eexists. split; [exact Hq|]. rewrite Hcl. reflexivity.
Defined.

(** A message stored with checksum 0. *)
Definition demo_bad_queue : priority_queue_t := PQueue (<[0%nat := demo_message 3]> (replicate 1024 message_zero)) 1.

Example bad_head_blocks_queue_witness :
  Nat.iter 2 (fun r => r ← r; queue_pop [] init_crc32_table 524288 r.1.2 r.2) (Some (0, Some demo_bad_queue, Some message_zero)) =
  Some (-2, Some demo_bad_queue, Some (pq_messages demo_bad_queue !!! 0%nat)).
Proof.
  apply (bad_head_blocks_queue [] init_crc32_table 524288 demo_bad_queue message_zero 1); [cbn; lia|].
  eexists. split; [vm_compute; reflexivity|]. vm_compute. discriminate.
Defined.
