(* ===== verification/Syscall.v ===== *)
(** * System calls: kernel/syscall/syscall.c

    The dispatcher over everything a user program can reach: the world of
    the IPC calls with its memory, the scheduler's cursor and the console.
    There is one memory, the socket layer's: what a handler stores is there
    for the callee, and what the socket layer writes into the heap is there
    for a handler that reads it.  [None] is a data abort in the kernel, a
    fault in a callee, or an access whose effect the model does not say: to a
    device register, or a store onto a block that holds, or may come to hold
    during the call, one of the socket layer's objects. *)
From stdpp Require Import strings.
From S2P Require Import Prelude Types Circular Ring Auditor Tasks Scheduler DomainGraph Security MemUtils BlockAlloc Crc Nng Ipc Pool Channels Frames Mmu.

Definition SYS_WRITE : Z := 1.
Definition SYS_IPC_SEND : Z := 2.
Definition SYS_EXIT : Z := 3.
Definition SYS_CREATE_TASK : Z := 4.
Definition SYS_YIELD : Z := 5.

Record ksys := KSys {
  k_world : world;
  k_cursor : Z;
  k_console : list Z;
  k_bootstrap : Z
}.
Definition k_mem (s : ksys) : gmap Z Z := memory (k_world s).
Definition with_world w (s : ksys) : ksys := KSys w (k_cursor s) (k_console s) (k_bootstrap s).
Definition with_kmem m (s : ksys) : ksys := with_world (with_memory m (k_world s)) s.
Definition with_console c (s : ksys) : ksys := KSys (k_world s) (k_cursor s) c (k_bootstrap s).
Definition with_ktasks ts (s : ksys) : ksys :=
  with_world (World ts (w_graph (k_world s)) (w_auditor (k_world s)) (w_channels (k_world s)) (w_nng (k_world s))) s.
Definition with_sched (sc : sched_state) (s : ksys) : ksys :=
  let s := with_ktasks (sc_ts sc) s in KSys (k_world s) (sc_cursor sc) (k_console s) (k_bootstrap s).
Definition k_tasks (s : ksys) : task_state := w_tasks (k_world s).
Definition k_sched (s : ksys) : sched_state := Sched (k_tasks s) (k_cursor s).

(** [arg < 0x400000 || arg > 0x7FFFFFFF], negated. *)
Definition user_pointer (a : Z) : bool := negb ((a <? 4194304) || (a >? 2147483647)).

(** ** Structures in memory *)

(** [*(message_t* )a] *)
Definition load_message (m : gmap Z Z) (a : Z) : message_t :=
  Message (ld32 m a) (ld32 m (a + 4)) (ld32 m (a + 8)) (ld32 m (a + 12)) (load m (a + 16) 128).
Definition message_bytes (x : message_t) : list Z :=
  le_bytes 4 (m_priority x) ++ le_bytes 4 (m_operation x) ++ le_bytes 4 (m_checksum x) ++
  le_bytes 4 (m_padding1 x) ++ m_payload x.
(** [*(task_t* )a]: 44 bytes of fields. *)
Definition load_task (m : gmap Z Z) (a : Z) : task_t :=
  Task (ld32 m a) (s32 (ld32 m (a + 4))) (ld32 m (a + 8)) (ld32 m (a + 12)) (le_val (load m (a + 16) 8))
    (le_val (load m (a + 24) 8)) (ld32 m (a + 32)) (ld32 m (a + 36)) (ld32 m (a + 40)).

Section Handler.
(** The access policy, the link address of the kernel stacks, the address of
    the conversion's locals, and the addresses the kernel can access. *)
Context (rt : regions) (stacks local : Z) (maps : Z -> bool).

Definition mapped (a : Z) (n : nat) : bool := forallb (fun i => maps (u32 (a + Z.of_nat i))) (seq 0 n).

(** The range meets the device section of arm_mmu.c. *)
Definition device_range (a n : Z) : bool := (a <? 270532608) && (269484032 <? a + n).
(** It can be read as memory. *)
Definition readable (a n : Z) : bool := mapped a (Z.to_nat n) && negb (device_range a n).
(** It can be stored to as memory, with no effect on the objects of the
    socket layer: not on a block in use, nor on the class the messages of a
    send are allocated from. *)
Definition block_meets (a n : Z) (b : mem_block_t) : bool := (b_address b <? a + n) && (a <? b_address b + b_size b).
Definition meets_messages (al : allocator) (a n : Z) : bool :=
  existsb (block_meets a n) (al_blocks al !!! 0%nat) ||
  existsb (existsb (fun b => b_in_use b && block_meets a n b)) (al_blocks al).
Definition writable (s : ksys) (a n : Z) : bool :=
  readable a n && negb (meets_messages (ng_alloc (w_nng (k_world s))) a n).

(** [console_write]: one character after the other. *)
Definition console_write (a : Z) (len : Z) (s : ksys) : option ksys :=
  if readable a len then Some (with_console (k_console s ++ load (k_mem s) a (Z.to_nat len)) s) else None.

Definition sys_write (arg1 arg2 : Z) (s : ksys) : option ksys :=
  if arg1 =? 0 then Some s
  else if negb (user_pointer arg1) then Some s
  else console_write arg1 (if arg2 >? 1024 then 1024 else arg2) s.

Definition sys_ipc_send (arg1 arg2 : Z) (s : ksys) : option ksys :=
  if arg2 =? 0 then Some s
  else if negb (user_pointer arg2) then Some s
  else if k_bootstrap s <? 0 then Some s
  else if negb (writable s arg2 144) then None
  else
    let m := store (k_mem s) (arg2 + 4) (le_bytes 4 arg1) in
    let m := stb m (arg2 + MSG_PAYLOAD_OFF + 127) 0 in
    '(_, w, msg) ← ipc_send rt arg2 local (with_memory m (k_world s)) (k_bootstrap s) (Some (load_message m arg2));
    let m := match msg with Some x => store (memory w) arg2 (message_bytes x) | None => memory w end in
    Some (with_world (with_memory m (with_auditor (auditor_tick (w_auditor w)) w)) s).

Definition sys_exit (arg1 : Z) (s : ksys) : option ksys :=
  match ts_current (k_tasks s) with
  | None => Some s
  | Some c =>
      t ← ts_tasks (k_tasks s) !! c;
      let w := k_world s in
      let s := with_world (with_auditor (auditor_task_exit (w_auditor w) (t_task_id t) (s32 arg1)) w) s in
      let s := with_ktasks (set_tasks (<[c := set_state TASK_TERMINATED t]> (ts_tasks (k_tasks s))) (k_tasks s)) s in
      Some (with_sched (rr_remove_task (k_sched s) (t_task_id t)).2 s)
  end.

Definition sys_create_task (arg1 : Z) (s : ksys) : option ksys :=
  if (arg1 =? 0) || negb (user_pointer arg1) then Some s
  else if negb (readable arg1 44) then None
  else
    let '(_, ts, au, _) := create_task stacks (k_tasks s) (w_auditor (k_world s)) (Some (load_task (k_mem s) arg1)) in
    let w := k_world s in
    Some (with_world (World ts (w_graph w) au (w_channels w) (w_nng w)) s).

Definition sys_yield (s : ksys) : option ksys :=
  s ← match ts_current (k_tasks s) with
      | None => Some s
      | Some c =>
          t ← ts_tasks (k_tasks s) !! c;
          Some (if t_state t =? TASK_RUNNING
                then with_ktasks (set_tasks (<[c := set_state TASK_READY t]> (ts_tasks (k_tasks s))) (k_tasks s)) s
                else s)
      end;
  '(_, _, sc) ← rr_schedule (k_sched s) true;
  Some (with_sched sc s).

(** An unknown number is only logged. *)
Definition syscall_handler (num arg1 arg2 arg3 : Z) (s : ksys) : option ksys :=
  if num =? SYS_WRITE then sys_write arg1 arg2 s
  else if num =? SYS_IPC_SEND then sys_ipc_send arg1 arg2 s
  else if num =? SYS_EXIT then sys_exit arg1 s
  else if num =? SYS_CREATE_TASK then sys_create_task arg1 s
  else if num =? SYS_YIELD then sys_yield s
  else Some s.
End Handler.

(** ** Scheduling as task steps *)
Section Steps.
Context (stacks : Z).

(** Changing the states of live entries, one after the other. *)
Lemma restate_steps ts l :
  length l = length (ts_tasks ts) ->
  (forall i t, ts_tasks ts !! i = Some t ->
     l !! i = Some t \/ ((i < Z.to_nat (ts_count ts))%nat /\ exists s, l !! i = Some (set_state s t))) ->
  rtc (task_step stacks) ts (set_tasks l ts).
Proof.
  intros Hlen Hl.
  assert (H : forall k, (k <= length l)%nat ->
    rtc (task_step stacks) ts (set_tasks (take k l ++ drop k (ts_tasks ts)) ts)).
  { induction k as [|k IH]; intros Hk; [by destruct ts|].
    destruct (lookup_lt_is_Some_2 (ts_tasks ts) k) as [t Ht]; [lia|].
    assert (Hk' : forall x, take k l ++ x :: drop (S k) (ts_tasks ts) = <[k := x]> (take k l ++ drop k (ts_tasks ts))).
    { intros x. rewrite (drop_S _ t k Ht), insert_app_r_alt by (rewrite length_take; lia).
      by rewrite length_take, Nat.min_l, Nat.sub_diag by lia. }
    destruct (Hl k t Ht) as [Hx|[Hlive [s Hx]]]; rewrite (take_S_r _ _ _ Hx), <-app_assoc; cbn [app].
    - rewrite <-(drop_S _ t k Ht). apply IH. lia.
    - eapply rtc_r; [apply IH; lia|]. rewrite Hk'.
      apply (step_state stacks (set_tasks (take k l ++ drop k (ts_tasks ts)) ts) k t s).
      apply live_lookup. cbn [ts_tasks ts_count set_tasks]. split; [|done].
      rewrite lookup_app_r by (rewrite length_take; lia). rewrite length_take, Nat.min_l, Nat.sub_diag by lia.
      by rewrite (drop_S _ t k Ht). }
  specialize (H (length l) (le_n _)). by rewrite take_ge, drop_ge, app_nil_r in H by lia.
Qed.

Lemma rr_scan_table k n t c rv next t' c' :
  rr_scan k n t c = Some (rv, next, t', c') ->
  t' = t \/ exists i x, Z.of_nat i < n /\ t !! i = Some x /\ t_state x = TASK_READY /\ t' = <[i := set_state TASK_RUNNING x]> t.
Proof.
  revert c. induction k as [|k IH]; intros c Hs; cbn [rr_scan] in Hs; [left; congruence|].
  destruct (_ =? _); [done|]. destruct (slot_at t n _) as [x|] eqn:Ex; [|done].
  destruct (t_state x =? TASK_READY) eqn:Er; [|by eapply IH]. right. injection Hs as _ _ <- _.
  unfold slot_at in Ex. destruct (_ && _)%bool eqn:E; [|done]. bools. do 2 eexists. split; [|split; [exact Ex|by split]]. lia.
Qed.

Lemma rr_schedule_steps s rv next s' :
  rr_schedule s true = Some (rv, next, s') -> rtc (task_step stacks) (sc_ts s) (sc_ts s').
Proof.
  unfold rr_schedule, rr_schedule_on. cbn [negb]. intros Hs.
  destruct (_ <=? 0); [cbn in Hs; injection Hs as _ _ <-; by destruct (sc_ts s)|].
  set (n := ts_count (sc_ts s)) in *. set (y := yield_running n (ts_tasks (sc_ts s))) in *.
  assert (Hy : rtc (task_step stacks) (sc_ts s) (set_tasks y (sc_ts s))).
  { apply restate_steps; [apply length_yield|]. intros i t Ht. unfold y, yield_running.
    rewrite list_lookup_imap, Ht. cbn. destruct (_ && _)%bool eqn:E; [|by left]. bools.
    right. split; [lia|]. by eexists. }
  destruct (rr_scan _ _ _ _) as [[[[rv1 next1] t'] c']|] eqn:Er; [|done]. cbn in Hs. injection Hs as _ _ <-.
  cbn [sc_ts]. apply rr_scan_table in Er as [->|(i & x & Hi & Hx & _ & ->)]; [done|].
  eapply rtc_r; [exact Hy|]. apply (step_state stacks (set_tasks y (sc_ts s)) i x TASK_RUNNING).
  apply live_lookup. cbn. fold n. split; [done|lia].
Qed.

Lemma rr_remove_steps s id : rtc (task_step stacks) (sc_ts s) (sc_ts (rr_remove_task s id).2).
Proof.
  unfold rr_remove_task. destruct (task_find _ _) as [i|] eqn:Ef; [|done]. cbn [snd sc_ts].
  unfold task_find in Ef. destruct (id =? 0); [done|].
  apply findi_Some in Ef as [(t & Ht & _) _]. apply rtc_once.
  apply live_lookup in Ht as Hl. destruct Hl as [Hl _]. rewrite (lookup_total_Some _ _ _ Hl). by apply step_state.
Qed.

Lemma rr_remove_cursor s id : cursor_ok (sc_cursor s) -> tasks_wf (sc_ts s) -> cursor_ok (sc_cursor (rr_remove_task s id).2).
Proof.
  intros Hc Hw. pose proof (tw_count _ Hw). unfold rr_remove_task. destruct (task_find _ _); [|done]. cbn.
  destruct (_ && _)%bool; [|done]. unfold cursor_ok, INT_MAX, MAX_TASKS in *. lia.
Qed.
End Steps.

(** ** What a user program can bring about *)
Section Reachable.
Context (rt : regions) (stacks local : Z) (maps : Z -> bool).

Lemma world_task_steps w ts :
  rtc (task_step stacks) (w_tasks w) ts ->
  rtc (world_step rt stacks) w (World ts (w_graph w) (w_auditor w) (w_channels w) (w_nng w)).
Proof.
  intros Hr. remember (w_tasks w) as t0 eqn:E. revert w E. induction Hr as [ts|ts1 ts2 ts3 Hs _ IH]; intros w ->.
  - by destruct w.
  - eapply rtc_l; [apply ws_task; exact Hs|]. apply (IH (World ts2 _ _ _ _) eq_refl).
Qed.

Abbreviation handle := (syscall_handler rt stacks local maps).

(** States the kernel can be in when user code traps. *)
Record ksys_ok (s : ksys) : Prop := {
  ko_world : world_reachable rt stacks (k_world s);
  ko_cursor : cursor_ok (k_cursor s)
}.

Lemma ksys_tasks s : ksys_ok s -> tasks_wf (k_tasks s).
Proof. intros [Hw _]. apply (cw_tasks _ (world_reachable_wf _ _ _ Hw)). Qed.

Lemma reachable_steps w w' :
  world_reachable rt stacks w -> rtc (world_step rt stacks) w w' -> world_reachable rt stacks w'.
Proof. intros (au & al & Hr) Hs. exists au, al. by etransitivity. Qed.

Lemma store_reachable w m : world_reachable rt stacks w -> world_reachable rt stacks (with_memory m w).
Proof. intros Hw. eapply reachable_steps; [exact Hw|]. apply rtc_once, ws_mem. Qed.

Lemma with_ktasks_ok s ts : ksys_ok s -> rtc (task_step stacks) (k_tasks s) ts -> ksys_ok (with_ktasks ts s).
Proof. intros [Hw Hc] Hr. split; [|done]. eapply reachable_steps; [exact Hw|]. by apply world_task_steps. Qed.

Lemma with_sched_ok s sc :
  ksys_ok s -> rtc (task_step stacks) (k_tasks s) (sc_ts sc) -> cursor_ok (sc_cursor sc) -> ksys_ok (with_sched sc s).
Proof. intros Hs Hr Hc. destruct (with_ktasks_ok s (sc_ts sc) Hs Hr) as [Hw _]. by split. Qed.

Lemma current_slot s c :
  tasks_wf (k_tasks s) -> ts_current (k_tasks s) = Some c ->
  exists t, ts_tasks (k_tasks s) !! c = Some t /\ live (k_tasks s) !! c = Some t.
Proof.
  intros Hw Hc. destruct (current_live _ Hw) as (c' & t & Hc' & _ & Hl). simplify_eq.
  exists t. split; [by apply live_lookup in Hl as []|done].
Qed.

Lemma restate_current_ok s c t st :
  ksys_ok s -> live (k_tasks s) !! c = Some t ->
  ksys_ok (with_ktasks (set_tasks (<[c := set_state st t]> (ts_tasks (k_tasks s))) (k_tasks s)) s).
Proof. intros Hs Hl. apply with_ktasks_ok; [done|]. by apply rtc_once, step_state. Qed.

Lemma sys_exit_ok a s : ksys_ok s -> exists s', sys_exit a s = Some s' /\ ksys_ok s'.
Proof.
  intros Hs. unfold sys_exit. destruct (ts_current (k_tasks s)) as [c|] eqn:Ec; [|by exists s].
  destruct (current_slot s c (ksys_tasks s Hs) Ec) as (t & Ht & Hl). rewrite Ht. cbn [mbind option_bind].
  eexists. split; [reflexivity|]. cbv zeta.
  match goal with |- context [with_world (with_auditor ?au ?w) s] => set (s1 := with_world (with_auditor au w) s) end.
  assert (Hs1 : ksys_ok s1).
  { split; [|apply Hs]. eapply reachable_steps; [apply Hs|]. apply rtc_once, ws_audit. }
  change (k_tasks s) with (k_tasks s1) in Hl.
  pose proof (restate_current_ok s1 c t TASK_TERMINATED Hs1 Hl) as Hs2. set (s2 := with_ktasks _ s1) in *.
  apply with_sched_ok; [done|apply (rr_remove_steps stacks (k_sched s2))|].
  apply rr_remove_cursor; [apply Hs2|by apply ksys_tasks].
Qed.

Lemma sys_yield_ok s : ksys_ok s -> exists s', sys_yield s = Some s' /\ ksys_ok s'.
Proof.
  intros Hs. unfold sys_yield.
  assert (H1 : exists s1, (match ts_current (k_tasks s) with
      | None => Some s
      | Some c =>
          t ← ts_tasks (k_tasks s) !! c;
          Some (if t_state t =? TASK_RUNNING
                then with_ktasks (set_tasks (<[c := set_state TASK_READY t]> (ts_tasks (k_tasks s))) (k_tasks s)) s
                else s)
      end) = Some s1 /\ ksys_ok s1).
  { destruct (ts_current (k_tasks s)) as [c|] eqn:Ec; [|by exists s].
    destruct (current_slot s c (ksys_tasks s Hs) Ec) as (t & -> & Hl). cbn [mbind option_bind].
    eexists. split; [reflexivity|]. destruct (_ =? _); [by apply restate_current_ok|done]. }
  destruct H1 as (s1 & -> & Hs1). cbn [mbind option_bind].
  assert (Hw : sched_wf (k_sched s1)) by (split; [by apply ksys_tasks|apply Hs1]).
  destruct (rr_schedule_result _ Hw) as (sc & Hr & _). rewrite Hr. cbn [mbind option_bind].
  eexists. split; [reflexivity|]. apply with_sched_ok; [done| |].
  - by apply (rr_schedule_steps stacks (k_sched s1)) in Hr.
  - apply (sw_cursor sc). by apply (rr_schedule_wf _ _ _ _ Hw Hr).
Qed.

Lemma sys_send_ok a1 a2 s s' : ksys_ok s -> sys_ipc_send rt local maps a1 a2 s = Some s' -> ksys_ok s'.
Proof.
  intros Hs. unfold sys_ipc_send. destruct (_ =? 0); [intros Hx; apply Some_inj in Hx; subst s'; exact Hs|].
  destruct (negb _); [intros Hx; apply Some_inj in Hx; subst s'; exact Hs|]. destruct (_ <? _); [intros Hx; apply Some_inj in Hx; subst s'; exact Hs|].
  destruct (negb _); [discriminate|]. cbv zeta.
  set (m := stb _ _ _).
  destruct (ipc_send _ _ _ _ _ _) as [[[rv w] msg]|] eqn:Es; cbn [mbind option_bind]; [|discriminate].
  intros Hx. apply Some_inj in Hx; subst s'.
  split; [|apply Hs]. eapply reachable_steps; [apply Hs|].
  eapply rtc_l; [apply (ws_mem _ _ _ m)|]. eapply rtc_l; [eapply ws_send; exact Es|].
  eapply rtc_l; [apply ws_audit|]. apply rtc_once, ws_mem.
Qed.

Lemma sys_create_ok a s s' : ksys_ok s -> sys_create_task stacks maps a s = Some s' -> ksys_ok s'.
Proof.
  intros Hs. unfold sys_create_task. destruct (_ || _); [intros Hx; apply Some_inj in Hx; subst s'; exact Hs|].
  destruct (negb _); [discriminate|].
  pose proof (step_create stacks (k_tasks s) (w_auditor (k_world s)) (Some (load_task (k_mem s) a))) as Hst.
  destruct (create_task _ _ _ _) as [[[rv ts] au] sp]. cbn [fst snd] in Hst. intros Hx. apply Some_inj in Hx; subst s'.
  split; [|apply Hs]. eapply reachable_steps; [apply Hs|].
  eapply rtc_l; [apply ws_task; exact Hst|]. apply rtc_once.
  apply (ws_audit rt stacks (World ts (w_graph (k_world s)) (w_auditor (k_world s)) (w_channels (k_world s)) (w_nng (k_world s)))).
Qed.
End Reachable.

(** ** What a system call cannot change *)
Section Policy.
Context (rt : regions) (stacks local : Z) (maps : Z -> bool).
Abbreviation handle := (syscall_handler rt stacks local maps).

(** An entry of the task table keeps its identity, and stays terminated once
    it is. *)
Definition slot_kept (t t' : task_t) : Prop :=
  same_identity t t' /\ (t_state t = TASK_TERMINATED -> t_state t' = TASK_TERMINATED).
Record table_kept (ts ts' : task_state) : Prop := {
  tk_current : ts_current ts' = ts_current ts;
  tk_slots : forall i t, live ts !! i = Some t -> exists t', live ts' !! i = Some t' /\ slot_kept t t'
}.
Record policy_kept (s s' : ksys) : Prop := {
  pk_graph : w_graph (k_world s') = w_graph (k_world s);
  pk_channels : w_channels (k_world s') = w_channels (k_world s);
  pk_bootstrap : k_bootstrap s' = k_bootstrap s;
  pk_table : table_kept (k_tasks s) (k_tasks s')
}.

#[export] Instance slot_kept_preorder : PreOrder slot_kept.
Proof. split; [by split|]. intros t u v [H1 H2] [H3 H4]. split; [by etransitivity|auto]. Qed.
#[export] Instance table_kept_preorder : PreOrder table_kept.
Proof.
  split; [intros ts; split; [done|]; intros i t Hi; by exists t|]. intros a b c [C1 S1] [C2 S2]. split; [congruence|].
  intros i t Hi. destruct (S1 i t Hi) as (u & Hu & K1). destruct (S2 i u Hu) as (v & Hv & K2).
  exists v. split; [done|by etransitivity].
Qed.
#[export] Instance policy_kept_preorder : PreOrder policy_kept.
Proof.
  split; [intros s; by split|]. intros a b c [] []. split; [congruence..|by etransitivity].
Qed.

(** Replacing entries, each by one that keeps it. *)
Lemma restate_kept ts l :
  (forall i t, ts_tasks ts !! i = Some t -> exists t', l !! i = Some t' /\ slot_kept t t') ->
  table_kept ts (set_tasks l ts).
Proof.
  intros Hl. split; [done|]. intros i t [Ht Hi]%live_lookup. destruct (Hl i t Ht) as (t' & Ht' & Hk).
  exists t'. split; [|done]. by apply live_lookup.
Qed.
Lemma restate_one_kept ts i t st :
  ts_tasks ts !! i = Some t -> (t_state t = TASK_TERMINATED -> st = TASK_TERMINATED) ->
  table_kept ts (set_tasks (<[i := set_state st t]> (ts_tasks ts)) ts).
Proof.
  intros Hi Hst. apply restate_kept. intros j u Hj. destruct (decide (i = j)) as [<-|Hne].
  - rewrite list_lookup_insert_eq by (by eapply lookup_lt_Some). simplify_eq. eexists; split; [done|]. by split.
  - rewrite list_lookup_insert_ne by done. by exists u.
Qed.

Lemma rr_remove_kept s id : table_kept (sc_ts s) (sc_ts (rr_remove_task s id).2).
Proof.
  unfold rr_remove_task. destruct (task_find _ _) as [i|] eqn:Ef; [|done]. cbn [snd sc_ts].
  unfold task_find in Ef. destruct (id =? 0); [done|]. apply findi_Some in Ef as [(t & Ht & _) _].
  apply live_lookup in Ht as [Ht _]. rewrite (lookup_total_Some _ _ _ Ht). by apply restate_one_kept.
Qed.

Lemma rr_schedule_kept s rv next s' : rr_schedule s true = Some (rv, next, s') -> table_kept (sc_ts s) (sc_ts s').
Proof.
  unfold rr_schedule, rr_schedule_on. cbn [negb]. intros Hs.
  destruct (_ <=? 0); [cbn in Hs; injection Hs as _ _ <-; by destruct (sc_ts s)|].
  destruct (rr_scan _ _ _ _) as [[[[rv1 next1] t'] c']|] eqn:Er; [|done]. cbn in Hs. injection Hs as _ _ <-.
  cbn [sc_ts]. set (y := yield_running _ _) in *.
  assert (Hy : table_kept (sc_ts s) (set_tasks y (sc_ts s))).
  { apply restate_kept. intros i t Ht. unfold y, yield_running. rewrite list_lookup_imap, Ht. cbn.
    eexists. split; [reflexivity|]. destruct (_ && _)%bool eqn:E; [|done]. bools. split; [done|].
    intros Hx. rewrite Hx in *. done. }
  apply rr_scan_table in Er as [->|(i & x & _ & Hx & Hrd & ->)]; [done|]. etransitivity; [exact Hy|].
  apply (restate_one_kept (set_tasks y (sc_ts s)) i x TASK_RUNNING Hx). rewrite Hrd. done.
Qed.

Lemma create_kept ts au sp : tasks_wf ts -> table_kept ts (create_task stacks ts au sp).1.1.2.
Proof.
  intros Hw. destruct (create_task_cases stacks ts au sp Hw)
    as [(rv & -> & _)|(sp0 & cur & ts' & au' & sp' & t & -> & -> & Hcr)]; [done|].
  split; [apply Hcr|]. intros i u Hi. exists u. split; [|done]. cbn.
  rewrite (cr_live _ _ _ _ _ _ _ _ _ Hcr). by apply lookup_app_l_Some.
Qed.

(** Sending writes the sockets, the auditor and the message's own header. *)
Lemma ipc_send_keeps at_ l w id m rv w' msg' :
  ipc_send rt at_ l w id (Some m) = Some (rv, w', msg') ->
  w_tasks w' = w_tasks w /\ w_graph w' = w_graph w /\ w_channels w' = w_channels w /\
  exists m', msg' = Some m' /\ m_operation m' = m_operation m /\ length (m_payload m') = length (m_payload m).
Proof.
  unfold ipc_send. destruct (negb (channel_ok w id)).
  { intros Hx. simplify_eq. split_and!; try done. by eexists. }
  cbv zeta. destruct (negb (_ =? _)).
  { set (r := if negb _ then _ else _).
    destruct (emit_deny_auditor w id (-1) (m_operation m) r (u8 (m_priority m))) as [a ->].
    intros Hx. simplify_eq. split_and!; try done. by eexists. }
  set (m1 := set_checksum _ _). assert (Hop : m_operation m1 = m_operation m) by done.
  assert (Hlen : length (m_payload m1) = length (m_payload m)) by apply length_insert. clearbody m1.
  destruct (lugh_message_to_nng rt (w_nng w) m1 at_ l) as [[[rv1 p] n]|]; cbn [mbind option_bind]; [|done].
  destruct (negb (rv1 =? NNG_OK)); [intros Hx; simplify_eq; split_and!; try done; by eexists|].
  destruct (au_enabled _); destruct (nng_send rt _ _ _ p) as [[rv2 n2]|]; cbn [mbind option_bind]; try done;
    destruct (negb (rv2 =? NNG_OK)); intros Hx; simplify_eq; split_and!; try done; by eexists.
Qed.

Lemma send_kept a1 a2 s s' : sys_ipc_send rt local maps a1 a2 s = Some s' -> policy_kept s s'.
Proof.
  unfold sys_ipc_send. destruct (_ =? 0); [intros Hx; apply Some_inj in Hx; by subst|].
  destruct (negb _); [intros Hx; apply Some_inj in Hx; by subst|].
  destruct (_ <? _); [intros Hx; apply Some_inj in Hx; by subst|].
  destruct (negb _); [discriminate|]. cbv zeta. set (m := stb _ _ _). clearbody m.
  destruct (ipc_send _ _ _ _ _ _) as [[[rv w] msg]|] eqn:Es; cbn [mbind option_bind]; [|discriminate].
  apply ipc_send_keeps in Es as (Ht & Hg & Hc & _). intros Hx. apply Some_inj in Hx. subst s'.
  split; [exact Hg|exact Hc|reflexivity|]. unfold k_tasks. cbn. by rewrite Ht.
Qed.

Lemma exit_kept a s s' : ksys_ok rt stacks s -> sys_exit a s = Some s' -> policy_kept s s'.
Proof.
  intros Hs. unfold sys_exit. destruct (ts_current (k_tasks s)) as [c|] eqn:Ec; [|by intros [= <-]].
  destruct (current_slot s c (ksys_tasks _ _ s Hs) Ec) as (t & Ht & Hl). rewrite Ht. cbn [mbind option_bind].
  intros Hx. apply Some_inj in Hx. subst s'. split; [reflexivity..|]. etransitivity; [|apply rr_remove_kept].
  by apply restate_one_kept.
Qed.

Lemma yield_kept s s' : ksys_ok rt stacks s -> sys_yield s = Some s' -> policy_kept s s'.
Proof.
  intros Hs. unfold sys_yield.
  destruct (ts_current (k_tasks s)) as [c|] eqn:Ec; cbn [mbind option_bind].
  - destruct (current_slot s c (ksys_tasks _ _ s Hs) Ec) as (t & Ht & Hl). rewrite Ht. cbn [mbind option_bind].
    set (s1 := if _ =? _ then _ else s).
    assert (Hs1 : policy_kept s s1).
    { unfold s1. destruct (_ =? _) eqn:E; [|done]. bools. split; [reflexivity..|].
      apply restate_one_kept; [done|]. rewrite E. done. }
    clearbody s1. destruct (rr_schedule (k_sched s1) true) as [[[rv nx] sc]|] eqn:Er; cbn [mbind option_bind]; [|done].
    intros Hx. apply Some_inj in Hx. subst s'. etransitivity; [exact Hs1|]. split; [reflexivity..|].
    exact (rr_schedule_kept _ _ _ _ Er).
  - destruct (rr_schedule (k_sched s) true) as [[[rv nx] sc]|] eqn:Er; cbn [mbind option_bind]; [|done].
    intros Hx. apply Some_inj in Hx. subst s'. split; [reflexivity..|]. exact (rr_schedule_kept _ _ _ _ Er).
Qed.

Lemma create_call_kept a s s' : ksys_ok rt stacks s -> sys_create_task stacks maps a s = Some s' -> policy_kept s s'.
Proof.
  intros Hs. unfold sys_create_task. destruct (_ || _); [intros Hx; apply Some_inj in Hx; by subst|].
  destruct (negb _); [discriminate|].
  pose proof (create_kept (k_tasks s) (w_auditor (k_world s)) (Some (load_task (k_mem s) a)) (ksys_tasks _ _ s Hs)) as Hk.
  destruct (create_task _ _ _ _) as [[[rv ts] au] sp]. cbn [fst snd] in Hk.
  intros Hx. apply Some_inj in Hx. subst s'. by split.
Qed.

Lemma write_same a n s s' :
  sys_write maps a n s = Some s' ->
  k_world s' = k_world s /\ k_cursor s' = k_cursor s /\ k_bootstrap s' = k_bootstrap s.
Proof.
  unfold sys_write, console_write. repeat (destruct (_ =? 0); [by intros [= <-]|]).
  destruct (negb _); [by intros [= <-]|]. destruct (readable _ _ _); [|done]. by intros [= <-].
Qed.

(** Every system call, on every branch. *)
Lemma syscall_kept num a1 a2 a3 s s' :
  ksys_ok rt stacks s -> handle num a1 a2 a3 s = Some s' -> ksys_ok rt stacks s' /\ policy_kept s s'.
Proof.
  intros Hs. unfold syscall_handler. destruct (num =? SYS_WRITE).
  { intros (Hw & Hc & Hb)%write_same. destruct Hs. split; split; [congruence..|]. unfold k_tasks. by rewrite Hw. }
  destruct (num =? SYS_IPC_SEND).
  { intros Hx. split; [by eapply sys_send_ok|by eapply send_kept]. }
  destruct (num =? SYS_EXIT).
  { intros Hx. split; [|by eapply exit_kept]. destruct (sys_exit_ok rt stacks a1 s Hs) as (s1 & H1 & Hok). congruence. }
  destruct (num =? SYS_CREATE_TASK).
  { intros Hx. split; [by eapply sys_create_ok|by eapply create_call_kept]. }
  destruct (num =? SYS_YIELD).
  { intros Hx. split; [|by eapply yield_kept]. destruct (sys_yield_ok rt stacks s Hs) as (s1 & H1 & Hok). congruence. }
  intros Hx. apply Some_inj in Hx. by subst.
Qed.

(** A run of system calls with any numbers and arguments. *)
Definition calls : ksys -> ksys -> Prop := rtc (fun s s' => exists num a1 a2 a3, handle num a1 a2 a3 s = Some s').

Lemma calls_kept s s' : ksys_ok rt stacks s -> calls s s' -> ksys_ok rt stacks s' /\ policy_kept s s'.
Proof.
  intros Hs Hr. induction Hr as [s|s1 s2 s3 (num & a1 & a2 & a3 & H1) _ IH]; [by split|].
  destruct (syscall_kept _ _ _ _ _ _ Hs H1) as [Hs2 K]. destruct (IH Hs2). split; [done|by etransitivity].
Qed.
End Policy.

(** The scheduler never elects a terminated task. *)
Lemma rr_schedule_elects s id sc c t :
  sched_wf s -> rr_schedule s true = Some (0, Some id, sc) ->
  live (sc_ts s) !! c = Some t -> t_state t = TASK_TERMINATED -> id <> t_task_id t.
Proof.
  intros Hs Hr Hc Ht Hid. destruct (rr_schedule_result s Hs) as (s' & Hr' & _). rewrite Hr in Hr'.
  destruct (findi runnable (rotation s)) as [d|] eqn:Ef; [|discriminate Hr'].
  assert (Hn : id = t_task_id (live (sc_ts s) !!! rotation_slot s d)) by congruence. clear Hr Hr'.
  apply findi_Some in Ef as [(x & Hx & Hrun) _].
  assert (Hd : (d < Z.to_nat (ts_count (sc_ts s)))%nat).
  { apply lookup_lt_Some in Hx. unfold rotation, window in Hx.
    by rewrite length_fmap, length_seq in Hx. }
  rewrite rotation_lookup in Hx by done. rewrite (lookup_total_Some _ _ _ Hx) in Hn.
  assert (rotation_slot s d = c) as <- by (eapply live_id_inj; [apply Hs|done|done|congruence]).
  simplify_eq. unfold runnable in Hrun. rewrite Ht in Hrun. discriminate Hrun.
Qed.

(** C37: Exit is final.  A task that calls SYS_EXIT is TERMINATED when the
    call returns and after any further system calls, those of its own
    included: none of them revives it, and the scheduler elects another task
    or nobody. *)
Theorem exit_is_final (rt : regions) (stacks local : Z) (maps : Z -> bool) (s s' : ksys)
    (c : nat) (t : task_t) (a1 a2 a3 : Z) :
  ksys_ok rt stacks s -> ts_current (k_tasks s) = Some c -> live (k_tasks s) !! c = Some t ->
  exists s1, syscall_handler rt stacks local maps SYS_EXIT a1 a2 a3 s = Some s1 /\
    (calls rt stacks local maps s1 s' ->
     exists t', live (k_tasks s') !! c = Some t' /\ same_identity t t' /\ t_state t' = TASK_TERMINATED /\
       forall id sc, rr_schedule (k_sched s') true = Some (0, Some id, sc) -> id <> t_task_id t).
Proof.
  intros Hs Hc Hl. destruct (sys_exit_ok rt stacks a1 s Hs) as (s1 & H1 & Hs1). exists s1. split; [exact H1|].
  intros Hcalls. destruct (calls_kept _ _ _ _ _ _ Hs1 Hcalls) as [Hs' K].
  assert (Ht1 : exists t1, live (k_tasks s1) !! c = Some t1 /\ slot_kept (set_state TASK_TERMINATED t) t1).
  { unfold sys_exit in H1. rewrite Hc in H1. apply live_lookup in Hl as [Hl Hlive]. rewrite Hl in H1.
    cbn [mbind option_bind] in H1. apply Some_inj in H1. subst s1. apply rr_remove_kept.
    apply live_lookup. split; [|exact Hlive]. apply list_lookup_insert_eq. by eapply lookup_lt_Some. }
  destruct Ht1 as (t1 & Ht1 & Hi1 & Hterm1). destruct (tk_slots _ _ (pk_table _ _ K) c t1 Ht1) as (t' & Ht' & Hi' & Hterm').
  assert (Hid : same_identity t t') by (etransitivity; [|exact Hi']; etransitivity; [|exact Hi1]; reflexivity).
  exists t'. split_and!; [done|done|by auto|]. intros id sc Hr.
  assert (Hw : sched_wf (k_sched s')) by (split; [by eapply ksys_tasks|apply Hs']).
  assert (t_task_id t = t_task_id t') as -> by (unfold same_identity, identity in Hid; congruence).
  eapply rr_schedule_elects; [exact Hw|exact Hr|exact Ht'|auto].
Qed.

(** ** The pointer test against the address map *)

Lemma load_store_ne m a bs b :
  0 <= a -> a + Z.of_nat (length bs) <= 4294967296 -> 0 <= b < 4294967296 ->
  (b < a \/ a + Z.of_nat (length bs) <= b) -> ldb (store m a bs) b = ldb m b.
Proof.
  revert m a. induction bs as [|x bs IH]; intros m a Ha Hlen Hb Hout; [done|]. cbn [length store] in *.
  rewrite IH by lia. rewrite ldb_stb by lia. rewrite (proj2 (Z.eqb_neq b a)) by lia. done.
Qed.
Lemma load_store m a bs i x :
  0 <= a -> a + Z.of_nat (length bs) <= 4294967296 -> bs !! i = Some x ->
  ldb (store m a bs) (a + Z.of_nat i) = u8 x.
Proof.
  revert m a i. induction bs as [|y bs IH]; intros m a i Ha Hlen Hi; [done|]. cbn [length store] in *.
  destruct i as [|i]; cbn [lookup list_lookup] in Hi.
  - simplify_eq. rewrite Z.add_0_r, load_store_ne by lia. rewrite ldb_stb by lia. by rewrite Z.eqb_refl.
  - replace (a + Z.of_nat (S i)) with (a + 1 + Z.of_nat i) by lia. apply IH; [lia|lia|done].
Qed.

(** A word stored by its little-endian bytes inside a larger store. *)
Lemma ld32_store m a pre v post :
  0 <= a -> a + Z.of_nat (length pre) + 4 + Z.of_nat (length post) <= 4294967296 ->
  ld32 (store m a (pre ++ le_bytes 4 v ++ post)) (a + Z.of_nat (length pre)) = u32 v.
Proof.
  intros Ha Hlen.
  assert (H : forall k x, le_bytes 4 v !! k = Some x ->
    ldb (store m a (pre ++ le_bytes 4 v ++ post)) (a + Z.of_nat (length pre) + Z.of_nat k) = u8 x).
  { intros k x Hk. replace (a + Z.of_nat (length pre) + Z.of_nat k) with (a + Z.of_nat (length pre + k)) by lia.
    apply load_store; [done|rewrite !length_app, length_le_bytes; lia|].
    rewrite lookup_app_r by lia. replace (length pre + k - length pre)%nat with k by lia. by apply lookup_app_l_Some. }
  pose proof (H 0%nat _ eq_refl) as H0. pose proof (H 1%nat _ eq_refl) as H1.
  pose proof (H 2%nat _ eq_refl) as H2. pose proof (H 3%nat _ eq_refl) as H3.
  change (Z.of_nat 1) with 1 in H1. change (Z.of_nat 2) with 2 in H2. change (Z.of_nat 3) with 3 in H3.
  rewrite Z.add_0_r in H0. unfold ld32. rewrite H0, H1, H2, H3, !u8_u8.
  change (le_val (le_bytes 4 v) = u32 v). rewrite le_val_bytes. reflexivity.
Qed.

(** The addresses the kernel can reach under the boot map. *)
Definition kernel_maps (l1_at : Z) (m : mmu) (a : Z) : bool :=
  bool_decide (is_Some (mmu_access l1_at (arm_mmu_init l1_at m) false true a)).

Lemma kernel_maps_heap l1_at m a :
  length (mm_table m) = 4096%nat -> 0 <= a < MM_HEAP_END -> kernel_maps l1_at m a = true.
Proof.
  intros Hl Ha. unfold MM_HEAP_END in Ha. unfold kernel_maps. apply bool_decide_eq_true.
  destruct (mmu_separates l1_at m true a Hl) as [_ ->]; [lia|].
  unfold MM_HEAP_END. rewrite (proj2 (Z.ltb_lt _ _)) by lia. by eexists.
Qed.
Lemma kernel_maps_hole l1_at m a :
  length (mm_table m) = 4096%nat -> MM_HEAP_END <= a < 269484032 \/ 270532608 <= a < 4294967296 ->
  kernel_maps l1_at m a = false.
Proof.
  intros Hl Ha. unfold MM_HEAP_END in Ha. unfold kernel_maps. apply bool_decide_eq_false.
  destruct (mmu_separates l1_at m true a Hl) as [_ ->]; [lia|].
  unfold MM_HEAP_END. rewrite (proj2 (Z.ltb_ge _ _)) by lia.
  destruct (269484032 <=? a) eqn:E1; destruct (a <? 270532608) eqn:E2; bools; try lia; cbn; by intros [].
Qed.
Lemma mapped_heap l1_at m a n :
  length (mm_table m) = 4096%nat -> 0 <= a -> a + Z.of_nat n <= MM_HEAP_END -> mapped (kernel_maps l1_at m) a n = true.
Proof.
  intros Hl Ha Hn. apply forallb_forall. intros i Hi%in_seq. assert (He : MM_HEAP_END = 9437184) by done.
  rewrite u32_id by lia. apply kernel_maps_heap; [done|lia].
Qed.
Lemma readable_heap l1_at m a n :
  length (mm_table m) = 4096%nat -> 0 <= a -> 0 <= n -> a + n <= MM_HEAP_END -> readable (kernel_maps l1_at m) a n = true.
Proof.
  intros Hl Ha Hn Hend. unfold readable. rewrite mapped_heap by (done || lia). unfold MM_HEAP_END in Hend.
  unfold device_range. by rewrite (proj2 (Z.ltb_ge _ (a + n))), andb_false_r by lia.
Qed.

(** The operation [ipc_send] is given. *)
Lemma sent_operation m a op :
  4194304 <= a <= 2147483647 ->
  ld32 (stb (store m (a + 4) (le_bytes 4 op)) (a + MSG_PAYLOAD_OFF + 127) 0) (a + 4) = u32 op.
Proof.
  intros Ha. transitivity (ld32 (store m (a + 4) (le_bytes 4 op)) (a + 4)).
  - unfold MSG_PAYLOAD_OFF, ld32. rewrite !ldb_stb by lia. by rewrite !(proj2 (Z.eqb_neq _ _)) by lia.
  - pose proof (ld32_store m (a + 4) [] op [] ltac:(lia) ltac:(cbn; lia)) as Hx.
    rewrite app_nil_r, Z.add_0_r in Hx. exact Hx.
Qed.

Lemma length_message_bytes m a : length (message_bytes (load_message m a)) = 144%nat.
Proof. unfold message_bytes, load_message, load. cbn [m_priority m_operation m_checksum m_padding1 m_payload].
  by rewrite !length_app, !length_le_bytes, length_fmap, length_seq. Qed.

Lemma user_pointer_spec a : user_pointer a = true <-> 4194304 <= a <= 2147483647.
Proof.
  unfold user_pointer. rewrite Z.gtb_ltb, negb_true_iff, orb_false_iff, !Z.ltb_ge. lia.
Qed.

(** ** Calls that return *)
Section Returning.
Context (rt : regions) (stacks local : Z) (maps : Z -> bool).
Abbreviation handle := (syscall_handler rt stacks local maps).

(** The socket layer of a kernel. *)
Definition k_pool (s : ksys) : Prop := pool_ok (w_nng (k_world s)).

(** [n] bytes at [a] of the region user code can access. *)
Definition in_user (a n : Z) : Prop :=
  MM_USER_LOAD_BASE <= a /\ a + n <= MM_USER_REGION_END /\ mapped maps a (Z.to_nat n) = true.

(** The message at [a] has at most 58 characters of text. *)
Definition short_text (s : ksys) (a : Z) : Prop :=
  exists i, (i <= 58)%nat /\ ldb (k_mem s) (a + MSG_PAYLOAD_OFF + Z.of_nat i) = 0.

(** A call whose pointer the handler refuses, or that points to a buffer, a
    task_t or a message_t inside the user region, the message with a short
    text if the bootstrap channel grants its operation. *)
Definition user_call (num a1 a2 : Z) (s : ksys) : Prop :=
  (num = SYS_WRITE -> user_pointer a1 = true -> in_user a1 (Z.min a2 1024)) /\
  (num = SYS_CREATE_TASK -> user_pointer a1 = true -> in_user a1 44) /\
  (num = SYS_IPC_SEND -> user_pointer a2 = true -> 0 <= k_bootstrap s -> in_user a2 144 /\
     (send_granted (k_world s) (k_bootstrap s) (u32 a1) = true -> short_text s a2)).

Lemma in_user_readable a n : 0 <= n -> in_user a n -> readable maps a n = true.
Proof.
  unfold MM_USER_LOAD_BASE, MM_USER_REGION_END. intros Hn (Ha & Hend & Hm). unfold MM_USER_REGION_END in *. unfold readable, device_range.
  rewrite Hm, (proj2 (Z.ltb_ge _ (a + n))) by lia. by rewrite andb_false_r.
Qed.

Lemma below_heap_apart al a n : shaped (al_blocks al) -> a + n <= MM_HEAP_START -> meets_messages al a n = false.
Proof.
  intros Hs Ha. assert (Hb : forall c i b, (c < 4)%nat -> (al_blocks al !!! c) !! i = Some b -> block_meets a n b = false).
  { intros c i b Hc Hi. assert (Hlt : (i < 32)%nat) by (rewrite <-(sh_row _ Hs c Hc); by eapply lookup_lt_Some).
    destruct (sh_block _ Hs c i Hc Hlt) as [Hadr _]. rewrite (lookup_total_Some _ _ _ Hi) in Hadr.
    pose proof (block_in_heap c i Hc Hlt) as [Hlo _]. unfold block_meets. by rewrite (proj2 (Z.ltb_ge _ _)) by lia. }
  unfold meets_messages. apply orb_false_iff. split; apply existsb_false.
  - intros i b Hi. by apply (Hb 0%nat i); [lia|].
  - intros c row Hrow. apply existsb_false. intros i b Hi. apply andb_false_iff. right.
    assert (Hc : (c < 4)%nat) by (rewrite <-(sh_classes _ Hs); by eapply lookup_lt_Some).
    apply (Hb c i); [done|]. by rewrite (lookup_total_Some _ _ _ Hrow).
Qed.

Lemma in_user_writable s a n : k_pool s -> 0 <= n -> in_user a n -> writable maps s a n = true.
Proof.
  intros Hp Hn Hu. unfold writable. rewrite in_user_readable by done. rewrite below_heap_apart; [done|apply Hp|].
  destruct Hu as (_ & Hend & _). exact Hend.
Qed.

(** The text [ipc_send] is given. *)
Lemma sent_text s a op :
  in_user a 144 -> short_text s a ->
  (length (cstr (m_payload (load_message
     (stb (store (k_mem s) (a + 4) (le_bytes 4 op)) (a + MSG_PAYLOAD_OFF + 127) 0) a))) <= 58)%nat.
Proof.
  unfold in_user, MM_USER_LOAD_BASE, MM_USER_REGION_END, MSG_PAYLOAD_OFF. intros (Ha & Hend & _) (i & Hi & Hz).
  unfold MSG_PAYLOAD_OFF in Hz. cbn [load_message m_payload]. transitivity i; [|done]. apply cstr_le. unfold load.
  rewrite list_lookup_fmap, lookup_seq_lt by lia. cbn [fmap option_fmap option_map Nat.add]. f_equal. rewrite ldb_stb by lia.
  destruct (_ =? _) eqn:E; [done|]. rewrite load_store_ne; rewrite ?length_le_bytes; try lia; exact Hz.
Qed.

Lemma store_pool w m : pool_ok (w_nng w) -> pool_ok (w_nng (with_memory m w)).
Proof. intros Hp. apply (pool_ok_ext (w_nng w)); [split; try done; by intros []|apply Hp|done]. Qed.

Lemma user_send_returns op a s :
  k_pool s ->
  (user_pointer a = true -> 0 <= k_bootstrap s -> in_user a 144 /\
     (send_granted (k_world s) (k_bootstrap s) (u32 op) = true -> short_text s a)) ->
  is_Some (sys_ipc_send rt local maps op a s).
Proof.
  intros Hp Hargs. unfold sys_ipc_send. destruct (a =? 0); [done|]. destruct (user_pointer a) eqn:Eu; [|done]. cbn [negb].
  destruct (k_bootstrap s <? 0) eqn:Eb; [done|]. apply Z.ltb_ge in Eb. destruct (Hargs eq_refl Eb) as [Hu Htext].
  rewrite in_user_writable by done. cbn [negb]. cbv zeta.
  pose proof (sent_text s a op Hu) as Hshort. apply user_pointer_spec in Eu. pose proof (sent_operation (k_mem s) a op Eu) as Hop.
  set (m := stb _ _ _) in *. set (w := with_memory m (k_world s)).
  pose proof (store_pool (k_world s) m Hp) as Hpw. fold w in Hpw.
  destruct (ipc_send_returns rt a local w (k_bootstrap s) (load_message m a) Hpw) as [[[rv w'] msg] ->]; [|done].
  change (m_operation (load_message m a)) with (ld32 m (a + 4)). rewrite Hop. auto.
Qed.

(** Every call of that kind returns. *)
Lemma user_call_returns num a1 a2 a3 s :
  ksys_ok rt stacks s -> k_pool s -> 0 <= a2 -> user_call num a1 a2 s -> is_Some (handle num a1 a2 a3 s).
Proof.
  intros Hs Hp Ha2 (Hwrite & Hcreate & Hsend). unfold syscall_handler.
  destruct (num =? SYS_WRITE) eqn:E; bools.
  { specialize (Hwrite E). unfold sys_write, console_write. destruct (a1 =? 0); [done|]. destruct (user_pointer a1) eqn:Eu; [|done]. cbn [negb].
    replace (if a2 >? 1024 then 1024 else a2) with (Z.min a2 1024) by (destruct (a2 >? 1024) eqn:?; lia).
    rewrite in_user_readable; [done|lia|auto]. }
  destruct (num =? SYS_IPC_SEND) eqn:E2; bools; [by apply user_send_returns; [|apply Hsend]|].
  destruct (num =? SYS_EXIT); [destruct (sys_exit_ok rt stacks a1 s Hs) as (s1 & Hx & _); exact (mk_is_Some _ _ Hx)|].
  destruct (num =? SYS_CREATE_TASK) eqn:E3; bools.
  { specialize (Hcreate E3). unfold sys_create_task. destruct (user_pointer a1) eqn:Eu; [|by rewrite orb_true_r].
    rewrite (in_user_readable a1 44) by auto with lia. destruct (_ || _)%bool; [done|]. cbn [negb]. by destruct (create_task _ _ _ _) as [[[rv ts] au] sp]. }
  destruct (num =? SYS_YIELD); [destruct (sys_yield_ok rt stacks s Hs) as (s1 & Hy & _); exact (mk_is_Some _ _ Hy)|done].
Qed.

(** Every call that returns keeps the socket layer's invariant. *)
Lemma send_pool op a s s' : k_pool s -> sys_ipc_send rt local maps op a s = Some s' -> k_pool s'.
Proof.
  intros Hp. unfold sys_ipc_send. destruct (a =? 0); [intros Hx; apply Some_inj in Hx; by subst|].
  destruct (negb _); [intros Hx; apply Some_inj in Hx; by subst|].
  destruct (_ <? _); [intros Hx; apply Some_inj in Hx; by subst|].
  destruct (negb _); [discriminate|]. cbv zeta. set (m := stb _ _ _). clearbody m.
  destruct (ipc_send _ _ _ _ _ _) as [[[rv w] msg]|] eqn:Es; cbn [mbind option_bind]; [|discriminate].
  apply ipc_send_pool in Es; [|by apply store_pool]. intros Hx. apply Some_inj in Hx. subst s'.
  by apply (store_pool (with_auditor _ w)).
Qed.

Lemma yield_pool s s' : k_pool s -> sys_yield s = Some s' -> k_pool s'.
Proof.
  intros Hp. unfold sys_yield. destruct (ts_current (k_tasks s)) as [c|]; cbn [mbind option_bind].
  - destruct (_ !! c) as [t|]; cbn [mbind option_bind]; [|done].
    destruct (t_state t =? TASK_RUNNING); destruct (rr_schedule _ _) as [[[rv nx] sc]|]; cbn [mbind option_bind]; try done; by intros [= <-].
  - destruct (rr_schedule _ _) as [[[rv nx] sc]|]; cbn [mbind option_bind]; try done; by intros [= <-].
Qed.

Lemma call_pool num a1 a2 a3 s s' : k_pool s -> handle num a1 a2 a3 s = Some s' -> k_pool s'.
Proof.
  intros Hp. unfold syscall_handler. destruct (num =? SYS_WRITE); [intros (Hw & _)%write_same; unfold k_pool; by rewrite Hw|].
  destruct (num =? SYS_IPC_SEND); [by apply send_pool|].
  destruct (num =? SYS_EXIT).
  { unfold sys_exit. destruct (ts_current _); [|by intros [= <-]]. destruct (_ !! _); [|done]. by intros [= <-]. }
  destruct (num =? SYS_CREATE_TASK).
  { unfold sys_create_task. destruct (_ || _)%bool; [by intros [= <-]|]. destruct (negb _); [done|].
    destruct (create_task _ _ _ _) as [[[rv ts] au] sp]. by intros [= <-]. }
  destruct (num =? SYS_YIELD); [by apply yield_pool|by intros [= <-]].
Qed.

Lemma calls_pool s s' : k_pool s -> calls rt stacks local maps s s' -> k_pool s'.
Proof. intros Hp Hr. induction Hr as [|s1 s2 s3 (num & a1 & a2 & a3 & H) _ IH]; eauto using call_pool. Qed.
End Returning.


Section Gate.
Context (rt : regions) (stacks local l1_at : Z) (m0 : mmu) (Hl1 : length (mm_table m0) = 4096%nat).
Abbreviation handle := (syscall_handler rt stacks local (kernel_maps l1_at m0)).

Lemma user_pointer_in a : 4194304 <= a <= 2147483647 -> user_pointer a = true.
Proof. apply user_pointer_spec. Qed.

Lemma write_heap a n a3 s :
  MM_USER_REGION_END <= a -> 0 <= n <= 1024 -> a + n <= MM_HEAP_END ->
  handle SYS_WRITE a n a3 s = Some (with_console (k_console s ++ load (k_mem s) a (Z.to_nat n)) s).
Proof.
  unfold MM_USER_REGION_END. intros Ha Hn Hend. pose proof Hend as Hend'. unfold MM_HEAP_END in Hend'.
  change (handle SYS_WRITE a n a3 s) with (sys_write (kernel_maps l1_at m0) a n s). unfold sys_write, console_write.
  rewrite (proj2 (Z.eqb_neq a 0)), user_pointer_in by lia. cbn [negb].
  rewrite Z.gtb_ltb, (proj2 (Z.ltb_ge 1024 n)) by lia. rewrite readable_heap by (done || lia). done.
Qed.

Lemma write_hole a n a3 s :
  MM_HEAP_END <= a < 269484032 \/ 270532608 <= a <= 2147483647 -> 0 < n -> handle SYS_WRITE a n a3 s = None.
Proof.
  intros Ha Hn. pose proof Ha as Ha'. unfold MM_HEAP_END in Ha'.
  change (handle SYS_WRITE a n a3 s) with (sys_write (kernel_maps l1_at m0) a n s). unfold sys_write, console_write.
  rewrite (proj2 (Z.eqb_neq a 0)), user_pointer_in by lia. cbn [negb]. set (k := if n >? 1024 then _ else _).
  destruct (Z.to_nat k) as [|j] eqn:Ek; [unfold k in Ek; destruct (n >? 1024); lia|].
  unfold readable, mapped. rewrite Ek. cbn [seq forallb]. rewrite Z.add_0_r, u32_id, kernel_maps_hole by (done || lia). done.
Qed.

Lemma send_overwrites op a a3 s s' :
  4194304 <= a -> a + 144 <= MM_HEAP_END -> 0 <= k_bootstrap s ->
  handle SYS_IPC_SEND op a a3 s = Some s' -> ld32 (k_mem s') (a + 4) = u32 op.
Proof.
  intros Ha Hend Hb. pose proof Hend as Hend'. unfold MM_HEAP_END in Hend'.
  change (handle SYS_IPC_SEND op a a3 s) with (sys_ipc_send rt local (kernel_maps l1_at m0) op a s). unfold sys_ipc_send.
  rewrite (proj2 (Z.eqb_neq a 0)), user_pointer_in, (proj2 (Z.ltb_ge _ 0)) by lia. cbn [negb].
  destruct (negb _); [discriminate|]. cbv zeta. set (m := stb _ _ _).
  assert (Hop : ld32 m (a + 4) = u32 op) by (apply sent_operation; lia).
  clearbody m. pose proof (length_message_bytes m a) as Hlen. set (msg := load_message m a) in *.
  assert (Hmop : m_operation msg = u32 op) by exact Hop. clearbody msg.
  destruct (ipc_send _ _ _ _ _ _) as [[[rv w] msg']|] eqn:Es; cbn [mbind option_bind]; [|discriminate].
  apply ipc_send_keeps in Es as (_ & _ & _ & x & -> & Hxop & Hxlen). intros Hx. apply Some_inj in Hx. subst s'.
  change (k_mem _) with (store (memory w) a (message_bytes x)). unfold message_bytes in *. rewrite !length_app, !length_le_bytes in Hlen.
  pose proof (ld32_store (memory w) a (le_bytes 4 (m_priority x)) (m_operation x)
    (le_bytes 4 (m_checksum x) ++ le_bytes 4 (m_padding1 x) ++ m_payload x) ltac:(lia)) as Hst.
  rewrite !length_app, !length_le_bytes in Hst. change (a + Z.of_nat 4) with (a + 4) in Hst.
  rewrite Hst by lia. by rewrite Hxop, Hmop, u32_u32.
Qed.
End Gate.

(** C40: The pointer test admits more than user memory.  Above the region
    the MMU gives user code, up to 0x7FFFFFFF, SYS_WRITE prints bytes of the
    kernel heap that the caller cannot read, SYS_IPC_SEND writes the caller's
    operation number into them, and an address the kernel has no mapping for
    makes it fault in the handler. *)
Theorem syscall_gate_exceeds_user_region (rt : regions) (stacks local l1_at : Z) (m0 : mmu) (a n op a3 : Z) (s : ksys) :
  length (mm_table m0) = 4096%nat -> MM_USER_REGION_END <= a -> 0 < n <= 1024 -> 0 <= k_bootstrap s ->
  let handle := syscall_handler rt stacks local (kernel_maps l1_at m0) in
  (forall b write, a <= b < 4294967296 -> mmu_access l1_at (arm_mmu_init l1_at m0) true write b = None) /\
  (a + n <= MM_HEAP_END ->
   handle SYS_WRITE a n a3 s = Some (with_console (k_console s ++ load (k_mem s) a (Z.to_nat n)) s)) /\
  (a + 144 <= MM_HEAP_END ->
   forall s', handle SYS_IPC_SEND op a a3 s = Some s' -> ld32 (k_mem s') (a + 4) = u32 op) /\
  (MM_HEAP_END <= a < 269484032 \/ 270532608 <= a <= 2147483647 -> handle SYS_WRITE a n a3 s = None).
Proof.
  intros Hl Ha Hn Hb handle. assert (He : MM_USER_REGION_END = 8388608) by done.
  split; [|split; [|split]].
  - intros b write Hrange. destruct (mmu_separates l1_at m0 write b Hl) as [-> _]; [lia|].
    rewrite (proj2 (Z.ltb_ge b MM_USER_REGION_END)) by lia. by rewrite andb_false_r.
  - intros Hend. apply write_heap; lia || done.
  - intros Hend s'. apply send_overwrites; lia || done.
  - intros Hout. apply write_hole; lia || done.
Qed.

(** ** A kernel with one channel pair; the root task calls *)

Definition demo_ksys : ksys := with_kmem (stb (stb ∅ 8388608 115) 8388609 107) (KSys demo_world 0 [] 0).
Definition no_map (a : Z) : bool := false.

Lemma demo_ksys_ok : ksys_ok demo_rt 4096 demo_ksys.
Proof.
  split; [|split; vm_compute; congruence]. exact (store_reachable _ _ _ _ demo_world_reachable).
Qed.

Lemma demo_ksys_pool : k_pool demo_ksys.
Proof.
  unfold k_pool. apply (pool_ok_ext (nng_init (nng_bss (memory_init alloc_bss)))).
  - split; try (vm_compute; reflexivity). intros _. split.
    + replace (ng_alloc (w_nng (k_world demo_ksys))) with (memory_init alloc_bss) by (vm_compute; reflexivity).
      apply memory_init_shaped.
    + intros p. replace (ng_msgs (w_nng (k_world demo_ksys))) with (∅ : gmap Z nng_msg_t) by (vm_compute; reflexivity).
      replace (ng_bufs (w_nng (k_world demo_ksys))) with (∅ : gmap Z (list Z)) by (vm_compute; reflexivity).
      rewrite !lookup_empty. by intros [[]|[]].
  - apply (queues_wf_ext (nng_init (nng_bss (memory_init alloc_bss)))); [vm_compute; reflexivity|].
    apply pool_init, memory_init_shaped.
  - apply pool_init, memory_init_shaped.
Qed.

Lemma demo_user_in a n : 4194304 <= a -> 0 <= n -> a + n <= 8388608 -> in_user (kernel_maps 16384 mmu_reset) a n.
Proof.
  intros Ha Hn Hend. split; [exact Ha|]. split; [exact Hend|].
  apply mapped_heap; [exact mmu_reset_length|lia|unfold MM_HEAP_END; lia].
Qed.


Example exit_is_final_witness :
  exists s1, syscall_handler demo_rt 4096 0 no_map SYS_EXIT 7 0 0 demo_ksys = Some s1 /\
    exists t', live (k_tasks s1) !! 0%nat = Some t' /\ t_state t' = TASK_TERMINATED.
Proof.
  destruct (live (k_tasks demo_ksys) !! 0%nat) as [t|] eqn:E; [|discriminate E].
  assert (H1 : is_Some (syscall_handler demo_rt 4096 0 no_map SYS_EXIT 7 0 0 demo_ksys)).
  { destruct (sys_exit_ok demo_rt 4096 7 demo_ksys demo_ksys_ok) as (s1 & H & _). exact (mk_is_Some _ _ H). }
  destruct H1 as [s1 H1]. exists s1. split; [exact H1|].
  destruct (exit_is_final demo_rt 4096 0 no_map demo_ksys s1 0 t 7 0 0 demo_ksys_ok eq_refl E) as (s2 & H2 & H).
  rewrite H1 in H2. apply Some_inj in H2. subst s2.
  destruct (H (rtc_refl _ _)) as (t' & Ht' & _ & Hterm & _). exists t'. by split.
Defined.

Example syscall_gate_exceeds_user_region_witness :
  mmu_access 16384 (arm_mmu_init 16384 mmu_reset) true false 8388608 = None /\
  syscall_handler demo_rt 4096 0 (kernel_maps 16384 mmu_reset) SYS_WRITE 8388608 2 0 demo_ksys =
    Some (with_console [115; 107] demo_ksys).
Proof.
  destruct (syscall_gate_exceeds_user_region demo_rt 4096 0 16384 mmu_reset 8388608 2 0 0 demo_ksys
              mmu_reset_length) as (H1 & H2 & _); [discriminate|lia|discriminate|].
  split; [apply H1; lia|]. rewrite H2 by discriminate. reflexivity.
Defined.

(** A user reads another task's message.  The caller sends "AAA" on its
    channel; the copy that waits for the receiver lies in the heap, and
    SYS_WRITE prints its wire form from there. *)
Definition demo_sender : ksys := with_kmem (store ∅ (4194304 + MSG_PAYLOAD_OFF) [65; 65; 65]) demo_ksys.
Example waiting_message_printed :
  let handle := syscall_handler demo_rt 4096 786432 (kernel_maps 16384 mmu_reset) in
  (s ← handle SYS_IPC_SEND 512 4194304 0 demo_sender;
   let n := w_nng (k_world s) in
   o ← ng_msgs n !! (socket_queue n 1 !!! 0%nat);
   s ← handle SYS_WRITE (n_body o) 9 0 s;
   Some (k_console s)) = Some [0; 0; 2; 0; 0; 65; 65; 65; 0].
Proof. vm_compute. reflexivity. Qed.
