(* ===== verification/SelfTests.v ===== *)
(** * Self tests of the boot sequence: kernel/main.c

    The tests [kmain] runs before it seals the domain matrix, as programs
    over the models of the components they call.  [None] is a fault inside a
    callee.  A test's log lines are not part of it; its counters are. *)
From stdpp Require Import strings.
From S2P Require Import Prelude Types Circular Ring Auditor Tasks DomainGraph Security MemUtils BlockAlloc Frames Crc Nng Ipc Channels Mmu Crypto.

(** ** Frames and sections *)

(** Returns the number of subtests passed and the frames left. *)
Definition test_frame_allocator (f : frames) : Z * frames :=
  let before := frame_count_free f in
  let '(f1, f) := alloc_frame f in
  let '(f2, f) := alloc_frame f in
  let '(f3, f) := alloc_frame f in
  let pass1 := (negb (f1 =? 0) && negb (f2 =? 0) && negb (f3 =? 0) && (u32 (f2 - f1) =? MM_FRAME_SIZE) &&
                (u32 (f3 - f2) =? MM_FRAME_SIZE) && (frame_count_free f =? u32 (before - 3)))%bool in
  let f := free_frame f f2 in
  let '(f4, f) := alloc_frame f in
  let pass2 := ((f4 =? f2) && (frame_count_free f =? u32 (before - 3)))%bool in
  let saved_free := frame_count_free f in
  let f := free_frame (free_frame (free_frame (free_frame f f1) f1) 3735928544) 2097153 in
  let pass3 := frame_count_free f =? u32 (saved_free + 1) in
  let f := free_frame (free_frame f f3) f4 in
  (Z.b2z pass1 + Z.b2z pass2 + Z.b2z pass3, f).

Definition test_mmu_protection (m : mmu) : Z * mmu :=
  let pass1 := ((arm_section_get_ap m 0 =? AP_KERNEL_ONLY) && (arm_section_get_ap m 3145728 =? AP_KERNEL_ONLY) &&
                (arm_section_get_ap m 4194304 =? AP_USER_RW) &&
                (arm_section_get_ap m 269484032 =? AP_KERNEL_ONLY))%bool in
  let orig4 := arm_section_get_ap m 4194304 in
  let '(rv_set, m) := arm_section_set_ap m 4194304 AP_KERNEL_ONLY in
  let read_back := arm_section_get_ap m 4194304 in
  let '(rv_restore, m) := arm_section_set_ap m 4194304 AP_USER_RW in
  let read_restored := arm_section_get_ap m 4194304 in
  let pass2 := ((rv_set =? 0) && (read_back =? AP_KERNEL_ONLY) && (rv_restore =? 0) &&
                (read_restored =? AP_USER_RW) && (orig4 =? AP_USER_RW))%bool in
  let rv_unmapped_get := arm_section_get_ap m 69206016 in
  let '(rv_unmapped_set, m) := arm_section_set_ap m 69206016 AP_USER_RW in
  let rv_unmapped_after := arm_section_get_ap m 69206016 in
  let pass3 := ((rv_unmapped_get =? -1) && (rv_unmapped_set =? -1) && (rv_unmapped_after =? -1))%bool in
  (Z.b2z pass1 + Z.b2z pass2 + Z.b2z pass3, m).

(** ** The memory map *)

Section MemoryMap.
(** The access policy, [_text_start], and the address of [bss_probe]. *)
Context (rt : regions) (text bss_probe : Z).

(** One block of each size; [m] is the memory the blocks are cleared in. *)
Definition alloc_one (st : list Z * allocator * gmap Z Z * bool) (size : Z) : list Z * allocator * gmap Z Z * bool :=
  let '(ps, a, m, ok) := st in
  let '(p, a, m) := alloc_memory rt a m size in
  let bad := ((p =? 0) || ((p >=? MM_USER_LOAD_BASE) && (p <? MM_USER_REGION_END)) ||
              (p <? MM_HEAP_START) || (p >=? MM_HEAP_END))%bool in
  (ps ++ [p], a, m, (ok && negb bad)%bool).

Definition test_memory_map (a : allocator) (m : gmap Z Z) : Z * allocator * gmap Z Z :=
  let pass1 := ((MM_HEAP_END <=? MM_USER_LOAD_BASE) || (MM_HEAP_START >=? MM_USER_REGION_END))%bool in
  let '(ps, a, m, ok) := foldl alloc_one ([], a, m, true) [64; 256; 1024; 4096] in
  let '(a, m) := foldl (fun am p => free_memory rt am.1 am.2 p) (a, m) ps in
  let pass3 := (negb (security_validate_memory_access rt text 4 true) &&
                security_validate_memory_access rt text 4 false &&
                security_validate_memory_access rt bss_probe 1 true &&
                negb (security_validate_memory_access rt 4 4 false))%bool in
  (Z.b2z pass1 + Z.b2z ok + Z.b2z pass3, a, m).
End MemoryMap.

(** ** Telemetry *)

Definition test_fault_telemetry (au : auditor) (cur : option task_t) : auditor :=
  let au := auditor_fault au cur 3735879680 0 0 16 AUDITOR_FAULT_PABORT in
  auditor_fault au cur 3405643776 3131047936 2063 144 AUDITOR_FAULT_DABORT_WRITE.

Section Ipc.
(** The access policy, the addresses of the test's [msg] and of the
    conversion's locals, and the uninitialised bytes of the payload. *)
Context (rt : regions) (msg_at local : Z) (junk : list Z).

Definition tick (w : world) : world := with_auditor (auditor_tick (w_auditor w)) w.

(** The payload after [memset] and [memcpy] of a literal at [lit]. *)
Definition put_text (lit : Z) (text : list Z) (payload : list Z) : list Z :=
  if (may_write rt (msg_at + MSG_PAYLOAD_OFF) (Z.of_nat (length text)) && may_read rt lit (Z.of_nat (length text)))%bool
  then text ++ drop (length text) payload else payload.

Definition test_auditor (lit : Z) (w : world) : option world :=
  let '(ch, w) := ipc_create_channel w 0 0 CAP_ALL NNG_PROTO_PUB0 in
  if ch <? 0 then Some w
  else
    let cleared := if may_write rt (msg_at + MSG_PAYLOAD_OFF) 128 then replicate MAX_MSG_SIZE 0 else junk in
    let msg := Message PRIORITY_HIGH 3735928559 0 0 (put_text lit (chars "auditor-test" ++ [0]) cleared) in
    '(_, w, _) ← ipc_send rt msg_at local w ch (Some msg);
    Some (ipc_close_channel (tick w) ch).2.

(** A subtest passes, fails, or gives up the rest ([goto done]). *)
Definition subtest : Type := world -> option (option bool * world).

Fixpoint run_subtests (l : list subtest) (pass : Z) (w : world) : option (Z * world) :=
  match l with
  | [] => Some (pass, w)
  | t :: l =>
      '(r, w) ← t w;
      match r with
      | None => Some (pass, w)
      | Some b => run_subtests l (pass + Z.b2z b) w
      end
  end.

(** Subtests 1 and 2: a send the channel's capabilities do not cover. *)
Definition send_denied (caps op : Z) : subtest := fun w =>
  let '(ch, w) := ipc_create_channel w 0 0 caps NNG_PROTO_PUB0 in
  if ch <? 0 then Some (None, w)
  else
    '(rv, w, _) ← ipc_send rt msg_at local w ch (Some (Message PRIORITY_HIGH op 0 0 (<[0%nat := 0]> junk)));
    Some (Some (rv =? -7), (ipc_close_channel (tick w) ch).2).

(** Subtests 3, 4, 6 and 7: a connection between two new channels. *)
Definition connect_gives (caps_a proto_a dom_b proto_b expected : Z) : subtest := fun w =>
  let '(ch_a, w) := ipc_create_channel w 0 0 caps_a proto_a in
  let '(ch_b, w) := ipc_create_channel w 0 dom_b (Z.lor CAP_IPC_SEND CAP_IPC_RECV) proto_b in
  if ((ch_a <? 0) || (ch_b <? 0))%bool then Some (None, w)
  else
    let '(rv, w) := ipc_connect w ch_a ch_b in
    Some (Some (rv =? expected), (ipc_close_channel (ipc_close_channel (tick w) ch_a).2 ch_b).2).

(** Subtest 5. *)
Definition edge_added : subtest := fun w =>
  let '(rv, g, au) := domain_edge_set (w_graph w) (w_auditor w) 0 1 in
  Some (Some (rv =? 0), tick (World (w_tasks w) g au (w_channels w) (w_nng w))).

Definition test_ipc_enforcement (w : world) : option (Z * world) :=
  let rw := Z.lor CAP_IPC_SEND CAP_IPC_RECV in
  run_subtests
    [ send_denied CAP_IPC_RECV OP_HEARTBEAT;
      send_denied rw OP_DELETE;
      connect_gives rw NNG_PROTO_PUB0 1 NNG_PROTO_SUB0 NNG_EACCESS;
      connect_gives rw NNG_PROTO_PUSH0 0 NNG_PROTO_PULL0 0;
      edge_added;
      connect_gives rw NNG_PROTO_PUSH0 1 NNG_PROTO_PULL0 0;
      connect_gives (Z.lor rw CAP_CROSS_DOMAIN) NNG_PROTO_PUSH0 2 NNG_PROTO_PULL0 0 ] 0 w.
End Ipc.

(** ** Capabilities of tasks *)

Section TaskCaps.
(** What the linker and the stack left undetermined: [kernel_stacks] and two
    fields of the test's [task_t] objects. *)
Context (stacks top sp : Z).

(** The objects [current_task] points at; none is in the table. *)
Definition stack_task (id caps parent : Z) : task_t := Task id 5 caps 0 TASK_RUNNING 0 top sp parent.
Definition grabbing_spec : task_t := Task 0 6 CAP_ALL 0 TASK_READY 0 top sp TASK_PARENT_NONE.

Definition test_task_caps (w : world) : Z * world :=
  let rw := Z.lor CAP_IPC_SEND CAP_IPC_RECV in
  let '(rv, ts, au, spec) := create_task_as stacks (stack_task 0 CAP_IPC_SEND TASK_PARENT_NONE)
                               (w_tasks w) (w_auditor w) (Some grabbing_spec) in
  let w := with_auditor au (with_tasks ts w) in
  let pass1 := ((rv =? 0) && (default 0 (t_cap_mask <$> spec) =? CAP_IPC_SEND))%bool in
  let '(ch2, w) := lent_channel (stack_task 1000 rw 1) w 0 0 CAP_ALL NNG_PROTO_PUB0 in
  let '(ch3, w) := lent_channel (stack_task 1001 rw TASK_PARENT_NONE) w 0 0 CAP_IPC_SEND NNG_PROTO_PUB0 in
  (Z.b2z pass1 + Z.b2z (ch2 <? 0) + Z.b2z (ch3 >=? 0), w).
End TaskCaps.

(** ** Messaging patterns *)

(** [pass] and [fail] of the EXPECT macro, and the socket layer. *)
Record tstate := TState { ts_pass : Z; ts_fail : Z; ts_nng : nng }.
Definition test (A : Type) : Type := tstate -> option (A * tstate).
#[export] Instance test_ret : MRet test := fun A x s => Some (x, s).
#[export] Instance test_bind : MBind test := fun A B f m s => '(x, s) ← m s; f x s.

Section Patterns.
(** The access policy, the tick counter, the address of the string literals,
    and what an uninitialised [nng_socket_t] holds. *)
Context (rt : regions) (now lit : Z) (junk_socket : nng_socket_t).

Definition EXPECT (cond : bool) : test () := fun s =>
  Some ((), if cond then TState (ts_pass s + 1) (ts_fail s) (ts_nng s)
            else TState (ts_pass s) (ts_fail s + 1) (ts_nng s)).
(** Calls on the socket layer. *)
Definition with_sockets {A} (f : nng -> A * nng) : test A := fun s =>
  let '(x, n) := f (ts_nng s) in Some (x, TState (ts_pass s) (ts_fail s) n).
Definition try_sockets {A} (f : nng -> option (A * nng)) : test A := fun s =>
  '(x, n) ← f (ts_nng s); Some (x, TState (ts_pass s) (ts_fail s) n).

Definition create (protocol : Z) : test (Z * nng_socket_t) :=
  with_sockets (fun n => nng_socket_create n junk_socket protocol).
Definition connect (src dst : nng_socket_t) : test Z := with_sockets (fun n => nng_connect n src dst).
Definition send (so : nng_socket_t) (msg : Z) : test Z := try_sockets (fun n => nng_send rt now n so msg).
Definition recv (so : nng_socket_t) : test (Z * Z) := with_sockets (fun n => nng_recv now n so).
Definition close (so : nng_socket_t) : test () :=
  with_sockets (fun n => let '(_, _, n) := nng_socket_close n so in ((), n)).

(** A new message holding a literal; [None] when there is none. *)
Definition make (text : list Z) : test (option Z) :=
  '(rv, msg) ← with_sockets (fun n => nng_msg_alloc n 0);
  if rv =? NNG_OK
  then _ ← try_sockets (fun n => nng_msg_append rt n msg lit text); mret (Some msg)
  else mret None.

(** [nng_test_body_eq] on the message [rx] points to. *)
Definition nng_test_body_eq (rx : Z) (want : list Z) : test bool :=
  try_sockets (fun n =>
    o ← ng_msgs n !! rx;
    if negb (n_body_len o =? Z.of_nat (length want)) then Some (false, n)
    else b ← msg_bytes n o; Some (bool_decide (b = want), n)).

(** [rv = nng_recv(...); EXPECT(rv == NNG_OK); if (rv == NNG_OK) ...] *)
Definition expect_text (so : nng_socket_t) (want : list Z) : test () :=
  '(rv, rx) ← recv so;
  _ ← EXPECT (rv =? NNG_OK);
  if rv =? NNG_OK
  then
    eq ← nng_test_body_eq rx want;
    _ ← EXPECT eq;
    with_sockets (fun n => ((), (nng_msg_free n rx).2))
  else mret ().
Definition expect_empty (so : nng_socket_t) : test () :=
  '(rv, _) ← recv so; EXPECT (rv =? NNG_ETIMEDOUT).
Definition expect_create (protocol : Z) : test nng_socket_t :=
  '(rv, so) ← create protocol; _ ← EXPECT (rv =? NNG_OK); mret so.
Definition expect_connect (src dst : nng_socket_t) : test () :=
  rv ← connect src dst; EXPECT (rv =? NNG_OK).
(** A message made and sent, if there was one; [checked] when the send is
    under EXPECT. *)
Definition make_send (checked : bool) (so : nng_socket_t) (text : list Z) : test () :=
  m ← make text;
  match m with
  | None => mret ()
  | Some msg => rv ← send so msg; if checked then EXPECT (rv =? NNG_OK) else mret ()
  end.

Definition pubsub_test : test () :=
  pub ← expect_create NNG_PROTO_PUB0;
  sub ← expect_create NNG_PROTO_SUB0;
  _ ← expect_connect pub sub;
  rv ← with_sockets (fun n => nng_sub_subscribe n sub (chars "GRID:") 5);
  _ ← EXPECT (rv =? NNG_OK);
  _ ← make_send true pub (chars "GRID:alert1");
  _ ← make_send false pub (chars "OTHER:msg");
  _ ← expect_text sub (chars "GRID:alert1");
  _ ← expect_empty sub;
  _ ← close pub; close sub.

Definition pushpull_test : test () :=
  push ← expect_create NNG_PROTO_PUSH0;
  pull0 ← expect_create NNG_PROTO_PULL0;
  pull1 ← expect_create NNG_PROTO_PULL0;
  _ ← expect_connect push pull0;
  _ ← expect_connect push pull1;
  _ ← make_send false push (chars "work0");
  _ ← make_send false push (chars "work1");
  _ ← expect_text pull0 (chars "work0");
  _ ← expect_text pull1 (chars "work1");
  _ ← expect_empty pull0;
  _ ← expect_empty pull1;
  _ ← close push; _ ← close pull0; close pull1.

Definition reqrep_test : test () :=
  req ← expect_create NNG_PROTO_REQ0;
  rep ← expect_create NNG_PROTO_REP0;
  _ ← expect_connect req rep;
  _ ← make_send true req (chars "ping");
  _ ← expect_text rep (chars "ping");
  _ ← make_send true rep (chars "pong");
  _ ← expect_text req (chars "pong");
  _ ← close req; close rep.

(** Passed, failed, and the layer left. *)
Definition test_nng_patterns (n : nng) : option (Z * Z * nng) :=
  '(_, s) ← (_ ← pubsub_test; _ ← pushpull_test; reqrep_test) (TState 0 0 n);
  Some (ts_pass s, ts_fail s, ts_nng s).
End Patterns.

(** ** Raw messages *)
Section Messages.
Context (rt : regions) (now lit msg_at local : Z) (junk : list Z) (junk_socket : nng_socket_t).

(** Whether the test got to its last line, and the layer left. *)
Definition test_nng (n : nng) : option (bool * nng) :=
  let '(rv, socket, n) := nng_socket_create n junk_socket NNG_PROTO_PUB0 in
  if negb (rv =? NNG_OK) then Some (false, n)
  else
    let closed n := (nng_socket_close n socket).2 in
    let '(rv, raw_msg, n) := nng_msg_alloc n 0 in
    if negb (rv =? NNG_OK) then Some (false, closed n)
    else
      '(rv, n) ← nng_msg_append rt n raw_msg lit (chars "Hello from LughOS!");
      if negb (rv =? NNG_OK) then Some (false, closed (nng_msg_free n raw_msg).2)
      else
        '(rv, n) ← nng_send rt now n socket raw_msg;
        if negb (rv =? NNG_OK) then Some (false, closed n)
        else
          let m := Message PRIORITY_HIGH OP_GRID_ALERT 0 0
                     (put_text rt msg_at lit (chars "GRID_ALERT: Testing NNG conversion" ++ [0]) junk) in
          '(rv, converted_msg, n) ← lugh_message_to_nng rt n m msg_at local;
          if negb (rv =? NNG_OK) then Some (false, closed n)
          else
            '(rv, n) ← nng_send rt now n socket converted_msg;
            Some (rv =? NNG_OK, closed n).

(** The memory, the system key, the local signature buffer, the fuel of the
    string search, and the address of the string "GRID_FAULT". *)
Context (key signature : buffer) (fuel : nat) (needle_at : Z).

(** Whether the alert was sent, and the layer left. *)
Definition test_energy_grid_alert (mem : gmap Z Z) (n : nng) : option (bool * nng) :=
  let payload_len := strlen rt mem lit in
  if payload_len >=? Z.of_nat MAX_MSG_SIZE then Some (false, n)
  else
    let mem := memcpy rt mem (msg_at + MSG_PAYLOAD_OFF) lit (payload_len + 1) in
    let alert := Message PRIORITY_HIGH OP_GRID_ALERT 0 0
                   ((fun i => ldb mem (msg_at + MSG_PAYLOAD_OFF + Z.of_nat i)) <$> seq 0 MAX_MSG_SIZE) in
    valid ← validate_message rt key mem msg_at needle_at signature fuel alert;
    if valid =? 0 then Some (false, n)
    else
      let '(rv, socket, n) := nng_socket_create n junk_socket NNG_PROTO_PUB0 in
      if negb (rv =? NNG_OK) then Some (false, n)
      else
        let closed n := (nng_socket_close n socket).2 in
        '(rv, msg, n) ← lugh_message_to_nng rt n alert msg_at local;
        if negb (rv =? NNG_OK) then Some (false, closed n)
        else
          '(rv, n) ← nng_send rt now n socket msg;
          if negb (rv =? NNG_OK) then Some (false, closed n)
          else
            let '(rv, recv_msg, n) := nng_recv now n socket in
            n ← (if rv =? NNG_OK
                 then _ ← nng_message_to_lugh n recv_msg (Message 0 0 0 0 junk); Some (nng_msg_free n recv_msg).2
                 else Some n);
            Some (true, closed n).
End Messages.

(** ** They pass *)

Section Steps.
Context (rt : regions) (stacks msg_at local : Z) (junk : list Z).
Abbreviation step := (rtc (world_step rt stacks)).

(** Every subtest is a sequence of the steps the invariants of [Channels]
    are about. *)
Lemma tick_step w : step w (tick w).
Proof. apply rtc_once, ws_audit. Qed.
Lemma create_step w lvl dom caps proto id w' : ipc_create_channel w lvl dom caps proto = (id, w') -> step w w'.
Proof. intros H. apply rtc_once. pose proof (ws_create rt stacks w lvl dom caps proto) as Hs. by rewrite H in Hs. Qed.
Lemma close_step w id : step w (ipc_close_channel w id).2.
Proof. apply rtc_once, ws_close. Qed.

Lemma send_denied_step caps op w r w' : send_denied rt msg_at local junk caps op w = Some (r, w') -> step w w'.
Proof.
  unfold send_denied. destruct (ipc_create_channel _ _ _ _ _) as [ch w1] eqn:Ec. apply create_step in Ec.
  destruct (ch <? 0); [intros Hx; by simplify_eq|].
  destruct (ipc_send _ _ _ _ _ _) as [[[rv w2] m]|] eqn:Es; cbn [mbind option_bind]; [|done].
  intros Hx. simplify_eq. etransitivity; [exact Ec|]. eapply rtc_l; [eapply ws_send; exact Es|].
  etransitivity; [apply tick_step|apply close_step].
Qed.
Lemma connect_gives_step ca pa db pb e w r w' : connect_gives ca pa db pb e w = Some (r, w') -> step w w'.
Proof.
  unfold connect_gives. destruct (ipc_create_channel w _ _ _ _) as [a w1] eqn:Ea. apply create_step in Ea.
  destruct (ipc_create_channel w1 _ _ _ _) as [b w2] eqn:Eb. apply create_step in Eb.
  assert (Hab : step w w2) by by etransitivity. destruct (_ || _)%bool; [intros Hx; by simplify_eq|].
  destruct (ipc_connect w2 a b) as [rv w3] eqn:Ec. intros Hx. simplify_eq. etransitivity; [exact Hab|].
  pose proof (ws_connect rt stacks w2 a b) as Hc. rewrite Ec in Hc. eapply rtc_l; [exact Hc|].
  etransitivity; [apply tick_step|]. etransitivity; apply close_step.
Qed.
Lemma edge_added_step w r w' : edge_added w = Some (r, w') -> step w w'.
Proof.
  unfold edge_added. pose proof (ws_edge rt stacks w 0 1) as He.
  destruct (domain_edge_set _ _ 0 1) as [[rv g] au]. intros Hx. simplify_eq.
  eapply rtc_l; [exact He|]. apply tick_step.
Qed.
Lemma run_subtests_step l pass w p w' :
  Forall (fun t => forall w r w', t w = Some (r, w') -> step w w') l ->
  run_subtests l pass w = Some (p, w') -> step w w'.
Proof.
  intros Hl. revert pass w. induction Hl as [|t l Ht _ IH]; intros pass w Hr; cbn [run_subtests] in Hr; [by simplify_eq|].
  destruct (t w) as [[r w1]|] eqn:Et; cbn [mbind option_bind] in Hr; [|done]. apply Ht in Et.
  destruct r; [|by simplify_eq]. etransitivity; [exact Et|]. by eapply IH.
Qed.
Lemma test_ipc_enforcement_step w p w' : test_ipc_enforcement rt msg_at local junk w = Some (p, w') -> step w w'.
Proof.
  apply run_subtests_step.
  repeat (apply Forall_cons_2; [intros ? ? ?; first [apply send_denied_step|apply connect_gives_step|apply edge_added_step]|]).
  apply Forall_nil_2.
Qed.

Lemma test_task_caps_step top sp w : step w (test_task_caps stacks top sp w).2.
Proof.
  unfold test_task_caps.
  pose proof (step_lent stacks (w_tasks w) (w_auditor w) (stack_task top sp 0 CAP_IPC_SEND TASK_PARENT_NONE)
    (Some (grabbing_spec top sp))) as Ht.
  destruct (create_task_as _ _ _ _ _) as [[[rv ts] au] spec]. cbn [fst snd] in Ht.
  set (w1 := with_auditor au (with_tasks ts w)).
  assert (H1 : step w w1).
  { eapply rtc_l; [apply (ws_task rt stacks w ts), Ht; by split_and!|]. apply rtc_once.
    exact (ws_audit rt stacks (with_tasks ts w) au). }
  etransitivity; [exact H1|].
  pose proof (ws_lent rt stacks w1 (stack_task top sp 1000 3 1) 0 0 CAP_ALL NNG_PROTO_PUB0 eq_refl) as H2.
  change (Z.lor CAP_IPC_SEND CAP_IPC_RECV) with 3. destruct (lent_channel _ w1 _ _ _ _) as [ch2 w2].
  pose proof (ws_lent rt stacks w2 (stack_task top sp 1001 3 TASK_PARENT_NONE) 0 0 CAP_IPC_SEND NNG_PROTO_PUB0 eq_refl) as H3.
  destruct (lent_channel _ w2 _ _ _ _) as [ch3 w3].
  eapply rtc_l; [exact H2|]. by apply rtc_once.
Qed.
End Steps.

(** The world at the point where [kmain] starts the tests. *)
Definition test_world (stacks : Z) : world := boot_world stacks (auditor_init auditor_bss) (memory_init alloc_bss).

(** What the next theorem reads off the outcome. *)
Definition summary (o : option (Z * world)) : option (Z * list bool * option nat * Z * domain_graph) :=
  '(p, w) ← o; Some (p, ch_in_use <$> w_channels w, ts_current (w_tasks w), ts_count (w_tasks w), w_graph w).
Lemma ipc_self_test_summary rt stacks msg_at local junk :
  summary (test_ipc_enforcement rt msg_at local junk (test_world stacks)) =
  Some (7, replicate 16 false, Some 0%nat, 1, Graph [3; 2; 4; 8; 16; 32; 64; 128] false).
Proof. vm_compute. reflexivity. Qed.

Lemma test_world_reachable rt stacks : world_reachable rt stacks (test_world stacks).
Proof. exists (auditor_init auditor_bss), (memory_init alloc_bss). apply rtc_refl. Qed.
Lemma reachable_step rt stacks w w' :
  world_reachable rt stacks w -> rtc (world_step rt stacks) w w' -> world_reachable rt stacks w'.
Proof. intros (au & al & Hr) Hs. exists au, al. by etransitivity. Qed.

Lemma ipc_self_test_outcome (rt : regions) (stacks msg_at local : Z) (junk : list Z) :
  exists w, test_ipc_enforcement rt msg_at local junk (test_world stacks) = Some (7, w) /\
    world_reachable rt stacks w /\ Forall (fun ch => ch_in_use ch = false) (w_channels w) /\
    ts_current (w_tasks w) = Some 0%nat /\ ts_count (w_tasks w) = 1 /\ g_sealed (w_graph w) = false /\
    domain_edge_allowed (w_graph w) 0 1 = 1 /\ domain_edge_allowed domain_edges_init 0 1 = 0.
Proof.
  pose proof (ipc_self_test_summary rt stacks msg_at local junk) as Hs.
  pose proof (test_ipc_enforcement_step rt stacks msg_at local junk (test_world stacks)) as Hstep.
  revert Hs Hstep. generalize (test_ipc_enforcement rt msg_at local junk (test_world stacks)). intros [[p w]|] Hs Hstep; [|done].
  unfold summary in Hs. cbn [mbind option_bind] in Hs. injection Hs as -> Huse Hcur Hcnt Hg.
  exists w. split; [done|]. split; [eapply reachable_step; [apply test_world_reachable|by eapply Hstep]|].
  rewrite Hg. split_and!; try done. apply Forall_lookup. intros i ch Hi.
  assert (Hb : (ch_in_use <$> w_channels w) !! i = Some (ch_in_use ch)) by by rewrite list_lookup_fmap, Hi.
  rewrite Huse in Hb. by apply (lookup_replicate 16 false) in Hb as [-> _].
Qed.

(** The IPC self test passes, and stays in the policy.  From boot all
    seven subtests succeed, for any placement of the test's locals; it ends in
    a reachable world with every channel closed and the root task alone and
    current; and the edge 0->1 it added is still in the matrix. *)
Theorem ipc_self_test_passes (rt : regions) (stacks msg_at local : Z) (junk : list Z) :
  exists w, test_ipc_enforcement rt msg_at local junk (test_world stacks) = Some (7, w) /\
    world_reachable rt stacks w /\ Forall (fun ch => ch_in_use ch = false) (w_channels w) /\
    ts_current (w_tasks w) = Some 0%nat /\ ts_count (w_tasks w) = 1 /\ g_sealed (w_graph w) = false /\
    domain_edge_allowed (w_graph w) 0 1 = 1 /\ domain_edge_allowed domain_edges_init 0 1 = 0.
Proof. apply ipc_self_test_outcome. Qed.

(** The two literals of the alert test in memory. *)
Definition grid_alert_literals : gmap Z Z :=
  put_string (put_string ∅ 131072 (chars "GRID_FAULT: Voltage spike detected")) 135168 (chars "GRID_FAULT").

(** The other kernel self tests pass.  The frame and section tests end in
    the state they started from, whatever the linker placed the page table;
    the memory map test passes on the boot heap; all 28 expectations of the
    messaging pattern tests hold, and the raw message test and the grid alert
    test run to their ends. *)
Theorem kernel_self_tests_pass (l1_at now : Z) (junk : list Z) (junk_socket : nng_socket_t) :
  test_frame_allocator frame_allocator_init = (3, frame_allocator_init) /\
  test_mmu_protection (arm_mmu_init l1_at mmu_reset) = (3, arm_mmu_init l1_at mmu_reset) /\
  (test_memory_map demo_rt 65536 524288 (memory_init alloc_bss) ∅).1.1 = 3 /\
  (fun x => x.1) <$> test_nng_patterns demo_rt now 131072 junk_socket demo_nng = Some (28, 0) /\
  (fun x => x.1) <$> test_nng demo_rt now 131072 524288 786432 junk junk_socket demo_nng = Some true /\
  (fun x => x.1) <$> test_energy_grid_alert demo_rt now 131072 524288 786432 junk junk_socket demo_key
    (Buf 790528 (replicate 32 0)) 200 135168 grid_alert_literals demo_nng = Some true.
Proof.
  split; [vm_compute; reflexivity|]. split; [vm_compute; reflexivity|]. split; [vm_compute; reflexivity|].
  split; [vm_compute; reflexivity|]. split; vm_compute; reflexivity.
Qed.
