(* ===== verification/StorageTests.v ===== *)
(** * Self tests of storage, workflows and updates: kernel/main.c

    The second half of the tests [kmain] runs, over the checkpoint store, the
    workflow engine and the update pipeline. *)
From stdpp Require Import strings.
From S2P Require Import Prelude Types Circular Ring Auditor Security MemUtils TxnLog Journal Workflow Checkpoints Crypto Update.

(** ** Workflows *)

(** The test's statics over a system with a journal: the trace, its length,
    and the steps whose run or undo is made to fail. *)
Record wtest := WTest {
  wt_trace : list Z;
  wt_len : Z;
  wt_fail_step : Z;
  wt_fail_undo : Z;
  wt_journal : journal
}.
#[export] Instance wtest_journal : HasJournal wtest := {
  journal_of := wt_journal;
  set_journal j s := WTest (wt_trace s) (wt_len s) (wt_fail_step s) (wt_fail_undo s) j
}.
Definition WF_TRACE_MAX : nat := 16.

(** [wf_reset], then the two assignments a subtest makes. *)
Definition wf_reset (fail_step fail_undo : Z) (s : wtest) : wtest :=
  WTest (replicate WF_TRACE_MAX 0) 0 fail_step fail_undo (wt_journal s).
Definition wf_mark (value : Z) (s : wtest) : wtest :=
  if wt_len s <? Z.of_nat WF_TRACE_MAX
  then WTest (<[Z.to_nat (wt_len s) := value]> (wt_trace s)) (wt_len s + 1) (wt_fail_step s) (wt_fail_undo s)
         (wt_journal s)
  else s.
Definition wf_do (idx : Z) : workflow_fn wtest := fun _ s =>
  (if idx =? wt_fail_step s then -1 else 0, wf_mark idx s).
Definition wf_undo_do (idx : Z) : workflow_fn wtest := fun _ s =>
  (if idx =? wt_fail_undo s then -1 else 0, wf_mark (- idx) s).

Definition wf_test_steps : list (workflow_step_t wtest) :=
  [Step (Some (chars "one")) (Some (wf_do 1)) (Some (wf_undo_do 1));
   Step (Some (chars "two")) (Some (wf_do 2)) (Some (wf_undo_do 2));
   Step (Some (chars "three")) (Some (wf_do 3)) (Some (wf_undo_do 3))].
Definition wf_trace_is (expect : list Z) (s : wtest) : bool :=
  bool_decide (wt_len s = Z.of_nat (length expect) /\ take (length expect) (wt_trace s) = expect).

Section Workflows.
Context (stk_key stk_value : list Z).
Abbreviation table := (list (workflow_t wtest)).

Definition begin_test (tbl : table) (s : wtest) : option nat * table * wtest :=
  workflow_begin (Some wf_test_steps) 3 0 tbl s.

(** Subtest 1: every step succeeds. *)
Definition wf_commits (tbl : table) (s : wtest) : option (bool * table * wtest) :=
  let s := wf_reset 0 0 s in
  let base_active := workflow_active_count tbl in
  let '(slot, tbl, s) := begin_test tbl s in
  match slot with
  | None => Some (false, tbl, s)
  | Some i =>
      let claimed := workflow_active_count tbl in
      '(rv, tbl, s) ← workflow_run_slot stk_key stk_value slot tbl s;
      wf ← tbl !! i;
      let core_ok := ((rv =? 0) && (wf_status wf =? WF_STATUS_COMMITTED) && (wf_done_count wf =? 3) &&
                      wf_trace_is [1; 2; 3] s)%bool in
      let tbl := workflow_release slot tbl in
      Some ((core_ok && (claimed =? base_active + 1) && (workflow_active_count tbl =? base_active))%bool, tbl, s)
  end.

(** Subtests 2 to 4: a step fails, perhaps an undo as well. *)
Definition wf_fails (fail_step fail_undo status : Z) (expect : list Z) (tbl : table) (s : wtest)
    : option (bool * table * wtest) :=
  let '(slot, tbl, s) := begin_test tbl (wf_reset fail_step fail_undo s) in
  match slot with
  | None => Some (false, tbl, s)
  | Some i =>
      '(rv, tbl, s) ← workflow_run_slot stk_key stk_value slot tbl s;
      wf ← tbl !! i;
      Some ((negb (rv =? 0) && (wf_status wf =? status) && wf_trace_is expect s)%bool, workflow_release slot tbl, s)
  end.

(** Subtests 5 and 6: recovery of a slot abandoned after two steps.  [kept]
    is the expected growth of the table and [status] that of the slot. *)
Definition wf_recovers (fail_undo : Z) (rv_ok : bool) (status kept : Z) (tbl : table) (s : wtest)
    : option (bool * table * wtest) :=
  let s := wf_reset 0 fail_undo s in
  let base_active := workflow_active_count tbl in
  let '(slot, tbl, s) := begin_test tbl s in
  match slot with
  | None => Some (false, tbl, s)
  | Some i =>
      wf ← tbl !! i;
      let tbl := <[i := with_status WF_STATUS_RUNNING (with_done 2 wf)]> tbl in
      '(rv, tbl, s) ← workflow_recover stk_key stk_value tbl s;
      wf ← tbl !! i;
      let ok := (eqb (rv =? 0) rv_ok && wf_trace_is [-2; -1] s && (wf_status wf =? status) &&
                 (workflow_active_count tbl =? base_active + kept))%bool in
      (* subtest 6 releases the slot recovery kept *)
      Some (ok, if rv_ok then tbl else workflow_release slot tbl, s)
  end.

Definition test_workflow (tbl : table) (s : wtest) : option (Z * table * wtest) :=
  '(b1, tbl, s) ← wf_commits tbl s;
  '(b2, tbl, s) ← wf_fails 2 0 WF_STATUS_ROLLED_BACK [1; 2; -1] tbl s;
  '(b3, tbl, s) ← wf_fails 3 0 WF_STATUS_ROLLED_BACK [1; 2; 3; -2; -1] tbl s;
  '(b4, tbl, s) ← wf_fails 3 1 WF_STATUS_FAILED [1; 2; 3; -2; -1] tbl s;
  '(b5, tbl, s) ← wf_recovers 0 true WF_STATUS_IDLE 0 tbl s;
  '(b6, tbl, s) ← wf_recovers 1 false WF_STATUS_FAILED 1 tbl s;
  Some (Z.b2z b1 + Z.b2z b2 + Z.b2z b3 + Z.b2z b4 + Z.b2z b5 + Z.b2z b6, tbl, s).
End Workflows.

(** ** Transactional storage *)

(** [for (i = 0; i < n; i++) buf[i] = f(i)] on memory. *)
Definition fill_with (f : Z -> Z) (n : nat) (at_ : Z) (m : gmap Z Z) : gmap Z Z :=
  foldl (fun m i => stb m (at_ + Z.of_nat i) (f (Z.of_nat i))) m (seq 0 n).
Definition set_mem (f : gmap Z Z -> gmap Z Z) (s : store) : store := with_mem (f (s_mem s)) s.

Section Storage.
Context (rt : regions) (slot_data : nat -> Z) (stk_key stk_value : list Z).
(** The address of [test_buf], and the uninitialised string fields of [e]. *)
Context (test_buf : Z) (e_junk_key e_junk_value : list Z).

(** Subtest 1: [k] more ids, each above the last. *)
Fixpoint ids_increase (k : nat) (prev : Z) (j : journal) : bool * journal :=
  match k with
  | O => (true, j)
  | S k => let '(id, j) := generate_transaction_id j in
           if id <=? prev then (false, j) else ids_increase k id j
  end.

(** Subtest 2: save, corrupt, restore. *)
Definition round_trip (s : store) : bool * store :=
  let s := set_mem (fill_with (fun i => i mod 256) 4096 test_buf) s in
  let '(rv, s) := storage_register_buffer (Some (chars "src_buf")) test_buf CHECKPOINT_SIZE s in
  if negb (rv =? 0) then (false, s)
  else
    let '(rv, s) := create_checkpoint rt slot_data stk_key stk_value (Some (chars "src_buf")) (Some (chars "ckpt_a")) s in
    if negb (rv =? 0) then (false, s)
    else
      let s := set_mem (fill_with (fun _ => 204) 4096 test_buf) s in
      let '(rv, s) := restore_checkpoint rt slot_data stk_key stk_value (Some (chars "ckpt_a")) (Some (chars "src_buf")) s in
      if negb (rv =? 0) then (false, s)
      else (forallb (fun i => ldb (s_mem s) (test_buf + Z.of_nat i) =? Z.of_nat i mod 256) (seq 0 4096), s).

(** One write of subtest 3. *)
Definition write_entry (j : journal) : journal :=
  let '(id, j) := generate_transaction_id j in
  journal_transaction (TxnEntry id 0 OP_WRITE (107 :: 0 :: drop 2 e_junk_key) (118 :: 0 :: drop 2 e_junk_value) 0) j.
Definition tick_journal (j : journal) : journal := with_journal_auditor (auditor_tick (j_auditor j)) j.

(** Subtest 3: a thousand writes into 256 slots; the log and the exporter
    count the same drops. *)
Definition overflow_counted (j : journal) : bool * journal :=
  let j := tick_journal j in
  let baseline_overflow := r_overflow (au_ring (j_auditor j)) in
  let baseline_local := txn_log_get_overflow (j_log j) in
  let baseline_depth := txn_log_get_depth (j_log j) in
  let free_slots := if baseline_depth <? 256 then 256 - baseline_depth else 0 in
  let expected_drops := if 1000 >? free_slots then 1000 - free_slots else 0 in
  let j := Nat.iter 1000 write_entry j in
  let local_delta := u32 (txn_log_get_overflow (j_log j) - baseline_local) in
  let exporter_delta := u32 (r_overflow (au_ring (j_auditor j)) - baseline_overflow) in
  (((local_delta =? expected_drops) && (exporter_delta =? expected_drops) && (expected_drops >? 0))%bool,
   tick_journal j).

Definition test_transactional_storage (s : store) : Z * store :=
  let '(b1, j) := ids_increase 1000 0 (s_journal s) in
  let '(b2, s) := round_trip (with_journal j s) in
  let '(b3, j) := overflow_counted (s_journal s) in
  (Z.b2z b1 + Z.b2z b2 + Z.b2z b3, with_journal j s).
End Storage.

(** ** Sandbox and updates *)

(** An image with an ELF magic and the pattern [i & 0xFF] behind it. *)
Definition elf_image (at_ : Z) (n : nat) : buffer :=
  Buf at_ ([127; 69; 76; 70] ++ ((fun i => Z.of_nat i mod 256) <$> seq 4 (n - 4))).

(** [img], [bad] and the literal are at the given addresses; the third call
    passes a size beyond the literal's end, which the size test sees before
    any byte is read. *)
Definition test_sandbox_staging (img bad lit : Z) (rest : list Z) (stage : list Z) : Z * list Z :=
  let '(b1, stage) := sandbox_apply (elf_image img 512) stage in
  let '(b2, stage) := sandbox_apply (Buf bad (replicate 128 255)) stage in
  let '(b3, stage) := sandbox_apply (Buf lit ([127; 69; 76; 70] ++ take (Z.to_nat SANDBOX_STAGE_SIZE - 3) rest)) stage in
  (Z.b2z b1 + Z.b2z (negb b2) + Z.b2z (negb b3), stage).

(** The fake backend of [test_storage_backend] over the store: it counts the
    calls of its [create_checkpoint] and answers [fk_result]. *)
Record fake := Fake { fk_calls : Z; fk_result : Z; fk_store : store }.
#[export] Instance fake_journal : HasJournal fake := {
  journal_of f := s_journal (fk_store f);
  set_journal j f := Fake (fk_calls f) (fk_result f) (with_journal j (fk_store f))
}.
Definition on_store (g : store -> Z * store) (f : fake) : Z * fake :=
  let '(rv, s) := g (fk_store f) in (rv, Fake (fk_calls f) (fk_result f) s).

Section Updates.
Context (rt : regions) (slot_data : nat -> Z) (stk_key stk_value : list Z).
Abbreviation memory_ops := (memory_storage_ops rt slot_data stk_key stk_value).

Definition fake_create_checkpoint (src dst : option (list Z)) (f : fake) : Z * fake :=
  (fk_result f, Fake (fk_calls f + 1) (fk_result f) (fk_store f)).
Definition fake_storage_ops : storage_ops_t fake :=
  StorageOps fake fake_create_checkpoint
    (fun src dst => on_store (so_restore_checkpoint _ memory_ops src dst))
    (fun checkpoint => on_store (so_remove_checkpoint _ memory_ops checkpoint))
    (fun f => (0, f)) (fun f => (-1, f)) (fun f => (-1, f)) (fun f => (0, f)) (fun f => (0, f)).

(** The real backend, with the fake's counters beside it. *)
Definition real_storage_ops : storage_ops_t fake :=
  StorageOps fake (fun src dst => on_store (so_create_checkpoint _ memory_ops src dst))
    (fun src dst => on_store (so_restore_checkpoint _ memory_ops src dst))
    (fun checkpoint => on_store (so_remove_checkpoint _ memory_ops checkpoint))
    (on_store (so_init _ memory_ops)) (on_store (so_get_state _ memory_ops)) (on_store (so_set_state _ memory_ops))
    (on_store (so_prepare_swap _ memory_ops)) (on_store (so_finalize_swap _ memory_ops)).

(** The addresses of the images, the target buffer, the probe and the two
    [update_state] locals. *)
Context (test_binary target_buf probe img update st : Z).

(** Whether the test's PASS line is reached. *)
Definition test_update_system (tbl : list (workflow_t (usys store))) (s : usys store)
    : option (bool * list (workflow_t (usys store)) * usys store) :=
  let image := elf_image test_binary 256 in
  let hash := compute_sha256 rt image in
  let path := chars "/services/test_update.bin" in
  let d := set_mem (fill_with (fun _ => 165) 256 target_buf) (u_store s) in
  let '(rv, d) := storage_register_buffer (Some path) target_buf 256 d in
  let s := set_u_store d s in
  if negb (rv =? 0) then Some (false, tbl, s)
  else
    '(rv, s) ← init_update_transaction update 1 (Some path) image hash s;
    if negb (rv =? 0) then Some (false, tbl, s)
    else
      '(result, tbl, s) ← execute_update rt stk_key stk_value update tbl s;
      Some (((result =? 0) && (us_status (u_state update s) =? UPDATE_STATUS_COMPLETE))%bool, tbl,
            cleanup_update_transaction update s).

(** Subtest 1, with the backend the table holds. *)
Definition backend_round_trips (s : usys fake) : bool * usys fake :=
  let d := u_store s in
  let d := Fake (fk_calls d) (fk_result d) (set_mem (fill_with (fun i => i mod 256) 64 probe) (fk_store d)) in
  match u_backend s with
  | None => (false, set_u_store d s)
  | Some ops =>
      let '(rv, d) := on_store (storage_register_buffer (Some (chars "seam_probe")) probe 64) d in
      if negb (rv =? 0) then (false, set_u_store d s)
      else
        let '(rv, d) := so_create_checkpoint _ ops (Some (chars "seam_probe")) (Some (chars "seam_ckpt")) d in
        if negb (rv =? 0) then (false, set_u_store d s)
        else
          let '(rv, d) := so_restore_checkpoint _ ops (Some (chars "seam_ckpt")) (Some (chars "seam_probe")) d in
          if negb (rv =? 0) then (false, set_u_store d s)
          else
            let '(rv, d) := so_remove_checkpoint _ ops (Some (chars "seam_ckpt")) d in
            (rv =? 0, set_u_store d s)
  end.

(** Subtest 2: a backend that refuses. *)
Definition backend_refuses (tbl : list (workflow_t (usys fake))) (s : usys fake)
    : option (bool * list (workflow_t (usys fake)) * usys fake) :=
  let image := elf_image img 256 in
  let s := Usys (u_states s) (u_checkpoint s) (u_stage s) (storage_set_backend (Some fake_storage_ops) (u_backend s))
             (Fake 0 (-1) (fk_store (u_store s))) in
  '(rv, s) ← init_update_transaction st 1 (Some (chars "/services/seam_test.bin")) image (compute_sha256 rt image) s;
  '(rv, tbl, s) ←
    (if rv =? 0
     then '(rv, tbl, s) ← execute_update rt stk_key stk_value st tbl s;
          Some (rv, tbl, cleanup_update_transaction st s)
     else Some (-1, tbl, s));
  let s := Usys (u_states s) (u_checkpoint s) (u_stage s) (storage_set_backend (Some real_storage_ops) (u_backend s))
             (u_store s) in
  Some (((fk_calls (u_store s) >? 0) && negb (rv =? 0) && (us_status (u_state st s) =? UPDATE_STATUS_ROLLBACK))%bool,
        tbl, s).

Definition test_storage_backend (tbl : list (workflow_t (usys fake))) (s : usys fake)
    : option (Z * list (workflow_t (usys fake)) * usys fake) :=
  let '(b1, s) := backend_round_trips s in
  '(b2, tbl, s) ← backend_refuses tbl s;
  Some (Z.b2z b1 + Z.b2z b2, tbl, s).
End Updates.

(** ** They pass *)

(** The store, and the two systems over it, when the tests start. *)
Definition boot_store : store :=
  Store (replicate MAX_CHECKPOINTS (RBuf [] 0 0 false)) (replicate MAX_CHECKPOINTS (CSlot [] 0 false)) ∅ journal_bss.
Definition boot_updates (ops : storage_ops_t store) : usys store :=
  Usys ∅ [] (replicate (Z.to_nat SANDBOX_STAGE_SIZE) 0) (Some ops) boot_store.
Definition boot_fake (ops : storage_ops_t fake) : usys fake :=
  Usys ∅ [] (replicate (Z.to_nat SANDBOX_STAGE_SIZE) 0) (Some ops) (Fake 0 0 boot_store).


Lemma fill_with_spec f n a m x :
  range_ok a (Z.of_nat n) -> 0 <= x < 4294967296 ->
  ldb (fill_with f n a m) x = if decide (a <= x < a + Z.of_nat n) then u8 (f (x - a)) else ldb m x.
Proof.
  intros [Ha Hn] Hx. induction n as [|n IH]; [cbn; by rewrite decide_False by lia|].
  unfold fill_with in *. rewrite seq_S, foldl_app. cbn [foldl Nat.add]. rewrite ldb_stb, IH by lia.
  destruct (x =? a + Z.of_nat n) eqn:E; bools.
  - rewrite decide_True by lia. do 2 f_equal. lia.
  - case_decide; [rewrite decide_True by lia; done|rewrite decide_False by lia; done].
Qed.

Lemma fill_with_bytes_ok f n a m : bytes_ok m -> bytes_ok (fill_with f n a m).
Proof.
  intros Hm. unfold fill_with. generalize (seq 0 n). intros l. revert m Hm.
  induction l as [|i l IH]; intros m Hm; [done|]. apply IH. by apply stb_bytes_ok.
Qed.

Lemma memcpy_bytes_ok rt m d a n : bytes_ok m -> bytes_ok (memcpy rt m d a n).
Proof.
  intros Hm. unfold memcpy. destruct (_ || _)%bool; [done|]. generalize 0 as i, (Z.to_nat n) as k. intros i k.
  revert m i Hm. induction k as [|k IH]; intros m i Hm; [done|]. apply IH. by apply stb_bytes_ok.
Qed.

(** The store after the two registrations of subtest 2. *)
Definition src_registered (test_buf : Z) : list registered_buffer_t :=
  <[0%nat := RBuf (chars "src_buf") test_buf 4096 true]> (s_buffers boot_store).
Definition ckpt_taken : list checkpoint_slot_t := <[0%nat := CSlot (chars "ckpt_a") 4096 true]> (s_slots boot_store).

(** The journal's log is well formed and its counters are 32-bit. *)
Record journal_ok (j : journal) : Prop := {
  jo_log : log_wf (j_log j);
  jo_local : 0 <= tl_overflow (j_log j) < 4294967296;
  jo_ring : 0 <= r_overflow (au_ring (j_auditor j)) < 4294967296
}.

Lemma generate_ok j : journal_ok j -> journal_ok (generate_transaction_id j).2.
Proof. intros []. unfold generate_transaction_id. by destruct (_ =? _). Qed.

(** One entry: the depth grows up to 256, then both counters do. *)
Lemma journal_transaction_ok e j :
  journal_ok j ->
  let j' := journal_transaction e j in
  let drop := if txn_log_get_depth (j_log j) =? 256 then 1 else 0 in
  journal_ok j' /\ txn_log_get_depth (j_log j') = txn_log_get_depth (j_log j) + 1 - drop /\
  tl_overflow (j_log j') = u32 (tl_overflow (j_log j) + drop) /\
  r_overflow (au_ring (j_auditor j')) = u32 (r_overflow (au_ring (j_auditor j)) + drop).
Proof.
  intros [Hw Hl Hr]. unfold journal_transaction.
  pose proof (log_transaction_spec (j_log j) (au_ring (j_auditor j)) (j_current j) e Hw) as H. cbv zeta in H.
  pose proof (length_log_contents _ Hw) as Hd.
  destruct (log_transaction _ _ _ _) as [[[rv l'] r'] e']. destruct H as (_ & _ & Hw' & Hc & Ho & Hr').
  pose proof (length_log_contents _ Hw') as Hd'. cbv zeta. cbn [j_log j_auditor set_ring au_ring].
  destruct (length (log_contents (j_log j)) =? 256)%nat eqn:E; [apply Nat.eqb_eq in E|apply Nat.eqb_neq in E].
  - rewrite (proj2 (Z.eqb_eq _ 256)) by lia. rewrite Hc, length_app in Hd'. cbn [length] in Hd'.
    assert (Htl : length (tail (log_contents (j_log j))) = 255%nat) by (destruct (log_contents (j_log j)); cbn in *; lia).
    subst r'. cbn [r_overflow set_overflow]. split_and!; [split; cbn|lia|done|done]; [done|rewrite Ho|]; apply u32_range.
  - rewrite (proj2 (Z.eqb_neq _ 256)) by lia. rewrite Hc, length_app in Hd'. cbn [length] in Hd'. subst r'.
    rewrite Ho, !Z.add_0_r, !u32_id by done. split_and!; [split; cbn; [done|by rewrite Ho|done]|lia|done|done].
Qed.

Lemma tick_journal_ok j :
  journal_ok j -> journal_ok (tick_journal j) /\ j_log (tick_journal j) = j_log j.
Proof.
  intros [Hw Hl Hr]. split; [|done]. split; [done|done|]. unfold tick_journal, with_journal_auditor. cbn [j_auditor].
  unfold auditor_tick. destruct (negb _); [done|]. cbv zeta.
  assert (Hdrain : forall n a, r_overflow (au_ring (drain n a)) = r_overflow (au_ring a)).
  { induction n as [|n IH]; intros a; [done|]. cbn [drain]. unfold ring_pop. destruct (_ =? _); [done|].
    rewrite IH. done. }
  destruct (_ >=? 100); cbn [au_ring set_counters emit_heartbeat_record tlm_write_bytes]; rewrite Hdrain;
    destruct (_ >? 0); cbn; done || lia.
Qed.

Section RoundTrip.
Context (rt : regions) (slot_data : nat -> Z) (stk_key stk_value : list Z) (test_buf : Z).
Lemma register_src m j :
  test_buf <> 0 ->
  storage_register_buffer (Some (chars "src_buf")) test_buf CHECKPOINT_SIZE
    (Store (s_buffers boot_store) (s_slots boot_store) m j) =
  (0, Store (src_registered test_buf) (s_slots boot_store) m j).
Proof. intros Hb. unfold storage_register_buffer. rewrite (proj2 (Z.eqb_neq test_buf 0) Hb). reflexivity. Qed.
Lemma create_src m j :
  journal_ok j ->
  exists j', journal_ok j' /\ create_checkpoint rt slot_data stk_key stk_value (Some (chars "src_buf")) (Some (chars "ckpt_a"))
    (Store (src_registered test_buf) (s_slots boot_store) m j) =
  (0, Store (src_registered test_buf) ckpt_taken (memcpy rt m (slot_data 0%nat) test_buf 4096) j').
Proof.
  intros Hj. pose proof (generate_ok j Hj) as Hg. unfold create_checkpoint, log_op. cbn [s_journal with_mem with_slots].
  destruct (generate_transaction_id j) as [id j1]. eexists. split; [|reflexivity]. by apply journal_transaction_ok.
Qed.
Lemma restore_src m j :
  journal_ok j ->
  exists j', journal_ok j' /\ restore_checkpoint rt slot_data stk_key stk_value (Some (chars "ckpt_a")) (Some (chars "src_buf"))
    (Store (src_registered test_buf) ckpt_taken m j) =
  (0, Store (src_registered test_buf) ckpt_taken (memcpy rt m test_buf (slot_data 0%nat) 4096) j').
Proof.
  intros Hj. pose proof (generate_ok j Hj) as Hg. unfold restore_checkpoint, log_op. cbn [s_journal with_mem].
  destruct (generate_transaction_id j) as [id j1]. eexists. split; [|reflexivity]. by apply journal_transaction_ok.
Qed.

(** Subtest 2, for any placement the policy grants. *)
Lemma round_trip_passes m j :
  bytes_ok m -> test_buf <> 0 -> buffer_ok rt slot_data (RBuf (chars "src_buf") test_buf 4096 true) -> journal_ok j ->
  let '(ok, s) := round_trip rt slot_data stk_key stk_value test_buf
                    (Store (s_buffers boot_store) (s_slots boot_store) m j) in
  ok = true /\ journal_ok (s_journal s).
Proof.
  intros Hm Hpos [_ Hbuf Hslot Hapart [Hbr Hbw] Hg] Hj. cbn [rb_data rb_size] in *.
  assert (H0 : (0 < MAX_CHECKPOINTS)%nat) by (unfold MAX_CHECKPOINTS; lia).
  specialize (Hslot _ H0). specialize (Hapart _ H0). destruct (Hg _ H0) as [Hsr Hsw]. clear Hg.
  unfold round_trip, set_mem, with_mem. cbn [s_mem s_buffers s_slots s_journal].
  set (m1 := fill_with (fun i => i mod 256) 4096 test_buf m).
  assert (Hm1 : bytes_ok m1) by by apply fill_with_bytes_ok.
  rewrite register_src by done. cbn [negb Z.eqb]. destruct (create_src m1 j Hj) as (j1 & Hj1 & ->).
  cbn [negb Z.eqb s_buffers s_slots s_mem s_journal].
  set (m2 := memcpy rt m1 _ _ _). set (m3 := fill_with (fun _ => 204) 4096 test_buf m2).
  assert (Hm3 : bytes_ok m3) by by apply fill_with_bytes_ok, memcpy_bytes_ok.
  destruct (restore_src m3 j1 Hj1) as (j2 & Hj2 & ->). cbn [negb Z.eqb s_mem s_journal]. split; [|exact Hj2].
  apply forallb_forall. intros i Hi%in_seq. apply Z.eqb_eq. unfold range_ok in *.
  rewrite memcpy_granted by (unfold range_ok; done || lia).
  rewrite (proj2 (Z.leb_le _ _)), (proj2 (Z.ltb_lt _ _)) by lia. cbn [andb].
  replace (slot_data 0%nat + (test_buf + Z.of_nat i - test_buf)) with (slot_data 0%nat + Z.of_nat i) by lia.
  unfold m3, m2. rewrite fill_with_spec, decide_False by (unfold range_ok; lia).
  rewrite memcpy_granted by (unfold range_ok; done || lia).
  rewrite (proj2 (Z.leb_le _ _)), (proj2 (Z.ltb_lt _ _)) by lia. cbn [andb].
  unfold m1. rewrite fill_with_spec, decide_True by (unfold range_ok; lia).
  rewrite u8_id by lia. f_equal. lia.
Qed.
End RoundTrip.

Lemma ids_increase_ok k prev j :
  prev < j_next_id j -> j_next_id j + Z.of_nat k <= 18446744073709551615 ->
  ids_increase k prev j =
    (true, Journal (j_log j) (j_auditor j) (j_current j) (j_next_id j + Z.of_nat k) (j_halted j)).
Proof.
  revert prev j. induction k as [|k IH]; intros prev j Hp Hn; cbn [ids_increase].
  - rewrite Z.add_0_r. by destruct j.
  - unfold generate_transaction_id. rewrite (proj2 (Z.eqb_neq _ _)) by lia. rewrite (proj2 (Z.leb_gt _ _)) by lia.
    rewrite IH by (cbn [j_next_id]; lia). cbn [j_log j_auditor j_current j_next_id j_halted].
    do 2 f_equal. lia.
Qed.


(** The writes of subtest 3. *)
Lemma writes_counted e_key e_value j n :
  journal_ok j ->
  let j' := Nat.iter n (write_entry e_key e_value) j in
  let d := txn_log_get_depth (j_log j) in
  let drops := Z.max 0 (d + Z.of_nat n - 256) in
  journal_ok j' /\ txn_log_get_depth (j_log j') = Z.min 256 (d + Z.of_nat n) /\
  tl_overflow (j_log j') = u32 (tl_overflow (j_log j) + drops) /\
  r_overflow (au_ring (j_auditor j')) = u32 (r_overflow (au_ring (j_auditor j)) + drops).
Proof.
  intros Hj. pose proof (lw_depth _ (jo_log _ Hj)) as Hd. cbv zeta.
  induction n as [|n (Hj' & Hdn & Hon & Hrn)].
  - cbn [Nat.iter]. destruct Hj as [Hw Hl Hr]. rewrite !Z.max_l, !Z.add_0_r, !u32_id, Z.min_r by lia. done.
  - change (Nat.iter (S n) ?f ?x) with (f (Nat.iter n f x)). set (jn := Nat.iter n _ j) in *.
    unfold write_entry. pose proof (generate_ok _ Hj') as Hg.
    assert (Hsame : j_log (generate_transaction_id jn).2 = j_log jn /\
                    j_auditor (generate_transaction_id jn).2 = j_auditor jn)
      by (unfold generate_transaction_id; by destruct (_ =? _)).
    destruct (generate_transaction_id jn) as [id jg]. cbn [snd] in Hg, Hsame. destruct Hsame as [Hsl Hsa].
    destruct (journal_transaction_ok (TxnEntry id 0 OP_WRITE (107 :: 0 :: drop 2 e_key) (118 :: 0 :: drop 2 e_value) 0)
                jg Hg) as (H1 & H2 & H3 & H4).
    rewrite Hsl, Hdn in H2, H3, H4. rewrite Hon in H3. rewrite Hsa, Hrn in H4. rewrite H2, H3, H4. clear H2 H3 H4.
    set (d := txn_log_get_depth (j_log j)) in *.
    destruct (Z.min 256 (d + Z.of_nat n) =? 256) eqn:E; bools; (split; [exact H1|]); unfold u32; split_and!; lia.
Qed.

Lemma overflow_counted_ok e_key e_value j :
  journal_ok j -> let '(ok, j') := overflow_counted e_key e_value j in ok = true /\ journal_ok j'.
Proof.
  intros Hj. unfold overflow_counted. destruct (tick_journal_ok j Hj) as [Ht _]. cbv zeta.
  set (j0 := tick_journal j) in *. pose proof (lw_depth _ (jo_log _ Ht)) as Hd.
  destruct (writes_counted e_key e_value j0 1000 Ht) as (Hw & _ & Ho & Hr).
  set (jn := Nat.iter 1000 _ _) in *. split; [|by apply tick_journal_ok].
  unfold txn_log_get_overflow. rewrite Ho, Hr. set (d := txn_log_get_depth (j_log j0)) in *.
  assert (0 <= d) by (unfold d, txn_log_get_depth; apply u32_range).
  assert (Hdrops : (if 1000 >? (if d <? 256 then 256 - d else 0) then 1000 - (if d <? 256 then 256 - d else 0) else 0)
                   = Z.max 0 (d + Z.of_nat 1000 - 256)).
  { destruct (d <? 256) eqn:E; bools; rewrite Z.gtb_ltb, (proj2 (Z.ltb_lt _ _)) by lia; lia. }
  rewrite Hdrops. set (k := Z.max 0 _) in *. destruct Ht as [_ Hl Hrr].
  assert (Hback : forall x, 0 <= x < 4294967296 -> (u32 (u32 (x + k) - x) =? k) = true).
  { intros x Hx. apply Z.eqb_eq. unfold u32. lia. }
  rewrite !Hback by done. cbn [andb]. rewrite Z.gtb_ltb. apply Z.ltb_lt. lia.
Qed.

(** The storage self test passes.  Wherever its buffer lies, under any
    access policy that grants the two copies, and whatever the journal and
    the auditor's ring hold, all three subtests succeed on the empty store:
    a thousand increasing ids, a 4096-byte buffer saved, overwritten and
    restored, and a thousand log writes whose drops the log and the exporter
    count alike. *)
Theorem storage_test_passes (rt : regions) (slot_data : nat -> Z) (stk_key stk_value e_key e_value : list Z)
    (test_buf : Z) (m : gmap Z Z) (j : journal) :
  bytes_ok m -> test_buf <> 0 -> buffer_ok rt slot_data (RBuf (chars "src_buf") test_buf 4096 true) ->
  journal_ok j -> 0 < j_next_id j -> j_next_id j + 1000 <= 18446744073709551615 ->
  (test_transactional_storage rt slot_data stk_key stk_value test_buf e_key e_value
     (Store (s_buffers boot_store) (s_slots boot_store) m j)).1 = 3.
Proof.
  intros Hm Hb Hbuf Hj Hpos Hid. unfold test_transactional_storage, with_journal. cbn [s_journal s_buffers s_slots s_mem].
  rewrite ids_increase_ok by lia. set (j1 := Journal _ _ _ _ _).
  assert (Hj1 : journal_ok j1) by by destruct Hj.
  pose proof (round_trip_passes rt slot_data stk_key stk_value test_buf m j1 Hm Hb Hbuf Hj1) as Hrt.
  destruct (round_trip _ _ _ _ _ _) as [b2 s2]. destruct Hrt as [-> Hj2].
  pose proof (overflow_counted_ok e_key e_value _ Hj2) as Ho.
  destruct (overflow_counted _ _ _) as [b3 j3]. by destruct Ho as [-> _].
Qed.

Lemma boot_journal_ok : journal_ok journal_bss.
Proof. split; [exact txn_log_bss_wf|split; [discriminate|reflexivity]|split; [discriminate|reflexivity]]. Qed.

Lemma boot_buffer_ok : buffer_ok demo_policy demo_slot_data (RBuf (chars "src_buf") 786432 4096 true).
Proof.
  split; cbn [rb_data rb_size].
  - lia.
  - unfold range_ok. lia.
  - intros i Hi. unfold range_ok, demo_slot_data, MAX_CHECKPOINTS in *. lia.
  - intros i Hi. unfold demo_slot_data, MAX_CHECKPOINTS in *. lia.
  - split; vm_compute; reflexivity.
  - intros i Hi. split; apply demo_policy_slots; unfold MAX_CHECKPOINTS in *; lia.
Qed.

Example storage_test_passes_witness :
  (test_transactional_storage demo_policy demo_slot_data [0; 0] [0; 0] 786432 [0; 0] [0; 0]
     (Store (s_buffers boot_store) (s_slots boot_store) demo_bytes journal_bss)).1 = 3.
Proof.
  apply (storage_test_passes demo_policy demo_slot_data [0; 0] [0; 0] [0; 0] [0; 0] 786432 demo_bytes journal_bss);
    [exact stb_all_ok|discriminate|exact boot_buffer_ok|exact boot_journal_ok|reflexivity|discriminate].
Defined.

Lemma sandbox_accepts img stage : img <> 0 -> (sandbox_apply (elf_image img 512) stage).1 = true.
Proof.
  intros Hi. unfold sandbox_apply. change (buf_len (elf_image img 512)) with 512. cbn [bf_at elf_image].
  rewrite (proj2 (Z.eqb_neq img 0)) by done. by rewrite bool_decide_true.
Qed.
Lemma sandbox_refuses_magic bad stage : bad <> 0 -> sandbox_apply (Buf bad (replicate 128 255)) stage = (false, stage).
Proof.
  intros Hb. unfold sandbox_apply. change (buf_len (Buf bad (replicate 128 255))) with 128. cbn [bf_at].
  rewrite (proj2 (Z.eqb_neq bad 0)) by done. by rewrite bool_decide_false.
Qed.
Lemma sandbox_refuses_size b stage : buf_len b > SANDBOX_STAGE_SIZE -> sandbox_apply b stage = (false, stage).
Proof.
  intros Hb. unfold sandbox_apply. cbv zeta. rewrite (proj2 (Z.gtb_lt (buf_len b) _)) by lia.
  by destruct (_ || _)%bool.
Qed.

(** The other self tests of storage pass.  On the workflow table and the
    update manager as boot finds them, the six workflow subtests succeed and
    leave the table empty; all five steps of the test update commit; a
    backend that refuses to checkpoint makes the update roll back, and the
    staging area accepts an image and rejects a bad magic and a size beyond
    its end. *)
Theorem pipeline_self_tests_pass (stk_key stk_value rest stage : list Z) (img bad lit : Z) :
  (exists s, test_workflow stk_key stk_value (replicate 4 wf_zero) (WTest [] 0 0 0 journal_bss) =
     Some (6, replicate 4 wf_zero, s)) /\
  (fun x => x.1.1) <$> test_update_system demo_policy [0; 0] [0; 0] 786432 790528 20480 (replicate 4 wf_zero)
     (boot_updates (memory_storage_ops demo_policy demo_slot_data [0; 0] [0; 0])) = Some true /\
  (fun x => x.1.1) <$> test_storage_backend demo_policy demo_slot_data [0; 0] [0; 0] 786432 790528 20480 (replicate 4 wf_zero)
     (boot_fake (real_storage_ops demo_policy demo_slot_data [0; 0] [0; 0])) = Some 2 /\
  (img <> 0 -> bad <> 0 -> SANDBOX_STAGE_SIZE <= Z.of_nat (length rest) ->
   (test_sandbox_staging img bad lit rest stage).1 = 3).
Proof.
  split; [eexists; vm_compute; reflexivity|]. split; [vm_compute; reflexivity|]. split; [vm_compute; reflexivity|].
  intros Hi Hb Hr. unfold test_sandbox_staging.
  pose proof (sandbox_accepts img stage Hi) as H1. destruct (sandbox_apply (elf_image img 512) stage) as [b1 stage1].
  cbn [fst] in H1. subst b1. rewrite sandbox_refuses_magic by done. rewrite sandbox_refuses_size; [done|].
  unfold buf_len. cbn [bf_bytes]. rewrite length_app, length_take. cbn [length].
  generalize dependent SANDBOX_STAGE_SIZE. intros n Hn. lia.
Qed.

Example pipeline_self_tests_pass_witness :
  (test_sandbox_staging 4096 8192 12288 (replicate (Z.to_nat SANDBOX_STAGE_SIZE) 0) []).1 = 3.
Proof.
  apply (pipeline_self_tests_pass [] []); [discriminate|discriminate|].
  rewrite length_replicate, Z2Nat.id by discriminate. apply Z.le_refl.
Defined.
