(* ===== verification/Lifecycle.v ===== *)
(** * The task lifecycle test: test_task_lifecycle of kernel/main.c

    Three threads over the kernel of [Switch]: the boot task and two children
    that yield three times each and terminate.  A thread is a stack of C
    frames; of these the model keeps, per task, where its last call of
    [task_yield] returns to and the [old] of that call.  Which thread runs
    after a switch is decided by the address the switch returned to, as the
    machine does it. *)
From S2P Require Import Prelude Types Circular Ring Auditor Tasks Scheduler Interrupts Security DomainGraph Ipc Channels Syscall SelfTests Switch.

(** Where a thread stands between two calls of [task_yield]: the head of the
    boot task's waiting loop with its counter, the head of a child's loop, a
    child after its last yield ([false] for A, [true] for B). *)
Inductive point := MainLoop (safety : Z) | BodyHead (child : bool) | BodyEnd (child : bool).

Section Test.
Context {P : Type} `{SplOps P} (a : arch).
(** The entries of the two bodies and the address after the call of the
    switch in [task_yield]. *)
Context (stacks entry_a entry_b yield_ret : Z).

(** The kernel, [task_a_runs], [task_b_runs], and what lies on the stacks of
    the threads that are switched out. *)
Record threads := Threads { h_kernel : kernel P; h_a : Z; h_b : Z; h_frames : gmap nat (Z * point) }.

Definition tasks_of (k : kernel P) : task_state := sc_ts (k_sched k).
Definition on_tasks (ts : task_state) (k : kernel P) : kernel P :=
  Kernel (Sched ts (sc_cursor (k_sched k))) (k_cpu k) (k_mem k) (k_spl k).
Definition set_ret (ret : Z) (k : kernel P) : kernel P :=
  Kernel (k_sched k) (Cpu (c_regs (k_cpu k)) ret (c_sp (k_cpu k)) (c_pc (k_cpu k))) (k_mem k) (k_spl k).
Definition with_kernel (k : kernel P) (h : threads) : threads := Threads k (h_a h) (h_b h) (h_frames h).

(** A call of [task_yield] that returns to [pt].  [None]: the machine is
    somewhere the test does not account for. *)
Definition yield_at (pt : point) (h : threads) : option (point * threads) :=
  let k := set_ret yield_ret (h_kernel h) in
  prev ← ts_current (tasks_of k);
  e ← task_yield a k;
  match e with
  | Returned k => Some (pt, with_kernel k h)
  | Switched old k =>
      let frames := <[prev := (old, pt)]> (h_frames h) in
      next ← ts_current (tasks_of k);
      let pc := c_pc (k_cpu k) in
      if pc =? yield_ret
      then
        '(old, pt) ← frames !! next;
        Some (pt, Threads (task_yield_resume old k) (h_a h) (h_b h) frames)
      else if pc =? entry_a then Some (BodyHead false, Threads k (h_a h) (h_b h) frames)
      else if pc =? entry_b then Some (BodyHead true, Threads k (h_a h) (h_b h) frames)
      else None
  end.

(** [current_task->state = TASK_TERMINATED] *)
Definition terminate_current (k : kernel P) : option (kernel P) :=
  c ← ts_current (tasks_of k);
  t ← ts_tasks (tasks_of k) !! c;
  Some (on_tasks (set_tasks (<[c := set_state TASK_TERMINATED t]> (ts_tasks (tasks_of k))) (tasks_of k)) k).

Definition runs_of (child : bool) (h : threads) : Z := if child then h_b h else h_a h.
Definition count_run (child : bool) (h : threads) : threads :=
  if child then Threads (h_kernel h) (h_a h) (h_b h + 1) (h_frames h)
  else Threads (h_kernel h) (h_a h + 1) (h_b h) (h_frames h).

Definition terminated (k : kernel P) (i : nat) : bool := t_state (ts_tasks (tasks_of k) !!! i) =? TASK_TERMINATED.

(** From one yield to the next; [inr] when the boot task leaves its loop.
    [i] and [j] are the slots of the children. *)
Definition step_point (i j : nat) (pt : point) (h : threads) : option (point * threads + threads) :=
  match pt with
  | MainLoop safety =>
      if ((negb (terminated (h_kernel h) i) || negb (terminated (h_kernel h) j)) && (safety <? 64))%bool
      then inl <$> yield_at (MainLoop (safety + 1)) h
      else Some (inr h)
  | BodyHead child =>
      if runs_of child h <? 3
      then inl <$> yield_at (BodyHead child) (count_run child h)
      else k ← terminate_current (h_kernel h); inl <$> yield_at (BodyEnd child) (with_kernel k h)
  | BodyEnd child => inl <$> yield_at (BodyEnd child) h
  end.

Fixpoint run_threads (fuel : nat) (i j : nat) (pt : point) (h : threads) : option threads :=
  match fuel with
  | O => None
  | S fuel =>
      r ← step_point i j pt h;
      match r with
      | inl (pt, h) => run_threads fuel i j pt h
      | inr h => Some h
      end
  end.

(** The sweep over tasks other tests left. *)
Definition park (cur : task_t) (t : task_t) : task_t :=
  if (negb (t_task_id t =? t_task_id cur) && negb (t_state t =? TASK_TERMINATED))%bool
  then set_state TASK_TERMINATED t else t.
Definition park_stale (ts : task_state) : option task_state :=
  cur ← current ts;
  Some (set_tasks ((park cur <$> live ts) ++ drop (Z.to_nat (ts_count ts)) (ts_tasks ts)) ts).

Definition child_spec : task_t := Task 0 5 CAP_IPC_SEND 0 TASK_READY 0 0 0 0.

(** [task_setup_initial_frame] on the entry in slot [i]. *)
Definition frame_of (i : nat) (entry : Z) (k : kernel P) : kernel P :=
  let ts := tasks_of k in
  let '(m, t) := task_setup_initial_frame a (k_mem k) (Some (ts_tasks ts !!! i)) entry in
  let ts := set_tasks (<[i := default task_zero t]> (ts_tasks ts)) ts in
  Kernel (Sched ts (sc_cursor (k_sched k))) (k_cpu k) m (k_spl k).

(** Pass or fail; the test returns early when a child cannot be created. *)
Definition test_task_lifecycle (fuel : nat) (k : kernel P) (au : auditor) : option (bool * kernel P * auditor) :=
  ts ← park_stale (tasks_of k);
  let '(rv_a, ts, au, spec_a) := create_task stacks ts au (Some child_spec) in
  if negb (rv_a =? 0) then Some (false, on_tasks ts k, au)
  else
    let '(rv_b, ts, au, spec_b) := create_task stacks ts au (Some child_spec) in
    if negb (rv_b =? 0) then Some (false, on_tasks ts k, au)
    else
      match task_find ts (default 0 (t_task_id <$> spec_a)), task_find ts (default 0 (t_task_id <$> spec_b)) with
      | Some i, Some j =>
          let k := frame_of j entry_b (frame_of i entry_a (on_tasks ts k)) in
          '(pt, h) ← yield_at (MainLoop 0) (Threads k 0 0 ∅);
          h ← run_threads fuel i j pt h;
          Some (((h_a h =? 3) && (h_b h =? 3))%bool, h_kernel h, au)
      | _, _ => Some (false, on_tasks ts k, au)
      end.
End Test.
Arguments threads : clear implicits.

(** ** The test's effect on the table *)
Section Steps.
Context {P : Type} `{SplOps P} (a : arch) (stacks entry_a entry_b yield_ret : Z).
Abbreviation steps := (rtc (task_step stacks)).

Lemma steps_wf ts ts' : steps ts ts' -> tasks_wf ts -> tasks_wf ts'.
Proof. induction 1; eauto using task_step_wf. Qed.

Lemma live_slot ts i : tasks_wf ts -> Z.of_nat i < ts_count ts -> exists t, live ts !! i = Some t.
Proof. intros Hw Hi. apply lookup_lt_is_Some_2. rewrite (length_live ts Hw). lia. Qed.

Lemma context_switch_steps prev next (k : kernel P) :
  tasks_wf (tasks_of k) -> Z.of_nat prev < ts_count (tasks_of k) -> Z.of_nat next < ts_count (tasks_of k) ->
  steps (tasks_of k) (tasks_of (context_switch a prev next k)).
Proof.
  intros Hw Hp Hn. unfold context_switch, tasks_of in *. destruct (pushes _ _ _) as [sp m].
  destruct (pops _ _ _) as [ws sp']. cbn [k_sched sc_ts].
  set (ts := sc_ts (k_sched k)) in *. destruct (live_slot ts prev Hw Hp) as [t Ht].
  pose proof (proj1 (live_lookup _ _ _) Ht) as [Ht' _]. rewrite (lookup_total_Some _ _ _ Ht').
  pose proof (step_saved_sp stacks ts prev t sp Ht) as H1.
  eapply rtc_l; [exact H1|]. apply rtc_once.
  destruct (live_slot _ next (task_step_wf _ _ _ H1 Hw) Hn) as [u Hu]. by eapply step_switch.
Qed.

Definition end_kernel (e : yield_end P) : kernel P := match e with Returned k => k | Switched _ k => k end.

Lemma task_yield_steps (k : kernel P) e :
  tasks_wf (tasks_of k) -> task_yield a k = Some e -> steps (tasks_of k) (tasks_of (end_kernel e)).
Proof.
  intros Hw. unfold task_yield, tasks_of in *. destruct (ts_current _) as [prev|] eqn:Ec; [|by intros [= <-]].
  destruct (rr_schedule (k_sched k) true) as [[[rv id] s]|] eqn:Er; [|done]. cbn [mbind option_bind].
  pose proof (rr_schedule_steps stacks _ _ _ _ Er) as Hs. pose proof (steps_wf _ _ Hs Hw) as Hw'.
  pose proof (tk_current _ _ (rr_schedule_kept _ _ _ _ Er)) as Hcur. rewrite Ec in Hcur.
  destruct (negb (rv =? 0)); [by intros [= <-]|]. cbv zeta. destruct (_ =? t_task_id _); [by intros [= <-]|].
  destruct (task_find (sc_ts s) _) as [next|] eqn:Ef; [|by intros [= <-]].
  destruct (t_saved_sp _ =? 0); [by intros [= <-]|]. destruct (splhigh _) as [old p].
  apply (task_find_spec _ _ _ Hw') in Ef as [[t Ht] _]. apply lookup_lt_Some in Ht. rewrite (length_live _ Hw') in Ht.
  destruct (tw_current _ Hw') as (c & Hc & Hlt). assert (c = prev) as -> by congruence.
  pose proof (context_switch_steps prev next (set_spl p (Kernel s (k_cpu k) (k_mem k) (k_spl k))) Hw' Hlt ltac:(unfold tasks_of; cbn [set_spl k_sched]; lia)) as Hx.
  destruct a; intros [= <-]; cbn [end_kernel]; try exact Hs; (etransitivity; [exact Hs|exact Hx]).
Qed.

Lemma yield_at_steps pt h pt' h' :
  tasks_wf (tasks_of (h_kernel h)) -> yield_at a entry_a entry_b yield_ret pt h = Some (pt', h') ->
  steps (tasks_of (h_kernel h)) (tasks_of (h_kernel h')).
Proof.
  intros Hw. unfold yield_at. destruct (ts_current _) as [prev|]; [|done]. cbn [mbind option_bind].
  destruct (task_yield a _) as [e|] eqn:Ey; [|done]. cbn [mbind option_bind].
  apply task_yield_steps in Ey; [|exact Hw]. destruct e as [k|old k]; [by intros [= _ <-]|].
  destruct (ts_current _) as [next|]; [|done]. cbn [mbind option_bind]. cbv zeta.
  destruct (_ =? yield_ret).
  - destruct (<[_ := _]> (h_frames h) !! next) as [[old' pt'']|]; [|done]. cbn. by intros [= _ <-].
  - destruct (_ =? entry_a); [by intros [= _ <-]|]. destruct (_ =? entry_b); [by intros [= _ <-]|done].
Qed.

Lemma step_point_steps i j pt h r :
  tasks_wf (tasks_of (h_kernel h)) -> step_point a entry_a entry_b yield_ret i j pt h = Some r ->
  steps (tasks_of (h_kernel h)) (tasks_of (h_kernel (match r with inl (_, h') => h' | inr h' => h' end))).
Proof.
  intros Hw Hr. assert (Hy : forall pt h, tasks_wf (tasks_of (h_kernel h)) ->
      inl <$> yield_at a entry_a entry_b yield_ret pt h = Some r ->
      steps (tasks_of (h_kernel h)) (tasks_of (h_kernel (match r with inl (_, h') => h' | inr h' => h' end)))).
  { intros pt0 h0 Hw0 ([pt1 h1] & Hx & ->)%fmap_Some. by eapply yield_at_steps. }
  destruct pt as [n|child|child]; cbn [step_point] in Hr; [| |by eapply Hy].
  - destruct (_ && _)%bool; [by eapply Hy|by injection Hr as <-].
  - destruct (_ <? 3); [apply Hy in Hr; by destruct child|].
    unfold terminate_current in Hr. destruct (ts_current _) as [c|] eqn:Ec; [|done]. cbn [mbind option_bind] in Hr.
    destruct (ts_tasks _ !! c) as [t|] eqn:Et; [|done]. cbn [mbind option_bind] in Hr.
    assert (H1 : task_step stacks (tasks_of (h_kernel h)) (set_tasks (<[c := set_state TASK_TERMINATED t]>
        (ts_tasks (tasks_of (h_kernel h)))) (tasks_of (h_kernel h)))).
    { apply step_state, live_lookup. split; [done|]. destruct (tw_current _ Hw) as (c' & Hc & Hlt).
      assert (c' = c) as -> by congruence. lia. }
    apply Hy in Hr; [eapply rtc_l; [exact H1|exact Hr]|by eapply (task_step_wf stacks)].
Qed.

Lemma run_threads_steps fuel i j pt h h' :
  tasks_wf (tasks_of (h_kernel h)) -> run_threads a entry_a entry_b yield_ret fuel i j pt h = Some h' ->
  steps (tasks_of (h_kernel h)) (tasks_of (h_kernel h')).
Proof.
  revert pt h. induction fuel as [|fuel IH]; intros pt h Hw Hr; cbn [run_threads] in Hr; [done|].
  destruct (step_point _ _ _ _ i j pt h) as [r|] eqn:Es; [|done]. cbn [mbind option_bind] in Hr.
  apply step_point_steps in Es; [|done]. destruct r as [[pt' h1]|h1]; [|by injection Hr as <-].
  etransitivity; [exact Es|]. eapply IH; [by eapply steps_wf|done].
Qed.

Lemma park_stale_steps ts ts' : tasks_wf ts -> park_stale ts = Some ts' -> steps ts ts'.
Proof.
  intros Hw. unfold park_stale. destruct (current ts) as [cur|]; [|done]. cbn [mbind option_bind]. intros [= <-].
  apply restate_steps.
  - rewrite length_app, length_fmap, length_drop, (length_live ts Hw). pose proof (tw_count ts Hw). pose proof (tw_length ts Hw). lia.
  - intros i t Ht. destruct (decide (i < Z.to_nat (ts_count ts))%nat) as [Hi|Hi].
    + rewrite lookup_app_l by (rewrite length_fmap, (length_live ts Hw); lia).
      rewrite list_lookup_fmap, (proj2 (live_lookup ts i t)) by done. cbn. unfold park.
      destruct (_ && _)%bool; [right; split; [done|by eexists]|by left].
    + left. rewrite lookup_app_r by (rewrite length_fmap, (length_live ts Hw); lia).
      rewrite length_fmap, (length_live ts Hw), lookup_drop. rewrite <-Ht. f_equal. lia.
Qed.

Lemma frame_of_count i entry (k : kernel P) : ts_count (tasks_of (frame_of a i entry k)) = ts_count (tasks_of k).
Proof. unfold frame_of. by destruct (task_setup_initial_frame _ _ _ _) as [m t]. Qed.

Lemma frame_of_steps i entry (k : kernel P) t :
  live (tasks_of k) !! i = Some t -> steps (tasks_of k) (tasks_of (frame_of a i entry k)).
Proof.
  intros Ht. pose proof (proj1 (live_lookup _ _ _) Ht) as [Ht' _]. unfold frame_of, tasks_of in *.
  rewrite (lookup_total_Some _ _ _ Ht'). unfold task_setup_initial_frame.
  assert (Hsame : steps (sc_ts (k_sched k)) (set_tasks (<[i:=t]> (ts_tasks (sc_ts (k_sched k)))) (sc_ts (k_sched k)))).
  { rewrite (list_insert_id _ _ _ Ht'). by destruct (sc_ts (k_sched k)). }
  destruct (_ || _)%bool; [exact Hsame|]. destruct a; [| |].
  1, 2: destruct (pushes _ _ _) as [sp m]; cbn; apply rtc_once; by apply step_saved_sp.
  cbn. apply rtc_once. by apply step_saved_sp.
Qed.

(** Whatever the threads do, the table changes by the steps its invariant
    is about. *)
Lemma lifecycle_steps fuel (k k' : kernel P) au au' b :
  tasks_wf (tasks_of k) ->
  test_task_lifecycle a stacks entry_a entry_b yield_ret fuel k au = Some (b, k', au') ->
  steps (tasks_of k) (tasks_of k').
Proof.
  intros Hw. unfold test_task_lifecycle.
  destruct (park_stale (tasks_of k)) as [ts|] eqn:Ep; [|done]. cbn [mbind option_bind].
  apply park_stale_steps in Ep; [|done]. pose proof (steps_wf _ _ Ep Hw) as Hw0.
  pose proof (step_create stacks ts au (Some child_spec)) as Ha.
  destruct (create_task stacks ts au _) as [[[rv_a ts1] au1] sa]. cbn [fst snd] in Ha.
  pose proof (rtc_r _ _ _ Ep Ha) as H1. pose proof (steps_wf _ _ H1 Hw) as Hw1.
  destruct (negb (rv_a =? 0)); [by intros [= _ <- _]|].
  pose proof (step_create stacks ts1 au1 (Some child_spec)) as Hb.
  destruct (create_task stacks ts1 au1 _) as [[[rv_b ts2] au2] sb]. cbn [fst snd] in Hb.
  pose proof (rtc_r _ _ _ H1 Hb) as H2. pose proof (steps_wf _ _ H2 Hw) as Hw2.
  destruct (negb (rv_b =? 0)); [by intros [= _ <- _]|].
  destruct (task_find ts2 _) as [i|] eqn:Ei; [|by intros [= _ <- _]].
  destruct (task_find ts2 (default 0 (t_task_id <$> sb))) as [j|] eqn:Ej; [|by intros [= _ <- _]].
  apply (task_find_spec _ _ _ Hw2) in Ei as [[ti Hi] _], Ej as [[tj Hj] _].
  pose proof (frame_of_steps i entry_a (on_tasks ts2 k) ti Hi) as H3.
  pose proof (steps_wf _ _ H3 Hw2) as Hw3.
  destruct (live_slot _ j Hw3) as [tj' Hj'].
  { apply lookup_lt_Some in Hj. rewrite (length_live ts2 Hw2) in Hj. rewrite frame_of_count.
    pose proof (tw_count ts2 Hw2). cbn. lia. }
  pose proof (frame_of_steps j entry_b _ tj' Hj') as H4. pose proof (steps_wf _ _ H4 Hw3) as Hw4. cbv zeta.
  destruct (yield_at _ _ _ _ _ _) as [[pt h]|] eqn:Ey; [|done]. cbn [mbind option_bind].
  apply yield_at_steps in Ey; [|exact Hw4]. pose proof (steps_wf _ _ Ey Hw4) as Hw5.
  destruct (run_threads _ _ _ _ _ _ _ _ _) as [h'|] eqn:Er; [|done]. cbn [mbind option_bind]. intros [= _ <- _].
  apply run_threads_steps in Er; [|exact Hw5].
  etransitivity; [exact H2|]. etransitivity; [exact H3|]. etransitivity; [exact H4|].
  etransitivity; [exact Ey|exact Er].
Qed.
End Steps.

(** ** The tests that create tasks, in the order of [kmain] *)
Section Tests.
Context {P : Type} `{SplOps P} (a : arch) (rt : regions).
(** The linker's choices, the tests' locals, and the machine when [kmain]
    calls them. *)
Context (stacks entry_a entry_b yield_ret msg_at local top sp : Z) (junk : list Z).
Context (cpu0 : cpu) (spl0 : P).

(** 200 calls of [task_yield] are more than the loops make: 65 by the boot
    task and, between two of them, at most one per child. *)
Definition test_fuel : nat := 200.

(** What the three tests report, the world and the kernel they leave.  The
    cursor is that of [rr_scheduler.init]. *)
Definition task_tests (w : world) : option (Z * Z * bool * world * kernel P) :=
  '(ipc, w) ← test_ipc_enforcement rt msg_at local junk w;
  let '(caps, w) := test_task_caps stacks top sp w in
  '(ok, k, au) ← test_task_lifecycle a stacks entry_a entry_b yield_ret test_fuel
                    (Kernel (Sched (w_tasks w) (-1)) cpu0 ∅ spl0) (w_auditor w);
  Some (ipc, caps, ok, with_auditor au (with_tasks (tasks_of k) w), k).

Lemma task_tests_reachable w r :
  world_reachable rt stacks w -> task_tests w = Some r -> world_reachable rt stacks r.1.2.
Proof.
  intros Hw. unfold task_tests. destruct (test_ipc_enforcement _ _ _ _ w) as [[p w1]|] eqn:Ei; [|done].
  cbn [mbind option_bind]. apply (test_ipc_enforcement_step rt stacks) in Ei.
  pose proof (test_task_caps_step rt stacks top sp w1) as Hc.
  destruct (test_task_caps stacks top sp w1) as [c w2]. cbn [snd] in Hc.
  assert (Hw2 : world_reachable rt stacks w2).
  { eapply reachable_step; [exact Hw|]. by etransitivity. }
  destruct (test_task_lifecycle _ _ _ _ _ _ _ _) as [[[ok k] au]|] eqn:El; [|done]. cbn [mbind option_bind].
  intros [= <-]. cbn [fst snd].
  apply lifecycle_steps in El; [|apply (cw_tasks _ (world_reachable_wf _ _ _ Hw2))].
  eapply reachable_step; [exact Hw2|]. eapply rtc_r; [by apply world_task_steps, El|].
  exact (ws_audit rt stacks (with_tasks (tasks_of k) w2) au).
Qed.
End Tests.

(** What the next lemmas read off an outcome. *)
Definition tests_summary {P} (o : option (Z * Z * bool * world * kernel P)) :=
  '(ipc, caps, ok, w, k) ← o;
  Some (ipc, caps, ok, ts_current (w_tasks w), (fun t => (t_task_id t, t_parent_task_id t, t_cap_mask t, t_state t)) <$> live (w_tasks w),
        (g_edges (w_graph w), sc_cursor (k_sched k)), (c_regs (k_cpu k), c_sp (k_cpu k)), k_spl k).

(** One placement of the kernel: the stacks at 1 MiB, the boot task's stack
    below them, three code addresses. *)
Definition boot_stacks : Z := 1048576.
Definition boot_sp : Z := 524288.
Definition boot_tests {P} `{SplOps P} (a : arch) (rt : regions) (msg_at local top sp : Z) (junk : list Z) (c : cpu) (p : P) :=
  task_tests a rt boot_stacks 65536 69632 73728 msg_at local top sp junk c p (test_world boot_stacks).
(** Ids, parents, capabilities and states after the tests. *)
Definition tested_table (root b c : Z) : list (Z * Z * Z * Z) :=
  [(1, TASK_PARENT_NONE, CAP_ALL, root); (2, 0, CAP_IPC_SEND, TASK_TERMINATED); (3, 1, CAP_IPC_SEND, b); (4, 1, CAP_IPC_SEND, c)].
Definition table_view (ts : task_state) : list (Z * Z * Z * Z) :=
  (fun t => (t_task_id t, t_parent_task_id t, t_cap_mask t, t_state t)) <$> live ts.

Section Outcomes.
Context (rt : regions) (msg_at local top sp r1 r2 r3 r4 r5 r6 r7 r8 ret pc : Z) (junk : list Z).
Lemma arm_summary :
  tests_summary (boot_tests ARM rt msg_at local top sp junk (Cpu [r1; r2; r3; r4; r5; r6; r7; r8] ret boot_sp pc) 16) =
  Some (7, 3, true, Some 0%nat, tested_table TASK_RUNNING TASK_TERMINATED TASK_TERMINATED,
        ([3; 2; 4; 8; 16; 32; 64; 128], 0), ([r1; r2; r3; r4; r5; r6; r7; r8], boot_sp), 16).
Proof. vm_compute. reflexivity. Qed.
Lemma x86_summary :
  (fun x => (x.1, X86.p_ipl_mask x.2)) <$> tests_summary (boot_tests X86_32 rt msg_at local top sp junk
      (Cpu [r1; r2; r3; r4] ret boot_sp pc) (X86.Pic 65531 0 true [])) =
  Some (7, 3, true, Some 0%nat, tested_table TASK_RUNNING TASK_TERMINATED TASK_TERMINATED,
        ([3; 2; 4; 8; 16; 32; 64; 128], 0), ([r1; r2; r3; r4], boot_sp), 0).
Proof. vm_compute. reflexivity. Qed.
Lemma riscv_summary :
  tests_summary (boot_tests RISCV rt msg_at local top sp junk (Cpu [] ret boot_sp pc) 16) =
  Some (7, 3, false, Some 0%nat, tested_table TASK_READY TASK_RUNNING TASK_READY,
        ([3; 2; 4; 8; 16; 32; 64; 128], 2), ([], boot_sp), 16).
Proof. vm_compute. reflexivity. Qed.
End Outcomes.

Lemma tests_summary_spec {P} (o : option (Z * Z * bool * world * kernel P)) ipc caps ok cur view edges cu regs s p :
  tests_summary o = Some (ipc, caps, ok, cur, view, (edges, cu), (regs, s), p) ->
  exists w k, o = Some (ipc, caps, ok, w, k) /\ ts_current (w_tasks w) = cur /\ table_view (w_tasks w) = view /\
    (g_edges (w_graph w) = edges /\ sc_cursor (k_sched k) = cu) /\ c_regs (k_cpu k) = regs /\ c_sp (k_cpu k) = s /\ k_spl k = p.
Proof.
  destruct o as [[[[[i c] b] w] k]|]; [|done]. cbn. intros Hs. injection Hs as -> -> -> <- <- <- <- <- <- <-.
  exists w, k. by split_and!.
Qed.

Lemma boot_tests_reachable {P} `{SplOps P} (a : arch) rt msg_at local top sp junk c (p : P) ipc caps ok w k :
  boot_tests a rt msg_at local top sp junk c p = Some (ipc, caps, ok, w, k) -> world_reachable rt boot_stacks w.
Proof.
  unfold boot_tests. generalize (test_world_reachable rt boot_stacks). generalize (test_world boot_stacks).
  intros w0 Hw Hr. by apply task_tests_reachable in Hr.
Qed.

Lemma arm_tests (rt : regions) (msg_at local top sp : Z) (junk : list Z) (c : cpu) :
  length (c_regs c) = 8%nat -> c_sp c = boot_sp ->
  exists w k, boot_tests ARM rt msg_at local top sp junk c 16 = Some (7, 3, true, w, k) /\
    world_reachable rt boot_stacks w /\ ts_current (w_tasks w) = Some 0%nat /\
    table_view (w_tasks w) = tested_table TASK_RUNNING TASK_TERMINATED TASK_TERMINATED /\
    (g_edges (w_graph w) = [3; 2; 4; 8; 16; 32; 64; 128] /\ sc_cursor (k_sched k) = 0) /\
    c_regs (k_cpu k) = c_regs c /\ c_sp (k_cpu k) = boot_sp /\ k_spl k = 16.
Proof.
  destruct c as [regs ret s pc]. cbn [c_regs c_sp]. intros Hl ->.
  destruct regs as [|r1 [|r2 [|r3 [|r4 [|r5 [|r6 [|r7 [|r8 [|]]]]]]]]]; try done.
  destruct (tests_summary_spec _ _ _ _ _ _ _ _ _ _ _ (arm_summary rt msg_at local top sp r1 r2 r3 r4 r5 r6 r7 r8 ret pc junk))
    as (w & k & Hr & Hrest).
  exists w, k. split; [exact Hr|]. split; [|exact Hrest].
  by eapply boot_tests_reachable.
Qed.

(** The task tests of the boot pass on the machines that switch.  On
    ARM and x86, whatever the callee-saved registers hold, the IPC test passes
    7 of 7, the capability test 3 of 3, and the lifecycle test passes: both
    children ran three times and terminated, and the boot task is back with
    its registers, stack pointer and interrupt level.  The table then also
    holds the capability test's task, whose parent id 0 is nobody's.  On
    RISC-V, whose frame setup and switch are stubs, the lifecycle test fails
    and leaves a child RUNNING while the boot task runs as READY. *)
Theorem task_tests_pass (rt : regions) (msg_at local top sp ret pc : Z) (junk : list Z) :
  (forall c, length (c_regs c) = 8%nat -> c_sp c = boot_sp ->
   exists w k, boot_tests ARM rt msg_at local top sp junk c 16 = Some (7, 3, true, w, k) /\
     world_reachable rt boot_stacks w /\ ts_current (w_tasks w) = Some 0%nat /\
     table_view (w_tasks w) = tested_table TASK_RUNNING TASK_TERMINATED TASK_TERMINATED /\
     c_regs (k_cpu k) = c_regs c /\ c_sp (k_cpu k) = boot_sp /\ k_spl k = 16) /\
  (forall ebp edi esi ebx,
   exists w k, boot_tests X86_32 rt msg_at local top sp junk (Cpu [ebp; edi; esi; ebx] ret boot_sp pc) (X86.Pic 65531 0 true []) =
       Some (7, 3, true, w, k) /\ ts_current (w_tasks w) = Some 0%nat /\
     table_view (w_tasks w) = tested_table TASK_RUNNING TASK_TERMINATED TASK_TERMINATED /\
     c_regs (k_cpu k) = [ebp; edi; esi; ebx] /\ c_sp (k_cpu k) = boot_sp /\ X86.p_ipl_mask (k_spl k) = 0) /\
  (exists w k, boot_tests RISCV rt msg_at local top sp junk (Cpu [] ret boot_sp pc) 16 = Some (7, 3, false, w, k) /\
     ts_current (w_tasks w) = Some 0%nat /\ table_view (w_tasks w) = tested_table TASK_READY TASK_RUNNING TASK_READY).
Proof.
  split; [|split].
  - intros c Hl Hs. destruct (arm_tests rt msg_at local top sp junk c Hl Hs) as (w & k & ? & ? & ? & ? & _ & ? & ? & ?).
    exists w, k. by split_and!.
  - intros ebp edi esi ebx. pose proof (x86_summary rt msg_at local top sp ebp edi esi ebx ret pc junk) as Hx.
    apply fmap_Some in Hx as ([[[[[[[i c] b] cu] v] e] [rg s]] p] & Hx & He). cbn in He. injection He as <- <- <- <- <- <- <- <- Hp.
    destruct (tests_summary_spec _ _ _ _ _ _ _ _ _ _ _ Hx) as (w & k & Hr & ? & ? & _ & ? & ? & ?).
    exists w, k. split_and!; congruence.
  - destruct (tests_summary_spec _ _ _ _ _ _ _ _ _ _ _ (riscv_summary rt msg_at local top sp ret pc junk))
      as (w & k & ? & ? & ? & _). exists w, k. by split_and!.
Qed.

Example task_tests_pass_witness :
  exists w k, boot_tests ARM [] 0 0 0 0 [] (Cpu (replicate 8 0) 0 boot_sp 0) 16 = Some (7, 3, true, w, k) /\
    ts_current (w_tasks w) = Some 0%nat.
Proof.
  destruct (proj1 (task_tests_pass [] 0 0 0 0 0 0 []) (Cpu (replicate 8 0) 0 boot_sp 0) eq_refl eq_refl)
    as (w & k & H & _ & Hc & _).
  exists w, k. split; [exact H|exact Hc].
Defined.
