(* ===== verification/Boot.v ===== *)
(** * From boot to user mode: kernel/main.c, kernel/user.c, kernel/hardware.c

    The end of [kmain] that starts the user program, the hand-over of user.c
    and the idle loop's [process_events], over the kernel of [Syscall]. *)
From S2P Require Import Prelude Types Circular Ring Auditor Tasks Scheduler Interrupts Switch DomainGraph Security MemUtils BlockAlloc Crc Nng Ipc Pool Channels Mmu Syscall SelfTests Lifecycle.

(** The static [user_init_task] after [kmain] filled it in. *)
Definition user_init_task : task_t := Task 0 5 CAP_IPC_SEND 0 TASK_READY 0 0 0 TASK_PARENT_NONE.

Definition with_bootstrap b (s : ksys) : ksys := KSys (k_world s) (k_cursor s) (k_console s) b.
Definition with_wtasks ts au (w : world) : world := World ts (w_graph w) au (w_channels w) (w_nng w).

Section Kmain.
Context (rt : regions) (stacks : Z).

(** From [domain_edges_seal] to the bootstrap channel.  [None]: the task just
    created is not in the table, and [current_task] would leave it. *)
Definition start_user (s : ksys) : option ksys :=
  let w := k_world s in
  let w := World (w_tasks w) (domain_edges_seal (w_graph w)) (w_auditor w) (w_channels w) (w_nng w) in
  let '(rv, ts, au, spec) := create_task stacks (w_tasks w) (w_auditor w) (Some user_init_task) in
  let w := with_wtasks ts au w in
  if negb (rv =? 0) then Some (with_world w s)
  else
    user ← spec;
    i ← task_find ts (t_task_id user);
    let w := with_wtasks (set_current (Some i) ts) au w in
    let '(ch, w) := ipc_create_channel w 0 0 CAP_IPC_SEND NNG_PROTO_PUB0 in
    Some (with_bootstrap ch (with_world w s)).

(** user.c.  The result of a copy the access policy refuses is the memory
    unchanged. *)
Definition load_user_program (binary_ptr size : Z) (s : ksys) : Z * option (Z * Z) * ksys :=
  if binary_ptr =? 0 then (-1, None, s)
  else if size <? 24 then (-1, None, s)
  else (0, Some (4194304, 7340032), with_kmem (memcpy rt (k_mem s) 4194304 binary_ptr size) s).

(** The registers [enter_user_mode] gets; [None] when it is not called. *)
Definition switch_to_user_mode (user_eip user_esp : Z) : option (Z * Z) :=
  if user_eip =? 0 then None
  else if user_esp =? 0 then None
  else if negb (user_pointer user_eip) then None
  else if negb (user_pointer user_esp) then None
  else Some (user_eip, user_esp).

(** One round of the idle loop. *)
Definition process_events (s : ksys) : option ksys :=
  let w := k_world s in
  let s := with_world (with_auditor (auditor_tick (w_auditor w)) w) s in
  '(_, _, sc) ← rr_schedule (k_sched s) true;
  Some (with_sched sc s).

(** ** Starting the user *)

(** What [start_user] sets up. *)
Record user_started (s s' : ksys) (t : task_t) : Prop := {
  us_current : current (k_tasks s') = Some t;
  us_live : t ∈ live (k_tasks s');
  us_caps : t_cap_mask t = CAP_IPC_SEND;
  us_domain : t_domain t = 0;
  us_parent : t_parent_task_id t = 1;
  us_id : t_task_id t = ts_count (k_tasks s) + 1;
  us_sealed : g_sealed (w_graph (k_world s')) = true;
  us_edges : g_edges (w_graph (k_world s')) = g_edges (w_graph (k_world s));
  us_channel : k_bootstrap s' < 0 \/
    exists ch, open_at (w_channels (k_world s')) (Z.to_nat (k_bootstrap s')) ch /\
      ch_cap_mask ch = CAP_IPC_SEND /\ ch_domain ch = 0 /\ ch_owner_task_id ch = t_task_id t
}.

(** A channel created with a subset of the caller's capabilities in the
    caller's own domain. *)
Lemma create_channel_own w cur caps proto :
  current (w_tasks w) = Some cur -> Z.land (t_cap_mask cur) caps = caps ->
  let '(id, w') := ipc_create_channel w 0 (t_domain cur) caps proto in
  w_tasks w' = w_tasks w /\ w_graph w' = w_graph w /\
  (id < 0 \/ exists ch, open_at (w_channels w') (Z.to_nat id) ch /\ ch_cap_mask ch = caps /\
     ch_domain ch = t_domain cur /\ ch_owner_task_id ch = t_task_id cur).
Proof.
  intros Hcur Hcaps. unfold ipc_create_channel. rewrite Hcur, Hcaps, !Z.eqb_refl. cbn [negb andb].
  destruct (findi _ (w_channels w)) as [i|] eqn:Ei; [|split_and!; [done..|by left]].
  apply findi_lt in Ei. destruct (nng_socket_create _ _ _) as [[rv so] n]. destruct (negb (rv =? NNG_OK)); cbn zeta.
  - split_and!; [done..|by left].
  - split_and!; [done..|]. right. eexists. rewrite Nat2Z.id. split; [split|]; [by apply list_lookup_insert_eq|done|done].
Qed.

(** Creating the user task from the root, and making it current. *)
Lemma create_user ts au :
  tasks_wf ts -> ts_current ts = Some 0%nat -> ts_count ts < Z.of_nat MAX_TASKS ->
  exists ts' au' sp i t, create_task stacks ts au (Some user_init_task) = (0, ts', au', Some sp) /\
    task_find ts' (t_task_id sp) = Some i /\ tasks_wf ts' /\ live ts' !! i = Some t /\
    t_cap_mask t = CAP_IPC_SEND /\ t_domain t = 0 /\ t_parent_task_id t = 1 /\ t_task_id t = ts_count ts + 1.
Proof.
  intros Hw Hc Hroom. destruct (tw_root ts Hw) as (r & Hr & _ & Hcap).
  assert (Hcur : current ts = Some r) by (unfold current; rewrite Hc; by apply live_lookup in Hr as []).
  destruct (create_task_cases stacks ts au (Some user_init_task) Hw)
    as [(rv & Hcr & Hrv)|(sp & cur & ts' & au' & sp' & t & [= <-] & -> & Hcr)].
  - exfalso. revert Hcr. unfold create_task. rewrite Hcur, Hcap.
    rewrite Z.geb_leb, (proj2 (Z.leb_gt _ _)) by done. rewrite andb_false_r. cbn [allocate_task_id].
    intros [= <-]. lia.
  - pose proof (created_wf _ _ _ _ _ _ _ _ _ Hw Hcr) as Hw'. destruct Hcr as [Hcr _ _ -> Hl _ _ _ _ _ ->].
    assert (cur = r) as -> by congruence. set (t := new_task _ _ _ _ _) in *.
    assert (Ht : live ts' !! Z.to_nat (ts_count ts) = Some t).
    { rewrite Hl, lookup_app_r by (rewrite (length_live ts Hw); lia).
      by rewrite (length_live ts Hw), Nat.sub_diag. }
    pose proof (tw_count ts Hw). do 3 eexists. exists (Z.to_nat (ts_count ts)), t. split; [reflexivity|].
    split_and!; [|done|done| |done| |done].
    + apply task_find_spec; [done|]. split; [by exists t|]. cbn. lia.
    + cbn. by rewrite Hcap.
    + cbn. by rewrite (tw_ids ts Hw 0 r Hr).
Qed.

Lemma started (s : ksys) :
  ksys_ok rt stacks s -> ts_current (k_tasks s) = Some 0%nat -> ts_count (k_tasks s) < Z.of_nat MAX_TASKS ->
  exists s' t, start_user s = Some s' /\ ksys_ok rt stacks s' /\ user_started s s' t.
Proof.
  intros Hs Hc Hroom. pose proof (ksys_tasks _ _ s Hs) as Hw. destruct Hs as [Hreach Hcursor].
  destruct (create_user (k_tasks s) (w_auditor (k_world s)) Hw Hc Hroom)
    as (ts & au & sp & i & t & Hcreate & Hfind & Hw' & Hi & Hcaps & Hdom & Hpar & Hid).
  unfold start_user. cbv zeta. cbn [w_tasks w_auditor]. fold (k_tasks s). rewrite Hcreate. cbn [negb Z.eqb mbind option_bind].
  rewrite Hfind. cbn [mbind option_bind].
  set (w0 := World (k_tasks s) (domain_edges_seal (w_graph (k_world s))) (w_auditor (k_world s))
    (w_channels (k_world s)) (w_nng (k_world s))).
  set (w1 := with_wtasks (set_current (Some i) ts) au (with_wtasks ts au w0)).
  assert (Hr1 : world_reachable rt stacks w1).
  { eapply reachable_steps; [exact Hreach|]. eapply rtc_l; [apply ws_seal|]. fold w0.
    pose proof (step_create stacks (k_tasks s) (w_auditor (k_world s)) (Some user_init_task)) as Hst.
    rewrite Hcreate in Hst. cbn [fst snd] in Hst. eapply rtc_l; [apply (ws_task rt stacks w0); exact Hst|].
    eapply rtc_l; [apply ws_task; exact (step_switch stacks ts i t Hi)|].
    apply rtc_once. apply (ws_audit rt stacks (World (set_current (Some i) ts) _ _ _ _) au). }
  assert (Hcur : current (w_tasks w1) = Some t) by (apply live_lookup in Hi as [Hi _]; exact Hi).
  pose proof (create_channel_own w1 t CAP_IPC_SEND NNG_PROTO_PUB0 Hcur) as Hch. rewrite Hcaps, Hdom in Hch.
  specialize (Hch eq_refl). pose proof (ws_create rt stacks w1 0 0 CAP_IPC_SEND NNG_PROTO_PUB0) as Hst.
  destruct (ipc_create_channel w1 0 0 CAP_IPC_SEND NNG_PROTO_PUB0) as [id w2]. destruct Hch as (Ht & Hg & Hch).
  exists (with_bootstrap id (with_world w2 s)), t. split; [reflexivity|]. split.
  - split; [|exact Hcursor]. eapply reachable_steps; [exact Hr1|]. by apply rtc_once.
  - assert (Hseal : w_graph w2 = domain_edges_seal (w_graph (k_world s))) by exact Hg.
    unfold domain_edges_seal in Hseal. split; unfold k_tasks; cbn [k_world k_bootstrap with_bootstrap with_world]; try done.
    + by rewrite Ht.
    + rewrite Ht. by eapply list_elem_of_lookup_2.
    + rewrite Hseal. by destruct (g_sealed (w_graph (k_world s))) eqn:E; cbn.
    + rewrite Hseal. by destruct (g_sealed (w_graph (k_world s))).
Qed.

(** Boot ends with a confined user task.  From any kernel the earlier
    boot can have left (any reachable world, the task tests' included, with
    the root task current and a free slot), sealing, creating the user task and opening its channel
    succeed and stay within the reachable worlds: the matrix is sealed with
    the edges it had, the current task is a child of the root that holds
    CAP_IPC_SEND alone in domain 0, and the bootstrap channel, if the tables
    had room for one, grants CAP_IPC_SEND alone and belongs to that task. *)
Theorem boot_starts_user (s : ksys) :
  ksys_ok rt stacks s -> ts_current (k_tasks s) = Some 0%nat -> ts_count (k_tasks s) < Z.of_nat MAX_TASKS ->
  exists s' t, start_user s = Some s' /\ ksys_ok rt stacks s' /\ user_started s s' t.
Proof. apply started. Qed.
End Kmain.

(** ** Running under it *)
Section Running.
Context (rt : regions) (stacks local : Z) (maps : Z -> bool).
Abbreviation handle := (syscall_handler rt stacks local maps).

Lemma process_events_ok s :
  ksys_ok rt stacks s -> exists s', process_events s = Some s' /\ ksys_ok rt stacks s' /\ policy_kept s s'.
Proof.
  intros Hs. unfold process_events. cbv zeta. set (s1 := with_world _ s).
  assert (Hs1 : ksys_ok rt stacks s1).
  { split; [|apply Hs]. eapply reachable_steps; [apply Hs|]. apply rtc_once, ws_audit. }
  assert (Hw : sched_wf (k_sched s1)) by (split; [by eapply ksys_tasks|apply Hs1]).
  destruct (rr_schedule_result _ Hw) as (sc & Hr & _). rewrite Hr. cbn [mbind option_bind].
  eexists. split; [reflexivity|]. split.
  - apply with_sched_ok; [done|by apply (rr_schedule_steps stacks (k_sched s1)) in Hr|].
    apply (sw_cursor sc). by apply (rr_schedule_wf _ _ _ _ Hw Hr).
  - split; [done|done|done|]. exact (rr_schedule_kept _ _ _ _ Hr).
Qed.

(** System calls and idle rounds, in any order. *)
Definition runs : ksys -> ksys -> Prop :=
  rtc (fun s s' => process_events s = Some s' \/ exists num a1 a2 a3, handle num a1 a2 a3 s = Some s').

Lemma runs_kept s s' : ksys_ok rt stacks s -> runs s s' -> ksys_ok rt stacks s' /\ policy_kept s s'.
Proof.
  intros Hs Hr. induction Hr as [s|s1 s2 s3 H1 _ IH]; [by split|].
  assert (H2 : ksys_ok rt stacks s2 /\ policy_kept s1 s2).
  { destruct H1 as [H1|(num & a1 & a2 & a3 & H1)]; [|by eapply syscall_kept].
    destruct (process_events_ok s1 Hs) as (s' & H1' & ?). by simplify_eq. }
  destruct H2 as [Hs2 K]. destruct (IH Hs2) as [? K2]. split; [done|]. by etransitivity.
Qed.

Lemma runs_pool s s' : k_pool s -> runs s s' -> k_pool s'.
Proof.
  intros Hp Hr. induction Hr as [|s1 s2 s3 H _ IH]; [done|]. apply IH. destruct H as [H|(num & a1 & a2 & a3 & H)]; [|by eapply call_pool].
  revert H. unfold process_events. cbv zeta. destruct (rr_schedule _ _) as [[[rv nx] sc]|]; cbn [mbind option_bind]; [|done]. by intros [= <-].
Qed.

(** A channel that lacks a needed capability puts nothing on the wire. *)
Lemma send_refused at_ l w id m :
  send_granted w id (m_operation m) = false ->
  exists rv w', ipc_send rt at_ l w id (Some m) = Some (rv, w', Some m) /\ rv <> 0 /\ w_nng w' = w_nng w.
Proof.
  unfold send_granted, ipc_send. intros Hreq. destruct (negb (channel_ok w id)); [by eexists _, _|]. cbv zeta.
  rewrite Hreq. cbn [negb]. set (r := if negb _ then _ else _).
  destruct (emit_deny_auditor w id (-1) (m_operation m) r (u8 (m_priority m))) as [a ->]. by eexists _, _.
Qed.

(** Nothing but the 144 bytes of the message at [a] changed in memory, and
    nothing else in the socket layer. *)
Record only_message_written (a : Z) (s s' : ksys) : Prop := {
  om_sockets : w_nng (k_world s') = set_mem (k_mem s') (w_nng (k_world s));
  om_memory : forall b, 0 <= b < 4294967296 -> b < a \/ a + 144 <= b -> ldb (k_mem s') b = ldb (k_mem s) b
}.
Lemma nothing_written a s : only_message_written a s s.
Proof. split; [|done]. unfold k_mem, memory, set_mem. by destruct (w_nng (k_world s)). Qed.

(** The message as [sys_ipc_send] prepares it, and puts it back. *)
Lemma message_written m a op x b :
  4194304 <= a <= 2147483647 -> length (message_bytes x) = 144%nat -> 0 <= b < 4294967296 -> b < a \/ a + 144 <= b ->
  ldb (store (stb (store m (a + 4) (le_bytes 4 op)) (a + MSG_PAYLOAD_OFF + 127) 0) a (message_bytes x)) b = ldb m b.
Proof.
  intros Ha Hx Hb Hout. rewrite load_store_ne by (rewrite ?Hx; lia). unfold MSG_PAYLOAD_OFF.
  rewrite ldb_stb, (proj2 (Z.eqb_neq _ _)) by lia. apply load_store_ne; rewrite ?length_le_bytes; lia.
Qed.

Lemma privileged_refused op a s :
  k_bootstrap s < 0 \/ send_granted (k_world s) (k_bootstrap s) (u32 op) = false ->
  match sys_ipc_send rt local maps op a s with
  | Some s' => only_message_written a s s'
  | None => user_pointer a = true /\ 0 <= k_bootstrap s /\ writable maps s a 144 = false
  end.
Proof.
  intros Hreq. unfold sys_ipc_send. destruct (a =? 0); [apply nothing_written|].
  destruct (user_pointer a) eqn:Ea; cbn [negb]; [|apply nothing_written].
  destruct (k_bootstrap s <? 0) eqn:Eb; [apply nothing_written|]. apply Z.ltb_ge in Eb. destruct Hreq as [Hreq|Hreq]; [lia|].
  destruct (writable maps s a 144); cbn [negb]; [|done]. cbv zeta.
  apply user_pointer_spec in Ea. pose proof (sent_operation (k_mem s) a op Ea) as Hop. set (m := stb _ _ _) in *.
  destruct (send_refused a local (with_memory m (k_world s)) (k_bootstrap s) (load_message m a)) as (rv & w & -> & _ & Hn).
  { change (m_operation (load_message m a)) with (ld32 m (a + 4)). by rewrite Hop. }
  cbn [mbind option_bind]. assert (Hm : memory w = m) by (unfold memory; by rewrite Hn). split.
  - cbn [k_world with_world with_memory w_nng with_nng with_auditor]. rewrite Hn. reflexivity.
  - intros b Hb Hout. change (k_mem (with_world _ s)) with (store (memory w) a (message_bytes (load_message m a))). rewrite Hm.
    apply message_written; auto using length_message_bytes.
Qed.

(** The bootstrap channel of a started user grants CAP_IPC_SEND alone. *)
Lemma denied_to_user s s1 op id :
  w_channels (k_world s1) = w_channels (k_world s) -> k_bootstrap s1 = k_bootstrap s ->
  k_bootstrap s < 0 \/ (exists ch, open_at (w_channels (k_world s)) (Z.to_nat (k_bootstrap s)) ch /\ ch_cap_mask ch = CAP_IPC_SEND /\ ch_domain ch = 0 /\ ch_owner_task_id ch = id) ->
  op = OP_UPDATE \/ op = OP_WRITE \/ op = OP_DELETE ->
  k_bootstrap s1 < 0 \/ send_granted (k_world s1) (k_bootstrap s1) (u32 op) = false.
Proof.
  intros Hc -> [Hneg|(ch & [Hch _] & Hcap & _)] Hop; [by left|right]. unfold send_granted, channel.
  rewrite Hc, (lookup_total_Some _ _ _ Hch), Hcap. by destruct Hop as [->|[->| ->]].
Qed.

Lemma start_pool s s' : k_pool s -> start_user stacks s = Some s' -> k_pool s'.
Proof.
  intros Hp. unfold start_user. cbv zeta. destruct (create_task _ _ _ _) as [[[rv ts] au] sp].
  destruct (negb _); [by intros [= <-]|]. destruct sp as [user|]; cbn [mbind option_bind]; [|done].
  destruct (task_find _ _) as [i|]; cbn [mbind option_bind]; [|done].
  match goal with |- context [ipc_create_channel ?w 0 0 ?c ?p] => pose proof (create_channel_pool w 0 0 c p) as Hcp; destruct (ipc_create_channel w 0 0 c p) as [ch w'] end.
  intros [= <-]. by apply Hcp.
Qed.

End Running.

(** The system of [Channels] before any channel, at the start of [start_user]. *)
Definition demo_kernel_sys : ksys := KSys demo_boot (-1) [] (-1).
Lemma demo_kernel_ok : ksys_ok demo_rt 4096 demo_kernel_sys.
Proof.
  split; [|split; vm_compute; congruence]. exists auditor_demo, (memory_init alloc_bss). apply rtc_refl.
Defined.

Example boot_starts_user_witness :
  exists s' t, start_user 4096 demo_kernel_sys = Some s' /\ user_started demo_kernel_sys s' t.
Proof.
  destruct (boot_starts_user demo_rt 4096 demo_kernel_sys demo_kernel_ok eq_refl eq_refl) as (s' & t & H & _ & Hu).
  exists s', t. by split.
Defined.

Lemma demo_kernel_pool : k_pool demo_kernel_sys.
Proof. exact (pool_init (memory_init alloc_bss) (proj1 memory_init_shaped)). Qed.

Lemma demo_bootstrap s0 : start_user 4096 demo_kernel_sys = Some s0 -> k_bootstrap s0 = 0.
Proof.
  intros H. assert (Hb : k_bootstrap <$> start_user 4096 demo_kernel_sys = Some 0) by (vm_compute; reflexivity).
  rewrite H in Hb. by injection Hb.
Qed.


(** From reset to the user program, the tests included.  On ARM, from
    the boot world, [kmain]'s IPC, capability and lifecycle tests pass (7, 3
    and true), and sealing the matrix and starting the user task then succeed:
    the current task has id 5 and is confined as [user_started] says.  But the edge from domain 0 to domain 1 the IPC test added, which
    the initial matrix does not have, is sealed in with the rest, so the user
    task's own domain reaches domain 1 under every run of system calls and
    idle rounds. *)
Theorem self_test_edge_sealed_in (rt : regions) (msg_at local top sp lo : Z) (junk console : list Z) (c : cpu)
    (mem : gmap Z Z) (maps : Z -> bool) :
  length (c_regs c) = 8%nat -> c_sp c = boot_sp ->
  domain_edge_allowed domain_edges_init 0 1 = 0 /\
  exists w k s t, boot_tests ARM rt msg_at local top sp junk c 16 = Some (7, 3, true, w, k) /\
    let s0 := with_kmem mem (KSys w (sc_cursor (Switch.k_sched k)) console (-1)) in
    start_user boot_stacks s0 = Some s /\ user_started s0 s t /\ t_task_id t = 5 /\
    forall s', runs rt boot_stacks lo maps s s' ->
      g_sealed (w_graph (k_world s')) = true /\ domain_edge_allowed (w_graph (k_world s')) (t_domain t) 1 = 1.
Proof.
  intros Hl Hsp. split; [reflexivity|].
  destruct (arm_tests rt msg_at local top sp junk c Hl Hsp) as (w & k & Ht & Hr & Hc & Hv & [He Hcu] & _).
  exists w, k. rewrite Hcu. set (s0 := with_kmem mem (KSys w 0 console (-1))).
  assert (Hs0 : ksys_ok rt boot_stacks s0) by (split; [by apply store_reachable|split; vm_compute; congruence]).
  assert (Hn : length (live (w_tasks w)) = 4%nat).
  { unfold table_view in Hv. apply (f_equal length) in Hv. by rewrite length_fmap in Hv. }
  pose proof (length_live _ (ksys_tasks _ _ s0 Hs0)) as Hcount. change (k_tasks s0) with (w_tasks w) in Hcount.
  pose proof (tw_count _ (ksys_tasks _ _ s0 Hs0)) as Hpos. change (k_tasks s0) with (w_tasks w) in Hpos.
  destruct (started rt boot_stacks s0 Hs0 Hc) as (s & t & Hstart & Hs & Hu).
  { unfold k_tasks. change (w_tasks (k_world s0)) with (w_tasks w). change (Z.of_nat MAX_TASKS) with 1024. lia. }
  exists s, t. split; [exact Ht|]. cbv zeta. split_and!; [done..| |].
  - rewrite (us_id _ _ _ Hu). change (k_tasks s0) with (w_tasks w). lia.
  - intros s' Hruns. destruct (runs_kept rt boot_stacks lo maps s s' Hs Hruns) as [_ [Kg _ _ _]].
    rewrite Kg, (us_domain _ _ _ Hu). split; [apply (us_sealed _ _ _ Hu)|].
    unfold domain_edge_allowed in *. rewrite (us_edges _ _ _ Hu). change (w_graph (k_world s0)) with (w_graph w). by rewrite He.
Qed.

Example self_test_edge_sealed_in_witness :
  exists w k s t, boot_tests ARM [] 0 0 0 0 [] (Cpu (replicate 8 0) 0 boot_sp 0) 16 = Some (7, 3, true, w, k) /\
    start_user boot_stacks (with_kmem ∅ (KSys w (sc_cursor (Switch.k_sched k)) [] (-1))) = Some s /\ t_task_id t = 5 /\
    current (k_tasks s) = Some t.
Proof.
  destruct (self_test_edge_sealed_in [] 0 0 0 0 0 [] [] (Cpu (replicate 8 0) 0 boot_sp 0) ∅ no_map eq_refl eq_refl)
    as (_ & w & k & s & t & H & Hs & Hu & Hid & _).
  exists w, k, s, t. split; [exact H|]. split; [exact Hs|]. split; [exact Hid|]. exact (us_current _ _ _ Hu).
Defined.

(** The hand-over to user code.  [switch_to_user_mode] enters user mode
    exactly with both pointers in 0x400000-0x7FFFFFFF.  [load_user_program]
    refuses NULL and images below 24 bytes; otherwise it reports an entry
    point and a stack the switch accepts, and, when the policy grants the
    copy, the image is at 0x400000 and no other byte changed.  The size has
    no upper bound: an image of more than 4 MiB runs into the kernel heap (its
    bytes are in memory then, whatever objects the heap held). *)
Theorem user_handover (rt : regions) (s : ksys) (binary size : Z) :
  bytes_ok (k_mem s) -> range_ok binary size -> range_ok 4194304 size ->
  (4194304 <= binary \/ binary + size <= 4194304) ->
  (forall eip esp, switch_to_user_mode eip esp =
     if decide (4194304 <= eip <= 2147483647 /\ 4194304 <= esp <= 2147483647) then Some (eip, esp) else None) /\
  let '(rv, entry, s') := load_user_program rt binary size s in
  if decide (binary <> 0 /\ 24 <= size)
  then rv = 0 /\ (exists eip esp, entry = Some (eip, esp) /\ switch_to_user_mode eip esp = Some (eip, esp)) /\
       (may_write rt 4194304 size = true -> may_read rt binary size = true ->
        forall x, 0 <= x < 4294967296 ->
        ldb (k_mem s') x =
          if decide (4194304 <= x < 4194304 + size) then ldb (k_mem s) (binary + (x - 4194304)) else ldb (k_mem s) x)
  else rv = -1 /\ entry = None /\ s' = s.
Proof.
  intros Hb Hbin Hdst Hapart. split.
  - intros eip esp. unfold switch_to_user_mode.
    destruct (decide _) as [[H1 H2]|Hno].
    + rewrite (proj2 (Z.eqb_neq eip 0)), (proj2 (Z.eqb_neq esp 0)) by lia.
      by rewrite (proj2 (user_pointer_spec eip)), (proj2 (user_pointer_spec esp)).
    + destruct (eip =? 0); [done|]. destruct (esp =? 0); [done|].
      destruct (user_pointer eip) eqn:E1; [|done]. destruct (user_pointer esp) eqn:E2; [|done].
      apply user_pointer_spec in E1, E2. tauto.
  - unfold load_user_program. destruct (binary =? 0) eqn:E0; bools; [by rewrite decide_False by tauto|].
    destruct (size <? 24) eqn:E1; bools; [by rewrite decide_False by lia|]. rewrite decide_True by lia.
    split; [done|]. split; [by do 2 eexists|]. intros Hw Hr x Hx.
    change (k_mem (with_kmem ?m s)) with m. unfold memcpy.
    rewrite Hw, Hr. cbn [negb orb]. rewrite copy_up_spec by (rewrite ?Z2Nat.id, ?Z.add_0_r, ?Z.add_0_l by lia; done || lia).
    rewrite Z.add_0_r, Z2Nat.id by lia. case_decide as Hd.
    + by rewrite (proj2 (Z.leb_le _ _)), (proj2 (Z.ltb_lt _ _)) by lia.
    + destruct (_ && _)%bool eqn:E; [|done]. bools. lia.
Qed.

(** A five-megabyte image in memory above the user region. *)
Example user_handover_witness :
  switch_to_user_mode 4194304 0 = None /\
  (load_user_program demo_rt 16777216 5242880 demo_kernel_sys).1.2 = Some (4194304, 7340032).
Proof.
  pose proof (user_handover demo_rt demo_kernel_sys 16777216 5242880) as H.
  destruct H as [H1 _].
  - intros a. unfold ldb. change (k_mem demo_kernel_sys) with (∅ : gmap Z Z). rewrite lookup_empty. cbn. lia.
  - split; [discriminate|discriminate].
  - split; [discriminate|discriminate].
  - left. discriminate.
  - split; [rewrite H1; rewrite decide_False by lia; reflexivity|reflexivity].
Defined.
