(* ===== verification/Bringup.v ===== *)
(** * Bringing the machine up: the first half of kernel/main.c's [kmain]

    The interrupt hardware of x86 and ARM, initialisation step by
    initialisation step, and the kernel's subsystems in [kmain]'s order, up
    to the self tests.  The tests and the start of the user program are in
    SelfTests, StorageTests, Lifecycle and Boot. *)
From S2P Require Import Prelude Types Circular Ring Auditor Tasks Scheduler Interrupts DomainGraph Security MemUtils BlockAlloc Frames Crc Nng Ipc Channels Journal Workflow Checkpoints Crypto Mmu StorageTests.

(** ** x86 *)

(** The controllers and handler table, what [lgdt] and [lidt] loaded, and the
    writes to the timer. *)
Record x86_hw := X86Hw {
  h_isr : X86.isr_state;
  h_gdt : option (list X86.gdt_entry);
  h_idt : option (list X86.idt_entry);
  h_pit : list (Z * Z)
}.
Section X86.
(** Link addresses of the stubs and of [pit_tick]. *)
Context (isr irq : nat -> Z) (sys tick : Z).

Definition on_hw_pic (f : X86.pic -> X86.pic) (h : x86_hw) : x86_hw := X86Hw (X86.on_pic f (h_isr h)) (h_gdt h) (h_idt h) (h_pit h).
Definition x86_gdt_init (h : x86_hw) : option x86_hw :=
  Some (X86Hw (h_isr h) (Some (X86.gdt_init (replicate 5 (X86.GdtEntry 0 0 0 0 0 0)))) (h_idt h) (h_pit h)).
Definition x86_idt_init (h : x86_hw) : option x86_hw := Some (X86Hw (h_isr h) (h_gdt h) (Some (X86.idt_init isr irq sys)) (h_pit h)).
Definition x86_pic_remap (h : x86_hw) : option x86_hw := Some (on_hw_pic X86.pic_remap h).
(** [pit_init(hz)], with the registration of its handler. *)
Definition x86_pit_init (hz : Z) (h : x86_hw) : option x86_hw :=
  out ← X86.pit_init hz;
  Some (X86Hw (X86.irq_register_handler 0 tick 0 (h_isr h)).2 (h_gdt h) (h_idt h) (h_pit h ++ out)).
Definition x86_pic_unmask (n : Z) (h : x86_hw) : option x86_hw := Some (on_hw_pic (X86.pic_unmask n) h).
Definition x86_sti (h : x86_hw) : option x86_hw := Some (on_hw_pic (X86.set_if true) h).
Definition x86_spl0 (h : x86_hw) : option x86_hw := Some (on_hw_pic (fun p => (X86.spl0 p).2) h).
(** arch/x86/init.c; the table is in memory already. *)
Definition init_syscall (h : x86_hw) : option x86_hw :=
  Some (X86Hw (h_isr h) (h_gdt h) (X86.idt_set_gate 128 sys 8 238 <$> h_idt h) (h_pit h)).

Definition x86_steps : list (x86_hw -> option x86_hw) :=
  [x86_gdt_init; x86_idt_init; x86_pic_remap; x86_pit_init 100; x86_pic_unmask 0; x86_sti; x86_spl0; init_syscall].
End X86.

(** The first [k] steps. *)
Definition run_steps {H} (steps : list (H -> option H)) (k : nat) (h : H) : option H :=
  foldl (fun o f => o ≫= f) (Some h) (take k steps).
(** After the boot loader: interrupts off, no table of this kernel loaded. *)
Definition x86_hw_boot : x86_hw := X86Hw (X86.isr_bss (X86.pic_boot false)) None None [].

(** Line [n] of the controllers reaches the processor.  Until the masks have
    been written the firmware's are in force, and any line may. *)
Definition deliverable (n : Z) (p : X86.pic) : bool :=
  (X86.p_if p && match hw_mask p with Some m => negb (Z.testbit m n) | None => true end)%bool.
Definition handler_of (n : Z) (s : X86.isr_state) : option X86.handler := X86.i_handlers s !!! Z.to_nat n.

(** ** ARM *)

Record arm_hw := ArmHw { a_vic : Arm.vic; a_timer : Arm.timer; a_mmu : mmu; a_cpsr : Z }.
Section Arm.
(** Link addresses of [timer_isr] and of the translation table. *)
Context (timer_isr_at l1_at : Z).
Definition arm_vic_init (h : arm_hw) : option arm_hw := Some (ArmHw (Arm.vic_init (a_vic h)) (a_timer h) (a_mmu h) (a_cpsr h)).
Definition arm_timer_start (h : arm_hw) : option arm_hw :=
  let '(t, v) := Arm.arm_timer_init timer_isr_at (a_timer h) (a_vic h) in Some (ArmHw v t (a_mmu h) (a_cpsr h)).
Definition arm_mmu_start (h : arm_hw) : option arm_hw := Some (ArmHw (a_vic h) (a_timer h) (arm_mmu_init l1_at (a_mmu h)) (a_cpsr h)).
(** [mrs r0, cpsr; bic r0, r0, #0x80; msr cpsr_c, r0] *)
Definition arm_unmask (h : arm_hw) : option arm_hw :=
  Some (ArmHw (a_vic h) (a_timer h) (a_mmu h) (Arm.cpsr_write_c (Z.ldiff (a_cpsr h) (bit 7)) (a_cpsr h))).
Definition arm_steps : list (arm_hw -> option arm_hw) := [arm_vic_init; arm_timer_start; arm_mmu_start; arm_unmask].
End Arm.

(** What the boot code hands over: SVC mode, IRQs and FIQs masked; the
    controller's registers as the firmware left them. *)
Definition arm_hw_boot (enable select : Z) (m : mmu) : arm_hw :=
  ArmHw (Arm.Vic (replicate 32 None) enable select) (Arm.Timer 0 0 [] 0 0) m 211.
(** An IRQ of source [n] reaches the processor. *)
Definition arm_deliverable (n : Z) (h : arm_hw) : bool := (negb (Z.testbit (a_cpsr h) 7) && Z.testbit (Arm.v_enable (a_vic h)) n)%bool.

(** ** The subsystems *)

(** [kb_cr0] is CR0 on x86; the heap is inside the world's socket layer. *)
Record ksubs := KSubs {
  kb_regions : regions;
  kb_cr0 : Z;
  kb_backend : option (storage_ops_t store);
  kb_store : store;
  kb_frames : frames;
  kb_key : list Z;
  kb_rng : Z;
  kb_world : world;
  kb_workflows : list (workflow_t store);
  kb_recovered : Z;
  kb_cursor : Z
}.

Definition security_init_memory_protection (cr0 : Z) : Z := Z.lor cr0 65536.
(** [None]: the layout check failed and the machine hangs. *)
Definition security_init (lk : layout) (cr0 : Z) : option (regions * Z) :=
  let t := security_regions_init lk in
  let cr0 := security_init_memory_protection cr0 in
  if security_verify_memory_layout then Some (t, cr0) else None.

Section Kmain.
Context (lk : layout) (stacks : Z) (slot_data : nat -> Z) (stk_key stk_value : list Z).

(** From [security_init] to [rr_scheduler.init]; [rng] is the generator's
    seed. *)
Definition kmain_init (cr0 rng : Z) : option ksubs :=
  '(rt, cr0) ← security_init lk cr0;
  let heap := memory_init alloc_bss in
  let '(backend, st) := storage_init rt slot_data stk_key stk_value None boot_store in
  let fr := frame_allocator_init in
  let '(key, rng) := crypto_init rng in
  let w := boot_world stacks auditor_bss heap in
  let w := with_auditor (auditor_init (w_auditor w)) w in
  let w := with_auditor (task_emit_kernel_create_event (w_tasks w) (w_auditor w)) w in
  '(rv, wfs, st) ← workflow_recover stk_key stk_value (replicate WORKFLOW_MAX_ACTIVE wf_zero) st;
  Some (KSubs rt cr0 backend st fr key rng w wfs rv (sc_cursor (rr_init (Sched (w_tasks w) 0)).2)).
End Kmain.

(** ** No interrupt before its handler *)

Definition lines_ok (p : X86.pic) : bool := forallb (fun n => implb (deliverable n p) ((n =? 0) || (n =? 2))%bool) (seqZ 0 16).
Lemma lines_ok_spec p n : lines_ok p = true -> 0 <= n < 16 -> deliverable n p = true -> n = 0 \/ n = 2.
Proof.
  intros Hl Hn Hd. unfold lines_ok in Hl. rewrite forallb_forall in Hl.
  specialize (Hl n ltac:(apply list_elem_of_In, elem_of_seqZ; lia)). rewrite Hd in Hl. cbn in Hl.
  apply orb_true_iff in Hl as [Hz|Hz]; apply Z.eqb_eq in Hz; auto.
Qed.

Section X86Order.
Context (isr irq : nat -> Z) (sys tick : Z).
Context (Htick : tick <> 0).

Lemma syscall_gate_again : X86.idt_set_gate 128 sys 8 238 (X86.idt_init isr irq sys) = X86.idt_init isr irq sys.
Proof. unfold X86.idt_init, X86.idt_set_gate. apply list_insert_insert_eq. Qed.

(** What must hold of the hardware for interrupts to be harmless. *)
Definition x86_ready (h : x86_hw) : Prop :=
  forall n, 0 <= n < 16 -> deliverable n (X86.i_pic (h_isr h)) = true ->
    (n = 0 /\ handler_of 0 (h_isr h) = Some (tick, 0) \/ n = 2) /\
    h_idt h = Some (X86.idt_init isr irq sys) /\ is_Some (h_gdt h).

Lemma x86_ready_off h : X86.p_if (X86.i_pic (h_isr h)) = false -> x86_ready h.
Proof. intros Hif n _ Hd. unfold deliverable in Hd. by rewrite Hif in Hd. Qed.
Lemma x86_ready_on h :
  lines_ok (X86.i_pic (h_isr h)) = true -> handler_of 0 (h_isr h) = Some (tick, 0) ->
  h_idt h = Some (X86.idt_init isr irq sys) -> is_Some (h_gdt h) -> x86_ready h.
Proof. intros Hl Hh Hi Hg n Hn Hd. split; [|done]. destruct (lines_ok_spec _ n Hl Hn Hd) as [->| ->]; [by left|by right]. Qed.

Lemma pit_started h :
  x86_pit_init tick 100 h = Some (X86Hw (X86.Isr (X86.i_pic (h_isr h)) (<[0%nat := Some (tick, 0)]> (X86.i_handlers (h_isr h))))
    (h_gdt h) (h_idt h) (h_pit h ++ [(67, 54); (64, 155); (64, 46)])).
Proof. unfold x86_pit_init, X86.irq_register_handler. rewrite (proj2 (Z.eqb_neq tick 0) Htick). reflexivity. Qed.

Lemma x86_steps_ready k : (k <= 8)%nat -> exists h, run_steps (x86_steps isr irq sys tick) k x86_hw_boot = Some h /\ x86_ready h.
Proof.
  intros Hk. unfold run_steps, x86_steps.
  destruct k as [|[|[|[|[|[|[|[|[|k]]]]]]]]]; [..|lia].
  all: cbn [take foldl mbind option_bind x86_gdt_init x86_idt_init x86_pic_remap]; rewrite ?pit_started; cbn [mbind option_bind]; eexists; (split; [reflexivity|]).
  1-6: apply x86_ready_off; vm_compute; reflexivity.
  all: apply x86_ready_on; [vm_compute; reflexivity|reflexivity| |eexists; reflexivity].
  1-2: reflexivity.
  change (Some (X86.idt_set_gate 128 sys 8 238 (X86.idt_init isr irq sys)) = Some (X86.idt_init isr irq sys)).
  by rewrite syscall_gate_again.
Qed.

(** The state after the last step. *)
Lemma x86_brought_up :
  exists h, run_steps (x86_steps isr irq sys tick) 8 x86_hw_boot = Some h /\ handler_of 0 (h_isr h) = Some (tick, 0) /\
    X86.p_if (X86.i_pic (h_isr h)) = true /\ hw_mask (X86.i_pic (h_isr h)) = Some 65530 /\
    h_pit h = [(67, 54); (64, 155); (64, 46)].
Proof.
  unfold run_steps, x86_steps. cbn [take foldl mbind option_bind x86_gdt_init x86_idt_init x86_pic_remap]. rewrite pit_started. cbn [mbind option_bind].
  eexists. split; [reflexivity|]. repeat apply conj; vm_compute; reflexivity.
Qed.
End X86Order.

(** C19: On x86 no interrupt is taken before it can be handled.  After every
    prefix of [kmain]'s hardware initialisation, a controller line that can
    reach the processor is line 0 with [pit_tick] registered, or the cascade
    line 2, which nothing drives; and the segment table and the interrupt table,
    whose gate for that line is present and leads to its stub, have been loaded.  At the
    end the timer line is open and the timer runs at 100 Hz (divisor 11931). *)
Theorem x86_bringup_order (isr irq : nat -> Z) (sys tick : Z) (k : nat) :
  (forall k, 0 <= isr k < 4294967296) -> (forall k, 0 <= irq k < 4294967296) -> 0 <= sys < 4294967296 -> tick <> 0 -> (k <= 8)%nat ->
  exists h, run_steps (x86_steps isr irq sys tick) k x86_hw_boot = Some h /\
    (forall n, 0 <= n < 16 -> deliverable n (X86.i_pic (h_isr h)) = true ->
       (n = 0 /\ handler_of 0 (h_isr h) = Some (tick, 0) \/ n = 2) /\ is_Some (h_gdt h) /\
       exists t, h_idt h = Some t /\ gate_base (t !!! (32 + Z.to_nat n)%nat) = irq (Z.to_nat n) /\
         gate_present (t !!! (32 + Z.to_nat n)%nat) = true) /\
    (k = 8%nat -> deliverable 0 (X86.i_pic (h_isr h)) = true /\ h_pit h = [(67, 54); (64, 11931 mod 256); (64, 11931 / 256)]).
Proof.
  intros Hi Hq Hs Ht Hk. destruct (x86_steps_ready isr irq sys tick Ht k Hk) as (h & Hrun & Hready).
  exists h. split; [done|]. split.
  - intros n Hn Hd. destruct (Hready n Hn Hd) as (Hh & Hidt & Hg). split; [done|]. split; [done|].
    eexists. split; [exact Hidt|]. destruct (x86_idt_gates isr irq sys (32 + Z.to_nat n) Hi Hq Hs ltac:(lia)) as (Hb & _ & Hp).
    rewrite Hb, Hp. rewrite (proj2 (Nat.ltb_ge _ 32)), (proj2 (Nat.ltb_lt _ 48)) by lia. split; [f_equal; lia|done].
  - intros ->. destruct (x86_brought_up isr irq sys tick Ht) as (h' & Hrun' & _ & Hif & Hm & Hp).
    rewrite Hrun in Hrun'. injection Hrun' as <-. split; [|exact Hp]. unfold deliverable. by rewrite Hif, Hm.
Qed.

Example x86_bringup_order_witness :
  exists h, run_steps (x86_steps (fun _ => 4096) (fun _ => 8192) 12288 16384) 8 x86_hw_boot = Some h /\
    deliverable 0 (X86.i_pic (h_isr h)) = true.
Proof.
  destruct (x86_bringup_order (fun _ => 4096) (fun _ => 8192) 12288 16384 8 ltac:(lia) ltac:(lia) ltac:(lia) ltac:(lia) ltac:(lia))
    as (h & Hrun & _ & Hd).
  exact (ex_intro _ h (conj Hrun (proj1 (Hd eq_refl)))).
Defined.

(** ** ARM: the same order, and the map the handlers run on *)

Section ArmOrder.
Context (timer_isr_at l1_at : Z) (Hisr : timer_isr_at <> 0).

Definition arm_ready (h : arm_hw) : Prop :=
  forall n, 0 <= n < 32 -> arm_deliverable n h = true ->
    Arm.v_handlers (a_vic h) !!! Z.to_nat n = Some (timer_isr_at, 0) /\ Z.testbit (mm_sctlr (a_mmu h)) 0 = true.

Lemma vic_reset enable select hs :
  0 <= enable < 4294967296 ->
  (Arm.irq_register_handler Arm.TIMER_VIC_IRQ timer_isr_at 0 (Arm.vic_init (Arm.Vic hs enable select))).2 =
    Arm.Vic (<[4%nat := Some (timer_isr_at, 0)]> (replicate 32 None)) 16 0.
Proof.
  intros He. unfold Arm.irq_register_handler, Arm.vic_init. cbn [Arm.v_enable Arm.v_handlers Arm.v_select].
  replace (Z.ldiff enable 4294967295) with 0.
  - rewrite (proj2 (Z.eqb_neq timer_isr_at 0) Hisr). reflexivity.
  - symmetry. apply Z.bits_inj'. intros i Hi. rewrite Z.ldiff_spec, Z.testbit_0_l. change 4294967295 with (Z.ones 32).
    destruct (decide (i < 32)); [rewrite Z.ones_spec_low by lia; apply andb_false_r|].
    by rewrite (bound_bits enable 32 i) by lia.
Qed.

Lemma arm_ready_masked h : Z.testbit (a_cpsr h) 7 = true -> arm_ready h.
Proof. intros Hc n _ Hd. unfold arm_deliverable in Hd. by rewrite Hc in Hd. Qed.

Lemma arm_brought_up enable select m :
  0 <= enable < 4294967296 ->
  run_steps (arm_steps timer_isr_at l1_at) 4 (arm_hw_boot enable select m) =
    Some (ArmHw (Arm.Vic (<[4%nat := Some (timer_isr_at, 0)]> (replicate 32 None)) 16 0)
      (Arm.Timer 0 0 [] 10000 226) (arm_mmu_init l1_at m) 83).
Proof.
  intros He. unfold run_steps, arm_steps, arm_hw_boot.
  cbn [take foldl mbind option_bind arm_vic_init arm_timer_start arm_mmu_start arm_unmask Arm.arm_timer_init a_vic a_timer a_mmu a_cpsr].
  rewrite vic_reset by done. reflexivity.
Qed.
End ArmOrder.

(** The registers the kernel's handlers use, and the memory they run on: the
    vectors, the four exception stacks, the interrupt controller, the
    timer, both serial ports. *)
Definition handler_memory : list Z := [0; 28; 60; 1048572; 983036; 917500; 851964; 269746176; 270409728; 270471168; 270475264].

(** C18: On ARM no interrupt is taken before it can be handled.  Whatever the
    firmware left in the controller, after every prefix of the sequence a
    source that can interrupt has [timer_isr] registered and runs with the
    MMU on.  At the end the timer source alone is open, FIQs are still
    masked, the processor is in SVC mode, and the map gives the kernel the vectors,
    its exception stacks and its devices at their own addresses and user
    code none of them. *)
Theorem arm_bringup_order (timer_isr_at l1_at enable select : Z) (m : mmu) (k : nat) :
  timer_isr_at <> 0 -> 0 <= enable < 4294967296 -> length (mm_table m) = 4096%nat -> (k <= 4)%nat ->
  exists h, run_steps (arm_steps timer_isr_at l1_at) k (arm_hw_boot enable select m) = Some h /\
    arm_ready timer_isr_at h /\
    (k = 4%nat ->
       (forall n, 0 <= n < 32 -> arm_deliverable n h = (n =? Arm.TIMER_VIC_IRQ)) /\
       Z.testbit (a_cpsr h) 6 = true /\ a_cpsr h mod 32 = 19 /\
       forall va write, va ∈ handler_memory ->
         mmu_access l1_at (a_mmu h) false write va = Some va /\ mmu_access l1_at (a_mmu h) true write va = None).
Proof.
  intros Hisr He Hm Hk. destruct k as [|[|[|[|[|k]]]]]; [..|lia].
  1-4: eexists; (split; [reflexivity|]); (split; [|discriminate]); by apply arm_ready_masked.
  pose proof (arm_brought_up timer_isr_at l1_at Hisr enable select m He) as Hr.
  assert (Hd : forall n, 0 <= n < 32 -> Z.testbit 16 n = (n =? 4)) by (intros n Hn; exact (bit_testbit 4 n ltac:(lia) ltac:(lia))).
  eexists. split; [exact Hr|]. split; [|intros _; split; [|split; [done|split; [done|]]]].
  - intros n Hn Hdn. unfold arm_deliverable in Hdn. cbn [a_cpsr a_vic Arm.v_enable] in Hdn. rewrite (Hd n Hn) in Hdn.
    apply andb_true_iff in Hdn as [_ Hz]. apply Z.eqb_eq in Hz as ->. split; [done|]. cbn [a_mmu].
    pose proof (sctlr_enabled (mm_sctlr m)) as Hs. change 1 with (bit 0) in Hs at 2. rewrite land_bit in Hs by lia.
    apply negb_false_iff in Hs. exact Hs.
  - intros n Hn. unfold arm_deliverable. cbn [a_cpsr a_vic Arm.v_enable]. by rewrite (Hd n Hn).
  - intros va write Hva. cbn [a_mmu].
    assert (Hr32 : 0 <= va < 4294967296) by (unfold handler_memory in Hva; rewrite !elem_of_cons, elem_of_nil in Hva; lia).
    rewrite !boot_access by done. unfold handler_memory in Hva. rewrite !elem_of_cons, elem_of_nil in Hva.
    by repeat destruct Hva as [->|Hva].
Qed.

Example arm_bringup_order_witness :
  exists h, run_steps (arm_steps 65536 16384) 4 (arm_hw_boot 4294967295 0 mmu_reset) = Some h /\ arm_deliverable 4 h = true.
Proof.
  destruct (arm_bringup_order 65536 16384 4294967295 0 mmu_reset 4 ltac:(lia) ltac:(lia) mmu_reset_length ltac:(lia))
    as (h & Hrun & _ & Hd).
  exact (ex_intro _ h (conj Hrun (proj1 (Hd eq_refl) 4 ltac:(lia)))).
Defined.

(** ** What the self tests and the user program find *)

(** What the emission of the kernel task's record sends. *)
Definition kernel_record (stacks : Z) : auditor_record_t :=
  task_create_record (auditor_init auditor_bss) 1 TASK_PARENT_NONE CAP_ALL 0 0
    (t_kernel_stack_top (ts_tasks (task_init stacks task_state_bss) !!! 0%nat)).

Lemma recover_idle stk_key stk_value k (s : store) r :
  recover_loop stk_key stk_value (replicate k wf_zero) s r = Some (r, replicate k wf_zero, s).
Proof.
  revert r. induction k as [|k IH]; intros r; [done|]. cbn [replicate recover_loop].
  change (recover_slot stk_key stk_value wf_zero s) with (Some (0, @wf_zero store, s)). cbn [mbind option_bind Z.eqb].
  by rewrite IH.
Qed.

Lemma length_lcg_bytes n s : length (lcg_bytes n s).1 = n.
Proof.
  revert s. induction n as [|n IH]; intros s; [done|]. cbn [lcg_bytes].
  match goal with |- context [lcg_bytes n ?x] => specialize (IH x); destruct (lcg_bytes n x) end.
  cbn [fst length] in *. by rewrite IH.
Qed.
Lemma length_crypto_key rng : length (crypto_init rng).1 = 32%nat.
Proof.
  unfold crypto_init, security_generate_random. cbn [negb orb Z.eqb].
  pose proof (length_lcg_bytes (Z.to_nat 32) rng) as H. by destruct (lcg_bytes _ rng).
Qed.

Lemma boot_slots_wf : slots_wf (s_slots boot_store).
Proof. split; [intros i c|intros i j c d]; by intros [-> _]%lookup_replicate. Qed.

(** [kmain] establishes what the other parts assume.  Initialisation
    never hangs; it leaves the access policy of the link layout, the heap
    with every block free, the frame pool whole, the in-memory storage
    backend installed over empty tables, a 32-byte key, the channel world
    reachable (hence well formed), a trusted kernel task current, the ring
    armed and empty, no workflow to recover, the cursor at the first task,
    and on the wire exactly the kernel task's creation record. *)
Theorem kmain_establishes (lk : layout) (stacks : Z) (slot_data : nat -> Z) (stk_key stk_value : list Z) (cr0 rng : Z) :
  exists k, kmain_init lk stacks slot_data stk_key stk_value cr0 rng = Some k /\
    kb_regions k = security_regions_init lk /\ Z.testbit (kb_cr0 k) 16 = true /\
    (let heap := ng_alloc (w_nng (kb_world k)) in shaped (al_blocks heap) /\
       forall c i, (c < 4)%nat -> (i < 32)%nat -> b_in_use ((al_blocks heap !!! c) !!! i) = false) /\
    frames_wf (kb_frames k) /\ used_frames (kb_frames k) = ∅ /\
    kb_backend k = Some (memory_storage_ops (kb_regions k) slot_data stk_key stk_value) /\ slots_wf (s_slots (kb_store k)) /\
    length (kb_key k) = 32%nat /\
    world_reachable (kb_regions k) stacks (kb_world k) /\ channels_wf (kb_world k) /\
    ts_current (w_tasks (kb_world k)) = Some 0%nat /\
    ring_wf (au_ring (w_auditor (kb_world k))) /\ ring_contents (au_ring (w_auditor (kb_world k))) = [] /\
    au_enabled (w_auditor (kb_world k)) = true /\
    kb_recovered k = 0 /\ kb_workflows k = replicate WORKFLOW_MAX_ACTIVE wf_zero /\ kb_cursor k = 0 /\
    au_tlm (w_auditor (kb_world k)) = record_bytes (kernel_record stacks).
Proof.
  eexists. split.
  { unfold kmain_init, security_init. cbn [security_verify_memory_layout mbind option_bind storage_init so_init memory_storage_ops memstor_init snd storage_set_backend].
    rewrite (surjective_pairing (crypto_init rng)). unfold workflow_recover. rewrite recover_idle. reflexivity. }
  cbn [kb_regions kb_cr0 kb_backend kb_store kb_frames kb_key kb_world kb_workflows kb_recovered kb_cursor].
  split; [done|]. split; [unfold security_init_memory_protection; by rewrite Z.lor_spec, orb_true_r|]. split; [exact memory_init_shaped|].
  split; [apply frame_allocator_init_wf|]. split; [apply frame_allocator_init_wf|]. split; [done|]. split; [exact boot_slots_wf|].
  split; [apply length_crypto_key|].
  assert (Hr : world_reachable (security_regions_init lk) stacks
      (with_auditor (task_emit_kernel_create_event (task_init stacks task_state_bss) (auditor_init auditor_bss))
         (boot_world stacks auditor_bss (memory_init alloc_bss)))).
  { eexists _, _. eapply rtc_l; [apply ws_audit|apply rtc_refl]. }
  split; [exact Hr|]. split; [exact (world_reachable_wf _ _ _ Hr)|]. clear Hr.
  split; [done|]. split; [by apply ring_init_wf|]. done.
Qed.
