(* ===== verification/MainLoop.v ===== *)
(** * The end of kernel/main.c's [kmain]: the user program or the idle loop

    What follows [Boot.start_user]: the linked-in image is loaded and entered,
    or the kernel idles for ever.  The idle loop is what drains the auditor's
    ring. *)
From S2P Require Import Prelude Types Circular Ring Auditor Tasks Scheduler Security MemUtils Nng Ipc Pool Channels Syscall Boot.

Inductive kmain_end :=
  | Entered (eip esp : Z) (s : ksys)
  | Idling (s : ksys).

(** [user_eip] and [user_esp] as [kmain] initialises them. *)
Definition user_defaults : Z * Z := (4194304, 7340032).

Section Launch.
Context (rt : regions) (stacks : Z).

(** [binary_start] and [binary_end] are link addresses; 0 is NULL. *)
Definition launch (binary_start binary_end : Z) (s : ksys) : kmain_end :=
  if (negb (binary_start =? 0) && negb (binary_end =? 0))%bool then
    let size := u32 (binary_end - binary_start) in
    let '(rv, entry, s) := load_user_program rt binary_start size s in
    if rv =? 0 then
      let '(user_eip, user_esp) := default user_defaults entry in
      match switch_to_user_mode user_eip user_esp with
      | Some (eip, esp) => Entered eip esp s
      | None => Idling s
      end
    else Idling s
  else Idling s.
(** From the seal to the end. *)
Definition finish_boot (binary_start binary_end : Z) (s : ksys) : option kmain_end :=
  s ← start_user stacks s; Some (launch binary_start binary_end s).
End Launch.

(** [hw_get_jiffies] reads [j]. *)
Definition set_clock (j : Z) (a : auditor) : auditor :=
  Auditor (au_ring a) (au_enabled a) (au_tick_count a) (au_heartbeat a) j (au_tlm a).
Definition auditor_of (s : ksys) : auditor := w_auditor (k_world s).
Definition at_time (j : Z) (s : ksys) : ksys := with_world (with_auditor (set_clock j (auditor_of s)) (k_world s)) s.
(** The main loop, one round for each clock reading in [js]. *)
Fixpoint idle (js : list Z) (s : ksys) : option ksys :=
  match js with
  | [] => Some s
  | j :: js => s ← process_events (at_time j s); idle js s
  end.

(** ** Entering the user program *)

Lemma launch_cases rt bs be s :
  launch rt bs be s =
    if decide (bs <> 0 /\ be <> 0 /\ 24 <= u32 (be - bs))
    then Entered 4194304 7340032 (with_kmem (memcpy rt (k_mem s) 4194304 bs (u32 (be - bs))) s)
    else Idling s.
Proof.
  unfold launch, load_user_program. destruct (Z.eqb_spec bs 0) as [->|Hs]; cbn [negb andb].
  { by rewrite decide_False by tauto. }
  destruct (Z.eqb_spec be 0) as [->|He]; cbn [negb andb]; [by rewrite decide_False by tauto|].
  destruct (Z.ltb_spec (u32 (be - bs)) 24); cbn [Z.eqb]; [by rewrite decide_False by lia|].
  by rewrite decide_True by lia.
Qed.

(** [kmain] ends in the user program.  From any kernel the tests can
    leave (reachable, the root task current, a free slot), with an image of at
    least 24 bytes linked in, it ends in user mode at 0x400000 on the stack
    0x700000, the confined user task current, the image loaded, no other
    kernel state changed by the launch; without one (or with one too short)
    it ends in the idle loop with the same task current and memory
    untouched. *)
Theorem kmain_ends_in_user (rt : regions) (stacks binary_start binary_end : Z) (s : ksys) :
  ksys_ok rt stacks s -> ts_current (k_tasks s) = Some 0%nat -> ts_count (k_tasks s) < Z.of_nat MAX_TASKS ->
  exists s1 t, user_started s s1 t /\ ksys_ok rt stacks s1 /\ k_mem s1 = k_mem s /\
    finish_boot rt stacks binary_start binary_end s =
      Some (if decide (binary_start <> 0 /\ binary_end <> 0 /\ 24 <= u32 (binary_end - binary_start))
            then Entered 4194304 7340032
                   (with_kmem (memcpy rt (k_mem s) 4194304 binary_start (u32 (binary_end - binary_start))) s1)
            else Idling s1).
Proof.
  intros Hs Hc Hroom. destruct (started rt stacks s Hs Hc Hroom) as (s1 & t & Hst & Hs1 & Hu).
  assert (Hm : k_mem s1 = k_mem s).
  { revert Hst. unfold start_user. cbv zeta. destruct (create_task _ _ _ _) as [[[rv ts] au] sp].
    destruct (negb (rv =? 0)); [by intros [= <-]|]. destruct sp as [u|]; [|done]. cbn [mbind option_bind].
    destruct (task_find _ _) as [i|]; [|done]. cbn [mbind option_bind].
    match goal with |- context [ipc_create_channel ?w 0 0 ?c ?p] =>
      pose proof (create_channel_objects w 0 0 c p) as (_ & _ & Hcm); destruct (ipc_create_channel w 0 0 c p) as [ch w'] end.
    intros [= <-]. exact Hcm. }
  exists s1, t. split; [done|]. split; [done|]. split; [done|].
  unfold finish_boot. rewrite Hst. cbn [mbind option_bind]. by rewrite launch_cases, Hm.
Qed.

Example kmain_ends_in_user_witness :
  exists s1, finish_boot demo_rt 4096 9437184 9437384 demo_kernel_sys = Some (Entered 4194304 7340032 s1) /\
    exists t, current (k_tasks s1) = Some t /\ t_cap_mask t = CAP_IPC_SEND.
Proof.
  destruct (kmain_ends_in_user demo_rt 4096 9437184 9437384 demo_kernel_sys demo_kernel_ok eq_refl eq_refl)
    as (s1 & t & Hu & _ & _ & H).
  eexists. split; [exact H|]. exists t. split; [exact (us_current _ _ _ Hu)|exact (us_caps _ _ _ Hu)].
Defined.

(** ** The idle loop *)

Definition is_msg (r : auditor_record_t) : Prop := ar_record_type r = AUDITOR_REC_MSG.
#[export] Instance is_msg_dec r : Decision (is_msg r) := decide (ar_record_type r = AUDITOR_REC_MSG).
(** A record without its time stamp. *)
Definition untimed (r : auditor_record_t) : auditor_record_t :=
  AuditRec (Auditor.ar_magic r) (Auditor.ar_version r) (Auditor.ar_record_type r) 0 (Auditor.ar_priority r)
    (Auditor.ar_src_domain r) (Auditor.ar_protocol r) (Auditor.ar_channel_id r) (Auditor.ar_operation r)
    (Auditor.ar_checksum r) (Auditor.ar_payload_hash r).

(** One round: a tick of the auditor at the round's time, and the scheduler. *)
Lemma round_spec rt stacks j s :
  ksys_ok rt stacks s ->
  exists s', process_events (at_time j s) = Some s' /\ ksys_ok rt stacks s' /\ policy_kept s s' /\
    auditor_of s' = auditor_tick (set_clock j (auditor_of s)).
Proof.
  intros Hs. assert (Hs1 : ksys_ok rt stacks (at_time j s)).
  { split; [|apply Hs]. eapply reachable_steps; [apply Hs|]. apply rtc_once, ws_audit. }
  destruct (process_events_ok rt stacks _ Hs1) as (s' & Hp & Hs' & Hk). exists s'.
  split; [done|]. split; [done|]. split; [etransitivity; [|exact Hk]; by split|].
  revert Hp. unfold process_events. cbv zeta. destruct (rr_schedule _ _) as [[[rv n] sc]|]; [|done].
  cbn [mbind option_bind]. by intros [= <-].
Qed.

Lemma tick_enabled a : au_enabled (auditor_tick a) = au_enabled a.
Proof.
  unfold auditor_tick. destruct (au_enabled a) eqn:E; cbn [negb]; [|done]. cbv zeta.
  set (a1 := if _ >? 0 then _ else a). assert (H1 : au_enabled a1 = true) by (subst a1; by destruct (_ >? 0)). clearbody a1.
  assert (Hd : forall n b, au_enabled (drain n b) = au_enabled b).
  { induction n as [|n IH]; intros b; [done|]. cbn [drain]. destruct (ring_pop _) as [[m r]|]; [|done]. by rewrite IH. }
  destruct (_ >=? 100); change (au_enabled (drain DRAIN_BATCH a1) = true); by rewrite Hd.
Qed.

(** The record of a queued message, but for the time. *)
Definition msg_view (m : message_t) : auditor_record_t := untimed (msg_record auditor_bss m).

Lemma tick_messages a :
  untimed <$> filter is_msg (tick_records a) = msg_view <$> take DRAIN_BATCH (ring_contents (au_ring a)).
Proof.
  unfold tick_records. rewrite !filter_app.
  assert (Hm : forall l : list message_t, untimed <$> filter is_msg (msg_record a <$> l) = msg_view <$> l).
  { intros l. induction l as [|m l IH]; [done|]. cbn [fmap list_fmap]. rewrite filter_cons_True by done.
    cbn [fmap list_fmap]. by rewrite IH. }
  set (x := filter is_msg (if _ >? 0 then [_] else [])). assert (x = []) as -> by (subst x; by destruct (_ >? 0)).
  set (y := filter is_msg (if _ >=? 100 then [_] else [])). assert (y = []) as -> by (subst y; by destruct (_ >=? 100)).
  by rewrite app_nil_r, <-Hm.
Qed.

(** [n] rounds took the auditor from [a] to [a'] and sent [recs]. *)
Record delivered (n : nat) (a : auditor) (recs : list auditor_record_t) (a' : auditor) : Prop := {
  dl_enabled : au_enabled a' = true;
  dl_ring : ring_wf (au_ring a');
  dl_wire : au_tlm a' = au_tlm a ++ concat (record_bytes <$> recs);
  dl_sent : untimed <$> filter is_msg recs = msg_view <$> take (DRAIN_BATCH * n) (ring_contents (au_ring a));
  dl_left : ring_contents (au_ring a') = drop (DRAIN_BATCH * n) (ring_contents (au_ring a))
}.

Lemma delivered_none a : au_enabled a = true -> ring_wf (au_ring a) -> delivered 0 a [] a.
Proof. intros He Hr. split; try done. by rewrite app_nil_r. Qed.
Lemma delivered_round j a :
  au_enabled a = true -> ring_wf (au_ring a) ->
  delivered 1 a (tick_records (set_clock j a)) (auditor_tick (set_clock j a)).
Proof.
  intros He Hr. destruct (auditor_tick_spec (set_clock j a) He Hr) as (Ht & Hw & Hc & _).
  split; [by rewrite tick_enabled|done|done|by rewrite tick_messages|done].
Qed.
Lemma delivered_trans n m a b c r1 r2 :
  delivered n a r1 b -> delivered m b r2 c -> delivered (n + m) a (r1 ++ r2) c.
Proof.
  intros [_ _ W1 S1 L1] [He Hr W2 S2 L2]. split; [done|done|..].
  - by rewrite W2, W1, fmap_app, concat_app, app_assoc.
  - by rewrite filter_app, fmap_app, S1, S2, L1, Nat.mul_add_distr_l, <-take_take_drop, fmap_app.
  - by rewrite L2, L1, drop_drop, Nat.mul_add_distr_l.
Qed.

Lemma idle_rounds rt stacks js s :
  ksys_ok rt stacks s -> au_enabled (auditor_of s) = true -> ring_wf (au_ring (auditor_of s)) ->
  exists s' recs, idle js s = Some s' /\ ksys_ok rt stacks s' /\ policy_kept s s' /\
    delivered (length js) (auditor_of s) recs (auditor_of s') /\
    forall j js', js = j :: js' -> tick_records (set_clock j (auditor_of s)) `prefix_of` recs.
Proof.
  revert s. induction js as [|j js IH]; intros s Hs He Hr.
  { exists s, []. split_and!; [done|done|done|by apply delivered_none|done]. }
  destruct (round_spec rt stacks j s Hs) as (s1 & Hp & Hs1 & Hk & Ha).
  pose proof (delivered_round j (auditor_of s) He Hr) as Hd. rewrite <-Ha in Hd.
  destruct (IH s1 Hs1 (dl_enabled _ _ _ _ Hd) (dl_ring _ _ _ _ Hd)) as (s' & recs & Hi & Hs' & Hk' & Hd' & _).
  exists s'. eexists. split; [cbn [idle]; by rewrite Hp|]. split; [done|]. split; [by etransitivity|].
  split; [exact (delivered_trans 1 _ _ _ _ _ _ Hd Hd')|]. intros ? ? [= <- <-]. by eexists.
Qed.

(** C17: The idle loop delivers the audit stream.  Whatever the clock shows
    in each round, the loop never stops and no round changes the policy
    state.  A message queued when the loop starts is on the wire, as its MSG
    record and once, within one round per 32 messages up to it, in queue
    order; 8 rounds empty any ring, and after one round the messages refused
    before it have been reported, in its first record. *)
Theorem idle_delivers (rt : regions) (stacks : Z) (s : ksys) (js : list Z) :
  ksys_ok rt stacks s -> au_enabled (auditor_of s) = true -> ring_wf (au_ring (auditor_of s)) ->
  exists s' recs, idle js s = Some s' /\ ksys_ok rt stacks s' /\ policy_kept s s' /\
    delivered (length js) (auditor_of s) recs (auditor_of s') /\
    ((8 <= length js)%nat ->
       ring_contents (au_ring (auditor_of s')) = [] /\
       untimed <$> filter is_msg recs = msg_view <$> ring_contents (au_ring (auditor_of s))) /\
    (0 < r_overflow (au_ring (auditor_of s)) -> forall j js', js = j :: js' ->
       head recs = Some (overflow_record (set_clock j (auditor_of s)) (r_overflow (au_ring (auditor_of s))))).
Proof.
  intros Hs He Hr. destruct (idle_rounds rt stacks js s Hs He Hr) as (s' & recs & Hi & Hs' & Hk & Hd & Hf).
  exists s', recs. do 3 (split; [done|]). split; [done|]. split.
  - intros Hn. pose proof (length_ring_contents _ Hr). pose proof (ring_len_bounds _ Hr).
    rewrite (dl_left _ _ _ _ Hd), (dl_sent _ _ _ _ Hd). unfold DRAIN_BATCH. by rewrite drop_ge, take_ge by lia.
  - intros Ho j js' Hjs. destruct (Hf j js' Hjs) as [rest ->]. unfold tick_records.
    change (r_overflow (au_ring (set_clock j (auditor_of s)))) with (r_overflow (au_ring (auditor_of s))).
    by rewrite (proj2 (Z.gtb_lt _ 0)) by lia.
Qed.

(** One message waits. *)
Definition demo_waiting : ksys := with_world (with_auditor auditor_demo (k_world demo_kernel_sys)) demo_kernel_sys.

Example idle_delivers_witness :
  exists s' recs, idle [1; 2; 3; 4; 5; 6; 7; 8] demo_waiting = Some s' /\
    delivered 8 auditor_demo recs (auditor_of s') /\ untimed <$> filter is_msg recs = [msg_view message_zero].
Proof.
  assert (Hok : ksys_ok demo_rt 4096 demo_waiting).
  { split; [|apply demo_kernel_ok]. eapply reachable_steps; [apply demo_kernel_ok|]. apply rtc_once, ws_audit. }
  destruct (idle_delivers demo_rt 4096 demo_waiting [1; 2; 3; 4; 5; 6; 7; 8] Hok eq_refl
    ltac:(by apply ring_push_wf, ring_init_wf)) as (s' & recs & Hi & _ & _ & Hd & H8 & _).
  exists s', recs. split; [exact Hi|]. split; [exact Hd|]. exact (proj2 (H8 ltac:(cbn; lia))).
Defined.
