(* ===== verification/UserLib.v ===== *)
(** * The user library and its program: user/lib/user.c, user/tests/hello.c

    A user program acts on the system through [syscall_handler] and on its
    own memory, which is the kernel's memory seen from user mode.  Access
    faults of user code are not modelled: the theorems place its data in
    mapped memory. *)
From stdpp Require Import strings.
From S2P Require Import Prelude Types Circular Ring Auditor Tasks Scheduler Interrupts Switch Security MemUtils DomainGraph BlockAlloc Crc Nng Ipc Channels Syscall SelfTests Lifecycle Boot Mmu.

Definition PRIORITY_MEDIUM : Z := 1.

Section User.
Context (rt : regions) (stacks local : Z) (maps : Z -> bool).
Definition syscall (num arg1 arg2 arg3 : Z) (s : ksys) : option ksys :=
  syscall_handler rt stacks local maps num (u32 arg1) (u32 arg2) (u32 arg3) s.

Definition write (buf len : Z) (s : ksys) : option ksys := syscall SYS_WRITE buf len 0 s.

(** [while (str[len]) len++]; [None] when the fuel runs out. *)
Fixpoint user_strlen (fuel : nat) (m : gmap Z Z) (str len : Z) : option Z :=
  match fuel with
  | O => None
  | S fuel => if ldb m (str + len) =? 0 then Some len else user_strlen fuel m str (len + 1)
  end.

Definition print (fuel : nat) (str : Z) (s : ksys) : option ksys :=
  len ← user_strlen fuel (k_mem s) str 0;
  write str len s.

Definition user_memcpy (m : gmap Z Z) (dest src n : Z) : gmap Z Z := copy_up (Z.to_nat n) m dest src 0.

(** The message object lies at [msg] on the caller's stack; what it held
    before stays in the fields that are not set. *)
Definition send_ipc (fuel : nat) (msg operation message : Z) (s : ksys) : option (Z * ksys) :=
  let m := st32 (k_mem s) msg PRIORITY_MEDIUM in
  len ← user_strlen fuel m message 0;
  let safe_len := if len >=? Z.of_nat MAX_MSG_SIZE then Z.of_nat MAX_MSG_SIZE - 1 else len in
  let m := user_memcpy m (msg + MSG_PAYLOAD_OFF) message safe_len in
  let m := stb m (msg + MSG_PAYLOAD_OFF + safe_len) 0 in
  s ← syscall SYS_IPC_SEND operation msg 0 (with_kmem m s);
  Some (0, s).

Definition send_grid_alert (fuel : nat) (msg message : Z) (s : ksys) : option (Z * ksys) :=
  send_ipc fuel msg OP_GRID_ALERT message s.

(** The program; its literals lie at the addresses [l1] to [l7], its
    messages at [msg].  [_start] of the ARM and x86 crt0 then exits. *)
Definition hello_main (fuel : nat) (l1 l2 l3 l4 l5 l6 l7 msg : Z) (s : ksys) : option (Z * ksys) :=
  s ← print fuel l1 s;
  s ← print fuel l2 s;
  s ← print fuel l3 s;
  '(_, s) ← send_ipc fuel msg OP_WRITE l4 s;
  s ← print fuel l5 s;
  '(_, s) ← send_grid_alert fuel msg l6 s;
  s ← print fuel l7 s;
  Some (0, s).
Definition start (fuel : nat) (l1 l2 l3 l4 l5 l6 l7 msg : Z) (s : ksys) : option ksys :=
  '(code, s) ← hello_main fuel l1 l2 l3 l4 l5 l6 l7 msg s;
  syscall SYS_EXIT code 0 0 s.

(** The end of the RISC-V crt0: a7 is 1, the other registers are what main
    left in them. *)
Definition riscv_crt0_exit (a1 a2 : Z) (s : ksys) : option ksys := syscall 1 0 a1 a2 s.

(** The number is SYS_WRITE's: the program's last call does nothing. *)
Lemma riscv_exit_is_write a1 a2 s : riscv_crt0_exit a1 a2 s = Some s.
Proof. reflexivity. Qed.
End User.

(** ** Strings in user memory *)

(** The characters of [cs] and a terminator lie at [a]. *)
Record text_at (m : gmap Z Z) (a : Z) (cs : list Z) : Prop := {
  ta_nonnul : Forall (fun c => 0 < c < 256) cs;
  ta_chars : load m a (length cs) = cs;
  ta_end : ldb m (a + Z.of_nat (length cs)) = 0
}.

Lemma load_lookup m a n i : (i < n)%nat -> load m a n !! i = Some (ldb m (a + Z.of_nat i)).
Proof. intros Hi. unfold load. by rewrite list_lookup_fmap, lookup_seq_lt. Qed.

Lemma text_char m a cs i c : text_at m a cs -> cs !! i = Some c -> ldb m (a + Z.of_nat i) = c /\ 0 < c < 256.
Proof.
  intros [Hn Hc _] Hi. pose proof (lookup_lt_Some _ _ _ Hi) as Hlt.
  pose proof (load_lookup m a (length cs) i Hlt) as Hl. rewrite Hc, Hi in Hl. split; [congruence|].
  by apply (Forall_lookup_1 _ _ _ _ Hn Hi).
Qed.

Lemma user_strlen_text m a cs fuel k :
  text_at m a cs -> (k <= length cs)%nat -> (length cs - k < fuel)%nat ->
  user_strlen fuel m a (Z.of_nat k) = Some (Z.of_nat (length cs)).
Proof.
  intros Ht. revert k. induction fuel as [|f IH]; intros k Hk Hf; [lia|]. cbn [user_strlen].
  destruct (decide (k = length cs)) as [->|Hne]; [by rewrite (ta_end _ _ _ Ht)|].
  destruct (lookup_lt_is_Some_2 cs k ltac:(lia)) as [c Hc].
  destruct (text_char m a cs k c Ht Hc) as [-> Hr]. replace (c =? 0) with false by lia.
  replace (Z.of_nat k + 1) with (Z.of_nat (S k)) by lia. apply IH; lia.
Qed.

Lemma load_take m a n k : (k <= n)%nat -> take k (load m a n) = load m a k.
Proof.
  intros Hk. unfold load. rewrite <-fmap_take. f_equal. replace n with (k + (n - k))%nat by lia.
  by rewrite seq_app, take_app_length' by (by rewrite length_seq).
Qed.


(** A text of 1030 characters at the start of user memory. *)
Definition demo_print_sys : ksys := with_kmem (store ∅ MM_USER_LOAD_BASE (replicate 1030 65 ++ [0])) demo_kernel_sys.

(** ** Hello *)
Definition newline : list Z := [10].
Definition hello_texts : list (list Z) :=
  [ chars "Hello from LughOS user mode!" ++ newline;
    chars "Testing system calls and basic functionality..." ++ newline ++ newline;
    chars "Sending regular IPC message..." ++ newline;
    chars "Test IPC message from user mode";
    chars "Sending grid alert message..." ++ newline;
    chars "GRID_ALERT: Test alert from user mode";
    newline ++ chars "All tests complete. Exiting with status 0." ++ newline ].
(** The literals, 64 bytes apart from [at_]. *)
Definition hello_image (at_ : Z) (m : gmap Z Z) : gmap Z Z :=
  (foldl (fun '(m, a) t => (store m a (t ++ [0]), a + 64)) (m, at_) hello_texts).1.

(** The system on ARM after the boot tests and [start_user], with the
    program's literals loaded at 0x401000. *)
Definition hello_at : Z := 4198400.
Definition hello_booted (msg_at local top sp : Z) (junk : list Z) (c : cpu) : option ksys :=
  '(_, _, _, w, k) ← boot_tests ARM demo_rt msg_at local top sp junk c 16;
  let s := KSys w (sc_cursor (Switch.k_sched k)) [] (-1) in start_user boot_stacks (with_kmem (hello_image hello_at (k_mem s)) s).
Definition hello_run (s : ksys) : option ksys :=
  start demo_rt boot_stacks 786432 (kernel_maps 0 mmu_reset) 100 hello_at (hello_at + 64) (hello_at + 128) (hello_at + 192)
    (hello_at + 256) (hello_at + 320) (hello_at + 384) 7339776 s.
(** What the host reads of the records from the [n]th byte on: type and
    operation. *)
Definition host_view (n : nat) (s : ksys) : list (option (Z * Z)) :=
  (fun raw => (fun r => (ar_record_type r, Auditor.ar_operation r)) <$> Host.parse_record raw) <$>
  Host.tail_records (drop n (au_tlm (w_auditor (k_world s)))).
Definition hello_summary (o o' : option ksys) :=
  s ← o; s' ← o';
  Some (k_console s', t_state <$> current (k_tasks s'), host_view (length (au_tlm (w_auditor (k_world s)))) s').

Lemma hello_summary_ok (msg_at local top sp r1 r2 r3 r4 r5 r6 r7 r8 ret pc : Z) (junk : list Z) :
  let o := hello_booted msg_at local top sp junk (Cpu [r1; r2; r3; r4; r5; r6; r7; r8] ret boot_sp pc) in
  hello_summary o (o ≫= hello_run) =
  Some (hello_texts !!! 0%nat ++ hello_texts !!! 1%nat ++ hello_texts !!! 2%nat ++ hello_texts !!! 4%nat ++ hello_texts !!! 6%nat,
        Some TASK_TERMINATED,
        [Some (AUDITOR_REC_DENY, OP_WRITE); Some (AUDITOR_REC_MSG, OP_GRID_ALERT); Some (AUDITOR_REC_TASK_EXIT, 5)]).
Proof. vm_compute. reflexivity. Qed.

(** One layout run to the end.  On ARM, from the boot tests on, whatever the
    callee-saved registers held, the boot tests, [start_user] and [hello.c]
    run to the end: the console shows the program's five lines in order; the
    user task ends TERMINATED; and what the host decodes from the serial line
    since the hand-over is one DENY record for OP_WRITE (the user task lacks
    CAP_PRIVILEGED_OP), one MSG record for the grid alert and the TASK_EXIT of
    task 5. *)
Theorem hello_end_to_end (msg_at local top sp : Z) (junk : list Z) (c : cpu) :
  length (c_regs c) = 8%nat -> c_sp c = boot_sp ->
  exists s s' t, hello_booted msg_at local top sp junk c = Some s /\ hello_run s = Some s' /\
    k_console s' = hello_texts !!! 0%nat ++ hello_texts !!! 1%nat ++ hello_texts !!! 2%nat ++
                   hello_texts !!! 4%nat ++ hello_texts !!! 6%nat /\
    current (k_tasks s') = Some t /\ t_state t = TASK_TERMINATED /\
    host_view (length (au_tlm (w_auditor (k_world s)))) s' =
      [Some (AUDITOR_REC_DENY, OP_WRITE); Some (AUDITOR_REC_MSG, OP_GRID_ALERT); Some (AUDITOR_REC_TASK_EXIT, 5)].
Proof.
  destruct c as [regs ret s0 pc]. cbn [c_regs c_sp]. intros Hl ->.
  destruct regs as [|r1 [|r2 [|r3 [|r4 [|r5 [|r6 [|r7 [|r8 [|]]]]]]]]]; try done.
  pose proof (hello_summary_ok msg_at local top sp r1 r2 r3 r4 r5 r6 r7 r8 ret pc junk) as Hs. cbv zeta in Hs. revert Hs.
  generalize (hello_booted msg_at local top sp junk (Cpu [r1; r2; r3; r4; r5; r6; r7; r8] ret boot_sp pc)).
  intros [s|] Hs; [|done]. unfold hello_summary in Hs. cbn [mbind option_bind] in Hs.
  destruct (hello_run s) as [s'|] eqn:Er; cbn [mbind option_bind] in Hs; [|done].
  apply Some_inj in Hs. pose proof (f_equal fst Hs) as Hcs. pose proof (f_equal snd Hs) as Hv. cbn [fst snd] in Hcs, Hv.
  pose proof (f_equal fst Hcs) as Hc. pose proof (f_equal snd Hcs) as Ht. cbn [fst snd] in Hc, Ht.
  apply fmap_Some in Ht as (t & Ht & Hst). exists s, s', t. by split_and!.
Qed.

Example hello_end_to_end_witness :
  exists s s', hello_booted 0 0 0 0 [] (Cpu (replicate 8 0) 0 boot_sp 0) = Some s /\ hello_run s = Some s'.
Proof.
  destruct (hello_end_to_end 0 0 0 0 [] (Cpu (replicate 8 0) 0 boot_sp 0) eq_refl eq_refl) as (s & s' & t & H & H' & _).
  exists s, s'. split; [exact H|exact H'].
Defined.
