(* ===== verification/Log.v ===== *)
(** * Kernel log: kernel/log.c

    The line [log_message] hands to [kputchar], as a function of the level,
    the tick counter, the format and the variadic arguments, and the VGA text
    buffer [kputchar] fills.  Strings are given by their characters before
    the terminator; [None] is undefined behaviour in the source (a string
    read where memory holds none, or the overflow of [-value]). *)
From stdpp Require Import strings.
From S2P Require Import Prelude.

Definition LOG_INFO : Z := 1.
Definition LOG_FATAL : Z := 4.
Definition LOG_LEVEL_COUNT : Z := 5.

(** ** Numbers *)

(** [do { buffer[i++] = '0' + value % 10; value /= 10; } while (value && i < 11)]
    and the loop that prints the buffer backwards: [k] is [11 - i], [out] the
    buffer in printing order. *)
Fixpoint dec_loop (k : nat) (value : Z) (out : list Z) : list Z :=
  match k with
  | O => out
  | S k =>
      let out := (48 + value mod 10) :: out in
      if value / 10 =? 0 then out else dec_loop k (value / 10) out
  end.
Definition put_unsigned (value : Z) : list Z := dec_loop 11 value [].

(** A negative [int] is printed after its sign; [-value] overflows on the
    least one. *)
Definition put_signed (value : Z) : option (list Z) :=
  if value <? 0
  then if value =? -2147483648 then None else Some (45 :: put_unsigned (- value))
  else Some (put_unsigned value).

Definition hex_digit (a digit : Z) : Z := if digit <? 10 then 48 + digit else a + digit - 10.
Fixpoint hex_loop (k : nat) (a value : Z) (out : list Z) : list Z :=
  match k with
  | O => out
  | S k => hex_loop k a (Z.shiftr value 4) (hex_digit a (Z.land value 15) :: out)
  end.
Definition put_hex (a value : Z) : list Z := hex_loop 8 a value [].

(** ** Formats *)

(** A variadic argument: a 32-bit word, or a pointer to a string ([None] is
    NULL). *)
Inductive va := VInt (z : Z) | VStr (s : option (list Z)).

(** [va_arg] takes the next word of the stack, whatever it was passed as.
    What it sees depends on the memory around the call: the string at an
    address ([None] where there is no readable one), the address of a string,
    and the words that follow the arguments. *)
Class ArgMem := {
  arg_text : Z -> option (list Z);
  arg_addr : list Z -> Z;
  arg_past : nat -> Z
}.

Section Formats.
Context {AM : ArgMem}.

(** The next argument; [k] words beyond the last one have been taken. *)
Definition va_arg (k : nat) (args : list va) : va * nat * list va :=
  match args with v :: rest => (v, k, rest) | [] => (VInt (arg_past k), S k, []) end.
(** It as an [unsigned int], and as the text a [const char *] prints. *)
Definition va_word (v : va) : Z :=
  match v with VInt z => u32 z | VStr None => 0 | VStr (Some s) => u32 (arg_addr s) end.
Definition va_text (v : va) : option (list Z) :=
  match v with VStr s => Some (default [] s) | VInt z => if u32 z =? 0 then Some [] else arg_text (u32 z) end.

Fixpoint kprintf_va (format : list Z) (k : nat) (args : list va) : option (list Z) :=
  match format with
  | [] => Some []
  | c :: format =>
      if negb (c =? 37) then rest ← kprintf_va format k args; Some (c :: rest)
      else
        match format with
        | [] => Some []
        | c :: format =>
            if c =? 115 then
              let '(v, k, args) := va_arg k args in
              s ← va_text v; rest ← kprintf_va format k args; Some (s ++ rest)
            else if c =? 100 then
              let '(v, k, args) := va_arg k args in
              s ← put_signed (s32 (va_word v)); rest ← kprintf_va format k args; Some (s ++ rest)
            else if c =? 117 then
              let '(v, k, args) := va_arg k args in
              rest ← kprintf_va format k args; Some (put_unsigned (va_word v) ++ rest)
            else if ((c =? 120) || (c =? 88))%bool then
              let '(v, k, args) := va_arg k args in
              rest ← kprintf_va format k args; Some (put_hex (if c =? 88 then 65 else 97) (va_word v) ++ rest)
            else if c =? 112 then
              let '(v, k, args) := va_arg k args in
              rest ← kprintf_va format k args; Some ([48; 120] ++ put_hex 97 (va_word v) ++ rest)
            else if c =? 37 then rest ← kprintf_va format k args; Some (37 :: rest)
            else rest ← kprintf_va format k args; Some (37 :: c :: rest)
        end
  end.
Definition kprintf (format : list Z) (args : list va) : option (list Z) := kprintf_va format 0 args.

(** The line [log_message] prints; [level] as the unsigned the test casts it to. *)
Definition log_message (level log_ticks : Z) (format : list Z) (args : list va) : option (list Z) :=
  if level >=? LOG_LEVEL_COUNT then Some []
  else body ← kprintf format args; Some (91 :: put_hex 97 log_ticks ++ [93; 32] ++ body ++ [10]).
End Formats.

Definition log_tick (log_ticks : Z) : Z := u32 (log_ticks + 1).

(** ** The VGA half of [kputchar] *)

Record vga := Vga { vg_cells : list Z; vg_position : Z }.
Definition vga_put (v : vga) (c : Z) : vga :=
  if c =? 10
  then let p := (vg_position v / 80 + 1) * 80 in Vga (vg_cells v) (if p >=? 80 * 25 then 0 else p)
  else if vg_position v <? 80 * 25
  then Vga (<[Z.to_nat (vg_position v) := Z.lor (u8 c) 1792]> (vg_cells v)) (vg_position v + 1)
  else Vga (vg_cells v) 0.
Definition vga_write (v : vga) (s : list Z) : vga := foldl vga_put v s.

(** ** Reading numbers back *)

Definition dec_value (s : list Z) : Z := foldl (fun n c => 10 * n + (c - 48)) 0 s.
Definition hex_digit_value (a c : Z) : Z := if c <? 58 then c - 48 else c - a + 10.
Definition hex_value (a : Z) (s : list Z) : Z := foldl (fun n c => 16 * n + hex_digit_value a c) 0 s.
Definition signed_value (s : list Z) : Z :=
  match s with 45 :: s => - dec_value s | _ => dec_value s end.
Definition is_digit (c : Z) : Prop := 48 <= c <= 57.

Lemma foldl_dec out n : foldl (fun n c => 10 * n + (c - 48)) n out = n * 10 ^ Z.of_nat (length out) + dec_value out.
Proof.
  revert n. induction out as [|c out IH]; intros n; [cbn; lia|]. unfold dec_value. cbn [foldl length].
  rewrite !IH, Nat2Z.inj_succ, Z.pow_succ_r by lia. unfold dec_value. cbn [foldl]. nia.
Qed.

(** The loop prints exactly the value's digits: no digit is lost while the
    fuel lasts, none is added, and the first is nonzero unless the value is. *)
Lemma dec_loop_spec k value out :
  0 <= value < 10 ^ Z.of_nat k -> (0 < k)%nat ->
  exists ds, dec_loop k value out = ds ++ out /\ dec_value ds = value /\ Forall is_digit ds /\
    (1 <= length ds <= k)%nat /\ (0 < value -> 10 ^ (Z.of_nat (length ds) - 1) <= value).
Proof.
  revert value out. induction k as [|k IH]; intros value out Hv Hk; [lia|]. cbn [dec_loop]. cbv zeta.
  rewrite Nat2Z.inj_succ, Z.pow_succ_r in Hv by lia.
  destruct (value / 10 =? 0) eqn:E; bools.
  - exists [48 + value mod 10]. cbn. split_and!; try lia; [done|]. repeat constructor; lia.
  - assert (Hk0 : (0 < k)%nat) by (destruct k; [change (10 ^ Z.of_nat 0) with 1 in Hv; lia|lia]).
    destruct (IH (value / 10) (48 + value mod 10 :: out) ltac:(lia) Hk0) as (ds & -> & Hval & Hd & Hlen & Hlow).
    exists (ds ++ [48 + value mod 10]). rewrite <-app_assoc. split; [done|].
    rewrite length_app. cbn [length]. split_and!; [| |lia|lia|].
    + unfold dec_value in *. rewrite foldl_app, Hval. cbn. lia.
    + apply Forall_app. split; [done|]. repeat constructor; lia.
    + intros _. specialize (Hlow ltac:(lia)). replace (Z.of_nat (length ds + 1) - 1) with (Z.succ (Z.of_nat (length ds) - 1)) by lia.
      rewrite Z.pow_succ_r by lia. lia.
Qed.

Lemma hex_digit_inv a d : a = 65 \/ a = 97 -> 0 <= d < 16 -> hex_digit_value a (hex_digit a d) = d.
Proof.
  intros Ha Hd. unfold hex_digit. destruct (d <? 10) eqn:E; bools; unfold hex_digit_value.
  - rewrite (proj2 (Z.ltb_lt _ _)) by lia. lia.
  - rewrite (proj2 (Z.ltb_ge _ _)) by lia. lia.
Qed.

Lemma hex_loop_spec k a value out :
  a = 65 \/ a = 97 -> 0 <= value < 16 ^ Z.of_nat k ->
  exists ds, hex_loop k a value out = ds ++ out /\ hex_value a ds = value /\ length ds = k.
Proof.
  intros Ha. revert value out. induction k as [|k IH]; intros value out Hv.
  { exists []. cbn in *. split_and!; [done|lia|done]. }
  rewrite Nat2Z.inj_succ, Z.pow_succ_r in Hv by lia. cbn [hex_loop].
  assert (Hs : Z.shiftr value 4 = value / 16) by by rewrite Z.shiftr_div_pow2.
  assert (Hd : Z.land value 15 = value mod 16) by apply (land_ones_mod value 4 ltac:(lia)).
  rewrite Hs, Hd. destruct (IH (value / 16) (hex_digit a (value mod 16) :: out) ltac:(lia)) as (ds & -> & Hval & Hlen).
  exists (ds ++ [hex_digit a (value mod 16)]). rewrite <-app_assoc, length_app. split_and!; [done| |cbn; lia].
  unfold hex_value in *. rewrite foldl_app, Hval. cbn [foldl]. rewrite hex_digit_inv by (done || lia). lia.
Qed.

Lemma put_unsigned_spec v :
  0 <= v < 4294967296 ->
  dec_value (put_unsigned v) = v /\ Forall is_digit (put_unsigned v) /\ (1 <= length (put_unsigned v) <= 10)%nat.
Proof.
  intros Hv. destruct (dec_loop_spec 11 v []) as (ds & Hds & Hval & Hd & Hlen & Hlow); [cbn; lia|lia|].
  unfold put_unsigned. rewrite Hds, app_nil_r. split_and!; [done|done|lia|].
  destruct (decide (v = 0)) as [->|Hne]; [change (dec_loop 11 0 []) with [48] in Hds; rewrite app_nil_r in Hds; subst ds; cbn; lia|].
  specialize (Hlow ltac:(lia)).
  destruct (decide (length ds = 11%nat)) as [He|]; [|lia]. rewrite He in Hlow. change (10 ^ (Z.of_nat 11 - 1)) with 10000000000 in Hlow. lia.
Qed.

Lemma put_signed_spec v :
  -2147483648 < v < 2147483648 ->
  exists s, put_signed v = Some s /\ signed_value s = v /\ (1 <= length s <= 11)%nat.
Proof.
  intros Hv. unfold put_signed. destruct (v <? 0) eqn:E; bools.
  - rewrite (proj2 (Z.eqb_neq v _)) by lia. destruct (put_unsigned_spec (- v)) as (Hval & _ & Hlen); [lia|].
    eexists. split; [reflexivity|]. cbn [signed_value length]. split; lia.
  - destruct (put_unsigned_spec v) as (Hval & Hd & Hlen); [lia|]. eexists. split; [reflexivity|]. split; [|lia].
    destruct (put_unsigned v) as [|c s]; [done|]. apply Forall_cons in Hd as [Hc _]. unfold is_digit in Hc.
    rewrite <-Hval. unfold signed_value. repeat case_match; subst; done || lia.
Qed.

Lemma put_hex_spec a v :
  a = 65 \/ a = 97 -> 0 <= v < 4294967296 -> hex_value a (put_hex a v) = v /\ length (put_hex a v) = 8%nat.
Proof.
  intros Ha Hv. destruct (hex_loop_spec 8 a v [] Ha) as (ds & Hds & Hval & Hlen); [cbn; lia|].
  unfold put_hex. rewrite Hds, app_nil_r. done.
Qed.

(** Numbers can be read back from the log.  For every 32-bit argument
    %u prints one to ten decimal digits of that value, %x, %X and %p eight
    hexadecimal ones, and %d a sign and digits of every value but the least
    one, for which the source's [-value] overflows. *)
Theorem log_numbers_round_trip {AM : ArgMem} (v : Z) :
  0 <= v < 4294967296 ->
  (exists s, kprintf [37; 117] [VInt v] = Some s /\ dec_value s = v /\ (1 <= length s <= 10)%nat) /\
  (exists s, kprintf [37; 120] [VInt v] = Some s /\ hex_value 97 s = v /\ length s = 8%nat) /\
  (exists s, kprintf [37; 88] [VInt v] = Some s /\ hex_value 65 s = v /\ length s = 8%nat) /\
  (exists s, kprintf [37; 112] [VInt v] = Some ([48; 120] ++ s) /\ hex_value 97 s = v /\ length s = 8%nat) /\
  (if decide (v = 2147483648) then kprintf [37; 100] [VInt v] = None
   else exists s, kprintf [37; 100] [VInt v] = Some s /\ signed_value s = s32 v /\ (1 <= length s <= 11)%nat).
Proof.
  intros Hv. destruct (put_unsigned_spec v Hv) as (Hu & _ & Hul).
  destruct (put_hex_spec 97 v) as [Hx Hxl]; [by right|done|]. destruct (put_hex_spec 65 v) as [HX HXl]; [by left|done|].
  assert (Hid : u32 v = v) by by apply u32_id.
  unfold kprintf. cbn [kprintf_va negb Z.eqb Pos.eqb va_arg va_word mbind option_bind orb]. rewrite Hid, !app_nil_r.
  split_and!; [by eexists..|]. destruct (decide (v = 2147483648)) as [->|Hne]; [reflexivity|].
  destruct (put_signed_spec (s32 v)) as (s & -> & Hs & Hsl).
  - unfold s32, u32 in *. split_if; bools; lia.
  - exists s. cbn. by rewrite app_nil_r.
Qed.

(** A call site with no readable strings about. *)
Definition demo_args : ArgMem := {| arg_text _ := None; arg_addr _ := 0; arg_past _ := 0 |}.

Example log_numbers_round_trip_witness :
  exists s, kprintf (AM := demo_args) [37; 100] [VInt 4294967253] = Some s /\ signed_value s = -43 /\ (1 <= length s <= 11)%nat.
Proof. exact (proj2 (proj2 (proj2 (proj2 (log_numbers_round_trip (AM := demo_args) 4294967253 ltac:(lia)))))). Defined.

(** ** The arguments a format consumes *)

Inductive want := WStr | WInt | WSigned.

(** The directives of a format, as [kprintf] reads it. *)
Fixpoint wants (format : list Z) : list want :=
  match format with
  | [] => []
  | c :: format =>
      if negb (c =? 37) then wants format
      else
        match format with
        | [] => []
        | c :: format =>
            (if c =? 115 then [WStr] else if c =? 100 then [WSigned]
             else if ((c =? 117) || (c =? 120) || (c =? 88) || (c =? 112))%bool then [WInt] else []) ++ wants format
        end
  end.

Definition fits (w : want) (v : va) : Prop :=
  match w, v with
  | WStr, VStr _ => True
  | WInt, VInt _ => True
  | WSigned, VInt z => s32 (u32 z) <> -2147483648
  | _, _ => False
  end.
(** Arguments that fit; those nobody asks for are left alone. *)
Inductive typed : list want -> list va -> Prop :=
  | typed_nil args : typed [] args
  | typed_cons w ws v args : fits w v -> typed ws args -> typed (w :: ws) (v :: args).

(** Formats are read two characters at a time. *)
Lemma format_ind (P : list Z -> Prop) :
  P [] -> (forall c f, c <> 37 -> P f -> P (c :: f)) -> P [37] -> (forall c f, P f -> P (37 :: c :: f)) ->
  forall f, P f.
Proof.
  intros H0 Hc H1 H2 f. remember (length f) as n eqn:Hn. revert f Hn.
  induction (lt_wf n) as [n _ IH]. intros [|c f] ->; [done|].
  destruct (decide (c = 37)) as [->|Hne]; [|apply Hc; [done|]; apply (IH (length f)); [cbn; lia|done]].
  destruct f as [|d f]; [done|]. apply H2, (IH (length f)); [cbn; lia|done].
Qed.

(** ** What a format prints

    The text of a number is pinned by the number it stands for: decimal
    digits without a leading zero, and eight hexadecimal digits over the
    alphabet that starts at [a]. *)
Definition decimal_text (s : list Z) (n : Z) : Prop :=
  Forall is_digit s /\ dec_value s = n /\ (1 <= length s)%nat /\
  ((1 < length s)%nat -> 10 ^ (Z.of_nat (length s) - 1) <= n).
Definition signed_text (s : list Z) (n : Z) : Prop :=
  if n <? 0 then exists t, s = 45 :: t /\ decimal_text t (- n) else decimal_text s n.
Definition hex_text (a : Z) (s : list Z) (n : Z) : Prop :=
  length s = 8%nat /\ Forall (fun c => is_digit c \/ a <= c < a + 6) s /\ hex_value a s = n.

(** [rendered format args text]: the text stands for the format with every
    directive replaced by its argument.  %s takes a string, %u and %d a
    number in decimal, %x, %X and %p one in hexadecimal, %% stands for itself
    and any other directive for its two characters; a lone % at the end
    prints nothing, and arguments that are left over are not looked at. *)
Inductive rendered : list Z -> list va -> list Z -> Prop :=
  | rn_nil args : rendered [] args []
  | rn_end args : rendered [37] args []
  | rn_char c f args out : c <> 37 -> rendered f args out -> rendered (c :: f) args (c :: out)
  | rn_percent f args out : rendered f args out -> rendered (37 :: 37 :: f) args (37 :: out)
  | rn_other c f args out : (c ∉ chars "sduxXp%") -> rendered f args out -> rendered (37 :: c :: f) args (37 :: c :: out)
  | rn_s str f args out : rendered f args out -> rendered (37 :: 115 :: f) (VStr str :: args) (default [] str ++ out)
  | rn_u z t f args out : decimal_text t (u32 z) -> rendered f args out ->
      rendered (37 :: 117 :: f) (VInt z :: args) (t ++ out)
  | rn_d z t f args out : signed_text t (s32 (u32 z)) -> rendered f args out ->
      rendered (37 :: 100 :: f) (VInt z :: args) (t ++ out)
  | rn_x z t f args out : hex_text 97 t (u32 z) -> rendered f args out ->
      rendered (37 :: 120 :: f) (VInt z :: args) (t ++ out)
  | rn_X z t f args out : hex_text 65 t (u32 z) -> rendered f args out ->
      rendered (37 :: 88 :: f) (VInt z :: args) (t ++ out)
  | rn_p z t f args out : hex_text 97 t (u32 z) -> rendered f args out ->
      rendered (37 :: 112 :: f) (VInt z :: args) (48 :: 120 :: t ++ out).

Lemma put_unsigned_text v : 0 <= v < 4294967296 -> decimal_text (put_unsigned v) v.
Proof.
  intros Hv. destruct (dec_loop_spec 11 v []) as (ds & Hds & Hval & Hd & Hlen & Hlow); [cbn; lia|lia|].
  unfold put_unsigned. rewrite Hds, app_nil_r. split_and!; [done|done|lia|]. intros Hl. apply Hlow.
  destruct (decide (v = 0)) as [->|]; [|lia]. change (dec_loop 11 0 []) with [48] in Hds. rewrite app_nil_r in Hds.
  subst ds. cbn in Hl. lia.
Qed.

Lemma put_signed_text v : -2147483648 < v < 2147483648 -> exists s, put_signed v = Some s /\ signed_text s v.
Proof.
  intros Hv. unfold put_signed, signed_text. destruct (v <? 0) eqn:E; bools.
  - rewrite (proj2 (Z.eqb_neq v _)) by lia. eexists. split; [done|]. eexists. split; [done|]. apply put_unsigned_text. lia.
  - eexists. split; [done|]. apply put_unsigned_text. lia.
Qed.

Lemma hex_loop_digits k a value out :
  Forall (fun c => is_digit c \/ a <= c < a + 6) out ->
  Forall (fun c => is_digit c \/ a <= c < a + 6) (hex_loop k a value out).
Proof.
  revert value out. induction k as [|k IH]; intros value out Ho; [done|]. cbn [hex_loop]. apply IH. constructor; [|done].
  pose proof (land_ones_mod value 4 ltac:(lia)) as Hm. change (2 ^ 4 - 1) with 15 in Hm. change (2 ^ 4) with 16 in Hm.
  rewrite Hm. pose proof (Z.mod_pos_bound value 16 ltac:(lia)). unfold hex_digit, is_digit. destruct (_ <? 10) eqn:E; bools; lia.
Qed.

Lemma put_hex_text a v : a = 65 \/ a = 97 -> 0 <= v < 4294967296 -> hex_text a (put_hex a v) v.
Proof. intros Ha Hv. destruct (put_hex_spec a v Ha Hv). split_and!; [done|by apply hex_loop_digits|done]. Qed.

Lemma s32_range z : -2147483648 <= s32 z < 2147483648.
Proof. unfold s32. pose proof (u32_range z). split_if; bools; lia. Qed.

(** One directive, against its argument. *)
Definition directive (c : Z) : list want :=
  if c =? 115 then [WStr] else if c =? 100 then [WSigned]
  else if ((c =? 117) || (c =? 120) || (c =? 88) || (c =? 112))%bool then [WInt] else [].

Lemma directive_none c : directive c = [] -> c <> 37 -> c ∉ chars "sduxXp%".
Proof.
  unfold directive. intros Hd Hc Hin. cbn in Hin. set_unfold in Hin. repeat case_match; try done; bools; lia.
Qed.

Section Rendering.
Context {AM : ArgMem}.

Definition put_arg (c : Z) (v : va) : option (list Z) :=
  if c =? 115 then va_text v
  else if c =? 100 then put_signed (s32 (va_word v))
  else if c =? 117 then Some (put_unsigned (va_word v))
  else if c =? 112 then Some ([48; 120] ++ put_hex 97 (va_word v))
  else Some (put_hex (if c =? 88 then 65 else 97) (va_word v)).

Lemma kprintf_directive c f k args :
  kprintf_va (37 :: c :: f) k args =
  match directive c with
  | [] => rest ← kprintf_va f k args; Some ((if c =? 37 then [37] else [37; c]) ++ rest)
  | _ => let '(v, k, args) := va_arg k args in s ← put_arg c v; rest ← kprintf_va f k args; Some (s ++ rest)
  end.
Proof.
  cbn [kprintf_va]. change (37 =? 37) with true. cbn [negb]. unfold directive, put_arg.
  destruct (c =? 115) eqn:Es; [by destruct (va_arg k args) as [[? ?] ?]|].
  destruct (c =? 100) eqn:Ed; [by destruct (va_arg k args) as [[? ?] ?]|].
  destruct (c =? 117) eqn:Eu; [by destruct (va_arg k args) as [[? ?] ?]|].
  destruct (c =? 112) eqn:Ep; bools; [subst; cbn; by destruct (va_arg k args) as [[? ?] ?]|].
  destruct (c =? 120) eqn:Ex; bools; [subst; cbn; by destruct (va_arg k args) as [[? ?] ?]|].
  destruct (c =? 88) eqn:EX; cbn [orb]; [by destruct (va_arg k args) as [[? ?] ?]|].
  by destruct (c =? 37).
Qed.

(** An argument of the kind its directive names is rendered. *)
Lemma put_arg_rendered c w v f args out :
  directive c = [w] -> fits w v -> rendered f args out ->
  exists s, put_arg c v = Some s /\ rendered (37 :: c :: f) (v :: args) (s ++ out).
Proof.
  unfold directive, put_arg. intros Hd Hf Hr. destruct (c =? 115) eqn:Es; bools; [subst; simplify_eq|].
  { destruct v as [|str]; [done|]. eexists. split; [done|]. by constructor. }
  destruct (c =? 100) eqn:Ed; bools; [subst; simplify_eq|].
  { destruct v as [z|]; [|done]. cbn [fits va_word] in *. pose proof (s32_range (u32 z)).
    destruct (put_signed_text (s32 (u32 z))) as (s & -> & Ht); [lia|]. eexists. split; [done|]. by constructor. }
  destruct (_ || _)%bool eqn:Eo; simplify_eq. destruct v as [z|]; [|done]. cbn [va_word]. pose proof (u32_range z).
  destruct (c =? 117) eqn:Eu; bools; [subst|].
  { eexists. split; [done|]. constructor; [by apply put_unsigned_text|done]. }
  destruct (c =? 112) eqn:Ep; bools; [subst|].
  { eexists. split; [done|]. cbn [app]. constructor; [apply put_hex_text; [by right|done]|done]. }
  destruct (c =? 88) eqn:EX; bools; [subst|].
  { eexists. split; [done|]. constructor; [apply put_hex_text; [by left|done]|done]. }
  assert (c = 120) as -> by lia. eexists. split; [done|]. constructor; [apply put_hex_text; [by right|done]|done].
Qed.

Lemma directive_cases c : directive c = [] \/ exists w, directive c = [w].
Proof. unfold directive. repeat case_match; eauto. Qed.

Lemma kprintf_rendered format k args :
  typed (wants format) args -> exists out, kprintf_va format k args = Some out /\ rendered format args out.
Proof.
  revert k args. induction format as [|c f Hne IH| |c f IH] using format_ind; intros k args Ht.
  - eexists. split; [done|constructor].
  - cbn [kprintf_va wants] in *. rewrite (proj2 (Z.eqb_neq c 37)) in * by done. cbn [negb] in *.
    destruct (IH k args Ht) as (out & -> & Hr). eexists. split; [done|by constructor].
  - eexists. split; [done|constructor].
  - rewrite kprintf_directive. change (wants (37 :: c :: f)) with (directive c ++ wants f) in Ht.
    destruct (directive_cases c) as [Hd|[w Hd]]; rewrite Hd in *; cbn [app] in Ht.
    + destruct (IH k args Ht) as (out & -> & Hr). eexists. split; [done|].
      destruct (c =? 37) eqn:E; bools; [subst; by constructor|]. constructor; [by apply directive_none|done].
    + inversion Ht as [|? ? v rest Hf Hrest]; subst. cbn [va_arg]. destruct (IH k rest Hrest) as (out & -> & Hr).
      destruct (put_arg_rendered c w v f rest out Hd Hf Hr) as (s & -> & Hs). by eexists.
Qed.
End Rendering.

(** C38: A log line says what its call says.  At a level that is printed,
    with arguments of the kinds the directives name (and no %d of the least
    int), [log_message] prints one line: the tick counter as eight lower-case
    hexadecimal digits in brackets, and then the format with every directive
    replaced: strings as they are, %u and %d by the decimal digits of exactly
    that value without leading zeros, after a minus sign where it is
    negative, %x, %X and %p by the eight hexadecimal digits of that value in
    the right case.  At any other level nothing is printed. *)
Theorem log_message_renders {AM : ArgMem} (level ticks : Z) (format : list Z) (args : list va) :
  0 <= ticks < 4294967296 ->
  (level < LOG_LEVEL_COUNT -> typed (wants format) args ->
   exists stamp body, log_message level ticks format args = Some ([91] ++ stamp ++ [93; 32] ++ body ++ [10]) /\
     hex_text 97 stamp ticks /\ rendered format args body) /\
  (LOG_LEVEL_COUNT <= level -> log_message level ticks format args = Some []).
Proof.
  intros Ht. unfold log_message. rewrite Z.geb_leb. split.
  - intros Hlev Hty. rewrite (proj2 (Z.leb_gt _ _)) by done. destruct (kprintf_rendered format 0 args Hty) as (body & Hb & Hr).
    unfold kprintf. rewrite Hb. exists (put_hex 97 ticks), body. split; [done|]. split; [|done].
    apply put_hex_text; [by right|done].
  - intros Hlev. by rewrite (proj2 (Z.leb_le _ _)).
Qed.

Example log_message_renders_witness :
  exists stamp body, chars "[00010000] id=3 dom=-1" ++ [10] = [91] ++ stamp ++ [93; 32] ++ body ++ [10] /\
    hex_text 97 stamp 65536 /\ rendered (chars "id=%u dom=%d") [VInt 3; VInt 4294967295; VStr None] body.
Proof.
  destruct (log_message_renders (AM := demo_args) 1 65536 (chars "id=%u dom=%d") [VInt 3; VInt 4294967295; VStr None])
    as [H _]; [lia|]. destruct H as (stamp & body & Hl & Hs & Hr).
  - reflexivity.
  - apply typed_cons; [exact I|]. apply typed_cons; [discriminate|]. apply typed_nil.
  - exists stamp, body. split; [|split; [exact Hs|exact Hr]].
    replace (log_message _ _ _ _) with (Some (chars "[00010000] id=3 dom=-1" ++ [10])) in Hl by (vm_compute; reflexivity).
    exact (f_equal (default []) Hl).
Defined.

(** Widths and length modifiers are not understood.  A character after %
    other than s, d, u, x, X, p and % is printed after the % as it stands and
    takes no argument, so [%08x], [%zu] and [%llu] in the kernel's messages
    print as text: the checksum report of [verify_signature], the tick
    message of [pit_tick] and the size in the policy's overflow report never
    show their values. *)
Theorem width_directives_print_as_text {AM : ArgMem} (args : list va) (c : Z) (f : list Z) :
  (directive c = [] -> c <> 37 ->
   kprintf (37 :: c :: f) args = (rest ← kprintf f args; Some (37 :: c :: rest))) /\
  kprintf (chars "Expected: 0x%08x, Calculated: 0x%08x") args = Some (chars "Expected: 0x%08x, Calculated: 0x%08x") /\
  kprintf (chars "[PIT] tick %llu") args = Some (chars "[PIT] tick %llu") /\
  forall addr size, kprintf (chars "overflow at %p + %zu") [VInt addr; VInt size] =
    Some (chars "overflow at 0x" ++ put_hex 97 (u32 addr) ++ chars " + %zu").
Proof.
  split; [|done]. intros Hc Hne. unfold kprintf. rewrite kprintf_directive, Hc. by rewrite (proj2 (Z.eqb_neq c 37)).
Qed.

Example width_directives_print_as_text_witness :
  kprintf (AM := demo_args) [37; 48; 56; 120] [VInt 7] = Some [37; 48; 56; 120].
Proof.
  rewrite (proj1 (width_directives_print_as_text (AM := demo_args) [VInt 7] 48 [56; 120]) eq_refl ltac:(discriminate)). reflexivity.
Defined.

(** ** The screen *)

Definition vga_ok (v : vga) : Prop := length (vg_cells v) = 2000%nat /\ 0 <= vg_position v <= 2000.
Definition attribute (c : Z) : Z := Z.lor (u8 c) 1792.

Lemma vga_put_ok v c : vga_ok v -> vga_ok (vga_put v c).
Proof.
  intros [Hl Hp]. unfold vga_put. destruct (c =? 10).
  - split; [done|]. cbn [vg_position]. destruct (_ >=? _) eqn:E; bools; lia.
  - destruct (_ <? _) eqn:E; bools; (split; cbn [vg_cells vg_position]; [|lia]); [by rewrite length_insert|done].
Qed.

Lemma vga_write_ok v s : vga_ok v -> vga_ok (vga_write v s).
Proof. revert v. induction s as [|c s IH]; intros v Hv; [done|]. apply IH. by apply vga_put_ok. Qed.

Lemma vga_put_char v c :
  c <> 10 -> vg_position v < 2000 ->
  vga_put v c = Vga (<[Z.to_nat (vg_position v) := attribute c]> (vg_cells v)) (vg_position v + 1).
Proof. intros Hc Hp. unfold vga_put. by rewrite (proj2 (Z.eqb_neq c 10)), (proj2 (Z.ltb_lt _ (80 * 25))) by lia. Qed.

Lemma vga_write_chars v s :
  vga_ok v -> Forall (fun c => c <> 10) s -> vg_position v + Z.of_nat (length s) <= 2000 ->
  let p := Z.to_nat (vg_position v) in
  vga_write v s = Vga (take p (vg_cells v) ++ (attribute <$> s) ++ drop (p + length s) (vg_cells v))
                      (vg_position v + Z.of_nat (length s)).
Proof.
  revert v. induction s as [|c s IH]; intros v Hok Hs Hp; cbn zeta.
  - cbn. rewrite Nat.add_0_r, Z.add_0_r, take_drop. by destruct v.
  - apply Forall_cons in Hs as [Hc Hs]. cbn [length] in Hp. destruct Hok as [Hl Hr].
    change (vga_write v (c :: s)) with (vga_write (vga_put v c) s). pose proof (vga_put_ok v c (conj Hl Hr)) as Hok'.
    rewrite vga_put_char in * by lia. rewrite (IH _ Hok') by (done || cbn [vg_position]; lia).
    cbn [vg_position vg_cells]. set (p := Z.to_nat (vg_position v)).
    replace (Z.to_nat (vg_position v + 1)) with (S p) by lia.
    assert (Hlt : (p < length (vg_cells v))%nat) by lia.
    rewrite take_S_insert, drop_insert_lt by lia. rewrite <-app_assoc. cbn [app length fmap list_fmap].
    replace (p + S (length s))%nat with (S p + length s)%nat by lia. f_equal. lia.
Qed.

(** The screen stays in bounds and drops every 2001st character.
    Whatever is printed, the cursor stays within the 2000 cells and the
    buffer keeps its size.  A screen's worth of characters without a newline
    fills the buffer in order; the next one is lost, the cursor alone goes
    back to the top. *)
Theorem vga_bounds_and_loss (v : vga) (s : list Z) (c : Z) :
  vga_ok v ->
  vga_ok (vga_write v s) /\
  (vg_position v = 0 -> length s = 2000%nat -> Forall (fun c => c <> 10) s -> c <> 10 ->
   vg_cells (vga_write v s) = attribute <$> s /\
   vga_write v (s ++ [c]) = Vga (attribute <$> s) 0).
Proof.
  intros Hv. split; [by apply vga_write_ok|]. intros Hp Hlen Hs Hc.
  pose proof (vga_write_chars v s Hv Hs) as Hw. cbn zeta in Hw. rewrite Hp, Hlen in Hw.
  specialize (Hw ltac:(lia)). destruct Hv as [Hl _].
  change (Z.to_nat 0) with 0%nat in Hw. rewrite drop_ge, app_nil_r in Hw by lia. cbn [take app] in Hw.
  split; [by rewrite Hw|]. unfold vga_write in *. rewrite foldl_app, Hw. cbn [foldl]. unfold vga_put.
  rewrite (proj2 (Z.eqb_neq c 10)) by done. reflexivity.
Qed.

Example vga_bounds_and_loss_witness :
  vga_write (Vga (replicate 2000 0) 0) (replicate 2000 65 ++ [66]) = Vga (attribute <$> replicate 2000 65) 0.
Proof.
  refine (proj2 (proj2 (vga_bounds_and_loss (Vga (replicate 2000 0) 0) (replicate 2000 65) 66 _) _ _ _ _)).
  - split; [apply length_replicate|split; discriminate].
  - reflexivity.
  - apply length_replicate.
  - apply Forall_replicate. discriminate.
  - discriminate.
Defined.
