(* ===== verification/Console.v ===== *)
(** * Consoles and serial lines

    kernel/drivers/console.c, the serial back ends of kernel/log.c and
    services/auditor/exporter.c, kernel/arch/riscv/console.c and
    early_debug.c, kernel/assert.c and the rest of kernel/hardware.c.  The
    devices are a 16550 (COM1, COM2, the RISC-V UART) and a PL011 (UART0,
    UART1); what their status registers read as is a stream of values, so a
    polling loop takes fuel.  A byte written while the transmitter has no
    room is lost. *)
From stdpp Require Import strings.
From S2P Require Import Prelude Auditor Log.

(** ** Transmitters

    What the writing loops need of a device: a status poll, which says
    whether there is room, and a data write. *)
Class Transmitter (D : Type) := {
  tx_poll : D -> bool * D;
  tx_put : Z -> D -> D;
  tx_sent : D -> list Z;
  tx_lost : D -> list Z
}.
(** Its promise, in the states [tx_ok]: a poll sends nothing, and a byte
    written right after a poll that saw room goes out. *)
Class TransmitterLaws (D : Type) `{Transmitter D} := {
  tx_ok : D -> Prop;
  tx_poll_keeps d : tx_ok d ->
    tx_ok (tx_poll d).2 /\ tx_sent (tx_poll d).2 = tx_sent d /\ tx_lost (tx_poll d).2 = tx_lost d;
  tx_put_sends c d : tx_ok d -> (tx_poll d).1 = true -> 0 <= c < 256 ->
    let d' := tx_put c (tx_poll d).2 in
    tx_ok d' /\ tx_sent d' = tx_sent d ++ [c] /\ tx_lost d' = tx_lost d
}.

Section Polled.
Context {D : Type} `{TransmitterLaws D}.

(** The spin loop and the write after it. *)
Fixpoint tx_putchar (fuel : nat) (c : Z) (d : D) : option D :=
  match fuel with
  | O => None
  | S fuel => let '(room, d) := tx_poll d in if room then Some (tx_put c d) else tx_putchar fuel c d
  end.
(** One byte after the other. *)
Fixpoint tx_write (fuel : nat) (bs : list Z) (d : D) : option D :=
  match bs with [] => Some d | c :: bs => d ← tx_putchar fuel (u8 c) d; tx_write fuel bs d end.

(** From every state, [fuel] polls see room at least once. *)
Definition responsive (fuel : nat) : Prop := forall c d, tx_ok d -> is_Some (tx_putchar fuel c d).

Definition tx_polls (k : nat) (d : D) : D := Nat.iter k (fun d => (tx_poll d).2) d.
Lemma tx_putchar_room fuel c d k :
  (k < fuel)%nat -> (tx_poll (tx_polls k d)).1 = true -> is_Some (tx_putchar fuel c d).
Proof.
  revert d k. induction fuel as [|fuel IH]; intros d k Hk Hr; [lia|]. cbn [tx_putchar].
  destruct (tx_poll d) as [[] d1] eqn:E; [by eexists|].
  destruct k as [|k]; [cbn in Hr; rewrite E in Hr; done|]. apply (IH d1 k); [lia|].
  unfold tx_polls in *. rewrite Nat.iter_succ_r, E in Hr. done.
Qed.

Lemma tx_putchar_sends fuel c d d' :
  tx_ok d -> 0 <= c < 256 -> tx_putchar fuel c d = Some d' ->
  tx_ok d' /\ tx_sent d' = tx_sent d ++ [c] /\ tx_lost d' = tx_lost d.
Proof.
  intros Hok Hc. revert d Hok. induction fuel as [|fuel IH]; intros d Hok Hp; [done|]. cbn [tx_putchar] in Hp.
  destruct (tx_poll_keeps d Hok) as (Hok1 & Hs & Hl). destruct (tx_poll d) as [[] d1] eqn:E; cbn [fst snd] in *.
  - injection Hp as <-. pose proof (tx_put_sends c d Hok) as Hput. rewrite E in Hput. by apply Hput.
  - destruct (IH d1 Hok1 Hp) as (? & -> & ->). by rewrite Hs, Hl.
Qed.

Lemma tx_write_safe fuel bs d d' :
  tx_ok d -> tx_write fuel bs d = Some d' ->
  tx_ok d' /\ tx_sent d' = tx_sent d ++ (u8 <$> bs) /\ tx_lost d' = tx_lost d.
Proof.
  revert d. induction bs as [|c bs IH]; intros d Hok Hw; cbn in Hw.
  - injection Hw as <-. by rewrite app_nil_r.
  - destruct (tx_putchar fuel (u8 c) d) as [d1|] eqn:Hp; [|done]. cbn in Hw.
    destruct (tx_putchar_sends fuel (u8 c) d d1 Hok (u8_range c) Hp) as (Hok1 & Hs & Hl).
    destruct (IH d1 Hok1 Hw) as (? & -> & ->). by rewrite Hs, <-app_assoc, Hl.
Qed.

Lemma tx_write_sends fuel bs d :
  responsive fuel -> tx_ok d ->
  exists d', tx_write fuel bs d = Some d' /\ tx_ok d' /\ tx_sent d' = tx_sent d ++ (u8 <$> bs) /\ tx_lost d' = tx_lost d.
Proof.
  intros Hr Hok. assert (Hw : is_Some (tx_write fuel bs d)).
  { revert d Hok. induction bs as [|c bs IH]; intros d Hok; [by eexists|]. cbn.
    destruct (Hr (u8 c) d Hok) as [d1 Hp]. rewrite Hp. cbn. apply IH. by eapply tx_putchar_sends; [| |exact Hp]; auto using u8_range. }
  destruct Hw as [d' Hw]. exists d'. split; [done|]. by eapply tx_write_safe.
Qed.

Lemma tx_write_app fuel bs bs' d : tx_write fuel (bs ++ bs') d = tx_write fuel bs d ≫= tx_write fuel bs'.
Proof.
  revert d. induction bs as [|c bs IH]; intros d; [done|]. cbn. destruct (tx_putchar fuel (u8 c) d); cbn; [apply IH|done].
Qed.
End Polled.

(** ** The 16550 *)

(** [u_polls] counts reads of the line status register, [u_room] is its
    last transmitter bit unless a byte was written since. *)
Record uart := Uart {
  u_ier : Z; u_fcr : Z; u_lcr : Z; u_mcr : Z; u_dll : Z; u_dlm : Z;
  u_polls : nat; u_room : bool; u_sent : list Z; u_lost : list Z
}.
Definition LSR_TX_EMPTY : Z := 32.
Definition dlab (u : uart) : bool := Z.testbit (u_lcr u) 7.

(** A write to the register at an offset: with DLAB set, offsets 0 and 1
    are the divisor. *)
Definition uart_write (off v : Z) (u : uart) : uart :=
  let '(Uart ier fcr lcr mcr dll dlm n room sent lost) := u in
  if off =? 0 then
    if dlab u then Uart ier fcr lcr mcr v dlm n room sent lost
    else if room then Uart ier fcr lcr mcr dll dlm n false (sent ++ [v]) lost
    else Uart ier fcr lcr mcr dll dlm n false sent (lost ++ [v])
  else if off =? 1 then
    if dlab u then Uart ier fcr lcr mcr dll v n room sent lost else Uart v fcr lcr mcr dll dlm n room sent lost
  else if off =? 2 then Uart ier v lcr mcr dll dlm n room sent lost
  else if off =? 3 then Uart ier fcr v mcr dll dlm n room sent lost
  else if off =? 4 then Uart ier fcr lcr v dll dlm n room sent lost
  else u.
Definition uart_writes (l : list (Z * Z)) (u : uart) : uart := foldl (fun u ov => uart_write ov.1 ov.2 u) u l.

(** [lsr n] is what the [n]th read of the line status register returns. *)
Definition uart_tx (lsr : nat -> Z) : Transmitter uart := {|
  tx_poll u :=
    let room := negb (Z.land (lsr (u_polls u)) LSR_TX_EMPTY =? 0) in
    (room, Uart (u_ier u) (u_fcr u) (u_lcr u) (u_mcr u) (u_dll u) (u_dlm u) (S (u_polls u)) room (u_sent u) (u_lost u));
  tx_put c u := uart_write 0 c u;
  tx_sent := u_sent;
  tx_lost := u_lost
|}.

Lemma uart_tx_laws lsr : @TransmitterLaws uart (uart_tx lsr).
Proof.
  refine (@Build_TransmitterLaws uart (uart_tx lsr) (fun u => dlab u = false) _ _).
  - intros u Hu. by destruct u.
  - intros c u Hu Hr _. destruct u as [ier fcr lcr mcr dll dlm n room sent lost]. unfold dlab in Hu. cbn [u_lcr] in Hu.
    cbn [tx_poll tx_put tx_sent tx_lost uart_tx fst snd u_polls u_ier u_fcr u_lcr u_mcr u_dll u_dlm u_sent u_lost] in *.
    rewrite Hr. unfold uart_write, dlab. cbn [u_lcr]. rewrite Hu. done.
Defined.

(** The device keeps accepting: among any [fuel] reads one has the bit set. *)
Definition ready_within (fuel : nat) (lsr : nat -> Z) : Prop :=
  forall n, exists k, (k < fuel)%nat /\ Z.testbit (lsr (n + k)%nat) 5 = true.

Lemma uart_responsive fuel lsr : ready_within fuel lsr -> @responsive _ _ (uart_tx_laws lsr) fuel.
Proof.
  intros Hr c u _. destruct (Hr (u_polls u)) as (k & Hk & Hb). apply (@tx_putchar_room _ (uart_tx lsr) fuel c u k Hk).
  cbn [tx_poll uart_tx fst]. change LSR_TX_EMPTY with (bit 5). rewrite land_bit, negb_involutive by lia.
  replace (u_polls _) with (u_polls u + k)%nat; [done|]. clear.
  induction k as [|k IH]; [cbn; lia|]. unfold tx_polls in *. rewrite Nat.iter_succ.
  set (q := Nat.iter k _ u) in *. cbn. lia.
Qed.

(** ** The PL011

    [p_time] counts accesses; before each, [drain] says how many bytes have
    left the transmit FIFO of [depth] bytes.  A write to a full FIFO is lost.
    [other] are the flag register's other bits. *)
Record pl011 := Pl011 { p_time : nat; p_fill : nat; p_sent : list Z; p_lost : list Z }.
Definition PL011_FR_TXFF : Z := 32.
Section Pl011.
Context (depth : nat) (drain : nat -> nat) (other : nat -> Z).
Definition p_now (p : pl011) : nat := (p_fill p - drain (p_time p))%nat.
Definition PL011_FR (p : pl011) : Z :=
  Z.lor (Z.ldiff (other (p_time p)) PL011_FR_TXFF) (if (depth <=? p_now p)%nat then PL011_FR_TXFF else 0).
Definition pl011_tx : Transmitter pl011 := {|
  tx_poll p := (Z.land (PL011_FR p) PL011_FR_TXFF =? 0, Pl011 (S (p_time p)) (p_now p) (p_sent p) (p_lost p));
  tx_put c p :=
    if (p_now p <? depth)%nat then Pl011 (S (p_time p)) (S (p_now p)) (p_sent p ++ [u8 c]) (p_lost p)
    else Pl011 (S (p_time p)) (p_now p) (p_sent p) (p_lost p ++ [u8 c]);
  tx_sent := p_sent;
  tx_lost := p_lost
|}.

Lemma PL011_FR_room p : (Z.land (PL011_FR p) PL011_FR_TXFF =? 0) = (p_now p <? depth)%nat.
Proof.
  unfold PL011_FR. change PL011_FR_TXFF with (bit 5). rewrite land_bit, Z.lor_spec, ldiff_bit_testbit by lia.
  destruct (Nat.leb_spec depth (p_now p)), (Nat.ltb_spec (p_now p) depth); try lia.
  - by rewrite orb_true_r.
  - by rewrite Z.testbit_0_l, orb_false_r, andb_false_r.
Qed.

Lemma pl011_tx_laws : @TransmitterLaws pl011 pl011_tx.
Proof.
  refine (@Build_TransmitterLaws pl011 pl011_tx (fun p => (p_fill p <= depth)%nat) _ _).
  - intros p Hp. cbn. unfold p_now. split; [lia|done].
  - intros c p Hp Hr Hc. cbn [tx_poll tx_put tx_sent tx_lost pl011_tx fst snd] in *. rewrite PL011_FR_room in Hr.
    apply Nat.ltb_lt in Hr. set (p' := Pl011 _ _ _ _). assert (Hn : (p_now p' < depth)%nat) by (unfold p_now, p'; cbn; lia).
    rewrite (proj2 (Nat.ltb_lt _ depth) Hn). cbn. rewrite u8_id by done. split; [lia|done].
Defined.

(** Of any [fuel] accesses in a row one finds a byte gone. *)
Definition drains_within (fuel : nat) : Prop := forall n, exists k, (k < fuel)%nat /\ (0 < drain (n + k))%nat.

Lemma pl011_polls k p :
  (p_fill p <= depth)%nat ->
  p_time (@tx_polls _ pl011_tx k p) = (p_time p + k)%nat /\ (p_fill (@tx_polls _ pl011_tx k p) <= depth)%nat.
Proof.
  intros Hp. induction k as [|k IH]; [cbn; lia|]. unfold tx_polls in *. rewrite Nat.iter_succ.
  set (q := Nat.iter k _ p) in *. destruct IH as [Ht IH]. cbn. unfold p_now. lia.
Qed.
Lemma pl011_responsive fuel : (0 < depth)%nat -> drains_within fuel -> @responsive _ _ pl011_tx_laws fuel.
Proof.
  intros Hd Hr c p Hp. destruct (Hr (p_time p)) as (k & Hk & Hb). apply (@tx_putchar_room _ pl011_tx fuel c p k Hk).
  cbn [tx_poll pl011_tx fst]. rewrite PL011_FR_room. apply Nat.ltb_lt.
  destruct (pl011_polls k p Hp) as [Ht Hf]. unfold p_now. rewrite Ht. lia.
Qed.
End Pl011.

(** ** Initialisation *)

(** console.c on x86, [init_serial] of log.c, [tlm_init] of exporter.c, and
    arch/riscv/console.c: register offsets and values in order. *)
Definition console_init_x86 : uart -> uart := uart_writes [(1, 0); (3, 128); (0, 3); (1, 0); (3, 3); (2, 199); (4, 11)].
Definition init_serial_x86 : uart -> uart := uart_writes [(1, 0); (3, 128); (0, 3); (1, 0); (3, 3); (2, 199); (4, 11)].
Definition tlm_init_x86 : uart -> uart := uart_writes [(1, 0); (3, 128); (0, 3); (1, 0); (3, 3); (2, 199); (4, 11)].
Definition riscv_console_init : uart -> uart := uart_writes [(1, 0); (3, 128); (0, 3); (1, 0); (3, 3); (2, 7); (4, 3)].
(** On ARM the device is usable from reset. *)
Definition init_serial_arm (p : pl011) : pl011 := p.
Definition tlm_init_arm (p : pl011) : pl011 := p.

(** The FIFO level a control value selects. *)
Definition fcr_threshold (fcr : Z) : Z :=
  let l := fcr / 64 mod 4 in if l =? 0 then 1 else if l =? 1 then 4 else if l =? 2 then 8 else 14.
(** Baud rate from the divisor, for the 1.8432 MHz clock. *)
Definition baud (u : uart) : Z := 115200 / (u_dll u + 256 * u_dlm u).

(** ** The C functions *)
Section Drivers.
Context (fuel : nat) (lsr : nat -> Z) (depth : nat) (drain : nat -> nat) (other : nat -> Z).

(** console.c and log.c on x86; exporter.c's loop is the same on COM2. *)
Definition console_putchar_x86 (c : Z) (u : uart) : option uart := @tx_putchar _ (uart_tx lsr) fuel (u8 c) u.
Definition serial_write_x86 (c : Z) (u : uart) : option uart := @tx_putchar _ (uart_tx lsr) fuel c u.
Definition tlm_write_bytes_x86 (bs : list Z) (u : uart) : option uart := @tx_write _ (uart_tx lsr) fuel bs u.
Definition riscv_console_putchar (c : Z) (u : uart) : option uart := @tx_putchar _ (uart_tx lsr) fuel (u8 c) u.
Definition riscv_console_write (str : list Z) (u : uart) : option uart := @tx_write _ (uart_tx lsr) fuel str u.
(** On ARM the log and the exporter poll the FIFO; the console does not. *)
Definition serial_write_arm (c : Z) (p : pl011) : option pl011 := @tx_putchar _ (pl011_tx depth drain other) fuel c p.
Definition tlm_write_bytes_arm (bs : list Z) (p : pl011) : option pl011 := @tx_write _ (pl011_tx depth drain other) fuel bs p.
Definition console_putchar_arm (c : Z) (p : pl011) : option pl011 := Some (@tx_put _ (pl011_tx depth drain other) c p).

(** The loops over a string, for the [console_putchar] of an architecture.
    [None] as an argument is NULL; a read past the object is [None]. *)
Section Strings.
Context {D : Type} (console_putchar : Z -> D -> option D).
Fixpoint puts_loop (str : list Z) (d : D) : option D :=
  match str with
  | [] => None
  | c :: str => if c =? 0 then Some d else d ← console_putchar c d; puts_loop str d
  end.
Definition console_puts (str : option (list Z)) (d : D) : option D :=
  match str with None => Some d | Some str => puts_loop str d end.
Fixpoint write_loop (len : nat) (buf : list Z) (d : D) : option D :=
  match len, buf with
  | O, _ => Some d
  | S _, [] => None
  | S len, c :: buf => d ← console_putchar c d; write_loop len buf d
  end.
Definition console_write (buf : option (list Z)) (len : nat) (d : D) : option D :=
  match buf with None => Some d | Some buf => write_loop len buf d end.
End Strings.

(** *** The log's character *)

(** [initialized], the serial device and, on x86, the text buffer. *)
Record kout (D : Type) := Kout { k_init : bool; k_dev : D; k_vga : vga }.
Arguments Kout {D}. Arguments k_init {D}. Arguments k_dev {D}. Arguments k_vga {D}.
Definition kputchar_x86 (c : Z) (k : kout uart) : option (kout uart) :=
  let u := if k_init k then k_dev k else init_serial_x86 (k_dev k) in
  u ← serial_write_x86 (u8 c) u;
  Some (Kout true u (vga_put (k_vga k) c)).
Definition kputchar_arm (c : Z) (k : kout pl011) : option (kout pl011) :=
  let p := if k_init k then k_dev k else init_serial_arm (k_dev k) in
  p ← serial_write_arm (u8 c) p;
  Some (Kout true p (k_vga k)).
Fixpoint kputs_x86 (s : list Z) (k : kout uart) : option (kout uart) :=
  match s with [] => Some k | c :: s => k ← kputchar_x86 c k; kputs_x86 s k end.
Fixpoint kputs_arm (s : list Z) (k : kout pl011) : option (kout pl011) :=
  match s with [] => Some k | c :: s => k ← kputchar_arm c k; kputs_arm s k end.

(** *** Early debug output on RISC-V *)
Definition early_uart_putc (c : Z) (u : uart) : option uart := @tx_putchar _ (uart_tx lsr) fuel (u8 c) u.
Definition early_debug_print (str : list Z) (u : uart) : option uart := puts_loop early_uart_putc str u.
Definition hex_chars : list Z := chars "0123456789ABCDEF".
(** The loop from 15 down to 0 over [buffer] and [val]. *)
Definition hex_step (bv : list Z * Z) (i : nat) : list Z * Z :=
  (<[(i + 2)%nat := hex_chars !!! Z.to_nat (Z.land bv.2 15)]> bv.1, Z.shiftr bv.2 4).
Definition hex_buffer (val : Z) : list Z :=
  let b := (foldl hex_step (chars "0x" ++ replicate 17 0, val) (rev (seq 0 16))).1 in <[18%nat := 0]> b.
Definition early_debug_print_hex (val : Z) (u : uart) : option uart := early_debug_print (hex_buffer val) u.
Definition crlf : list Z := [13; 10].
Definition riscv_early_boot_debug (u : uart) : option uart :=
  u ← early_debug_print (crlf ++ chars "[RISCV] LughOS Boot Debug" ++ crlf ++ [0]) u;
  u ← early_debug_print (chars "[RISCV] Entering kernel main function" ++ crlf ++ [0]) u;
  u ← early_debug_print (chars "[RISCV] Testing UART access at 0x10000000: " ++ [0]) u;
  u ← early_debug_print_hex 268435456 u;
  early_debug_print (crlf ++ [0]) u.
End Drivers.
Arguments Kout {D}. Arguments k_init {D}. Arguments k_dev {D}. Arguments k_vga {D}.

(** ** Assertions and the rest of hardware.c *)

Inductive ending := Returns | Halts.
(** The lines logged, and whether the call returns; [None] for a line no
    format produces.  [production] is the build's PRODUCTION. *)
Definition assert_impl {AM : ArgMem} (production cond : bool) (log_ticks : Z) (message file : option (list Z)) (line : Z)
    : option (list (list Z) * ending) :=
  if cond then Some ([], Returns)
  else
    l1 ← log_message LOG_FATAL log_ticks (chars "ASSERTION FAILED: %s at %s:%d" ++ [10]) [VStr message; VStr file; VInt line];
    if production then
      l2 ← log_message LOG_FATAL log_ticks (chars "System assertion failure: initiating safe recovery" ++ [10]) [];
      Some ([l1; l2], Returns)
    else
      l2 ← log_message LOG_FATAL log_ticks (chars "System halted for debugging" ++ [10]) [];
      Some ([l1; l2], Halts).

(** Off x86 the port instructions trap. *)
Definition outb_other (port val : Z) : option unit := None.
Definition inb_other (port : Z) : option Z := None.
Definition hw_detect {AM : ArgMem} (log_ticks : Z) : option (list Z * Z) :=
  l ← log_message LOG_INFO log_ticks (chars "Performing hardware detection..." ++ [10]) []; Some (l, 1).

(** ** Initialisation leaves a usable line *)

(** What an initialised 16550 looks like: 8 data bits, no parity, one stop
    bit, the data register at offset 0, divisor 3. *)
Definition line_8n1 (u : uart) : Prop := u_lcr u = 3 /\ dlab u = false /\ baud u = 38400.

Lemma uart_writes_cons ov l u : uart_writes (ov :: l) u = uart_writes l (uart_write ov.1 ov.2 u).
Proof. done. Qed.
(** The sequence all drivers share: the first write finds DLAB as it was. *)
Lemma init_line fcr mcr u :
  let u' := uart_writes [(1, 0); (3, 128); (0, 3); (1, 0); (3, 3); (2, fcr); (4, mcr)] u in
  line_8n1 u' /\ u_ier u' = (if dlab u then u_ier u else 0) /\ u_fcr u' = fcr /\
  u_sent u' = u_sent u /\ u_lost u' = u_lost u.
Proof.
  cbv zeta. rewrite uart_writes_cons. cbn [fst snd].
  assert (H1 : u_ier (uart_write 1 0 u) = (if dlab u then u_ier u else 0) /\
    u_sent (uart_write 1 0 u) = u_sent u /\ u_lost (uart_write 1 0 u) = u_lost u).
  { destruct u as [ier f lcr m dll dlm n room sent lost]. unfold uart_write. cbn [Z.eqb Pos.eqb].
    by destruct (dlab _). }
  destruct H1 as (<- & <- & <-). destruct (uart_write 1 0 u) as [ier f lcr m dll dlm n room sent lost].
  unfold line_8n1. repeat apply conj; reflexivity.
Qed.

(** Every console initialisation, from any state of the chip, leaves the
    line at 38400 baud, 8N1, with offset 0 the data register, and sends
    nothing.  Interrupts are off afterwards exactly when they were off or
    DLAB was clear: with DLAB left set the write meant for the interrupt
    enables goes to the divisor.  The receive FIFO interrupts at 14 bytes on
    x86; on RISC-V the value written selects one byte. *)
Theorem uart_init_line (u : uart) (init : uart -> uart) :
  In init [console_init_x86; init_serial_x86; tlm_init_x86; riscv_console_init] ->
  line_8n1 (init u) /\ u_sent (init u) = u_sent u /\ u_lost (init u) = u_lost u /\
  (u_ier (init u) = 0 <-> u_ier u = 0 \/ dlab u = false) /\
  (fcr_threshold (u_fcr (console_init_x86 u)) = 14 /\ fcr_threshold (u_fcr (riscv_console_init u)) = 1).
Proof.
  intros Hin. assert (Hi : exists fcr mcr, init = uart_writes [(1, 0); (3, 128); (0, 3); (1, 0); (3, 3); (2, fcr); (4, mcr)])
    by (destruct Hin as [<-|[<-|[<-|[<-|[]]]]]; by eexists _, _).
  destruct Hi as (fcr & mcr & ->). destruct (init_line fcr mcr u) as (Hl & Hi & _ & Hs & Hlo).
  unfold console_init_x86, riscv_console_init.
  destruct (init_line 199 11 u) as (_ & _ & -> & _), (init_line 7 3 u) as (_ & _ & -> & _).
  rewrite Hi. split_and!; try done. destruct (dlab u); (split; [by auto|by intros [?|?]]).
Qed.

(** ** What is written is sent *)
Section Sent.
Context (fuel : nat) (lsr : nat -> Z) (Hready : ready_within fuel lsr).

Lemma tlm_x86_sends bs u :
  dlab u = false ->
  exists u', tlm_write_bytes_x86 fuel lsr bs u = Some u' /\ dlab u' = false /\
    u_sent u' = u_sent u ++ (u8 <$> bs) /\ u_lost u' = u_lost u.
Proof. exact (@tx_write_sends _ _ (uart_tx_laws lsr) fuel bs u (uart_responsive fuel lsr Hready)). Qed.

Lemma putchar_x86_sends c u :
  dlab u = false ->
  exists u', console_putchar_x86 fuel lsr c u = Some u' /\ dlab u' = false /\
    u_sent u' = u_sent u ++ [u8 c] /\ u_lost u' = u_lost u.
Proof.
  intros Hu. destruct (uart_responsive fuel lsr Hready (u8 c) u Hu) as [u' Hp]. exists u'. split; [done|].
  exact (@tx_putchar_sends _ _ (uart_tx_laws lsr) fuel (u8 c) u u' Hu (u8_range c) Hp).
Qed.

Lemma puts_x86_sends s rest u :
  dlab u = false -> Forall (fun c => c <> 0) s ->
  exists u', puts_loop (console_putchar_x86 fuel lsr) (s ++ 0 :: rest) u = Some u' /\ dlab u' = false /\
    u_sent u' = u_sent u ++ (u8 <$> s) /\ u_lost u' = u_lost u.
Proof.
  intros Hu Hs. revert u Hu. induction Hs as [|c s Hc _ IH]; intros u Hu.
  - exists u. cbn. by rewrite app_nil_r.
  - cbn [app puts_loop]. rewrite (proj2 (Z.eqb_neq c 0) Hc).
    destruct (putchar_x86_sends c u Hu) as (u1 & -> & Hu1 & Hs1 & Hl1). cbn [mbind option_bind].
    destruct (IH u1 Hu1) as (u2 & Hw & Hu2 & Hs2 & Hl2). exists u2. rewrite Hw, Hs2, Hs1, Hl2, Hl1, <-app_assoc. done.
Qed.

Lemma write_x86_sends len buf u :
  dlab u = false -> (len <= length buf)%nat ->
  exists u', write_loop (console_putchar_x86 fuel lsr) len buf u = Some u' /\ dlab u' = false /\
    u_sent u' = u_sent u ++ (u8 <$> take len buf) /\ u_lost u' = u_lost u.
Proof.
  revert buf u. induction len as [|len IH]; intros buf u Hu Hlen.
  - exists u. cbn. by rewrite app_nil_r.
  - destruct buf as [|c buf]; [cbn in Hlen; lia|]. cbn [write_loop take fmap list_fmap].
    destruct (putchar_x86_sends c u Hu) as (u1 & -> & Hu1 & Hs1 & Hl1). cbn [mbind option_bind].
    destruct (IH buf u1 Hu1 ltac:(cbn in Hlen; lia)) as (u2 & Hw & Hu2 & Hs2 & Hl2).
    exists u2. rewrite Hw, Hs2, Hs1, Hl2, Hl1, <-app_assoc. done.
Qed.

Lemma kputs_x86_sends s k :
  (k_init k = true -> dlab (k_dev k) = false) ->
  exists k', kputs_x86 fuel lsr s k = Some k' /\ (k_init k' = true -> dlab (k_dev k') = false) /\
    u_sent (k_dev k') = u_sent (k_dev k) ++ (u8 <$> s) /\ u_lost (k_dev k') = u_lost (k_dev k) /\
    k_vga k' = vga_write (k_vga k) s.
Proof.
  revert k. induction s as [|c s IH]; intros k Hk.
  - exists k. cbn. by rewrite app_nil_r.
  - cbn [kputs_x86]. unfold kputchar_x86. change (serial_write_x86 fuel lsr (u8 c)) with (console_putchar_x86 fuel lsr c). set (u := if k_init k then _ else _).
    assert (Hu : dlab u = false /\ u_sent u = u_sent (k_dev k) /\ u_lost u = u_lost (k_dev k)).
    { unfold u. destruct (k_init k); [by auto|]. by destruct (init_line 199 11 (k_dev k)) as ((_ & ? & _) & _ & _ & ? & ?). }
    clearbody u. destruct Hu as (Hu & Hs & Hl).
    destruct (putchar_x86_sends c u Hu) as (u1 & -> & Hu1 & Hs1 & Hl1). cbn [mbind option_bind].
    destruct (IH (Kout true u1 (vga_put (k_vga k) c))) as (k2 & Hw & Hk2 & Hs2 & Hl2 & Hv2); [done|].
    exists k2. rewrite Hw, Hs2, Hl2, Hv2. cbn [k_dev k_vga]. by rewrite Hs1, Hl1, Hs, Hl, <-app_assoc.
Qed.
End Sent.

(** [log_message] with its output. *)
Definition log_out {AM : ArgMem} (fuel : nat) (lsr : nat -> Z) (level ticks : Z) (format : list Z) (args : list va) (k : kout uart) : option (kout uart) :=
  text ← log_message level ticks format args; kputs_x86 fuel lsr text k.

(** A log line reaches the serial line and the screen.  On a device that
    raises its transmitter bit at least once in [fuel] reads, whatever
    [log_message] formats is sent byte for byte, in order and without loss,
    whether or not the port had been initialised before, and the same
    characters go through the text buffer; the polling ends. *)
Theorem log_line_is_sent {AM : ArgMem} (fuel : nat) (lsr : nat -> Z) (level ticks : Z) (format text : list Z) (args : list va) (k : kout uart) :
  ready_within fuel lsr -> log_message level ticks format args = Some text ->
  (k_init k = true -> dlab (k_dev k) = false) ->
  exists k', log_out fuel lsr level ticks format args k = Some k' /\
    u_sent (k_dev k') = u_sent (k_dev k) ++ (u8 <$> text) /\ u_lost (k_dev k') = u_lost (k_dev k) /\
    k_vga k' = vga_write (k_vga k) text /\ (k_init k' = true -> dlab (k_dev k') = false).
Proof.
  intros Hr Ht Hk. unfold log_out. rewrite Ht. cbn [mbind option_bind].
  destruct (kputs_x86_sends fuel lsr Hr text k Hk) as (k' & ? & ? & ? & ? & ?). by exists k'.
Qed.

(** A chip found with DLAB set, busy for two of every three reads. *)
Definition cold_uart : uart := Uart 15 0 131 0 1 0 0 false [] [].
Definition slow_lsr (n : nat) : Z := if (n mod 3 =? 2)%nat then 96 else 1.
Lemma slow_ready : ready_within 3 slow_lsr.
Proof.
  intros n. exists (2 - n mod 3)%nat. pose proof (Nat.mod_upper_bound n 3 ltac:(lia)). split; [lia|].
  unfold slow_lsr. assert (Hm : ((n + (2 - n mod 3)) mod 3 = 2)%nat); [|by rewrite Hm].
  rewrite (Nat.div_mod_eq n 3) at 1. replace (3 * (n / 3) + n mod 3 + (2 - n mod 3))%nat with (2 + (n / 3) * 3)%nat by lia.
  by rewrite Nat.Div0.mod_add.
Qed.

Example log_line_is_sent_witness :
  exists k', log_out (AM := demo_args) 3 slow_lsr LOG_INFO 42 (chars "up %u") [VInt 7] (Kout false cold_uart (Vga (replicate 2000 0) 0)) = Some k' /\
    u_sent (k_dev k') = chars "[0000002a] up 7" ++ [10].
Proof.
  destruct (log_line_is_sent (AM := demo_args) 3 slow_lsr LOG_INFO 42 (chars "up %u") (chars "[0000002a] up 7" ++ [10]) [VInt 7]
    (Kout false cold_uart (Vga (replicate 2000 0) 0)) slow_ready eq_refl ltac:(discriminate)) as (k' & Hk & Hs & _).
  exact (ex_intro _ k' (conj Hk Hs)).
Defined.

(** Console strings.  [console_puts] sends the characters before the
    terminator and [console_write] exactly [len] of them, in order and
    without loss; NULL sends nothing; a string without a terminator, or a
    buffer shorter than [len], is read past its end. *)
Theorem console_strings (fuel : nat) (lsr : nat -> Z) (s rest : list Z) (len : nat) (u : uart) :
  ready_within fuel lsr -> dlab u = false -> Forall (fun c => c <> 0) s -> (len <= length s)%nat ->
  let putchar := console_putchar_x86 fuel lsr in
  (exists u', console_puts putchar (Some (s ++ 0 :: rest)) u = Some u' /\ u_sent u' = u_sent u ++ (u8 <$> s) /\ u_lost u' = u_lost u) /\
  (exists u', console_write putchar (Some s) len u = Some u' /\ u_sent u' = u_sent u ++ (u8 <$> take len s) /\ u_lost u' = u_lost u) /\
  console_puts putchar None u = Some u /\ console_write putchar None len u = Some u /\
  console_puts putchar (Some s) u = None /\ console_write putchar (Some s) (S (length s)) u = None.
Proof.
  intros Hr Hu Hs Hlen putchar. split_and!; [| |done|done| |].
  - destruct (puts_x86_sends fuel lsr Hr s rest u Hu Hs) as (u' & ? & _ & ? & ?). by exists u'.
  - destruct (write_x86_sends fuel lsr Hr len s u Hu Hlen) as (u' & ? & _ & ? & ?). by exists u'.
  - cbn. clear Hlen. revert u Hu. induction Hs as [|c s Hc _ IH]; intros u Hu; [done|].
    cbn [puts_loop]. rewrite (proj2 (Z.eqb_neq c 0) Hc). destruct (putchar c u) as [u1|] eqn:E; [|done]. cbn [mbind option_bind].
    destruct (putchar_x86_sends fuel lsr Hr c u Hu) as (u2 & Hp & Hu2 & _). apply IH. unfold putchar in E. congruence.
  - cbn [console_write]. clear Hlen Hs. revert u Hu. induction s as [|c s IH]; intros u Hu; [done|].
    cbn [length write_loop]. destruct (putchar c u) as [u1|] eqn:E; [|done]. cbn [mbind option_bind].
    destruct (putchar_x86_sends fuel lsr Hr c u Hu) as (u2 & Hp & Hu2 & _). apply IH. unfold putchar in E. congruence.
Qed.

Example console_strings_witness :
  exists u', console_puts (console_putchar_x86 3 slow_lsr) (Some (chars "ok" ++ 0 :: [7])) (console_init_x86 cold_uart) = Some u' /\
    u_sent u' = chars "ok".
Proof.
  destruct (console_strings 3 slow_lsr (chars "ok") [7] 1 (console_init_x86 cold_uart) slow_ready eq_refl
    ltac:(repeat constructor; discriminate) ltac:(cbn; lia)) as ((u' & Hp & Hs & _) & _).
  exact (ex_intro _ u' (conj Hp Hs)).
Defined.

(** ** Telemetry end to end *)

(** What the exporter sends for a sequence of records, one call each. *)
Fixpoint send_records {D} (tlm_write_bytes : list Z -> D -> option D) (rs : list auditor_record_t) (d : D) : option D :=
  match rs with [] => Some d | r :: rs => d ← tlm_write_bytes (record_bytes r) d; send_records tlm_write_bytes rs d end.

Lemma send_records_concat {D} `{Transmitter D} fuel rs (d : D) :
  send_records (tx_write fuel) rs d = tx_write fuel (concat (record_bytes <$> rs)) d.
Proof.
  revert d. induction rs as [|r rs IH]; intros d; [done|]. cbn [send_records fmap list_fmap concat].
  rewrite tx_write_app. by destruct (tx_write fuel (record_bytes r) d); [apply IH|].
Qed.

Definition sendable (r : auditor_record_t) : Prop := record_wf r /\ Forall is_byte (ar_payload_hash r).
Lemma u8_bytes bs : Forall is_byte bs -> u8 <$> bs = bs.
Proof. induction 1 as [|b bs Hb _ IH]; [done|]. cbn. by rewrite u8_id, IH. Qed.
Lemma stream_bytes rs : Forall sendable rs -> Forall is_byte (concat (record_bytes <$> rs)).
Proof. induction 1 as [|r rs [_ Hr] _ IH]; [done|]. cbn. apply Forall_app_2; [by apply record_bytes_bytes|done]. Qed.

(** Any transmitter that accepts bytes carries the stream to the decoder. *)
Lemma records_arrive {D} `{TransmitterLaws D} fuel rs (d : D) :
  responsive fuel -> tx_ok d -> Forall sendable rs -> tx_sent d = [] ->
  exists d', send_records (tx_write fuel) rs d = Some d' /\ tx_lost d' = tx_lost d /\
    Host.parse_record <$> Host.tail_records (tx_sent d') = Some <$> rs.
Proof.
  intros Hr Hok Hrs Hs. rewrite send_records_concat.
  destruct (tx_write_sends fuel (concat (record_bytes <$> rs)) d Hr Hok) as (d' & Hw & _ & Hs' & Hl).
  exists d'. split; [done|]. split; [done|]. rewrite Hs', Hs, u8_bytes by by apply stream_bytes.
  apply decode_records. eapply Forall_impl; [exact Hrs|by intros r []].
Qed.

(** C14: Telemetry crosses the wire.  From any state of the port, after
    [tlm_init], the records sent one by one leave the port without loss, and
    the host decoder run on the captured bytes returns the same records in
    the same order: over COM2 when the transmitter bit comes up within [fuel]
    reads, and over the PL011 when its FIFO gives up a byte within [fuel]
    accesses. *)
Theorem telemetry_crosses_the_wire (fuel : nat) (lsr : nat -> Z) (depth : nat) (room : nat -> nat) (other : nat -> Z)
    (rs : list auditor_record_t) (u : uart) (p : pl011) :
  Forall sendable rs ->
  (ready_within fuel lsr -> u_sent u = [] ->
   exists u', send_records (tlm_write_bytes_x86 fuel lsr) rs (tlm_init_x86 u) = Some u' /\ u_lost u' = u_lost u /\
     Host.parse_record <$> Host.tail_records (u_sent u') = Some <$> rs) /\
  ((0 < depth)%nat -> drains_within room fuel -> (p_fill p <= depth)%nat -> p_sent p = [] ->
   exists p', send_records (tlm_write_bytes_arm fuel depth room other) rs (tlm_init_arm p) = Some p' /\ p_lost p' = p_lost p /\
     Host.parse_record <$> Host.tail_records (p_sent p') = Some <$> rs).
Proof.
  intros Hrs. split.
  - intros Hr Hs. destruct (init_line 199 11 u) as ((_ & Hu & _) & _ & _ & Hs' & <-).
    apply (@records_arrive _ _ (uart_tx_laws lsr) fuel rs (tlm_init_x86 u)); [by apply uart_responsive|exact Hu|done|].
    etransitivity; [exact Hs'|done].
  - intros Hd Hr Hp Hs. by apply (@records_arrive _ _ (pl011_tx_laws depth room other) fuel rs p); [apply pl011_responsive|..].
Qed.

Definition slow_room (n : nat) : nat := if (n mod 3 =? 2)%nat then 1 else 0.
Lemma slow_drains : drains_within slow_room 3.
Proof.
  intros n. destruct (slow_ready n) as (k & Hk & Hb). exists k. split; [done|].
  unfold slow_lsr, slow_room in *. by destruct (_ =? 2)%nat; [lia|].
Qed.
Definition beats : list auditor_record_t := [heartbeat_record auditor_demo; overflow_record auditor_demo 3].
Lemma beats_sendable : Forall sendable beats.
Proof.
  repeat constructor; try (vm_compute; (done || lia)); repeat (apply Forall_cons; split); try apply Forall_nil; vm_compute; done.
Qed.

Example telemetry_crosses_the_wire_witness :
  exists u' p', send_records (tlm_write_bytes_x86 3 slow_lsr) beats (tlm_init_x86 cold_uart) = Some u' /\
    Host.parse_record <$> Host.tail_records (u_sent u') = Some <$> beats /\
    send_records (tlm_write_bytes_arm 3 1 slow_room slow_lsr) beats (Pl011 0 0 [] []) = Some p' /\
    Host.parse_record <$> Host.tail_records (p_sent p') = Some <$> beats.
Proof.
  destruct (telemetry_crosses_the_wire 3 slow_lsr 1 slow_room slow_lsr beats cold_uart (Pl011 0 0 [] []) beats_sendable) as [Hx Ha].
  destruct (Hx slow_ready eq_refl) as (u' & Hu & _ & Hhx).
  destruct (Ha ltac:(lia) slow_drains ltac:(cbn; lia) eq_refl) as (p' & Hp & _ & Hha).
  exact (ex_intro _ u' (ex_intro _ p' (conj Hu (conj Hhx (conj Hp Hha))))).
Defined.

(** ** The ARM console does not wait *)

Section ArmLoss.
Context (fuel depth : nat) (drain : nat -> nat) (other : nat -> Z).
Definition arm_putchar : Z -> pl011 -> option pl011 := console_putchar_arm depth drain other.

Lemma arm_putchar_stuck c p :
  drain (p_time p) = 0%nat ->
  arm_putchar c p = Some (if (p_fill p <? depth)%nat then Pl011 (S (p_time p)) (S (p_fill p)) (p_sent p ++ [u8 c]) (p_lost p)
    else Pl011 (S (p_time p)) (p_fill p) (p_sent p) (p_lost p ++ [u8 c])).
Proof. intros H0. unfold arm_putchar, console_putchar_arm. cbn. unfold p_now. by rewrite H0, Nat.sub_0_r. Qed.

Lemma arm_console_fill buf p :
  (p_fill p <= depth)%nat -> (forall k, (k < length buf)%nat -> drain (p_time p + k)%nat = 0%nat) ->
  exists p', console_write arm_putchar (Some buf) (length buf) p = Some p' /\ (p_fill p' <= depth)%nat /\
    p_sent p' = p_sent p ++ (u8 <$> take (depth - p_fill p) buf) /\
    p_lost p' = p_lost p ++ (u8 <$> drop (depth - p_fill p) buf).
Proof.
  cbn [console_write]. revert p. induction buf as [|c buf IH]; intros p Hp Hd.
  - exists p. cbn. by rewrite take_nil, drop_nil, !app_nil_r.
  - cbn [length write_loop]. pose proof (Hd 0%nat ltac:(cbn; lia)) as H0. rewrite Nat.add_0_r in H0.
    rewrite arm_putchar_stuck by done. cbn [mbind option_bind]. set (p1 := if (_ <? _)%nat then _ else _).
    assert (H1 : p_time p1 = S (p_time p)) by (unfold p1; by case_match).
    destruct (IH p1) as (p2 & Hw & Hf & Hs & Hl).
    { unfold p1. destruct (Nat.ltb_spec (p_fill p) depth); cbn; lia. }
    { intros k Hk. rewrite H1. replace (S (p_time p) + k)%nat with (p_time p + S k)%nat by lia. apply Hd. cbn. lia. }
    exists p2. do 2 (split; [done|]). rewrite Hs, Hl. unfold p1. destruct (Nat.ltb_spec (p_fill p) depth); cbn [p_fill p_sent p_lost].
    + replace (depth - p_fill p)%nat with (S (depth - S (p_fill p)))%nat by lia. cbn. by rewrite <-app_assoc.
    + replace (depth - p_fill p)%nat with 0%nat by lia. cbn. by rewrite <-app_assoc.
Qed.

(** The log's character loop is the polling one. *)
Lemma kputs_arm_writes s k :
  kputs_arm fuel depth drain other s k =
  (p ← @tx_write _ (pl011_tx depth drain other) fuel s (k_dev k);
   Some (Kout (match s with [] => k_init k | _ => true end) p (k_vga k))).
Proof.
  revert k. induction s as [|c s IH]; intros [i p v]; [done|]. cbn [kputs_arm tx_write]. unfold kputchar_arm, serial_write_arm, init_serial_arm.
  cbn [k_init k_dev k_vga]. replace (if i then p else p) with p by (by destruct i). destruct (tx_putchar fuel (u8 c) p) as [p1|]; [|done]. cbn [mbind option_bind]. rewrite IH.
  cbn [k_dev k_init k_vga]. destruct (tx_write _ _ _); [|done]. by destruct s.
Qed.

(** C39: The ARM console drops what the FIFO has no room for, and the log on
    the same UART does not.  While no byte leaves UART0's FIFO,
    [console_write] gets only as many bytes out as the FIFO had free and
    loses every later one without noticing.  The log's [kputchar], which
    polls the flag register of that UART first, returns from a line, as long
    as some byte leaves within every [fuel] accesses, with every byte of it
    sent and none lost, also right after the console has filled the FIFO; so
    does the exporter's loop, on UART1. *)
Theorem arm_console_drops (buf text bs : list Z) (k : kout pl011) (uart1 : pl011) :
  (p_fill (k_dev k) <= depth)%nat -> (p_fill uart1 <= depth)%nat ->
  let console := console_write arm_putchar (Some buf) (length buf) in
  ((forall n, (n < length buf)%nat -> drain (p_time (k_dev k) + n)%nat = 0%nat) ->
   exists q, console (k_dev k) = Some q /\ (p_fill q <= depth)%nat /\
     p_sent q = p_sent (k_dev k) ++ (u8 <$> take (depth - p_fill (k_dev k)) buf) /\
     p_lost q = p_lost (k_dev k) ++ (u8 <$> drop (depth - p_fill (k_dev k)) buf)) /\
  ((0 < depth)%nat -> drains_within drain fuel ->
   (exists k', kputs_arm fuel depth drain other text k = Some k' /\
      p_sent (k_dev k') = p_sent (k_dev k) ++ (u8 <$> text) /\ p_lost (k_dev k') = p_lost (k_dev k) /\
      k_vga k' = k_vga k) /\
   (exists uart1', tlm_write_bytes_arm fuel depth drain other bs uart1 = Some uart1' /\
      p_sent uart1' = p_sent uart1 ++ (u8 <$> bs) /\ p_lost uart1' = p_lost uart1)).
Proof.
  intros Hk Hu console. split; [by apply arm_console_fill|]. intros Hd Hr.
  pose proof (pl011_responsive depth drain other fuel Hd Hr) as Hres. split.
  - destruct (@tx_write_sends _ _ (pl011_tx_laws depth drain other) fuel text (k_dev k) Hres Hk) as (p' & Hw & _ & Hs & Hl).
    eexists. rewrite kputs_arm_writes, Hw. split; [reflexivity|]. by split_and!.
  - destruct (@tx_write_sends _ _ (pl011_tx_laws depth drain other) fuel bs uart1 Hres Hu) as (p' & Hw & _ & Hs & Hl).
    by exists p'.
Qed.
End ArmLoss.

Example arm_console_drops_witness :
  (exists q, console_write (arm_putchar 1 (fun _ => 0%nat) (fun _ => 0)) (Some (chars "hi!")) 3 (Pl011 0 0 [] []) = Some q /\
    p_sent q = chars "h" /\ p_lost q = chars "i!") /\
  (exists k', kputs_arm 3 1 slow_room slow_lsr (chars "hi!") (Kout false (Pl011 0 1 [] []) (Vga [] 0)) = Some k' /\
    p_sent (k_dev k') = chars "hi!" /\ p_lost (k_dev k') = []).
Proof.
  split.
  - destruct (arm_console_drops 1 1 (fun _ => 0%nat) (fun _ => 0) (chars "hi!") [] [] (Kout false (Pl011 0 0 [] []) (Vga [] 0))
      (Pl011 0 0 [] []) ltac:(cbn; lia) ltac:(cbn; lia)) as [H _].
    destruct H as (q & Hw & _ & Hs & Hl); [done|]. exact (ex_intro _ q (conj Hw (conj Hs Hl))).
  - destruct (arm_console_drops 3 1 slow_room slow_lsr [] (chars "hi!") [] (Kout false (Pl011 0 1 [] []) (Vga [] 0))
      (Pl011 0 0 [] []) ltac:(cbn; lia) ltac:(cbn; lia)) as [_ H].
    destruct (proj1 (H ltac:(lia) slow_drains)) as (k' & Hw & Hs & Hl & _).
    exact (ex_intro _ k' (conj Hw (conj Hs Hl))).
Defined.

(** ** Early debug output *)

Lemma hex_chars_digit v : hex_chars !!! Z.to_nat (Z.land v 15) = hex_digit 65 (Z.land v 15).
Proof.
  change 15 with (2 ^ 4 - 1). rewrite land_ones_mod by lia. change (2 ^ 4) with 16. pose proof (Z.mod_pos_bound v 16 ltac:(lia)) as Hd.
  rewrite <-(Z2Nat.id (v mod 16)) at 2 by lia. assert (Hk : (Z.to_nat (v mod 16) < 16)%nat) by lia. revert Hk.
  generalize (Z.to_nat (v mod 16)). intros k Hk. repeat (destruct k as [|k]; [reflexivity|]). lia.
Qed.

Lemma hex_buffer_loop val : hex_buffer val = chars "0x" ++ hex_loop 16 65 val [] ++ [0].
Proof.
  unfold hex_buffer.
  assert (Hstep : forall l bv, foldl hex_step bv l =
    foldl (fun bv i => (<[(i + 2)%nat := hex_digit 65 (Z.land bv.2 15)]> bv.1, Z.shiftr bv.2 4)) bv l).
  { induction l as [|i l IH]; intros bv; [done|]. cbn [foldl]. rewrite <-IH. unfold hex_step at 2. by rewrite hex_chars_digit. }
  rewrite Hstep. reflexivity.
Qed.

Lemma hex_loop_printable k val out :
  Forall (fun c => 0 < c < 256) out -> Forall (fun c => 0 < c < 256) (hex_loop k 65 val out).
Proof.
  revert val out. induction k as [|k IH]; intros val out Ho; [done|]. cbn [hex_loop]. apply IH. constructor; [|done].
  change 15 with (2 ^ 4 - 1). rewrite land_ones_mod by lia. change (2 ^ 4) with 16. pose proof (Z.mod_pos_bound val 16 ltac:(lia)).
  unfold hex_digit. split_if; lia.
Qed.

Lemma early_print_sends fuel lsr s u :
  ready_within fuel lsr -> dlab u = false -> Forall (fun c => 0 < c < 256) s ->
  exists u', early_debug_print fuel lsr (s ++ [0]) u = Some u' /\ dlab u' = false /\ u_sent u' = u_sent u ++ s /\ u_lost u' = u_lost u.
Proof.
  intros Hr Hu Hs. destruct (puts_x86_sends fuel lsr Hr s [] u Hu) as (u' & ? & ? & Hs' & ?).
  - eapply Forall_impl; [exact Hs|cbn; lia].
  - exists u'. rewrite u8_bytes in Hs'; [done|]. eapply Forall_impl; [exact Hs|]. unfold is_byte. cbn. lia.
Qed.

(** The banner of the early boot. *)
Definition early_banner : list Z :=
  crlf ++ chars "[RISCV] LughOS Boot Debug" ++ crlf ++ chars "[RISCV] Entering kernel main function" ++ crlf ++
  chars "[RISCV] Testing UART access at 0x10000000: 0x0000000010000000" ++ crlf.

(** Early debug output.  [early_debug_print_hex] sends 0x and sixteen
    digits that read back as the 64-bit value, so its 19-byte buffer is
    filled exactly; the early boot report is sent in full. *)
Theorem early_hex_reads_back (fuel : nat) (lsr : nat -> Z) (val : Z) (u : uart) :
  ready_within fuel lsr -> dlab u = false -> 0 <= val < 18446744073709551616 ->
  length (hex_buffer val) = 19%nat /\
  (exists u' ds, early_debug_print_hex fuel lsr val u = Some u' /\
    u_sent u' = u_sent u ++ chars "0x" ++ ds /\ length ds = 16%nat /\ hex_value 65 ds = val) /\
  (exists u', riscv_early_boot_debug fuel lsr u = Some u' /\ u_sent u' = u_sent u ++ early_banner).
Proof.
  intros Hr Hu Hv. destruct (hex_loop_spec 16 65 val []) as (ds & Hds & Hval & Hlen); [by left|exact Hv|].
  pose proof (hex_loop_printable 16 val [] ltac:(constructor)) as Hp. rewrite app_nil_r in Hds. rewrite Hds in Hp.
  split; [rewrite hex_buffer_loop, Hds, !length_app, Hlen; done|]. split.
  - unfold early_debug_print_hex. rewrite hex_buffer_loop, Hds, app_assoc.
    destruct (early_print_sends fuel lsr (chars "0x" ++ ds) u Hr Hu) as (u' & ? & _ & ? & _).
    { apply Forall_app_2; [|done]. repeat constructor; lia. }
    by exists u', ds.
  - unfold riscv_early_boot_debug, early_debug_print_hex. rewrite hex_buffer_loop.
    repeat (rewrite ?app_assoc; match goal with |- context [early_debug_print fuel lsr (?s ++ [0]) ?u0] =>
      let u1 := fresh "u" in let H1 := fresh "Hu" in let H2 := fresh "Hs" in
      destruct (early_print_sends fuel lsr s u0 Hr ltac:(assumption)) as (u1 & -> & H1 & H2 & _);
        [vm_compute; repeat constructor|]; cbn [mbind option_bind] end).
    eexists. split; [reflexivity|]. rewrite Hs3. unfold early_banner. rewrite Hs2, Hs1, Hs0, Hs, <-!app_assoc. reflexivity.
Qed.

Example early_hex_reads_back_witness :
  exists u', riscv_early_boot_debug 3 slow_lsr (riscv_console_init cold_uart) = Some u' /\ u_sent u' = early_banner.
Proof.
  destruct (early_hex_reads_back 3 slow_lsr 48879 (riscv_console_init cold_uart) slow_ready eq_refl ltac:(lia))
    as (_ & _ & u' & Hp & Hs).
  exact (ex_intro _ u' (conj Hp Hs)).
Defined.

(** ** Assertions *)

(** The line a failed assertion logs, with the line number's digits. *)
Definition assert_line (log_ticks : Z) (message file digits : list Z) : list Z :=
  91 :: put_hex 97 log_ticks ++ [93; 32] ++
  (chars "ASSERTION FAILED: " ++ message ++ chars " at " ++ file ++ [58] ++ digits ++ [10]) ++ [10].

Lemma assert_format {AM : ArgMem} message file line :
  kprintf (chars "ASSERTION FAILED: %s at %s:%d" ++ [10]) [VStr (Some message); VStr (Some file); VInt line] =
  (ds ← put_signed (s32 (u32 line)); Some (chars "ASSERTION FAILED: " ++ message ++ chars " at " ++ file ++ [58] ++ ds ++ [10])).
Proof. lazy -[put_signed s32 u32]. destruct (put_signed _); reflexivity. Qed.

(** A failed assertion names itself and stops the machine.  A condition
    that holds logs nothing and returns; one that does not logs its message,
    file and line (which reads back from the digits) and a second line; the
    call then never returns in a development build, and does return in a
    production build, with the condition still false. *)
Theorem assert_outcome {AM : ArgMem} (production : bool) (log_ticks : Z) (message file : list Z) (line : Z) :
  -2147483648 < line < 2147483648 ->
  assert_impl production true log_ticks (Some message) (Some file) line = Some ([], Returns) /\
  exists digits l2,
    assert_impl production false log_ticks (Some message) (Some file) line =
      Some ([assert_line log_ticks message file digits; l2], if production then Returns else Halts) /\
    signed_value digits = line.
Proof.
  intros Hl. split; [done|]. destruct (put_signed_spec line Hl) as (ds & Hds & Hval & _). exists ds.
  unfold assert_impl, log_message. change (LOG_FATAL >=? LOG_LEVEL_COUNT) with false. cbn iota.
  rewrite assert_format, s32_u32, s32_id, Hds by lia. cbn [mbind option_bind]. destruct production; (eexists; split; [reflexivity|done]).
Qed.

Example assert_outcome_witness :
  exists digits l2, assert_impl (AM := demo_args) false false 7 (Some (chars "x")) (Some (chars "a.c")) 33 =
    Some ([assert_line 7 (chars "x") (chars "a.c") digits; l2], Halts) /\ signed_value digits = 33.
Proof. exact (proj2 (assert_outcome (AM := demo_args) false 7 (chars "x") (chars "a.c") 33 ltac:(lia))). Defined.
