(* ===== verification/Stack.v ===== *)
(** * Words on a stack

    Lemmas on the pushes and pops of Switch, shared by the machines of
    ArmTraps and X86Traps: a push as a memory, frames that nest, what lies
    where in them, and the tactic that checks the room they need. *)
From S2P Require Import Prelude Types Circular Ring Auditor Tasks Scheduler Interrupts Switch.

Arguments pushes : simpl never.
Arguments pops : simpl never.
Arguments u32 : simpl never.
Arguments ld : simpl never.
Arguments st : simpl never.

Lemma ld_st_ne m a b w : u32 a <> u32 b -> ld (st m b w) a = ld m a.
Proof. intros Hne. unfold ld, st. by rewrite lookup_insert_ne. Qed.
Lemma ld_st_eq m a w : ld (st m a w) a = w.
Proof. unfold ld, st. by rewrite lookup_insert_eq. Qed.

(** The memory after a push. *)
Definition pushed (sp : Z) (m : gmap Z Z) (ws : list Z) : gmap Z Z := (pushes sp m ws).2.
Arguments pushed : simpl never.
(** Conversion unfolds these last. *)
Strategy 100 [pushed pushes pops].

Lemma pushes_eq sp m ws :
  stack_ok sp (length ws) -> pushes sp m ws = (sp - 4 * Z.of_nat (length ws), pushed sp m ws).
Proof. intros Hs. unfold pushed. rewrite <-(pushes_sp sp m ws Hs). by destruct (pushes sp m ws). Qed.

Lemma pushed_outside sp m ws lo hi :
  stack_ok sp (length ws) -> (hi <= sp - 4 * Z.of_nat (length ws) \/ sp <= lo) ->
  agree_on lo hi (pushed sp m ws) m.
Proof. apply pushes_outside. Qed.

(** Popping an intact frame. *)
Lemma pops_frame sp m m' ws n lo :
  n = length ws -> lo = sp - 4 * Z.of_nat n -> stack_ok sp n -> agree_on lo sp m' (pushed sp m ws) ->
  pops n lo m' = (rev ws, sp).
Proof.
  intros -> -> Hs Hm. unfold stack_ok in Hs. rewrite (pops_agree _ _ m' (pushed sp m ws)).
  - pose proof (pops_pushes sp m ws Hs) as Hp. by rewrite (pushes_eq sp m ws Hs) in Hp.
  - lia.
  - lia.
  - intros x Hx. apply Hm. lia.
Qed.

(** Room on a stack, for frames inside a larger one too. *)
Ltac stack := unfold stack_ok in *; cbn in *; lia.

Lemma u32_sub_add a k : 0 <= a < 4294967296 -> 0 <= k -> u32 (u32 (a + k) - k) = a.
Proof. unfold u32. lia. Qed.

(** Two pushes are one. *)
Lemma pushed_app sp m ws ws' :
  stack_ok sp (length ws) -> pushed (sp - 4 * Z.of_nat (length ws)) (pushed sp m ws) ws' = pushed sp m (ws ++ ws').
Proof.
  intros Hs. unfold pushed, pushes. rewrite foldl_app. fold (pushes sp m ws). by rewrite (pushes_eq sp m ws Hs).
Qed.

Lemma pushed_one sp m w : stack_ok sp 1 -> pushed sp m [w] = st m (sp - 4) w.
Proof. unfold stack_ok. intros Hs. unfold pushed, pushes. cbn [foldl push fst snd]. by rewrite u32_id by lia. Qed.

(** The words of a frame, lowest address first. *)
Lemma pushed_ld sp m ws k :
  stack_ok sp (length ws) -> (k < length ws)%nat ->
  ld (pushed sp m ws) (sp - 4 * Z.of_nat (length ws) + 4 * Z.of_nat k) = rev ws !!! k.
Proof.
  unfold stack_ok. revert k. induction ws as [|w ws IH] using rev_ind; intros k Hs Hk; [cbn in Hk; lia|].
  rewrite length_app in *. cbn [length] in *. rewrite <-pushed_app by (unfold stack_ok; lia).
  rewrite rev_app_distr. cbn [rev app]. rewrite pushed_one by (unfold stack_ok; lia).
  destruct k as [|k].
  - replace (_ + 4 * Z.of_nat 0) with (sp - 4 * Z.of_nat (length ws) - 4) by lia. apply ld_st_eq.
  - cbn [lookup_total list_lookup_total]. rewrite <-IH by lia.
    rewrite ld_st_ne by (rewrite !u32_id by lia; lia). f_equal. lia.
Qed.

Lemma frame_ld sp m m' ws k a :
  stack_ok sp (length ws) -> (k < length ws)%nat ->
  agree_on (sp - 4 * Z.of_nat (length ws)) sp m' (pushed sp m ws) ->
  a = sp - 4 * Z.of_nat (length ws) + 4 * Z.of_nat k -> ld m' a = rev ws !!! k.
Proof.
  intros Hs Hk Hm ->. rewrite <-(pushed_ld sp m ws k Hs Hk). unfold stack_ok in Hs. unfold ld.
  rewrite !u32_id by lia. by rewrite Hm by lia.
Qed.
