(* ===== verification/ArmTraps.v ===== *)
(** * ARM entry and exit paths

    kernel/arch/arm/boot_arm.S, exceptions.S, syscall.S, enter_user_mode.S,
    user/lib/syscall_arm.S and crt0_arm.S, as instruction lists of a small
    ARMv5 machine with banked registers, run one instruction at a time.
    Compiled C functions are parameters that keep the procedure call
    standard ([c_call]); link addresses are parameters too.  A word memory
    holds data at word addresses; the vectors are fetched from it, all other
    code from the image. *)
From S2P Require Import Prelude Types Circular Ring Auditor Tasks Scheduler Interrupts Switch Stack.

(** ** Status registers *)

Inductive amode := Usr | Fiq | Irq | Svc | Abt | Und | Sys.
#[export] Instance amode_eq_dec : EqDecision amode.
Proof. solve_decision. Defined.

Definition mode_bits (m : amode) : Z :=
  match m with Usr => 16 | Fiq => 17 | Irq => 18 | Svc => 19 | Abt => 23 | Und => 27 | Sys => 31 end.
(** The other encodings are unpredictable. *)
Definition bits_mode (b : Z) : option amode :=
  if b =? 16 then Some Usr else if b =? 17 then Some Fiq else if b =? 18 then Some Irq
  else if b =? 19 then Some Svc else if b =? 23 then Some Abt else if b =? 27 then Some Und
  else if b =? 31 then Some Sys else None.

(** [ps_flags] is bits 8 to 31. *)
Record psr := Psr { ps_flags : Z; ps_i : bool; ps_f : bool; ps_t : bool; ps_mode : amode }.
Definition psr_word (p : psr) : Z :=
  ps_flags p * 256 + Z.b2z (ps_i p) * 128 + Z.b2z (ps_f p) * 64 + Z.b2z (ps_t p) * 32 +
  mode_bits (ps_mode p).
Definition word_psr (w : Z) : option psr :=
  m ← bits_mode (w mod 32);
  Some (Psr (w / 256) (w / 128 mod 2 =? 1) (w / 64 mod 2 =? 1) (w / 32 mod 2 =? 1) m).

Lemma word_psr_word p : word_psr (psr_word p) = Some p.
Proof.
  destruct p as [fl i f t m]. unfold word_psr, psr_word. cbn [ps_flags ps_i ps_f ps_t ps_mode].
  set (w := fl * 256 + _ + _ + _ + _).
  assert (Hw : w mod 32 = mode_bits m /\ w / 256 = fl /\ (w / 128 mod 2 = Z.b2z i) /\
    (w / 64 mod 2 = Z.b2z f) /\ (w / 32 mod 2 = Z.b2z t)).
  { unfold w. destruct m, i, f, t; cbn [mode_bits Z.b2z]; lia. }
  destruct Hw as (-> & -> & -> & -> & ->). by destruct m, i, f, t.
Qed.

(** ** The processor *)

(** A mode's own stack pointer, link register and saved status. *)
Record bank := Bank { b_sp : Z; b_lr : Z; b_spsr : psr }.

(** [a_gpr] is r0 to r12, [a_fiq_hi] the r8 to r12 of FIQ mode.  [a_usr]'s
    saved status does not exist.  [a_sctlr], [a_dfar], [a_dfsr] are CP15's
    control, fault address and fault status registers, [a_uart] what was
    written to UART0's data register. *)
Record arm := Arm {
  a_gpr : list Z; a_fiq_hi : list Z;
  a_usr : bank; a_fiq : bank; a_irq : bank; a_svc : bank; a_abt : bank; a_und : bank;
  a_cpsr : psr; a_pc : Z; a_mem : gmap Z Z;
  a_sctlr : Z; a_dfar : Z; a_dfsr : Z; a_uart : list Z
}.

Definition with_gpr g s := Arm g (a_fiq_hi s) (a_usr s) (a_fiq s) (a_irq s) (a_svc s) (a_abt s) (a_und s)
  (a_cpsr s) (a_pc s) (a_mem s) (a_sctlr s) (a_dfar s) (a_dfsr s) (a_uart s).
Definition with_fiq_hi g s := Arm (a_gpr s) g (a_usr s) (a_fiq s) (a_irq s) (a_svc s) (a_abt s) (a_und s)
  (a_cpsr s) (a_pc s) (a_mem s) (a_sctlr s) (a_dfar s) (a_dfsr s) (a_uart s).
Definition with_cpsr p s := Arm (a_gpr s) (a_fiq_hi s) (a_usr s) (a_fiq s) (a_irq s) (a_svc s) (a_abt s)
  (a_und s) p (a_pc s) (a_mem s) (a_sctlr s) (a_dfar s) (a_dfsr s) (a_uart s).
Definition with_pc pc s := Arm (a_gpr s) (a_fiq_hi s) (a_usr s) (a_fiq s) (a_irq s) (a_svc s) (a_abt s)
  (a_und s) (a_cpsr s) pc (a_mem s) (a_sctlr s) (a_dfar s) (a_dfsr s) (a_uart s).
Definition with_mem m s := Arm (a_gpr s) (a_fiq_hi s) (a_usr s) (a_fiq s) (a_irq s) (a_svc s) (a_abt s)
  (a_und s) (a_cpsr s) (a_pc s) m (a_sctlr s) (a_dfar s) (a_dfsr s) (a_uart s).
Definition with_sctlr v s := Arm (a_gpr s) (a_fiq_hi s) (a_usr s) (a_fiq s) (a_irq s) (a_svc s) (a_abt s)
  (a_und s) (a_cpsr s) (a_pc s) (a_mem s) v (a_dfar s) (a_dfsr s) (a_uart s).
Definition with_uart u s := Arm (a_gpr s) (a_fiq_hi s) (a_usr s) (a_fiq s) (a_irq s) (a_svc s) (a_abt s)
  (a_und s) (a_cpsr s) (a_pc s) (a_mem s) (a_sctlr s) (a_dfar s) (a_dfsr s) u.

Definition get_bank (m : amode) (s : arm) : bank :=
  match m with
  | Usr | Sys => a_usr s | Fiq => a_fiq s | Irq => a_irq s | Svc => a_svc s | Abt => a_abt s | Und => a_und s
  end.
Definition bank_no (m : amode) : nat :=
  match m with Usr | Sys => 0 | Fiq => 1 | Irq => 2 | Svc => 3 | Abt => 4 | Und => 5 end.
Definition set_bank (m : amode) (b : bank) (s : arm) : arm :=
  let pick k old := if (bank_no m =? k)%nat then b else old in
  Arm (a_gpr s) (a_fiq_hi s) (pick 0%nat (a_usr s)) (pick 1%nat (a_fiq s)) (pick 2%nat (a_irq s))
    (pick 3%nat (a_svc s)) (pick 4%nat (a_abt s)) (pick 5%nat (a_und s))
    (a_cpsr s) (a_pc s) (a_mem s) (a_sctlr s) (a_dfar s) (a_dfsr s) (a_uart s).

Definition cur_mode (s : arm) : amode := ps_mode (a_cpsr s).
Definition cur_bank (s : arm) : bank := get_bank (cur_mode s) s.
Definition set_cur_bank (b : bank) (s : arm) : arm := set_bank (cur_mode s) b s.
Definition privileged (m : amode) : bool := match m with Usr => false | _ => true end.
Definition has_spsr (m : amode) : bool := match m with Usr | Sys => false | _ => true end.

Definition SP : nat := 13.
Definition LR : nat := 14.
Definition PC : nat := 15.

Definition in_fiq (s : arm) : bool := match cur_mode s with Fiq => true | _ => false end.

(** r15 reads as the instruction's address plus 8. *)
Definition get_reg (r : nat) (s : arm) : Z :=
  if (r =? PC)%nat then a_pc s + 8
  else if (r =? LR)%nat then b_lr (cur_bank s)
  else if (r =? SP)%nat then b_sp (cur_bank s)
  else if ((8 <=? r)%nat && in_fiq s)%bool then a_fiq_hi s !!! (r - 8)%nat
  else a_gpr s !!! r.
Definition set_reg (r : nat) (v : Z) (s : arm) : arm :=
  let b := cur_bank s in
  if (r =? PC)%nat then with_pc v s
  else if (r =? LR)%nat then set_cur_bank (Bank (b_sp b) v (b_spsr b)) s
  else if (r =? SP)%nat then set_cur_bank (Bank v (b_lr b) (b_spsr b)) s
  else if ((8 <=? r)%nat && in_fiq s)%bool then with_fiq_hi (<[(r - 8)%nat := v]> (a_fiq_hi s)) s
  else with_gpr (<[r := v]> (a_gpr s)) s.
Fixpoint set_regs (rs : list nat) (vs : list Z) (s : arm) : arm :=
  match rs, vs with r :: rs, v :: vs => set_regs rs vs (set_reg r v s) | _, _ => s end.
Definition next (s : arm) : arm := with_pc (a_pc s + 4) s.

(** ** Instructions

    Those the stubs use.  Branch targets and literals are link-time values;
    a register list is in ascending order, as the hardware stores it. *)
Inductive instr :=
  | MovI (rd : nat) (imm : Z)            (* mov rd, #imm *)
  | Mov (rd rm : nat)                    (* mov rd, rm *)
  | SubI (rd rn : nat) (imm : Z)         (* sub rd, rn, #imm *)
  | BicI (rd rn : nat) (imm : Z)         (* bic rd, rn, #imm *)
  | LdrLit (rd : nat) (w : Z)            (* ldr rd, =w *)
  | Str (rd rn : nat)                    (* str rd, [rn] *)
  | LdrPost (rd rn : nat) (imm : Z)      (* ldr rd, [rn], #imm *)
  | StrPost (rd rn : nat) (imm : Z)      (* str rd, [rn], #imm *)
  | LdrPc (imm : Z)                      (* ldr pc, [pc, #imm] *)
  | Cmp (ra rb : nat)                    (* cmp ra, rb *)
  | Bne (target : Z)                     (* bne target *)
  | Push (rs : list nat)                 (* stmfd sp!, {rs} *)
  | Pop (rs : list nat)                  (* ldmfd sp!, {rs} *)
  | PopExc (rs : list nat)               (* ldmfd sp!, {rs, pc}^ *)
  | MrsSpsr (rd : nat)                   (* mrs rd, spsr *)
  | MsrSpsr (rm : nat)                   (* msr spsr_cxsf, rm *)
  | MsrCpsrC (imm : Z)                   (* msr cpsr_c, #imm *)
  | MrcSctlr (rd : nat)                  (* mrc p15, 0, rd, c1, c0, 0 *)
  | McrSctlr (rd : nat)                  (* mcr p15, 0, rd, c1, c0, 0 *)
  | MrcDfar (rd : nat)                   (* mrc p15, 0, rd, c6, c0, 0 *)
  | MrcDfsr (rd : nat)                   (* mrc p15, 0, rd, c5, c0, 0 *)
  | B (target : Z)
  | Bl (target : Z)
  | MovsPcLr                             (* movs pc, lr *)
  | SvcI.                                (* svc #0 *)

(** *** Exceptions *)

Inductive vector := VReset | VUndef | VSvc | VPabort | VDabort | VReserved | VIrq | VFiq.
Definition vec_index (v : vector) : Z :=
  match v with VReset => 0 | VUndef => 1 | VSvc => 2 | VPabort => 3 | VDabort => 4 | VReserved => 5
             | VIrq => 6 | VFiq => 7 end.
Definition vec_mode (v : vector) : amode :=
  match v with VUndef => Und | VPabort | VDabort => Abt | VIrq => Irq | VFiq => Fiq | _ => Svc end.
(** The link register's distance from the instruction concerned: for IRQ
    and FIQ the next one to run. *)
Definition vec_link (v : vector) : Z := match v with VDabort => 8 | _ => 4 end.
(** SCTLR.V (bit 13) moves the vectors to 0xFFFF0000. *)
Definition vec_base (s : arm) : Z := if Z.testbit (a_sctlr s) 13 then 4294901760 else 0.

Definition take_exception (v : vector) (s : arm) : arm :=
  let m := vec_mode v in
  let p := a_cpsr s in
  let s' := set_bank m (Bank (b_sp (get_bank m s)) (u32 (a_pc s + vec_link v)) p) s in
  let f := match v with VReset | VFiq => true | _ => ps_f p end in
  with_pc (vec_base s + 4 * vec_index v) (with_cpsr (Psr (ps_flags p) true f false m) s').

Definition PL011_DR : Z := 269422592.

(** A word store: the UART's data register is no memory. *)
Definition store_word (a v : Z) (s : arm) : arm :=
  if u32 a =? PL011_DR then with_uart (a_uart s ++ [v mod 256]) s else with_mem (st (a_mem s) a v) s.

(** The condition flags NZCV are the top four bits; a comparison replaces
    them by those of the difference. *)
Definition cmp_flags (x y fl : Z) : Z :=
  let d := u32 (x - y) in
  Z.b2z (2147483648 <=? d) * 8388608 + Z.b2z (d =? 0) * 4194304 + Z.b2z (y <=? x) * 2097152 +
  Z.b2z (negb (s32 x - s32 y =? s32 d)) * 1048576 + fl mod 1048576.
Definition flag_z (p : psr) : bool := ps_flags p / 4194304 mod 2 =? 1.

Definition exec (i : instr) (s : arm) : option arm :=
  match i with
  | MovI rd imm => Some (next (set_reg rd imm s))
  | Mov rd rm => Some (next (set_reg rd (get_reg rm s) s))
  | SubI rd rn imm => Some (next (set_reg rd (u32 (get_reg rn s - imm)) s))
  | BicI rd rn imm => Some (next (set_reg rd (Z.ldiff (get_reg rn s) imm) s))
  | LdrLit rd w => Some (next (set_reg rd w s))
  | Str rd rn => Some (next (store_word (get_reg rn s) (get_reg rd s) s))
  | LdrPost rd rn imm =>
      let a := get_reg rn s in
      Some (next (set_reg rd (ld (a_mem s) a) (set_reg rn (u32 (a + imm)) s)))
  | StrPost rd rn imm =>
      let a := get_reg rn s in
      Some (next (set_reg rn (u32 (a + imm)) (store_word a (get_reg rd s) s)))
  | LdrPc imm => Some (with_pc (ld (a_mem s) (a_pc s + 8 + imm)) s)
  | Cmp ra rb =>
      let p := a_cpsr s in
      Some (next (with_cpsr (Psr (cmp_flags (get_reg ra s) (get_reg rb s) (ps_flags p)) (ps_i p) (ps_f p)
                               (ps_t p) (ps_mode p)) s))
  | Bne t => Some (if flag_z (a_cpsr s) then next s else with_pc t s)
  | Push rs =>
      let '(sp, m) := pushes (get_reg SP s) (a_mem s) (rev ((fun r => get_reg r s) <$> rs)) in
      Some (next (with_mem m (set_reg SP sp s)))
  | Pop rs =>
      let '(ws, sp) := pops (length rs) (get_reg SP s) (a_mem s) in
      Some (set_regs rs ws (next (set_reg SP sp s)))
  | PopExc rs =>
      if has_spsr (cur_mode s) then
        let '(ws, sp) := pops (length rs + 1) (get_reg SP s) (a_mem s) in
        let p := b_spsr (cur_bank s) in
        let s := set_regs rs ws (set_reg SP sp s) in
        Some (with_pc (ws !!! length rs) (with_cpsr p s))
      else None
  | MrsSpsr rd =>
      if has_spsr (cur_mode s) then Some (next (set_reg rd (psr_word (b_spsr (cur_bank s))) s)) else None
  | MsrSpsr rm =>
      let b := cur_bank s in
      if has_spsr (cur_mode s)
      then p ← word_psr (get_reg rm s); Some (next (set_cur_bank (Bank (b_sp b) (b_lr b) p) s))
      else None
  | MsrCpsrC imm =>
      if privileged (cur_mode s)
      then p ← word_psr imm;
           Some (next (with_cpsr (Psr (ps_flags (a_cpsr s)) (ps_i p) (ps_f p) (ps_t p) (ps_mode p)) s))
      else Some (next s)
  | MrcSctlr rd => if privileged (cur_mode s) then Some (next (set_reg rd (a_sctlr s) s)) else None
  | McrSctlr rd => if privileged (cur_mode s) then Some (next (with_sctlr (get_reg rd s) s)) else None
  | MrcDfar rd => if privileged (cur_mode s) then Some (next (set_reg rd (a_dfar s) s)) else None
  | MrcDfsr rd => if privileged (cur_mode s) then Some (next (set_reg rd (a_dfsr s) s)) else None
  | B t => Some (with_pc t s)
  | Bl t => Some (with_pc t (set_reg LR (a_pc s + 4) s))
  | MovsPcLr =>
      if has_spsr (cur_mode s)
      then let b := cur_bank s in Some (with_pc (b_lr b) (with_cpsr (b_spsr b) s))
      else None
  | SvcI => Some (take_exception VSvc s)
  end.

(** ** Programs *)

Section Image.
(** Link addresses: of this file's stubs, and of the C functions they call. *)
Context (syscall_handler arm_irq_dispatch arm_pabort_diagnose arm_dabort_diagnose kmain main_ : Z).

(** syscall.S and its trampoline user/lib/syscall_arm.S. *)
Definition syscall_entry : list instr :=
  [Push [4; 5; 6; 7; 8; 9; 10; 11; LR]%nat; Mov 3 2; Mov 2 1; Mov 1 0; Mov 0 7; Bl syscall_handler;
   Pop [4; 5; 6; 7; 8; 9; 10; 11; LR]%nat; MovsPcLr].
Definition user_syscall : list instr :=
  [Push [4; 5; 6; 7; LR]%nat; Mov 7 0; Mov 0 1; Mov 1 2; Mov 2 3; SvcI; Pop [4; 5; 6; 7; PC]%nat].

(** exceptions.S *)
Definition arm_irq_entry : list instr :=
  [SubI LR LR 4; Push [0; 1; 2; 3; 12; LR]%nat; MrsSpsr 0; Push [0%nat]; Bl arm_irq_dispatch;
   Pop [0%nat]; MsrSpsr 0; PopExc [0; 1; 2; 3; 12]%nat].

Definition chr_E : Z := 69.
Definition chr_X : Z := 88.
Definition chr_C : Z := 67.
Definition chr_colon : Z := 58.
Definition chr_nl : Z := 10.
(** [base] is where this code lies: the last instruction branches to itself. *)
Definition arm_panic_print (base : Z) : list instr :=
  [LdrLit 1 PL011_DR; MovI 2 chr_E; Str 2 1; MovI 2 chr_X; Str 2 1; MovI 2 chr_C; Str 2 1;
   MovI 2 chr_colon; Str 2 1; Str 0 1; MovI 2 chr_nl; Str 2 1; B (base + 48)].

(** The stub of a vector that panics with one letter. *)
Definition panic_stub (letter panic : Z) : list instr := [MovI 0 letter; B panic].
Definition arm_undef_panic : Z -> list instr := panic_stub 85.
Definition arm_svc_panic : Z -> list instr := panic_stub 83.
Definition arm_reserved_panic : Z -> list instr := panic_stub 82.
Definition arm_fiq_panic : Z -> list instr := panic_stub 70.
Definition arm_pabort_panic (panic : Z) : list instr :=
  [SubI 0 LR 4; MrsSpsr 1; Bl arm_pabort_diagnose; MovI 0 80; B panic].
Definition arm_dabort_panic (panic : Z) : list instr :=
  [SubI 0 LR 8; MrcDfar 1; MrcDfsr 2; MrsSpsr 3; Bl arm_dabort_diagnose; MovI 0 68; B panic].

(** enter_user_mode.S *)
Definition enter_user_mode : list instr :=
  [MsrCpsrC 211; MsrCpsrC 223; Mov SP 1; MsrCpsrC 211; MovI 2 16; MsrSpsr 2; Mov LR 0; MovsPcLr].

(** crt0_arm.S; [sys] is the trampoline's address. *)
Definition crt0_start (base sys : Z) : list instr :=
  [MovI 7 0; MovI 0 0; MovI 1 0; Bl main_; Mov 1 0; MovI 2 0; MovI 3 0; MovI 0 3; Bl sys; B (base + 36)].

(** boot_arm.S *)
Definition CPSR_SVC_OFF : Z := 211.
Definition CPSR_IRQ_OFF : Z := 210.
Definition CPSR_ABT_OFF : Z := 215.
Definition CPSR_UND_OFF : Z := 219.
Definition STACK_SVC_TOP : Z := 1048576.
Definition STACK_IRQ_TOP : Z := 983040.
Definition STACK_ABT_TOP : Z := 917504.
Definition STACK_UND_TOP : Z := 851968.
Definition start (base vectors : Z) : list instr :=
  [MrcSctlr 0; BicI 0 0 8192; McrSctlr 0;
   LdrLit SP STACK_SVC_TOP;
   MsrCpsrC CPSR_IRQ_OFF; LdrLit SP STACK_IRQ_TOP;
   MsrCpsrC CPSR_ABT_OFF; LdrLit SP STACK_ABT_TOP;
   MsrCpsrC CPSR_UND_OFF; LdrLit SP STACK_UND_TOP;
   MsrCpsrC CPSR_SVC_OFF;
   LdrLit 0 vectors; MovI 1 0; LdrLit 2 (vectors + 64);
   LdrPost 3 0 4; StrPost 3 1 4; Cmp 0 2; Bne (base + 56);
   Bl kmain; B (base + 76)].

(** The words at [_vectors_start]: eight [ldr pc, [pc, #24]] and the
    handlers' addresses. *)
Definition LDR_PC_PC_24 : Z := 3852464152.
Definition vectors_image (reset undef svc pabort dabort reserved irq fiq : Z) : list Z :=
  replicate 8 LDR_PC_PC_24 ++ [reset; undef; svc; pabort; dabort; reserved; irq; fiq].
End Image.

(** ** Running *)

(** The linked image: instructions by address, and C functions by entry
    point.  What is neither is fetched from memory, where only vectors lie. *)
Record image := Image { im_code : Z -> option instr; im_c : Z -> option (arm -> option arm) }.

Definition decode (w : Z) : option instr := if w =? LDR_PC_PC_24 then Some (LdrPc 24) else None.
Definition fetch (im : image) (s : arm) : option instr :=
  match im_code im (a_pc s) with Some i => Some i | None => decode (ld (a_mem s) (a_pc s)) end.

(** Thumb state is outside this machine. *)
Definition step (im : image) (s : arm) : option arm :=
  if ps_t (a_cpsr s) then None
  else match im_c im (a_pc s) with
       | Some f => f s
       | None => i ← fetch im s; exec i s
       end.
Fixpoint run (im : image) (n : nat) (s : arm) : option arm :=
  match n with O => Some s | S n => s' ← step im s; run im n s' end.

(** [l] lies at [base] in the image. *)
Definition code_at (im : image) (base : Z) (l : list instr) : Prop :=
  forall k i, l !! k = Some i -> im_code im (base + 4 * Z.of_nat k) = Some i /\ im_c im (base + 4 * Z.of_nat k) = None.

(** What the procedure call standard promises of a C function called in
    state [s] that returned in [s']: r4 to r11, the stack pointer and the
    mode, and the memory from the stack pointer up to [top].  It may change
    its mode's link register and saved status; the other banks survive. *)
Record c_call (top : Z) (s s' : arm) : Prop := {
  cc_len : length (a_gpr s') = 13%nat;
  cc_saved : forall r, (4 <= r <= 11)%nat -> a_gpr s' !!! r = a_gpr s !!! r;
  cc_fiq : a_fiq_hi s' = a_fiq_hi s;
  cc_pc : a_pc s' = b_lr (cur_bank s);
  cc_mode : cur_mode s' = cur_mode s;
  cc_arm : ps_t (a_cpsr s') = false;
  cc_sp : b_sp (cur_bank s') = b_sp (cur_bank s);
  cc_banks : forall m, m <> cur_mode s -> (m = Sys -> cur_mode s <> Usr) -> get_bank m s' = get_bank m s;
  cc_cp15 : a_sctlr s' = a_sctlr s;
  cc_stack : agree_on (b_sp (cur_bank s)) top (a_mem s') (a_mem s)
}.

(** ** Symbolic execution *)
Arguments word_psr : simpl never.
Arguments psr_word : simpl never.
#[local] Arguments store_word : simpl never.

Lemma run_S im n s : run im (S n) s = step im s ≫= run im n.
Proof. done. Qed.

Lemma run_add im n k s : run im (n + k) s = run im n s ≫= run im k.
Proof.
  revert s. induction n as [|n IH]; intros s; [done|]. cbn [Nat.add run].
  destruct (step im s); cbn; [apply IH|done].
Qed.

#[local] Arguments run : simpl never.

Lemma run_code im n s base l k i :
  code_at im base l -> l !! k = Some i -> ps_t (a_cpsr s) = false -> a_pc s = base + 4 * Z.of_nat k ->
  run im (S n) s = exec i s ≫= run im n.
Proof.
  intros Hc Hl Ht Hpc. destruct (Hc k i Hl) as [Hi Hf]. rewrite run_S. unfold step, fetch.
  by rewrite Ht, Hpc, Hf, Hi.
Qed.

Lemma run_c im n s f :
  im_c im (a_pc s) = Some f -> ps_t (a_cpsr s) = false -> run im (S n) s = f s ≫= run im n.
Proof. intros Hf Ht. rewrite run_S. unfold step. by rewrite Ht, Hf. Qed.

#[local] Arguments with_gpr _ !s /.
#[local] Arguments with_fiq_hi _ !s /.
#[local] Arguments with_cpsr _ !s /.
#[local] Arguments with_pc _ !s /.
#[local] Arguments with_mem _ !s /.
#[local] Arguments with_sctlr _ !s /.
#[local] Arguments with_uart _ !s /.
#[local] Arguments get_bank !m !s /.
#[local] Arguments set_bank !m _ !s /.
#[local] Arguments cur_mode !s /.
#[local] Arguments cur_bank !s /.
#[local] Arguments set_cur_bank _ !s /.
#[local] Arguments in_fiq !s /.
#[local] Arguments get_reg !r !s /.
#[local] Arguments set_reg !r _ !s /.
#[local] Arguments set_regs : simpl never.
#[local] Arguments next !s /.
#[local] Arguments take_exception !v !s /.
#[local] Arguments vec_base !s /.

(** One instruction of the list [H] speaks of, the [k]th. *)
Ltac astep H k :=
  rewrite (run_code _ _ _ _ _ k _ H eq_refl); [|reflexivity|cbn; lia]; cbn.

Lemma set_regs_cons r rs v vs s : set_regs (r :: rs) (v :: vs) s = set_regs rs vs (set_reg r v s).
Proof. done. Qed.
Lemma set_regs_nil vs s : set_regs [] vs s = s.
Proof. done. Qed.

Lemma exec_push rs s ws :
  ws = rev ((fun r => get_reg r s) <$> rs) -> stack_ok (get_reg SP s) (length ws) ->
  exec (Push rs) s =
  Some (next (with_mem (pushed (get_reg SP s) (a_mem s) ws) (set_reg SP (get_reg SP s - 4 * Z.of_nat (length ws)) s))).
Proof. intros -> Hs. unfold exec. by rewrite pushes_eq. Qed.
Lemma exec_pop rs s n lo m ws sp :
  pops n lo m = (ws, sp) -> length rs = n -> get_reg SP s = lo -> a_mem s = m ->
  exec (Pop rs) s = Some (set_regs rs ws (next (set_reg SP sp s))).
Proof. intros Hp <- <- <-. unfold exec. by rewrite Hp. Qed.
Lemma exec_pop_exc rs s n lo m ws sp :
  pops n lo m = (ws, sp) -> (length rs + 1)%nat = n -> get_reg SP s = lo -> a_mem s = m ->
  has_spsr (cur_mode s) = true ->
  exec (PopExc rs) s =
  Some (with_pc (ws !!! length rs) (with_cpsr (b_spsr (cur_bank s)) (set_regs rs ws (set_reg SP sp s)))).
Proof. intros Hp <- <- <- Hm. unfold exec. by rewrite Hm, Hp. Qed.

(** A [Push] as the [k]th instruction of [H]. *)
Ltac apush H k :=
  rewrite (run_code _ _ _ _ _ k _ H eq_refl); [|reflexivity|cbn; lia];
  rewrite (exec_push _ _ _ eq_refl) by (cbn; stack); cbn.
(** A [Pop] of the [n] words that [F] says are intact; [L] is the lemma of
    the instruction. *)
Ltac apop H k F n L :=
  rewrite (run_code _ _ _ _ _ k _ H eq_refl); [|reflexivity|cbn; lia];
  match type of F with
  | agree_on ?lo ?sp ?m' (pushed ?sp ?m ?ws) =>
      rewrite (L _ _ n lo m' (rev ws) sp (pops_frame sp m m' ws n lo eq_refl ltac:(cbn; lia) ltac:(stack) F));
      [cbn [rev app]; repeat (rewrite set_regs_cons; cbn); rewrite set_regs_nil; cbn
      |reflexivity|cbn; lia|reflexivity|..]; [|try reflexivity..]
  end.

(** *** Vectors in memory *)

Definition handlers := vector -> Z.
Record vectors_installed (im : image) (h : handlers) (m : gmap Z Z) : Prop := {
  vi_data : forall v, im_code im (4 * vec_index v) = None /\ im_c im (4 * vec_index v) = None;
  vi_instr : forall v, ld m (4 * vec_index v) = LDR_PC_PC_24;
  vi_pool : forall v, ld m (32 + 4 * vec_index v) = h v
}.

Lemma vectors_agree im h m m' : vectors_installed im h m -> agree_on 0 64 m' m -> vectors_installed im h m'.
Proof.
  intros [Hd Hi Hp] Hm. split; [done| |]; intros v.
  - rewrite <-(Hi v). unfold ld. rewrite !u32_id by (destruct v; cbn; lia). f_equal. apply Hm. destruct v; cbn; lia.
  - rewrite <-(Hp v). unfold ld. rewrite !u32_id by (destruct v; cbn; lia). f_equal. apply Hm. destruct v; cbn; lia.
Qed.

(** The first step of an exception reaches its handler. *)
Lemma vector_step im h n s v :
  vectors_installed im h (a_mem s) -> ps_t (a_cpsr s) = false -> a_pc s = 4 * vec_index v ->
  run im (S n) s = run im n (with_pc (h v) s).
Proof.
  intros [Hd Hi Hp] Ht Hpc. destruct (Hd v) as [Hc Hf]. rewrite run_S. unfold step, fetch.
  rewrite Ht, Hpc, Hf, Hc, Hi. cbn. rewrite Hpc. repeat f_equal.
  rewrite <-(Hp v). f_equal. lia.
Qed.

Lemma length_13 (l : list Z) : length l = 13%nat ->
  exists a b c d e f g h i j k x y, l = [a; b; c; d; e; f; g; h; i; j; k; x; y].
Proof.
  intros Hl. do 13 (destruct l as [|? l]; [discriminate|]). destruct l; [|discriminate]. eauto 20.
Qed.

(** ** Interrupts *)

(** A state the theorems start from: thirteen registers, ARM state, word
    addresses that fit, low vectors. *)
Record arm_ok (s : arm) : Prop := {
  ok_len : length (a_gpr s) = 13%nat;
  ok_arm : ps_t (a_cpsr s) = false;
  ok_pc : 0 <= a_pc s < 4294967288;
  ok_low : Z.testbit (a_sctlr s) 13 = false
}.

(** The state at the call of [arm_irq_dispatch]. *)
Definition irq_call_state (arm_irq_entry_at dispatch : Z) (s : arm) : arm :=
  let sp := b_sp (a_irq s) in
  let g := a_gpr s in
  let m := pushed sp (a_mem s) [a_pc s; g !!! 12%nat; g !!! 3%nat; g !!! 2%nat; g !!! 1%nat; g !!! 0%nat] in
  let s := take_exception VIrq s in
  let w := psr_word (b_spsr (a_irq s)) in
  with_gpr (<[0%nat := w]> g)
    (with_mem (pushed (sp - 24) m [w])
      (with_pc dispatch (set_bank Irq (Bank (sp - 28) (arm_irq_entry_at + 20) (b_spsr (a_irq s))) s))).

Section Irq.
Context (im : image) (h : handlers) (dispatch : Z).
Hypothesis (Hcode : code_at im (h VIrq) (arm_irq_entry dispatch)).

Lemma irq_to_dispatch s n :
  arm_ok s -> vectors_installed im h (a_mem s) -> stack_ok (b_sp (a_irq s)) 7 -> ps_mode (a_cpsr s) <> Irq ->
  run im (6 + n) (take_exception VIrq s) = run im n (irq_call_state (h VIrq) dispatch s).
Proof.
  intros [Hl Ht Hpc Hlow] Hv Hs Hm. destruct s as [g fh usr fiq irq svc abt und [fl i f t md] pc m ct df ds ua].
  cbn in Hl, Ht, Hpc, Hlow, Hv, Hs, Hm. subst t.
  destruct (length_13 g Hl) as (r0&r1&r2&r3&r4&r5&r6&r7&r8&r9&r10&r11&r12&->).
  cbn [Nat.add].
  rewrite (vector_step im h _ _ VIrq); [|exact Hv|reflexivity|cbn; unfold vec_base; cbn; by rewrite Hlow].
  unfold irq_call_state. cbn.
  astep Hcode 0%nat. rewrite u32_sub_add by lia.
  apush Hcode 1%nat.
  astep Hcode 2%nat.
  apush Hcode 3%nat.
  astep Hcode 4%nat.
  repeat (f_equal; try lia).
Qed.

(** The interrupted state, with the memory and devices the dispatcher left. *)
Definition irq_resumed (s s_h : arm) : arm :=
  Arm (a_gpr s) (a_fiq_hi s) (a_usr s) (a_fiq s) (Bank (b_sp (a_irq s)) (b_lr (a_irq s_h)) (a_cpsr s))
    (a_svc s) (a_abt s) (a_und s) (a_cpsr s) (a_pc s) (a_mem s_h) (a_sctlr s) (a_dfar s_h) (a_dfsr s_h) (a_uart s_h).

(** [Pop [r0]] of the saved status is overwritten again; r0 to r3 and r12 were saved, the call kept r4 to r11. *)
Lemma restored_gpr (g g' : list Z) w :
  length g = 13%nat -> length g' = 13%nat ->
  (forall r, (4 <= r <= 11)%nat -> g' !!! r = (<[0%nat := w]> g) !!! r) ->
  <[12%nat := g !!! 12%nat]> (<[3%nat := g !!! 3%nat]> (<[2%nat := g !!! 2%nat]> (<[1%nat := g !!! 1%nat]>
    (<[0%nat := g !!! 0%nat]> g')))) = g.
Proof.
  intros Hl Hl' Hs. destruct (length_13 g Hl) as (r0&r1&r2&r3&r4&r5&r6&r7&r8&r9&r10&r11&r12&->).
  destruct (length_13 g' Hl') as (q0&q1&q2&q3&q4&q5&q6&q7&q8&q9&q10&q11&q12&->).
  pose proof (Hs 4%nat ltac:(lia)). pose proof (Hs 5%nat ltac:(lia)). pose proof (Hs 6%nat ltac:(lia)).
  pose proof (Hs 7%nat ltac:(lia)). pose proof (Hs 8%nat ltac:(lia)). pose proof (Hs 9%nat ltac:(lia)).
  pose proof (Hs 10%nat ltac:(lia)). pose proof (Hs 11%nat ltac:(lia)). cbn in *. congruence.
Qed.

Lemma irq_from_dispatch s s_h :
  arm_ok s -> stack_ok (b_sp (a_irq s)) 7 -> ps_mode (a_cpsr s) <> Irq ->
  c_call (b_sp (a_irq s)) (irq_call_state (h VIrq) dispatch s) s_h ->
  run im 3 s_h = Some (irq_resumed s s_h).
Proof.
  intros [Hl Ht Hpc Hlow] Hs Hm [Hl' Hg Hf Hpc' Hmode Harm Hsp Hb Hct Hmem].
  destruct s as [g fh usr fiq irq svc abt und p pc m ct df ds ua].
  destruct s_h as [g' fh' usr' fiq' irq' svc' abt' und' [fl i f t md] pc' m' ct' df' ds' ua'].
  cbn in Hl, Ht, Hpc, Hm, Hs, Hl', Hf, Hpc', Hmode, Harm, Hsp, Hct, Hmem, Hg. subst t md fh' pc' ct'.
  pose proof (Hb Usr ltac:(done) ltac:(done)). pose proof (Hb Fiq ltac:(done) ltac:(done)).
  pose proof (Hb Svc ltac:(done) ltac:(done)). pose proof (Hb Abt ltac:(done) ltac:(done)).
  pose proof (Hb Und ltac:(done) ltac:(done)). cbn in *. subst usr' fiq' svc' abt' und'. clear Hb.
  set (ws := [pc; g !!! 12%nat; g !!! 3%nat; g !!! 2%nat; g !!! 1%nat; g !!! 0%nat]) in *.
  assert (Hm1 : agree_on (b_sp irq - 28) (b_sp irq - 24) m' (pushed (b_sp irq - 24) (pushed (b_sp irq) m ws) [psr_word p])).
  { eapply agree_on_sub; [exact Hmem|lia|lia]. }
  assert (Hm6 : agree_on (b_sp irq - 24) (b_sp irq) m' (pushed (b_sp irq) m ws)).
  { etransitivity; [eapply agree_on_sub; [exact Hmem|lia|lia]|]. apply pushed_outside; [stack|by right]. }
  subst ws. apop Hcode 5%nat Hm1 1%nat exec_pop.
  astep Hcode 6%nat. rewrite list_lookup_total_insert_eq, word_psr_word by lia. cbn.
  apop Hcode 7%nat Hm6 6%nat exec_pop_exc.
  unfold irq_resumed, run. cbn. do 2 f_equal. eapply restored_gpr; [done|by rewrite length_insert|].
  intros r Hr. rewrite list_lookup_total_insert_ne by lia. by apply Hg.
Qed.
End Irq.

(** C11: an IRQ is invisible to what it interrupts.  From any mode but IRQ's
    own, the vector, the stub and whatever the C dispatcher does within the
    call standard bring back every register, banked ones included, the
    status register and the program counter; the stub's own stores stay in
    28 bytes of the IRQ stack. *)
Theorem irq_transparent (im : image) (h : handlers) (dispatch : Z) (f : arm -> option arm) (s s_h : arm) :
  code_at im (h VIrq) (arm_irq_entry dispatch) -> im_c im dispatch = Some f ->
  arm_ok s -> vectors_installed im h (a_mem s) -> stack_ok (b_sp (a_irq s)) 7 -> ps_mode (a_cpsr s) <> Irq ->
  let s_in := irq_call_state (h VIrq) dispatch s in
  f s_in = Some s_h -> c_call (b_sp (a_irq s)) s_in s_h ->
  run im 10 (take_exception VIrq s) = Some (irq_resumed s s_h) /\
  (forall lo hi, hi <= b_sp (a_irq s) - 28 \/ b_sp (a_irq s) <= lo -> agree_on lo hi (a_mem s_in) (a_mem s)).
Proof.
  intros Hcode Hf Hok Hv Hs Hm s_in Hr Hc. split.
  - change 10%nat with (6 + 4)%nat. rewrite (irq_to_dispatch im h dispatch Hcode s 4 Hok Hv Hs Hm).
    rewrite (run_c im 3 _ f) by (by destruct s). fold s_in. rewrite Hr. cbn.
    by apply (irq_from_dispatch im h dispatch Hcode s s_h).
  - intros lo hi Hd. subst s_in. destruct s. cbn in *.
    etransitivity; apply pushed_outside; cbn; [stack|destruct Hd; [left|right]; lia|stack|destruct Hd; [left|right]; lia].
Qed.

(** ** System calls *)

(** The two frames of a system call: the trampoline's on the user stack,
    the stub's on the SVC stack. *)
Definition user_frame (s : arm) : list Z :=
  let g := a_gpr s in [b_lr (a_usr s); g !!! 7%nat; g !!! 6%nat; g !!! 5%nat; g !!! 4%nat].
Definition svc_frame (ut : Z) (s : arm) : list Z :=
  let g := a_gpr s in
  [u32 (ut + 24); g !!! 11%nat; g !!! 10%nat; g !!! 9%nat; g !!! 8%nat; g !!! 0%nat; g !!! 6%nat;
   g !!! 5%nat; g !!! 4%nat].
Definition svc_memory (ut : Z) (s : arm) : gmap Z Z :=
  pushed (b_sp (a_svc s)) (pushed (b_sp (a_usr s)) (a_mem s) (user_frame s)) (svc_frame ut s).

(** The state at the call of [syscall_handler]: the trampoline at [ut] was
    called in user mode with the number and three arguments in r0 to r3. *)
Definition svc_call_state (ut se handler : Z) (s : arm) : arm :=
  let g := a_gpr s in
  let u := a_usr s in
  let p := a_cpsr s in
  Arm (<[7%nat := g !!! 0%nat]> g) (a_fiq_hi s) (Bank (b_sp u - 20) (b_lr u) (b_spsr u)) (a_fiq s) (a_irq s)
    (Bank (b_sp (a_svc s) - 36) (se + 24) p) (a_abt s) (a_und s)
    (Psr (ps_flags p) true (ps_f p) false Svc) handler (svc_memory ut s) (a_sctlr s) (a_dfar s) (a_dfsr s) (a_uart s).

(** The user state afterwards: r4 to r11 are back, r0 to r3 and r12 are the
    handler's. *)
Definition svc_returned (ut : Z) (s s_h : arm) : arm :=
  Arm (take 4 (a_gpr s_h) ++ take 8 (drop 4 (a_gpr s)) ++ drop 12 (a_gpr s_h)) (a_fiq_hi s) (a_usr s) (a_fiq s)
    (a_irq s) (Bank (b_sp (a_svc s)) (u32 (ut + 24)) (a_cpsr s)) (a_abt s) (a_und s) (a_cpsr s) (b_lr (a_usr s))
    (a_mem s_h) (a_sctlr s) (a_dfar s_h) (a_dfsr s_h) (a_uart s_h).

(** r4 to r11 come from the stub's frame, r4 to r7 again from the
    trampoline's, where r7 is not yet the number. *)
Lemma svc_gpr (g g' : list Z) n :
  length g = 13%nat -> length g' = 13%nat ->
  <[7%nat := g !!! 7%nat]> (<[6%nat := g !!! 6%nat]> (<[5%nat := g !!! 5%nat]> (<[4%nat := g !!! 4%nat]>
    (<[11%nat := g !!! 11%nat]> (<[10%nat := g !!! 10%nat]> (<[9%nat := g !!! 9%nat]> (<[8%nat := g !!! 8%nat]>
      (<[7%nat := n]> (<[6%nat := g !!! 6%nat]> (<[5%nat := g !!! 5%nat]> (<[4%nat := g !!! 4%nat]> g')))))))))))
  = take 4 g' ++ take 8 (drop 4 g) ++ drop 12 g'.
Proof.
  intros Hl Hl'. destruct (length_13 g Hl) as (r0&r1&r2&r3&r4&r5&r6&r7&r8&r9&r10&r11&r12&->).
  by destruct (length_13 g' Hl') as (q0&q1&q2&q3&q4&q5&q6&q7&q8&q9&q10&q11&q12&->).
Qed.

Section Svc.
Context (im : image) (h : handlers) (ut handler : Z).
Hypothesis (Hent : code_at im (h VSvc) (syscall_entry handler)).
Hypothesis (Hut : code_at im ut user_syscall).

(** A user program about to make a call. *)
Record svc_ready (s : arm) : Prop := {
  sr_ok : arm_ok s;
  sr_pc : a_pc s = ut;
  sr_mode : ps_mode (a_cpsr s) = Usr;
  sr_vec : vectors_installed im h (a_mem s);
  sr_user : stack_ok (b_sp (a_usr s)) 5 /\ 64 <= b_sp (a_usr s) - 20;
  sr_svc : stack_ok (b_sp (a_svc s)) 9;
  sr_apart : b_sp (a_svc s) <= b_sp (a_usr s) - 20 \/ b_sp (a_usr s) <= b_sp (a_svc s) - 36
}.

Lemma svc_to_handler s n :
  svc_ready s -> run im (13 + n) s = run im n (svc_call_state ut (h VSvc) handler s).
Proof.
  intros [[Hl Ht Hpc Hlow] Hu Hm Hv [Hs H64] Hs' _].
  destruct s as [g fh usr fiq irq svc abt und [fl i f t md] pc m ct df ds ua].
  cbn in Hl, Ht, Hpc, Hlow, Hu, Hm, Hv, Hs, H64, Hs'. subst t md pc.
  destruct (length_13 g Hl) as (r0&r1&r2&r3&r4&r5&r6&r7&r8&r9&r10&r11&r12&->).
  unfold svc_call_state, svc_memory, user_frame, svc_frame. cbn.
  apush Hut 0%nat.
  astep Hut 1%nat. astep Hut 2%nat. astep Hut 3%nat. astep Hut 4%nat. astep Hut 5%nat.
  rewrite (vector_step im h _ _ VSvc); [cbn| |reflexivity|].
  2: { cbn. eapply vectors_agree; [exact Hv|]. apply pushed_outside; [stack|left; cbn; lia]. }
  2: { cbn. by rewrite Hlow. }
  apush Hent 0%nat.
  astep Hent 1%nat. astep Hent 2%nat. astep Hent 3%nat. astep Hent 4%nat. astep Hent 5%nat.
  repeat (f_equal; try lia).
Qed.

Lemma svc_from_handler s s_h :
  svc_ready s -> c_call (b_sp (a_svc s)) (svc_call_state ut (h VSvc) handler s) s_h ->
  b_spsr (a_svc s_h) = a_cpsr s -> 0 <= ut < 4294967200 ->
  agree_on (b_sp (a_usr s) - 20) (b_sp (a_usr s)) (a_mem s_h) (a_mem (svc_call_state ut (h VSvc) handler s)) ->
  run im 3 s_h = Some (svc_returned ut s s_h).
Proof.
  intros [[Hl Ht Hpc Hlow] Hu Hm Hv [Hs H64] Hs' Hap] [Hl' Hg Hf Hpc' Hmode Harm Hsp Hb Hct Hmem] Hspsr Hr Humem.
  change (agree_on (b_sp (a_svc s) - 36) (b_sp (a_svc s)) (a_mem s_h) (svc_memory ut s)) in Hmem.
  change (agree_on (b_sp (a_usr s) - 20) (b_sp (a_usr s)) (a_mem s_h) (svc_memory ut s)) in Humem.
  destruct s as [g fh usr fiq irq svc abt und p pc m ct df ds ua].
  destruct s_h as [g' fh' usr' fiq' irq' svc' abt' und' [fl i f t md] pc' m' ct' df' ds' ua'].
  unfold svc_memory, user_frame, svc_frame in Hmem, Humem.
  cbn in Hl, Ht, Hpc, Hlow, Hu, Hm, Hs, H64, Hs', Hap, Hl', Hf, Hpc', Hmode, Harm, Hsp, Hct, Hmem, Hg, Hspsr, Humem.
  subst t md fh' pc' ct' pc.
  pose proof (Hb Usr ltac:(done) ltac:(done)). pose proof (Hb Fiq ltac:(done) ltac:(done)).
  pose proof (Hb Irq ltac:(done) ltac:(done)). pose proof (Hb Abt ltac:(done) ltac:(done)).
  pose proof (Hb Und ltac:(done) ltac:(done)). cbn in *. subst usr' fiq' irq' abt' und'. clear Hb.
  apop Hent 6%nat Hmem 9%nat exec_pop.
  astep Hent 7%nat. rewrite Hspsr, (u32_id (ut + 24)) by lia.
  destruct p as [pf pi pff pt pm]. cbn in Ht, Hm. subst pt pm. cbn.
  assert (Hu : agree_on (b_sp usr - 20) (b_sp usr) m' (pushed (b_sp usr) m
    [b_lr usr; g !!! 7%nat; g !!! 6%nat; g !!! 5%nat; g !!! 4%nat])).
  { etransitivity; [exact Humem|]. apply pushed_outside; [stack|cbn; destruct Hap; [right|left]; lia]. }
  apop Hut 6%nat Hu 5%nat exec_pop.
  unfold svc_returned, run. cbn. rewrite (u32_id (ut + 24)) by lia.
  rewrite <-(svc_gpr g g' (g !!! 0%nat) Hl Hl'). by destruct usr.
Qed.
End Svc.

(** C9: a system call carries its number and arguments to the handler and
    comes back.  From user mode, the trampoline, the vector and the stub
    call [syscall_handler] in SVC mode with IRQs masked and the caller's
    four arguments in order; when it returns within the call standard, the
    user goes on after the call with r4 to r11, stack pointer, status
    register and every bank as before, and memory as the handler left it. *)
Theorem syscall_round_trip (im : image) (h : handlers) (ut handler : Z) (f : arm -> option arm) (s s_h : arm) :
  code_at im (h VSvc) (syscall_entry handler) -> code_at im ut user_syscall -> im_c im handler = Some f ->
  0 <= ut < 4294967200 -> svc_ready im h ut s ->
  let s_in := svc_call_state ut (h VSvc) handler s in
  run im 13 s = Some s_in /\
  (take 4 (a_gpr s_in) = take 4 (a_gpr s) /\ cur_mode s_in = Svc /\ ps_i (a_cpsr s_in) = true) /\
  (f s_in = Some s_h -> c_call (b_sp (a_svc s)) s_in s_h -> b_spsr (a_svc s_h) = a_cpsr s ->
   agree_on (b_sp (a_usr s) - 20) (b_sp (a_usr s)) (a_mem s_h) (a_mem s_in) ->
   run im 17 s = Some (svc_returned ut s s_h)).
Proof.
  intros Hent Hut Hf Hr Hs s_in. split; [|split].
  - change 13%nat with (13 + 0)%nat. by rewrite (svc_to_handler im h ut handler Hent Hut s 0 Hs).
  - destruct s as [g ? ? ? ? ? ? ? p]. subst s_in. unfold svc_call_state. cbn.
    rewrite take_insert_ge by lia. done.
  - intros Hrun Hc Hsp Hm. change 17%nat with (13 + 4)%nat.
    rewrite (svc_to_handler im h ut handler Hent Hut s 4 Hs), (run_c im 3 _ f) by done.
    fold s_in. rewrite Hrun. cbn. by apply (svc_from_handler im h ut handler Hent Hut s s_h).
Qed.

(** ** Entering user mode *)

(** The literal status words of the stubs. *)
Lemma word_svc_off : word_psr CPSR_SVC_OFF = Some (Psr 0 true true false Svc).
Proof. done. Qed.
Lemma word_sys_off : word_psr 223 = Some (Psr 0 true true false Sys).
Proof. done. Qed.
Lemma word_irq_off : word_psr CPSR_IRQ_OFF = Some (Psr 0 true true false Irq).
Proof. done. Qed.
Lemma word_abt_off : word_psr CPSR_ABT_OFF = Some (Psr 0 true true false Abt).
Proof. done. Qed.
Lemma word_und_off : word_psr CPSR_UND_OFF = Some (Psr 0 true true false Und).
Proof. done. Qed.
Lemma word_user : word_psr 16 = Some (Psr 0 false false false Usr).
Proof. done. Qed.
#[local] Opaque CPSR_SVC_OFF CPSR_IRQ_OFF CPSR_ABT_OFF CPSR_UND_OFF.
Ltac words := first [rewrite word_svc_off|rewrite word_sys_off|rewrite word_irq_off|rewrite word_abt_off|rewrite word_und_off|rewrite word_user]; cbn.

Definition user_psr : psr := Psr 0 false false false Usr.

(** The state after the drop to user mode: [r0] was the entry point, [r1]
    the stack pointer. *)
Definition entered_user (s : arm) : arm :=
  let g := a_gpr s in
  Arm (<[2%nat := 16]> g) (a_fiq_hi s) (Bank (g !!! 1%nat) (b_lr (a_usr s)) (b_spsr (a_usr s))) (a_fiq s) (a_irq s)
    (Bank (b_sp (a_svc s)) (g !!! 0%nat) user_psr) (a_abt s) (a_und s) user_psr (g !!! 0%nat) (a_mem s)
    (a_sctlr s) (a_dfar s) (a_dfsr s) (a_uart s).

Lemma enter_user_run im base s :
  code_at im base enter_user_mode -> length (a_gpr s) = 13%nat -> ps_t (a_cpsr s) = false ->
  privileged (cur_mode s) = true -> a_pc s = base -> run im 8 s = Some (entered_user s).
Proof.
  intros Hc Hl Ht Hm Hpc. destruct s as [g fh usr fiq irq svc abt und [fl i f t md] pc m ct df ds ua].
  cbn in Hl, Ht, Hm, Hpc. subst t pc.
  destruct (length_13 g Hl) as (r0&r1&r2&r3&r4&r5&r6&r7&r8&r9&r10&r11&r12&->).
  astep Hc 0%nat. rewrite Hm. change 211 with CPSR_SVC_OFF. words.
  astep Hc 1%nat. words. astep Hc 2%nat. astep Hc 3%nat. change 211 with CPSR_SVC_OFF. words.
  astep Hc 4%nat. astep Hc 5%nat. words. astep Hc 6%nat. astep Hc 7%nat. done.
Qed.

(** C10: [enter_user_mode] hands the processor over unprivileged.  From any
    privileged mode its eight instructions end at the given entry point, in
    user mode, ARM state, both interrupts enabled and all flags clear, on
    the given user stack; the SVC stack pointer, on which the next system
    call will push, is unchanged.  The other registers are not cleared. *)
Theorem enter_user_mode_drops (im : image) (base : Z) (s : arm) :
  code_at im base enter_user_mode -> length (a_gpr s) = 13%nat -> ps_t (a_cpsr s) = false ->
  privileged (cur_mode s) = true -> a_pc s = base ->
  exists s', run im 8 s = Some s' /\
    privileged (cur_mode s') = false /\ a_cpsr s' = user_psr /\ psr_word (a_cpsr s') = 16 /\
    a_pc s' = a_gpr s !!! 0%nat /\ b_sp (cur_bank s') = a_gpr s !!! 1%nat /\
    b_sp (a_svc s') = b_sp (a_svc s) /\ a_mem s' = a_mem s /\ a_irq s' = a_irq s /\
    drop 3 (a_gpr s') = drop 3 (a_gpr s).
Proof.
  intros Hc Hl Ht Hm Hpc. exists (entered_user s). split; [by apply (enter_user_run im base)|].
  unfold entered_user. cbn. repeat split. by rewrite drop_insert_lt by lia.
Qed.

(** ** Panics *)

Lemma store_uart v s : store_word PL011_DR v s = with_uart (a_uart s ++ [v mod 256]) s.
Proof. done. Qed.
#[local] Opaque PL011_DR.
Ltac uart := rewrite store_uart; cbn.

(** What [_arm_panic_print] writes. *)
Definition panic_line (letter : Z) : list Z := [chr_E; chr_X; chr_C; chr_colon; letter mod 256; chr_nl].

(** The end of every panic: a branch to itself. *)
Definition hung (im : image) (s : arm) : Prop := forall n, run im n s = Some s.

Lemma panic_print im base s :
  code_at im base (arm_panic_print base) -> length (a_gpr s) = 13%nat -> ps_t (a_cpsr s) = false -> a_pc s = base ->
  exists s', run im 12 s = Some s' /\ a_uart s' = a_uart s ++ panic_line (a_gpr s !!! 0%nat) /\
    a_cpsr s' = a_cpsr s /\ a_mem s' = a_mem s /\ hung im s'.
Proof.
  intros Hc Hl Ht Hpc. destruct s as [g fh usr fiq irq svc abt und [fl i f t md] pc m ct df ds ua].
  cbn in Hl, Ht, Hpc. subst t pc.
  destruct (length_13 g Hl) as (r0&r1&r2&r3&r4&r5&r6&r7&r8&r9&r10&r11&r12&->).
  eexists. split; [|split; [|split; [|split]]].
  - astep Hc 0%nat. astep Hc 1%nat. astep Hc 2%nat. uart. astep Hc 3%nat. astep Hc 4%nat. uart.
    astep Hc 5%nat. astep Hc 6%nat. uart. astep Hc 7%nat. astep Hc 8%nat. uart. astep Hc 9%nat. uart.
    astep Hc 10%nat. astep Hc 11%nat. uart. reflexivity.
  - cbn. by rewrite <-!app_assoc.
  - done.
  - done.
  - intros n. induction n as [|n IH]; [done|]. astep Hc 12%nat. etransitivity; [|exact IH]. do 2 f_equal. lia.
Qed.

(** The stub's last two instructions, the [k]th and the next. *)
Lemma panic_tail im base l k letter panic s :
  code_at im base l -> l !! k = Some (MovI 0 letter) -> l !! S k = Some (B panic) ->
  code_at im panic (arm_panic_print panic) -> length (a_gpr s) = 13%nat -> ps_t (a_cpsr s) = false ->
  a_pc s = base + 4 * Z.of_nat k ->
  exists s', run im 14 s = Some s' /\ a_uart s' = a_uart s ++ panic_line letter /\ a_cpsr s' = a_cpsr s /\
    a_mem s' = a_mem s /\ hung im s'.
Proof.
  intros Hc Hk Hk' Hp Hl Ht Hpc. destruct s as [g fh usr fiq irq svc abt und [fl i f t md] pc m ct df ds ua].
  cbn in Hl, Ht, Hpc. subst t pc.
  set (s1 := Arm (<[0%nat := letter]> g) fh usr fiq irq svc abt und (Psr fl i f false md) panic m ct df ds ua).
  destruct (panic_print im panic s1) as (s' & Hr & Hu & Hcp & Hm & Hh); [done|cbn; by rewrite length_insert|done|done|].
  exists s'. cbn in Hu. rewrite list_lookup_total_insert_eq in Hu by lia. split; [|done].
  rewrite (run_code _ _ _ _ _ k _ Hc Hk) by done. cbn.
  rewrite (run_code _ _ _ _ _ (S k) _ Hc Hk'); [exact Hr|done|cbn; lia].
Qed.

Definition panic_letter (v : vector) : option Z :=
  match v with VUndef => Some 85 | VReserved => Some 82 | VFiq => Some 70 | _ => None end.

(** An exception nobody handles stops the machine loudly.  Undefined
    instruction, reserved vector and FIQ each print their line on UART0 and
    then loop on one instruction for ever, interrupts masked, memory
    untouched. *)
Theorem exception_panics (im : image) (h : handlers) (panic letter : Z) (v : vector) (s : arm) :
  panic_letter v = Some letter -> code_at im (h v) (panic_stub letter panic) ->
  code_at im panic (arm_panic_print panic) -> arm_ok s -> vectors_installed im h (a_mem s) ->
  exists s', run im 15 (take_exception v s) = Some s' /\ a_uart s' = a_uart s ++ panic_line letter /\
    ps_i (a_cpsr s') = true /\ a_mem s' = a_mem s /\ hung im s'.
Proof.
  intros Hv Hc Hp [Hl Ht Hpc Hlow] Hvec. unfold take_exception. cbv zeta.
  set (s1 := with_pc _ (with_cpsr _ _)).
  assert (H1 : length (a_gpr s1) = 13%nat /\ a_mem s1 = a_mem s /\ ps_t (a_cpsr s1) = false /\ ps_i (a_cpsr s1) = true /\
    a_uart s1 = a_uart s /\ a_pc s1 = 4 * vec_index v).
  { destruct s. unfold s1, vec_base. cbn in *. rewrite Hlow. by destruct v. }
  destruct H1 as (H1 & H2 & H3 & H4 & H5 & H6).
  destruct (panic_tail im (h v) _ 0 letter panic (with_pc (h v) s1) Hc eq_refl eq_refl Hp) as (s' & Hr & Hu & Hcp & Hm & Hh).
  - by destruct s1.
  - by destruct s1.
  - destruct s1. cbn. lia.
  - exists s'. rewrite (vector_step im h 14 s1 v); [|by rewrite H2|done|done].
    split; [done|]. destruct s1. cbn in *. subst. by repeat split.
Qed.

(** What an abort's diagnosis is given: the faulting address; for a data
    abort DFAR and DFSR; the status word of the interrupted program. *)
Definition abort_args (v : vector) (s : arm) : list Z :=
  match v with
  | VPabort => [a_pc s; psr_word (a_cpsr s)]
  | _ => [a_pc s; a_dfar s; a_dfsr s; psr_word (a_cpsr s)]
  end.
Definition abort_letter (v : vector) : Z := match v with VPabort => 80 | _ => 68 end.
Definition abort_stub (v : vector) (diag panic : Z) : list instr :=
  match v with VPabort => arm_pabort_panic diag panic | _ => arm_dabort_panic diag panic end.
Definition abort_steps (v : vector) : nat := match v with VPabort => 4 | _ => 6 end.

Lemma abort_to_diagnose im h diag panic v s :
  v = VPabort \/ v = VDabort -> code_at im (h v) (abort_stub v diag panic) -> arm_ok s ->
  vectors_installed im h (a_mem s) ->
  exists s_d, (forall n, run im (abort_steps v + n) (take_exception v s) = run im n s_d) /\ a_pc s_d = diag /\
    take (length (abort_args v s)) (a_gpr s_d) = abort_args v s /\ length (a_gpr s_d) = 13%nat /\
    cur_mode s_d = Abt /\ ps_t (a_cpsr s_d) = false /\ a_mem s_d = a_mem s /\
    b_lr (cur_bank s_d) = h v + 4 * Z.of_nat (abort_steps v - 1).
Proof.
  intros Hv Hc [Hl Ht Hpc Hlow] Hvec.
  destruct s as [g fh usr fiq irq svc abt und [fl i f t md] pc m ct df ds ua]. cbn in Hl, Ht, Hpc, Hlow, Hvec. subst t.
  destruct (length_13 g Hl) as (r0&r1&r2&r3&r4&r5&r6&r7&r8&r9&r10&r11&r12&->).
  destruct Hv as [-> | ->]; cbn in Hc.
  - eexists. split; [|split; [|split; [|split; [|split; [|split; [|split]]]]]].
    { intros n. cbn [abort_steps Nat.add]. rewrite (vector_step im h _ _ VPabort); [cbn|done|done|cbn; by rewrite Hlow].
      astep Hc 0%nat. rewrite u32_sub_add by lia. astep Hc 1%nat. astep Hc 2%nat. reflexivity. }
    all: cbn; try reflexivity. lia.
  - eexists. split; [|split; [|split; [|split; [|split; [|split; [|split]]]]]].
    { intros n. cbn [abort_steps Nat.add]. rewrite (vector_step im h _ _ VDabort); [cbn|done|done|cbn; by rewrite Hlow].
      astep Hc 0%nat. rewrite u32_sub_add by lia. astep Hc 1%nat. astep Hc 2%nat. astep Hc 3%nat. astep Hc 4%nat. reflexivity. }
    all: cbn; try reflexivity. lia.
Qed.

(** An abort is diagnosed before the machine stops.  Both abort stubs
    call their C routine with the faulting address and the interrupted
    status word, a data abort with the fault registers too; when it
    returns, the panic line follows what it printed and the machine hangs. *)
Theorem abort_diagnosed (im : image) (h : handlers) (diag panic top : Z) (f : arm -> option arm) (v : vector) (s : arm) :
  v = VPabort \/ v = VDabort -> code_at im (h v) (abort_stub v diag panic) ->
  code_at im panic (arm_panic_print panic) -> im_c im diag = Some f -> arm_ok s -> vectors_installed im h (a_mem s) ->
  exists s_d, run im (abort_steps v) (take_exception v s) = Some s_d /\ a_pc s_d = diag /\
    take (length (abort_args v s)) (a_gpr s_d) = abort_args v s /\
    (forall s_h, f s_d = Some s_h -> c_call top s_d s_h ->
     exists s', run im (abort_steps v + 15) (take_exception v s) = Some s' /\
       a_uart s' = a_uart s_h ++ panic_line (abort_letter v) /\ hung im s').
Proof.
  intros Hv Hc Hp Hf Hok Hvec.
  destruct (abort_to_diagnose im h diag panic v s Hv Hc Hok Hvec) as (s_d & Hr & Hpc & Ha & Hl & Hm & Hi & _ & Hlr).
  exists s_d. split; [by rewrite <-(Nat.add_0_r (abort_steps v)), Hr|]. split; [done|]. split; [done|].
  intros s_h Hrun Hcall. rewrite Hr, (run_c im 14 s_d f) by (by rewrite ?Hpc).
  rewrite Hrun. cbn.
  destruct Hv as [-> | ->].
  - destruct (panic_tail im (h VPabort) _ 3 80 panic s_h Hc eq_refl eq_refl Hp) as (s' & ? & ? & _ & _ & ?);
      [apply Hcall|apply Hcall|rewrite (cc_pc _ _ _ Hcall), Hlr; cbn; lia|eauto].
  - destruct (panic_tail im (h VDabort) _ 5 68 panic s_h Hc eq_refl eq_refl Hp) as (s' & ? & ? & _ & _ & ?);
      [apply Hcall|apply Hcall|rewrite (cc_pc _ _ _ Hcall), Hlr; cbn; lia|eauto].
Qed.

(** ** Boot *)

(** The sixteen words of the vector table copied down, [n] of them. *)
Definition copied (vectors : Z) (m : gmap Z Z) (n : nat) : gmap Z Z :=
  foldl (fun m k => st m (4 * Z.of_nat k) (ld m (vectors + 4 * Z.of_nat k))) m (seq 0 n).

Lemma copied_S vectors m n :
  copied vectors m (S n) =
  st (copied vectors m n) (4 * Z.of_nat n) (ld (copied vectors m n) (vectors + 4 * Z.of_nat n)).
Proof. unfold copied. by rewrite seq_S, foldl_snoc. Qed.

(** The copy reads what lay there before and writes the low words only. *)
Lemma copied_ld vectors m n a :
  (n <= 16)%nat -> 0 <= a < 4294967296 -> (forall k, (k < n)%nat -> a <> 4 * Z.of_nat k) ->
  ld (copied vectors m n) a = ld m a.
Proof.
  induction n as [|n IH]; intros Hn Ha Hk; [done|].
  rewrite copied_S, ld_st_ne; [apply IH; [lia|done|intros; apply Hk; lia]|].
  rewrite !u32_id by lia. apply Hk. lia.
Qed.
Lemma copied_low vectors m n k :
  (k < n <= 16)%nat -> 64 <= vectors < 4294967232 ->
  ld (copied vectors m n) (4 * Z.of_nat k) = ld m (vectors + 4 * Z.of_nat k).
Proof.
  induction n as [|n IH]; intros Hk Hv; [lia|]. rewrite copied_S. destruct (decide (k = n)) as [->|Hne].
  - rewrite ld_st_eq. apply copied_ld; lia.
  - rewrite ld_st_ne by (rewrite !u32_id by lia; lia). apply IH; lia.
Qed.

Lemma store_word_low a v s : 0 <= a < 64 -> store_word a v s = with_mem (st (a_mem s) a v) s.
Proof.
  intros Ha. unfold store_word. destruct (_ =? _) eqn:E; [|done]. apply Z.eqb_eq in E.
  rewrite u32_id in E by lia. change PL011_DR with 269422592 in E. lia.
Qed.

(** The comparison's Z flag. *)
Lemma cmp_flag_z x y fl i f t md :
  0 <= x < 4294967296 -> 0 <= y < 4294967296 -> flag_z (Psr (cmp_flags x y fl) i f t md) = (x =? y).
Proof.
  intros Hx Hy. unfold flag_z, cmp_flags. cbn [ps_flags].
  assert (Hd : (u32 (x - y) =? 0) = (x =? y)).
  { unfold u32. destruct (Z.eqb_spec x y) as [->|Hne]; [by rewrite Z.sub_diag|]. apply Z.eqb_neq. lia. }
  rewrite Hd. destruct (2147483648 <=? _), (x =? y), (y <=? x), (negb _); cbn [Z.b2z]; lia.
Qed.

Section Boot.
Context (im : image) (base vectors kmain : Z).
Hypothesis (Hcode : code_at im base (start kmain base vectors)).
Hypothesis (Hvec : 64 <= vectors < 4294967232).

(** The copy loop's state after [n] rounds; r3 and the flags vary. *)
Definition copy_state (s : arm) (r3 fl : Z) (n : nat) : arm :=
  let g := a_gpr s in
  Arm (<[0%nat := vectors + 4 * Z.of_nat n]> (<[1%nat := 4 * Z.of_nat n]> (<[2%nat := vectors + 64]> (<[3%nat := r3]> g))))
    (a_fiq_hi s) (a_usr s) (a_fiq s) (a_irq s) (a_svc s) (a_abt s) (a_und s) (Psr fl true true false Svc) (base + 56)
    (copied vectors (a_mem s) n) (a_sctlr s) (a_dfar s) (a_dfsr s) (a_uart s).

(** One round: back to the start of the loop, or after it. *)
Lemma copy_round s r3 fl n k :
  length (a_gpr s) = 13%nat -> (n < 16)%nat ->
  exists r3' fl', run im (4 + k) (copy_state s r3 fl n) =
    run im k (with_pc (if decide (n = 15)%nat then base + 72 else base + 56) (copy_state s r3' fl' (S n))).
Proof.
  intros Hl Hn. destruct s as [g fh usr fiq irq svc abt und p pc m ct df ds ua]. cbn in Hl.
  destruct (length_13 g Hl) as (r0&r1&r2&q3&r4&r5&r6&r7&r8&r9&r10&r11&r12&->).
  do 2 eexists. unfold copy_state. cbn [Nat.add a_gpr a_mem a_fiq_hi a_usr a_fiq a_irq a_svc a_abt a_und a_sctlr a_dfar a_dfsr a_uart].
  astep Hcode 14%nat. rewrite u32_id by lia.
  astep Hcode 15%nat. rewrite store_word_low by lia. cbn. rewrite u32_id by lia.
  astep Hcode 16%nat. astep Hcode 17%nat. rewrite cmp_flag_z by lia.
  replace (vectors + 4 * Z.of_nat n + 4) with (vectors + 4 * Z.of_nat (S n)) by lia.
  replace (4 * Z.of_nat n + 4) with (4 * Z.of_nat (S n)) by lia.
  rewrite <-copied_S. destruct (decide (n = 15)%nat) as [->|Hne].
  - replace (_ =? _) with true by (symmetry; apply Z.eqb_eq; lia).
    replace (base + 56 + 4 + 4 + 4 + 4) with (base + 72) by lia. reflexivity.
  - replace (_ =? _) with false by (symmetry; apply Z.eqb_neq; lia). reflexivity.
Qed.

Lemma copy_loop j s r3 fl n k :
  length (a_gpr s) = 13%nat -> (n + S j = 16)%nat ->
  exists r3' fl', run im (4 * S j + k) (copy_state s r3 fl n) =
    run im k (with_pc (base + 72) (copy_state s r3' fl' 16)).
Proof.
  intros Hl. revert r3 fl n. induction j as [|j IH]; intros r3 fl n Hn.
  - destruct (copy_round s r3 fl n k Hl ltac:(lia)) as (r3' & fl' & Hr). exists r3', fl'.
    change (4 * 1 + k)%nat with (4 + k)%nat. rewrite Hr, decide_True by lia. by replace (S n) with 16%nat by lia.
  - destruct (copy_round s r3 fl n (4 * S j + k) Hl ltac:(lia)) as (r3' & fl' & Hr).
    destruct (IH r3' fl' (S n) ltac:(lia)) as (r3'' & fl'' & Hr'). exists r3'', fl''. rewrite <-Hr'.
    replace (4 * S (S j) + k)%nat with (4 + (4 * S j + k))%nat by lia. rewrite Hr, decide_False by lia. done.
Qed.

(** The processor when the loop starts. *)
Definition stacks_set (s : arm) : arm :=
  let top t b := Bank t (b_lr b) (b_spsr b) in
  Arm (a_gpr s) (a_fiq_hi s) (a_usr s) (a_fiq s) (top STACK_IRQ_TOP (a_irq s)) (top STACK_SVC_TOP (a_svc s))
    (top STACK_ABT_TOP (a_abt s)) (top STACK_UND_TOP (a_und s)) (a_cpsr s) (a_pc s) (a_mem s)
    (Z.ldiff (a_sctlr s) 8192) (a_dfar s) (a_dfsr s) (a_uart s).

Lemma boot_to_loop s k :
  length (a_gpr s) = 13%nat -> ps_t (a_cpsr s) = false -> cur_mode s = Svc -> a_pc s = base ->
  exists r3 fl, run im (14 + k) s = run im k (copy_state (stacks_set s) r3 fl 0).
Proof.
  intros Hl Ht Hm Hpc. destruct s as [g fh usr fiq irq svc abt und [fl i f t md] pc m ct df ds ua].
  cbn in Hl, Ht, Hm, Hpc. subst t pc md.
  destruct (length_13 g Hl) as (r0&r1&r2&r3&r4&r5&r6&r7&r8&r9&r10&r11&r12&->).
  do 2 eexists. cbn [Nat.add].
  astep Hcode 0%nat. astep Hcode 1%nat. astep Hcode 2%nat. astep Hcode 3%nat.
  astep Hcode 4%nat. words. astep Hcode 5%nat. astep Hcode 6%nat. words. astep Hcode 7%nat.
  astep Hcode 8%nat. words. astep Hcode 9%nat. astep Hcode 10%nat. words.
  astep Hcode 11%nat. astep Hcode 12%nat. astep Hcode 13%nat. unfold copy_state. cbn.
  replace (_ + 4) with (base + 56) by lia. rewrite Z.add_0_r. reflexivity.
Qed.
End Boot.

(** The image keeps the low words for the vectors. *)
Definition low_is_data (im : image) : Prop :=
  forall v, im_code im (4 * vec_index v) = None /\ im_c im (4 * vec_index v) = None.

(** The words the linker placed at [_vectors_start]. *)
Definition vectors_at (vectors : Z) (h : handlers) (m : gmap Z Z) : Prop :=
  forall k w, vectors_image (h VReset) (h VUndef) (h VSvc) (h VPabort) (h VDabort) (h VReserved) (h VIrq) (h VFiq) !! k
              = Some w -> ld m (vectors + 4 * Z.of_nat k) = w.

Lemma copied_installs im vectors h m :
  low_is_data im -> vectors_at vectors h m -> 64 <= vectors < 4294967232 ->
  vectors_installed im h (copied vectors m 16).
Proof.
  intros Hlow Hat Hv. split; [done| |]; intros v.
  - replace (4 * vec_index v) with (4 * Z.of_nat (Z.to_nat (vec_index v))) by (destruct v; cbn; lia).
    rewrite copied_low by (destruct v; cbn; lia). apply Hat. by destruct v.
  - replace (32 + 4 * vec_index v) with (4 * Z.of_nat (8 + Z.to_nat (vec_index v))) by (destruct v; cbn; lia).
    rewrite copied_low by (destruct v; cbn; lia). apply Hat. by destruct v.
Qed.

(** C24: from reset the boot code reaches [kmain] ready for every exception.
    Seventy-nine instructions later the processor is in SVC mode with both
    interrupts masked and low vectors selected, each exception mode has its
    own 64 KB stack, the vector table at address 0 leads every exception to
    its handler, and no other word of memory has changed. *)
Theorem boot_reaches_kmain (im : image) (h : handlers) (base vectors kmain : Z) (s : arm) :
  code_at im base (start kmain base vectors) -> low_is_data im -> 64 <= vectors < 4294967232 ->
  vectors_at vectors h (a_mem s) -> length (a_gpr s) = 13%nat -> ps_t (a_cpsr s) = false -> cur_mode s = Svc ->
  a_pc s = base ->
  exists s', run im 79 s = Some s' /\ a_pc s' = kmain /\
    cur_mode s' = Svc /\ ps_i (a_cpsr s') = true /\ ps_f (a_cpsr s') = true /\ Z.testbit (a_sctlr s') 13 = false /\
    (b_sp (a_und s') = 851968 /\ b_sp (a_abt s') = 917504 /\ b_sp (a_irq s') = 983040 /\ b_sp (a_svc s') = 1048576) /\
    vectors_installed im h (a_mem s') /\
    (forall a, 64 <= a < 4294967296 -> ld (a_mem s') a = ld (a_mem s) a).
Proof.
  intros Hc Hlow Hv Hat Hl Ht Hm Hpc.
  destruct (boot_to_loop im base vectors kmain Hc s 65 Hl Ht Hm Hpc) as (r3 & fl & Hr1).
  destruct (copy_loop im base vectors kmain Hc Hv 15 (stacks_set s) r3 fl 0 1) as (r3' & fl' & Hr2); [by destruct s|done|].
  destruct s as [g fh usr fiq irq svc abt und p pc m ct df ds ua]. cbn in Hl, Hat.
  eexists. split; [|split; [|split; [|split; [|split; [|split; [|split; [|split]]]]]]].
  - change 79%nat with (14 + 65)%nat. rewrite Hr1. change 65%nat with (4 * 16 + 1)%nat. rewrite Hr2.
    rewrite (run_code _ _ _ _ _ 18%nat _ Hc eq_refl); [reflexivity|done|cbn; lia].
  - done.
  - done.
  - done.
  - done.
  - cbn [a_sctlr set_reg]. change (Z.testbit (Z.ldiff ct (2 ^ 13)) 13 = false). by rewrite Z.ldiff_spec, andb_false_r.
  - done.
  - by apply copied_installs.
  - intros a Ha. apply copied_ld; [lia|lia|]. intros k Hk. lia.
Qed.

(** ** A user program's start and end *)

(** What [main] returns is what SYS_EXIT gets.  [crt0_arm.S] calls
    [main(0, NULL)] on the stack it was entered with; when [main] returns,
    the trampoline is called with 3 and its result, and the kernel's handler
    is entered with them in SVC mode. *)
Theorem main_result_reaches_exit (im : image) (h : handlers) (base sys main_ handler top : Z) (f : arm -> option arm)
    (s s_m : arm) :
  code_at im base (crt0_start main_ base sys) -> code_at im sys user_syscall ->
  code_at im (h VSvc) (syscall_entry handler) -> im_c im main_ = Some f ->
  arm_ok s -> a_pc s = base -> cur_mode s = Usr -> 0 <= sys < 4294967288 ->
  let s_call := with_pc main_ (set_reg LR (base + 16) (with_gpr (<[1%nat := 0]> (<[0%nat := 0]> (<[7%nat := 0]> (a_gpr s)))) s)) in
  run im 4 s = Some s_call /\ take 2 (a_gpr s_call) = [0; 0] /\
  (f s_call = Some s_m -> c_call top s_call s_m -> vectors_installed im h (a_mem s_m) ->
   stack_ok (b_sp (a_usr s)) 5 -> 64 <= b_sp (a_usr s) - 20 -> stack_ok (b_sp (a_svc s)) 9 ->
   b_sp (a_svc s) <= b_sp (a_usr s) - 20 \/ b_sp (a_usr s) <= b_sp (a_svc s) - 36 ->
   exists s_in, run im 23 s = Some s_in /\ a_pc s_in = handler /\ cur_mode s_in = Svc /\
     take 4 (a_gpr s_in) = [3; a_gpr s_m !!! 0%nat; 0; 0]).
Proof.
  intros Hc Hsys Hent Hf [Hl Ht Hpc Hlow] Hb Hm Hr s_call.
  assert (Hcall : forall n, run im (4 + n) s = run im n s_call).
  { intros n. destruct s as [g fh usr fiq irq svc abt und [fl i ff t md] pc m ct df ds ua].
    cbn in Hl, Ht, Hpc, Hb, Hm. subst t pc md s_call. cbn [Nat.add].
    astep Hc 0%nat. astep Hc 1%nat. astep Hc 2%nat. astep Hc 3%nat. repeat (f_equal; try lia). }
  split; [by rewrite <-(Nat.add_0_r 4), Hcall|].
  split.
  { destruct s as [g ? ? ? ? ? ? ? [? ? ? ? ?]]. cbn in Hl, Hm. subst. 
    by destruct (length_13 g Hl) as (r0&r1&r2&r3&r4&r5&r6&r7&r8&r9&r10&r11&r12&->). }
  intros Hrun [Hl' Hg Hfh Hpc' Hmode Harm Hsp Hbk Hct Hst] Hv Hu H64 Hs Hap.
  destruct s as [g fh usr fiq irq svc abt und [fl i ff t md] pc m ct df ds ua].
  cbn in Hl, Ht, Hpc, Hb, Hm, Hlow, Hu, H64, Hs, Hap. subst t pc md.
  pose proof (Hbk Svc ltac:(done) ltac:(done)) as Hsvc. clear Hbk Hst Hg Hfh.
  destruct s_m as [g' fh' usr' fiq' irq' svc' abt' und' [fl' i' f' t' md'] pc' m' ct' df' ds' ua'].
  cbn in Hl', Hpc', Hmode, Harm, Hsp, Hct, Hsvc, Hv. subst pc' md' t' ct' svc'. cbn in Hsp.
  destruct (length_13 g' Hl') as (q0&q1&q2&q3&q4&q5&q6&q7&q8&q9&q10&q11&q12&->).
  set (s_t := Arm [3; q0; 0; 0; q4; q5; q6; q7; q8; q9; q10; q11; q12] fh'
    (Bank (b_sp usr') (base + 36) (b_spsr usr')) fiq' irq' svc abt' und' (Psr fl' i' f' false Usr) sys m' ct df' ds' ua').
  exists (svc_call_state sys (h VSvc) handler s_t). split; [|done].
  change 23%nat with (4 + 19)%nat. rewrite Hcall, (run_c im 18 _ f) by done. rewrite Hrun. cbn.
  astep Hc 4%nat. astep Hc 5%nat. astep Hc 6%nat. astep Hc 7%nat. astep Hc 8%nat.
  replace (base + 16 + 4 + 4 + 4 + 4 + 4) with (base + 36) by lia. fold s_t.
  apply (svc_to_handler im h sys handler Hent Hsys s_t 0). split; subst s_t; cbn; try done.
  - by rewrite Hsp.
  - by rewrite Hsp.
Qed.

(** ** A linked image to try the theorems on *)
Module Demo.
Definition seg_instr (base : Z) (l : list instr) (a : Z) : option instr :=
  if ((base <=? a) && ((a - base) mod 4 =? 0))%bool then l !! Z.to_nat ((a - base) / 4) else None.
Definition h (v : vector) : Z :=
  match v with VReset => 65536 | VUndef => 65792 | VSvc => 66048 | VPabort => 66304 | VDabort => 66560
             | VReserved => 66816 | VIrq => 67072 | VFiq => 67328 end.
Definition panic : Z := 67584.
Definition umode : Z := 67840.
Definition boot : Z := 68096.
Definition vectors : Z := 68608.
Definition crt0 : Z := 4194304.
Definition sys : Z := 4194560.
Definition cfun : Z := 131072.

(** Every C function of the demonstration lies at one address. *)
Definition segments : list (Z * list instr) :=
  [(h VUndef, arm_undef_panic panic); (h VSvc, syscall_entry cfun); (h VPabort, arm_pabort_panic cfun panic);
   (h VDabort, arm_dabort_panic cfun panic); (h VReserved, arm_reserved_panic panic); (h VIrq, arm_irq_entry cfun);
   (h VFiq, arm_fiq_panic panic); (panic, arm_panic_print panic); (umode, enter_user_mode);
   (boot, start cfun boot vectors); (crt0, crt0_start cfun crt0 sys); (sys, user_syscall)].
(** It returns 42 and nothing else. *)
Definition c_return (s : arm) : arm := with_pc (b_lr (cur_bank s)) (with_gpr (<[0%nat := 42]> (a_gpr s)) s).
Definition im : image :=
  Image (fun a => head (omap (fun seg => seg_instr seg.1 seg.2 a) segments))
        (fun a => if a =? cfun then Some (fun s => Some (c_return s)) else None).

Definition words_at (a : Z) (ws : list Z) (m : gmap Z Z) : gmap Z Z :=
  foldl (fun m kw => st m (a + 4 * Z.of_nat kw.1) kw.2) m (zip (seq 0 (length ws)) ws).
Definition table : list Z :=
  vectors_image (h VReset) (h VUndef) (h VSvc) (h VPabort) (h VDabort) (h VReserved) (h VIrq) (h VFiq).
Definition mem : gmap Z Z := words_at 0 table (words_at vectors table ∅).
Definition regs : list Z := [1; 2; 3; 4; 5; 6; 7; 8; 9; 10; 11; 12; 13].
Definition bk (sp : Z) : bank := Bank sp 0 user_psr.
Definition cpu (p : psr) (pc : Z) : arm :=
  Arm regs [] (bk 7340032) (bk 0) (bk 983040) (bk 1048576) (bk 917504) (bk 851968) p pc mem 0 77 78 [].
Definition svc_psr : psr := Psr 0 true true false Svc.

(** Proves that a segment is where [im] says. *)
Ltac linked :=
  intros k i Hk;
  repeat (destruct k as [|k]; [injection Hk as <-; split; vm_compute; reflexivity|]); discriminate.

Lemma installed : vectors_installed im h mem.
Proof. split; intros v; [split|..]; destruct v; vm_compute; reflexivity. Qed.
Lemma c_return_call top s : length (a_gpr s) = 13%nat -> ps_t (a_cpsr s) = false -> c_call top s (c_return s).
Proof.
  intros Hl Ht. destruct s as [g fh usr fiq irq svc abt und [fl i f t md] pc m ct df ds ua]. cbn in Hl, Ht. subst t.
  unfold c_return. split; cbn; try done.
  - by rewrite length_insert.
  - intros r Hr. by rewrite list_lookup_total_insert_ne by lia.
Qed.
Lemma user_ok pc : 0 <= pc < 4294967288 -> arm_ok (cpu user_psr pc).
Proof. by split. Qed.
End Demo.

Lemma irq_transparent_witness :
  ps_mode user_psr <> Irq /\
  exists s_h, run Demo.im 10 (take_exception VIrq (Demo.cpu user_psr 4194304)) = Some (irq_resumed (Demo.cpu user_psr 4194304) s_h).
Proof.
  split; [done|]. eexists.
  apply (irq_transparent Demo.im Demo.h Demo.cfun (fun s => Some (Demo.c_return s)) (Demo.cpu user_psr 4194304)
    (Demo.c_return (irq_call_state (Demo.h VIrq) Demo.cfun (Demo.cpu user_psr 4194304)))).
  - Demo.linked.
  - reflexivity.
  - apply Demo.user_ok. lia.
  - apply Demo.installed.
  - unfold stack_ok. cbn. lia.
  - done.
  - reflexivity.
  - by apply Demo.c_return_call.
Defined.
Lemma syscall_round_trip_witness :
  exists s_in, run Demo.im 13 (Demo.cpu user_psr Demo.sys) = Some s_in /\ take 4 (a_gpr s_in) = [1; 2; 3; 4] /\
    run Demo.im 17 (Demo.cpu user_psr Demo.sys) = Some (svc_returned Demo.sys (Demo.cpu user_psr Demo.sys) (Demo.c_return s_in)).
Proof.
  destruct (syscall_round_trip Demo.im Demo.h Demo.sys Demo.cfun (fun s => Some (Demo.c_return s)) (Demo.cpu user_psr Demo.sys)
    (Demo.c_return (svc_call_state Demo.sys (Demo.h VSvc) Demo.cfun (Demo.cpu user_psr Demo.sys)))) as (H1 & (H2 & _) & H3).
  - Demo.linked.
  - Demo.linked.
  - reflexivity.
  - unfold Demo.sys. lia.
  - split; [by apply Demo.user_ok|done|done|apply Demo.installed|unfold stack_ok; cbn; lia..].
  - eexists. split; [exact H1|]. split; [exact H2|]. apply H3; [done|by apply Demo.c_return_call|done|by intros x Hx].
Defined.

Lemma enter_user_mode_drops_witness :
  exists s', run Demo.im 8 (Demo.cpu Demo.svc_psr Demo.umode) = Some s' /\ a_pc s' = 1 /\ psr_word (a_cpsr s') = 16.
Proof.
  destruct (enter_user_mode_drops Demo.im Demo.umode (Demo.cpu Demo.svc_psr Demo.umode)) as (s' & Hr & _ & _ & Hw & Hp & _);
    [Demo.linked|done|done|done|done|exact (ex_intro _ s' (conj Hr (conj Hp Hw)))].
Defined.

Lemma exception_panics_witness :
  exists s', run Demo.im 15 (take_exception VUndef (Demo.cpu user_psr 4194304)) = Some s' /\
    a_uart s' = [69; 88; 67; 58; 85; 10] /\ hung Demo.im s'.
Proof.
  destruct (exception_panics Demo.im Demo.h Demo.panic 85 VUndef (Demo.cpu user_psr 4194304)) as (s' & Hr & Hu & _ & _ & Hh);
    [done|Demo.linked|Demo.linked|apply Demo.user_ok; lia|apply Demo.installed|exact (ex_intro _ s' (conj Hr (conj Hu Hh)))].
Defined.

Lemma abort_diagnosed_witness :
  exists s_d, run Demo.im 6 (take_exception VDabort (Demo.cpu user_psr 4194304)) = Some s_d /\
    take 4 (a_gpr s_d) = [4194304; 77; 78; 16].
Proof.
  destruct (abort_diagnosed Demo.im Demo.h Demo.cfun Demo.panic 0 (fun s => Some (Demo.c_return s)) VDabort
    (Demo.cpu user_psr 4194304)) as (s_d & Hr & _ & Ha & _);
    [by right|Demo.linked|Demo.linked|done|apply Demo.user_ok; lia|apply Demo.installed|exact (ex_intro _ s_d (conj Hr Ha))].
Defined.

Lemma boot_reaches_kmain_witness :
  exists s', run Demo.im 79 (Demo.cpu Demo.svc_psr Demo.boot) = Some s' /\ a_pc s' = Demo.cfun /\
    vectors_installed Demo.im Demo.h (a_mem s').
Proof.
  destruct (boot_reaches_kmain Demo.im Demo.h Demo.boot Demo.vectors Demo.cfun (Demo.cpu Demo.svc_psr Demo.boot))
    as (s' & Hr & Hp & _ & _ & _ & _ & _ & Hv & _).
  - Demo.linked.
  - intros v. split; destruct v; vm_compute; reflexivity.
  - unfold Demo.vectors. lia.
  - intros k w Hk. repeat (destruct k as [|k]; [injection Hk as <-; vm_compute; reflexivity|]). discriminate.
  - done.
  - done.
  - done.
  - done.
  - exact (ex_intro _ s' (conj Hr (conj Hp Hv))).
Defined.

Lemma main_result_reaches_exit_witness :
  exists s_in, run Demo.im 23 (Demo.cpu user_psr Demo.crt0) = Some s_in /\ take 4 (a_gpr s_in) = [3; 42; 0; 0].
Proof.
  set (s_call := with_pc Demo.cfun (set_reg LR (Demo.crt0 + 16)
    (with_gpr (<[1%nat := 0]> (<[0%nat := 0]> (<[7%nat := 0]> Demo.regs))) (Demo.cpu user_psr Demo.crt0)))).
  destruct (main_result_reaches_exit Demo.im Demo.h Demo.crt0 Demo.sys Demo.cfun Demo.cfun 0 (fun s => Some (Demo.c_return s))
    (Demo.cpu user_psr Demo.crt0) (Demo.c_return s_call)) as (_ & _ & H).
  - Demo.linked.
  - Demo.linked.
  - Demo.linked.
  - reflexivity.
  - by apply Demo.user_ok.
  - done.
  - done.
  - done.
  - destruct H as (s_in & Hr & _ & _ & Ha);
      [done|by apply Demo.c_return_call|apply Demo.installed|unfold stack_ok; cbn; lia..|exact (ex_intro _ s_in (conj Hr Ha))].
Defined.
