(* ===== verification/X86Traps.v ===== *)
(** * x86 entry and exit paths

    kernel/arch/x86/isr_stubs.S, syscall.S, enter_user_mode.S, the frame
    [struct regs] and do_exception of isr.c, init.c, and
    user/lib/syscall_x86.S, on a small protected-mode machine with segment
    selectors, privilege levels and the interrupt table of Interrupts.
    Instructions have the addresses the linker gave them; C functions are
    parameters that keep the cdecl convention ([c_call]).  Paging is off, as
    in the source. *)
From stdpp Require Import strings.
From S2P Require Import Prelude Types Circular Ring Auditor Tasks Scheduler Interrupts Switch Log Stack.

(** ** The processor *)

Definition EAX : nat := 0.
Definition ECX : nat := 1.
Definition EDX : nat := 2.
Definition EBX : nat := 3.
Definition ESP : nat := 4.
Definition EBP : nat := 5.
Definition ESI : nat := 6.
Definition EDI : nat := 7.

Inductive sreg := DS | ES | FS | GS.

(** [x_r] is the eight registers in the order [pusha] stores them. *)
Record x86 := X86m {
  x_r : list Z; x_eip : Z; x_efl : Z; x_cs : Z; x_ss : Z; x_ds : Z; x_es : Z; x_fs : Z; x_gs : Z;
  x_mem : gmap Z Z
}.

Definition with_r r s := X86m r (x_eip s) (x_efl s) (x_cs s) (x_ss s) (x_ds s) (x_es s) (x_fs s) (x_gs s) (x_mem s).
Definition with_eip a s := X86m (x_r s) a (x_efl s) (x_cs s) (x_ss s) (x_ds s) (x_es s) (x_fs s) (x_gs s) (x_mem s).
Definition with_efl f s := X86m (x_r s) (x_eip s) f (x_cs s) (x_ss s) (x_ds s) (x_es s) (x_fs s) (x_gs s) (x_mem s).
Definition with_code cs ss s := X86m (x_r s) (x_eip s) (x_efl s) cs ss (x_ds s) (x_es s) (x_fs s) (x_gs s) (x_mem s).
Definition with_xmem m s := X86m (x_r s) (x_eip s) (x_efl s) (x_cs s) (x_ss s) (x_ds s) (x_es s) (x_fs s) (x_gs s) m.
Definition get_s (g : sreg) (s : x86) : Z := match g with DS => x_ds s | ES => x_es s | FS => x_fs s | GS => x_gs s end.
Definition set_s (g : sreg) (v : Z) (s : x86) : x86 :=
  let pick b old := if b : bool then v else old in
  X86m (x_r s) (x_eip s) (x_efl s) (x_cs s) (x_ss s)
    (pick (match g with DS => true | _ => false end) (x_ds s)) (pick (match g with ES => true | _ => false end) (x_es s))
    (pick (match g with FS => true | _ => false end) (x_fs s)) (pick (match g with GS => true | _ => false end) (x_gs s))
    (x_mem s).
Definition reg (r : nat) (s : x86) : Z := x_r s !!! r.
Definition set_r (r : nat) (v : Z) (s : x86) : x86 := with_r (<[r := v]> (x_r s)) s.
Definition cpl (s : x86) : Z := x_cs s mod 4.

(** EFLAGS: the interrupt flag, and what an interrupt gate clears with it
    (TF, NT, RF, VM). *)
Definition IF : Z := 512.
Definition gate_clears : Z := 213760.

(** ** Segments *)

(** The table [gdt_init] loads. *)
Definition kernel_gdt : list X86.gdt_entry := X86.gdt_init (replicate 5 (X86.GdtEntry 0 0 0 0 0 0)).
Definition descriptor (sel : Z) : option X86.gdt_entry :=
  if ((sel / 4 mod 2 =? 0) && (1 <=? sel / 8))%bool then kernel_gdt !! Z.to_nat (sel / 8) else None.
Definition seg_dpl (d : X86.gdt_entry) : Z := X86.g_access d / 32 mod 4.
Definition is_code (d : X86.gdt_entry) : bool := Z.testbit (X86.g_access d) 3.
(** Readable for code, writable for data. *)
Definition is_rw (d : X86.gdt_entry) : bool := Z.testbit (X86.g_access d) 1.

(** DS, ES, FS, GS take the null selector, or data that both privilege
    levels may use. *)
Definition data_ok (level sel : Z) : bool :=
  if sel / 4 =? 0 then true
  else match descriptor sel with
       | Some d => ((negb (is_code d) || is_rw d) && (Z.max level (sel mod 4) <=? seg_dpl d))%bool
       | None => false
       end.
(** CS and SS for a return to privilege [level]. *)
Definition code_ok (level sel : Z) : bool :=
  match descriptor sel with Some d => (is_code d && (seg_dpl d =? level) && (sel mod 4 =? level))%bool | None => false end.
Definition stack_sel_ok (level sel : Z) : bool :=
  match descriptor sel with
  | Some d => (negb (is_code d) && is_rw d && (seg_dpl d =? level) && (sel mod 4 =? level))%bool
  | None => false
  end.

(** ** Interrupt delivery *)

(** What the task register gives for a change to ring 0. *)
Record tss := Tss { ts_ss0 : Z; ts_esp0 : Z }.

Definition push_words (ws : list Z) (s : x86) : x86 :=
  let '(sp, m) := pushes (reg ESP s) (x_mem s) ws in with_xmem m (set_r ESP sp s).

(** Vector [n] with the error code the processor adds, if any; [soft] for an
    [int] instruction.  [None]: the delivery faults. *)
Definition deliver (idt : list X86.idt_entry) (tr : option tss) (n : nat) (err : list Z) (soft : bool) (s : x86)
    : option x86 :=
  let e := idt !!! n in
  if negb (gate_present e) then None
  else if (soft && (gate_dpl e <? cpl s))%bool then None
  else
    s' ← if cpl s =? 0 then Some (push_words ([x_efl s; x_cs s; x_eip s] ++ err) s)
         else match tr with
              | None => None
              | Some t =>
                  if stack_sel_ok 0 (ts_ss0 t)
                  then Some (push_words ([x_ss s; reg ESP s; x_efl s; x_cs s; x_eip s] ++ err)
                               (with_code (x_cs s) (ts_ss0 t) (set_r ESP (ts_esp0 t) s)))
                  else None
              end;
    Some (with_eip (gate_base e) (with_code (X86.g_sel e) (x_ss s') (with_efl (Z.ldiff (x_efl s) gate_clears) s'))).

(** ** Instructions *)

Inductive instr :=
  | Cli
  | PushI (imm : Z)
  | Push (r : nat)
  | PushS (g : sreg)
  | Pushf
  | Pop (r : nat)
  | PopS (g : sreg)
  | Pusha
  | Popa
  | MovI (r : nat) (imm : Z)              (* movl $imm, %r *)
  | MovW (r : nat) (imm : Z)              (* movw $imm, %r: the low half *)
  | Mov (rd rs : nat)                     (* movl %rs, %rd *)
  | MovLd (r : nat) (disp : Z)            (* movl disp(%esp), %r *)
  | MovS (g : sreg) (r : nat)             (* movw %r, %g *)
  | AddEsp (imm : Z)                      (* addl $imm, %esp *)
  | OrI (r : nat) (imm : Z)               (* orl $imm, %r *)
  | Jmp (a : Z)
  | Call (a : Z)
  | Ret
  | Int (n : nat)
  | Iret
  | Popf
  | Lgdt (r : nat) (table : Z)            (* lgdt (%r) *)
  | MovSS (r : nat)                       (* movw %r, %ss *)
  | Ljmp (sel a : Z)
  | Hlt.

Section Exec.
Context (idt : list X86.idt_entry) (tr : option tss).

Definition pop_word (s : x86) : Z * x86 := (ld (x_mem s) (reg ESP s), set_r ESP (u32 (reg ESP s + 4)) s).

(** [iret]: to the same privilege level, or to an outer one with a new
    stack.  A return inwards faults. *)
Definition iret (s : x86) : option x86 :=
  let at_ k := ld (x_mem s) (u32 (reg ESP s + 4 * k)) in
  let cs := at_ 1 in
  if cs mod 4 =? cpl s then
    if code_ok (cpl s) cs
    then Some (with_eip (at_ 0) (with_efl (at_ 2) (with_code cs (x_ss s) (set_r ESP (u32 (reg ESP s + 12)) s))))
    else None
  else if cpl s <? cs mod 4 then
    if (code_ok (cs mod 4) cs && stack_sel_ok (cs mod 4) (at_ 4))%bool then
      (* data segments the new level may not use become null *)
      let drop sel := if data_ok (cs mod 4) sel then sel else 0 in
      let s := set_r ESP (at_ 3) (with_eip (at_ 0) (with_efl (at_ 2) (with_code cs (at_ 4) s))) in
      Some (set_s DS (drop (x_ds s)) (set_s ES (drop (x_es s)) (set_s FS (drop (x_fs s)) (set_s GS (drop (x_gs s)) s))))
    else None
  else None.

(** The flags [popf] sets at privilege level 0; bit 1 always reads 1. *)
Definition popf_mask : Z := 2392021.
(** What [lgdt] reads: the limit, 16 bits, and the base, 32. *)
Definition gdt_ptr (m : gmap Z Z) (p : Z) : Z * Z :=
  (ld m p mod 65536, ld m p / 65536 + ld m (p + 4) mod 65536 * 65536).

(** [next] is the address of the instruction after this one.  The segment
    checks use [kernel_gdt] throughout, so [lgdt] must load that table, which
    [gdt_init] has written at [table]. *)
Definition exec (i : instr) (next : Z) (s : x86) : option x86 :=
  let go s := Some (with_eip next s) in
  match i with
  | Cli => if cpl s =? 0 then go (with_efl (Z.ldiff (x_efl s) IF) s) else None
  | PushI imm => go (push_words [imm] s)
  | Push r => go (push_words [reg r s] s)
  | PushS g => go (push_words [get_s g s] s)
  | Pushf => go (push_words [x_efl s] s)
  | Pop r => let '(w, s) := pop_word s in go (set_r r w s)
  | PopS g => let '(w, s) := pop_word s in if data_ok (cpl s) (w mod 65536) then go (set_s g (w mod 65536) s) else None
  | Pusha => go (push_words (x_r s) s)
  | Popa =>
      let at_ k := ld (x_mem s) (u32 (reg ESP s + 4 * k)) in
      go (with_r [at_ 7; at_ 6; at_ 5; at_ 4; u32 (reg ESP s + 32); at_ 2; at_ 1; at_ 0] s)
  | MovI r imm => go (set_r r imm s)
  | MovW r imm => go (set_r r (reg r s / 65536 * 65536 + imm) s)
  | Mov rd rs => go (set_r rd (reg rs s) s)
  | MovLd r disp => go (set_r r (ld (x_mem s) (u32 (reg ESP s + disp))) s)
  | MovS g r => if data_ok (cpl s) (reg r s mod 65536) then go (set_s g (reg r s mod 65536) s) else None
  | AddEsp imm => go (set_r ESP (u32 (reg ESP s + imm)) s)
  | OrI r imm => go (set_r r (Z.lor (reg r s) imm) s)
  | Jmp a => Some (with_eip a s)
  | Call a => Some (with_eip a (push_words [next] s))
  | Ret => let '(w, s) := pop_word s in Some (with_eip w s)
  | Int n => deliver idt tr n [] true (with_eip next s)
  | Iret => iret s
  | Popf =>
      let '(w, s) := pop_word s in if cpl s =? 0 then go (with_efl (Z.lor (Z.land w popf_mask) 2) s) else None
  | Lgdt r table =>
      let '(limit, base) := gdt_ptr (x_mem s) (reg r s) in
      if ((cpl s =? 0) && (limit =? 39) && (base =? table))%bool then go s else None
  | MovSS r =>
      if stack_sel_ok (cpl s) (reg r s mod 65536) then go (with_code (x_cs s) (reg r s mod 65536) s) else None
  | Ljmp sel a => if code_ok (cpl s) sel then Some (with_eip a (with_code sel (x_ss s) s)) else None
  | Hlt => if cpl s =? 0 then Some s else None  (* no interrupt in this machine wakes it *)
  end.

(** The linked image: each instruction with the address of the next one, and
    the C functions. *)
Record image := Image { im_code : Z -> option (instr * Z); im_c : Z -> option (x86 -> option x86) }.

Definition step (im : image) (s : x86) : option x86 :=
  match im_c im (x_eip s) with
  | Some f => f s
  | None => '(i, next) ← im_code im (x_eip s); exec i next s
  end.
Fixpoint run (im : image) (n : nat) (s : x86) : option x86 :=
  match n with O => Some s | S n => s' ← step im s; run im n s' end.

(** [l] lies at the addresses [at_]. *)
Definition code_at (im : image) (at_ : nat -> Z) (l : list instr) : Prop :=
  forall k i, l !! k = Some i -> im_code im (at_ k) = Some (i, at_ (S k)) /\ im_c im (at_ k) = None.
End Exec.

(** ** Programs *)
Section Programs.
Context (isr_common irq_common do_exception_at do_irq_at syscall_handler_at : Z).

(** isr_stubs.S *)
Definition ISR_NOERR (num : Z) : list instr := [Cli; PushI 0; PushI num; Jmp isr_common].
Definition ISR_ERR (num : Z) : list instr := [Cli; PushI num; Jmp isr_common].
Definition IRQ_STUB (n : Z) : list instr := [Cli; PushI 0; PushI n; Jmp irq_common].

(** The stubs of vectors 0 to 31, as the file lists them. *)
Definition isr_stubs : list (list instr) :=
  [ISR_NOERR 0; ISR_NOERR 1; ISR_NOERR 2; ISR_NOERR 3; ISR_NOERR 4; ISR_NOERR 5; ISR_NOERR 6; ISR_NOERR 7;
   ISR_ERR 8; ISR_NOERR 9; ISR_ERR 10; ISR_ERR 11; ISR_ERR 12; ISR_ERR 13; ISR_ERR 14; ISR_NOERR 15;
   ISR_NOERR 16; ISR_ERR 17; ISR_NOERR 18; ISR_NOERR 19; ISR_NOERR 20; ISR_ERR 21; ISR_NOERR 22; ISR_NOERR 23;
   ISR_NOERR 24; ISR_NOERR 25; ISR_NOERR 26; ISR_NOERR 27; ISR_NOERR 28; ISR_NOERR 29; ISR_NOERR 30; ISR_NOERR 31].
Definition irq_stubs : list (list instr) := IRQ_STUB <$> [0; 1; 2; 3; 4; 5; 6; 7; 8; 9; 10; 11; 12; 13; 14; 15].

Definition common (handler : Z) : list instr :=
  [Pusha; PushS DS; PushS ES; PushS FS; PushS GS; MovI EAX 16; MovS DS EAX; MovS ES EAX; MovS FS EAX; MovS GS EAX;
   Push ESP; Call handler; AddEsp 4; PopS GS; PopS FS; PopS ES; PopS DS; Popa; AddEsp 8; Iret].
Definition isr_common_code : list instr := common do_exception_at.
Definition irq_common_code : list instr := common do_irq_at.

(** syscall.S and user/lib/syscall_x86.S *)
Definition syscall_entry : list instr :=
  [Push EBP; Mov EBP ESP; Pusha; Push EDX; Push ECX; Push EBX; Push EAX; Call syscall_handler_at; AddEsp 16; Popa;
   Pop EBP; Iret].
Definition user_syscall : list instr :=
  [Push EBX; MovLd EAX 8; MovLd EBX 12; MovLd ECX 16; MovLd EDX 20; Int 128; Pop EBX; Ret].

(** enter_user_mode.S *)
Definition enter_user_mode : list instr :=
  [MovLd EDX 4; MovLd EAX 8; MovW ECX 35; MovS DS ECX; MovS ES ECX; MovS FS ECX; MovS GS ECX;
   PushI 35; Push EAX; Pushf; Pop ECX; OrI ECX 512; Push ECX; PushI 27; Push EDX; Iret].
End Programs.

(** ** isr.c *)

Record regs := Regs {
  r_gs : Z; r_fs : Z; r_es : Z; r_ds : Z;
  r_edi : Z; r_esi : Z; r_ebp : Z; r_esp_d : Z; r_ebx : Z; r_edx : Z; r_ecx : Z; r_eax : Z;
  r_int_no : Z; r_err_code : Z; r_eip : Z; r_cs : Z; r_eflags : Z
}.
(** [*(struct regs * )p] *)
Definition load_regs (m : gmap Z Z) (p : Z) : regs :=
  let w k := ld m (p + 4 * k) in
  Regs (w 0) (w 1) (w 2) (w 3) (w 4) (w 5) (w 6) (w 7) (w 8) (w 9) (w 10) (w 11) (w 12) (w 13) (w 14) (w 15) (w 16).

Definition exc_names : list (list Z) :=
  chars <$>
  ["Divide-by-zero"; "Debug"; "NMI"; "Breakpoint"; "Overflow"; "Bound Range Exceeded"; "Invalid Opcode";
   "Device Not Available"; "Double Fault"; "Coprocessor Seg Ovr"; "Invalid TSS"; "Segment Not Present";
   "Stack-Segment Fault"; "General Protection"; "Page Fault"; "Reserved"; "x87 FP Exception"; "Alignment Check";
   "Machine Check"; "SIMD FP Exception"; "Virtualisation"; "Control Protection"; "Reserved"; "Reserved"; "Reserved";
   "Reserved"; "Reserved"; "Reserved"; "Reserved"; "Reserved"; "Reserved"; "Reserved"]%string.
(** The line printed before the halt; the name table has 32 entries. *)
Definition do_exception {AM : ArgMem} (ticks : Z) (r : regs) : option (list Z) :=
  let name := if r_int_no r <? 32 then default [] (exc_names !! Z.to_nat (r_int_no r)) else chars "Unknown" in
  log_message LOG_FATAL ticks (chars "EXCEPTION %u (%s) err=0x%x eip=0x%x cs=0x%x" ++ [10])
    [VInt (r_int_no r); VStr (Some name); VInt (r_err_code r); VInt (r_eip r); VInt (r_cs r)].

(** ** The cdecl convention

    Of a function called with [n] stack words of arguments, which it may
    overwrite: it returns to the word on top of the stack with EBX, EBP,
    ESI, EDI and the segments as they were. *)
Record c_call (n : Z) (top : Z) (s s' : x86) : Prop := {
  cc_len : length (x_r s') = 8%nat;
  cc_saved : reg EBX s' = reg EBX s /\ reg EBP s' = reg EBP s /\ reg ESI s' = reg ESI s /\ reg EDI s' = reg EDI s;
  cc_esp : reg ESP s' = reg ESP s + 4;
  cc_eip : x_eip s' = ld (x_mem s) (reg ESP s);
  cc_cs : x_cs s' = x_cs s /\ x_ss s' = x_ss s;
  cc_segs : x_ds s' = x_ds s /\ x_es s' = x_es s /\ x_fs s' = x_fs s /\ x_gs s' = x_gs s;
  cc_stack : agree_on (reg ESP s + 4 + 4 * n) top (x_mem s') (x_mem s)
}.

(** ** Symbolic execution *)
#[local] Arguments with_r _ !s /.
#[local] Arguments with_eip _ !s /.
#[local] Arguments with_efl _ !s /.
#[local] Arguments with_code _ _ !s /.
#[local] Arguments with_xmem _ !s /.
#[local] Arguments get_s !g !s /.
#[local] Arguments set_s !g _ !s /.
#[local] Arguments reg !r !s /.
#[local] Arguments set_r !r _ !s /.
#[local] Arguments cpl !s /.
#[local] Arguments pop_word !s /.
#[local] Arguments push_words : simpl never.
#[local] Arguments deliver : simpl never.
#[local] Arguments iret : simpl never.
#[local] Arguments data_ok : simpl never.
#[local] Arguments code_ok : simpl never.
#[local] Arguments stack_sel_ok : simpl never.

Lemma x86_run_S idt tr im n s : run idt tr im (S n) s = step idt tr im s ≫= run idt tr im n.
Proof. done. Qed.
Lemma x86_run_code idt tr im n s at_ l k i :
  code_at im at_ l -> l !! k = Some i -> x_eip s = at_ k ->
  run idt tr im (S n) s = exec idt tr i (at_ (S k)) s ≫= run idt tr im n.
Proof. intros Hc Hl He. destruct (Hc k i Hl) as [Hi Hf]. rewrite x86_run_S. unfold step. by rewrite He, Hf, Hi. Qed.
Lemma x86_run_c idt tr im n s f :
  im_c im (x_eip s) = Some f -> run idt tr im (S n) s = f s ≫= run idt tr im n.
Proof. intros Hf. rewrite x86_run_S. unfold step. by rewrite Hf. Qed.
#[local] Arguments run : simpl never.

(** A push onto a stack whose words so far are [ws], from [sp] down. *)
Lemma push_frame sp m ws ws' k s :
  x_mem s = pushed sp m ws -> reg ESP s = sp - 4 * Z.of_nat (length ws) -> k = 4 * Z.of_nat (length (ws ++ ws')) ->
  stack_ok sp (length (ws ++ ws')) ->
  push_words ws' s = with_xmem (pushed sp m (ws ++ ws')) (set_r ESP (sp - k) s).
Proof.
  intros Hm Hr -> Hs. rewrite length_app in *. unfold push_words. rewrite Hm, Hr, pushes_eq by (unfold stack_ok in *; lia).
  rewrite pushed_app by (unfold stack_ok in *; lia). repeat (f_equal; try lia).
Qed.

Ltac xstep H k := rewrite (x86_run_code _ _ _ _ _ _ _ k _ H eq_refl) by reflexivity; cbn.
(** A push in a state whose memory is a frame. *)
Ltac xframe :=
  match goal with
  | |- context [push_words ?ws' (X86m ?r ?e ?f ?c ?s ?d ?x ?y ?z (pushed ?sp ?m ?ws))] =>
      let k := eval vm_compute in (4 * Z.of_nat (length (ws ++ ws'))) in
      rewrite (push_frame sp m ws ws' k (X86m r e f c s d x y z (pushed sp m ws)) eq_refl) by (cbn; stack); cbn
  end.
Ltac xpush H k := xstep H k; xframe.

Lemma data_ok_kernel : data_ok 0 16 = true.
Proof. done. Qed.
Lemma data_ok_user : data_ok 0 35 = true.
Proof. done. Qed.
Lemma u32_shift sp a b c : c = a - b -> 0 <= sp - c < 4294967296 -> u32 (sp - a + b) = sp - c.
Proof. intros -> Hr. rewrite u32_id; lia. Qed.
(** Stack addresses as a distance from the frame's top. *)
Ltac xaddr :=
  repeat match goal with
  | |- context [u32 (?s - ?a + ?b)] => let c := eval vm_compute in (a - b) in rewrite (u32_shift s a b c eq_refl) by stack
  end.

(** The load of a kernel or user data selector in ring 0. *)
Ltac xseg H k :=
  xstep H k; change (8 mod 4) with 0; change (16 mod 65536) with 16;
  first [rewrite data_ok_kernel|rewrite data_ok_user]; cbn.

(** Pops a data segment: [L] is the word, [D] its descriptor, [R] its range. *)
Ltac xpops H k L D R :=
  xstep H k; xaddr; rewrite L; change (8 mod 4) with 0; rewrite (Z.mod_small _ 65536 R), D; cbn.

(** ** Exceptions and interrupts in the kernel *)

(** The word pushed for the segment registers and after them, from the
    stack pointer at the common code, which is [sp - 20]. *)
Definition trap_frame (s : x86) (efl cs eip err no sp : Z) : list Z :=
  [efl; cs; eip; err; no; reg EAX s; reg ECX s; reg EDX s; reg EBX s; sp - 20; reg EBP s; reg ESI s; reg EDI s;
   x_ds s; x_es s; x_fs s; x_gs s].

Lemma length_8 (l : list Z) : length l = 8%nat -> exists a b c d e f g h, l = [a; b; c; d; e; f; g; h].
Proof. intros Hl. do 8 (destruct l as [|? l]; [discriminate|]). destruct l; [|discriminate]. eauto 10. Qed.

Section Common.
Context (idt : list X86.idt_entry) (tr : option tss) (im : image) (at_ : nat -> Z) (handler : Z).
Hypothesis (Hcode : code_at im at_ (common handler)).

(** From the common code to the call: the selectors are the kernel's, and
    the argument points at the frame. *)
Lemma common_to_handler n r fl ds es fs gs ss sp m w :
  length r = 8%nat -> length w = 5%nat -> stack_ok sp 19 ->
  run idt tr im (12 + n) (X86m (<[ESP := sp - 20]> r) (at_ 0%nat) fl 8 ss ds es fs gs (pushed sp m w)) =
  run idt tr im n
    (X86m (<[ESP := sp - 76]> (<[EAX := 16]> r)) handler fl 8 ss 16 16 16 16
       (pushed sp m (w ++ <[ESP := sp - 20]> r ++ [ds; es; fs; gs] ++ [sp - 68; at_ 12%nat]))).
Proof.
  intros Hr Hw Hs. destruct (length_8 r Hr) as (r0&r1&r2&r3&r4&r5&r6&r7&->).
  do 5 (destruct w as [|? w]; [discriminate|]). destruct w; [|discriminate]. cbn.
  xpush Hcode 0%nat. xpush Hcode 1%nat. xpush Hcode 2%nat. xpush Hcode 3%nat. xpush Hcode 4%nat.
  xstep Hcode 5%nat. xseg Hcode 6%nat. xseg Hcode 7%nat. xseg Hcode 8%nat. xseg Hcode 9%nat.
  xpush Hcode 10%nat. xpush Hcode 11%nat. done.
Qed.

(** The registers a trap stores from the common code on. *)
Definition saved_part (r : list Z) (sp ds es fs gs : Z) : list Z := <[ESP := sp - 20]> r ++ [ds; es; fs; gs].

(** From the handler's return to the interrupted instruction. *)
Lemma common_return n r r' fl ss sp m m' efl eip err no ds es fs gs :
  length r = 8%nat -> length r' = 8%nat -> r' !!! ESP = sp - 72 -> stack_ok sp 19 ->
  Forall (fun v => 0 <= v < 65536 /\ data_ok 0 v = true) [ds; es; fs; gs] ->
  agree_on (sp - 68) sp m' (pushed sp m ([efl; 8; eip; err; no] ++ saved_part r sp ds es fs gs)) ->
  run idt tr im (8 + n) (X86m r' (at_ 12%nat) fl 8 ss 16 16 16 16 m') =
  run idt tr im n (X86m (<[ESP := sp]> r) eip efl 8 ss ds es fs gs m').
Proof.
  intros Hr Hr' He Hs Hseg Hm. destruct (length_8 r Hr) as (r0&r1&r2&r3&r4&r5&r6&r7&->).
  destruct (length_8 r' Hr') as (q0&q1&q2&q3&q4&q5&q6&q7&->). cbn in He. subst q4. clear Hr Hr'.
  apply Forall_cons in Hseg as [[Hds Hdd] Hseg]. apply Forall_cons in Hseg as [[Hes Hde] Hseg].
  apply Forall_cons in Hseg as [[Hfs Hdf] Hseg]. apply Forall_cons in Hseg as [[Hgs Hdg] _].
  set (ws := [efl; 8; eip; err; no; r0; r1; r2; r3; sp - 20; r5; r6; r7; ds; es; fs; gs]).
  change (agree_on (sp - 68) sp m' (pushed sp m ws)) in Hm.
  assert (Hld : forall k c v, (k < 17)%nat -> c = 68 - 4 * Z.of_nat k -> rev ws !!! k = v -> ld m' (sp - c) = v).
  { intros k c v Hk -> <-. apply (frame_ld sp m m' ws); [stack|cbn; lia|exact Hm|cbn; lia]. }
  pose proof (Hld 0%nat 68 gs ltac:(lia) eq_refl eq_refl) as L0. pose proof (Hld 1%nat 64 fs ltac:(lia) eq_refl eq_refl) as L1.
  pose proof (Hld 2%nat 60 es ltac:(lia) eq_refl eq_refl) as L2. pose proof (Hld 3%nat 56 ds ltac:(lia) eq_refl eq_refl) as L3.
  pose proof (Hld 4%nat 52 r7 ltac:(lia) eq_refl eq_refl) as L4. pose proof (Hld 5%nat 48 r6 ltac:(lia) eq_refl eq_refl) as L5.
  pose proof (Hld 6%nat 44 r5 ltac:(lia) eq_refl eq_refl) as L6. pose proof (Hld 8%nat 36 r3 ltac:(lia) eq_refl eq_refl) as L8.
  pose proof (Hld 9%nat 32 r2 ltac:(lia) eq_refl eq_refl) as L9. pose proof (Hld 10%nat 28 r1 ltac:(lia) eq_refl eq_refl) as L10.
  pose proof (Hld 11%nat 24 r0 ltac:(lia) eq_refl eq_refl) as L11. pose proof (Hld 14%nat 12 eip ltac:(lia) eq_refl eq_refl) as L14.
  pose proof (Hld 15%nat 8 8 ltac:(lia) eq_refl eq_refl) as L15. pose proof (Hld 16%nat 4 efl ltac:(lia) eq_refl eq_refl) as L16.
  clear Hld Hm. subst ws. cbn [Nat.add].
  xstep Hcode 12%nat. xaddr.
  xpops Hcode 13%nat L0 Hdg Hgs. xpops Hcode 14%nat L1 Hdf Hfs. xpops Hcode 15%nat L2 Hde Hes. xpops Hcode 16%nat L3 Hdd Hds.
  xstep Hcode 17%nat. xaddr. rewrite L4, L5, L6, L8, L9, L10, L11.
  xstep Hcode 18%nat. xaddr. xstep Hcode 19%nat. unfold iret. cbn. xaddr. rewrite L14, L15, L16.
  change (8 mod 4 =? 8 mod 4) with true. change (code_ok (8 mod 4) 8) with true. cbn. by rewrite Z.sub_0_r.
Qed.
End Common.

(** *** Delivery in ring 0 *)

(** A kernel gate to [a]. *)
Record gate_to (e : X86.idt_entry) (a : Z) : Prop := {
  gt_present : gate_present e = true; gt_base : gate_base e = a; gt_sel : X86.g_sel e = 8
}.

Lemma idt_sel isr irq sys n : (n < 48)%nat \/ n = 128%nat -> X86.g_sel (X86.idt_init isr irq sys !!! n) = 8.
Proof. intros [Hn| ->]; [|reflexivity]. do 48 (destruct n as [|n]; [reflexivity|]). lia. Qed.

Lemma deliver_kernel idt tr n err s a :
  gate_to (idt !!! n) a -> x_cs s = 8 ->
  deliver idt tr n err false s =
  Some (with_eip a (with_code 8 (x_ss s) (with_efl (Z.ldiff (x_efl s) gate_clears)
          (push_words ([x_efl s; 8; x_eip s] ++ err) s)))).
Proof.
  intros [Hp Hb Hs] Hc. unfold deliver. cbv zeta. rewrite Hp, Hb, Hs. unfold cpl. rewrite Hc. cbn.
  f_equal. unfold push_words. by destruct (pushes _ _ _), s.
Qed.

(** Error codes come with the vectors of the processor manual's list. *)
Definition has_error_code (n : nat) : bool := bool_decide (n ∈ [8; 10; 11; 12; 13; 14; 17; 21]%nat).
(** The words a processor pushes as error code, and what the stubs make of
    their absence. *)
Definition err_word (err : list Z) : Z := default 0 (head err).
Definition err_fits (n : nat) (err : list Z) : Prop := length err = (if has_error_code n then 1 else 0)%nat.

(** Kernel code about to be interrupted. *)
Record kernel_ok (s : x86) : Prop := {
  ko_len : length (x_r s) = 8%nat;
  ko_cs : x_cs s = 8;
  ko_stack : stack_ok (reg ESP s) 19
}.

(** After the stub: at the common code with number and code pushed. *)
Definition stub_done (common_at : Z) (no : Z) (err : list Z) (s : x86) : x86 :=
  let sp := reg ESP s in
  X86m (<[ESP := sp - 20]> (x_r s)) common_at (Z.ldiff (Z.ldiff (x_efl s) gate_clears) IF) 8 (x_ss s) (x_ds s) (x_es s)
    (x_fs s) (x_gs s) (pushed sp (x_mem s) [x_efl s; 8; x_eip s; err_word err; no]).

Lemma stub_run idt tr im at_ v no err c stub s :
  gate_to (idt !!! v) (at_ 0%nat) -> code_at im at_ stub -> kernel_ok s ->
  (err = [] /\ stub = [Cli; PushI 0; PushI no; Jmp c]) \/ (length err = 1%nat /\ stub = [Cli; PushI no; Jmp c]) ->
  exists s0 k, deliver idt tr v err false s = Some s0 /\ (k <= 4)%nat /\
    forall n, run idt tr im (k + n) s0 = run idt tr im n (stub_done c no err s).
Proof.
  intros Hg Hc [Hl Hcs Hst] Hk. rewrite (deliver_kernel _ _ _ _ _ _ Hg Hcs).
  destruct s as [r eip efl cs ss ds es fs gs m]. cbn in Hl, Hcs, Hst. subst cs.
  destruct (length_8 r Hl) as (r0&r1&r2&r3&r4&r5&r6&r7&->). cbn in Hst.
  assert (Hz : r4 = r4 - 4 * Z.of_nat (length (A := Z) [])) by (cbn; lia).
  destruct Hk as [[-> ->]|[He ->]].
  - eexists _, 4%nat. split; [reflexivity|]. split; [lia|]. intros n. cbn.
    rewrite (push_frame r4 m [] [efl; 8; eip] 12 (X86m [r0; r1; r2; r3; r4; r5; r6; r7] eip efl 8 ss ds es fs gs m) eq_refl Hz)
      by (cbn; stack). cbn.
    xstep Hc 0%nat. change (8 mod 4 =? 0) with true. cbn. xpush Hc 1%nat. xpush Hc 2%nat. xstep Hc 3%nat. done.
  - destruct err as [|e [|? ?]]; try discriminate. eexists _, 3%nat. split; [reflexivity|]. split; [lia|]. intros n. cbn.
    rewrite (push_frame r4 m [] [efl; 8; eip; e] 16 (X86m [r0; r1; r2; r3; r4; r5; r6; r7] eip efl 8 ss ds es fs gs m) eq_refl Hz)
      by (cbn; stack). cbn.
    xstep Hc 0%nat. change (8 mod 4 =? 0) with true. cbn. xpush Hc 1%nat. xstep Hc 2%nat. done.
Qed.

Definition trap_regs (no : Z) (err : list Z) (s : x86) : regs :=
  let sp := reg ESP s in
  Regs (x_gs s) (x_fs s) (x_es s) (x_ds s) (reg EDI s) (reg ESI s) (reg EBP s) (sp - 20) (reg EBX s) (reg EDX s)
    (reg ECX s) (reg EAX s) no (err_word err) (x_eip s) 8 (x_efl s).

(** The state at the call of [do_exception] or [do_irq]. *)
Definition trap_call_state (handler ret : Z) (no : Z) (err : list Z) (s : x86) : x86 :=
  let sp := reg ESP s in
  X86m (<[ESP := sp - 76]> (<[EAX := 16]> (x_r s))) handler (Z.ldiff (Z.ldiff (x_efl s) gate_clears) IF) 8 (x_ss s) 16 16 16 16
    (pushed sp (x_mem s) ([x_efl s; 8; x_eip s; err_word err; no] ++ <[ESP := sp - 20]> (x_r s) ++
       [x_ds s; x_es s; x_fs s; x_gs s] ++ [sp - 68; ret])).

(** The argument is the address of a [struct regs] with every field where
    isr.c declares it. *)
Lemma trap_call_regs handler ret no err s :
  kernel_ok s ->
  let s' := trap_call_state handler ret no err s in
  ld (x_mem s') (reg ESP s' + 4) = reg ESP s - 68 /\ ld (x_mem s') (reg ESP s') = ret /\
  load_regs (x_mem s') (reg ESP s - 68) = trap_regs no err s.
Proof.
  intros [Hl Hcs Hst]. destruct s as [r eip efl cs ss ds es fs gs m]. cbn in Hl, Hcs, Hst. subst cs.
  destruct (length_8 r Hl) as (r0&r1&r2&r3&r4&r5&r6&r7&->). cbn in Hst. cbn.
  set (ws := [efl; 8; eip; err_word err; no; r0; r1; r2; r3; r4 - 20; r5; r6; r7; ds; es; fs; gs; r4 - 68; ret]).
  assert (Hld : forall k a v, (k < 19)%nat -> a = r4 - 76 + 4 * Z.of_nat k -> rev ws !!! k = v -> ld (pushed r4 m ws) a = v).
  { intros k a v Hk -> <-. apply (frame_ld r4 m _ ws); [stack|cbn; lia|done|cbn; lia]. }
  split; [apply (Hld 1%nat); [lia|lia|done]|]. split; [apply (Hld 0%nat); [lia|lia|done]|].
  unfold load_regs, trap_regs. cbn.
  f_equal; [apply (Hld 2%nat)|apply (Hld 3%nat)|apply (Hld 4%nat)|apply (Hld 5%nat)|apply (Hld 6%nat)|apply (Hld 7%nat)
    |apply (Hld 8%nat)|apply (Hld 9%nat)|apply (Hld 10%nat)|apply (Hld 11%nat)|apply (Hld 12%nat)|apply (Hld 13%nat)
    |apply (Hld 14%nat)|apply (Hld 15%nat)|apply (Hld 16%nat)|apply (Hld 17%nat)|apply (Hld 18%nat)]; first [lia|done].
Qed.

(** From the exception or interrupt to the C handler. *)
Lemma trap_to_handler idt tr im st cm v no err c handler stub s :
  gate_to (idt !!! v) (st 0%nat) -> code_at im st stub -> code_at im cm (common handler) -> c = cm 0%nat -> kernel_ok s ->
  (err = [] /\ stub = [Cli; PushI 0; PushI no; Jmp c]) \/ (length err = 1%nat /\ stub = [Cli; PushI no; Jmp c]) ->
  exists s0 k, deliver idt tr v err false s = Some s0 /\ (k <= 16)%nat /\
    forall n, run idt tr im (k + n) s0 = run idt tr im n (trap_call_state handler (cm 12%nat) no err s).
Proof.
  intros Hg Hst Hcm -> Hok Hk. destruct (stub_run idt tr im st v no err (cm 0%nat) stub s Hg Hst Hok Hk) as (s0 & k & Hd & Hk4 & Hr).
  exists s0, (k + 12)%nat. split; [done|]. split; [lia|]. intros n. rewrite <-Nat.add_assoc, Hr. unfold stub_done.
  apply (common_to_handler idt tr im cm handler Hcm); [apply Hok|done|apply Hok].
Qed.

(** *** Exceptions *)

Lemma isr_stub_kind c n err :
  (n < 32)%nat -> err_fits n err ->
  (err = [] /\ isr_stubs c !!! n = [Cli; PushI 0; PushI (Z.of_nat n); Jmp c]) \/
  (length err = 1%nat /\ isr_stubs c !!! n = [Cli; PushI (Z.of_nat n); Jmp c]).
Proof.
  intros Hn He. unfold err_fits in He.
  do 32 (destruct n as [|n];
    [first [left; split; [by apply length_zero_iff_nil|reflexivity]|right; split; [exact He|reflexivity]]|]). lia.
Qed.

Lemma idt_gate isr irq sys n :
  (forall k, 0 <= isr k < 4294967296) -> (forall k, 0 <= irq k < 4294967296) -> 0 <= sys < 4294967296 ->
  (n < 48)%nat -> gate_to (X86.idt_init isr irq sys !!! n) (if (n <? 32)%nat then isr n else irq (n - 32)%nat).
Proof.
  intros Hi Hq Hs Hn. destruct (x86_idt_gates isr irq sys n Hi Hq Hs ltac:(lia)) as (Hb & _ & Hp).
  split.
  - rewrite Hp. by rewrite (proj2 (Nat.ltb_lt n 48)) by lia.
  - rewrite Hb. by rewrite (proj2 (Nat.ltb_lt n 48)) by lia.
  - apply idt_sel. by left.
Qed.

(** The text of [do_exception]'s line. *)
Definition exception_line (ticks : Z) (n : nat) (err eip cs : Z) : list Z :=
  91 :: put_hex 97 ticks ++ [93; 32] ++
  (chars "EXCEPTION " ++ put_unsigned (Z.of_nat n) ++ chars " (" ++ exc_names !!! n ++ chars ") err=0x" ++
   put_hex 97 (u32 err) ++ chars " eip=0x" ++ put_hex 97 (u32 eip) ++ chars " cs=0x" ++ put_hex 97 (u32 cs) ++ [10]) ++ [10].

Lemma exception_format {AM : ArgMem} a b c d name :
  kprintf (chars "EXCEPTION %u (%s) err=0x%x eip=0x%x cs=0x%x" ++ [10]) [VInt a; VStr (Some name); VInt b; VInt c; VInt d] =
  Some (chars "EXCEPTION " ++ put_unsigned (u32 a) ++ chars " (" ++ name ++ chars ") err=0x" ++
        put_hex 97 (u32 b) ++ chars " eip=0x" ++ put_hex 97 (u32 c) ++ chars " cs=0x" ++ put_hex 97 (u32 d) ++ [10]).
Proof. lazy -[put_hex put_unsigned u32]. reflexivity. Qed.

Lemma do_exception_line {AM : ArgMem} ticks r n :
  (n < 32)%nat -> r_int_no r = Z.of_nat n ->
  do_exception ticks r = Some (exception_line ticks n (r_err_code r) (r_eip r) (r_cs r)).
Proof.
  intros Hn Hr. unfold do_exception. rewrite Hr, (proj2 (Z.ltb_lt _ _)), Nat2Z.id by lia.
  assert (Hname : default [] (exc_names !! n) = exc_names !!! n).
  { do 32 (destruct n as [|n]; [reflexivity|]). lia. }
  rewrite Hname. unfold log_message, exception_line. change (LOG_FATAL >=? LOG_LEVEL_COUNT) with false.
  rewrite exception_format. cbn [mbind option_bind]. by rewrite (u32_id (Z.of_nat n)) by lia.
Qed.

(** C15: every exception in the kernel is reported with the right frame.
    For each of the 32 vectors, with an error code exactly when the
    processor supplies one, the gate, the stub and the common code call
    [do_exception] with a pointer to a [struct regs] that holds the
    interrupted registers, segments, status and return address, the vector
    and the code (0 where there is none), under kernel selectors and with
    interrupts off; the line it prints names the vector. *)
Theorem exception_frame {AM : ArgMem} (isr irq : nat -> Z) (sys : Z) (tr : option tss) (im : image) (st cm : nat -> Z) (handler : Z)
    (n : nat) (err : list Z) (s : x86) (ticks : Z) :
  (forall k, 0 <= isr k < 4294967296) -> (forall k, 0 <= irq k < 4294967296) -> 0 <= sys < 4294967296 ->
  (n < 32)%nat -> isr n = st 0%nat -> code_at im st (isr_stubs (cm 0%nat) !!! n) ->
  code_at im cm (isr_common_code handler) -> err_fits n err -> kernel_ok s ->
  let idt := X86.idt_init isr irq sys in
  exists s0 k s', deliver idt tr n err false s = Some s0 /\ run idt tr im k s0 = Some s' /\ (k <= 16)%nat /\
    x_eip s' = handler /\ load_regs (x_mem s') (ld (x_mem s') (reg ESP s' + 4)) = trap_regs (Z.of_nat n) err s /\
    (forall g, get_s g s' = 16) /\ Z.testbit (x_efl s') 9 = false /\
    do_exception ticks (trap_regs (Z.of_nat n) err s) = Some (exception_line ticks n (err_word err) (x_eip s) 8).
Proof.
  intros Hi Hq Hsys Hn Hst Hstub Hcm He Hok idt.
  pose proof (idt_gate isr irq sys n Hi Hq Hsys ltac:(lia)) as Hg. rewrite (proj2 (Nat.ltb_lt n 32)) in Hg by lia.
  rewrite Hst in Hg.
  destruct (trap_to_handler idt tr im st cm n (Z.of_nat n) err (cm 0%nat) handler _ s Hg Hstub Hcm eq_refl Hok
    (isr_stub_kind _ n err Hn He)) as (s0 & k & Hd & Hk & Hr).
  exists s0, k, (trap_call_state handler (cm 12%nat) (Z.of_nat n) err s).
  destruct (trap_call_regs handler (cm 12%nat) (Z.of_nat n) err s Hok) as (Hp & _ & Hregs).
  split_and!; try done.
  - by rewrite <-(Nat.add_0_r k), Hr.
  - by rewrite Hp.
  - by intros [].
  - change (Z.testbit (Z.ldiff (Z.ldiff (x_efl s) gate_clears) (2 ^ 9)) 9 = false). by rewrite Z.ldiff_spec, andb_false_r.
  - by apply do_exception_line.
Qed.

(** *** Hardware interrupts *)

(** C16: an x86 interrupt is invisible to the kernel code it interrupts.
    Through gate, stub, common code and a [do_irq] that keeps the cdecl
    convention and its caller's frame, every register, segment, flag and
    the instruction pointer come back; only memory is the handler's. *)
Theorem x86_irq_transparent (isr irq : nat -> Z) (sys : Z) (tr : option tss) (im : image) (st cm : nat -> Z) (handler : Z)
    (f : x86 -> option x86) (n : nat) (s s_h : x86) :
  (forall k, 0 <= isr k < 4294967296) -> (forall k, 0 <= irq k < 4294967296) -> 0 <= sys < 4294967296 ->
  (n < 16)%nat -> irq n = st 0%nat -> code_at im st (irq_stubs (cm 0%nat) !!! n) ->
  code_at im cm (irq_common_code handler) -> im_c im handler = Some f -> kernel_ok s ->
  Forall (fun v => 0 <= v < 65536 /\ data_ok 0 v = true) [x_ds s; x_es s; x_fs s; x_gs s] ->
  let idt := X86.idt_init isr irq sys in
  let s_in := trap_call_state handler (cm 12%nat) (Z.of_nat n) [] s in
  f s_in = Some s_h -> c_call 1 (reg ESP s) s_in s_h ->
  r_int_no (load_regs (x_mem s_in) (reg ESP s - 68)) = Z.of_nat n /\
  exists s0 k, deliver idt tr (32 + n) [] false s = Some s0 /\
    run idt tr im k s0 = Some (with_xmem (x_mem s_h) s).
Proof.
  intros Hi Hq Hsys Hn Hst Hstub Hcm Hf Hok Hseg idt s_in Hrun Hcall. split.
  { destruct (trap_call_regs handler (cm 12%nat) (Z.of_nat n) [] s Hok) as (_ & _ & Hr). unfold s_in. by rewrite Hr. }
  pose proof (idt_gate isr irq sys (32 + n) Hi Hq Hsys ltac:(lia)) as Hg.
  rewrite (proj2 (Nat.ltb_ge (32 + n) 32)) in Hg by lia. replace (32 + n - 32)%nat with n in Hg by lia. rewrite Hst in Hg.
  assert (Hkind : irq_stubs (cm 0%nat) !!! n = [Cli; PushI 0; PushI (Z.of_nat n); Jmp (cm 0%nat)]).
  { clear -Hn. do 16 (destruct n as [|n]; [reflexivity|]). lia. }
  rewrite Hkind in Hstub.
  destruct (trap_to_handler idt tr im st cm (32 + n) (Z.of_nat n) [] (cm 0%nat) handler _ s Hg Hstub Hcm eq_refl Hok)
    as (s0 & k & Hd & _ & Hr); [by left|].
  exists s0, (k + 9)%nat. split; [done|]. rewrite Hr. fold s_in. change 9%nat with (S (8 + 0)). rewrite (x86_run_c _ _ _ _ _ f) by done.
  rewrite Hrun. cbn [mbind option_bind].
  destruct (trap_call_regs handler (cm 12%nat) (Z.of_nat n) [] s Hok) as (_ & Hret & _). fold s_in in Hret.
  destruct Hcall as [Hl' _ Hesp Heip [Hcs Hss] (Hds & Hes & Hfs & Hgs) Hm].
  destruct s as [r eip efl cs ss ds es fs gs m], s_h as [r' eip' efl' cs' ss' ds' es' fs' gs' m'], Hok as [Hl Hc Hstk].
  rewrite Hret in Heip. cbn in Hl, Hc, Hl', Heip, Hcs, Hss, Hds, Hes, Hfs, Hgs, Hstk, Hseg. subst.
  destruct (length_8 r Hl) as (r0&r1&r2&r3&r4&r5&r6&r7&->). unfold s_in in Hesp, Hm. cbn in Hesp, Hm, Hstk.
  change (r' !!! ESP = r4 - 76 + 4) in Hesp. rewrite (common_return idt tr im cm handler Hcm 0 [r0; r1; r2; r3; r4; r5; r6; r7] r' efl' ss r4 m m' efl eip 0 (Z.of_nat n) ds es fs gs);
    [done|done|done|lia|done|done|].
  cbn. etransitivity; [eapply agree_on_sub; [exact Hm|lia|lia]|].
  set (ws := [efl; 8; eip; 0; Z.of_nat n; r0; r1; r2; r3; r4 - 20; r5; r6; r7; ds; es; fs; gs]).
  change (agree_on (r4 - 68) r4 (pushed r4 m (ws ++ [r4 - 68; cm 12%nat])) (pushed r4 m ws)).
  rewrite <-pushed_app by (cbn; stack). apply pushed_outside; cbn; [stack|right; lia].
Qed.

(** ** Entering ring 3 *)

(** A push over a word popped before. *)
Lemma push_over sp m ws x w k s :
  x_mem s = pushed sp m (ws ++ [x]) -> reg ESP s = sp - 4 * Z.of_nat (length ws) ->
  k = 4 * Z.of_nat (length (ws ++ [w])) -> stack_ok sp (length (ws ++ [w])) ->
  push_words [w] s = with_xmem (pushed sp m (ws ++ [w])) (set_r ESP (sp - k) s).
Proof.
  intros Hm Hr -> Hs. rewrite length_app in *. cbn [length] in *.
  assert (Hs1 : stack_ok sp (length ws)) by (unfold stack_ok in *; lia).
  assert (Hs2 : stack_ok (sp - 4 * Z.of_nat (length ws)) 1) by (unfold stack_ok in *; lia).
  unfold push_words. rewrite Hm, Hr, pushes_eq by done.
  rewrite <-!(pushed_app sp m ws) by done. rewrite !pushed_one by done.
  assert (He : forall m a, st (st m a x) a w = st m a w) by (intros; unfold st; by rewrite insert_insert_eq).
  rewrite He. f_equal. f_equal. cbn. lia.
Qed.


Lemma data_ok_user3 : data_ok 3 35 = true.
Proof. done. Qed.

Lemma user_word c : (c / 65536 * 65536 + 35) mod 65536 = 35.
Proof. lia. Qed.
Ltac xuser H k := xstep H k; rewrite user_word; change (8 mod 4) with 0; rewrite data_ok_user; cbn.

Lemma x86_enter_user_run idt tr im at_ s :
  code_at im at_ enter_user_mode -> length (x_r s) = 8%nat -> x_cs s = 8 -> x_eip s = at_ 0%nat -> stack_ok (reg ESP s) 5 ->
  let eip := ld (x_mem s) (u32 (reg ESP s + 4)) in
  let esp := ld (x_mem s) (u32 (reg ESP s + 8)) in
  let efl := Z.lor (x_efl s) 512 in
  run idt tr im 16 s =
  Some (X86m [esp; efl; eip; reg EBX s; esp; reg EBP s; reg ESI s; reg EDI s] eip efl 27 35 35 35 35 35
          (pushed (reg ESP s) (x_mem s) [35; esp; efl; 27; eip])).
Proof.
  intros Hc Hl Hcs Hip Hst. destruct s as [r eip efl cs ss ds es fs gs m]. cbn in Hl, Hcs, Hip, Hst. subst cs eip.
  destruct (length_8 r Hl) as (r0&r1&r2&r3&r4&r5&r6&r7&->). cbn in Hst. cbn.
  set (ip := ld m (u32 (r4 + 4))). set (usp := ld m (u32 (r4 + 8))).
  xstep Hc 0%nat. fold ip. xstep Hc 1%nat. fold usp. xstep Hc 2%nat.
  xuser Hc 3%nat. xuser Hc 4%nat. xuser Hc 5%nat. xuser Hc 6%nat. xstep Hc 7%nat.
  rewrite (push_frame r4 m [] [35] 4) by first [done|cbn; lia|cbn; stack]. cbn.
  xpush Hc 8%nat. xpush Hc 9%nat. xstep Hc 10%nat. xaddr.
  rewrite (frame_ld r4 m _ [35; usp; efl] 0 (r4 - 12)) by first [cbn; stack|done|cbn; lia]. cbn.
  xstep Hc 11%nat. xstep Hc 12%nat.
  rewrite (push_over r4 m [35; usp] efl (Z.lor efl 512) 12) by first [done|cbn; lia|cbn; stack]. cbn.
  xpush Hc 13%nat. xpush Hc 14%nat. xstep Hc 15%nat. unfold iret. cbn. xaddr.
  set (ws := [35; usp; Z.lor efl 512; 27; ip]).
  assert (Hld : forall k c v, (k < 5)%nat -> c = 20 - 4 * Z.of_nat k -> rev ws !!! k = v -> ld (pushed r4 m ws) (r4 - c) = v).
  { intros k c v Hk -> <-. apply (frame_ld r4 m _ ws); [stack|cbn; lia|done|cbn; lia]. }
  rewrite (Hld 0%nat 20 ip), (Hld 1%nat 16 27), (Hld 2%nat 12 (Z.lor efl 512)), (Hld 3%nat 8 usp), (Hld 4%nat 4 35) by first [lia|done].
  done.
Qed.

(** On x86 the user program starts in ring 3, and its first trap
    cannot be taken.  [enter_user_mode] ends in ring 3 with the given entry
    point and stack, user selectors in every segment register and
    interrupts on.  But the kernel's descriptor table has no task state
    segment and nothing loads the task register: with none, no vector can
    be delivered from there, so the first timer tick, system call or fault
    of the program is itself a fault. *)
Theorem x86_user_cannot_trap (tr : option tss) (idt : list X86.idt_entry) (im : image) (at_ : nat -> Z) (s : x86) :
  code_at im at_ enter_user_mode -> length (x_r s) = 8%nat -> x_cs s = 8 -> x_eip s = at_ 0%nat ->
  stack_ok (reg ESP s) 5 ->
  exists s', run idt tr im 16 s = Some s' /\
    cpl s' = 3 /\ x_eip s' = ld (x_mem s) (u32 (reg ESP s + 4)) /\ reg ESP s' = ld (x_mem s) (u32 (reg ESP s + 8)) /\
    Z.testbit (x_efl s') 9 = true /\ x_ss s' = 35 /\ (forall g, get_s g s' = 35) /\
    length kernel_gdt = 5%nat /\
    (forall idt n err soft, deliver idt None n err soft s' = None).
Proof.
  intros Hc Hl Hcs Hip Hst. eexists. split; [by apply (x86_enter_user_run idt tr im at_ s)|].
  cbn [cpl x_cs x_eip reg x_r ESP x_efl x_ss lookup_total list_lookup_total]. split_and!; try done.
  - change 512 with (2 ^ 9). rewrite Z.lor_spec. by rewrite orb_true_r.
  - by intros [].
  - intros idt' n err soft. unfold deliver. cbv zeta. destruct (negb _); [done|]. by destruct (_ && _)%bool.
Qed.

(** ** System calls *)

Lemma syscall_gate isr irq sys :
  (forall k, 0 <= isr k < 4294967296) -> (forall k, 0 <= irq k < 4294967296) -> 0 <= sys < 4294967296 ->
  gate_to (X86.idt_init isr irq sys !!! 128%nat) sys /\ gate_dpl (X86.idt_init isr irq sys !!! 128%nat) = 3.
Proof.
  intros Hi Hq Hs. destruct (x86_idt_gates isr irq sys 128 Hi Hq Hs ltac:(lia)) as (Hb & Hd & Hp).
  split; [split|]; [by rewrite Hp|by rewrite Hb|apply idt_sel; by right|by apply Hd].
Qed.

(** A ring 3 program calling [syscall(num, arg1, arg2, arg3)]; its task
    register names a ring 0 stack. *)
Record call_ok (t : tss) (us : nat -> Z) (s : x86) : Prop := {
  co_len : length (x_r s) = 8%nat;
  co_cs : x_cs s = 27 /\ x_ss s = 35;
  co_segs : x_ds s = 35 /\ x_es s = 35 /\ x_fs s = 35 /\ x_gs s = 35;
  co_eip : x_eip s = us 0%nat;
  co_user : 4 <= reg ESP s /\ reg ESP s + 20 <= 4294967296;
  co_kernel : ts_ss0 t = 16 /\ stack_ok (ts_esp0 t) 19;
  co_apart : ts_esp0 t <= reg ESP s - 4 \/ reg ESP s + 20 <= ts_esp0 t - 76
}.
(** [n] words from [a] up. *)
Definition load_words (m : gmap Z Z) (a : Z) (n : nat) : list Z := (fun i => ld m (a + 4 * Z.of_nat i)) <$> seq 0 n.
(** The [k]th stack word above the return address. *)
Definition arg (k : Z) (s : x86) : Z := ld (x_mem s) (reg ESP s + 4 * k).

Definition kernel_frame (us : nat -> Z) (ret : Z) (s : x86) (esp0 : Z) : list Z :=
  [35; reg ESP s - 4; x_efl s; 27; us 6%nat; reg EBP s; arg 1 s; arg 3 s; arg 4 s; arg 2 s; esp0 - 24; esp0 - 24;
   reg ESI s; reg EDI s; arg 4 s; arg 3 s; arg 2 s; arg 1 s; ret].

(** The state at the call of [syscall_handler]. *)
Definition syscall_call_state (us se : nat -> Z) (handler : Z) (t : tss) (s : x86) : x86 :=
  let k := ts_esp0 t in
  X86m [arg 1 s; arg 3 s; arg 4 s; arg 2 s; k - 76; k - 24; reg ESI s; reg EDI s] handler
    (Z.ldiff (x_efl s) gate_clears) 8 16 35 35 35 35
    (pushed k (pushed (reg ESP s) (x_mem s) [reg EBX s]) (kernel_frame us (se 8%nat) s k)).

Lemma ld_above sp m ws a :
  stack_ok sp (length ws) -> sp <= a < 4294967296 -> ld (pushed sp m ws) a = ld m a.
Proof.
  intros Hs Ha. unfold ld. rewrite u32_id by (unfold stack_ok in Hs; lia). f_equal.
  apply (pushed_outside sp m ws a (a + 1)); [done|right; lia|lia].
Qed.

Section Syscall.
Context (idt : list X86.idt_entry) (t : tss) (im : image) (us se : nat -> Z) (handler : Z).
Hypothesis (Hus : code_at im us user_syscall).
Hypothesis (Hse : code_at im se (syscall_entry handler)).
Hypothesis (Hg : gate_to (idt !!! 128%nat) (se 0%nat)).
Hypothesis (Hdpl : gate_dpl (idt !!! 128%nat) = 3).

Lemma x86_syscall_to_handler n s :
  call_ok t us s -> run idt (Some t) im (14 + n) s = run idt (Some t) im n (syscall_call_state us se handler t s).
Proof.
  intros [Hl [Hcs Hss] (Hds & Hes & Hfs & Hgs) Hip [Hu1 Hu2] [Hk0 Hk] Hap]. unfold syscall_call_state, kernel_frame, arg.
  destruct s as [r eip efl cs ss ds es fs gs m]. cbn in Hl, Hcs, Hss, Hds, Hes, Hfs, Hgs, Hip, Hu1, Hu2, Hap. subst.
  destruct (length_8 r Hl) as (r0&r1&r2&r3&u&r5&r6&r7&->). destruct t as [ss0 k]. cbn in *. subst ss0.
  assert (Hs1 : stack_ok u 1) by (unfold stack_ok; lia).
  assert (Hargs : forall j d, 1 <= j <= 4 -> d = 4 + 4 * j -> ld (pushed u m [r3]) (u32 (u - 4 + d)) = ld m (u + 4 * j)).
  { intros j d Hj ->. rewrite u32_id by lia. replace (u - 4 + (4 + 4 * j)) with (u + 4 * j) by lia.
    apply ld_above; [done|lia]. }
  xstep Hus 0%nat. rewrite (push_frame u m [] [r3] 4) by first [done|cbn; lia|cbn; stack]. cbn.
  xstep Hus 1%nat. rewrite (Hargs 1 8) by lia. xstep Hus 2%nat. rewrite (Hargs 2 12) by lia.
  xstep Hus 3%nat. rewrite (Hargs 3 16) by lia. xstep Hus 4%nat. rewrite (Hargs 4 20) by lia.
  xstep Hus 5%nat. unfold deliver. cbv zeta. destruct Hg as [Hp Hb Hs]. rewrite Hp, Hb, Hs, Hdpl. cbn.
  change (3 <? 27 mod 4) with false. change (27 mod 4 =? 0) with false. change (stack_sel_ok 0 16) with true. cbn.
  set (m1 := pushed u m [r3]).
  rewrite (push_frame k m1 [] [35; u - 4; efl; 27; us 6%nat] 20) by first [done|cbn; lia|cbn; stack]. cbn.
  xpush Hse 0%nat. xstep Hse 1%nat. xpush Hse 2%nat. xpush Hse 3%nat. xpush Hse 4%nat. xpush Hse 5%nat. xpush Hse 6%nat.
  xpush Hse 7%nat. done.
Qed.

(** The user state afterwards: whatever the handler left in EAX, the
    number is there. *)
Definition syscall_returned (s s_h : x86) : x86 :=
  X86m [arg 1 s; arg 3 s; arg 4 s; reg EBX s; reg ESP s + 4; reg EBP s; reg ESI s; reg EDI s]
    (ld (x_mem s) (reg ESP s)) (x_efl s) 27 35 35 35 35 35 (x_mem s_h).

(** The instructions after the handler, given the words in the two frames. *)
Lemma syscall_unwind tr r3 ret efl a1 a2 a3 a4 q0 q1 q2 q3 r5 q5 q6 q7 r6 r7 u k efl' m' :
  stack_ok k 19 -> 4 <= u -> u + 20 <= 4294967296 -> ld m' (u - 4) = r3 -> ld m' u = ret ->
  Forall (fun cv => ld m' (k - cv.1) = cv.2)
    [(56, r7); (52, r6); (48, k - 24); (44, k - 24); (40, a2); (36, a4); (32, a3); (28, a1); (24, r5);
     (20, us 6%nat); (16, 27); (12, efl); (8, u - 4); (4, 35)] ->
  run idt tr im 6 (X86m [q0; q1; q2; q3; k - 72; q5; q6; q7] (se 8%nat) efl' 8 16 35 35 35 35 m') =
  Some (X86m [a1; a3; a4; r3; u + 4; r5; r6; r7] ret efl 27 35 35 35 35 35 m').
Proof.
  intros Hk Hu1 Hu2 Hr3 Hret Hall. rewrite !Forall_cons in Hall. cbn in Hall.
  destruct Hall as (L56 & L52 & L48 & _ & L40 & L36 & L32 & L28 & L24 & L20 & L16 & L12 & L8 & L4 & _).
  xstep Hse 8%nat. xaddr. xstep Hse 9%nat. xaddr. rewrite L56, L52, L40, L36, L32, L28.
  xstep Hse 10%nat. xaddr. rewrite L24. xstep Hse 11%nat. unfold iret. cbn. xaddr. rewrite L20, L16, L12, L8, L4.
  change (27 mod 4 =? 8 mod 4) with false. change (8 mod 4 <? 27 mod 4) with true. change (code_ok (27 mod 4) 27) with true.
  change (stack_sel_ok (27 mod 4) 35) with true. change (data_ok (27 mod 4) 35) with true. cbn.
  xstep Hus 6%nat. rewrite Hr3. xstep Hus 7%nat. rewrite (u32_id (u - 4 + 4)) by lia. rewrite Z.sub_add, Hret.
  by rewrite u32_id by lia.
Qed.

Lemma x86_syscall_from_handler s s_h :
  call_ok t us s -> c_call 4 (ts_esp0 t) (syscall_call_state us se handler t s) s_h ->
  agree_on (reg ESP s - 4) (reg ESP s + 4) (x_mem s_h) (x_mem (syscall_call_state us se handler t s)) ->
  x_eip s_h = se 8%nat ->
  run idt (Some t) im 6 s_h = Some (syscall_returned s s_h).
Proof.
  intros [Hl [Hcs Hss] (Hds & Hes & Hfs & Hgs) Hip [Hu1 Hu2] [Hk0 Hk] Hap] [Hl' _ Hesp _ [Hc1 Hc2] (Hd1 & He1 & Hf1 & Hg1) Hm] Hum He.
  unfold syscall_returned, arg in *.
  destruct s_h as [r' eip' efl' cs' ss' ds' es' fs' gs' m'].
  destruct s as [r eip efl cs ss ds es fs gs m]. destruct t as [ss0 k].
  cbn in Hl, Hcs, Hss, Hds, Hes, Hfs, Hgs, Hip, Hu1, Hu2, Hap, Hk0, Hk, Hl', Hesp, Hc1, Hc2, Hd1, He1, Hf1, Hg1, Hm, Hum, He. subst.
  destruct (length_8 r Hl) as (r0&r1&r2&r3&u&r5&r6&r7&->). destruct (length_8 r' Hl') as (q0&q1&q2&q3&q4&q5&q6&q7&->).
  unfold kernel_frame, arg in Hm, Hum. cbn in *. subst q4.
  set (a1 := ld m (u + 4)) in *. set (a2 := ld m (u + 8)) in *. set (a3 := ld m (u + 12)) in *. set (a4 := ld m (u + 16)) in *.
  set (m1 := pushed u m [r3]) in *.
  set (ws := [35; u - 4; efl; 27; us 6%nat; r5; a1; a3; a4; a2; k - 24; k - 24; r6; r7; a4; a3; a2; a1; se 8%nat]) in *.
  assert (Hs1 : stack_ok u 1) by (unfold stack_ok; lia).
  assert (Hld : forall i c v, (5 <= i < 19)%nat -> c = 76 - 4 * Z.of_nat i -> rev ws !!! i = v -> ld m' (k - c) = v).
  { intros i c v Hi -> <-. rewrite <-(frame_ld k m1 (pushed k m1 ws) ws i (k - (76 - 4 * Z.of_nat i)));
      [|stack|cbn; lia|done|cbn; lia].
    unfold ld. rewrite u32_id by stack. f_equal. apply Hm. lia. }
  assert (Huser : forall a, u - 4 <= a < u + 4 -> ld m' a = ld m1 a).
  { intros a Ha. unfold ld. rewrite u32_id by lia. f_equal. rewrite (Hum a) by lia.
    apply (pushed_outside k m1 ws a (a + 1)); [stack|cbn; lia|lia]. }
  assert (Hr3 : ld m' (u - 4) = r3).
  { rewrite Huser by lia. by apply (frame_ld u m m1 [r3] 0); [done|cbn; lia|done|cbn; lia]. }
  assert (Hret : ld m' u = ld m u) by (rewrite Huser by lia; by apply ld_above; [done|lia]).
  replace (k - 76 + 4) with (k - 72) by lia. clear Hum Huser Hm.
  apply (syscall_unwind _ r3 (ld m u) efl a1 a2 a3 a4 q0 q1 q2 q3 r5 q5 q6 q7 r6 r7 u k efl' m' Hk Hu1 Hu2);
    [done|done|].
  repeat (apply Forall_cons; split); cbn [fst snd];
    [apply (Hld 5%nat)|apply (Hld 6%nat)|apply (Hld 7%nat)|apply (Hld 8%nat)|apply (Hld 9%nat)|apply (Hld 10%nat)
    |apply (Hld 11%nat)|apply (Hld 12%nat)|apply (Hld 13%nat)|apply (Hld 14%nat)|apply (Hld 15%nat)|apply (Hld 16%nat)
    |apply (Hld 17%nat)|apply (Hld 18%nat)|constructor]; first [lia|done].
Qed.
End Syscall.

(** C25: an x86 system call delivers its arguments and loses its result.
    With a ring 0 stack in the task register, the trampoline, gate 128 and
    the stub call [syscall_handler(num, arg1, arg2, arg3)] in ring 0; on its
    return the program goes on after the call in ring 3 with its stack,
    flags and callee-saved registers, but EAX, the result, always holds the
    number again: the stub's [popa] restores it over the handler's value. *)
Theorem x86_syscall_round_trip (isr irq : nat -> Z) (t : tss) (im : image) (us se : nat -> Z) (handler : Z)
    (f : x86 -> option x86) (s s_h : x86) :
  (forall k, 0 <= isr k < 4294967296) -> (forall k, 0 <= irq k < 4294967296) -> 0 <= se 0%nat < 4294967296 ->
  code_at im us user_syscall -> code_at im se (syscall_entry handler) -> im_c im handler = Some f -> call_ok t us s ->
  let idt := X86.idt_init isr irq (se 0%nat) in
  let s_in := syscall_call_state us se handler t s in
  run idt (Some t) im 14 s = Some s_in /\ cpl s_in = 0 /\
  load_words (x_mem s_in) (reg ESP s_in + 4) 4 = [arg 1 s; arg 2 s; arg 3 s; arg 4 s] /\
  (f s_in = Some s_h -> c_call 4 (ts_esp0 t) s_in s_h ->
   agree_on (reg ESP s - 4) (reg ESP s + 4) (x_mem s_h) (x_mem s_in) ->
   run idt (Some t) im 21 s = Some (syscall_returned s s_h) /\
   reg EAX (syscall_returned s s_h) = arg 1 s).
Proof.
  intros Hi Hq Hse0 Hus Hse Hf Hok idt s_in. destruct (syscall_gate isr irq (se 0%nat) Hi Hq Hse0) as [Hg Hd].
  pose proof (x86_syscall_to_handler idt t im us se handler Hus Hse Hg Hd) as Hto.
  split; [exact (Hto 0%nat s Hok)|]. split; [done|]. split.
  - destruct Hok as [_ _ _ _ _ [_ Hk] _]. unfold s_in, syscall_call_state, load_words. cbn [x_mem reg x_r ESP lookup_total list_lookup_total].
    set (m1 := pushed _ (x_mem s) _). cbn [fmap list_fmap seq].
    repeat f_equal; [apply (frame_ld (ts_esp0 t) m1 _ (kernel_frame us (se 8%nat) s (ts_esp0 t)) 1)
      |apply (frame_ld (ts_esp0 t) m1 _ (kernel_frame us (se 8%nat) s (ts_esp0 t)) 2)
      |apply (frame_ld (ts_esp0 t) m1 _ (kernel_frame us (se 8%nat) s (ts_esp0 t)) 3)
      |apply (frame_ld (ts_esp0 t) m1 _ (kernel_frame us (se 8%nat) s (ts_esp0 t)) 4)]; first [exact Hk|done|cbn; lia].
  - intros Hrun Hcall Hum. split; [|done]. change 21%nat with (14 + 7)%nat. rewrite Hto by done.
    rewrite (x86_run_c _ _ _ _ _ f) by done. fold s_in. rewrite Hrun. cbn [mbind option_bind].
    apply (x86_syscall_from_handler idt t im us se handler Hus Hse s s_h Hok Hcall Hum).
    rewrite (cc_eip _ _ _ _ Hcall). destruct Hok as [_ _ _ _ _ [_ Hk] _]. unfold syscall_call_state. cbn [x_mem reg x_r ESP lookup_total list_lookup_total].
    apply (frame_ld (ts_esp0 t) (pushed (reg ESP s) (x_mem s) [reg EBX s]) _ (kernel_frame us (se 8%nat) s (ts_esp0 t)) 0); first [exact Hk|done|cbn; lia].
Qed.

(** ** A linked image to try the theorems on *)
Module Demo.
(** Instructions one address apart. *)
Definition seg (base : nat) (k : nat) : Z := Z.of_nat (base + k).
Definition segments : list (nat * list instr) :=
  [(1000%nat, isr_stubs 2000 !!! 14%nat); (1100%nat, irq_stubs 2000 !!! 3%nat); (2000%nat, isr_common_code 4000);
   (2100%nat, syscall_entry 4000); (2200%nat, user_syscall); (2300%nat, enter_user_mode)].
Definition code (a : Z) : option (instr * Z) :=
  head (omap (fun bl => if Z.of_nat bl.1 <=? a then i ← bl.2 !! Z.to_nat (a - Z.of_nat bl.1); Some (i, a + 1) else None)
         segments).
(** A C function that returns 42. *)
Definition c_return (s : x86) : x86 :=
  X86m (<[ESP := reg ESP s + 4]> (<[EAX := 42]> (x_r s))) (ld (x_mem s) (reg ESP s)) (x_efl s) (x_cs s) (x_ss s) (x_ds s)
    (x_es s) (x_fs s) (x_gs s) (x_mem s).
Definition im : image := Image code (fun a => if a =? 4000 then Some (fun s => Some (c_return s)) else None).
Definition kernel : x86 := X86m [1; 2; 3; 4; 65536; 6; 7; 8] 5000 518 8 16 16 16 16 16 ∅.
Definition tick : x86 := X86m [1; 2; 3; 4; 65536; 6; 7; 8] 5000 518 8 16 16 16 35 0 ∅.
Definition user : x86 :=
  X86m [1; 2; 3; 4; 7340032; 6; 7; 8] 2200 518 27 35 35 35 35 35
    (st (st (st (st (st ∅ 7340032 4194400) 7340036 1) 7340040 11) 7340044 12) 7340048 13).
Definition launch : x86 :=
  X86m [1; 2; 3; 4; 65536; 6; 7; 8] 2300 2 8 16 16 16 16 16 (st (st ∅ 65540 4194304) 65544 7340032).

Ltac linked :=
  intros k i Hk;
  repeat (destruct k as [|k]; [injection Hk as <-; split; vm_compute; reflexivity|]); discriminate.
Lemma x86_c_return_call n top s : length (x_r s) = 8%nat -> c_call n top s (c_return s).
Proof.
  intros Hl. destruct s as [r eip efl cs ss ds es fs gs m]. cbn in Hl.
  destruct (length_8 r Hl) as (r0&r1&r2&r3&r4&r5&r6&r7&->). by split.
Qed.
End Demo.

Lemma exception_frame_witness :
  exists s0 k s', deliver (X86.idt_init (fun _ => 1000) (fun _ => 1100) 2100) None 14 [7] false Demo.kernel = Some s0 /\
    run (X86.idt_init (fun _ => 1000) (fun _ => 1100) 2100) None Demo.im k s0 = Some s' /\
    load_regs (x_mem s') (ld (x_mem s') (reg ESP s' + 4)) =
      Regs 16 16 16 16 8 7 6 65516 4 3 2 1 14 7 5000 8 518.
Proof.
  destruct (exception_frame (AM := demo_args) (fun _ => 1000) (fun _ => 1100) 2100 None Demo.im (Demo.seg 1000) (Demo.seg 2000) 4000 14 [7]
    Demo.kernel 0) as (s0 & k & s' & Hd & Hr & _ & _ & Hregs & _).
  - intros _. lia.
  - intros _. lia.
  - lia.
  - lia.
  - done.
  - Demo.linked.
  - Demo.linked.
  - done.
  - split; [done|done|unfold stack_ok; cbn; lia].
  - exact (ex_intro _ s0 (ex_intro _ k (ex_intro _ s' (conj Hd (conj Hr Hregs))))).
Defined.

Lemma x86_irq_transparent_witness :
  exists s0 k m, deliver (X86.idt_init (fun _ => 1000) (fun _ => 1100) 2100) None 35 [] false Demo.tick = Some s0 /\
    run (X86.idt_init (fun _ => 1000) (fun _ => 1100) 2100) None Demo.im k s0 = Some (with_xmem m Demo.tick).
Proof.
  destruct (x86_irq_transparent (fun _ => 1000) (fun _ => 1100) 2100 None Demo.im (Demo.seg 1100) (Demo.seg 2000) 4000
    (fun s => Some (Demo.c_return s)) 3 Demo.tick
    (Demo.c_return (trap_call_state 4000 (Demo.seg 2000 12) 3 [] Demo.tick))) as (_ & s0 & k & Hd & Hr).
  - intros _. lia.
  - intros _. lia.
  - lia.
  - lia.
  - done.
  - Demo.linked.
  - Demo.linked.
  - done.
  - split; [done|done|unfold stack_ok; cbn; lia].
  - repeat constructor; cbn; lia.
  - done.
  - by apply Demo.x86_c_return_call.
  - exact (ex_intro _ s0 (ex_intro _ k (ex_intro _ _ (conj Hd Hr)))).
Defined.

Lemma x86_user_cannot_trap_witness :
  exists s', run [] None Demo.im 16 Demo.launch = Some s' /\ cpl s' = 3 /\ x_eip s' = 4194304 /\ reg ESP s' = 7340032.
Proof.
  destruct (x86_user_cannot_trap None [] Demo.im (Demo.seg 2300) Demo.launch) as (s' & Hr & Hc & He & Hs & _).
  - Demo.linked.
  - done.
  - done.
  - done.
  - unfold stack_ok. cbn. lia.
  - exact (ex_intro _ s' (conj Hr (conj Hc (conj He Hs)))).
Defined.

Lemma x86_syscall_round_trip_witness :
  exists s_h, run (X86.idt_init (fun _ => 1000) (fun _ => 1100) 2100) (Some (Tss 16 131072)) Demo.im 21 Demo.user =
    Some (syscall_returned Demo.user s_h) /\ reg EAX s_h = 42 /\ reg EAX (syscall_returned Demo.user s_h) = 1.
Proof.
  set (s_in := syscall_call_state (Demo.seg 2200) (Demo.seg 2100) 4000 (Tss 16 131072) Demo.user).
  destruct (x86_syscall_round_trip (fun _ => 1000) (fun _ => 1100) (Tss 16 131072) Demo.im (Demo.seg 2200) (Demo.seg 2100) 4000
    (fun s => Some (Demo.c_return s)) Demo.user (Demo.c_return s_in)) as (_ & _ & _ & H).
  - intros _. lia.
  - intros _. lia.
  - unfold Demo.seg. lia.
  - Demo.linked.
  - Demo.linked.
  - done.
  - split; [done|done|done|done|cbn; lia|split; [done|unfold stack_ok; cbn; lia]|cbn; lia].
  - destruct H as [Hr He]; [done|by apply Demo.x86_c_return_call|by intros x Hx|].
    exact (ex_intro _ (Demo.c_return s_in) (conj Hr (conj eq_refl He))).
Defined.
