(* ===== verification/X86Boot.v ===== *)
(** * x86 start-up: arch/x86/boot_x86.S and gdt_load.S

    On the machine of [X86Traps].  The boot loader has entered protected mode
    with flat segments of its own; their selectors are whatever it left. *)
From S2P Require Import Prelude Types Interrupts Switch Stack X86Traps.

(** [at_] are the addresses of the instructions; [hang] is the seventh. *)
Definition start (at_ : nat -> Z) (stack_top kmain_at : Z) : list instr :=
  [MovI ESP stack_top; Cli; PushI 0; Popf; Call kmain_at; Cli; Hlt; Jmp (at_ 6%nat)].
(** [gdt_entries_at] is where the table is, [.flush] the tenth instruction. *)
Definition gdt_flush (at_ : nat -> Z) (gdt_entries_at : Z) : list instr :=
  [MovLd EAX 4; Lgdt EAX gdt_entries_at; MovI EAX 16; MovS DS EAX; MovS ES EAX; MovS FS EAX; MovS GS EAX; MovSS EAX;
   Ljmp 8 (at_ 9%nat); Ret].

#[local] Arguments with_r _ !s /.
#[local] Arguments with_eip _ !s /.
#[local] Arguments with_efl _ !s /.
#[local] Arguments with_code _ _ !s /.
#[local] Arguments with_xmem _ !s /.
#[local] Arguments set_s !g _ !s /.
#[local] Arguments reg !r !s /.
#[local] Arguments set_r !r _ !s /.
#[local] Arguments cpl !s /.
#[local] Arguments pop_word !s /.
#[local] Arguments push_words : simpl never.
#[local] Arguments data_ok : simpl never.
#[local] Arguments gdt_ptr : simpl never.
#[local] Arguments run : simpl never.

(** [kmain] gets a machine it can run on.  Whatever flags and selectors the
    loader left in ring 0, [_start] calls it with interrupts off and every
    settable flag clear (the direction flag, which compiled code relies on,
    among them), on an empty stack that holds the return address alone; no
    other memory, register or segment has changed.  If it returned, the
    processor would halt with interrupts off and stay there. *)
Theorem x86_start_calls_kmain (idt : list X86.idt_entry) (tr : option tss) (im : image) (at_ : nat -> Z)
    (stack_top kmain_at : Z) (s : x86) :
  code_at im at_ (start at_ stack_top kmain_at) -> length (x_r s) = 8%nat -> cpl s = 0 -> x_eip s = at_ 0%nat ->
  stack_ok stack_top 1 ->
  run idt tr im 5 s =
    Some (X86m (<[ESP := stack_top - 4]> (x_r s)) kmain_at 2 (x_cs s) (x_ss s) (x_ds s) (x_es s) (x_fs s) (x_gs s)
            (st (x_mem s) (stack_top - 4) (at_ 5%nat))) /\
  forall s1 n, x_eip s1 = at_ 5%nat -> cpl s1 = 0 ->
    run idt tr im (S n) s1 = Some (with_eip (at_ 6%nat) (with_efl (Z.ldiff (x_efl s1) IF) s1)).
Proof.
  intros Hc Hl Hcpl Hip Hst. split.
  - destruct s as [r eip efl cs ss ds es fs gs m]. cbn in Hl, Hcpl, Hip. subst eip.
    destruct (length_8 r Hl) as (r0&r1&r2&r3&r4&r5&r6&r7&->).
    xstep Hc 0%nat. xstep Hc 1%nat. rewrite Hcpl. cbn. xstep Hc 2%nat.
    rewrite (push_frame stack_top m [] [0] 4) by first [done|cbn; lia|cbn; stack]. cbn.
    xstep Hc 3%nat. rewrite Hcpl. cbn. xaddr.
    rewrite (frame_ld stack_top m _ [0] 0 (stack_top - 4)) by first [cbn; stack|done|cbn; lia]. cbn.
    xstep Hc 4%nat.
    rewrite (push_over stack_top m [] 0 (at_ 5%nat) 4) by first [done|cbn; lia|cbn; stack]. cbn.
    rewrite pushed_one by done. done.
  - intros s1 n Hip1 Hcpl1. destruct s1 as [r eip efl cs ss ds es fs gs m]. cbn in Hcpl1, Hip1. subst eip.
    xstep Hc 5%nat. rewrite Hcpl1. cbn. induction n as [|n IH]; [done|]. xstep Hc 6%nat. rewrite Hcpl1. exact IH.
Qed.

(** The load of a segment register with a selector the kernel's table admits
    in ring 0. *)
Ltac xload H k Hcpl :=
  xstep H k; rewrite Hcpl;
  match goal with |- context [if ?b then _ else _] => replace b with true by (vm_compute; reflexivity) end; cbn.

(** [gdt_flush] loads the kernel's segments.  Given the address of
    a [gdt_ptr] that describes the five-entry table, it returns to its caller
    with CS the kernel code and every other segment register the kernel data
    selector, whichever selectors the loader had left; EAX apart, nothing
    else has changed. *)
Theorem gdt_flush_loads (idt : list X86.idt_entry) (tr : option tss) (im : image) (at_ : nat -> Z) (table : Z) (s : x86) :
  code_at im at_ (gdt_flush at_ table) -> length (x_r s) = 8%nat -> cpl s = 0 -> x_eip s = at_ 0%nat ->
  gdt_ptr (x_mem s) (ld (x_mem s) (u32 (reg ESP s + 4))) = (39, table) ->
  run idt tr im 10 s =
    Some (X86m (<[ESP := u32 (reg ESP s + 4)]> (<[EAX := 16]> (x_r s))) (ld (x_mem s) (reg ESP s)) (x_efl s)
            8 16 16 16 16 16 (x_mem s)).
Proof.
  intros Hc Hl Hcpl Hip Hp. destruct s as [r eip efl cs ss ds es fs gs m]. cbn in Hl, Hcpl, Hip, Hp. subst eip.
  destruct (length_8 r Hl) as (r0&r1&r2&r3&r4&r5&r6&r7&->). cbn in Hp.
  xstep Hc 0%nat. xstep Hc 1%nat. rewrite Hp, Hcpl, !Z.eqb_refl. cbn. xstep Hc 2%nat.
  xload Hc 3%nat Hcpl. xload Hc 4%nat Hcpl. xload Hc 5%nat Hcpl. xload Hc 6%nat Hcpl. xload Hc 7%nat Hcpl.
  xload Hc 8%nat Hcpl. xstep Hc 9%nat. done.
Qed.

(** ** An image to try them on *)
Module Demo.
Definition seg (base : nat) (k : nat) : Z := Z.of_nat (base + k).
Definition code (a : Z) : option (instr * Z) :=
  i ← (if a <? 200 then start (seg 100) 65536 300 !! Z.to_nat (a - 100) else gdt_flush (seg 200) 4096 !! Z.to_nat (a - 200));
  Some (i, a + 1).
Definition im : image := Image code (fun _ => None).
(** In the loader's segments, the flags all set. *)
Definition loaded : x86 := X86m (replicate 8 0) 100 2392023 16 24 24 24 24 24 ∅.
Definition calling : x86 :=
  X86m [0; 0; 0; 0; 60000; 0; 0; 0] 200 2 16 24 24 24 24 24
    (st (st (st (st ∅ 60000 150) 60004 7000) 7000 (39 + 4096 * 65536)) 7004 0).
End Demo.

Lemma x86_start_calls_kmain_witness :
  exists s', run [] None Demo.im 5 Demo.loaded = Some s' /\ x_eip s' = 300 /\ x_efl s' = 2 /\ reg ESP s' = 65532.
Proof.
  destruct (x86_start_calls_kmain [] None Demo.im (Demo.seg 100) 65536 300 Demo.loaded) as [H _].
  - intros k i Hk. repeat (destruct k as [|k]; [injection Hk as <-; split; vm_compute; reflexivity|]). discriminate.
  - done.
  - done.
  - done.
  - unfold stack_ok. lia.
  - eexists. split; [exact H|]. by split.
Defined.
Lemma gdt_flush_loads_witness :
  exists s', run [] None Demo.im 10 Demo.calling = Some s' /\ x_cs s' = 8 /\ x_ss s' = 16 /\ x_eip s' = 150.
Proof.
  eexists. split; [apply (gdt_flush_loads [] None Demo.im (Demo.seg 200) 4096 Demo.calling)|by split].
  - intros k i Hk. repeat (destruct k as [|k]; [injection Hk as <-; split; vm_compute; reflexivity|]). discriminate.
  - done.
  - done.
  - done.
  - vm_compute. reflexivity.
Defined.
