(* ===== verification/RiscvTraps.v ===== *)
(** * The RISC-V port

    kernel/arch/riscv/: syscall.S, enter_user_mode.S, syscall_handler.c,
    init.c, interrupt_stub.c, and user/lib/syscall_riscv.S, on a 64-bit
    machine with the supervisor's control registers.  The machine names the
    thirteen registers the code touches; the callee-saved ones and the other
    temporaries are lists of their own.  Exceptions from user mode are
    delegated to supervisor mode. *)
From S2P Require Import Prelude Types Circular Ring Auditor Tasks Scheduler DomainGraph Security MemUtils BlockAlloc Crc Nng Ipc Channels Frames Mmu Syscall.

(** ** The processor *)

Definition RA : nat := 0.
Definition T0 : nat := 1.
Definition T1 : nat := 2.
Definition T2 : nat := 3.
Definition A0 : nat := 4.
Definition A1 : nat := 5.
Definition A2 : nat := 6.
Definition A3 : nat := 7.
Definition A4 : nat := 8.
Definition A5 : nat := 9.
Definition A6 : nat := 10.
Definition A7 : nat := 11.
Definition SPr : nat := 12.

Inductive rmode := U | S_.

(** [v_r] by the numbers above; [v_saved] is s0 to s11, gp and tp, [v_temps]
    t3 to t6. *)
Record rv := Rv {
  v_r : list Z; v_saved : list Z; v_temps : list Z; v_pc : Z; v_mode : rmode;
  v_sstatus : Z; v_sepc : Z; v_scause : Z; v_stvec : Z; v_mem : gmap Z Z
}.
Definition with_r r s := Rv r (v_saved s) (v_temps s) (v_pc s) (v_mode s) (v_sstatus s) (v_sepc s) (v_scause s) (v_stvec s) (v_mem s).
Definition with_pc a s := Rv (v_r s) (v_saved s) (v_temps s) a (v_mode s) (v_sstatus s) (v_sepc s) (v_scause s) (v_stvec s) (v_mem s).
Definition with_vmem m s := Rv (v_r s) (v_saved s) (v_temps s) (v_pc s) (v_mode s) (v_sstatus s) (v_sepc s) (v_scause s) (v_stvec s) m.
Definition with_csr st epc tv s := Rv (v_r s) (v_saved s) (v_temps s) (v_pc s) (v_mode s) st epc (v_scause s) tv (v_mem s).
Definition reg (r : nat) (s : rv) : Z := v_r s !!! r.
Definition set_r (r : nat) (v : Z) (s : rv) : rv := with_r (<[r := v]> (v_r s)) s.

(** Doublewords. *)
Definition ldd (m : gmap Z Z) (a : Z) : Z := default 0 (m !! u64 a).
Definition std (m : gmap Z Z) (a w : Z) : gmap Z Z := <[u64 a := w]> m.

(** The 32-bit words of an aligned doubleword; [stw0] clears one. *)
Definition ldw (m : gmap Z Z) (a : Z) : Z :=
  let w := ldd m (a / 8 * 8) in if a mod 8 =? 0 then w mod 4294967296 else w / 4294967296.
Definition stw0 (m : gmap Z Z) (a : Z) : gmap Z Z :=
  let w := ldd m (a / 8 * 8) in
  std m (a / 8 * 8) (if a mod 8 =? 0 then w / 4294967296 * 4294967296 else w mod 4294967296).

Inductive csr := Sstatus | Sepc | Scause | Stvec.
Inductive instr :=
  | Li (rd : nat) (imm : Z)               (* li, la *)
  | Mv (rd rs : nat)
  | Addi (rd rs : nat) (imm : Z)
  | Sd (rs : nat) (off : Z)               (* sd rs, off(sp) *)
  | Ld (rd : nat) (off : Z)               (* ld rd, off(sp) *)
  | Csrr (rd : nat) (c : csr)
  | Csrw (c : csr) (rs : nat)
  | Beq (ra rb : nat) (target : Z)
  | J (target : Z)
  | Call (target : Z)
  | Ret
  | Ecall
  | Sret
  | Sw0 (rb : nat)                        (* sw zero, 0(rb) *)
  | Wfi.

(** sstatus: SIE is bit 1, SPIE bit 5, SPP bit 8. *)
Definition SIE (w : Z) : bool := Z.testbit w 1.
Definition SPIE (w : Z) : bool := Z.testbit w 5.
Definition SPP (w : Z) : bool := Z.testbit w 8.
Definition status (sie spie spp : bool) (w : Z) : Z :=
  Z.lor (Z.ldiff w 290) (Z.lor (Z.b2z sie * 2) (Z.lor (Z.b2z spie * 32) (Z.b2z spp * 256))).

(** A trap into supervisor mode with cause [c]. *)
Definition trap (c : Z) (s : rv) : rv :=
  let w := v_sstatus s in
  let from_s := match v_mode s with U => false | S_ => true end in
  Rv (v_r s) (v_saved s) (v_temps s) (v_stvec s) S_ (status false (SIE w) from_s w) (v_pc s) c (v_stvec s) (v_mem s).
Definition sret (s : rv) : rv :=
  let w := v_sstatus s in
  Rv (v_r s) (v_saved s) (v_temps s) (v_sepc s) (if SPP w then S_ else U) (status (SPIE w) true false w)
    (v_sepc s) (v_scause s) (v_stvec s) (v_mem s).

Section Exec.
(** What the firmware does with an [ecall] from supervisor mode. *)
Context (sbi : rv -> option rv).

Definition exec (i : instr) (next : Z) (s : rv) : option rv :=
  let go s := Some (with_pc next s) in
  let privileged := match v_mode s with S_ => true | U => false end in
  match i with
  | Li rd imm => go (set_r rd imm s)
  | Mv rd rs => go (set_r rd (reg rs s) s)
  | Addi rd rs imm => go (set_r rd (u64 (reg rs s + imm)) s)
  | Sd rs off => go (with_vmem (std (v_mem s) (reg SPr s + off) (reg rs s)) s)
  | Ld rd off => go (set_r rd (ldd (v_mem s) (reg SPr s + off)) s)
  | Csrr rd c =>
      if privileged
      then go (set_r rd (match c with Sstatus => v_sstatus s | Sepc => v_sepc s | Scause => v_scause s | Stvec => v_stvec s end) s)
      else None
  | Csrw c rs =>
      let w := reg rs s in
      if privileged then
        match c with
        | Sstatus => go (with_csr w (v_sepc s) (v_stvec s) s)
        | Sepc => go (with_csr (v_sstatus s) w (v_stvec s) s)
        | Stvec => go (with_csr (v_sstatus s) (v_sepc s) w s)
        | Scause => None
        end
      else None
  | Beq ra rb t => Some (with_pc (if reg ra s =? reg rb s then t else next) s)
  | J t => Some (with_pc t s)
  | Call t => Some (with_pc t (set_r RA next s))
  | Ret => Some (with_pc (reg RA s) s)
  | Ecall => match v_mode s with U => Some (trap 8 s) | S_ => sbi s end
  | Sret => if privileged then Some (sret s) else None
  | Sw0 rb => if reg rb s mod 4 =? 0 then go (with_vmem (stw0 (v_mem s) (reg rb s)) s) else None  (* misaligned *)
  | Wfi => go s
  end.

Record image := Image { im_code : Z -> option (instr * Z); im_c : Z -> option (rv -> option rv) }.
Definition step (im : image) (s : rv) : option rv :=
  match im_c im (v_pc s) with
  | Some f => f s
  | None => '(i, next) ← im_code im (v_pc s); exec i next s
  end.
Fixpoint run (im : image) (n : nat) (s : rv) : option rv :=
  match n with O => Some s | S n => s' ← step im s; run im n s' end.
Definition code_at (im : image) (at_ : nat -> Z) (l : list instr) : Prop :=
  forall k i, l !! k = Some i -> im_code im (at_ k) = Some (i, at_ (S k)) /\ im_c im (at_ k) = None.
End Exec.

(** ** Programs *)

(** enter_user_mode.S *)
Definition enter_user_mode : list instr :=
  [Li T0 256; Csrw Sstatus T0; Csrw Sepc A0; Mv SPr A1; Sret].

(** syscall.S; [at_] are the addresses of its instructions, where
    [handle_syscall] is the 17th, [other_trap] and [trap_exit] the 31st. *)
Definition frame_regs : list nat := [RA; T0; T1; T2; A0; A1; A2; A3; A4; A5; A6; A7].
Definition trap_vector (at_ : nat -> Z) (handle_syscall_c_at : Z) : list instr :=
  [Addi SPr SPr (-256); Sd RA 0; Sd T0 8; Sd T1 16; Sd T2 24; Sd A0 32; Sd A1 40; Sd A2 48; Sd A3 56; Sd A4 64; Sd A5 72;
   Sd A6 80; Sd A7 88;
   Csrr T0 Scause; Li T1 8; Beq T0 T1 (at_ 17%nat); J (at_ 31%nat);
   Ld A7 88; Ld A0 32; Ld A1 40; Ld A2 48; Mv A3 A2; Mv A2 A1; Mv A1 A0; Mv A0 A7; Call handle_syscall_c_at;
   Sd A0 32; Csrr T0 Sepc; Addi T0 T0 4; Csrw Sepc T0; J (at_ 31%nat);
   Ld RA 0; Ld T0 8; Ld T1 16; Ld T2 24; Ld A0 32; Ld A1 40; Ld A2 48; Ld A3 56; Ld A4 64; Ld A5 72; Ld A6 80; Ld A7 88;
   Addi SPr SPr 256; Sret].
Definition init_syscall_riscv (trap_vector_at : Z) : list instr := [Li T0 trap_vector_at; Csrw Stvec T0; Ret].

(** user/lib/syscall_riscv.S *)
Definition user_syscall : list instr := [Mv A7 A0; Mv A0 A1; Mv A1 A2; Mv A2 A3; Ecall; Ret].
Definition user_syscall_n (n : Z) : list instr := [Li A7 n; Ecall; Ret].

(** ** C *)

(** syscall_handler.c: the arguments are cut to 32 bits. *)
Definition handle_syscall_c (rt : regions) (stacks local : Z) (maps : Z -> bool) (num arg1 arg2 arg3 : Z) (s : ksys)
    : option ksys :=
  syscall_handler rt stacks local maps num (u32 arg1) (u32 arg2) (u32 arg3) s.

(** init.c and interrupt_stub.c: no interrupt is ever registered, no level
    ever changes. *)
Definition init_riscv : Z := 1.
Definition irq_register_handler (irq fn cookie : Z) : Z := -1.
Definition irq_unregister_handler (irq : Z) : Z := -1.
Definition irq_eoi (irq : Z) : unit := tt.
Definition splraise (ipl : Z) : Z := 0.
Definition splx (prev : Z) : unit := tt.
Definition splhigh : Z := 0.
Definition splclock : Z := 0.
Definition spl0 : Z := 0.
Definition hw_get_jiffies : Z := 0.

(** ** The calling convention

    A function returns to [ra] with the stack pointer and the callee-saved
    registers; [top] bounds the stack above it. *)
Record c_call (top : Z) (s s' : rv) : Prop := {
  cc_len : length (v_r s') = 13%nat;
  cc_saved : v_saved s' = v_saved s;
  cc_sp : reg SPr s' = reg SPr s;
  cc_pc : v_pc s' = reg RA s;
  cc_mode : v_mode s' = v_mode s;
  cc_csr : v_sstatus s' = v_sstatus s /\ v_sepc s' = v_sepc s /\ v_stvec s' = v_stvec s;
  cc_stack : forall a, reg SPr s <= a < top -> v_mem s' !! a = v_mem s !! a
}.

(** ** Symbolic execution *)
#[local] Arguments with_r _ !s /.
#[local] Arguments with_pc _ !s /.
#[local] Arguments with_vmem _ !s /.
#[local] Arguments with_csr _ _ _ !s /.
#[local] Arguments reg !r !s /.
#[local] Arguments set_r !r _ !s /.
#[local] Arguments trap _ !s /.
#[local] Arguments sret !s /.
#[local] Arguments status : simpl never.
#[local] Arguments SIE : simpl never.
#[local] Arguments SPIE : simpl never.
#[local] Arguments SPP : simpl never.
#[local] Arguments u64 : simpl never.
#[local] Arguments ldd : simpl never.
#[local] Arguments std : simpl never.

Lemma rv_run_S sbi im n s : run sbi im (S n) s = step sbi im s ≫= run sbi im n.
Proof. done. Qed.
Lemma rv_run_code sbi im n s at_ l k i :
  code_at im at_ l -> l !! k = Some i -> v_pc s = at_ k ->
  run sbi im (S n) s = exec sbi i (at_ (S k)) s ≫= run sbi im n.
Proof. intros Hc Hl He. destruct (Hc k i Hl) as [Hi Hf]. rewrite rv_run_S. unfold step. by rewrite He, Hf, Hi. Qed.
Lemma rv_run_c sbi im n s f : im_c im (v_pc s) = Some f -> run sbi im (S n) s = f s ≫= run sbi im n.
Proof. intros Hf. rewrite rv_run_S. unfold step. by rewrite Hf. Qed.
#[local] Arguments run : simpl never.

Ltac vstep H k := rewrite (rv_run_code _ _ _ _ _ _ k _ H eq_refl) by reflexivity; cbn.

(** A frame of doublewords from [a] up. *)
Definition stored (m : gmap Z Z) (a : Z) (ws : list Z) : gmap Z Z :=
  foldl (fun m kw => std m (a + 8 * Z.of_nat kw.1) kw.2) m (zip (seq 0 (length ws)) ws).
#[local] Arguments stored : simpl never.

Lemma stored_snoc m a ws w : stored m a (ws ++ [w]) = std (stored m a ws) (a + 8 * Z.of_nat (length ws)) w.
Proof.
  unfold stored. rewrite length_app. cbn [length]. rewrite seq_app, zip_with_app by (by rewrite length_seq).
  by rewrite foldl_app.
Qed.

Lemma rv_length_13 (l : list Z) : length l = 13%nat ->
  exists a b c d e f g h i j k x y, l = [a; b; c; d; e; f; g; h; i; j; k; x; y].
Proof.
  intros Hl. do 13 (destruct l as [|? l]; [discriminate|]). destruct l; [|discriminate]. eauto 20.
Qed.

Definition fits (a : Z) (n : nat) : Prop := 0 <= a /\ a + 8 * Z.of_nat n <= 18446744073709551616.

Lemma stored_outside m a ws x :
  fits a (length ws) -> (x < a \/ a + 8 * Z.of_nat (length ws) <= x) -> stored m a ws !! x = m !! x.
Proof.
  unfold fits. induction ws as [|w ws IH] using rev_ind; intros Hf Hx; [done|].
  rewrite length_app in *. cbn [length] in *. rewrite stored_snoc. unfold std.
  rewrite lookup_insert_ne; [apply IH; lia|]. unfold u64. lia.
Qed.
Lemma stored_ld m a ws k :
  fits a (length ws) -> (k < length ws)%nat -> ldd (stored m a ws) (a + 8 * Z.of_nat k) = ws !!! k.
Proof.
  unfold fits. induction ws as [|w ws IH] using rev_ind; intros Hf Hk; [cbn in Hk; lia|].
  rewrite length_app in *. cbn [length] in *. rewrite stored_snoc. unfold ldd, std.
  destruct (decide (k = length ws)) as [->|Hne].
  - rewrite lookup_insert_eq, lookup_total_app_r by lia. by rewrite Nat.sub_diag.
  - rewrite lookup_insert_ne by (unfold u64; lia). rewrite lookup_total_app_l by lia. by apply IH; lia.
Qed.

(** A store right above the frame so far. *)
Ltac vstore H k :=
  vstep H k;
  match goal with
  | |- context [std (stored ?m ?a ?ws) ?x ?w] =>
      replace (std (stored m a ws) x w) with (stored m a (ws ++ [w]))
        by (rewrite stored_snoc; repeat f_equal; cbn; lia); cbn [app]
  end.

(** A load of the [i]th doubleword, [v], of the frame [L] describes. *)
Ltac vload H k L i d v := vstep H k; rewrite (L i d v) by first [lia|done].

(** *** The status register *)
Lemma status_bits sie spie spp w :
  SIE (status sie spie spp w) = sie /\ SPIE (status sie spie spp w) = spie /\ SPP (status sie spie spp w) = spp.
Proof.
  unfold SIE, SPIE, SPP, status. rewrite !Z.lor_spec, !Z.ldiff_spec.
  by destruct sie, spie, spp; cbn; rewrite !andb_false_r.
Qed.
Lemma SIE_status sie spie spp w : SIE (status sie spie spp w) = sie.
Proof. apply status_bits. Qed.
Lemma SPIE_status sie spie spp w : SPIE (status sie spie spp w) = spie.
Proof. apply status_bits. Qed.
Lemma SPP_status sie spie spp w : SPP (status sie spie spp w) = spp.
Proof. apply status_bits. Qed.

(** ** The trap vector *)
Section Vector.
Context (sbi : rv -> option rv) (im : image) (at_ : nat -> Z) (handler : Z).
Hypothesis (Hcode : code_at im at_ (trap_vector at_ handler)).

(** The trap frame: twelve doublewords from 256 bytes below the stack
    pointer that was current when the trap came. *)
Definition frame_at (s : rv) : Z := reg SPr s - 256.
Definition trap_frame (s : rv) : list Z := take 12 (v_r s).
Definition frame_ok (s : rv) : Prop := length (v_r s) = 13%nat /\ 256 <= reg SPr s < 18446744073709551616.

(** Saving, up to the branch on the cause. *)
Lemma vector_saves n r sv tp md st epc c m :
  frame_ok (Rv r sv tp (at_ 0%nat) md st epc c (at_ 0%nat) m) -> md = S_ ->
  run sbi im (15 + n) (Rv r sv tp (at_ 0%nat) md st epc c (at_ 0%nat) m) =
  run sbi im n
    (Rv (<[T1 := 8]> (<[T0 := c]> (<[SPr := r !!! SPr - 256]> r))) sv tp (at_ 15%nat) md st epc c (at_ 0%nat)
       (stored m (r !!! SPr - 256) (take 12 r))).
Proof.
  intros [Hl Hs] ->. cbn in Hl, Hs. destruct (rv_length_13 r Hl) as (r0&r1&r2&r3&r4&r5&r6&r7&r8&r9&ra&rb&sp&->).
  cbn in Hs. cbn [Nat.add]. vstep Hcode 0%nat.
  assert (Hsp : u64 (sp + -256) = sp - 256) by (unfold u64; lia). rewrite Hsp.
  change m with (stored m (sp - 256) []) at 1.
  vstore Hcode 1%nat. vstore Hcode 2%nat. vstore Hcode 3%nat. vstore Hcode 4%nat. vstore Hcode 5%nat. vstore Hcode 6%nat.
  vstore Hcode 7%nat. vstore Hcode 8%nat. vstore Hcode 9%nat. vstore Hcode 10%nat. vstore Hcode 11%nat. vstore Hcode 12%nat.
  vstep Hcode 13%nat. vstep Hcode 14%nat. done.
Qed.

(** Restoring from an intact frame, to the instruction in [sepc]. *)
Lemma vector_restores n r sv tp st epc c m sp ws :
  length r = 13%nat -> length ws = 12%nat -> r !!! SPr = sp - 256 -> 256 <= sp < 18446744073709551616 ->
  (forall k, (k < 12)%nat -> ldd m (sp - 256 + 8 * Z.of_nat k) = ws !!! k) ->
  run sbi im (14 + n) (Rv r sv tp (at_ 31%nat) S_ st epc c (at_ 0%nat) m) =
  run sbi im n (sret (Rv (ws ++ [sp]) sv tp (at_ 44%nat) S_ st epc c (at_ 0%nat) m)).
Proof.
  intros Hl Hw Hsp Hs Hld. destruct (rv_length_13 r Hl) as (r0&r1&r2&r3&r4&r5&r6&r7&r8&r9&ra&rb&q&->).
  cbn in Hsp. subst q. do 12 (destruct ws as [|? ws]; [discriminate|]). destruct ws; [|discriminate].
  assert (L : forall k d v, (k < 12)%nat -> d = 8 * Z.of_nat k -> [z; z0; z1; z2; z3; z4; z5; z6; z7; z8; z9; z10] !!! k = v ->
    ldd m (sp - 256 + d) = v) by (intros k d v Hk -> <-; by apply Hld).
  clear Hld. cbn [Nat.add].
  vload Hcode 31%nat L 0%nat 0 z. vload Hcode 32%nat L 1%nat 8 z0. vload Hcode 33%nat L 2%nat 16 z1.
  vload Hcode 34%nat L 3%nat 24 z2. vload Hcode 35%nat L 4%nat 32 z3. vload Hcode 36%nat L 5%nat 40 z4.
  vload Hcode 37%nat L 6%nat 48 z5. vload Hcode 38%nat L 7%nat 56 z6. vload Hcode 39%nat L 8%nat 64 z7.
  vload Hcode 40%nat L 9%nat 72 z8. vload Hcode 41%nat L 10%nat 80 z9. vload Hcode 42%nat L 11%nat 88 z10.
  vstep Hcode 43%nat. replace (u64 (sp - 256 + 256)) with sp by (unfold u64; lia). vstep Hcode 44%nat. done.
Qed.
End Vector.

(** ** Entering user mode *)

(** On RISC-V the user program runs in supervisor mode.
    [enter_user_mode] writes 0x100 to sstatus, which is SPP and not SPIE as
    its comment says: [sret] goes to the entry point on the given stack in
    supervisor mode with interrupts off, and the program's [ecall] never
    reaches the trap vector but goes to the firmware. *)
Theorem riscv_user_is_supervisor (sbi : rv -> option rv) (im : image) (at_ us : nat -> Z) (s : rv) :
  code_at im at_ enter_user_mode -> code_at im us user_syscall -> length (v_r s) = 13%nat -> v_pc s = at_ 0%nat ->
  v_mode s = S_ ->
  exists s', run sbi im 5 s = Some s' /\ v_pc s' = reg A0 s /\ reg SPr s' = reg A1 s /\
    v_mode s' = S_ /\ SIE (v_sstatus s') = false /\ v_mem s' = v_mem s /\
    (forall s2, v_pc s2 = us 4%nat -> v_mode s2 = S_ -> step sbi im s2 = sbi s2).
Proof.
  intros Hc Hus Hl Hpc Hm. destruct s as [r sv tp pc md st epc c tv m]. cbn in Hl, Hpc, Hm. subst pc md.
  destruct (rv_length_13 r Hl) as (r0&r1&r2&r3&r4&r5&r6&r7&r8&r9&ra&rb&q&->).
  eexists. split.
  { vstep Hc 0%nat. vstep Hc 1%nat. vstep Hc 2%nat. vstep Hc 3%nat. vstep Hc 4%nat. reflexivity. }
  cbn. split_and!; try done. intros s2 Hp2 Hm2. destruct (Hus 4%nat Ecall eq_refl) as [Hi Hf]. unfold step. rewrite Hp2, Hf, Hi. cbn. by rewrite Hm2.
Qed.

(** ** Traps that are not system calls *)

(** The same program state: what [other_trap] comes back with. *)
Definition same_program (s s' : rv) : Prop :=
  v_r s' = v_r s /\ v_saved s' = v_saved s /\ v_temps s' = v_temps s /\ v_pc s' = v_pc s /\ v_mode s' = v_mode s /\
  SIE (v_sstatus s') = SIE (v_sstatus s) /\ v_stvec s' = v_stvec s.

Lemma other_trap_returns sbi im at_ handler c s :
  code_at im at_ (trap_vector at_ handler) -> v_stvec s = at_ 0%nat -> frame_ok s -> c <> 8 ->
  exists s', run sbi im 31 (trap c s) = Some s' /\ same_program s s' /\
    v_mem s' = stored (v_mem s) (frame_at s) (trap_frame s).
Proof.
  intros Hc Hv [Hl Hs] Hne. destruct s as [r sv tp pc md st epc c0 tv m]. cbn in Hv, Hl, Hs. subst tv.
  unfold frame_at, trap_frame. cbn [trap v_r v_mem]. change 31%nat with (15 + 16)%nat.
  unfold trap. cbn [v_r v_saved v_temps v_stvec v_mode v_sstatus v_pc v_mem].
  rewrite (vector_saves sbi im at_ handler Hc) by done.
  destruct (rv_length_13 r Hl) as (r0&r1&r2&r3&r4&r5&r6&r7&r8&r9&ra&rb&q&->). cbn in Hs. cbn.
  vstep Hc 15%nat. rewrite (proj2 (Z.eqb_neq c 8) Hne). vstep Hc 16%nat.
  set (ws := [r0; r1; r2; r3; r4; r5; r6; r7; r8; r9; ra; rb]).
  rewrite (vector_restores sbi im at_ handler Hc 0 _ sv tp _ _ c (stored m (q - 256) ws) q ws);
    [|done|done|done|lia|intros k Hk; apply stored_ld; [split; cbn; lia|done]].
  eexists. split; [reflexivity|]. cbn. split; [|done].
  rewrite SPP_status. unfold same_program. cbn. rewrite SIE_status, SPIE_status. split_and!; try done. by destruct md.
Qed.

(** [n] traps one after the other. *)
Fixpoint trapped (sbi : rv -> option rv) (im : image) (c : Z) (n : nat) (s : rv) : option rv :=
  match n with O => Some s | S n => s' ← run sbi im 31 (trap c s); trapped sbi im c n s' end.

(** A fault on RISC-V is retried for ever.  Any trap but the system
    call returns to the instruction that trapped with every register, the
    mode and the interrupt enable as before, however often it happens; all
    the kernel did is write twelve registers below the program's own stack
    pointer, wherever that points. *)
Theorem riscv_fault_livelock (sbi : rv -> option rv) (im : image) (at_ : nat -> Z) (handler c : Z) (n : nat) (s : rv) :
  code_at im at_ (trap_vector at_ handler) -> v_stvec s = at_ 0%nat -> frame_ok s -> c <> 8 ->
  (exists s', trapped sbi im c n s = Some s' /\ same_program s s') /\
  (exists s', run sbi im 31 (trap c s) = Some s' /\
    forall k, (k < 12)%nat -> ldd (v_mem s') (reg SPr s - 256 + 8 * Z.of_nat k) = v_r s !!! k).
Proof.
  intros Hc Hv Hf Hne. split.
  - revert s Hv Hf. induction n as [|n IH]; intros s Hv Hf; [by exists s|].
    destruct (other_trap_returns sbi im at_ handler c s Hc Hv Hf Hne) as (s1 & Hr & Hs1 & _).
    pose proof Hs1 as (E1 & E2 & E3 & E4 & E5 & E6 & E7).
    destruct (IH s1) as (s2 & Hr2 & F1 & F2 & F3 & F4 & F5 & F6 & F7).
    + by rewrite E7.
    + unfold frame_ok, reg. by rewrite E1.
    + exists s2. cbn [trapped]. rewrite Hr. cbn. split; [done|]. unfold same_program. by split_and!; etransitivity.
  - destruct (other_trap_returns sbi im at_ handler c s Hc Hv Hf Hne) as (s1 & Hr & _ & Hm). exists s1. split; [done|].
    intros k Hk. rewrite Hm. destruct Hf as [Hl Hs].
    assert (Hlen : length (trap_frame s) = 12%nat) by (unfold trap_frame; rewrite length_take; lia).
    rewrite (stored_ld _ (frame_at s)); [|unfold fits, frame_at; rewrite Hlen; lia|lia].
    unfold trap_frame. by rewrite lookup_total_take_lt by lia.
Qed.

(** ** System calls from user mode *)

(** The user program in its library's [syscall(num, arg1, arg2, arg3)]. *)
Record call_ok (at_ us : nat -> Z) (s : rv) : Prop := {
  co_frame : frame_ok s;
  co_pc : v_pc s = us 0%nat;
  co_mode : v_mode s = U;
  co_vec : v_stvec s = at_ 0%nat
}.

(** The registers at the [ecall]: number in a7, arguments in a0 to a2. *)
Definition call_regs (r : list Z) : list Z :=
  <[A2 := r !!! A3]> (<[A1 := r !!! A2]> (<[A0 := r !!! A1]> (<[A7 := r !!! A0]> r))).

(** The state at the call of [handle_syscall_c]. *)
Definition syscall_call_state (at_ us : nat -> Z) (handler : Z) (s : rv) : rv :=
  let r := v_r s in
  let sp := r !!! SPr - 256 in
  Rv [at_ 26%nat; 8; 8; r !!! T2; r !!! A0; r !!! A1; r !!! A2; r !!! A3; r !!! A4; r !!! A5; r !!! A6; r !!! A0; sp]
    (v_saved s) (v_temps s) handler S_ (status false (SIE (v_sstatus s)) false (v_sstatus s)) (us 4%nat) 8 (at_ 0%nat)
    (stored (v_mem s) sp (take 12 (call_regs r))).

(** The state after the call: a0 is the handler's, the arguments stay
    shifted, t3 to t6 are whatever the handler left. *)
Definition syscall_returned (at_ : nat -> Z) (s s_h : rv) : rv :=
  let r := v_r s in
  let st := status false (SIE (v_sstatus s)) false (v_sstatus s) in
  Rv (<[A0 := reg A0 s_h]> (call_regs r)) (v_saved s) (v_temps s_h) (r !!! RA) U (status (SIE (v_sstatus s)) true false st)
    (v_sepc s_h + 4) (v_scause s_h) (at_ 0%nat) (std (v_mem s_h) (r !!! SPr - 256 + 32) (reg A0 s_h)).

Section Syscall.
Context (sbi : rv -> option rv) (im : image) (at_ us : nat -> Z) (handler : Z).
Hypothesis (Hcode : code_at im at_ (trap_vector at_ handler)).
Hypothesis (Hus : code_at im us user_syscall).

Lemma rv_syscall_to_handler n s :
  call_ok at_ us s -> run sbi im (30 + n) s = run sbi im n (syscall_call_state at_ us handler s).
Proof.
  intros [[Hl Hs] Hpc Hm Hv]. destruct s as [r sv tp pc md st epc c tv m]. cbn in Hl, Hs, Hpc, Hm, Hv. subst pc md tv.
  destruct (rv_length_13 r Hl) as (r0&r1&r2&r3&r4&r5&r6&r7&r8&r9&ra&rb&q&->). cbn in Hs. unfold syscall_call_state, call_regs. cbn [Nat.add].
  vstep Hus 0%nat. vstep Hus 1%nat. vstep Hus 2%nat. vstep Hus 3%nat. vstep Hus 4%nat.
  set (ws := [r0; r1; r2; r3; r5; r6; r7; r7; r8; r9; ra; r4]).
  let k := eval cbn in (25 + n)%nat in change k with (15 + (10 + n))%nat.
  rewrite (vector_saves sbi im at_ handler Hcode); [|by split|done]. cbn. fold ws.
  assert (L : forall k d v, (k < 12)%nat -> d = 8 * Z.of_nat k -> ws !!! k = v -> ldd (stored m (q - 256) ws) (q - 256 + d) = v).
  { intros k d v Hk -> <-. apply stored_ld; [split; cbn; lia|done]. }
  vstep Hcode 15%nat. vload Hcode 17%nat L 11%nat 88 r4. vload Hcode 18%nat L 4%nat 32 r5.
  vload Hcode 19%nat L 5%nat 40 r6. vload Hcode 20%nat L 6%nat 48 r7.
  vstep Hcode 21%nat. vstep Hcode 22%nat. vstep Hcode 23%nat. vstep Hcode 24%nat. vstep Hcode 25%nat. done.
Qed.

Lemma rv_syscall_from_handler s s_h :
  call_ok at_ us s -> c_call (reg SPr s) (syscall_call_state at_ us handler s) s_h ->
  us 5%nat = us 4%nat + 4 -> 0 <= us 4%nat < 18446744073709551612 ->
  run sbi im 20 s_h = Some (syscall_returned at_ s s_h).
Proof.
  intros [[Hl Hs] Hpc Hm Hv] [Hl' Hsv Hsp Hpc' Hmd (Hst & Hepc & Htv) Hmem] H45 Hus4.
  destruct s as [r sv tp pc md st epc c tv m]. destruct s_h as [r' sv' tp' pc' md' st' epc' c' tv' m'].
  cbn in Hl, Hs, Hpc, Hm, Hv, Hl', Hsv, Hsp, Hpc', Hmd, Hst, Hepc, Htv, Hmem. subst.
  destruct (rv_length_13 r Hl) as (r0&r1&r2&r3&r4&r5&r6&r7&r8&r9&ra&rb&q&->). cbn in Hs, Hsp, Hmem.
  destruct (rv_length_13 r' Hl') as (p0&p1&p2&p3&p4&p5&p6&p7&p8&p9&pa&pb&pq&->). cbn in Hsp. subst pq.
  unfold syscall_returned, call_regs. cbn.
  set (ws := [r0; r1; r2; r3; r5; r6; r7; r7; r8; r9; ra; r4]) in *.
  assert (L : forall k, (k < 12)%nat -> ldd m' (q - 256 + 8 * Z.of_nat k) = ws !!! k).
  { intros k Hk. rewrite <-(stored_ld m (q - 256) ws k) by first [split; cbn; lia|done].
    unfold ldd, u64. f_equal. rewrite Z.mod_small by lia. apply Hmem. lia. }
  vstep Hcode 26%nat. vstep Hcode 27%nat. vstep Hcode 28%nat. vstep Hcode 29%nat. vstep Hcode 30%nat.
  replace (u64 (us 4%nat + 4)) with (us 5%nat) by (unfold u64; lia).
  set (m2 := std m' (q - 256 + 32) p4).
  change 15%nat with (14 + 1)%nat.
  rewrite (vector_restores sbi im at_ handler Hcode 1 _ sv tp' _ _ c' m2 q [r0; r1; r2; r3; p4; r6; r7; r7; r8; r9; ra; r4]);
    [|done|done|done|lia|].
  2: { intros k Hk. unfold m2, ldd, std. destruct (decide (k = 4%nat)) as [->|Hne].
       - by rewrite lookup_insert_eq.
       - rewrite lookup_insert_ne by (unfold u64; lia). fold (ldd m' (q - 256 + 8 * Z.of_nat k)). rewrite L by lia.
         by do 12 (destruct k as [|k]; [done|]). }
  cbn. rewrite SPP_status, SPIE_status. vstep Hus 5%nat. by rewrite <-H45.
Qed.
End Syscall.

(** A RISC-V system call from user mode reaches the handler and brings
    its result back.  [handle_syscall_c] is entered in supervisor mode with
    number and arguments in a0 to a3; when it returns within the calling
    convention, the program goes on after the call in user mode with the
    handler's a0, its stack pointer, its callee-saved registers and the
    interrupt enable as before. *)
Theorem riscv_syscall_round_trip (sbi : rv -> option rv) (im : image) (at_ us : nat -> Z) (handler : Z)
    (f : rv -> option rv) (s s_h : rv) :
  code_at im at_ (trap_vector at_ handler) -> code_at im us user_syscall -> im_c im handler = Some f ->
  call_ok at_ us s -> us 5%nat = us 4%nat + 4 -> 0 <= us 4%nat < 18446744073709551612 ->
  let s_in := syscall_call_state at_ us handler s in
  run sbi im 30 s = Some s_in /\ v_mode s_in = S_ /\ SIE (v_sstatus s_in) = false /\
  [reg A0 s_in; reg A1 s_in; reg A2 s_in; reg A3 s_in] = [reg A0 s; reg A1 s; reg A2 s; reg A3 s] /\
  (f s_in = Some s_h -> c_call (reg SPr s) s_in s_h ->
   exists s', run sbi im 51 s = Some s' /\ v_pc s' = reg RA s /\ v_mode s' = U /\ reg A0 s' = reg A0 s_h /\
     reg SPr s' = reg SPr s /\ v_saved s' = v_saved s /\ SIE (v_sstatus s') = SIE (v_sstatus s)).
Proof.
  intros Hc Hus Hf Hok H45 Hus4 s_in. pose proof (rv_syscall_to_handler sbi im at_ us handler Hc Hus) as Hto.
  split; [exact (Hto 0%nat s Hok)|]. split; [done|]. split; [apply SIE_status|]. split; [done|].
  intros Hrun Hcall. exists (syscall_returned at_ s s_h). split.
  - change 51%nat with (30 + 21)%nat. rewrite Hto by done. rewrite (rv_run_c _ _ _ _ f) by done. fold s_in. rewrite Hrun.
    cbn [mbind option_bind]. by apply (rv_syscall_from_handler sbi im at_ us handler Hc Hus).
  - destruct Hok as [[Hl _] _ _ _]. destruct s as [r sv tp pc md st epc c tv m]. cbn in Hl.
    destruct (rv_length_13 r Hl) as (r0&r1&r2&r3&r4&r5&r6&r7&r8&r9&ra&rb&q&->).
    unfold syscall_returned, call_regs. cbn. by rewrite SIE_status.
Qed.

(** ** A linked image to try the theorems on *)
Module Demo.
(** Instructions of four bytes. *)
Definition seg (base : Z) (k : nat) : Z := base + 4 * Z.of_nat k.
Definition segments : list (Z * list instr) :=
  [(4096, trap_vector (seg 4096) 65536); (8192, enter_user_mode); (4194304, user_syscall)].
Definition code (a : Z) : option (instr * Z) :=
  head (omap (fun bl => if bl.1 <=? a then i ← bl.2 !! Z.to_nat ((a - bl.1) / 4); Some (i, a + 4) else None) segments).
(** A C function that returns 42. *)
Definition c_return (s : rv) : rv := with_pc (reg RA s) (set_r A0 42 s).
Definition im : image := Image code (fun a => if a =? 65536 then Some (fun s => Some (c_return s)) else None).
Definition no_sbi (s : rv) : option rv := None.
Definition cpu (pc : Z) (md : rmode) : rv :=
  Rv [1; 2; 3; 4; 5; 11; 12; 13; 9; 10; 14; 15; 8388608] [] [] pc md 2 0 0 4096 ∅.
Definition kernel : rv := Rv [1; 2; 3; 4; 4194304; 8388608; 12; 13; 9; 10; 14; 15; 65536] [] [] 8192 S_ 0 0 0 4096 ∅.

Ltac linked :=
  intros k i Hk;
  repeat (destruct k as [|k]; [injection Hk as <-; split; vm_compute; reflexivity|]); discriminate.
End Demo.

Lemma riscv_user_is_supervisor_witness :
  exists s', run Demo.no_sbi Demo.im 5 Demo.kernel = Some s' /\ v_pc s' = 4194304 /\ v_mode s' = S_.
Proof.
  destruct (riscv_user_is_supervisor Demo.no_sbi Demo.im (Demo.seg 8192) (Demo.seg 4194304) Demo.kernel)
    as (s' & Hr & Hp & _ & Hm & _).
  - Demo.linked.
  - Demo.linked.
  - done.
  - done.
  - done.
  - exact (ex_intro _ s' (conj Hr (conj Hp Hm))).
Defined.

Lemma riscv_fault_livelock_witness :
  exists s', trapped Demo.no_sbi Demo.im 5 3 (Demo.cpu 4194400 U) = Some s' /\ same_program (Demo.cpu 4194400 U) s'.
Proof.
  destruct (riscv_fault_livelock Demo.no_sbi Demo.im (Demo.seg 4096) 65536 5 3 (Demo.cpu 4194400 U)) as [(s' & Hr & Hs) _].
  - Demo.linked.
  - done.
  - split; [done|cbn; lia].
  - lia.
  - exact (ex_intro _ s' (conj Hr Hs)).
Defined.

Lemma riscv_syscall_round_trip_witness :
  exists s', run Demo.no_sbi Demo.im 51 (Demo.cpu 4194304 U) = Some s' /\ v_pc s' = 1 /\ v_mode s' = U /\ reg A0 s' = 42.
Proof.
  destruct (riscv_syscall_round_trip Demo.no_sbi Demo.im (Demo.seg 4096) (Demo.seg 4194304) 65536
    (fun s => Some (Demo.c_return s)) (Demo.cpu 4194304 U)
    (Demo.c_return (syscall_call_state (Demo.seg 4096) (Demo.seg 4194304) 65536 (Demo.cpu 4194304 U)))) as (_ & _ & _ & _ & H).
  - Demo.linked.
  - Demo.linked.
  - done.
  - split; [split; [done|cbn; lia]|done|done|done].
  - done.
  - unfold Demo.seg. lia.
  - destruct H as (s' & Hr & Hp & Hm & Ha & _); [done|by split|].
    exact (ex_intro _ s' (conj Hr (conj Hp (conj Hm Ha)))).
Defined.
