(* ===== verification/RiscvBoot.v ===== *)
(** * RISC-V start-up: arch/riscv/boot_riscv.S

    On the machine of [RiscvTraps]; the linker script's [_stack_top],
    [__bss_start] and [__bss_end] are arguments. *)
From S2P Require Import Prelude RiscvTraps.

(** The loop is at the fourth instruction, [2:] is the eighth, [3:] the tenth. *)
Definition start (at_ : nat -> Z) (stack_top bss_start bss_end early_debug_at kmain_at : Z) : list instr :=
  [Li SPr stack_top; Li T0 bss_start; Li T1 bss_end;
   Beq T0 T1 (at_ 7%nat); Sw0 T0; Addi T0 T0 4; J (at_ 3%nat);
   Call early_debug_at; Call kmain_at; Wfi; J (at_ 9%nat)].

#[local] Arguments with_r _ !s /.
#[local] Arguments with_pc _ !s /.
#[local] Arguments with_vmem _ !s /.
#[local] Arguments reg !r !s /.
#[local] Arguments set_r !r _ !s /.
#[local] Arguments u64 : simpl never.
#[local] Arguments stw0 : simpl never.
#[local] Arguments ldw : simpl never.
#[local] Arguments run : simpl never.
#[local] Arguments Z.mul : simpl never.

(** ** Clearing words *)

(** An address range of the machine, on word boundaries. *)
Definition word_range (a : Z) (n : nat) : Prop := a mod 4 = 0 /\ 0 <= a /\ a + 4 * Z.of_nat n < 18446744073709551616.
(** Doublewords hold 64 bits. *)
Definition dwords_ok (m : gmap Z Z) : Prop := forall a, 0 <= ldd m a < 18446744073709551616.

Lemma ldd_std m a w b : ldd (std m a w) b = if u64 a =? u64 b then w else ldd m b.
Proof.
  unfold ldd, std. destruct (Z.eqb_spec (u64 a) (u64 b)) as [->|Hne]; [by rewrite lookup_insert_eq|].
  by rewrite lookup_insert_ne.
Qed.

Lemma stw0_word m a b :
  dwords_ok m -> word_range a 0 -> word_range b 0 -> ldw (stw0 m a) b = if a =? b then 0 else ldw m b.
Proof.
  intros Hm [Ha Hra] [Hb Hrb]. unfold ldw, stw0. rewrite ldd_std.
  rewrite (u64_id (a / 8 * 8)), (u64_id (b / 8 * 8)) by lia.
  pose proof (Hm (b / 8 * 8)) as Hw.
  destruct (Z.eqb_spec (a / 8 * 8) (b / 8 * 8)) as [He|He].
  - rewrite He. set (w := ldd m (b / 8 * 8)) in *. clearbody w.
    destruct (Z.eqb_spec (a mod 8) 0), (Z.eqb_spec (b mod 8) 0), (Z.eqb_spec a b); lia.
  - destruct (Z.eqb_spec a b); [by subst|done].
Qed.
Lemma stw0_ok m a : dwords_ok m -> word_range a 0 -> dwords_ok (stw0 m a).
Proof.
  intros Hm _ b. unfold stw0. rewrite ldd_std. pose proof (Hm (a / 8 * 8)). destruct (_ =? _); [|apply Hm].
  destruct (_ =? 0); lia.
Qed.

(** The memory after [n] rounds of the loop. *)
Fixpoint cleared (m : gmap Z Z) (a : Z) (n : nat) : gmap Z Z :=
  match n with O => m | S n => cleared (stw0 m a) (a + 4) n end.
Lemma cleared_word n m a b :
  dwords_ok m -> word_range a n -> word_range b 0 ->
  ldw (cleared m a n) b = if decide (a <= b < a + 4 * Z.of_nat n) then 0 else ldw m b.
Proof.
  revert m a. induction n as [|n IH]; intros m a Hm Ha Hb; [by rewrite decide_False by lia|].
  assert (Ha0 : word_range a 0) by (unfold word_range in *; lia). cbn [cleared].
  rewrite IH by first [by apply stw0_ok|unfold word_range in *; lia|done]. rewrite stw0_word by done.
  destruct Ha as [Ha _], Hb as [Hb _]. destruct (Z.eqb_spec a b) as [->|Hne]; repeat case_decide; try done; lia.
Qed.

(** ** The boot code *)
Section Boot.
Context (sbi : rv -> option rv) (im : image) (at_ : nat -> Z) (stack_top bss_start bss_end early_debug_at kmain_at : Z).
Hypothesis (Hcode : code_at im at_ (start at_ stack_top bss_start bss_end early_debug_at kmain_at)).

(** At instruction [k], the stack pointer and the loop's registers set. *)
Definition boot_state (k : nat) (t0 : Z) (m : gmap Z Z) (s : rv) : rv :=
  with_pc (at_ k) (with_vmem m (with_r (<[T1 := bss_end]> (<[T0 := t0]> (<[SPr := stack_top]> (v_r s)))) s)).

Lemma boot_setup n s :
  length (v_r s) = 13%nat -> v_pc s = at_ 0%nat ->
  run sbi im (3 + n) s = run sbi im n (boot_state 3 bss_start (v_mem s) s).
Proof.
  intros Hl Hp. destruct s as [r sv tp pc md st epc c tv m]. cbn in Hl, Hp. subst pc.
  cbn [Nat.add]. vstep Hcode 0%nat. vstep Hcode 1%nat. vstep Hcode 2%nat. done.
Qed.

Lemma boot_round n t0 m s :
  length (v_r s) = 13%nat -> t0 mod 4 = 0 -> t0 <> bss_end ->
  run sbi im (4 + n) (boot_state 3 t0 m s) = run sbi im n (boot_state 3 (u64 (t0 + 4)) (stw0 m t0) s).
Proof.
  intros Hl Ht Hne. destruct s as [r sv tp pc md st epc c tv m0]. cbn in Hl.
  destruct (rv_length_13 r Hl) as (r0&r1&r2&r3&r4&r5&r6&r7&r8&r9&ra&rb&sp&->). unfold boot_state. cbn [Nat.add].
  vstep Hcode 3%nat. rewrite (proj2 (Z.eqb_neq _ _) Hne). vstep Hcode 4%nat. rewrite Ht. cbn.
  vstep Hcode 5%nat. vstep Hcode 6%nat. done.
Qed.

Lemma boot_rounds j n t0 m s :
  length (v_r s) = 13%nat -> word_range t0 j -> bss_end = t0 + 4 * Z.of_nat j ->
  run sbi im (4 * j + n) (boot_state 3 t0 m s) = run sbi im n (boot_state 3 bss_end (cleared m t0 j) s).
Proof.
  intros Hl. revert t0 m. induction j as [|j IH]; intros t0 m Hr He.
  { cbn [cleared]. replace t0 with bss_end by lia. done. }
  replace (4 * S j + n)%nat with (4 + (4 * j + n))%nat by lia. unfold word_range in *.
  rewrite boot_round by first [done|lia]. rewrite u64_id by lia. cbn [cleared]. apply IH; lia.
Qed.

(** The loop misses an end that is not a whole number of words away. *)
Lemma boot_loops n k t0 m s :
  length (v_r s) = 13%nat -> t0 mod 4 = 0 -> bss_end mod 4 <> 0 -> (3 <= k <= 6)%nat ->
  exists t0' m' k', run sbi im n (boot_state k t0 m s) = Some (boot_state k' t0' m' s) /\ t0' mod 4 = 0 /\ (3 <= k' <= 6)%nat.
Proof.
  intros Hl. revert k t0 m. induction n as [|n IH]; intros k t0 m Ht He Hk; [by exists t0, m, k|].
  assert (Hne : (t0 =? bss_end) = false) by (apply Z.eqb_neq; congruence).
  assert (H4 : u64 (t0 + 4) mod 4 = 0) by (unfold u64; lia).
  destruct s as [r sv tp pc md st epc c tv m0]. cbn in Hl.
  destruct (rv_length_13 r Hl) as (r0&r1&r2&r3&r4&r5&r6&r7&r8&r9&ra&rb&sp&->).
  assert (k = 3 \/ k = 4 \/ k = 5 \/ k = 6)%nat as [->|[->|[->| ->]]] by lia; unfold boot_state in *; cbn in IH; cbn.
  - vstep Hcode 3%nat. rewrite Hne. apply (IH 4%nat); [done|done|lia].
  - vstep Hcode 4%nat. rewrite Ht. cbn. apply (IH 5%nat); [done|done|lia].
  - vstep Hcode 5%nat. apply (IH 6%nat); [done|done|lia].
  - vstep Hcode 6%nat. apply (IH 3%nat); [done|done|lia].
Qed.
End Boot.

(** The BSS loop of the RISC-V boot code.  It compares for equality and
    advances by four bytes.  When the BSS is a whole number of words, every word
    of it is cleared, no other word changes, and the early debug routine is
    called on the boot stack; [kmain] follows when that returns.  When it is not,
    the loop steps over the end and never leaves: the kernel does not
    start, and memory above the BSS, the boot stack first, is wiped.  The
    linker script aligns the start of the section and not its end. *)
Theorem riscv_bss_loop (sbi : rv -> option rv) (im : image) (at_ : nat -> Z)
    (stack_top bss_start bss_end early_debug_at kmain_at : Z) (s : rv) :
  code_at im at_ (start at_ stack_top bss_start bss_end early_debug_at kmain_at) ->
  length (v_r s) = 13%nat -> v_pc s = at_ 0%nat -> dwords_ok (v_mem s) ->
  bss_start mod 4096 = 0 -> 0 <= bss_start <= bss_end -> bss_end < 18446744073709551616 ->
  (bss_end mod 4 = 0 ->
   exists k s', run sbi im k s = Some s' /\ v_pc s' = early_debug_at /\ reg RA s' = at_ 8%nat /\ reg SPr s' = stack_top /\
     (forall a, word_range a 0 -> ldw (v_mem s') a = if decide (bss_start <= a < bss_end) then 0 else ldw (v_mem s) a) /\
     forall top s1, c_call top s' s1 ->
       exists s2, run sbi im 1 s1 = Some s2 /\ v_pc s2 = kmain_at /\ reg RA s2 = at_ 9%nat /\ reg SPr s2 = stack_top) /\
  (bss_end mod 4 <> 0 ->
   forall n, exists s' k, run sbi im n s = Some s' /\ v_pc s' = at_ k /\ (k < 7)%nat).
Proof.
  intros Hc Hl Hp Hm Hs Hr He. split.
  - intros H4. set (n := Z.to_nat ((bss_end - bss_start) / 4)).
    assert (Hn : bss_end = bss_start + 4 * Z.of_nat n) by lia. assert (Hw : word_range bss_start n) by (unfold word_range; lia).
    pose proof (boot_setup sbi im at_ _ _ _ _ _ Hc (4 * n + 2) s Hl Hp) as H1.
    rewrite (boot_rounds sbi im at_ _ _ _ _ _ Hc n 2 bss_start (v_mem s) s Hl Hw Hn) in H1.
    exists (3 + (4 * n + 2))%nat. rewrite H1. clear H1.
    destruct s as [r sv tp pc md st epc c tv m]. cbn in Hl, Hm.
    destruct (rv_length_13 r Hl) as (r0&r1&r2&r3&r4&r5&r6&r7&r8&r9&ra&rb&sp&->). unfold boot_state.
    vstep Hc 3%nat. rewrite Z.eqb_refl. vstep Hc 7%nat. eexists. split; [reflexivity|]. cbn.
    split; [done|]. split; [done|]. split; [done|]. split.
    + intros a Ha. rewrite cleared_word by done. by rewrite Hn.
    + intros top s1 Hcc. destruct Hcc as [Hl1 _ Hsp Hpc _ _ _]. destruct s1 as [r' sv' tp' pc' md' st' epc' c' tv' m']. cbn in *.
      subst pc'. destruct (rv_length_13 r' Hl1) as (x0&x1&x2&x3&x4&x5&x6&x7&x8&x9&xa&xb&xsp&->). cbn in Hsp. subst xsp.
      vstep Hc 8%nat. eexists. split; [reflexivity|]. by split.
  - intros H4 n. destruct (decide (n < 3)%nat) as [Hn|Hn].
    + destruct s as [r sv tp pc md st epc c tv m]. cbn in Hp. subst pc.
      destruct n as [|[|[|n]]]; [..|lia].
      * eexists _, 0%nat. split; [reflexivity|]. split; [done|lia].
      * vstep Hc 0%nat. eexists _, 1%nat. split; [reflexivity|]. split; [done|lia].
      * vstep Hc 0%nat. vstep Hc 1%nat. eexists _, 2%nat. split; [reflexivity|]. split; [done|lia].
    + replace n with (3 + (n - 3))%nat by lia. rewrite (boot_setup sbi im at_ _ _ _ _ _ Hc (n - 3) s Hl Hp).
      destruct (boot_loops sbi im at_ _ _ _ _ _ Hc (n - 3) 3 bss_start (v_mem s) s Hl ltac:(lia) H4 ltac:(lia))
        as (t0 & m' & k & Hrun & _ & Hk).
      exists (boot_state at_ stack_top bss_end k t0 m' s), k. split; [exact Hrun|]. split; [by destruct s|lia].
Qed.

(** Nine bytes of BSS, one too many. *)
Module Demo.
Definition seg (k : nat) : Z := 100 + Z.of_nat k.
Definition prog (bss_end : Z) : list instr := start seg 32768 4096 bss_end 500 600.
Definition im (bss_end : Z) : image :=
  Image (fun a => i ← prog bss_end !! Z.to_nat (a - 100); Some (i, a + 1)) (fun _ => None).
Definition reset : rv := Rv (replicate 13 0) [] [] 100 S_ 0 0 0 0 (std ∅ 4096 (2 ^ 64 - 1)).
Lemma reset_ok : dwords_ok (v_mem reset).
Proof.
  intros a. change (v_mem reset) with (std ∅ 4096 (2 ^ 64 - 1)). rewrite ldd_std. destruct (_ =? _); [lia|].
  unfold ldd. rewrite lookup_empty. cbn. lia.
Qed.
Lemma linked bss_end : code_at (im bss_end) seg (prog bss_end).
Proof. intros k i Hk. repeat (destruct k as [|k]; [injection Hk as <-; split; reflexivity|]). discriminate. Qed.
End Demo.

Lemma riscv_bss_loop_witness :
  (exists k s', run (fun _ => None) (Demo.im 4104) k Demo.reset = Some s' /\ v_pc s' = 500 /\ ldw (v_mem s') 4100 = 0) /\
  (forall n, exists s' k, run (fun _ => None) (Demo.im 4105) n Demo.reset = Some s' /\ v_pc s' = Demo.seg k /\ (k < 7)%nat).
Proof.
  split.
  - destruct (riscv_bss_loop (fun _ => None) (Demo.im 4104) Demo.seg 32768 4096 4104 500 600 Demo.reset (Demo.linked _)
      eq_refl eq_refl Demo.reset_ok eq_refl ltac:(lia) ltac:(lia)) as [H _].
    destruct (H eq_refl) as (k & s' & Hr & Hp & _ & _ & Hw & _). exists k, s'. split; [exact Hr|]. split; [exact Hp|].
    rewrite (Hw 4100 ltac:(unfold word_range; lia)). by rewrite decide_True by lia.
  - destruct (riscv_bss_loop (fun _ => None) (Demo.im 4105) Demo.seg 32768 4096 4105 500 600 Demo.reset (Demo.linked _)
      eq_refl eq_refl Demo.reset_ok eq_refl ltac:(lia) ltac:(lia)) as [_ H].
    exact (H ltac:(discriminate)).
Defined.
